(* ===== verification/_CoqProject ===== *)
-Q . S2P
Prelude.v
Codec.v
JsVal.v
Json.v
Runtime.v
Forms.v
ConsoleTypes.v
ConsoleService.v
ConsoleRoutes.v
Session.v
LayergPortal.v
Guards.v
Router.v
Frame.v
Application.v
RowDeletion.v
Searches.v
Accounts.v
Lists.v
AccountPage.v
AccountTabs.v
SearchForms.v
GroupPage.v
StorageObject.v
Viewers.v
Chat.v
Matches.v
Status.v
Config.v
DeletionForms.v
ApiExplorer.v
ImageUpload.v
Collections.v
Recreation.v
ListSpec.v
OpenLists.v
Settling.v
Paging.v
DeletionOrder.v
Departure.v
Collectibles.v
FormTypes.v
Interfaces.v
CollectionPage.v
Dialogs.v
Calls.v
Resolvers.v
Console.v
ConsolePages.v
