(* ===== verification/Prelude.v ===== *)
(** * The console of the LayerG server: a verification library

    The repository is a game server written in Go with a web console, an Angular
    application in TypeScript under [src/console/ui/src/app].  This library models the
    console: what each of its services and pages keeps, what its handlers do, and which
    requests it sends.  Paths below are relative to that directory.

    ** How the program is put together

    Pages ([*.component.ts]) are components with fields; the user's actions, the router's
    data and the answers of the server run their methods.  Pages call
    [ConsoleService] ([console.service.ts]), which turns a call into an HTTP request to
    the server, and the collections call [LayergPortalService]
    ([layergPortal.service.ts]), which does so for the hub portal.  Every request passes
    [SessionInterceptor] ([session.interceptor.ts]) and [AuthenticationErrorInterceptor]
    ([authentication-error.interceptor.ts]), which use the session of
    [AuthenticationService] ([authentication.service.ts]); the routes
    ([app-routing.module.ts]) and their guards decide which page a URL shows.

    ** The files, in order

    - [Prelude]: optional values, arrays with holes, record update, shared lemmas.
    - [Codec], [JsVal], [Json]: what the source uses of the language's own library, written
      out: UTF-8, [encodeURIComponent], [btoa] and [atob]; numbers, [Number], [String],
      truthiness and dynamic values; [JSON.parse] and [JSON.stringify] with their round
      trip.  They model no code of the repository by themselves.
    - [Runtime]: requests, the monad of handlers (state, commands in order, exceptions), the
      class [Component] of a page (its events, its callbacks, its dialogs) and the machine
      that runs a page: [exec] takes one action of the user or of the server, [reachable]
      and [reachable_handlers] are the invariants by induction on its runs.
    - [Forms]: what the forms rely on of the validators of [@angular/forms], as a class.
    - [ConsoleTypes], [ConsoleService]: [console.service.ts], interface by interface and
      method by method; [ConsoleRoutes]: the requests against the routes of the server
      ([console.proto]).
    - [Session]: [authentication.service.ts] and the two interceptors, with the life of the
      application as a step relation.  [LayergPortal]: [layergPortal.service.ts].
    - [Guards]: routes, guards and sidebar.  [Router]: navigation from the page that is
      shown, where only the routes that change are checked, and addresses as texts.
      [Frame]: [base/], [login/], [shared/delete-confirm*] and [app.module.ts].
      [Application]: the session, the router and the login page as one step relation: what
      is on the screen while sign-ins, sign-outs and failed requests come and go
      ([authentication-error.interceptor.ts], [authentication.guard.ts]).
    - [RowDeletion], [Searches]: two contracts between pages and the machine, a list whose
      rows are deleted by position and a list whose searches cancel each other; what they
      promise is proved once for all pages that are instances of them.
    - [Accounts]: [accounts/].  [Lists]: [storage/], [groups/], [leaderboards/],
      [leaderboard/], [users/].  [AccountPage] and [AccountTabs]: [account/].
      [SearchForms]: [purchases/], [subscriptions/], [notifications/].
      [GroupPage]: [group/].  [StorageObject]: [storage-object/].  [Viewers]: the JSON
      editors of these pages, [runtime/], [leaderboard/details/].  [Chat]: [channels/].
      [Matches]: [matches/].  [Status]: [status/].  [Config]: [config/].
      [DeletionForms]: the deletions of all data and of old messages with their dialog and
      its form.  [ApiExplorer]: [apiexplorer/].
    - [ImageUpload]: the image of a collection or a collectible, whose code four forms repeat.
      [Collections]: [collections/] and [collection/collection.component.ts].
      [Collectibles]: the three dialogs of [components/collection/].  [CollectionPage]:
      [collection/detail/].
    - [ListSpec]: the specification of a list of search results, which the lists of accounts
      and of collections refine.  [OpenLists]: the same for the other lists, whose searches do
      not cancel each other.  [Settling]: lists that come to rest once the user stops,
      from a contract that extends [Searches].  [Paging]: lists that are read page by page
      with the cursor of the last answer, a contract with eight instances.  [DeletionOrder]:
      which orders of answers remove the right rows, for the instances of [RowDeletion].
      [Departure]: the list of accounts after the user has left it.  [Recreation]: the lists
      that search when they are created, under the router as the page of a group's members
      leaves it ([group/members/groupMembers.component.ts]), a contract with five instances.
      [FormTypes] and [Interfaces]: the types of the controls of the dialogs, and what they
      send against the interfaces of [layergPortal.service.ts].  [Dialogs]: the page of a
      collection with the dialogs it has opened as one machine.
    - [Calls]: what every page asks of the server and of the portal.  [Resolvers]: what the
      routes load before they are shown.  [Console]: the application of [Application] with
      its pages running in it, for any table of pages; [ConsolePages]: the table of the
      console, and what leaves the browser.

    In each page's module [state] is the record of its fields (and of its form controls),
    [event] its handlers with the values they read from the page, [subscription] what a
    callback of [subscribe] captures, [confirmation] what a dialog captures, and [page] the
    instance of [Component] that ties them together.  A method keeps its name; [m_next] and
    [m_error] are the callbacks of the request that [m] sends, [m_confirmed] the callback of
    its dialog.  Resolvers are the requests they send.

    ** What the theorems show

    - Requests (ConsoleRoutes, LayergPortal, Chat): every request is read by the server's
      routes as the operation and the arguments of the call; query keys; cursors.
    - Sessions (Session): memory and store agree along every run, reloads restore the
      session; what happens in a life of the session (requests, answers, refusals, reloads)
      is, happening by happening, a run of a specification that says who is signed in
      afterwards; claims survive their token, every request carries the token, and the
      tokens on which the page cannot start at all.
    - Navigation (Guards, Router, Application): every navigation ends, on the page asked for
      exactly when the role admits it; the sidebar agrees with the guards; along every run
      of the application the page on the screen is one the session's role may see; the
      application, whose navigations and login pages come in between, keeps the contract of
      the session; where an expired session returns to.
    - The whole (ConsolePages): along every run of the application with its pages, all that
      pages and resolvers send are calls of the service and requests to the portal with the
      portal's token; what goes to the server for the screen carries the token of a session
      that may see it, and what goes elsewhere does not carry that token.
    - Pages: invariants over all runs (one search in flight, one flag per row, sixty
      samples per graph, exactly the checked files imported), functional behaviour of
      searches, deletions, unlinking and updates from the click to the answer, what the
      address of a search stands for, which settings are shown, and the runs
      in which the code does not do what it means to (stale answers, rows removed by a
      stale position, state that is forgotten or left behind).
    - Lists (ListSpec, OpenLists): rows change by the answer of the query that is asked, or
      on most lists of any query that still waits, by the data of the route and by deletions,
      and by nothing else.
    - Progress (Settling, Recreation): searches and deletions settle however the server
      answers, and the router under which the searches of five lists repeat themselves without end.
    - Reading on (Paging): whoever asks for the next page until there is none has seen every
      row once and in order, and the asking ends; also on the lists whose first page the
      route resolves.
    - Several deletions (DeletionOrder): under way at once, they remove the rows that were
      clicked exactly when those further down are answered first.
    - Leaving (Departure): the list of accounts neither searches nor navigates once it has
      been left; a late answer to a search of groups writes its cursor to the address of the
      page that is shown instead.
    - Confirmation (DeletionForms): nothing is deleted without the word, and how long the
      word lasts.
    - Types (FormTypes, Interfaces): which values the controls can hold, which exceptions a
      submission can meet, and whether what is sent has its declared type.
    - Composition (Dialogs, SearchForms): every change that the portal
      confirms to a dialog makes its page list anew; what a double click does; what a form passes on to the component below it.
    - Collections (Collections, Collectibles, CollectionPage): what the forms send and when
      they send nothing, the round trip of an item that is opened and sent back, the address
      of a search, publication, and the runs in which a form or a page gets stuck.

    ** Bounds

    The only fuels are that of [Guards.resolve] (the cost of the table of routes, which
    [resolve_url_cases] shows to be enough for every URL), the three hops of
    [Guards.navigate] and [Router.route] ([navigation_ends], [route_ends]), and those of [Json.parse_value] and
    [JsVal.trim_start], which are lengths of the text that remains.

    ** What is not modelled, and why

    HttpClient, the router, rxjs, forms and ng-bootstrap are third-party: the machine of
    [Runtime] gives the documented behaviour of a subscription and a dialog, [Guards] and
    [Router] that of route matching and of navigations, [HttpParams], [Validators],
    [UrlSerializer] and [JsonEditor] are classes with their laws, a request is what the code
    passes.  js-yaml is a parameter of [Config.exportYaml].  The portal's address and token
    are parameters of its pages, which in [CollectionPage] and [Dialogs] do not change while
    a page is open; in [Console] the address may be another at every step, and the token is
    the one that [localStorage] holds at that step.  Time zones and locales are parameters ([Chat.days_ago], [Config.localeLe]).
    Numbers are exact decimals: rounding does not occur in what the console computes.
    Unpaired surrogates are left out.  The answers to the resolvers reach a page of [Console]
    as one of its events, at any time.  In its table the frame and the login page are blank,
    being parts of [Application]; the modal dialogs of collections, which are components of
    their own ([Collectibles]), run in [Dialogs] but not there; a navigation that a page
    asks for is a move of the user.  The constructors that only store their services, the
    declarations of [app.module.ts] and the markup of templates are left out, as are the
    server itself (Go) and its Lua modules.

    One thing could still be put together from the parts that are here: the dialogs of
    collections in [Console]. *)

From stdpp Require Export base tactics strings list gmap.
From Stdlib Require Export Lia.

#[export] Set Default Goal Selector "!".

Declare Scope js_scope.
Delimit Scope js_scope with js.
#[global] Open Scope js_scope.
#[global] Open Scope string_scope.
#[global] Open Scope list_scope.
#[global] Open Scope nat_scope.

(** ** Possibly missing values

    An optional TypeScript field, parameter or form value is [undefined], [null]
    or a value; the code distinguishes the three ([null] is sent in a JSON body,
    [undefined] is not, and only falsy values are left out of a query string). *)

Inductive opt (A : Type) : Type :=
| Und
| Nul
| Val (a : A).
Arguments Und {A}.
Arguments Nul {A}.
Arguments Val {A} a.

#[export] Instance opt_eq_dec `{EqDecision A} : EqDecision (opt A).
Proof. solve_decision. Defined.

(** [v ?? d] *)
Definition nullish {A} (v : opt A) (d : A) : A :=
  match v with Val a => a | _ => d end.

(** Optional chaining [v?.f]: [undefined] when [v] is [null] or [undefined]. *)
Definition chain {A B} (v : opt A) (f : A -> opt B) : opt B :=
  match v with Val a => f a | _ => Und end.

(** [Map.get], [paramMap.get]: the two lookups differ in what a missing key gives. *)
Definition get_or_undefined {A} (v : option A) : opt A :=
  match v with Some a => Val a | None => Und end.
Definition get_or_null {A} (v : option A) : opt A :=
  match v with Some a => Val a | None => Nul end.

(** Truthiness of the primitive types. *)
Definition truthy_string (s : string) : bool := negb (String.eqb s "").
Definition truthy {A} (t : A -> bool) (v : opt A) : bool :=
  match v with Val a => t a | _ => false end.
Abbreviation truthy_str := (truthy truthy_string).
Abbreviation truthy_bool := (truthy (fun b : bool => b)).

(** [a || b] on optional strings. *)
Definition or_str (a b : opt string) : opt string := if truthy_str a then a else b.

(** ** Arrays *)

(** [l.splice(i, 1)] with a non-negative index: removes at most one element, and
    nothing when [i] is out of range. *)
Definition splice1 {A} (i : nat) (l : list A) : list A := take i l ++ drop (S i) l.

(** [l.length = n]: truncates, or extends with holes (read as [undefined]). *)
Definition set_length {A} (n : nat) (l : list (opt A)) : list (opt A) :=
  take n l ++ replicate (n - length l) Und.

(** [l[i] = v]: overwrites, or extends the array with holes up to [i]. *)
Definition array_set {A} (i : nat) (v : opt A) (l : list (opt A)) : list (opt A) :=
  if decide (i < length l) then <[i := v]> l
  else l ++ replicate (i - length l) Und ++ [v].

(** [l[i]] *)
Definition array_get {A} (i : nat) (l : list (opt A)) : opt A :=
  match l !! i with Some v => v | None => Und end.

Lemma splice1_length_lt {A} i (l : list A) :
  i < length l -> length (splice1 i l) = pred (length l).
Proof. intros H. unfold splice1. rewrite length_app, length_take, length_drop. lia. Qed.

Lemma splice1_ge {A} i (l : list A) : length l <= i -> splice1 i l = l.
Proof.
  intros H. unfold splice1. rewrite take_ge by lia. rewrite drop_ge by lia.
  apply app_nil_r.
Qed.

Lemma splice1_delete {A} i (l : list A) : splice1 i l = delete i l.
Proof.
  unfold splice1. revert i; induction l as [|x l IH]; intros [|i]; simpl; try done.
  by rewrite IH.
Qed.

Lemma splice1_lookup_lt {A} i j (l : list A) : j < i -> splice1 i l !! j = l !! j.
Proof. intros H. rewrite splice1_delete. by apply list_lookup_delete_lt. Qed.

Lemma splice1_lookup_ge {A} i j (l : list A) : i <= j -> splice1 i l !! j = l !! S j.
Proof. intros H. rewrite splice1_delete. by apply list_lookup_delete_ge. Qed.

Lemma splice1_middle {A} (l1 l2 : list A) x :
  splice1 (length l1) (l1 ++ x :: l2) = l1 ++ l2.
Proof.
  unfold splice1. rewrite take_app_length. f_equal.
  rewrite drop_app_ge by lia. by replace (S (length l1) - length l1) with 1 by lia.
Qed.

Lemma filter_all {A} (P : A -> Prop) `{forall x, Decision (P x)} (l : list A) :
  (forall x, x ∈ l -> P x) -> filter P l = l.
Proof.
  induction l as [|x l IH]; intros Hall; [done|].
  rewrite filter_cons_True by (apply Hall; left). f_equal. apply IH. intros y Hy. apply Hall. by right.
Qed.

(** Removing position [i] removes exactly the element that stands there. *)
Lemma splice1_filter {A} `{EqDecision A} i (x : A) (l : list A) :
  NoDup l -> l !! i = Some x -> splice1 i l = filter (fun y => y <> x) l.
Proof.
  intros Hnd Hi. pose proof (take_drop_middle l i x Hi) as E.
  assert (Hlen : length (take i l) = i)
    by (apply length_take_le; apply lookup_lt_Some in Hi; lia).
  revert Hnd. rewrite <- E. generalize dependent (drop (S i) l).
  generalize dependent (take i l). intros l1 Hlen l2 _ Hnd.
  apply NoDup_app in Hnd as (_ & Hdis & Hnd). apply NoDup_cons in Hnd as [Hx _].
  rewrite <- Hlen, splice1_middle, filter_app, filter_cons_False by naive_solver.
  rewrite !filter_all; [done | set_solver..].
Qed.

Lemma set_length_length {A} n (l : list (opt A)) : length (set_length n l) = n.
Proof. unfold set_length. rewrite length_app, length_take, length_replicate. lia. Qed.

(** Changing the length keeps the elements that remain; new ones are [undefined], as
    reading beyond the end was before. *)
Lemma array_get_set_length {A} i n (l : list (opt A)) :
  i < n -> array_get i (set_length n l) = array_get i l.
Proof.
  intros H. unfold array_get, set_length. destruct (decide (i < length l)) as [Hi|Hi].
  - rewrite lookup_app_l by (rewrite length_take; lia). by rewrite lookup_take_lt by lia.
  - rewrite lookup_app_r by (rewrite length_take; lia). rewrite length_take.
    rewrite lookup_replicate_2 by lia. by rewrite lookup_ge_None_2 by lia.
Qed.

Lemma array_get_set {A} i v (l : list (opt A)) : array_get i (array_set i v l) = v.
Proof.
  unfold array_get, array_set. destruct (decide (i < length l)) as [Hi|Hi].
  - by rewrite list_lookup_insert_eq.
  - rewrite lookup_app_r, lookup_app_r by (rewrite ?length_replicate; lia).
    by rewrite length_replicate, Nat.sub_diag.
Qed.

(** ** Record update

    [Eta R] records the constructor applied to its projections; from it
    [Setter f] is derived for every projection [f], so that assignments to a
    field of [this] are written field by field, as in the source. *)

Class Eta (R : Type) := eta : R -> R.
Class Setter {R T : Type} (f : R -> T) := setf : (T -> T) -> R -> R.
#[global] Hint Mode Setter - - ! : typeclass_instances.

Ltac derive_setter :=
  lazymatch goal with
  | |- @Setter ?R ?T ?f =>
      let e := constr:(_ : Eta R) in
      let e := eval red in e in
      let body := match e with
                  | ?c => let e' := eval cbv beta delta [c] in c in e'
                  | ?c => c
                  end in
      let abs := eval pattern f in body in
      lazymatch abs with
      | ?g _ => let r := eval cbv beta in (fun (u : T -> T) => g (fun x : R => u (f x))) in exact r
      end
  end.
#[global] Hint Extern 1 (Setter _) => derive_setter : typeclass_instances.

(** ** Tactics and hints shared by the components *)

Create HintDb js.
Create Rewrite HintDb js.
#[export] Hint Rewrite @splice1_middle @set_length_length : js.

Ltac split_and_all := repeat match goal with |- _ /\ _ => split end.
