(* ===== verification/Codec.v ===== *)
(** * Text codecs of the web platform used by the console

    A JavaScript string is held here as the UTF-8 bytes of its characters
    ([String.string], one [ascii] per byte); strings with unpaired surrogates are
    outside the model.  The file gives [encodeURIComponent] and
    [decodeURIComponent] (used by every URL of [console.service.ts] and by its
    [CustomHttpParamEncoder]), [btoa] (basic authentication headers) and [atob]
    (reading the claims of the session token in [authentication.service.ts]),
    with their round trips and the facts about which characters they produce. *)

From S2P Require Import Prelude.
From Stdlib Require Import Ascii ZifyNat ZifyBool.

(** [lia] also solves goals with division and remainder by constants. *)
Ltac Zify.zify_post_hook ::= Z.to_euclidean_division_equations.

#[local] Arguments Nat.mul : simpl never.
#[local] Arguments Nat.div : simpl never.
#[local] Arguments Nat.modulo : simpl never.

Ltac learn_byte x :=
  lazymatch goal with
  | _ : nat_of_ascii x < 256 |- _ => fail
  | _ => pose proof (nat_ascii_bounded x)
  end.

(** ** Bytes and characters *)

Abbreviation byte_of := nat_of_ascii.
Abbreviation of_byte := ascii_of_nat.

Fixpoint string_forall (P : ascii -> bool) (s : string) : bool :=
  match s with
  | "" => true
  | String c s => P c && string_forall P s
  end.

Definition string_has (c : ascii) (s : string) : bool :=
  negb (string_forall (fun d => negb (Ascii.eqb c d)) s).

Lemma string_app_cons c s t : String c s +:+ t = String c (s +:+ t).
Proof. reflexivity. Qed.

Lemma string_app_nil_l (s : string) : "" +:+ s = s.
Proof. reflexivity. Qed.

Lemma string_app_assoc (s t u : string) : (s +:+ t) +:+ u = s +:+ t +:+ u.
Proof. induction s as [|c s IH]; [done|]. by rewrite !string_app_cons, IH. Qed.

Lemma string_app_nil_r (s : string) : s +:+ "" = s.
Proof. induction s as [|c s IH]; [done|]. by rewrite !string_app_cons, IH. Qed.

Lemma string_length_app (s t : string) :
  String.length (s +:+ t) = String.length s + String.length t.
Proof. induction s as [|c s IH]; [done|]. rewrite !string_app_cons. simpl. by rewrite IH. Qed.

#[export] Hint Rewrite string_app_cons string_app_nil_l string_app_assoc string_app_nil_r
  string_length_app : js.

Lemma string_forall_app P s t :
  string_forall P (s +:+ t) = string_forall P s && string_forall P t.
Proof. induction s as [|c s IH]; simpl; [done|]. by rewrite IH, andb_assoc. Qed.

Lemma string_forall_impl (P Q : ascii -> bool) s :
  (forall c, P c = true -> Q c = true) -> string_forall P s = true -> string_forall Q s = true.
Proof.
  intros Himp. induction s as [|c s IH]; simpl; [done|].
  intros [H1 H2]%andb_true_iff. rewrite (Himp _ H1). by apply IH.
Qed.

Lemma string_has_app c s t : string_has c (s +:+ t) = string_has c s || string_has c t.
Proof. unfold string_has. by rewrite string_forall_app, negb_andb. Qed.

Lemma string_has_forall c P s :
  P c = false -> string_forall P s = true -> string_has c s = false.
Proof.
  intros Hc Hs. unfold string_has. apply negb_false_iff.
  apply (string_forall_impl P); [|done]. intros d Hd. apply negb_true_iff.
  apply Ascii.eqb_neq. by intros <-; rewrite Hd in Hc.
Qed.

Lemma byte_of_lt c : byte_of c < 256.
Proof. apply nat_ascii_bounded. Qed.

Lemma of_byte_of c : of_byte (byte_of c) = c.
Proof. apply ascii_nat_embedding. Qed.

Lemma of_byte_eq n c : n = byte_of c -> of_byte n = c.
Proof. intros ->. apply of_byte_of. Qed.

Lemma byte_of_of n : n < 256 -> byte_of (of_byte n) = n.
Proof. apply nat_ascii_embedding. Qed.

(** ** UTF-8 *)

Definition between (lo hi n : nat) : bool := (lo <=? n) && (n <=? hi).
Definition is_cont (c : ascii) : bool := between 128 191 (byte_of c).

(** The well-formed multi-byte sequences (Unicode, table 3-7). *)
Definition utf8_seq2 (a b : ascii) : bool := between 194 223 (byte_of a) && is_cont b.
Definition utf8_seq3 (a b c : ascii) : bool :=
  let a := byte_of a in let b := byte_of b in
  (((a =? 224) && between 160 191 b) || (between 225 236 a && between 128 191 b)
   || ((a =? 237) && between 128 159 b) || (between 238 239 a && between 128 191 b))
  && is_cont c.
Definition utf8_seq4 (a b c d : ascii) : bool :=
  let a := byte_of a in let b := byte_of b in
  (((a =? 240) && between 144 191 b) || (between 241 243 a && between 128 191 b)
   || ((a =? 244) && between 128 143 b))
  && is_cont c && is_cont d.

Fixpoint utf8_valid (s : string) : bool :=
  match s with
  | "" => true
  | String a s1 =>
      if byte_of a <? 128 then utf8_valid s1
      else match s1 with
           | "" => false
           | String b s2 =>
               if utf8_seq2 a b then utf8_valid s2
               else match s2 with
                    | "" => false
                    | String c s3 =>
                        if utf8_seq3 a b c then utf8_valid s3
                        else match s3 with
                             | "" => false
                             | String d s4 => utf8_seq4 a b c d && utf8_valid s4
                             end
                    end
           end
  end.

(** ** Percent encoding *)

Definition is_alnum (c : ascii) : bool :=
  let n := byte_of c in between 48 57 n || between 65 90 n || between 97 122 n.

(** The characters [encodeURIComponent] leaves as they are. *)
Definition uri_unreserved (c : ascii) : bool :=
  is_alnum c || string_has c "-_.!~*'()".

Definition hex_digit (n : nat) : ascii := of_byte (if n <? 10 then 48 + n else 55 + n).

Definition hex_value (c : ascii) : option nat :=
  let n := byte_of c in
  if between 48 57 n then Some (n - 48)
  else if between 65 70 n then Some (n - 55)
  else if between 97 102 n then Some (n - 87)
  else None.

Definition pct (c : ascii) : string :=
  String "%" (String (hex_digit (byte_of c / 16)) (String (hex_digit (byte_of c mod 16)) "")).

Fixpoint encodeURIComponent (s : string) : string :=
  match s with
  | "" => ""
  | String c s => (if uri_unreserved c then String c "" else pct c) +:+ encodeURIComponent s
  end.

Fixpoint pct_decode (s : string) : option string :=
  match s with
  | "" => Some ""
  | String c s1 =>
      if Ascii.eqb c "%" then
        match s1 with
        | String h (String l s2) =>
            match hex_value h, hex_value l with
            | Some h, Some l => String (of_byte (16 * h + l)) <$> pct_decode s2
            | _, _ => None
            end
        | _ => None
        end
      else String c <$> pct_decode s1
  end.

(** [None] is the [URIError] of a malformed sequence. *)
Definition decodeURIComponent (s : string) : option string :=
  match pct_decode s with
  | Some t => if utf8_valid t then Some t else None
  | None => None
  end.

(** What may stand in an encoded component. *)
Definition uri_encoded_char (c : ascii) : bool := uri_unreserved c || Ascii.eqb c "%".

Lemma hex_digit_alnum n : n < 16 -> is_alnum (hex_digit n) = true.
Proof. intros H. do 16 (destruct n; [reflexivity|]). lia. Qed.

Lemma hex_value_digit n : n < 16 -> hex_value (hex_digit n) = Some n.
Proof. intros H. do 16 (destruct n; [reflexivity|]). lia. Qed.

Lemma pct_hex c :
  exists h l, pct c = String "%" (String h (String l "")) /\
    is_alnum h = true /\ is_alnum l = true /\
    hex_value h = Some (byte_of c / 16) /\ hex_value l = Some (byte_of c mod 16).
Proof.
  pose proof (byte_of_lt c) as Hc. unfold pct.
  eexists _, _; split_and_all; try apply hex_digit_alnum; try apply hex_value_digit; try done; lia.
Qed.

Lemma encodeURIComponent_chars s : string_forall uri_encoded_char (encodeURIComponent s) = true.
Proof.
  induction s as [|c s IH]; simpl; [done|].
  rewrite string_forall_app, IH, andb_true_r.
  destruct (uri_unreserved c) eqn:E; simpl.
  - unfold uri_encoded_char. by rewrite E.
  - destruct (pct_hex c) as (h & l & Hpct & Hh & Hl & _). unfold pct in *.
    injection Hpct as -> ->. unfold uri_encoded_char, uri_unreserved. by rewrite Hh, Hl.
Qed.

Lemma pct_decode_unreserved c s :
  uri_unreserved c = true -> pct_decode (String c s) = String c <$> pct_decode s.
Proof.
  intros Hc. simpl. destruct (Ascii.eqb c "%") eqn:E; [|done].
  apply Ascii.eqb_eq in E as ->. by vm_compute in Hc.
Qed.

Lemma pct_decode_pct c s : pct_decode (pct c +:+ s) = String c <$> pct_decode s.
Proof.
  destruct (pct_hex c) as (h & l & -> & _ & _ & Hh & Hl). simpl. rewrite Hh, Hl.
  replace (16 * (byte_of c / 16) + byte_of c mod 16) with (byte_of c) by lia.
  by rewrite of_byte_of.
Qed.

Lemma pct_decode_encode s : pct_decode (encodeURIComponent s) = Some s.
Proof.
  induction s as [|c s IH]; [done|]. cbn [encodeURIComponent].
  destruct (uri_unreserved c) eqn:E.
  - by rewrite string_app_cons, string_app_nil_l, pct_decode_unreserved, IH.
  - by rewrite pct_decode_pct, IH.
Qed.

Lemma decodeURIComponent_encode s :
  utf8_valid s = true -> decodeURIComponent (encodeURIComponent s) = Some s.
Proof. intros H. unfold decodeURIComponent. by rewrite pct_decode_encode, H. Qed.

#[export] Instance encodeURIComponent_inj : Inj (=) (=) encodeURIComponent.
Proof.
  intros s t E. apply (f_equal pct_decode) in E. rewrite !pct_decode_encode in E. congruence.
Qed.

(** An encoded component never contains a delimiter of a URL. *)
Lemma encodeURIComponent_no c s :
  uri_encoded_char c = false -> string_has c (encodeURIComponent s) = false.
Proof. intros H. by apply (string_has_forall c _ _ H), encodeURIComponent_chars. Qed.

(** ** Base 64

    [btoa] encodes a string all of whose characters are below 256, [atob] decodes
    with the "forgiving" algorithm of the HTML standard.  Its result is again a
    string of characters below 256, so bytes from 128 on become two UTF-8 bytes. *)

Fixpoint of_latin1 (s : string) : string :=
  match s with
  | "" => ""
  | String c s =>
      let n := byte_of c in
      if n <? 128 then String c (of_latin1 s)
      else String (of_byte (192 + n / 64)) (String (of_byte (128 + n mod 64)) (of_latin1 s))
  end.

Fixpoint to_latin1 (s : string) : option string :=
  match s with
  | "" => Some ""
  | String a s1 =>
      if byte_of a <? 128 then String a <$> to_latin1 s1
      else if between 194 195 (byte_of a) then
        match s1 with
        | String b s2 =>
            if is_cont b
            then String (of_byte (64 * (byte_of a - 192) + (byte_of b - 128))) <$> to_latin1 s2
            else None
        | "" => None
        end
      else None
  end.

Definition b64_char (n : nat) : ascii :=
  of_byte (if n <? 26 then 65 + n else if n <? 52 then 71 + n
           else if n <? 62 then n - 4 else if n =? 62 then 43 else 47).

Definition b64_value (c : ascii) : option nat :=
  let n := byte_of c in
  if between 65 90 n then Some (n - 65)
  else if between 97 122 n then Some (n - 71)
  else if between 48 57 n then Some (n + 4)
  else if n =? 43 then Some 62
  else if n =? 47 then Some 63
  else None.

(** Three bytes are four groups of six bits, most significant first. *)
Fixpoint sextets (s : string) : list nat :=
  match s with
  | "" => []
  | String a "" => let a := byte_of a in [a / 4; 16 * (a mod 4)]
  | String a (String b "") =>
      let a := byte_of a in let b := byte_of b in
      [a / 4; 16 * (a mod 4) + b / 16; 4 * (b mod 16)]
  | String a (String b (String c s)) =>
      let a := byte_of a in let b := byte_of b in let c := byte_of c in
      a / 4 :: 16 * (a mod 4) + b / 16 :: 4 * (b mod 16) + c / 64 :: c mod 64 :: sextets s
  end.

Fixpoint of_sextets (l : list nat) : option string :=
  match l with
  | [] => Some ""
  | [_] => None
  | [x; y] => Some (String (of_byte (4 * x + y / 16)) "")
  | [x; y; z] =>
      Some (String (of_byte (4 * x + y / 16)) (String (of_byte (16 * (y mod 16) + z / 4)) ""))
  | x :: y :: z :: w :: l =>
      (fun s => String (of_byte (4 * x + y / 16))
                  (String (of_byte (16 * (y mod 16) + z / 4))
                     (String (of_byte (64 * (z mod 4) + w)) s))) <$> of_sextets l
  end.

Abbreviation chars := String.list_ascii_of_string.
Abbreviation of_chars := String.string_of_list_ascii.

Definition base64_encode (s : string) : list ascii :=
  let l := sextets s in
  (b64_char <$> l) ++ replicate ((4 - length l mod 4) mod 4) "="%char.

Definition is_b64_space (c : ascii) : bool :=
  let n := byte_of c in (n =? 9) || (n =? 10) || (n =? 12) || (n =? 13) || (n =? 32).

Definition drop_eq (l : list ascii) : list ascii :=
  match reverse l with
  | c :: r => if Ascii.eqb c "=" then reverse r else l
  | [] => l
  end.

Definition base64_decode (l : list ascii) : option string :=
  let l := filter (fun c => is_b64_space c = false) l in
  let l := if length l mod 4 =? 0 then drop_eq (drop_eq l) else l in
  mapM b64_value l ≫= of_sextets.

Definition btoa (s : string) : option string :=
  (fun b => of_chars (base64_encode b)) <$> to_latin1 s.

(** [None] is the [InvalidCharacterError] of [atob] and [btoa]. *)
Definition atob (s : string) : option string := of_latin1 <$> base64_decode (chars s).

Lemma of_latin1_to_latin1 s t : to_latin1 s = Some t -> of_latin1 t = s.
Proof.
  revert t. induction s as [s IH] using (induction_ltof1 _ String.length).
  unfold ltof in IH. destruct s as [|a s1]; intros t; [by intros [= <-]|].
  cbn [to_latin1]. destruct (byte_of a <? 128) eqn:Ha.
  { destruct (to_latin1 s1) as [t1|] eqn:E; intros [= <-]. simpl. rewrite Ha.
    by rewrite (IH s1 (Nat.lt_succ_diag_r _) t1 E). }
  destruct (between 194 195 (byte_of a)) eqn:Hr; [|done].
  destruct s1 as [|b s2]; [done|]. destruct (is_cont b) eqn:Hb; [|done].
  destruct (to_latin1 s2) as [t2|] eqn:E; intros [= <-]. cbn [of_latin1].
  unfold is_cont, between in *.
  pose proof (byte_of_lt a) as La. pose proof (byte_of_lt b) as Lb.
  rewrite byte_of_of by lia. rewrite (proj2 (Nat.ltb_ge _ _)) by lia.
  rewrite (IH s2 ltac:(simpl; lia) t2 E).
  f_equal; [|f_equal]; apply of_byte_eq; lia.
Qed.

Lemma b64_value_char n : n < 64 -> b64_value (b64_char n) = Some n.
Proof. intros H. do 64 (destruct n; [reflexivity|]). lia. Qed.

Lemma b64_char_plain n :
  n < 64 -> is_b64_space (b64_char n) = false /\ b64_char n <> "="%char.
Proof. intros H. do 64 (destruct n; [by split|]). lia. Qed.

Lemma string_ind3 (P : string -> Prop) :
  P "" -> (forall a, P (String a "")) -> (forall a b, P (String a (String b ""))) ->
  (forall a b c s, P s -> P (String a (String b (String c s)))) -> forall s, P s.
Proof.
  intros H0 H1 H2 H3 s. induction s as [s IH] using (induction_ltof1 _ String.length).
  unfold ltof in IH. destruct s as [|a [|b [|c s]]]; auto. apply H3, IH. simpl. lia.
Qed.

Lemma sextets_lt s : Forall (fun n => n < 64) (sextets s).
Proof.
  induction s as [|a|a b|a b c s IH] using string_ind3; simpl;
    repeat match goal with |- context [byte_of ?x] => learn_byte x end;
    repeat (constructor; [lia|]); first [done | constructor].
Qed.

Lemma of_sextets_sextets s : of_sextets (sextets s) = Some s.
Proof.
  induction s as [|a|a b|a b c s IH] using string_ind3; cbn [sextets of_sextets]; [done|..].
  all: repeat match goal with |- context [byte_of ?x] => learn_byte x end.
  - do 2 f_equal. apply of_byte_eq. lia.
  - do 2 f_equal; [|f_equal]; apply of_byte_eq; lia.
  - rewrite IH. cbn. f_equal. f_equal; [|f_equal; [|f_equal]]; apply of_byte_eq; lia.
Qed.

Lemma length_sextets s : length (sextets s) mod 4 <> 1.
Proof.
  induction s as [|a|a b|a b c s IH] using string_ind3; cbn [sextets length]; lia.
Qed.

Lemma mapM_b64_value l :
  Forall (fun n => n < 64) l -> mapM b64_value (b64_char <$> l) = Some l.
Proof.
  induction 1 as [|n l Hn _ IH]; [done|]. rewrite fmap_cons.
  cbn [mapM]. rewrite b64_value_char by done. cbn. by rewrite IH.
Qed.

Lemma drop_eq_plain l : Forall (fun c => c <> "="%char) l -> drop_eq l = l.
Proof.
  intros H. unfold drop_eq. destruct (reverse l) as [|c r] eqn:E; [done|].
  assert (c ∈ l) as Hc by (rewrite <- elem_of_reverse, E; left).
  rewrite Forall_forall in H. specialize (H c Hc).
  by rewrite (proj2 (Ascii.eqb_neq _ _) H).
Qed.

Lemma drop_eq_snoc l : drop_eq (l ++ ["="%char]) = l.
Proof. unfold drop_eq. rewrite reverse_app. simpl. apply reverse_involutive. Qed.

Lemma base64_decode_encode s : base64_decode (base64_encode s) = Some s.
Proof.
  unfold base64_decode, base64_encode. pose proof (sextets_lt s) as Hlt.
  pose proof (length_sextets s) as Hlen. pose proof (of_sextets_sextets s) as Hs.
  revert Hlt Hlen Hs. generalize (sextets s) as l. intros l Hlt Hlen Hs.
  assert (Forall (fun c => is_b64_space c = false) (b64_char <$> l) /\
          Forall (fun c => c <> "="%char) (b64_char <$> l)) as [Hsp Heq].
  { split; apply Forall_fmap; eapply Forall_impl; try exact Hlt; intros n Hn; by apply b64_char_plain. }
  rewrite filter_app, !filter_all; cycle 1.
  { intros c [-> _]%elem_of_replicate. done. }
  { by apply Forall_forall. }
  assert (E : (if length ((b64_char <$> l) ++ replicate ((4 - length l mod 4) mod 4) "="%char) mod 4 =? 0
               then drop_eq (drop_eq ((b64_char <$> l) ++ replicate ((4 - length l mod 4) mod 4) "="%char))
               else (b64_char <$> l) ++ replicate ((4 - length l mod 4) mod 4) "="%char)
              = b64_char <$> l).
  { rewrite length_app, length_fmap, length_replicate.
    rewrite (proj2 (Nat.eqb_eq _ _)) by lia.
    assert (length l mod 4 = 0 \/ length l mod 4 = 2 \/ length l mod 4 = 3) as [->|[->| ->]] by lia.
    - change (replicate ((4 - 0) mod 4) "="%char) with (@nil ascii).
      by rewrite app_nil_r, !drop_eq_plain by (rewrite ?drop_eq_plain; done).
    - change (replicate ((4 - 2) mod 4) "="%char) with (["="%char] ++ ["="%char]).
      by rewrite app_assoc, !drop_eq_snoc.
    - change (replicate ((4 - 3) mod 4) "="%char) with ["="%char].
      by rewrite drop_eq_snoc, drop_eq_plain. }
  rewrite E, mapM_b64_value by done. exact Hs.
Qed.

Lemma atob_btoa s t : btoa s = Some t -> atob t = Some s.
Proof.
  unfold btoa, atob. destruct (to_latin1 s) as [b|] eqn:E; [|done]. intros [= <-].
  rewrite String.list_ascii_of_string_of_list_ascii, base64_decode_encode. simpl.
  by rewrite (of_latin1_to_latin1 _ _ E).
Qed.

(** Characters outside the alphabet make [atob] throw. *)
Lemma atob_bad_char c s :
  b64_value c = None -> is_b64_space c = false -> c <> "="%char ->
  c ∈ chars s -> atob s = None.
Proof.
  intros Hv Hs Hc Hin. unfold atob, base64_decode.
  set (l := filter _ _).
  assert (c ∈ l) as Hl by (apply list_elem_of_filter; done).
  assert (forall l, c ∈ l -> mapM b64_value l = None) as Hnone.
  { clear -Hv. induction l as [|d l IH]; [by intros ?%not_elem_of_nil|].
    intros [->|H]%elem_of_cons; simpl; [by rewrite Hv|].
    destruct (b64_value d); simpl; [|done]. by rewrite IH. }
  assert (forall l, c ∈ l -> c ∈ drop_eq l) as Hdrop.
  { clear -Hc. intros l Hl. unfold drop_eq. destruct (reverse l) as [|d r] eqn:E; [done|].
    destruct (Ascii.eqb_spec d "="); [|done]. subst d.
    rewrite <- (reverse_involutive l), E, reverse_cons in Hl.
    apply elem_of_app in Hl as [Hl|Hl]; [done|]. by apply list_elem_of_singleton in Hl. }
  destruct (_ =? 0); rewrite Hnone; auto.
Qed.

(** ** Splitting: [s.split(c)] *)

Fixpoint split_on (c : ascii) (s : string) : list string :=
  match s with
  | "" => [""]
  | String a s => if Ascii.eqb a c then "" :: split_on c s
                  else match split_on c s with
                       | x :: l => String a x :: l
                       | [] => [String a ""]
                       end
  end.

Lemma string_has_cons c a s : string_has c (String a s) = Ascii.eqb a c || string_has c s.
Proof. unfold string_has. cbn [string_forall]. by rewrite negb_andb, negb_involutive, Ascii.eqb_sym. Qed.

Lemma split_on_cons_sep c s : split_on c (String c s) = "" :: split_on c s.
Proof. simpl. by rewrite Ascii.eqb_refl. Qed.

Lemma split_on_none c s : string_has c s = false -> split_on c s = [s].
Proof.
  induction s as [|a s IH]; intros H; [done|].
  rewrite string_has_cons in H. apply orb_false_iff in H as [H1 H2]. simpl. rewrite H1, IH; done.
Qed.

Lemma split_on_app c s t : string_has c s = false ->
  split_on c (s +:+ String c t) = s :: split_on c t.
Proof.
  induction s as [|a s IH]; intros H.
  - by rewrite string_app_nil_l, split_on_cons_sep.
  - rewrite string_has_cons in H. apply orb_false_iff in H as [H1 H2]. rewrite string_app_cons. simpl. by rewrite H1, IH.
Qed.

Lemma split_on_not_nil c s : split_on c s <> [].
Proof. destruct s as [|a s]; simpl; [done|]. destruct (Ascii.eqb a c); [done|]. by destruct split_on. Qed.

(** ** Base64 without padding

    The segments of a JSON Web Token are in the URL alphabet, where [-] and [_]
    stand for the sextets 62 and 63, and are not padded. *)

Definition b64url_char (n : nat) : ascii :=
  if n =? 62 then "-" else if n =? 63 then "_" else b64_char n.

Definition base64url (s : string) : string := of_chars (b64url_char <$> sextets s).

(** [atob] reads the unpadded text of the standard alphabet. *)
Lemma base64_decode_unpadded l s :
  Forall (fun n => n < 64) l -> length l mod 4 <> 1 -> of_sextets l = Some s ->
  base64_decode (b64_char <$> l) = Some s.
Proof.
  intros Hlt Hlen Hs. unfold base64_decode.
  assert (Forall (fun c => is_b64_space c = false) (b64_char <$> l) /\
          Forall (fun c => c <> "="%char) (b64_char <$> l)) as [Hsp Heq].
  { split; apply Forall_fmap; eapply Forall_impl; try exact Hlt; intros n Hn; by apply b64_char_plain. }
  rewrite filter_all by (by apply Forall_forall). rewrite !drop_eq_plain by (rewrite ?drop_eq_plain; done).
  assert (E : forall b : bool, (if b then b64_char <$> l else b64_char <$> l) = b64_char <$> l) by (by intros []).
  by rewrite E, mapM_b64_value.
Qed.

Definition plain_sextets (s : string) : bool := forallb (fun n => n <? 62) (sextets s).

Lemma atob_base64url s : plain_sextets s = true -> atob (base64url s) = Some (of_latin1 s).
Proof.
  intros H. unfold plain_sextets in H. rewrite forallb_forall in H.
  assert (E : b64url_char <$> sextets s = b64_char <$> sextets s).
  { apply list_fmap_ext. intros i n Hn. apply list_elem_of_lookup_2, list_elem_of_In, H in Hn.
    unfold b64url_char. rewrite (proj2 (Nat.eqb_neq n 62)), (proj2 (Nat.eqb_neq n 63)) by lia. done. }
  unfold atob, base64url. rewrite E, String.list_ascii_of_string_of_list_ascii.
  rewrite (base64_decode_unpadded _ s); [done|apply sextets_lt|apply length_sextets|apply of_sextets_sextets].
Qed.

Lemma atob_base64url_bad s : plain_sextets s = false -> atob (base64url s) = None.
Proof.
  intros H. assert (Hn : exists n, n ∈ sextets s /\ (n = 62 \/ n = 63)).
  { unfold plain_sextets in H. pose proof (sextets_lt s) as Hlt. induction Hlt as [|n l Hn _ IH]; [done|].
    simpl in H. apply andb_false_iff in H as [H|H].
    - exists n. split; [left|lia].
    - destruct (IH H) as (m & Hm & ?). exists m. split; [by right|done]. }
  destruct Hn as (n & Hn & Hc).
  apply (atob_bad_char (b64url_char n)); [by destruct Hc; subst..|].
  unfold base64url. rewrite String.list_ascii_of_string_of_list_ascii.
  by apply list_elem_of_fmap_2.
Qed.

Lemma of_latin1_ascii s : string_forall (fun c => byte_of c <? 128) s = true -> of_latin1 s = s.
Proof.
  induction s as [|c s IH]; intros H; [done|]. simpl in H. apply andb_true_iff in H as [Hc Hs].
  simpl. by rewrite Hc, IH.
Qed.

Lemma base64url_no_dot s : string_has "." (base64url s) = false.
Proof.
  unfold base64url. pose proof (sextets_lt s) as H. induction H as [|n l Hn _ IH]; [done|].
  rewrite fmap_cons. cbn [of_chars]. rewrite string_has_cons, IH, orb_false_r.
  clear -Hn. do 64 (destruct n; [reflexivity|]). lia.
Qed.
