(* ===== verification/JsVal.v ===== *)
(** * JavaScript values

    Values of type [any] (parsed configuration and token claims, HTTP error
    bodies, form values, thrown exceptions) are the tagged union [jsval]; typed
    records of the API are Rocq records (ConsoleTypes).  Numbers are exact decimals
    with the special values the code can meet: rounding to binary64 is not
    modelled (every number the console computes with is a small integer), nor is
    negative zero. *)

From S2P Require Import Prelude Codec.
From Stdlib Require Import Ascii DecimalString ZifyNat ZifyBool.
From Stdlib Require DecimalN DecimalZ.

(** ** Numbers: [Fin m e] is m / 10^e *)

Inductive num := NaN | Infinity (negative : bool) | Fin (m : Z) (e : nat).

#[export] Instance num_eq_dec : EqDecision num.
Proof. solve_decision. Defined.

Abbreviation int z := (Fin z%Z 0).

Definition pow10 (e : nat) : Z := (10 ^ Z.of_nat e)%Z.

(** [===] *)
Definition num_eqb (a b : num) : bool :=
  match a, b with
  | Infinity s, Infinity t => Bool.eqb s t
  | Fin m e, Fin n f => (m * pow10 f =? n * pow10 e)%Z
  | _, _ => false
  end.

(** [<]; false when an operand is [NaN]. *)
Definition num_ltb (a b : num) : bool :=
  match a, b with
  | NaN, _ | _, NaN => false
  | Infinity s, Infinity t => s && negb t
  | Infinity s, Fin _ _ => s
  | Fin _ _, Infinity t => negb t
  | Fin m e, Fin n f => (m * pow10 f <? n * pow10 e)%Z
  end.

Definition num_add (a b : num) : num :=
  match a, b with
  | NaN, _ | _, NaN => NaN
  | Infinity s, Infinity t => if Bool.eqb s t then Infinity s else NaN
  | Infinity s, _ | _, Infinity s => Infinity s
  | Fin m e, Fin n f =>
      if e =? f then Fin (m + n) e else Fin (m * pow10 f + n * pow10 e) (e + f)
  end.

Definition num_truthy (a : num) : bool :=
  match a with NaN => false | Infinity _ => true | Fin m _ => negb (m =? 0)%Z end.

(** [x--] and [x++] on a field that may be missing. *)
Definition to_num (v : opt num) : num :=
  match v with Und => NaN | Nul => int 0 | Val n => n end.
Definition incr (v : opt num) : opt num := Val (num_add (to_num v) (int 1)).
Definition decr (v : opt num) : opt num := Val (num_add (to_num v) (int (-1))).

(** Removes trailing zeros of the fraction, so that an integer has [e = 0]. *)
Fixpoint normalize (m : Z) (e : nat) : num :=
  match e with
  | O => Fin m 0
  | S e' => if (m mod 10 =? 0)%Z then normalize (m / 10) e' else Fin m e
  end.

(** m * 10^x with fraction length [e]. *)
Definition scale (m : Z) (e : nat) (x : Z) : num :=
  let k := (x - Z.of_nat e)%Z in
  if (0 <=? k)%Z then Fin (m * 10 ^ k) 0 else normalize m (Z.to_nat (- k)).

Definition string_of_N (n : N) : string := NilZero.string_of_uint (N.to_uint n).

Fixpoint zeros (n : nat) : string := match n with O => "" | S n => String "0" (zeros n) end.

(** [String(n)], for 0 and magnitudes from 1e-6 up to 1e21 (outside of these
    JavaScript switches to exponent notation). *)
Definition string_of_num (a : num) : string :=
  match a with
  | NaN => "NaN"
  | Infinity s => (if s then "-" else "") +:+ "Infinity"
  | Fin m e =>
      let sign := if (m <? 0)%Z then "-" else "" in
      let n := Z.abs_N m in
      let p := (10 ^ N.of_nat e)%N in
      let frac := string_of_N (n mod p) in
      sign +:+ string_of_N (n / p) +:+
      match e with
      | O => ""
      | _ => "." +:+ zeros (e - String.length frac) +:+ frac
      end
  end.

(** ** Digits and white space *)

Definition is_digit (c : ascii) : bool := between 48 57 (byte_of c).

(** Longest prefix of digits. *)
Fixpoint span_digits (s : string) : string * string :=
  match s with
  | String c s' => if is_digit c
                   then let '(d, r) := span_digits s' in (String c d, r)
                   else ("", s)
  | "" => ("", "")
  end.

Definition digits_value (s : string) : Z :=
  match NilEmpty.uint_of_string s with Some u => Z.of_uint u | None => 0%Z end.

(** The white space and line terminators removed by [trim] and [Number]: tab,
    line feed, vertical tab, form feed, carriage return, space, and the
    multi-byte characters U+00A0, U+1680, U+2000-200A, U+2028, U+2029, U+202F,
    U+205F, U+3000 and U+FEFF. *)
Definition strip_space (s : string) : option string :=
  match s with
  | "" => None
  | String a s1 =>
      let a := byte_of a in
      if between 9 13 a || (a =? 32) then Some s1
      else match s1 with
           | "" => None
           | String b s2 =>
               let b := byte_of b in
               if (a =? 194) && (b =? 160) then Some s2
               else match s2 with
                    | "" => None
                    | String c s3 =>
                        let c := byte_of c in
                        if (a =? 225) && (b =? 154) && (c =? 128)
                           || (a =? 226) && (b =? 128)
                              && (between 128 138 c || (c =? 168) || (c =? 169) || (c =? 175))
                           || (a =? 226) && (b =? 129) && (c =? 159)
                           || (a =? 227) && (b =? 128) && (c =? 128)
                           || (a =? 239) && (b =? 187) && (c =? 191)
                        then Some s3 else None
                    end
           end
  end.

Fixpoint trim_start (fuel : nat) (s : string) : string :=
  match fuel with
  | O => s
  | S fuel => match strip_space s with Some s' => trim_start fuel s' | None => s end
  end.

Definition all_space (s : string) : bool :=
  String.eqb (trim_start (String.length s) s) "".

Fixpoint trim_end (s : string) : string :=
  if all_space s then "" else match s with "" => "" | String c s' => String c (trim_end s') end.

Definition trim (s : string) : string := trim_end (trim_start (String.length s) s).

(** ** [Number(s)] *)

Definition digit_in (radix : nat) (c : ascii) : option nat :=
  match hex_value c with Some d => if d <? radix then Some d else None | None => None end.

Fixpoint radix_value (radix : nat) (acc : Z) (s : string) : option Z :=
  match s with
  | "" => Some acc
  | String c s => match digit_in radix c with
                  | Some d => radix_value radix (acc * Z.of_nat radix + Z.of_nat d)%Z s
                  | None => None
                  end
  end.

Definition radix_literal (radix : nat) (s : string) : num :=
  match s, radix_value radix 0 s with String _ _, Some z => Fin z 0 | _, _ => NaN end.

(** An optional exponent; the flag tells that something invalid is left over. *)
Definition exponent (s : string) : option Z :=
  match s with
  | "" => Some 0%Z
  | String c r =>
      if Ascii.eqb c "e" || Ascii.eqb c "E" then
        let '(neg, r) := match r with
                         | String "+" r => (false, r)
                         | String "-" r => (true, r)
                         | _ => (false, r)
                         end in
        let '(d, rest) := span_digits r in
        match d, rest with
        | String _ _, "" => Some (if neg : bool then - digits_value d else digits_value d)%Z
        | _, _ => None
        end
      else None
  end.

Definition unsigned_literal (s : string) : num :=
  if String.eqb s "Infinity" then Infinity false
  else
    let '(i, r) := span_digits s in
    let '(f, r) := match r with String "." r => span_digits r | _ => ("", r) end in
    match i +:+ f, exponent r with
    | String _ _ as d, Some x => scale (digits_value d) (String.length f) x
    | _, _ => NaN
    end.

Definition num_opp (a : num) : num :=
  match a with NaN => NaN | Infinity s => Infinity (negb s) | Fin m e => Fin (- m) e end.

Definition Number_of_string (s : string) : num :=
  match trim s with
  | "" => int 0
  | String "0" (String c r) as t =>
      if Ascii.eqb c "x" || Ascii.eqb c "X" then radix_literal 16 r
      else if Ascii.eqb c "o" || Ascii.eqb c "O" then radix_literal 8 r
      else if Ascii.eqb c "b" || Ascii.eqb c "B" then radix_literal 2 r
      else unsigned_literal t
  | String "-" r => num_opp (unsigned_literal r)
  | String "+" r => unsigned_literal r
  | t => unsigned_literal t
  end.

(** [Number(v)] and [+v] for [v] a string, [null] or [undefined]. *)
Definition Number (v : opt string) : num :=
  match v with Und => NaN | Nul => int 0 | Val s => Number_of_string s end.

Example Number_ex :
  (Number (Val " 12 "), Number (Val "2.50"), Number (Val "0x1F"), Number (Val "1e3"),
   Number (Val "-3"), Number (Val "abc"), Number (Val ""), Number Nul, Number (Val "1e")) =
  (int 12, Fin 25 1, int 31, int 1000, int (-3), NaN, int 0, int 0, NaN).
Proof. vm_compute. reflexivity. Qed.

Example string_of_num_ex :
  map string_of_num [int 0; int (-42); Fin 5 2; Fin (-1250) 3; NaN; Infinity true] =
  ["0"; "-42"; "0.05"; "-1.250"; "NaN"; "-Infinity"].
Proof. vm_compute. reflexivity. Qed.

(** ** Dynamic values

    An object is the list of its properties in enumeration order. *)

#[export] Set Warnings "-register-all".

Inductive jsval :=
| JUndef
| JNull
| JBool (b : bool)
| JNum (n : num)
| JStr (s : string)
| JArr (l : list jsval)
| JObj (l : list (string * jsval))
| JError (name message : string).

Section jsval_induction.
Context (P : jsval -> Prop).
Context (HU : P JUndef) (HN : P JNull) (HB : forall b, P (JBool b)) (HNum : forall n, P (JNum n))
  (HS : forall s, P (JStr s)) (HA : forall l, Forall P l -> P (JArr l))
  (HO : forall l, Forall (fun kv => P kv.2) l -> P (JObj l)) (HE : forall n m, P (JError n m)).

Fixpoint jsval_nested_ind (v : jsval) : P v :=
  match v with
  | JUndef => HU | JNull => HN | JBool b => HB b | JNum n => HNum n | JStr s => HS s
  | JArr l => HA l ((fix go l : Forall P l :=
      match l with [] => Forall_nil_2 P | v :: l => Forall_cons_2 P v l (jsval_nested_ind v) (go l) end) l)
  | JObj l => HO l ((fix go l : Forall (fun kv => P kv.2) l :=
      match l with
      | [] => Forall_nil_2 _
      | kv :: l => Forall_cons_2 _ kv l (jsval_nested_ind kv.2) (go l)
      end) l)
  | JError n m => HE n m
  end.
End jsval_induction.

Definition jtruthy (v : jsval) : bool :=
  match v with
  | JUndef | JNull => false
  | JBool b => b
  | JNum n => num_truthy n
  | JStr s => truthy_string s
  | JArr _ | JObj _ | JError _ _ => true
  end.

(** [a || b] *)
Definition jor (a b : jsval) : jsval := if jtruthy a then a else b.

Definition of_opt (v : opt string) : jsval :=
  match v with Und => JUndef | Nul => JNull | Val s => JStr s end.

Fixpoint assoc {A} (k : string) (l : list (string * A)) : option A :=
  match l with
  | [] => None
  | (k', v) :: l => if String.eqb k k' then Some v else assoc k l
  end.

(** Reading the property [k] (none of the names the code reads is a property of
    the built-in prototypes of strings, numbers, arrays or booleans); [None] is
    the [TypeError] of reading a property of [null] or [undefined]. *)
Definition jget (k : string) (v : jsval) : option jsval :=
  match v with
  | JUndef | JNull => None
  | JObj l => Some (match assoc k l with Some w => w | None => JUndef end)
  | JError name message =>
      Some (if String.eqb k "message" then JStr message
            else if String.eqb k "name" then JStr name else JUndef)
  | _ => Some JUndef
  end.

(** [v?.k] *)
Definition jchain (k : string) (v : jsval) : jsval :=
  match jget k v with Some w => w | None => JUndef end.

(** ** [String(v)] *)

Definition js_String (v : opt string) : string :=
  match v with Und => "undefined" | Nul => "null" | Val s => s end.
Definition js_String_num (v : opt num) : string :=
  match v with Und => "undefined" | Nul => "null" | Val n => string_of_num n end.

(** Arrays are joined with commas, a missing element being empty. *)
Fixpoint String_ (v : jsval) : string :=
  match v with
  | JUndef => "undefined"
  | JNull => "null"
  | JBool b => if b then "true" else "false"
  | JNum n => string_of_num n
  | JStr s => s
  | JArr l =>
      (fix go (l : list jsval) : string :=
         match l with
         | [] => ""
         | v :: l =>
             (match v with JUndef | JNull => "" | _ => String_ v end) +:+
             match l with [] => "" | _ => "," +:+ go l end
         end) l
  | JObj _ => "[object Object]"
  | JError name message => name +:+ ": " +:+ message
  end.

(** [Number(v)] *)
Definition Number_ (v : jsval) : num :=
  match v with
  | JUndef => NaN
  | JNull => int 0
  | JBool b => int (if b then 1 else 0)
  | JNum n => n
  | JStr s => Number_of_string s
  | JArr _ => Number_of_string (String_ v)
  | JObj _ | JError _ _ => NaN
  end.

(** [v === false] *)
Definition is_false (v : jsval) : bool := match v with JBool false => true | _ => false end.
