(* ===== verification/Json.v ===== *)
(** * [JSON.parse] and [JSON.stringify]

    The two functions carry the session through [localStorage]
    ([authentication.service.ts]), read the claims of the session token and the
    server configuration, and print exports and request bodies.  The main result
    is the round trip [parse_stringify]. *)

From S2P Require Import Prelude Codec JsVal.
From Stdlib Require Import Ascii DecimalString ZifyNat ZifyBool.
From Stdlib Require DecimalN DecimalFacts.

(** ** Objects *)

Definition array_index (k : string) : option N :=
  match NilEmpty.uint_of_string k with
  | Some u => let n := N.of_uint u in
              if String.eqb (string_of_N n) k && (n <? 4294967295)%N then Some n else None
  | None => None
  end.

(** [o[k] = v] on the property list of [o]: an existing property keeps its place;
    a new one goes after the others, except that array indices are enumerated
    first and in increasing order. *)
Fixpoint obj_set {A} (k : string) (v : A) (l : list (string * A)) : list (string * A) :=
  match l with
  | [] => [(k, v)]
  | (k', v') :: l' =>
      if String.eqb k k' then (k, v) :: l'
      else match array_index k, array_index k' with
           | Some n, Some n' => if (n <? n')%N then (k, v) :: l else (k', v') :: obj_set k v l'
           | Some _, None => (k, v) :: l
           | None, _ => (k', v') :: obj_set k v l'
           end
  end.

Definition obj_of (l : list (string * jsval)) : list (string * jsval) :=
  fold_left (fun o kv => obj_set kv.1 kv.2 o) l [].

(** ** Printing *)

Definition dq : ascii := "034".
Definition backslash : ascii := "092".
Definition lower_hex (n : nat) : ascii := of_byte (if n <? 10 then 48 + n else 87 + n).

Definition escape (c : ascii) : string :=
  let n := byte_of c in
  let esc (d : ascii) := String backslash (String d "") in
  if n =? 34 then esc dq else if n =? 92 then esc backslash
  else if n =? 8 then esc "b"%char else if n =? 9 then esc "t"%char else if n =? 10 then esc "n"%char
  else if n =? 12 then esc "f"%char else if n =? 13 then esc "r"%char
  else if n <? 32 then esc "u"%char +:+ String "0" (String "0"
         (String (lower_hex (n / 16)) (String (lower_hex (n mod 16)) "")))
  else String c "".

Fixpoint escape_all (s : string) : string :=
  match s with "" => "" | String c s => escape c +:+ escape_all s end.

Definition quote (s : string) : string := String dq (escape_all s +:+ String dq "").

Fixpoint join (sep : string) (l : list string) : string :=
  match l with
  | [] => ""
  | [x] => x
  | x :: l => x +:+ sep +:+ join sep l
  end.

(** [JSON.stringify(v)]; [None] is [undefined]. *)
Fixpoint stringify (v : jsval) : option string :=
  match v with
  | JUndef => None
  | JNull => Some "null"
  | JBool b => Some (if b then "true" else "false")
  | JNum (Fin m e) => Some (string_of_num (Fin m e))
  | JNum _ => Some "null"
  | JStr s => Some (quote s)
  | JArr l =>
      Some ("[" +:+ join "," (map (fun v => match stringify v with Some s => s | None => "null" end) l)
            +:+ "]")
  | JObj l =>
      Some ("{" +:+ join "," (flat_map (fun '(k, v) => match stringify v with
                                                      | Some s => [quote k +:+ ":" +:+ s]
                                                      | None => []
                                                      end) l) +:+ "}")
  | JError _ _ => Some "{}"
  end.

(** [JSON.stringify(v, null, 2)]: one element or member to a line, indented by two spaces
    for each level; empty arrays and objects stay on one line. *)
Definition newline (indent : string) : string := String "010" indent.

Definition block (o c indent : string) (l : list string) : string :=
  match l with
  | [] => o +:+ c
  | _ => let inner := indent +:+ "  " in
         o +:+ newline inner +:+ join ("," +:+ newline inner) l +:+ newline indent +:+ c
  end.

Fixpoint pretty (indent : string) (v : jsval) : option string :=
  match v with
  | JArr l =>
      Some (block "[" "]" indent
              (map (fun v => match pretty (indent +:+ "  ") v with Some s => s | None => "null" end) l))
  | JObj l =>
      Some (block "{" "}" indent
              (flat_map (fun '(k, v) => match pretty (indent +:+ "  ") v with
                                        | Some s => [quote k +:+ ": " +:+ s]
                                        | None => []
                                        end) l))
  | v => stringify v
  end.
Definition stringify2 (v : jsval) : option string := pretty "" v.

(** ** Parsing *)

Fixpoint skip_ws (s : string) : string :=
  match s with
  | String c s' => let n := byte_of c in
                   if (n =? 32) || (n =? 9) || (n =? 10) || (n =? 13) then skip_ws s' else s
  | "" => ""
  end.

(** The UTF-8 bytes of a code point, and the value of four hexadecimal digits. *)
Definition utf8_encode (n : N) : string :=
  let byte (k : N) := ascii_of_N k in
  let cont (k : N) := ascii_of_N (128 + k mod 64) in
  if (n <? 128)%N then String (byte n) ""
  else if (n <? 2048)%N then String (byte (192 + n / 64)%N) (String (cont n) "")
  else if (n <? 65536)%N then
    String (byte (224 + n / 4096)%N) (String (cont (n / 64)%N) (String (cont n) ""))
  else String (byte (240 + n / 262144)%N) (String (cont (n / 4096)%N)
         (String (cont (n / 64)%N) (String (cont n) ""))).

Definition hex4 (a b c d : ascii) : option N :=
  match hex_value a, hex_value b, hex_value c, hex_value d with
  | Some a, Some b, Some c, Some d =>
      Some (4096 * N.of_nat a + 256 * N.of_nat b + 16 * N.of_nat c + N.of_nat d)%N
  | _, _, _, _ => None
  end.

Definition high_surrogate (n : N) : bool := (55296 <=? n)%N && (n <=? 56319)%N.
Definition low_surrogate (n : N) : bool := (56320 <=? n)%N && (n <=? 57343)%N.

Definition simple_escape (c : ascii) : option ascii :=
  let n := byte_of c in
  if n =? 34 then Some dq else if n =? 92 then Some backslash else if n =? 47 then Some "/"%char
  else if n =? 98 then Some (of_byte 8) else if n =? 102 then Some (of_byte 12)
  else if n =? 110 then Some (of_byte 10) else if n =? 114 then Some (of_byte 13)
  else if n =? 116 then Some (of_byte 9) else None.

(** The characters of a string literal after its opening quote, and what follows
    the closing one.  An unpaired surrogate escape is outside of the model. *)
Fixpoint parse_chars (s : string) : option (string * string) :=
  let put (t : string) := fmap (M := option) (fun '(u, r) => (t +:+ u, r)) in
  match s with
  | "" => None
  | String c s =>
      if Ascii.eqb c dq then Some ("", s)
      else if Ascii.eqb c backslash then
        match s with
        | String "u" (String a (String b (String d (String e s1)))) =>
            match hex4 a b d e with
            | Some n =>
                if high_surrogate n then
                  match s1 with
                  | String x (String "u" (String a (String b (String d (String e s2))))) =>
                      match hex4 a b d e with
                      | Some m => if Ascii.eqb x backslash && low_surrogate m
                                  then put (utf8_encode (65536 + 1024 * (n - 55296) + (m - 56320)))%N
                                           (parse_chars s2)
                                  else None
                      | None => None
                      end
                  | _ => None
                  end
                else if low_surrogate n then None
                else put (utf8_encode n) (parse_chars s1)
            | None => None
            end
        | String d s1 => match simple_escape d with
                         | Some x => put (String x "") (parse_chars s1)
                         | None => None
                         end
        | "" => None
        end
      else if byte_of c <? 32 then None
      else put (String c "") (parse_chars s)
  end.

Definition parse_exponent (s : string) : option (Z * string) :=
  match s with
  | String c r =>
      if Ascii.eqb c "e" || Ascii.eqb c "E" then
        let '(neg, r) := match r with
                         | String "+" r => (false, r)
                         | String "-" r => (true, r)
                         | _ => (false, r)
                         end in
        let '(d, rest) := span_digits r in
        match d with
        | "" => None
        | _ => Some ((if neg : bool then - digits_value d else digits_value d)%Z, rest)
        end
      else Some (0%Z, s)
  | "" => Some (0%Z, s)
  end.

Definition parse_unsigned (s : string) : option (num * string) :=
  let '(i, r) := span_digits s in
  let leading := match i with "" => true | String "0" (String _ _) => true | _ => false end in
  if leading then None
  else
    let frac := match r with
                | String "." r => match span_digits r with ("", _) => None | fr => Some fr end
                | _ => Some ("", r)
                end in
    match frac with
    | Some (f, r) =>
        match parse_exponent r with
        | Some (x, r) => Some (scale (digits_value (i +:+ f)) (String.length f) x, r)
        | None => None
        end
    | None => None
    end.

Definition parse_number (s : string) : option (num * string) :=
  match s with
  | String "-" r => (fun '(n, r) => (num_opp n, r)) <$> parse_unsigned r
  | _ => parse_unsigned s
  end.

Fixpoint strip_prefix (p s : string) : option string :=
  match p, s with
  | "", _ => Some s
  | String a p, String b s => if Ascii.eqb a b then strip_prefix p s else None
  | _, _ => None
  end.

Definition expect (c : ascii) (s : string) : option string :=
  match s with String d r => if Ascii.eqb d c then Some r else None | "" => None end.

(** One unit of fuel per nested call; the length of the text is always enough
    (every call consumes a character). *)
Fixpoint parse_value (fuel : nat) (s : string) : option (jsval * string) :=
  match fuel, s with
  | S fuel, String c r =>
      if Ascii.eqb c dq then (fun '(t, r) => (JStr t, r)) <$> parse_chars r
      else if Ascii.eqb c "[" then
        match expect "]" (skip_ws r) with
        | Some r => Some (JArr [], r)
        | None => (fun '(l, r) => (JArr l, r)) <$> parse_elements fuel (skip_ws r)
        end
      else if Ascii.eqb c "{" then
        match expect "}" (skip_ws r) with
        | Some r => Some (JObj [], r)
        | None => (fun '(l, r) => (JObj (obj_of l), r)) <$> parse_members fuel (skip_ws r)
        end
      else if Ascii.eqb c "n" then (fun r => (JNull, r)) <$> strip_prefix "ull" r
      else if Ascii.eqb c "t" then (fun r => (JBool true, r)) <$> strip_prefix "rue" r
      else if Ascii.eqb c "f" then (fun r => (JBool false, r)) <$> strip_prefix "alse" r
      else (fun '(n, r) => (JNum n, r)) <$> parse_number s
  | _, _ => None
  end
with parse_elements (fuel : nat) (s : string) : option (list jsval * string) :=
  match fuel with
  | O => None
  | S fuel =>
      '(v, r) ← parse_value fuel s;
      match expect "," (skip_ws r) with
      | Some r => (fun '(l, r) => (v :: l, r)) <$> parse_elements fuel (skip_ws r)
      | None => (fun r => ([v], r)) <$> expect "]" (skip_ws r)
      end
  end
with parse_members (fuel : nat) (s : string) : option (list (string * jsval) * string) :=
  match fuel with
  | O => None
  | S fuel =>
      r ← expect dq s;
      '(k, r) ← parse_chars r;
      r ← expect ":" (skip_ws r);
      '(v, r) ← parse_value fuel (skip_ws r);
      match expect "," (skip_ws r) with
      | Some r => (fun '(l, r) => ((k, v) :: l, r)) <$> parse_members fuel (skip_ws r)
      | None => (fun r => ([(k, v)], r)) <$> expect "}" (skip_ws r)
      end
  end.

(** [JSON.parse(s)]; [None] is the [SyntaxError]. *)
Definition parse (s : string) : option jsval :=
  match parse_value (String.length s) (skip_ws s) with
  | Some (v, r) => if String.eqb (skip_ws r) "" then Some v else None
  | None => None
  end.

(** JSON texts in examples are written with single quotes. *)
Fixpoint json_text (s : string) : string :=
  match s with
  | "" => ""
  | String c s => String (if Ascii.eqb c "'" then dq else c) (json_text s)
  end.

Example parse_ex :
  parse (json_text " [1, -2.50, {'b': null, '10':{}, '2' : [ ], 'b':0e1}, 'x\u00e9\uD83D\uDE00\n', true ] ") =
  Some (JArr [JNum (int 1); JNum (Fin (-25) 1);
              JObj [("2", JArr []); ("10", JObj []); ("b", JNum (int 0))];
              JStr ("xé😀" +:+ String (of_byte 10) ""); JBool true]).
Proof. vm_compute. reflexivity. Qed.

Example parse_err :
  map parse ["01"; "[1,]"; ""; "{"; json_text "{'a' 1}"; json_text "'\x'"; "1 2"] =
  replicate 7 None.
Proof. vm_compute. reflexivity. Qed.

Example stringify_ex :
  stringify (JObj [("token", JStr (String dq (String backslash (String (of_byte 1) "é"))));
                   ("x", JUndef); ("l", JArr [JUndef; JNum NaN; JNum (int (-5))])]) =
  Some (json_text "{'token':'\" +:+ String dq (json_text "\\\u0001é','l':[null,null,-5]}")).
Proof. vm_compute. reflexivity. Qed.

Example stringify2_ex :
  (v ← parse (json_text "{'a':[1,{}],'b':[]}"); stringify2 v) =
  Some (json_text "{" +:+ newline "  " +:+ json_text "'a': [" +:+ newline "    " +:+ "1," +:+ newline "    " +:+ "{}" +:+
        newline "  " +:+ "]," +:+ newline "  " +:+ json_text "'b': []" +:+ newline "" +:+ "}").
Proof. vm_compute. reflexivity. Qed.

(** ** The round trip *)

Lemma parse_chars_escape c t :
  parse_chars (escape c +:+ t) = (fun '(u, r) => (String c u, r)) <$> parse_chars t.
Proof. destruct c as [[] [] [] [] [] [] [] []]; reflexivity. Qed.

Lemma parse_chars_escape_all s r :
  parse_chars (escape_all s +:+ String dq r) = Some (s, r).
Proof.
  induction s as [|c s IH]; [done|].
  cbn [escape_all]. by rewrite string_app_assoc, parse_chars_escape, IH.
Qed.

(** Numbers *)

Definition head_is (P : ascii -> bool) (s : string) : bool :=
  match s with String c _ => P c | "" => false end.

Lemma span_digits_uint u r :
  head_is is_digit r = false ->
  span_digits (NilEmpty.string_of_uint u +:+ r) = (NilEmpty.string_of_uint u, r).
Proof.
  intros Hr. induction u as [|u IH|u IH|u IH|u IH|u IH|u IH|u IH|u IH|u IH|u IH].
  { destruct r as [|c r]; [done|]. simpl in *. by rewrite Hr. }
  all: cbn [NilEmpty.string_of_uint]; rewrite string_app_cons; cbn [span_digits]; by rewrite IH.
Qed.

Lemma N_to_uint_norm n : Decimal.unorm (N.to_uint n) = N.to_uint n.
Proof. by rewrite <- DecimalN.Unsigned.to_of, DecimalN.Unsigned.of_to. Qed.

Lemma N_to_uint_shape n :
  N.to_uint n = Decimal.D0 Decimal.Nil \/
  (Decimal.nzhead (N.to_uint n) = N.to_uint n /\ N.to_uint n <> Decimal.Nil).
Proof.
  pose proof (N_to_uint_norm n) as H. unfold Decimal.unorm in H.
  destruct (Decimal.nzhead (N.to_uint n)) eqn:E; rewrite <- H; auto; right.
  all: split; [|done]; rewrite H; rewrite <- E at 1; rewrite E; congruence.
Qed.

Lemma string_of_N_uint n : string_of_N n = NilEmpty.string_of_uint (N.to_uint n).
Proof.
  unfold string_of_N, NilZero.string_of_uint.
  destruct (N_to_uint_shape n) as [->|[_ Hn]]; [done|]. by destruct (N.to_uint n).
Qed.

Lemma digits_value_string n : digits_value (string_of_N n) = Z.of_N n.
Proof.
  rewrite string_of_N_uint. unfold digits_value. rewrite NilEmpty.usu.
  unfold Z.of_uint. f_equal. apply DecimalN.Unsigned.of_to.
Qed.

Lemma string_of_N_leading n :
  match string_of_N n with "" => true | String "0" (String _ _) => true | _ => false end = false.
Proof.
  rewrite string_of_N_uint. destruct (N_to_uint_shape n) as [->|[Hz Hn]]; [done|].
  destruct (N.to_uint n) as [|u|u|u|u|u|u|u|u|u|u]; try done.
  exfalso. by apply (DecimalFacts.nzhead_nonzero (Decimal.D0 u) u).
Qed.

(** What may follow a number. *)
Definition number_tail (c : ascii) : bool :=
  negb (is_digit c || Ascii.eqb c "." || Ascii.eqb c "e" || Ascii.eqb c "E").
Definition ends_number (r : string) : Prop := r = "" \/ head_is number_tail r = true.

Lemma parse_unsigned_N n r :
  ends_number r -> parse_unsigned (string_of_N n +:+ r) = Some (int (Z.of_N n), r).
Proof.
  intros Hr. unfold parse_unsigned.
  assert (Hd : head_is is_digit r = false).
  { destruct Hr as [->|Hr]; [done|]. destruct r as [|c r]; [done|]. simpl in *.
    unfold number_tail in Hr. by destruct (is_digit c). }
  rewrite string_of_N_uint at 1. rewrite span_digits_uint by done. rewrite <- string_of_N_uint.
  rewrite string_of_N_leading.
  assert (match r with
               | String "." r' => match span_digits r' with ("", _) => None | fr => Some fr end
               | _ => Some ("", r)
               end = Some ("", r) /\ parse_exponent r = Some (0%Z, r)) as [-> Hx].
  { destruct Hr as [->|Hr]; [done|]. destruct r as [|c r]; [done|]. simpl in Hr |- *.
    unfold number_tail in Hr. rewrite !negb_orb in Hr.
    apply andb_true_iff in Hr as [[[_ H1]%andb_true_iff H2]%andb_true_iff H3].
    apply negb_true_iff in H1, H2, H3. rewrite H2, H3. split; [|done].
    destruct c as [[] [] [] [] [] [] [] []]; done. }
  rewrite Hx, string_app_nil_r, digits_value_string. unfold scale. cbn. by rewrite Z.mul_1_r.
Qed.

Lemma string_of_int z :
  string_of_num (int z) = (if (z <? 0)%Z then "-" else "") +:+ string_of_N (Z.abs_N z).
Proof. unfold string_of_num. cbn [N.of_nat]. by rewrite N.pow_0_r, N.div_1_r, string_app_nil_r. Qed.

Lemma string_of_N_head n : exists c t, string_of_N n = String c t /\ is_digit c = true.
Proof.
  rewrite string_of_N_uint. destruct (N_to_uint_shape n) as [->|[_ Hn]]; [by eauto|].
  destruct (N.to_uint n); [done|..]; simpl; eauto.
Qed.

Lemma string_of_num_truthy n : truthy_string (string_of_num n) = true.
Proof.
  destruct n as [|[]|m e]; [done..|]. unfold string_of_num. cbv zeta.
  destruct (string_of_N_head (Z.abs_N m / 10 ^ N.of_nat e)) as (ch & t & -> & _). by destruct (m <? 0)%Z.
Qed.

Lemma parse_number_int z r :
  ends_number r -> parse_number (string_of_num (int z) +:+ r) = Some (int z, r).
Proof.
  intros Hr. rewrite string_of_int. destruct (Z.ltb_spec z 0) as [Hz|Hz];
    rewrite ?string_app_cons, !string_app_nil_l, ?string_app_cons.
  - cbn [parse_number]. rewrite parse_unsigned_N by done. cbn. do 3 f_equal. lia.
  - unfold parse_number. pose proof (parse_unsigned_N (Z.abs_N z) r Hr) as Hp.
    replace (Z.of_N (Z.abs_N z)) with z in Hp by lia. rewrite Hp.
    destruct (string_of_N_head (Z.abs_N z)) as (c & t & -> & Hc).
    rewrite !string_app_cons. destruct c as [[] [] [] [] [] [] [] []]; done.
Qed.

(** The values [JSON.parse] can return, with integer numbers: no [undefined] and
    no exception inside, and objects whose properties are in enumeration order. *)
Inductive wf_json : jsval -> Prop :=
| wf_null : wf_json JNull
| wf_bool b : wf_json (JBool b)
| wf_int z : wf_json (JNum (int z))
| wf_str s : wf_json (JStr s)
| wf_arr l : Forall wf_json l -> wf_json (JArr l)
| wf_obj l : Forall (fun kv => wf_json kv.2) l -> obj_of l = l -> wf_json (JObj l).

Definition value_start (c : ascii) : bool :=
  let n := byte_of c in
  negb ((n =? 32) || (n =? 9) || (n =? 10) || (n =? 13) || (n =? 93) || (n =? 125)).

(** [s] is a printed form of [v] that the parser reads back in any context. *)
Definition printed (v : jsval) (s : string) : Prop :=
  stringify v = Some s /\ head_is value_start s = true /\
  forall fuel r, String.length s <= fuel -> ends_number r ->
    parse_value fuel (s +:+ r) = Some (v, r).

Lemma head_is_app P s t : head_is P s = true -> head_is P (s +:+ t) = true.
Proof. by destruct s. Qed.

Lemma value_start_inv c :
  value_start c = true ->
  let n := byte_of c in
  (n =? 32) || (n =? 9) || (n =? 10) || (n =? 13) = false /\ c <> "]"%char /\ c <> "}"%char.
Proof.
  intros H n. subst n. split_and_all; [|by intros ->..].
  match goal with |- ?b = false => destruct b eqn:E; [|done] end. unfold value_start in H. by rewrite E in H.
Qed.

Lemma skip_ws_char c s :
  (let n := byte_of c in (n =? 32) || (n =? 9) || (n =? 10) || (n =? 13)) = false ->
  skip_ws (String c s) = String c s.
Proof. simpl. by intros ->. Qed.

Lemma skip_ws_start s : head_is value_start s = true -> skip_ws s = s.
Proof. destruct s as [|c s]; [done|]. simpl. by intros [-> _]%value_start_inv. Qed.

Lemma expect_start c s :
  c = "]"%char \/ c = "}"%char -> head_is value_start s = true -> expect c s = None.
Proof.
  intros Hc. destruct s as [|d s]; [done|]. simpl. intros (_ & H1 & H2)%value_start_inv.
  destruct (Ascii.eqb_spec d c) as [->|]; [|done]. by destruct Hc as [-> | ->].
Qed.

Lemma expect_other c d s : d <> c -> expect c (String d s) = None.
Proof. intros H. simpl. by rewrite (proj2 (Ascii.eqb_neq _ _) H). Qed.

Lemma expect_same c s : expect c (String c s) = Some s.
Proof. simpl. by rewrite Ascii.eqb_refl. Qed.

Lemma join_one sep x : join sep [x] = x.
Proof. reflexivity. Qed.

Lemma join_cons sep x y l : join sep (x :: y :: l) = x +:+ sep +:+ join sep (y :: l).
Proof. reflexivity. Qed.

Lemma join_head P sep x l : head_is P x = true -> head_is P (join sep (x :: l)) = true.
Proof. destruct l; [done|]. rewrite join_cons. apply head_is_app. Qed.

Lemma parse_elements_join vs ss fuel r :
  Forall2 printed vs ss -> vs <> [] ->
  String.length (join "," ss) < fuel ->
  parse_elements fuel (join "," ss +:+ String "]" r) = Some (vs, r).
Proof.
  intros H. revert fuel. induction H as [|v s vs ss (_ & Hh & Hp) Hall IH]; [done|].
  intros fuel _ Hf. destruct fuel as [|fuel]; [lia|]. cbn [parse_elements].
  destruct Hall as [|v' s' vs ss Hv' Hall].
  - rewrite join_one in *. rewrite Hp by first [lia | right; done]. cbn [mbind option_bind].
    rewrite skip_ws_char, expect_other, expect_same by done. done.
  - rewrite join_cons in *. rewrite !string_length_app in Hf. change (String.length ",") with 1 in Hf.
    rewrite !string_app_assoc, Hp by first [lia | right; done]. cbn [mbind option_bind].
    rewrite string_app_cons, string_app_nil_l, skip_ws_char, expect_same by done.
    rewrite skip_ws_start by (apply head_is_app, join_head, Hv').
    rewrite IH; [done|done|]. lia.
Qed.

Definition member (kv : string * jsval) (s : string) : Prop :=
  exists t, printed kv.2 t /\ s = quote kv.1 +:+ ":" +:+ t.

Lemma parse_members_join vs ss fuel r :
  Forall2 member vs ss -> vs <> [] ->
  String.length (join "," ss) < fuel ->
  parse_members fuel (join "," ss +:+ String "}" r) = Some (vs, r).
Proof.
  intros H. revert fuel. induction H as [|[k v] s vs ss (t & (_ & Hh & Hp) & ->) Hall IH]; [done|].
  intros fuel _ Hf. destruct fuel as [|fuel]; [lia|].
  assert (Hm : forall r', ends_number r' -> String.length t <= fuel ->
      parse_members (S fuel) ((quote k +:+ ":" +:+ t) +:+ r') =
      match expect "," (skip_ws r') with
      | Some r => (fun '(l, r) => ((k, v) :: l, r)) <$> parse_members fuel (skip_ws r)
      | None => (fun r => ([(k, v)], r)) <$> expect "}" (skip_ws r')
      end).
  { intros r' Hr' Hl. cbn [parse_members]. unfold quote.
    rewrite !string_app_assoc, string_app_cons, expect_same. cbn [mbind option_bind].
    rewrite !string_app_assoc, string_app_cons, string_app_nil_l, parse_chars_escape_all.
    cbn [mbind option_bind]. rewrite string_app_cons, string_app_nil_l.
    rewrite skip_ws_char, expect_same by done. cbn [mbind option_bind].
    rewrite skip_ws_start by by apply head_is_app. by rewrite Hp. }
  destruct Hall as [|v' s' vs ss Hv' Hall].
  - rewrite join_one in *. rewrite !string_length_app in Hf. rewrite Hm by first [lia | right; done].
    rewrite skip_ws_char, expect_other, expect_same by done. done.
  - rewrite join_cons in *. rewrite !string_length_app in Hf.
    change (String.length ",") with 1 in Hf.
    rewrite string_app_assoc, Hm by first [lia | right; done].
    rewrite string_app_assoc, string_app_cons, string_app_nil_l, skip_ws_char, expect_same by done.
    rewrite skip_ws_start; cycle 1.
    { apply head_is_app, join_head. destruct Hv' as (t' & _ & ->). done. }
    rewrite IH; [done|done|]. lia.
Qed.

Lemma printed_array l :
  Forall (fun v => exists s, printed v s) l -> exists s, printed (JArr l) s.
Proof.
  intros Hl. apply Forall_exists_Forall2_l in Hl as [ss Hl].
  assert (E : map (fun v => match stringify v with Some s => s | None => "null" end) l = ss)
    by (induction Hl as [|v s l ss (Hv & _) _ IH]; [done|]; cbn [map]; by rewrite Hv, IH).
  exists ("[" +:+ join "," ss +:+ "]"). unfold printed. split_and_all; [|done|].
  { rewrite <- E. reflexivity. }
  clear E. intros fuel r Hf Hr. rewrite !string_length_app in Hf.
  change (String.length "[") with 1 in Hf. change (String.length "]") with 1 in Hf.
  destruct fuel as [|fuel]; [lia|].
  rewrite !string_app_assoc, !string_app_cons, !string_app_nil_l.
  cbn [parse_value]. change (Ascii.eqb "[" dq) with false. change (Ascii.eqb "[" "[") with true. cbv iota.
  destruct Hl as [|v s l ss Hv Hl]; [done|].
  assert (head_is value_start (join "," (s :: ss)) = true) as Hh by apply join_head, Hv.
  rewrite skip_ws_start, expect_start by (try (by left); by apply head_is_app).
  rewrite (parse_elements_join (v :: l)); [done|by constructor|done|lia].
Qed.

Lemma printed_object l :
  Forall (fun kv => exists s, printed kv.2 s) l -> obj_of l = l -> exists s, printed (JObj l) s.
Proof.
  intros Hl Ho.
  assert (exists ss, Forall2 member l ss) as [ss Hm].
  { apply Forall_exists_Forall2_l. eapply Forall_impl; [exact Hl|].
    intros [k v] [t Ht]. exists (quote k +:+ ":" +:+ t), t. done. }
  assert (E : flat_map (fun '(k, v) => match stringify v with
                                       | Some s => [quote k +:+ ":" +:+ s]
                                       | None => []
                                       end) l = ss).
  { clear -Hm. induction Hm as [|[k v] s l ss (t & (Ht & _) & ->) _ IH]; [done|].
    cbn [flat_map]. simpl in Ht |- *. rewrite Ht. simpl. by rewrite IH. }
  exists ("{" +:+ join "," ss +:+ "}"). unfold printed. split_and_all; [|done|].
  { rewrite <- E. reflexivity. }
  clear E. intros fuel r Hf Hr. rewrite !string_length_app in Hf.
  change (String.length "{") with 1 in Hf. change (String.length "}") with 1 in Hf.
  destruct fuel as [|fuel]; [lia|].
  rewrite !string_app_assoc, !string_app_cons, !string_app_nil_l.
  cbn [parse_value]. change (Ascii.eqb "{" dq) with false. change (Ascii.eqb "{" "[") with false.
  change (Ascii.eqb "{" "{") with true. cbv iota.
  destruct Hm as [|kv s l ss Hv Hm]; [done|].
  assert (head_is value_start (join "," (s :: ss)) = true) as Hh
    by (apply join_head; by destruct Hv as (t & _ & ->)).
  rewrite skip_ws_start, expect_start by (try (by right); by apply head_is_app).
  rewrite (parse_members_join (kv :: l)); [|by constructor|done|lia].
  simpl. by rewrite Ho.
Qed.

Lemma printed_number z : exists s, printed (JNum (int z)) s.
Proof.
  eexists. unfold printed. split_and_all; [reflexivity|..].
  - rewrite string_of_int. destruct (z <? 0)%Z; [done|].
    rewrite string_app_nil_l. destruct (string_of_N_head (Z.abs_N z)) as (c & t & -> & Hc).
    simpl. destruct c as [[] [] [] [] [] [] [] []]; done.
  - intros fuel r Hf Hr. pose proof (parse_number_int z r Hr) as Hp.
    destruct fuel as [|fuel]; [exfalso|].
    { rewrite string_of_int in Hf.
      destruct (string_of_N_head (Z.abs_N z)) as (c & t & E & _). rewrite E in Hf.
      destruct (z <? 0)%Z; simpl in Hf; lia. }
    assert (exists c t, string_of_num (int z) = String c t /\ (is_digit c = true \/ c = "-"%char))
      as (c & t & E & Hc).
    { rewrite string_of_int. destruct (string_of_N_head (Z.abs_N z)) as (c & t & E & Hc).
      rewrite E. destruct (z <? 0)%Z; [|eauto]. rewrite string_app_cons. eauto. }
    rewrite E in Hp |- *. rewrite string_app_cons in Hp |- *. cbn [parse_value]. rewrite Hp.
    destruct Hc as [Hc| ->]; [|done]. by destruct c as [[] [] [] [] [] [] [] []].
Qed.

Lemma printed_word v s c :
  stringify v = Some (String c s) -> value_start c = true ->
  (forall fuel r, parse_value (S fuel) (String c s +:+ r) = Some (v, r)) ->
  exists s, printed v s.
Proof.
  intros Hs Hc Hp. exists (String c s). unfold printed. split_and_all; [done|done|].
  intros [|fuel] r Hf _; [simpl in Hf; lia|]. apply Hp.
Qed.

Lemma wf_json_printed v : wf_json v -> exists s, printed v s.
Proof.
  induction v as [| |b|n|s|l IH|l IH|] using jsval_nested_ind; intros Hwf; inversion Hwf; subst.
  - by eapply printed_word.
  - destruct b; by eapply printed_word.
  - apply printed_number.
  - eapply printed_word; [done|done|]. intros fuel r. rewrite string_app_cons, string_app_assoc.
    cbn [parse_value]. rewrite Ascii.eqb_refl, string_app_cons, string_app_nil_l.
    by rewrite parse_chars_escape_all.
  - apply printed_array. rewrite Forall_forall in *. eauto.
  - apply printed_object; [|done]. rewrite Forall_forall in *. eauto.
Qed.

(** Printing a JSON value and parsing the text gives the value back. *)
Lemma parse_stringify v :
  wf_json v -> exists s, stringify v = Some s /\ parse s = Some v.
Proof.
  intros (s & Hs & Hh & Hp)%wf_json_printed. exists s. split; [done|].
  unfold parse. rewrite skip_ws_start by done.
  specialize (Hp (String.length s) "" (le_n _) (or_introl eq_refl)).
  by rewrite string_app_nil_r in Hp; rewrite Hp.
Qed.
