(* ===== verification/Runtime.v ===== *)
(** * The runtime of a console page

    What the code of a page component can do to the outside world (HTTP requests,
    navigation, dialogs, local storage, the DOM), the monad in which its handlers
    are written, and the asynchronous machine that runs them: requests that have
    been subscribed to stay pending until the server answers, in any order, and
    confirmation dialogs stay open until the user decides.

    [HttpClient], [Router] and rxjs are third-party: a request is recorded as the
    arguments the code passes, and the machine gives the documented behaviour of
    a subscription (at most one answer, which runs the [next] or the [error]
    callback, unless the subscription has been cancelled before). *)

From S2P Require Import Prelude JsVal.

(** ** HTTP requests *)

Inductive method := GET | POST | PUT | DELETE.

#[export] Instance method_eq_dec : EqDecision method.
Proof. solve_decision. Defined.

(** [HttpParams] is immutable; a value is the sequence of calls that built it from
    the empty one. *)
Inductive param_op := PSet (k v : string) | PAppend (k v : string).

Abbreviation http_headers := (gmap string string).

(** The second argument of [post] and [put]; [OptionsObject] is a request body
    that is itself an object [{ params, headers }]. *)
Inductive http_body :=
| NoBody
| JsonBody (v : jsval)
| FormBody (entries : list string)
| OptionsObject (params : list param_op) (headers : http_headers).

Record request := mkRequest {
  req_method : method;
  req_url : string;
  req_body : http_body;
  req_params : list param_op;
  req_headers : http_headers
}.

#[export] Instance eta_request : Eta request := fun r =>
  mkRequest (req_method r) (req_url r) (req_body r) (req_params r) (req_headers r).

(** [HttpErrorResponse] *)
Record http_error := mkHttpError {
  err_status : Z;
  err_statusText : string;
  err_error : jsval
}.

(** What the code relies on of [HttpParams]: [set] replaces the values of a key,
    [append] adds one, and the other keys keep theirs. *)
Class HttpParams (P : Type) := {
  p_empty : P;
  p_set : string -> string -> P -> P;
  p_append : string -> string -> P -> P;
  p_getAll : string -> P -> list string;
  p_getAll_empty k : p_getAll k p_empty = [];
  p_getAll_set k k' v p :
    p_getAll k (p_set k' v p) = if decide (k = k') then [v] else p_getAll k p;
  p_getAll_append k k' v p :
    p_getAll k (p_append k' v p) = if decide (k = k') then p_getAll k p ++ [v] else p_getAll k p
}.

Definition build_params {P} `{HttpParams P} (ops : list param_op) : P :=
  fold_left (fun p op => match op with PSet k v => p_set k v p | PAppend k v => p_append k v p end)
    ops p_empty.

(** What a key holds after the calls [ops]. *)
Definition param_values (k : string) (ops : list param_op) : list string :=
  fold_left (fun l op => match op with
                         | PSet k' v => if decide (k = k') then [v] else l
                         | PAppend k' v => if decide (k = k') then l ++ [v] else l
                         end) ops [].

Lemma getAll_build_params {P} `{HttpParams P} k ops :
  p_getAll k (build_params ops : P) = param_values k ops.
Proof.
  unfold build_params, param_values.
  enough (forall (p : P) l, p_getAll k p = l ->
    p_getAll k (fold_left (fun p op => match op with
                                       | PSet k v => p_set k v p
                                       | PAppend k v => p_append k v p
                                       end) ops p) =
    fold_left (fun l op => match op with
                           | PSet k' v => if decide (k = k') then [v] else l
                           | PAppend k' v => if decide (k = k') then l ++ [v] else l
                           end) ops l) as Hgen by apply Hgen, p_getAll_empty.
  induction ops as [|[k' v|k' v] ops IH]; intros p l E; simpl; [done|..]; apply IH.
  - by rewrite p_getAll_set, E.
  - by rewrite p_getAll_append, E.
Qed.

(** A lawful instance: the values of each key. *)
#[export] Instance function_params : HttpParams (string -> list string).
Proof.
  refine {|
    p_empty := fun _ => [];
    p_set := fun k v p k' => if decide (k' = k) then [v] else p k';
    p_append := fun k v p k' => if decide (k' = k) then p k' ++ [v] else p k';
    p_getAll := fun k p => p k
  |}; done.
Defined.

(** ** Effects of a handler *)

(** [router.navigate(commands, {relativeTo, queryParams, queryParamsHandling})] *)
Record navigation := mkNavigation {
  nav_commands : list string;
  nav_query : list (string * jsval);
  nav_merge : bool
}.

(** [K] names the subscriptions of a component (with the variables their
    callbacks capture), [D] its confirmation dialogs. *)
Inductive cmd (K D : Type) :=
| Send (k : K) (r : request)
| Notify                              (* [querySubject.next()] *)
| Complete                            (* [querySubject.complete()] *)
| OpenConfirm (d : D)
| CloseModal
| Output (name : string)              (* [emit()] of an [@Output()] *)
| Navigate (n : navigation)
| SetDisabled (b : bool)              (* [event.target.disabled = b] *)
| PreventDefault
| SetItem (k : string) (v : jsval)    (* [localStorage.setItem] *)
| RemoveItem (k : string)
| SaveFile (name : string) (content : jsval)
| EditorSet (content : jsval)
| Alert (msg : string)
| Report (e : jsval).                 (* an exception left in a subscriber *)
Arguments Send {K D} k r.
Arguments Notify {K D}.
Arguments Complete {K D}.
Arguments OpenConfirm {K D} d.
Arguments CloseModal {K D}.
Arguments Output {K D} name.
Arguments Navigate {K D} n.
Arguments SetDisabled {K D} b.
Arguments PreventDefault {K D}.
Arguments SetItem {K D} k v.
Arguments RemoveItem {K D} k.
Arguments SaveFile {K D} name content.
Arguments EditorSet {K D} content.
Arguments Alert {K D} msg.
Arguments Report {K D} e.

(** ** Handlers: state, commands in order, and exceptions

    A thrown exception keeps the state and the commands up to the throw. *)

Inductive outcome (A : Type) := Ret (a : A) | Throw (e : jsval).
Arguments Ret {A} a.
Arguments Throw {A} e.

Definition M (S C A : Type) : Type := S -> outcome A * S * list C.

Section monad.
Context {S C : Type}.

Definition ret {A} (a : A) : M S C A := fun s => (Ret a, s, []).
Definition throw {A} (e : jsval) : M S C A := fun s => (Throw e, s, []).
Definition bind {A B} (m : M S C A) (f : A -> M S C B) : M S C B := fun s =>
  match m s with
  | (Ret a, s', l) => let '(o, s'', l') := f a s' in (o, s'', l ++ l')
  | (Throw e, s', l) => (Throw e, s', l)
  end.
Definition gets {A} (f : S -> A) : M S C A := fun s => (Ret (f s), s, []).
Definition assign {A} (f : S -> A) `{!Setter f} (v : A) : M S C unit := fun s =>
  (Ret tt, setf (f := f) (fun _ => v) s, []).
Definition emit (c : C) : M S C unit := fun s => (Ret tt, s, [c]).

(** [try { m } catch (e) { h(e) }] *)
Definition try_catch {A} (m : M S C A) (h : jsval -> M S C A) : M S C A := fun s =>
  match m s with
  | (Throw e, s', l) => let '(o, s'', l') := h e s' in (o, s'', l ++ l')
  | r => r
  end.
End monad.

(** Runs a handler of a part [f] of the state. *)
Definition zoom {S T C A} (f : S -> T) `{!Setter f} (m : M T C A) : M S C A := fun s =>
  let '(o, t, l) := m (f s) in (o, setf (f := f) (fun _ => t) s, l).

#[export] Instance M_ret S C : MRet (M S C) := fun A => ret.
#[export] Instance M_bind S C : MBind (M S C) := fun A B f m => bind m f.

(** The callback of a synchronous subscription: an exception does not reach the
    caller of [subscribe], rxjs reports it. *)
Definition subscriber {S K D} (m : M S (cmd K D) unit) : M S (cmd K D) unit :=
  try_catch m (fun e => emit (Report e)).

Notation "f <~ v" := (assign f v) (at level 60, no associativity) : js_scope.

Definition when {S C} (b : bool) (m : M S C unit) : M S C unit := if b then m else ret tt.

(** Spreading a missing array ([...d.users]) and dereferencing a missing value
    are [TypeError]s. *)
Definition TypeError (what : string) : jsval := JError "TypeError" what.

Definition force {S C A} (what : string) (v : opt A) : M S C A :=
  match v with Val a => ret a | _ => throw (TypeError what) end.

(** Unfolds the monad, so that a handler applied to a state computes. *)
Ltac run_m :=
  unfold when, force, subscriber, try_catch, mbind, M_bind, bind, mret, M_ret, ret, throw, gets, assign, emit, setf;
  cbn [fst snd app].
Tactic Notation "run_m" "in" hyp(H) :=
  unfold when, force, subscriber, try_catch, mbind, M_bind, bind, mret, M_ret, ret, throw, gets, assign, emit, setf in H;
  cbn [fst snd app] in H.

Lemma M_bind_ret {S C A B} (m : M S C A) (f : A -> M S C B) s a s' l :
  m s = (Ret a, s', l) ->
  (m ≫= f) s = let '(o, s'', l') := f a s' in (o, s'', l ++ l').
Proof. intros E. run_m. by rewrite E. Qed.

Lemma M_bind_throw {S C A B} (m : M S C A) (f : A -> M S C B) s e s' l :
  m s = (Throw e, s', l) -> (m ≫= f) s = (Throw e, s', l).
Proof. intros E. run_m. by rewrite E. Qed.

Lemma bind_force {S C A B} what (a : A) (f : A -> M S C B) s : (force what (Val a) ≫= f) s = f a s.
Proof. run_m. by destruct (f a s) as [[? ?] ?]. Qed.

(** Handlers that keep a property of the state, whether they return or throw. *)
Section preserves.
Context {S C : Type} (P : S -> Prop).

Definition preserves {A} (m : M S C A) : Prop := forall s, P s -> P (m s).1.2.

Lemma preserves_ret {A} (a : A) : preserves (ret a). Proof. by intros s. Qed.
Lemma preserves_throw {A} e : preserves (throw (A := A) e). Proof. by intros s. Qed.
Lemma preserves_gets {A} (f : S -> A) : preserves (gets f). Proof. by intros s. Qed.
Lemma preserves_emit c : preserves (emit c). Proof. by intros s. Qed.
Lemma preserves_force {A} what (v : opt A) : preserves (force what v). Proof. by destruct v; intros s. Qed.
Lemma preserves_assign {A} (f : S -> A) `{!Setter f} v :
  (forall s, P s -> P (setf (f := f) (fun _ => v) s)) -> preserves (f <~ v).
Proof. done. Qed.
Lemma preserves_bind {A B} (m : M S C A) (f : A -> M S C B) :
  preserves m -> (forall a, preserves (f a)) -> preserves (m ≫= f).
Proof.
  intros Hm Hf s Hs. specialize (Hm s Hs). run_m. destruct (m s) as [[[a|e] s1] l]; [|exact Hm].
  specialize (Hf a s1 Hm). by destruct (f a s1) as [[o s2] l'].
Qed.
Lemma preserves_try {A} (m : M S C A) h : preserves m -> (forall e, preserves (h e)) -> preserves (try_catch m h).
Proof.
  intros Hm Hh s Hs. specialize (Hm s Hs). run_m. destruct (m s) as [[[a|e] s1] l]; [exact Hm|].
  specialize (Hh e s1 Hm). by destruct (h e s1) as [[o s2] l'].
Qed.
Lemma preserves_when b (m : M S C unit) : preserves m -> preserves (when b m).
Proof. intros Hm. by destruct b; [|apply preserves_ret]. Qed.
End preserves.

(** A handler of a part of the state. *)
Lemma preserves_zoom {S T C A} (P : S -> Prop) (Q : T -> Prop) (f : S -> T) `{!Setter f} (m : M T C A) :
  (forall s, P s -> Q (f s)) -> (forall s t, P s -> Q t -> P (setf (f := f) (fun _ => t) s)) ->
  preserves Q m -> preserves P (zoom f m).
Proof.
  intros H1 H2 Hm s Hs. specialize (Hm (f s) (H1 s Hs)). unfold zoom.
  destruct (m (f s)) as [[o t] l]. by apply H2.
Qed.

Lemma preserves_subscriber {S K D} (P : S -> Prop) (m : M S (cmd K D) unit) : preserves P m -> preserves P (subscriber m).
Proof. intros Hm. apply preserves_try; [done|]. intros e. apply preserves_emit. Qed.

(** Proves [preserves] of the code of a handler, but for assignments that matter. *)
Create HintDb preserves.
#[export] Hint Resolve preserves_ret preserves_throw preserves_gets preserves_emit preserves_force preserves_bind
  preserves_when preserves_subscriber : preserves.
#[export] Hint Extern 1 (preserves _ (_ <~ _)) =>
  apply preserves_assign; let s := fresh in let H := fresh in intros s H; destruct s; exact H : preserves.
#[export] Hint Extern 1 (preserves _ (match ?v with _ => _ end)) => destruct v : preserves.

(** Handlers all of whose commands are of a kind. *)
Section issues.
Context {S C : Type} (P : C -> Prop).

Definition issues {A} (m : M S C A) : Prop := forall s, Forall P (m s).2.

Lemma issues_ret {A} (a : A) : issues (ret a). Proof. by intros s. Qed.
Lemma issues_throw {A} e : issues (throw (A := A) e). Proof. by intros s. Qed.
Lemma issues_gets {A} (g : S -> A) : issues (gets g). Proof. by intros s. Qed.
Lemma issues_assign {A} (g : S -> A) `{!Setter g} v : issues (g <~ v). Proof. by intros s. Qed.
Lemma issues_force {A} what (v : opt A) : issues (force what v). Proof. by destruct v; intros s. Qed.
Lemma issues_emit c : P c -> issues (emit c).
Proof. intros Hc s. by constructor. Qed.
Lemma issues_bind {A B} (m : M S C A) (g : A -> M S C B) : issues m -> (forall a, issues (g a)) -> issues (m ≫= g).
Proof.
  intros Hm Hg s. specialize (Hm s). run_m. destruct (m s) as [[[a|e] s1] l]; [|exact Hm].
  specialize (Hg a s1). destruct (g a s1) as [[o s2] l']. by apply Forall_app.
Qed.
Lemma issues_try {A} (m : M S C A) h : issues m -> (forall e, issues (h e)) -> issues (try_catch m h).
Proof.
  intros Hm Hh s. specialize (Hm s). run_m. destruct (m s) as [[[a|e] s1] l]; [exact Hm|].
  specialize (Hh e s1). destruct (h e s1) as [[o s2] l']. by apply Forall_app.
Qed.
Lemma issues_when b (m : M S C unit) : issues m -> issues (when b m).
Proof. intros Hm. by destruct b; [|apply issues_ret]. Qed.
End issues.

Lemma issues_subscriber {S K D} (P : cmd K D -> Prop) (m : M S (cmd K D) unit) :
  (forall e, P (Report e)) -> issues P m -> issues P (subscriber m).
Proof. intros Hf Hm. apply issues_try; [done|]. intros e. by apply issues_emit. Qed.

(** Handlers that never issue a command of a kind. *)
Abbreviation avoids f := (issues (fun c => f c = false)).

Lemma avoids_existsb {S C A} (f : C -> bool) (m : M S C A) s : avoids f m -> existsb f (m s).2 = false.
Proof.
  intros Hm. specialize (Hm s). induction Hm as [|x l Hx _ IH]; [done|]. cbn. by rewrite Hx.
Qed.

Create HintDb issues.
#[export] Hint Resolve issues_ret issues_throw issues_gets issues_assign issues_force : issues.
#[export] Hint Extern 1 (issues _ (emit _)) => apply issues_emit; first [reflexivity | exact I] : issues.

(** Proves [issues] of the code of a handler whose definitions have been unfolded. *)
Ltac quietly :=
  repeat (intros; cbv zeta;
    first [ solve [eauto 2 with issues] | apply issues_bind | apply issues_when | apply issues_subscriber; [by intros|] | apply issues_try
          | match goal with |- issues _ (match ?v with _ => _ end) => destruct v end ]).

(** What some commands ask of the server, and of the router. *)
Definition requests_of {K D} (l : list (cmd K D)) : list request :=
  flat_map (fun x => match x with Send _ r => [r] | _ => [] end) l.
Definition navigations_of {K D} (l : list (cmd K D)) : list navigation :=
  flat_map (fun x => match x with Navigate n => [n] | _ => [] end) l.

(** ** Running a component *)

Class Component (S Ev K D : Type) := {
  resp : K -> Type;                           (* what the server answers to [K] *)
  on_event : Ev -> M S (cmd K D) unit;        (* user actions and router events *)
  on_next : forall k, resp k -> M S (cmd K D) unit;
  on_error : K -> jsval -> M S (cmd K D) unit;
  on_confirm : D -> jsval -> M S (cmd K D) unit;
  take_until : K -> bool                      (* piped through [takeUntil(querySubject)] *)
}.
Arguments resp {S Ev K D _} k.

Section machine.
Context {S Ev K D : Type} {comp : Component S Ev K D}.

Record config := mkMachine {
  c_state : S;
  c_pending : list K;      (* subscriptions without an answer, oldest first *)
  c_dialogs : list D;
  c_trace : list (cmd K D) (* every command issued so far *)
}.

Inductive action :=
| User (e : Ev)
| Respond (i : nat) (answer : forall k : K, resp k)
| Refuse (i : nat) (e : jsval)
| Confirm (i : nat) (value : jsval)
| Cancel (i : nat).

(** What does not go through a dialog of the page. *)
Definition own (a : action) : bool := match a with Confirm _ _ | Cancel _ => false | _ => true end.

Definition absorb (c : config) (x : cmd K D) : config :=
  let c := mkMachine (c_state c) (c_pending c) (c_dialogs c) (c_trace c ++ [x]) in
  match x with
  | Send k _ => mkMachine (c_state c) (c_pending c ++ [k]) (c_dialogs c) (c_trace c)
  | Notify => mkMachine (c_state c) (List.filter (fun k => negb (take_until k)) (c_pending c))
                (c_dialogs c) (c_trace c)
  | OpenConfirm d => mkMachine (c_state c) (c_pending c) (c_dialogs c ++ [d]) (c_trace c)
  | _ => c
  end.

(** Runs a handler; tells whether it returned normally. *)
Definition run (m : M S (cmd K D) unit) (c : config) : bool * config :=
  let '(o, s, l) := m (c_state c) in
  (match o with Ret _ => true | Throw _ => false end,
   fold_left absorb l (mkMachine s (c_pending c) (c_dialogs c) (c_trace c))).

Definition drop_pending (i : nat) (c : config) : config :=
  mkMachine (c_state c) (splice1 i (c_pending c)) (c_dialogs c) (c_trace c).
Definition drop_dialog (i : nat) (c : config) : config :=
  mkMachine (c_state c) (c_pending c) (splice1 i (c_dialogs c)) (c_trace c).

Definition exec (c : config) (a : action) : config :=
  match a with
  | User e => (run (on_event e) c).2
  | Respond i answer =>
      match c_pending c !! i with
      | Some k => (run (on_next k (answer k)) (drop_pending i c)).2
      | None => c
      end
  | Refuse i e =>
      match c_pending c !! i with
      | Some k => (run (on_error k e) (drop_pending i c)).2
      | None => c
      end
  | Confirm i v =>
      match c_dialogs c !! i with
      | Some d => let '(ok, c') := run (on_confirm d v) c in
                  if ok then drop_dialog i c' else c'
      | None => c
      end
  | Cancel i => drop_dialog i c
  end.

Definition exec_all (c : config) (l : list action) : config := fold_left exec l c.

Definition start (s : S) : config := mkMachine s [] [] [].

Inductive reachable (c0 : config) : config -> Prop :=
| reach_refl : reachable c0 c0
| reach_step c a : reachable c0 c -> reachable c0 (exec c a).

Lemma reachable_trans c1 c2 c3 : reachable c1 c2 -> reachable c2 c3 -> reachable c1 c3.
Proof. intros H. induction 1; [done|]. by constructor. Qed.

Lemma reachable_exec_all c l : reachable c (exec_all c l).
Proof.
  unfold exec_all. revert c. induction l as [|a l IH]; intros c; simpl; [constructor|].
  apply (reachable_trans _ (exec c a)); [constructor; constructor|apply IH].
Qed.

(** An invariant of the state is preserved when every handler preserves it. *)
Lemma reachable_invariant (I : config -> Prop) c0 c :
  I c0 -> (forall c a, I c -> I (exec c a)) -> reachable c0 c -> I c.
Proof. intros H0 Hstep. by induction 1; [|apply Hstep]. Qed.

(** One step, from the result of its handler. *)
Lemma exec_all_cons c a l : exec_all c (a :: l) = exec_all (exec c a) l.
Proof. reflexivity. Qed.

Lemma exec_User c e o s l :
  on_event e (c_state c) = (o, s, l) ->
  exec c (User e) = fold_left absorb l (mkMachine s (c_pending c) (c_dialogs c) (c_trace c)).
Proof. intros E. cbn. unfold run. by rewrite E. Qed.

Lemma exec_Respond c i k answer o s l :
  c_pending c !! i = Some k -> on_next k (answer k) (c_state c) = (o, s, l) ->
  exec c (Respond i answer) =
    fold_left absorb l (mkMachine s (splice1 i (c_pending c)) (c_dialogs c) (c_trace c)).
Proof. intros Ek E. cbn. rewrite Ek. unfold run. cbn. by rewrite E. Qed.

Lemma exec_Respond_none c i answer : c_pending c !! i = None -> exec c (Respond i answer) = c.
Proof. intros E. cbn. by rewrite E. Qed.

Lemma exec_Refuse c i k e o s l :
  c_pending c !! i = Some k -> on_error k e (c_state c) = (o, s, l) ->
  exec c (Refuse i e) =
    fold_left absorb l (mkMachine s (splice1 i (c_pending c)) (c_dialogs c) (c_trace c)).
Proof. intros Ek E. cbn. rewrite Ek. unfold run. cbn. by rewrite E. Qed.

Lemma exec_Confirm c i d v s l :
  c_dialogs c !! i = Some d -> on_confirm d v (c_state c) = (Ret tt, s, l) ->
  exec c (Confirm i v) =
    drop_dialog i (fold_left absorb l (mkMachine s (c_pending c) (c_dialogs c) (c_trace c))).
Proof. intros Ed E. cbn. rewrite Ed. unfold run. by rewrite E. Qed.

(** Commands do not touch the state, and their effect does not depend on it. *)
Lemma absorb_state l c : c_state (fold_left absorb l c) = c_state c.
Proof. revert c. induction l as [|x l IH]; intros c; simpl; [done|]. rewrite IH. by destruct x. Qed.

Lemma absorb_set_state l s c :
  fold_left absorb l (mkMachine s (c_pending c) (c_dialogs c) (c_trace c)) =
  let c' := fold_left absorb l c in mkMachine s (c_pending c') (c_dialogs c') (c_trace c').
Proof.
  revert c. induction l as [|x l IH]; intros c; simpl; [done|].
  rewrite <- IH. f_equal. by destruct x.
Qed.

(** The state after running a handler is the one the handler computes. *)
Lemma run_state m c : c_state (run m c).2 = (m (c_state c)).1.2.
Proof. unfold run. destruct (m (c_state c)) as [[o s] l]. simpl. by rewrite absorb_state. Qed.

Lemma absorb_trace l c : c_trace (fold_left absorb l c) = c_trace c ++ l.
Proof.
  revert c. induction l as [|x l IH]; intros c; simpl; [by rewrite app_nil_r|].
  rewrite IH. replace (c_trace (absorb c x)) with (c_trace c ++ [x]) by (by destruct x).
  by rewrite <- app_assoc.
Qed.

Lemma run_trace m c : c_trace (run m c).2 = c_trace c ++ (m (c_state c)).2.
Proof. unfold run. destruct (m (c_state c)) as [[o s] l]. simpl. by rewrite absorb_trace. Qed.

(** A step only adds to the trace. *)
Lemma exec_trace c a : exists l, c_trace (exec c a) = c_trace c ++ l.
Proof.
  destruct a as [e|i f|i e|i v|i]; cbn [exec].
  - rewrite run_trace. by eexists.
  - destruct (c_pending c !! i); [rewrite run_trace; by eexists|exists []; by rewrite app_nil_r].
  - destruct (c_pending c !! i); [rewrite run_trace; by eexists|exists []; by rewrite app_nil_r].
  - destruct (c_dialogs c !! i) as [d|]; [|exists []; by rewrite app_nil_r].
    pose proof (run_trace (on_confirm d v) c) as E. destruct (run (on_confirm d v) c) as [[] c']; cbn in *; rewrite E; by eexists.
  - exists []. by rewrite app_nil_r.
Qed.

(** An invariant of the state and of what has been done holds of every reachable
    configuration when each handler preserves it. *)
Lemma reachable_handlers (I : S -> list (cmd K D) -> Prop) s0 c
  (keeps := fun m : M S (cmd K D) unit => forall s t, I s t -> I (m s).1.2 (t ++ (m s).2)) :
  I s0 [] -> (forall e, keeps (on_event e)) -> (forall k a, keeps (on_next k a)) ->
  (forall k e, keeps (on_error k e)) -> (forall d v, keeps (on_confirm d v)) ->
  reachable (start s0) c -> I (c_state c) (c_trace c).
Proof.
  intros H0 He Hn Hr Hc. apply (reachable_invariant (fun c => I (c_state c) (c_trace c))); [done|].
  clear c. intros c a Hi.
  assert (Hrun : forall m c', keeps m -> c_state c' = c_state c -> c_trace c' = c_trace c ->
                   I (c_state (run m c').2) (c_trace (run m c').2)).
  { intros m c' Hm Es Et. rewrite run_state, run_trace, Es, Et. by apply Hm. }
  destruct a as [e|i f|i e|i v|i]; cbn [exec].
  - by apply Hrun.
  - destruct (c_pending c !! i); [by apply Hrun|done].
  - destruct (c_pending c !! i); [by apply Hrun|done].
  - destruct (c_dialogs c !! i) as [d|]; [|done].
    pose proof (Hrun (on_confirm d v) c (Hc d v) eq_refl eq_refl) as H.
    destruct (run (on_confirm d v) c) as [[] c']; exact H.
  - done.
Qed.

Lemma exec_preserves (P : S -> Prop) c a :
  P (c_state c) -> (forall e, a = User e -> preserves P (on_event e)) -> (forall k r, preserves P (on_next k r)) ->
  (forall k e, preserves P (on_error k e)) -> (forall d v, preserves P (on_confirm d v)) ->
  P (c_state (exec c a)).
Proof.
  intros Hi He Hn Hr Hc. destruct a as [e|i f|i e|i v|i]; cbn [exec].
  - rewrite run_state. by apply He.
  - destruct (c_pending c !! i); [rewrite run_state; by apply Hn|done].
  - destruct (c_pending c !! i); [rewrite run_state; by apply Hr|done].
  - destruct (c_dialogs c !! i) as [d|]; [|done]. pose proof (run_state (on_confirm d v) c) as E.
    destruct (run (on_confirm d v) c) as [[] c']; cbn in *; rewrite E; by apply Hc.
  - done.
Qed.

Lemma reachable_preserves_from (P : S -> Prop) c0 c :
  P (c_state c0) -> (forall e, preserves P (on_event e)) -> (forall k a, preserves P (on_next k a)) ->
  (forall k e, preserves P (on_error k e)) -> (forall d v, preserves P (on_confirm d v)) ->
  reachable c0 c -> P (c_state c).
Proof.
  intros H0 He Hn Hr Hc. apply (reachable_invariant (fun c => P (c_state c))); [done|].
  intros c' a Hi. by apply exec_preserves.
Qed.

(** What is done in a run, one action after the other. *)
Lemma exec_all_app c l l' : exec_all c (l ++ l') = exec_all (exec_all c l) l'.
Proof. apply fold_left_app. Qed.

Lemma exec_all_snoc c l a : exec_all c (l ++ [a]) = exec (exec_all c l) a.
Proof. apply exec_all_app. Qed.

(** An invariant of the state and of all that has been done. *)
Lemma exec_all_invariant (I : list action -> config -> Prop) c0 l :
  I [] c0 -> (forall l c a, I l c -> I (l ++ [a]) (exec c a)) -> I l (exec_all c0 l).
Proof. intros H0 Hstep. induction l as [|a l IH] using rev_ind; [done|]. rewrite exec_all_snoc. by apply Hstep. Qed.

(** Runs in which some events do not happen. *)
Lemma exec_all_preserves (P : S -> Prop) (ok : Ev -> Prop) c0 l :
  P (c_state c0) -> (forall e, ok e -> preserves P (on_event e)) -> (forall k r, preserves P (on_next k r)) ->
  (forall k e, preserves P (on_error k e)) -> (forall d v, preserves P (on_confirm d v)) ->
  Forall (fun a => match a with User e => ok e | _ => True end) l -> P (c_state (exec_all c0 l)).
Proof.
  intros H0 He Hn Hr Hc. induction l as [|a l IH] using rev_ind; [done|]. intros [Hl Ha]%Forall_app. rewrite exec_all_snoc.
  apply exec_preserves; [by apply IH| |done..]. intros e ->. apply He. by inversion_clear Ha.
Qed.

Lemma reachable_preserves (P : S -> Prop) s0 c :
  P s0 -> (forall e, preserves P (on_event e)) -> (forall k a, preserves P (on_next k a)) ->
  (forall k e, preserves P (on_error k e)) -> (forall d v, preserves P (on_confirm d v)) ->
  reachable (start s0) c -> P (c_state c).
Proof. intros H0. by apply reachable_preserves_from. Qed.

(** A handler that does one thing and then another. *)
Lemma run_then m m' c s l :
  m (c_state c) = (Ret tt, s, l) ->
  (run (m;; m') c).2 =
  (run m' (fold_left absorb l (mkMachine s (c_pending c) (c_dialogs c) (c_trace c)))).2.
Proof.
  intros E. unfold run. rewrite (M_bind_ret _ _ _ _ _ _ E), absorb_state. cbn [c_state].
  destruct (m' s) as [[o s''] l']. cbn [snd]. rewrite fold_left_app. f_equal.
  by rewrite !absorb_set_state.
Qed.
End machine.

(** Runs the first action of a list: [user_step] and [respond_step] compute the
    handler, [user_step by E] and the like are given its result. *)
Ltac simpl_config := cbn [start fold_left absorb c_state c_pending c_dialogs c_trace splice1 app take drop].
Tactic Notation "user_step" := rewrite exec_all_cons; erewrite exec_User by reflexivity; simpl_config.
Tactic Notation "user_step" "by" uconstr(E) :=
  rewrite exec_all_cons; erewrite exec_User by (apply E; try done); simpl_config.
Tactic Notation "respond_step" := rewrite exec_all_cons; erewrite exec_Respond by reflexivity; simpl_config.
Tactic Notation "respond_step" "by" uconstr(E) :=
  rewrite exec_all_cons; erewrite exec_Respond by first [apply E; done | reflexivity]; simpl_config.
Tactic Notation "no_response" :=
  rewrite exec_all_cons, exec_Respond_none by reflexivity; simpl_config.
Arguments config S K D : clear implicits.
Arguments action S Ev K D {comp}.
