(* ===== verification/Forms.v ===== *)
(** * Validators of form controls

    The value of a control is [null], a text, or for a field of type number a number.  The
    validators belong to [@angular/forms]: they are a parameter of every form, and
    [Validators] says what the forms rely on.  [angular] is a lawful instance. *)

From S2P Require Import Prelude Codec JsVal.

(** The number of UTF-16 units of a string, its JavaScript length. *)
Fixpoint js_length (s : string) : nat :=
  match s with
  | "" => 0
  | String c s =>
      let n := byte_of c in
      (if between 128 191 n then 0 else if 240 <=? n then 2 else 1) + js_length s
  end.

(** [Validators.required], [Validators.minLength(n)], [Validators.maxLength(n)] and
    [Validators.pattern(p)]: whether the value is valid.  An empty text is long enough and
    matches; a pattern of letters and digits matches itself. *)
Class Validators := {
  required : jsval -> bool;
  minLength : nat -> jsval -> bool;
  maxLength : nat -> jsval -> bool;
  pattern : string -> jsval -> bool;
  required_undef : required JUndef = false;
  required_null : required JNull = false;
  required_text s : required (JStr s) = truthy_string s;
  required_number n : required (JNum n) = true;
  minLength_text n s : minLength n (JStr s) = String.eqb s "" || (n <=? js_length s);
  maxLength_null n : maxLength n JNull = true;
  maxLength_text n s : maxLength n (JStr s) = (js_length s <=? n);
  pattern_text p s : string_forall is_alnum p = true -> pattern p (JStr s) = String.eqb s "" || String.eqb s p
}.

(** The value of a field of type number after the user has typed: [None] when the text is
    empty or no number. *)
Definition number_input (v : option num) : jsval := match v with Some n => JNum n | None => JNull end.

(** A non-empty text passes [required]. *)
Lemma required_nonempty `{!Validators} s : s <> "" -> required (JStr s) = true.
Proof. intros Hs. rewrite required_text. unfold truthy_string. by rewrite (proj2 (String.eqb_neq s "")). Qed.

(** Validators with these laws. *)
Definition angular : Validators.
Proof.
  refine {|
    required := fun v => match v with JUndef | JNull => false | JStr s => truthy_string s | _ => true end;
    minLength := fun n v => match v with JStr s => String.eqb s "" || (n <=? js_length s) | _ => true end;
    maxLength := fun n v => match v with JStr s => js_length s <=? n | _ => true end;
    pattern := fun p v => match v with JStr s => String.eqb s "" || String.eqb s p | _ => true end
  |}; intros; reflexivity.
Defined.
