(* ===== verification/ConsoleTypes.v ===== *)
(** * The data of the console API ([console.service.ts])

    One record per interface and one inductive type per enumeration, with the
    source's names; a field [f] of interface [I] is the projection [I_f].  Every
    field is optional in the source: it is [undefined], [null] or a value.  A
    [Map<string, string>] is a plain object on the wire and is kept as one.  The
    [I_json] functions give the object literal a request body is.  The field
    [max_count] of a group's update is of any type: a text input fills it. *)

From S2P Require Import Prelude JsVal.

(** ** Enumerations *)

Inductive ListChannelMessagesRequestType :=
| ChannelType_UNKNOWN
| ChannelType_ROOM
| ChannelType_GROUP
| ChannelType_DIRECT.

Definition ListChannelMessagesRequestType_value (x : ListChannelMessagesRequestType) : Z :=
  match x with
  | ChannelType_UNKNOWN => 0
  | ChannelType_ROOM => 1
  | ChannelType_GROUP => 2
  | ChannelType_DIRECT => 3
  end.

#[export] Instance ListChannelMessagesRequestType_eq_dec : EqDecision ListChannelMessagesRequestType.
Proof. solve_decision. Defined.

Inductive StatusHealth :=
| STATUS_HEALTH_OK
| STATUS_HEALTH_ERROR
| STATUS_HEALTH_CONNECTING
| STATUS_HEALTH_DISCONNECTING.

Definition StatusHealth_value (x : StatusHealth) : Z :=
  match x with
  | STATUS_HEALTH_OK => 0
  | STATUS_HEALTH_ERROR => 1
  | STATUS_HEALTH_CONNECTING => 2
  | STATUS_HEALTH_DISCONNECTING => 3
  end.

#[export] Instance StatusHealth_eq_dec : EqDecision StatusHealth.
Proof. solve_decision. Defined.

Inductive UserRole :=
| USER_ROLE_UNKNOWN
| USER_ROLE_ADMIN
| USER_ROLE_DEVELOPER
| USER_ROLE_MAINTAINER
| USER_ROLE_READONLY.

Definition UserRole_value (x : UserRole) : Z :=
  match x with
  | USER_ROLE_UNKNOWN => 0
  | USER_ROLE_ADMIN => 1
  | USER_ROLE_DEVELOPER => 2
  | USER_ROLE_MAINTAINER => 3
  | USER_ROLE_READONLY => 4
  end.

#[export] Instance UserRole_eq_dec : EqDecision UserRole.
Proof. solve_decision. Defined.

Inductive ApiStoreEnvironment :=
| ENV_UNKNOWN
| ENV_SANDBOX
| ENV_PRODUCTION.

Definition ApiStoreEnvironment_value (x : ApiStoreEnvironment) : Z :=
  match x with
  | ENV_UNKNOWN => 0
  | ENV_SANDBOX => 1
  | ENV_PRODUCTION => 2
  end.

#[export] Instance ApiStoreEnvironment_eq_dec : EqDecision ApiStoreEnvironment.
Proof. solve_decision. Defined.

Inductive ApiStoreProvider :=
| APPLE_APP_STORE
| GOOGLE_PLAY_STORE
| HUAWEI_APP_GALLERY
| FACEBOOK_INSTANT_STORE.

Definition ApiStoreProvider_value (x : ApiStoreProvider) : Z :=
  match x with
  | APPLE_APP_STORE => 0
  | GOOGLE_PLAY_STORE => 1
  | HUAWEI_APP_GALLERY => 2
  | FACEBOOK_INSTANT_STORE => 3
  end.

#[export] Instance ApiStoreProvider_eq_dec : EqDecision ApiStoreProvider.
Proof. solve_decision. Defined.

(** ** Interfaces *)

Record ApiAccountDevice := mkApiAccountDevice {
  ApiAccountDevice_id : opt string;
  ApiAccountDevice_vars : jsval
}.

Record ApiUser := mkApiUser {
  ApiUser_apple_id : opt string;
  ApiUser_avatar_url : opt string;
  ApiUser_create_time : opt string;
  ApiUser_display_name : opt string;
  ApiUser_edge_count : opt num;
  ApiUser_facebook_id : opt string;
  ApiUser_facebook_instant_game_id : opt string;
  ApiUser_gamecenter_id : opt string;
  ApiUser_google_id : opt string;
  ApiUser_id : opt string;
  ApiUser_lang_tag : opt string;
  ApiUser_location : opt string;
  ApiUser_metadata : opt string;
  ApiUser_onchain_id : opt string;
  ApiUser_online : opt bool;
  ApiUser_steam_id : opt string;
  ApiUser_timezone : opt string;
  ApiUser_update_time : opt string;
  ApiUser_username : opt string
}.

#[export] Instance eta_ApiUser : Eta ApiUser := fun x =>
  mkApiUser (ApiUser_apple_id x) (ApiUser_avatar_url x) (ApiUser_create_time x) (ApiUser_display_name x) (ApiUser_edge_count x) (ApiUser_facebook_id x) (ApiUser_facebook_instant_game_id x) (ApiUser_gamecenter_id x) (ApiUser_google_id x) (ApiUser_id x) (ApiUser_lang_tag x) (ApiUser_location x) (ApiUser_metadata x) (ApiUser_onchain_id x) (ApiUser_online x) (ApiUser_steam_id x) (ApiUser_timezone x) (ApiUser_update_time x) (ApiUser_username x).

Record ApiAccount := mkApiAccount {
  ApiAccount_custom_id : opt string;
  ApiAccount_devices : opt (list ApiAccountDevice);
  ApiAccount_disable_time : opt string;
  ApiAccount_email : opt string;
  ApiAccount_user : opt ApiUser;
  ApiAccount_verify_time : opt string;
  ApiAccount_wallet : opt string
}.

#[export] Instance eta_ApiAccount : Eta ApiAccount := fun x =>
  mkApiAccount (ApiAccount_custom_id x) (ApiAccount_devices x) (ApiAccount_disable_time x) (ApiAccount_email x) (ApiAccount_user x) (ApiAccount_verify_time x) (ApiAccount_wallet x).

Record Account := mkAccount {
  Account_account : opt ApiAccount;
  Account_disable_time : opt string
}.

Record ApiFriend := mkApiFriend {
  ApiFriend_state : opt num;
  ApiFriend_update_time : opt string;
  ApiFriend_user : opt ApiUser
}.

Record ApiGroup := mkApiGroup {
  ApiGroup_avatar_url : opt string;
  ApiGroup_create_time : opt string;
  ApiGroup_creator_id : opt string;
  ApiGroup_description : opt string;
  ApiGroup_edge_count : opt num;
  ApiGroup_id : opt string;
  ApiGroup_lang_tag : opt string;
  ApiGroup_max_count : opt num;
  ApiGroup_metadata : opt string;
  ApiGroup_name : opt string;
  ApiGroup_open : opt bool;
  ApiGroup_update_time : opt string
}.

Record ApiLeaderboardRecord := mkApiLeaderboardRecord {
  ApiLeaderboardRecord_create_time : opt string;
  ApiLeaderboardRecord_expiry_time : opt string;
  ApiLeaderboardRecord_leaderboard_id : opt string;
  ApiLeaderboardRecord_max_num_score : opt num;
  ApiLeaderboardRecord_metadata : opt string;
  ApiLeaderboardRecord_num_score : opt num;
  ApiLeaderboardRecord_owner_id : opt string;
  ApiLeaderboardRecord_rank : opt string;
  ApiLeaderboardRecord_score : opt string;
  ApiLeaderboardRecord_subscore : opt string;
  ApiLeaderboardRecord_update_time : opt string;
  ApiLeaderboardRecord_username : opt string
}.

Record ApiChannelMessage := mkApiChannelMessage {
  ApiChannelMessage_channel_id : opt string;
  ApiChannelMessage_code : opt num;
  ApiChannelMessage_content : opt string;
  ApiChannelMessage_create_time : opt string;
  ApiChannelMessage_group_id : opt string;
  ApiChannelMessage_message_id : opt string;
  ApiChannelMessage_persistent : opt bool;
  ApiChannelMessage_room_name : opt string;
  ApiChannelMessage_sender_id : opt string;
  ApiChannelMessage_update_time : opt string;
  ApiChannelMessage_user_id_one : opt string;
  ApiChannelMessage_user_id_two : opt string;
  ApiChannelMessage_username : opt string
}.

Record ApiNotification := mkApiNotification {
  ApiNotification_code : opt num;
  ApiNotification_content : opt string;
  ApiNotification_create_time : opt string;
  ApiNotification_id : opt string;
  ApiNotification_persistent : opt bool;
  ApiNotification_sender_id : opt string;
  ApiNotification_subject : opt string
}.

Record ApiStorageObject := mkApiStorageObject {
  ApiStorageObject_collection : opt string;
  ApiStorageObject_create_time : opt string;
  ApiStorageObject_key : opt string;
  ApiStorageObject_permission_read : opt num;
  ApiStorageObject_permission_write : opt num;
  ApiStorageObject_update_time : opt string;
  ApiStorageObject_user_id : opt string;
  ApiStorageObject_value : opt string;
  ApiStorageObject_version : opt string
}.

#[export] Instance eta_ApiStorageObject : Eta ApiStorageObject := fun x =>
  mkApiStorageObject (ApiStorageObject_collection x) (ApiStorageObject_create_time x) (ApiStorageObject_key x) (ApiStorageObject_permission_read x) (ApiStorageObject_permission_write x) (ApiStorageObject_update_time x) (ApiStorageObject_user_id x) (ApiStorageObject_value x) (ApiStorageObject_version x).

Record WalletLedger := mkWalletLedger {
  WalletLedger_changeset : opt string;
  WalletLedger_create_time : opt string;
  WalletLedger_id : opt string;
  WalletLedger_metadata : opt string;
  WalletLedger_update_time : opt string;
  WalletLedger_user_id : opt string
}.

Record AccountExport := mkAccountExport {
  AccountExport_account : opt ApiAccount;
  AccountExport_friends : opt (list ApiFriend);
  AccountExport_groups : opt (list ApiGroup);
  AccountExport_leaderboard_records : opt (list ApiLeaderboardRecord);
  AccountExport_messages : opt (list ApiChannelMessage);
  AccountExport_notifications : opt (list ApiNotification);
  AccountExport_objects : opt (list ApiStorageObject);
  AccountExport_wallet_ledgers : opt (list WalletLedger)
}.

Record AccountList := mkAccountList {
  AccountList_next_cursor : opt string;
  AccountList_total_count : opt num;
  AccountList_users : opt (list ApiUser)
}.

Record AddUserRequest := mkAddUserRequest {
  AddUserRequest_email : opt string;
  AddUserRequest_mfa_required : opt bool;
  AddUserRequest_newsletter_subscription : opt bool;
  AddUserRequest_password : opt string;
  AddUserRequest_role : opt UserRole;
  AddUserRequest_username : opt string
}.

Record ApiEndpointDescriptor := mkApiEndpointDescriptor {
  ApiEndpointDescriptor_body_template : opt string;
  ApiEndpointDescriptor_method : opt string
}.

Record ApiEndpointList := mkApiEndpointList {
  ApiEndpointList_endpoints : opt (list ApiEndpointDescriptor);
  ApiEndpointList_rpc_endpoints : opt (list ApiEndpointDescriptor)
}.

Record AuthenticateLogoutRequest := mkAuthenticateLogoutRequest {
  AuthenticateLogoutRequest_token : opt string
}.

Record AuthenticateMFASetupRequest := mkAuthenticateMFASetupRequest {
  AuthenticateMFASetupRequest_code : opt string;
  AuthenticateMFASetupRequest_mfa : opt string
}.

Record AuthenticateMFASetupResponse := mkAuthenticateMFASetupResponse {
  AuthenticateMFASetupResponse_recovery_codes : opt (list (opt string))
}.

Record AuthenticateRequest := mkAuthenticateRequest {
  AuthenticateRequest_mfa : opt string;
  AuthenticateRequest_password : opt string;
  AuthenticateRequest_username : opt string
}.

Record CallApiEndpointResponse := mkCallApiEndpointResponse {
  CallApiEndpointResponse_body : opt string;
  CallApiEndpointResponse_error_message : opt string
}.

Record ConfigWarning := mkConfigWarning {
  ConfigWarning_field : opt string;
  ConfigWarning_message : opt string
}.

Record Config := mkConfig {
  Config_config : opt string;
  Config_server_version : opt string;
  Config_warnings : opt (list ConfigWarning)
}.

Record ConsoleAddGroupUsersBody := mkConsoleAddGroupUsersBody {
  ConsoleAddGroupUsersBody_ids : opt string;
  ConsoleAddGroupUsersBody_join_request : opt bool
}.

Record ConsoleCallApiEndpointBody := mkConsoleCallApiEndpointBody {
  ConsoleCallApiEndpointBody_body : opt string;
  ConsoleCallApiEndpointBody_session_vars : jsval;
  ConsoleCallApiEndpointBody_user_id : opt string
}.

Record ConsoleCallRpcEndpointBody := mkConsoleCallRpcEndpointBody {
  ConsoleCallRpcEndpointBody_body : opt string;
  ConsoleCallRpcEndpointBody_session_vars : jsval;
  ConsoleCallRpcEndpointBody_user_id : opt string
}.

Record ConsoleRequireUserMfaBody := mkConsoleRequireUserMfaBody {
  ConsoleRequireUserMfaBody_required : opt bool
}.

Record ConsoleSession := mkConsoleSession {
  ConsoleSession_mfa_code : opt string;
  ConsoleSession_token : opt string
}.

Record ConsoleUnlinkDeviceBody := mkConsoleUnlinkDeviceBody {
  ConsoleUnlinkDeviceBody_device_id : opt string
}.

Record ConsoleUpdateAccountBody := mkConsoleUpdateAccountBody {
  ConsoleUpdateAccountBody_avatar_url : opt string;
  ConsoleUpdateAccountBody_custom_id : opt string;
  ConsoleUpdateAccountBody_device_ids : jsval;
  ConsoleUpdateAccountBody_display_name : opt string;
  ConsoleUpdateAccountBody_email : opt string;
  ConsoleUpdateAccountBody_lang_tag : opt string;
  ConsoleUpdateAccountBody_location : opt string;
  ConsoleUpdateAccountBody_metadata : opt string;
  ConsoleUpdateAccountBody_password : opt string;
  ConsoleUpdateAccountBody_timezone : opt string;
  ConsoleUpdateAccountBody_username : opt string;
  ConsoleUpdateAccountBody_wallet : opt string
}.

Record ConsoleUpdateGroupBody := mkConsoleUpdateGroupBody {
  ConsoleUpdateGroupBody_avatar_url : opt string;
  ConsoleUpdateGroupBody_description : opt string;
  ConsoleUpdateGroupBody_lang_tag : opt string;
  ConsoleUpdateGroupBody_max_count : jsval;
  ConsoleUpdateGroupBody_metadata : opt string;
  ConsoleUpdateGroupBody_name : opt string;
  ConsoleUpdateGroupBody_open : opt bool
}.

Record ConsoleWriteStorageObjectBody := mkConsoleWriteStorageObjectBody {
  ConsoleWriteStorageObjectBody_permission_read : opt num;
  ConsoleWriteStorageObjectBody_permission_write : opt num;
  ConsoleWriteStorageObjectBody_value : opt string;
  ConsoleWriteStorageObjectBody_version : opt string
}.

Record DeleteChannelMessagesResponse := mkDeleteChannelMessagesResponse {
  DeleteChannelMessagesResponse_total : opt string
}.

Record GroupUserListGroupUser := mkGroupUserListGroupUser {
  GroupUserListGroupUser_state : opt num;
  GroupUserListGroupUser_user : opt ApiUser
}.

#[export] Instance eta_GroupUserListGroupUser : Eta GroupUserListGroupUser := fun x =>
  mkGroupUserListGroupUser (GroupUserListGroupUser_state x) (GroupUserListGroupUser_user x).

Record GroupExport := mkGroupExport {
  GroupExport_group : opt ApiGroup;
  GroupExport_members : opt (list GroupUserListGroupUser)
}.

Record GroupList := mkGroupList {
  GroupList_groups : opt (list ApiGroup);
  GroupList_next_cursor : opt string;
  GroupList_total_count : opt num
}.

Record Leaderboard := mkLeaderboard {
  Leaderboard_authoritative : opt bool;
  Leaderboard_category : opt num;
  Leaderboard_create_time : opt string;
  Leaderboard_description : opt string;
  Leaderboard_duration : opt num;
  Leaderboard_end_active : opt num;
  Leaderboard_end_time : opt string;
  Leaderboard_id : opt string;
  Leaderboard_join_required : opt bool;
  Leaderboard_max_num_score : opt num;
  Leaderboard_max_size : opt num;
  Leaderboard_metadata : opt string;
  Leaderboard_next_reset : opt num;
  Leaderboard_operator : opt num;
  Leaderboard_prev_reset : opt num;
  Leaderboard_reset_schedule : opt string;
  Leaderboard_size : opt num;
  Leaderboard_sort_order : opt num;
  Leaderboard_start_active : opt num;
  Leaderboard_start_time : opt string;
  Leaderboard_title : opt string;
  Leaderboard_tournament : opt bool
}.

Record LeaderboardList := mkLeaderboardList {
  LeaderboardList_cursor : opt string;
  LeaderboardList_leaderboards : opt (list Leaderboard);
  LeaderboardList_total : opt num
}.

Record ApiMatch := mkApiMatch {
  ApiMatch_authoritative : opt bool;
  ApiMatch_handler_name : opt string;
  ApiMatch_label : opt string;
  ApiMatch_match_id : opt string;
  ApiMatch_size : opt num;
  ApiMatch_tick_rate : opt num
}.

Record MatchListMatch := mkMatchListMatch {
  MatchListMatch_api_match : opt ApiMatch;
  MatchListMatch_node : opt string
}.

Record MatchList := mkMatchList {
  MatchList_matches : opt (list MatchListMatch)
}.

Record RealtimeUserPresence := mkRealtimeUserPresence {
  RealtimeUserPresence_persistence : opt bool;
  RealtimeUserPresence_session_id : opt string;
  RealtimeUserPresence_status : opt string;
  RealtimeUserPresence_user_id : opt string;
  RealtimeUserPresence_username : opt string
}.

Record MatchState := mkMatchState {
  MatchState_presences : opt (list RealtimeUserPresence);
  MatchState_state : opt string;
  MatchState_tick : opt string
}.

Record Notification := mkNotification {
  Notification_code : opt num;
  Notification_content : opt string;
  Notification_create_time : opt string;
  Notification_id : opt string;
  Notification_persistent : opt bool;
  Notification_sender_id : opt string;
  Notification_subject : opt string;
  Notification_user_id : opt string
}.

Record NotificationList := mkNotificationList {
  NotificationList_next_cursor : opt string;
  NotificationList_notifications : opt (list Notification);
  NotificationList_prev_cursor : opt string
}.

Record RuntimeInfoModuleInfo := mkRuntimeInfoModuleInfo {
  RuntimeInfoModuleInfo_mod_time : opt string;
  RuntimeInfoModuleInfo_path : opt string
}.

Record RuntimeInfo := mkRuntimeInfo {
  RuntimeInfo_go_modules : opt (list RuntimeInfoModuleInfo);
  RuntimeInfo_go_rpc_functions : opt (list (opt string));
  RuntimeInfo_js_modules : opt (list RuntimeInfoModuleInfo);
  RuntimeInfo_js_rpc_functions : opt (list (opt string));
  RuntimeInfo_lua_modules : opt (list RuntimeInfoModuleInfo);
  RuntimeInfo_lua_rpc_functions : opt (list (opt string))
}.

Record StatusListStatus := mkStatusListStatus {
  StatusListStatus_avg_input_kbs : opt num;
  StatusListStatus_avg_latency_ms : opt num;
  StatusListStatus_avg_output_kbs : opt num;
  StatusListStatus_avg_rate_sec : opt num;
  StatusListStatus_goroutine_count : opt num;
  StatusListStatus_health : opt StatusHealth;
  StatusListStatus_match_count : opt num;
  StatusListStatus_name : opt string;
  StatusListStatus_presence_count : opt num;
  StatusListStatus_session_count : opt num
}.

Record StatusListServiceStatus := mkStatusListServiceStatus {
  StatusListServiceStatus_allow_stream : opt bool;
  StatusListServiceStatus_balancer : opt num;
  StatusListServiceStatus_ip : opt string;
  StatusListServiceStatus_name : opt string;
  StatusListServiceStatus_port : opt num;
  StatusListServiceStatus_role : opt string;
  StatusListServiceStatus_status : opt num;
  StatusListServiceStatus_vars : jsval;
  StatusListServiceStatus_weight : opt num
}.

Record StatusList := mkStatusList {
  StatusList_nodes : opt (list StatusListStatus);
  StatusList_services : opt (list StatusListServiceStatus);
  StatusList_timestamp : opt string
}.

Record StorageCollectionsList := mkStorageCollectionsList {
  StorageCollectionsList_collections : opt (list (opt string))
}.

Record StorageListObject := mkStorageListObject {
  StorageListObject_collection : opt string;
  StorageListObject_create_time : opt string;
  StorageListObject_key : opt string;
  StorageListObject_permission_read : opt num;
  StorageListObject_permission_write : opt num;
  StorageListObject_update_time : opt string;
  StorageListObject_user_id : opt string;
  StorageListObject_version : opt string
}.

Record StorageList := mkStorageList {
  StorageList_next_cursor : opt string;
  StorageList_objects : opt (list StorageListObject);
  StorageList_total_count : opt num
}.

Record UserGroupListUserGroup := mkUserGroupListUserGroup {
  UserGroupListUserGroup_group : opt ApiGroup;
  UserGroupListUserGroup_state : opt num
}.

Record UserListUser := mkUserListUser {
  UserListUser_email : opt string;
  UserListUser_mfa_enabled : opt bool;
  UserListUser_mfa_required : opt bool;
  UserListUser_role : opt UserRole;
  UserListUser_username : opt string
}.

Record UserList := mkUserList {
  UserList_users : opt (list UserListUser)
}.

Record WalletLedgerList := mkWalletLedgerList {
  WalletLedgerList_items : opt (list WalletLedger);
  WalletLedgerList_next_cursor : opt string;
  WalletLedgerList_prev_cursor : opt string
}.

Record ApiChannelMessageList := mkApiChannelMessageList {
  ApiChannelMessageList_cacheable_cursor : opt string;
  ApiChannelMessageList_messages : opt (list ApiChannelMessage);
  ApiChannelMessageList_next_cursor : opt string;
  ApiChannelMessageList_prev_cursor : opt string
}.

Record ApiFriendList := mkApiFriendList {
  ApiFriendList_cursor : opt string;
  ApiFriendList_friends : opt (list ApiFriend)
}.

Record ApiGroupUserList := mkApiGroupUserList {
  ApiGroupUserList_cursor : opt string;
  ApiGroupUserList_group_users : opt (list GroupUserListGroupUser)
}.

Record ApiLeaderboardRecordList := mkApiLeaderboardRecordList {
  ApiLeaderboardRecordList_next_cursor : opt string;
  ApiLeaderboardRecordList_owner_records : opt (list ApiLeaderboardRecord);
  ApiLeaderboardRecordList_prev_cursor : opt string;
  ApiLeaderboardRecordList_rank_count : opt string;
  ApiLeaderboardRecordList_records : opt (list ApiLeaderboardRecord)
}.

Record ApiValidatedPurchase := mkApiValidatedPurchase {
  ApiValidatedPurchase_create_time : opt string;
  ApiValidatedPurchase_environment : opt ApiStoreEnvironment;
  ApiValidatedPurchase_product_id : opt string;
  ApiValidatedPurchase_provider_response : opt string;
  ApiValidatedPurchase_purchase_time : opt string;
  ApiValidatedPurchase_refund_time : opt string;
  ApiValidatedPurchase_seen_before : opt bool;
  ApiValidatedPurchase_store : opt ApiStoreProvider;
  ApiValidatedPurchase_transaction_id : opt string;
  ApiValidatedPurchase_update_time : opt string;
  ApiValidatedPurchase_user_id : opt string
}.

Record ApiPurchaseList := mkApiPurchaseList {
  ApiPurchaseList_cursor : opt string;
  ApiPurchaseList_prev_cursor : opt string;
  ApiPurchaseList_validated_purchases : opt (list ApiValidatedPurchase)
}.

Record ApiStorageObjectAck := mkApiStorageObjectAck {
  ApiStorageObjectAck_collection : opt string;
  ApiStorageObjectAck_create_time : opt string;
  ApiStorageObjectAck_key : opt string;
  ApiStorageObjectAck_update_time : opt string;
  ApiStorageObjectAck_user_id : opt string;
  ApiStorageObjectAck_version : opt string
}.

Record ApiValidatedSubscription := mkApiValidatedSubscription {
  ApiValidatedSubscription_active : opt bool;
  ApiValidatedSubscription_create_time : opt string;
  ApiValidatedSubscription_environment : opt ApiStoreEnvironment;
  ApiValidatedSubscription_expiry_time : opt string;
  ApiValidatedSubscription_original_transaction_id : opt string;
  ApiValidatedSubscription_product_id : opt string;
  ApiValidatedSubscription_provider_notification : opt string;
  ApiValidatedSubscription_provider_response : opt string;
  ApiValidatedSubscription_purchase_time : opt string;
  ApiValidatedSubscription_refund_time : opt string;
  ApiValidatedSubscription_store : opt ApiStoreProvider;
  ApiValidatedSubscription_update_time : opt string;
  ApiValidatedSubscription_user_id : opt string
}.

Record ApiSubscriptionList := mkApiSubscriptionList {
  ApiSubscriptionList_cursor : opt string;
  ApiSubscriptionList_prev_cursor : opt string;
  ApiSubscriptionList_validated_subscriptions : opt (list ApiValidatedSubscription)
}.

Record ApiUserGroupList := mkApiUserGroupList {
  ApiUserGroupList_cursor : opt string;
  ApiUserGroupList_user_groups : opt (list UserGroupListUserGroup)
}.

(** ** Request bodies as objects *)

Definition of_opt_bool (v : opt bool) : jsval :=
  match v with Und => JUndef | Nul => JNull | Val b => JBool b end.
Definition of_opt_num (v : opt num) : jsval :=
  match v with Und => JUndef | Nul => JNull | Val n => JNum n end.
Definition of_opt_role (v : opt UserRole) : jsval :=
  match v with Und => JUndef | Nul => JNull | Val r => JNum (int (UserRole_value r)) end.

Definition AddUserRequest_json (b : AddUserRequest) : jsval :=
  JObj [("email", of_opt (AddUserRequest_email b));
        ("mfa_required", of_opt_bool (AddUserRequest_mfa_required b));
        ("newsletter_subscription", of_opt_bool (AddUserRequest_newsletter_subscription b));
        ("password", of_opt (AddUserRequest_password b));
        ("role", of_opt_role (AddUserRequest_role b));
        ("username", of_opt (AddUserRequest_username b))].

Definition AuthenticateLogoutRequest_json (b : AuthenticateLogoutRequest) : jsval :=
  JObj [("token", of_opt (AuthenticateLogoutRequest_token b))].

Definition AuthenticateMFASetupRequest_json (b : AuthenticateMFASetupRequest) : jsval :=
  JObj [("code", of_opt (AuthenticateMFASetupRequest_code b));
        ("mfa", of_opt (AuthenticateMFASetupRequest_mfa b))].

Definition AuthenticateRequest_json (b : AuthenticateRequest) : jsval :=
  JObj [("mfa", of_opt (AuthenticateRequest_mfa b));
        ("password", of_opt (AuthenticateRequest_password b));
        ("username", of_opt (AuthenticateRequest_username b))].

Definition ConsoleAddGroupUsersBody_json (b : ConsoleAddGroupUsersBody) : jsval :=
  JObj [("ids", of_opt (ConsoleAddGroupUsersBody_ids b));
        ("join_request", of_opt_bool (ConsoleAddGroupUsersBody_join_request b))].

Definition ConsoleCallApiEndpointBody_json (b : ConsoleCallApiEndpointBody) : jsval :=
  JObj [("body", of_opt (ConsoleCallApiEndpointBody_body b));
        ("session_vars", (ConsoleCallApiEndpointBody_session_vars b));
        ("user_id", of_opt (ConsoleCallApiEndpointBody_user_id b))].

Definition ConsoleCallRpcEndpointBody_json (b : ConsoleCallRpcEndpointBody) : jsval :=
  JObj [("body", of_opt (ConsoleCallRpcEndpointBody_body b));
        ("session_vars", (ConsoleCallRpcEndpointBody_session_vars b));
        ("user_id", of_opt (ConsoleCallRpcEndpointBody_user_id b))].

Definition ConsoleRequireUserMfaBody_json (b : ConsoleRequireUserMfaBody) : jsval :=
  JObj [("required", of_opt_bool (ConsoleRequireUserMfaBody_required b))].

Definition ConsoleUnlinkDeviceBody_json (b : ConsoleUnlinkDeviceBody) : jsval :=
  JObj [("device_id", of_opt (ConsoleUnlinkDeviceBody_device_id b))].

Definition ConsoleUpdateAccountBody_json (b : ConsoleUpdateAccountBody) : jsval :=
  JObj [("avatar_url", of_opt (ConsoleUpdateAccountBody_avatar_url b));
        ("custom_id", of_opt (ConsoleUpdateAccountBody_custom_id b));
        ("device_ids", (ConsoleUpdateAccountBody_device_ids b));
        ("display_name", of_opt (ConsoleUpdateAccountBody_display_name b));
        ("email", of_opt (ConsoleUpdateAccountBody_email b));
        ("lang_tag", of_opt (ConsoleUpdateAccountBody_lang_tag b));
        ("location", of_opt (ConsoleUpdateAccountBody_location b));
        ("metadata", of_opt (ConsoleUpdateAccountBody_metadata b));
        ("password", of_opt (ConsoleUpdateAccountBody_password b));
        ("timezone", of_opt (ConsoleUpdateAccountBody_timezone b));
        ("username", of_opt (ConsoleUpdateAccountBody_username b));
        ("wallet", of_opt (ConsoleUpdateAccountBody_wallet b))].

Definition ConsoleUpdateGroupBody_json (b : ConsoleUpdateGroupBody) : jsval :=
  JObj [("avatar_url", of_opt (ConsoleUpdateGroupBody_avatar_url b));
        ("description", of_opt (ConsoleUpdateGroupBody_description b));
        ("lang_tag", of_opt (ConsoleUpdateGroupBody_lang_tag b));
        ("max_count", ConsoleUpdateGroupBody_max_count b);
        ("metadata", of_opt (ConsoleUpdateGroupBody_metadata b));
        ("name", of_opt (ConsoleUpdateGroupBody_name b));
        ("open", of_opt_bool (ConsoleUpdateGroupBody_open b))].

Definition ConsoleWriteStorageObjectBody_json (b : ConsoleWriteStorageObjectBody) : jsval :=
  JObj [("permission_read", of_opt_num (ConsoleWriteStorageObjectBody_permission_read b));
        ("permission_write", of_opt_num (ConsoleWriteStorageObjectBody_permission_write b));
        ("value", of_opt (ConsoleWriteStorageObjectBody_value b));
        ("version", of_opt (ConsoleWriteStorageObjectBody_version b))].
