(* ===== verification/ConsoleService.v ===== *)
(** * [ConsoleService] ([console.service.ts]): the requests of the console API

    One definition per method of the class: the request it passes to
    [HttpClient], from the service's configuration and the method's arguments.
    [call] collects the methods as data, so that statements about every request
    can be made at once; [routes] is the table of the server's routes, against
    which the URLs are shown to be unambiguous. *)

From S2P Require Import Prelude Codec JsVal Runtime ConsoleTypes.
From Stdlib Require Import Ascii.

Definition DEFAULT_HOST : string := "http://127.0.0.1:7120".
Definition DEFAULT_TIMEOUT_MS : num := int 5000.

Record ConfigParams := mkConfigParams {
  ConfigParams_host : string;
  ConfigParams_timeoutMs : opt num
}.

(** The constructor of the service: the injected configuration, if there is one. *)
Definition new_ConsoleService (config : opt ConfigParams) : ConfigParams :=
  let defaultConfig := mkConfigParams DEFAULT_HOST (Val DEFAULT_TIMEOUT_MS) in
  nullish config defaultConfig.

Definition httpGet (url : string) (params : list param_op) (headers : http_headers) : request :=
  mkRequest GET url NoBody params headers.
Definition httpDelete (url : string) (params : list param_op) (headers : http_headers) : request :=
  mkRequest DELETE url NoBody params headers.
Definition httpPost (url : string) (body : http_body) (params : list param_op)
    (headers : http_headers) : request :=
  mkRequest POST url body params headers.
Definition httpPut (url : string) (body : http_body) (params : list param_op)
    (headers : http_headers) : request :=
  mkRequest PUT url body params headers.

Definition getTokenAuthHeaders (token : string) : http_headers :=
  <["Authorization" := "Bearer " +:+ token]> ∅.

(** [None] when [btoa] throws. *)
Definition getBasicAuthHeaders (username password : string) : option http_headers :=
  (fun b => <["Authorization" := "Basic " +:+ b]> ∅) <$> btoa (username +:+ ":" +:+ password).

(** [CustomHttpParamEncoder] *)
Definition encodeKey (key : string) : string := encodeURIComponent key.
Definition encodeValue (value : string) : string := encodeURIComponent value.
Definition decodeKey (key : string) : option string := decodeURIComponent key.
Definition decodeValue (value : string) : option string := decodeURIComponent value.

Section service.
Context (config : ConfigParams).

(** Delete (non-recorded) all user accounts. *)
Definition deleteAccounts (auth_token : string) : request :=
  let urlPath := "/v2/console/account" in
  let params := [] in
  httpDelete (ConfigParams_host config +:+ urlPath) params (getTokenAuthHeaders auth_token).

(** List (and optionally filter) accounts. *)
Definition listAccounts (auth_token : string) (filter : opt string) (tombstones : jsval) (cursor : opt string) : request :=
  let urlPath := "/v2/console/account" in
  let params := [] in
  let params := if truthy_str filter then params ++ [PSet "filter" (js_String filter)] else params in
  let params := if jtruthy tombstones || is_false tombstones
                then params ++ [PSet "tombstones" (String_ tombstones)] else params in
  let params := if truthy_str cursor then params ++ [PSet "cursor" (js_String cursor)] else params in
  httpGet (ConfigParams_host config +:+ urlPath) params (getTokenAuthHeaders auth_token).

(** Get a list of the user's wallet transactions. *)
Definition getWalletLedger (auth_token : string) (account_id : opt string) (limit : opt num) (cursor : opt string) : request :=
  let account_id := encodeURIComponent (js_String account_id) in
  let urlPath := "/v2/console/account/" +:+ account_id +:+ "/wallet" in
  let params := [] in
  let params := if truthy num_truthy limit
                then params ++ [PSet "limit" (js_String_num limit)] else params in
  let params := if truthy_str cursor then params ++ [PSet "cursor" (js_String cursor)] else params in
  httpGet (ConfigParams_host config +:+ urlPath) params (getTokenAuthHeaders auth_token).

(** Delete all information stored for a user account. *)
Definition deleteAccount (auth_token : string) (id : opt string) (record_deletion : jsval) : request :=
  let id := encodeURIComponent (js_String id) in
  let urlPath := "/v2/console/account/" +:+ id in
  let params := [] in
  let params := if jtruthy record_deletion || is_false record_deletion
                then params ++ [PSet "record_deletion" (String_ record_deletion)] else params in
  httpDelete (ConfigParams_host config +:+ urlPath) params (getTokenAuthHeaders auth_token).

(** Get detailed account information for a single user. *)
Definition getAccount (auth_token : string) (id : opt string) : request :=
  let id := encodeURIComponent (js_String id) in
  let urlPath := "/v2/console/account/" +:+ id in
  let params := [] in
  httpGet (ConfigParams_host config +:+ urlPath) params (getTokenAuthHeaders auth_token).

(** Update one or more fields on a user account. *)
Definition updateAccount (auth_token : string) (id : opt string) (body : ConsoleUpdateAccountBody) : request :=
  let id := encodeURIComponent (js_String id) in
  let urlPath := "/v2/console/account/" +:+ id in
  let params := [] in
  httpPost (ConfigParams_host config +:+ urlPath) (JsonBody (ConsoleUpdateAccountBody_json body)) params (getTokenAuthHeaders auth_token).

(** Ban a user. *)
Definition banAccount (auth_token : string) (id : opt string) : request :=
  let id := encodeURIComponent (js_String id) in
  let urlPath := "/v2/console/account/" +:+ id +:+ "/ban" in
  let params := [] in
  httpPost (ConfigParams_host config +:+ urlPath) (OptionsObject params (getTokenAuthHeaders auth_token)) [] ∅.

(** Export all information stored about a user account. *)
Definition exportAccount (auth_token : string) (id : opt string) : request :=
  let id := encodeURIComponent (js_String id) in
  let urlPath := "/v2/console/account/" +:+ id +:+ "/export" in
  let params := [] in
  httpGet (ConfigParams_host config +:+ urlPath) params (getTokenAuthHeaders auth_token).

(** Get a user's list of friend relationships. *)
Definition getFriends (auth_token : string) (id : opt string) : request :=
  let id := encodeURIComponent (js_String id) in
  let urlPath := "/v2/console/account/" +:+ id +:+ "/friend" in
  let params := [] in
  httpGet (ConfigParams_host config +:+ urlPath) params (getTokenAuthHeaders auth_token).

(** Delete the friend relationship between two users. *)
Definition deleteFriend (auth_token : string) (id : opt string) (friend_id : opt string) : request :=
  let id := encodeURIComponent (js_String id) in
  let friend_id := encodeURIComponent (js_String friend_id) in
  let urlPath := "/v2/console/account/" +:+ id +:+ "/friend/" +:+ friend_id in
  let params := [] in
  httpDelete (ConfigParams_host config +:+ urlPath) params (getTokenAuthHeaders auth_token).

(** Get a list of groups the user is a member of. *)
Definition getGroups (auth_token : string) (id : opt string) : request :=
  let id := encodeURIComponent (js_String id) in
  let urlPath := "/v2/console/account/" +:+ id +:+ "/group" in
  let params := [] in
  httpGet (ConfigParams_host config +:+ urlPath) params (getTokenAuthHeaders auth_token).

(** Remove a user from a group. *)
Definition deleteGroupUser (auth_token : string) (id : opt string) (group_id : opt string) : request :=
  let id := encodeURIComponent (js_String id) in
  let group_id := encodeURIComponent (js_String group_id) in
  let urlPath := "/v2/console/account/" +:+ id +:+ "/group/" +:+ group_id in
  let params := [] in
  httpDelete (ConfigParams_host config +:+ urlPath) params (getTokenAuthHeaders auth_token).

(** Unban a user. *)
Definition unbanAccount (auth_token : string) (id : opt string) : request :=
  let id := encodeURIComponent (js_String id) in
  let urlPath := "/v2/console/account/" +:+ id +:+ "/unban" in
  let params := [] in
  httpPost (ConfigParams_host config +:+ urlPath) (OptionsObject params (getTokenAuthHeaders auth_token)) [] ∅.

(** Unlink the Apple ID from a user account. *)
Definition unlinkApple (auth_token : string) (id : opt string) : request :=
  let id := encodeURIComponent (js_String id) in
  let urlPath := "/v2/console/account/" +:+ id +:+ "/unlink/apple" in
  let params := [] in
  httpPost (ConfigParams_host config +:+ urlPath) (OptionsObject params (getTokenAuthHeaders auth_token)) [] ∅.

(** Unlink the custom ID from a user account. *)
Definition unlinkCustom (auth_token : string) (id : opt string) : request :=
  let id := encodeURIComponent (js_String id) in
  let urlPath := "/v2/console/account/" +:+ id +:+ "/unlink/custom" in
  let params := [] in
  httpPost (ConfigParams_host config +:+ urlPath) (OptionsObject params (getTokenAuthHeaders auth_token)) [] ∅.

(** Unlink the device ID from a user account. *)
Definition unlinkDevice (auth_token : string) (id : opt string) (body : ConsoleUnlinkDeviceBody) : request :=
  let id := encodeURIComponent (js_String id) in
  let urlPath := "/v2/console/account/" +:+ id +:+ "/unlink/device" in
  let params := [] in
  httpPost (ConfigParams_host config +:+ urlPath) (JsonBody (ConsoleUnlinkDeviceBody_json body)) params (getTokenAuthHeaders auth_token).

(** Unlink the email from a user account. *)
Definition unlinkEmail (auth_token : string) (id : opt string) : request :=
  let id := encodeURIComponent (js_String id) in
  let urlPath := "/v2/console/account/" +:+ id +:+ "/unlink/email" in
  let params := [] in
  httpPost (ConfigParams_host config +:+ urlPath) (OptionsObject params (getTokenAuthHeaders auth_token)) [] ∅.

(** Unlink the Facebook ID from a user account. *)
Definition unlinkFacebook (auth_token : string) (id : opt string) : request :=
  let id := encodeURIComponent (js_String id) in
  let urlPath := "/v2/console/account/" +:+ id +:+ "/unlink/facebook" in
  let params := [] in
  httpPost (ConfigParams_host config +:+ urlPath) (OptionsObject params (getTokenAuthHeaders auth_token)) [] ∅.

(** Unlink the Facebook Instant Game ID from a user account. *)
Definition unlinkFacebookInstantGame (auth_token : string) (id : opt string) : request :=
  let id := encodeURIComponent (js_String id) in
  let urlPath := "/v2/console/account/" +:+ id +:+ "/unlink/facebookinstantgame" in
  let params := [] in
  httpPost (ConfigParams_host config +:+ urlPath) (OptionsObject params (getTokenAuthHeaders auth_token)) [] ∅.

(** Unlink the Game Center ID from a user account. *)
Definition unlinkGameCenter (auth_token : string) (id : opt string) : request :=
  let id := encodeURIComponent (js_String id) in
  let urlPath := "/v2/console/account/" +:+ id +:+ "/unlink/gamecenter" in
  let params := [] in
  httpPost (ConfigParams_host config +:+ urlPath) (OptionsObject params (getTokenAuthHeaders auth_token)) [] ∅.

(** Unlink the Google ID from a user account. *)
Definition unlinkGoogle (auth_token : string) (id : opt string) : request :=
  let id := encodeURIComponent (js_String id) in
  let urlPath := "/v2/console/account/" +:+ id +:+ "/unlink/google" in
  let params := [] in
  httpPost (ConfigParams_host config +:+ urlPath) (OptionsObject params (getTokenAuthHeaders auth_token)) [] ∅.

(** Unlink the Steam ID from a user account. *)
Definition unlinkSteam (auth_token : string) (id : opt string) : request :=
  let id := encodeURIComponent (js_String id) in
  let urlPath := "/v2/console/account/" +:+ id +:+ "/unlink/steam" in
  let params := [] in
  httpPost (ConfigParams_host config +:+ urlPath) (OptionsObject params (getTokenAuthHeaders auth_token)) [] ∅.

(** Delete a wallet ledger item. *)
Definition deleteWalletLedger (auth_token : string) (id : opt string) (wallet_id : opt string) : request :=
  let id := encodeURIComponent (js_String id) in
  let wallet_id := encodeURIComponent (js_String wallet_id) in
  let urlPath := "/v2/console/account/" +:+ id +:+ "/wallet/" +:+ wallet_id in
  let params := [] in
  httpDelete (ConfigParams_host config +:+ urlPath) params (getTokenAuthHeaders auth_token).

(** Deletes all data *)
Definition deleteAllData (auth_token : string) : request :=
  let urlPath := "/v2/console/all" in
  let params := [] in
  httpDelete (ConfigParams_host config +:+ urlPath) params (getTokenAuthHeaders auth_token).

(** API Explorer - list all endpoints *)
Definition listApiEndpoints (auth_token : string) : request :=
  let urlPath := "/v2/console/api/endpoints" in
  let params := [] in
  httpGet (ConfigParams_host config +:+ urlPath) params (getTokenAuthHeaders auth_token).

(** API Explorer - call a custom RPC endpoint *)
Definition callRpcEndpoint (auth_token : string) (method : opt string) (body : ConsoleCallRpcEndpointBody) : request :=
  let method := encodeURIComponent (js_String method) in
  let urlPath := "/v2/console/api/endpoints/rpc/" +:+ method in
  let params := [] in
  httpPost (ConfigParams_host config +:+ urlPath) (JsonBody (ConsoleCallRpcEndpointBody_json body)) params (getTokenAuthHeaders auth_token).

(** API Explorer - call an endpoint *)
Definition callApiEndpoint (auth_token : string) (method : opt string) (body : ConsoleCallApiEndpointBody) : request :=
  let method := encodeURIComponent (js_String method) in
  let urlPath := "/v2/console/api/endpoints/" +:+ method in
  let params := [] in
  httpPost (ConfigParams_host config +:+ urlPath) (JsonBody (ConsoleCallApiEndpointBody_json body)) params (getTokenAuthHeaders auth_token).

(** Authenticate a console user with username and password. *)
Definition authenticate (body : AuthenticateRequest) : request :=
  let urlPath := "/v2/console/authenticate" in
  let params := [] in
  httpPost (ConfigParams_host config +:+ urlPath) (JsonBody (AuthenticateRequest_json body)) params ∅.

(** Log out a session and invalidate the session token. *)
Definition authenticateLogout (auth_token : string) (body : AuthenticateLogoutRequest) : request :=
  let urlPath := "/v2/console/authenticate/logout" in
  let params := [] in
  httpPost (ConfigParams_host config +:+ urlPath) (JsonBody (AuthenticateLogoutRequest_json body)) params (getTokenAuthHeaders auth_token).

(** Change an account's MFA using a code, usually delivered over email. *)
Definition authenticateMFASetup (auth_token : string) (body : AuthenticateMFASetupRequest) : request :=
  let urlPath := "/v2/console/authenticate/mfa" in
  let params := [] in
  httpPost (ConfigParams_host config +:+ urlPath) (JsonBody (AuthenticateMFASetupRequest_json body)) params (getTokenAuthHeaders auth_token).

(** List channel messages with the selected filter *)
Definition listChannelMessages (auth_token : string) (type_ : opt string) (label : opt string) (group_id : opt string) (user_id_one : opt string) (user_id_two : opt string) (cursor : opt string) : request :=
  let urlPath := "/v2/console/channel" in
  let params := [] in
  let params := if truthy_str type_ then params ++ [PSet "type" (js_String type_)] else params in
  let params := if truthy_str label then params ++ [PSet "label" (js_String label)] else params in
  let params := if truthy_str group_id then params ++ [PSet "group_id" (js_String group_id)] else params in
  let params := if truthy_str user_id_one then params ++ [PSet "user_id_one" (js_String user_id_one)] else params in
  let params := if truthy_str user_id_two then params ++ [PSet "user_id_two" (js_String user_id_two)] else params in
  let params := if truthy_str cursor then params ++ [PSet "cursor" (js_String cursor)] else params in
  httpGet (ConfigParams_host config +:+ urlPath) params (getTokenAuthHeaders auth_token).

(** Add new NFT collection *)
Definition addNFTCollection (auth_token : string) (collection_address : opt string) (type_ : opt string) (initial_block : opt string) (chain_id : opt string) : request :=
  let collection_address := encodeURIComponent (js_String collection_address) in
  let type_ := encodeURIComponent (js_String type_) in
  let initial_block := encodeURIComponent (js_String initial_block) in
  let chain_id := encodeURIComponent (js_String chain_id) in
  let urlPath := "/v2/console/collection/" +:+ collection_address +:+ "/type/" +:+ type_ +:+ "/block/" +:+ initial_block +:+ "/chain/" +:+ chain_id in
  let params := [] in
  httpPost (ConfigParams_host config +:+ urlPath) (OptionsObject params (getTokenAuthHeaders auth_token)) [] ∅.

(** Get server config and configuration warnings. *)
Definition getConfig (auth_token : string) : request :=
  let urlPath := "/v2/console/config" in
  let params := [] in
  httpGet (ConfigParams_host config +:+ urlPath) params (getTokenAuthHeaders auth_token).

(** List (and optionally filter) groups. *)
Definition listGroups (auth_token : string) (filter : opt string) (cursor : opt string) : request :=
  let urlPath := "/v2/console/group" in
  let params := [] in
  let params := if truthy_str filter then params ++ [PSet "filter" (js_String filter)] else params in
  let params := if truthy_str cursor then params ++ [PSet "cursor" (js_String cursor)] else params in
  httpGet (ConfigParams_host config +:+ urlPath) params (getTokenAuthHeaders auth_token).

(** Demote a user from a group. *)
Definition demoteGroupMember (auth_token : string) (group_id : opt string) (id : opt string) : request :=
  let group_id := encodeURIComponent (js_String group_id) in
  let id := encodeURIComponent (js_String id) in
  let urlPath := "/v2/console/group/" +:+ group_id +:+ "/account/" +:+ id +:+ "/demote" in
  let params := [] in
  httpPost (ConfigParams_host config +:+ urlPath) (OptionsObject params (getTokenAuthHeaders auth_token)) [] ∅.

(** Promote a user from a group. *)
Definition promoteGroupMember (auth_token : string) (group_id : opt string) (id : opt string) : request :=
  let group_id := encodeURIComponent (js_String group_id) in
  let id := encodeURIComponent (js_String id) in
  let urlPath := "/v2/console/group/" +:+ group_id +:+ "/account/" +:+ id +:+ "/promote" in
  let params := [] in
  httpPost (ConfigParams_host config +:+ urlPath) (OptionsObject params (getTokenAuthHeaders auth_token)) [] ∅.

(** Add/join members to a group. *)
Definition addGroupUsers (auth_token : string) (group_id : opt string) (body : ConsoleAddGroupUsersBody) : request :=
  let group_id := encodeURIComponent (js_String group_id) in
  let urlPath := "/v2/console/group/" +:+ group_id +:+ "/add" in
  let params := [] in
  httpPost (ConfigParams_host config +:+ urlPath) (JsonBody (ConsoleAddGroupUsersBody_json body)) params (getTokenAuthHeaders auth_token).

(** Remove a group. *)
Definition deleteGroup (auth_token : string) (id : opt string) : request :=
  let id := encodeURIComponent (js_String id) in
  let urlPath := "/v2/console/group/" +:+ id in
  let params := [] in
  httpDelete (ConfigParams_host config +:+ urlPath) params (getTokenAuthHeaders auth_token).

(** Get detailed group information. *)
Definition getGroup (auth_token : string) (id : opt string) : request :=
  let id := encodeURIComponent (js_String id) in
  let urlPath := "/v2/console/group/" +:+ id in
  let params := [] in
  httpGet (ConfigParams_host config +:+ urlPath) params (getTokenAuthHeaders auth_token).

(** Update one or more fields on a group. *)
Definition updateGroup (auth_token : string) (id : opt string) (body : ConsoleUpdateGroupBody) : request :=
  let id := encodeURIComponent (js_String id) in
  let urlPath := "/v2/console/group/" +:+ id in
  let params := [] in
  httpPost (ConfigParams_host config +:+ urlPath) (JsonBody (ConsoleUpdateGroupBody_json body)) params (getTokenAuthHeaders auth_token).

(** Export all information stored about a group. *)
Definition exportGroup (auth_token : string) (id : opt string) : request :=
  let id := encodeURIComponent (js_String id) in
  let urlPath := "/v2/console/group/" +:+ id +:+ "/export" in
  let params := [] in
  httpGet (ConfigParams_host config +:+ urlPath) params (getTokenAuthHeaders auth_token).

(** Get a list of members of the group. *)
Definition getMembers (auth_token : string) (id : opt string) : request :=
  let id := encodeURIComponent (js_String id) in
  let urlPath := "/v2/console/group/" +:+ id +:+ "/member" in
  let params := [] in
  httpGet (ConfigParams_host config +:+ urlPath) params (getTokenAuthHeaders auth_token).

(** Get purchase by transaction_id *)
Definition getPurchase (auth_token : string) (transaction_id : opt string) : request :=
  let transaction_id := encodeURIComponent (js_String transaction_id) in
  let urlPath := "/v2/console/iap/purchase/" +:+ transaction_id in
  let params := [] in
  httpGet (ConfigParams_host config +:+ urlPath) params (getTokenAuthHeaders auth_token).

(** Get subscription by original_transaction_id *)
Definition getSubscription (auth_token : string) (original_transaction_id : opt string) : request :=
  let original_transaction_id := encodeURIComponent (js_String original_transaction_id) in
  let urlPath := "/v2/console/iap/subscription/" +:+ original_transaction_id in
  let params := [] in
  httpGet (ConfigParams_host config +:+ urlPath) params (getTokenAuthHeaders auth_token).

(** List leaderboards *)
Definition listLeaderboards (auth_token : string) (cursor : opt string) : request :=
  let urlPath := "/v2/console/leaderboard" in
  let params := [] in
  let params := if truthy_str cursor then params ++ [PSet "cursor" (js_String cursor)] else params in
  httpGet (ConfigParams_host config +:+ urlPath) params (getTokenAuthHeaders auth_token).

(** Delete leaderboard *)
Definition deleteLeaderboard (auth_token : string) (id : opt string) : request :=
  let id := encodeURIComponent (js_String id) in
  let urlPath := "/v2/console/leaderboard/" +:+ id in
  let params := [] in
  httpDelete (ConfigParams_host config +:+ urlPath) params (getTokenAuthHeaders auth_token).

(** Get leaderboard. *)
Definition getLeaderboard (auth_token : string) (id : opt string) : request :=
  let id := encodeURIComponent (js_String id) in
  let urlPath := "/v2/console/leaderboard/" +:+ id in
  let params := [] in
  httpGet (ConfigParams_host config +:+ urlPath) params (getTokenAuthHeaders auth_token).

(** Delete leaderboard record *)
Definition deleteLeaderboardRecord (auth_token : string) (id : opt string) (owner_id : opt string) : request :=
  let id := encodeURIComponent (js_String id) in
  let owner_id := encodeURIComponent (js_String owner_id) in
  let urlPath := "/v2/console/leaderboard/" +:+ id +:+ "/owner/" +:+ owner_id in
  let params := [] in
  httpDelete (ConfigParams_host config +:+ urlPath) params (getTokenAuthHeaders auth_token).

(** List leaderboard records. *)
Definition listLeaderboardRecords (auth_token : string) (leaderboard_id : opt string) (owner_ids : opt (list (opt string))) (limit : opt num) (cursor : opt string) (expiry : opt string) : request :=
  let leaderboard_id := encodeURIComponent (js_String leaderboard_id) in
  let urlPath := "/v2/console/leaderboard/" +:+ leaderboard_id +:+ "/records" in
  let params := [] in
  let params := match owner_ids with
                | Val es => fold_left (fun params e => params ++ [PAppend "owner_ids" (js_String e)]) es params
                | _ => params
                end in
  let params := if truthy num_truthy limit
                then params ++ [PSet "limit" (js_String_num limit)] else params in
  let params := if truthy_str cursor then params ++ [PSet "cursor" (js_String cursor)] else params in
  let params := if truthy_str expiry then params ++ [PSet "expiry" (js_String expiry)] else params in
  httpGet (ConfigParams_host config +:+ urlPath) params (getTokenAuthHeaders auth_token).

(** List ongoing matches *)
Definition listMatches (auth_token : string) (limit : opt num) (authoritative : jsval) (label : opt string) (min_size : opt num) (max_size : opt num) (match_id : opt string) (query : opt string) (node : opt string) : request :=
  let urlPath := "/v2/console/match" in
  let params := [] in
  let params := if truthy num_truthy limit
                then params ++ [PSet "limit" (js_String_num limit)] else params in
  let params := if jtruthy authoritative || is_false authoritative
                then params ++ [PSet "authoritative" (String_ authoritative)] else params in
  let params := if truthy_str label then params ++ [PSet "label" (js_String label)] else params in
  let params := if truthy num_truthy min_size
                then params ++ [PSet "min_size" (js_String_num min_size)] else params in
  let params := if truthy num_truthy max_size
                then params ++ [PSet "max_size" (js_String_num max_size)] else params in
  let params := if truthy_str match_id then params ++ [PSet "match_id" (js_String match_id)] else params in
  let params := if truthy_str query then params ++ [PSet "query" (js_String query)] else params in
  let params := if truthy_str node then params ++ [PSet "node" (js_String node)] else params in
  httpGet (ConfigParams_host config +:+ urlPath) params (getTokenAuthHeaders auth_token).

(** Get current state of a running match *)
Definition getMatchState (auth_token : string) (id : opt string) : request :=
  let id := encodeURIComponent (js_String id) in
  let urlPath := "/v2/console/match/" +:+ id +:+ "/state" in
  let params := [] in
  httpGet (ConfigParams_host config +:+ urlPath) params (getTokenAuthHeaders auth_token).

(** Delete messages. *)
Definition deleteChannelMessages (auth_token : string) (before : opt string) (ids : opt (list (opt string))) : request :=
  let urlPath := "/v2/console/message" in
  let params := [] in
  let params := if truthy_str before then params ++ [PSet "before" (js_String before)] else params in
  let params := match ids with
                | Val es => fold_left (fun params e => params ++ [PAppend "ids" (js_String e)]) es params
                | _ => params
                end in
  httpDelete (ConfigParams_host config +:+ urlPath) params (getTokenAuthHeaders auth_token).

(** List notifications. *)
Definition listNotifications (auth_token : string) (user_id : opt string) (limit : opt num) (cursor : opt string) : request :=
  let urlPath := "/v2/console/notification" in
  let params := [] in
  let params := if truthy_str user_id then params ++ [PSet "user_id" (js_String user_id)] else params in
  let params := if truthy num_truthy limit
                then params ++ [PSet "limit" (js_String_num limit)] else params in
  let params := if truthy_str cursor then params ++ [PSet "cursor" (js_String cursor)] else params in
  httpGet (ConfigParams_host config +:+ urlPath) params (getTokenAuthHeaders auth_token).

(** Delete notification *)
Definition deleteNotification (auth_token : string) (id : opt string) : request :=
  let id := encodeURIComponent (js_String id) in
  let urlPath := "/v2/console/notification/" +:+ id in
  let params := [] in
  httpDelete (ConfigParams_host config +:+ urlPath) params (getTokenAuthHeaders auth_token).

(** Get a notification by id. *)
Definition getNotification (auth_token : string) (id : opt string) : request :=
  let id := encodeURIComponent (js_String id) in
  let urlPath := "/v2/console/notification/" +:+ id in
  let params := [] in
  httpGet (ConfigParams_host config +:+ urlPath) params (getTokenAuthHeaders auth_token).

(** List validated purchases *)
Definition listPurchases (auth_token : string) (user_id : opt string) (limit : opt num) (cursor : opt string) : request :=
  let urlPath := "/v2/console/purchase" in
  let params := [] in
  let params := if truthy_str user_id then params ++ [PSet "user_id" (js_String user_id)] else params in
  let params := if truthy num_truthy limit
                then params ++ [PSet "limit" (js_String_num limit)] else params in
  let params := if truthy_str cursor then params ++ [PSet "cursor" (js_String cursor)] else params in
  httpGet (ConfigParams_host config +:+ urlPath) params (getTokenAuthHeaders auth_token).

(** Get runtime info *)
Definition getRuntime (auth_token : string) : request :=
  let urlPath := "/v2/console/runtime" in
  let params := [] in
  httpGet (ConfigParams_host config +:+ urlPath) params (getTokenAuthHeaders auth_token).

(** Get current status data for all nodes. *)
Definition getStatus (auth_token : string) : request :=
  let urlPath := "/v2/console/status" in
  let params := [] in
  httpGet (ConfigParams_host config +:+ urlPath) params (getTokenAuthHeaders auth_token).

(** Delete all storage data. *)
Definition deleteStorage (auth_token : string) : request :=
  let urlPath := "/v2/console/storage" in
  let params := [] in
  httpDelete (ConfigParams_host config +:+ urlPath) params (getTokenAuthHeaders auth_token).

(** List (and optionally filter) storage data. *)
Definition listStorage (auth_token : string) (user_id : opt string) (key : opt string) (collection : opt string) (cursor : opt string) : request :=
  let urlPath := "/v2/console/storage" in
  let params := [] in
  let params := if truthy_str user_id then params ++ [PSet "user_id" (js_String user_id)] else params in
  let params := if truthy_str key then params ++ [PSet "key" (js_String key)] else params in
  let params := if truthy_str collection then params ++ [PSet "collection" (js_String collection)] else params in
  let params := if truthy_str cursor then params ++ [PSet "cursor" (js_String cursor)] else params in
  httpGet (ConfigParams_host config +:+ urlPath) params (getTokenAuthHeaders auth_token).

(** List storage collections *)
Definition listStorageCollections (auth_token : string) : request :=
  let urlPath := "/v2/console/storage/collections" in
  let params := [] in
  httpGet (ConfigParams_host config +:+ urlPath) params (getTokenAuthHeaders auth_token).

(** Delete a storage object. *)
Definition deleteStorageObject (auth_token : string) (collection : opt string) (key : opt string) (user_id : opt string) (version : opt string) : request :=
  let collection := encodeURIComponent (js_String collection) in
  let key := encodeURIComponent (js_String key) in
  let user_id := encodeURIComponent (js_String user_id) in
  let urlPath := "/v2/console/storage/" +:+ collection +:+ "/" +:+ key +:+ "/" +:+ user_id in
  let params := [] in
  let params := if truthy_str version then params ++ [PSet "version" (js_String version)] else params in
  httpDelete (ConfigParams_host config +:+ urlPath) params (getTokenAuthHeaders auth_token).

(** Get a storage object. *)
Definition getStorage (auth_token : string) (collection : opt string) (key : opt string) (user_id : opt string) : request :=
  let collection := encodeURIComponent (js_String collection) in
  let key := encodeURIComponent (js_String key) in
  let user_id := encodeURIComponent (js_String user_id) in
  let urlPath := "/v2/console/storage/" +:+ collection +:+ "/" +:+ key +:+ "/" +:+ user_id in
  let params := [] in
  httpGet (ConfigParams_host config +:+ urlPath) params (getTokenAuthHeaders auth_token).

(** Write a new storage object or replace an existing one. *)
Definition writeStorageObject (auth_token : string) (collection : opt string) (key : opt string) (user_id : opt string) (body : ConsoleWriteStorageObjectBody) : request :=
  let collection := encodeURIComponent (js_String collection) in
  let key := encodeURIComponent (js_String key) in
  let user_id := encodeURIComponent (js_String user_id) in
  let urlPath := "/v2/console/storage/" +:+ collection +:+ "/" +:+ key +:+ "/" +:+ user_id in
  let params := [] in
  httpPut (ConfigParams_host config +:+ urlPath) (JsonBody (ConsoleWriteStorageObjectBody_json body)) params (getTokenAuthHeaders auth_token).

(** Delete a storage object. *)
Definition deleteStorageObject2 (auth_token : string) (collection : opt string) (key : opt string) (user_id : opt string) (version : opt string) : request :=
  let collection := encodeURIComponent (js_String collection) in
  let key := encodeURIComponent (js_String key) in
  let user_id := encodeURIComponent (js_String user_id) in
  let version := encodeURIComponent (js_String version) in
  let urlPath := "/v2/console/storage/" +:+ collection +:+ "/" +:+ key +:+ "/" +:+ user_id +:+ "/" +:+ version in
  let params := [] in
  httpDelete (ConfigParams_host config +:+ urlPath) params (getTokenAuthHeaders auth_token).

(** List validated subscriptions *)
Definition listSubscriptions (auth_token : string) (user_id : opt string) (limit : opt num) (cursor : opt string) : request :=
  let urlPath := "/v2/console/subscription" in
  let params := [] in
  let params := if truthy_str user_id then params ++ [PSet "user_id" (js_String user_id)] else params in
  let params := if truthy num_truthy limit
                then params ++ [PSet "limit" (js_String_num limit)] else params in
  let params := if truthy_str cursor then params ++ [PSet "cursor" (js_String cursor)] else params in
  httpGet (ConfigParams_host config +:+ urlPath) params (getTokenAuthHeaders auth_token).

(** Delete console user. *)
Definition deleteUser (auth_token : string) (username : opt string) : request :=
  let urlPath := "/v2/console/user" in
  let params := [] in
  let params := if truthy_str username then params ++ [PSet "username" (js_String username)] else params in
  httpDelete (ConfigParams_host config +:+ urlPath) params (getTokenAuthHeaders auth_token).

(** List (and optionally filter) users. *)
Definition listUsers (auth_token : string) : request :=
  let urlPath := "/v2/console/user" in
  let params := [] in
  httpGet (ConfigParams_host config +:+ urlPath) params (getTokenAuthHeaders auth_token).

(** Add a new console user. *)
Definition addUser (auth_token : string) (body : AddUserRequest) : request :=
  let urlPath := "/v2/console/user" in
  let params := [] in
  httpPost (ConfigParams_host config +:+ urlPath) (JsonBody (AddUserRequest_json body)) params (getTokenAuthHeaders auth_token).

(** Sets the user's MFA as required or not required. *)
Definition requireUserMfa (auth_token : string) (username : opt string) (body : ConsoleRequireUserMfaBody) : request :=
  let username := encodeURIComponent (js_String username) in
  let urlPath := "/v2/console/user/" +:+ username +:+ "/mfa/require" in
  let params := [] in
  httpPost (ConfigParams_host config +:+ urlPath) (JsonBody (ConsoleRequireUserMfaBody_json body)) params (getTokenAuthHeaders auth_token).

(** Reset a user's multi-factor authentication credentials. *)
Definition resetUserMfa (auth_token : string) (username : opt string) : request :=
  let username := encodeURIComponent (js_String username) in
  let urlPath := "/v2/console/user/" +:+ username +:+ "/mfa/reset" in
  let params := [] in
  httpPost (ConfigParams_host config +:+ urlPath) (OptionsObject params (getTokenAuthHeaders auth_token)) [] ∅.

End service.

(** ** The methods as data *)

Inductive call :=
| C_deleteAccounts (auth_token : string)
| C_listAccounts (auth_token : string) (filter : opt string) (tombstones : jsval) (cursor : opt string)
| C_getWalletLedger (auth_token : string) (account_id : opt string) (limit : opt num) (cursor : opt string)
| C_deleteAccount (auth_token : string) (id : opt string) (record_deletion : jsval)
| C_getAccount (auth_token : string) (id : opt string)
| C_updateAccount (auth_token : string) (id : opt string) (body : ConsoleUpdateAccountBody)
| C_banAccount (auth_token : string) (id : opt string)
| C_exportAccount (auth_token : string) (id : opt string)
| C_getFriends (auth_token : string) (id : opt string)
| C_deleteFriend (auth_token : string) (id : opt string) (friend_id : opt string)
| C_getGroups (auth_token : string) (id : opt string)
| C_deleteGroupUser (auth_token : string) (id : opt string) (group_id : opt string)
| C_unbanAccount (auth_token : string) (id : opt string)
| C_unlinkApple (auth_token : string) (id : opt string)
| C_unlinkCustom (auth_token : string) (id : opt string)
| C_unlinkDevice (auth_token : string) (id : opt string) (body : ConsoleUnlinkDeviceBody)
| C_unlinkEmail (auth_token : string) (id : opt string)
| C_unlinkFacebook (auth_token : string) (id : opt string)
| C_unlinkFacebookInstantGame (auth_token : string) (id : opt string)
| C_unlinkGameCenter (auth_token : string) (id : opt string)
| C_unlinkGoogle (auth_token : string) (id : opt string)
| C_unlinkSteam (auth_token : string) (id : opt string)
| C_deleteWalletLedger (auth_token : string) (id : opt string) (wallet_id : opt string)
| C_deleteAllData (auth_token : string)
| C_listApiEndpoints (auth_token : string)
| C_callRpcEndpoint (auth_token : string) (method : opt string) (body : ConsoleCallRpcEndpointBody)
| C_callApiEndpoint (auth_token : string) (method : opt string) (body : ConsoleCallApiEndpointBody)
| C_authenticate (body : AuthenticateRequest)
| C_authenticateLogout (auth_token : string) (body : AuthenticateLogoutRequest)
| C_authenticateMFASetup (auth_token : string) (body : AuthenticateMFASetupRequest)
| C_listChannelMessages (auth_token : string) (type_ : opt string) (label : opt string) (group_id : opt string) (user_id_one : opt string) (user_id_two : opt string) (cursor : opt string)
| C_addNFTCollection (auth_token : string) (collection_address : opt string) (type_ : opt string) (initial_block : opt string) (chain_id : opt string)
| C_getConfig (auth_token : string)
| C_listGroups (auth_token : string) (filter : opt string) (cursor : opt string)
| C_demoteGroupMember (auth_token : string) (group_id : opt string) (id : opt string)
| C_promoteGroupMember (auth_token : string) (group_id : opt string) (id : opt string)
| C_addGroupUsers (auth_token : string) (group_id : opt string) (body : ConsoleAddGroupUsersBody)
| C_deleteGroup (auth_token : string) (id : opt string)
| C_getGroup (auth_token : string) (id : opt string)
| C_updateGroup (auth_token : string) (id : opt string) (body : ConsoleUpdateGroupBody)
| C_exportGroup (auth_token : string) (id : opt string)
| C_getMembers (auth_token : string) (id : opt string)
| C_getPurchase (auth_token : string) (transaction_id : opt string)
| C_getSubscription (auth_token : string) (original_transaction_id : opt string)
| C_listLeaderboards (auth_token : string) (cursor : opt string)
| C_deleteLeaderboard (auth_token : string) (id : opt string)
| C_getLeaderboard (auth_token : string) (id : opt string)
| C_deleteLeaderboardRecord (auth_token : string) (id : opt string) (owner_id : opt string)
| C_listLeaderboardRecords (auth_token : string) (leaderboard_id : opt string) (owner_ids : opt (list (opt string))) (limit : opt num) (cursor : opt string) (expiry : opt string)
| C_listMatches (auth_token : string) (limit : opt num) (authoritative : jsval) (label : opt string) (min_size : opt num) (max_size : opt num) (match_id : opt string) (query : opt string) (node : opt string)
| C_getMatchState (auth_token : string) (id : opt string)
| C_deleteChannelMessages (auth_token : string) (before : opt string) (ids : opt (list (opt string)))
| C_listNotifications (auth_token : string) (user_id : opt string) (limit : opt num) (cursor : opt string)
| C_deleteNotification (auth_token : string) (id : opt string)
| C_getNotification (auth_token : string) (id : opt string)
| C_listPurchases (auth_token : string) (user_id : opt string) (limit : opt num) (cursor : opt string)
| C_getRuntime (auth_token : string)
| C_getStatus (auth_token : string)
| C_deleteStorage (auth_token : string)
| C_listStorage (auth_token : string) (user_id : opt string) (key : opt string) (collection : opt string) (cursor : opt string)
| C_listStorageCollections (auth_token : string)
| C_deleteStorageObject (auth_token : string) (collection : opt string) (key : opt string) (user_id : opt string) (version : opt string)
| C_getStorage (auth_token : string) (collection : opt string) (key : opt string) (user_id : opt string)
| C_writeStorageObject (auth_token : string) (collection : opt string) (key : opt string) (user_id : opt string) (body : ConsoleWriteStorageObjectBody)
| C_deleteStorageObject2 (auth_token : string) (collection : opt string) (key : opt string) (user_id : opt string) (version : opt string)
| C_listSubscriptions (auth_token : string) (user_id : opt string) (limit : opt num) (cursor : opt string)
| C_deleteUser (auth_token : string) (username : opt string)
| C_listUsers (auth_token : string)
| C_addUser (auth_token : string) (body : AddUserRequest)
| C_requireUserMfa (auth_token : string) (username : opt string) (body : ConsoleRequireUserMfaBody)
| C_resetUserMfa (auth_token : string) (username : opt string).

(** The request of a call. *)
Definition request_of (config : ConfigParams) (c : call) : request :=
  match c with
  | C_deleteAccounts auth_token => deleteAccounts config auth_token
  | C_listAccounts auth_token filter tombstones cursor => listAccounts config auth_token filter tombstones cursor
  | C_getWalletLedger auth_token account_id limit cursor => getWalletLedger config auth_token account_id limit cursor
  | C_deleteAccount auth_token id record_deletion => deleteAccount config auth_token id record_deletion
  | C_getAccount auth_token id => getAccount config auth_token id
  | C_updateAccount auth_token id body => updateAccount config auth_token id body
  | C_banAccount auth_token id => banAccount config auth_token id
  | C_exportAccount auth_token id => exportAccount config auth_token id
  | C_getFriends auth_token id => getFriends config auth_token id
  | C_deleteFriend auth_token id friend_id => deleteFriend config auth_token id friend_id
  | C_getGroups auth_token id => getGroups config auth_token id
  | C_deleteGroupUser auth_token id group_id => deleteGroupUser config auth_token id group_id
  | C_unbanAccount auth_token id => unbanAccount config auth_token id
  | C_unlinkApple auth_token id => unlinkApple config auth_token id
  | C_unlinkCustom auth_token id => unlinkCustom config auth_token id
  | C_unlinkDevice auth_token id body => unlinkDevice config auth_token id body
  | C_unlinkEmail auth_token id => unlinkEmail config auth_token id
  | C_unlinkFacebook auth_token id => unlinkFacebook config auth_token id
  | C_unlinkFacebookInstantGame auth_token id => unlinkFacebookInstantGame config auth_token id
  | C_unlinkGameCenter auth_token id => unlinkGameCenter config auth_token id
  | C_unlinkGoogle auth_token id => unlinkGoogle config auth_token id
  | C_unlinkSteam auth_token id => unlinkSteam config auth_token id
  | C_deleteWalletLedger auth_token id wallet_id => deleteWalletLedger config auth_token id wallet_id
  | C_deleteAllData auth_token => deleteAllData config auth_token
  | C_listApiEndpoints auth_token => listApiEndpoints config auth_token
  | C_callRpcEndpoint auth_token method body => callRpcEndpoint config auth_token method body
  | C_callApiEndpoint auth_token method body => callApiEndpoint config auth_token method body
  | C_authenticate body => authenticate config body
  | C_authenticateLogout auth_token body => authenticateLogout config auth_token body
  | C_authenticateMFASetup auth_token body => authenticateMFASetup config auth_token body
  | C_listChannelMessages auth_token type_ label group_id user_id_one user_id_two cursor => listChannelMessages config auth_token type_ label group_id user_id_one user_id_two cursor
  | C_addNFTCollection auth_token collection_address type_ initial_block chain_id => addNFTCollection config auth_token collection_address type_ initial_block chain_id
  | C_getConfig auth_token => getConfig config auth_token
  | C_listGroups auth_token filter cursor => listGroups config auth_token filter cursor
  | C_demoteGroupMember auth_token group_id id => demoteGroupMember config auth_token group_id id
  | C_promoteGroupMember auth_token group_id id => promoteGroupMember config auth_token group_id id
  | C_addGroupUsers auth_token group_id body => addGroupUsers config auth_token group_id body
  | C_deleteGroup auth_token id => deleteGroup config auth_token id
  | C_getGroup auth_token id => getGroup config auth_token id
  | C_updateGroup auth_token id body => updateGroup config auth_token id body
  | C_exportGroup auth_token id => exportGroup config auth_token id
  | C_getMembers auth_token id => getMembers config auth_token id
  | C_getPurchase auth_token transaction_id => getPurchase config auth_token transaction_id
  | C_getSubscription auth_token original_transaction_id => getSubscription config auth_token original_transaction_id
  | C_listLeaderboards auth_token cursor => listLeaderboards config auth_token cursor
  | C_deleteLeaderboard auth_token id => deleteLeaderboard config auth_token id
  | C_getLeaderboard auth_token id => getLeaderboard config auth_token id
  | C_deleteLeaderboardRecord auth_token id owner_id => deleteLeaderboardRecord config auth_token id owner_id
  | C_listLeaderboardRecords auth_token leaderboard_id owner_ids limit cursor expiry => listLeaderboardRecords config auth_token leaderboard_id owner_ids limit cursor expiry
  | C_listMatches auth_token limit authoritative label min_size max_size match_id query node => listMatches config auth_token limit authoritative label min_size max_size match_id query node
  | C_getMatchState auth_token id => getMatchState config auth_token id
  | C_deleteChannelMessages auth_token before ids => deleteChannelMessages config auth_token before ids
  | C_listNotifications auth_token user_id limit cursor => listNotifications config auth_token user_id limit cursor
  | C_deleteNotification auth_token id => deleteNotification config auth_token id
  | C_getNotification auth_token id => getNotification config auth_token id
  | C_listPurchases auth_token user_id limit cursor => listPurchases config auth_token user_id limit cursor
  | C_getRuntime auth_token => getRuntime config auth_token
  | C_getStatus auth_token => getStatus config auth_token
  | C_deleteStorage auth_token => deleteStorage config auth_token
  | C_listStorage auth_token user_id key collection cursor => listStorage config auth_token user_id key collection cursor
  | C_listStorageCollections auth_token => listStorageCollections config auth_token
  | C_deleteStorageObject auth_token collection key user_id version => deleteStorageObject config auth_token collection key user_id version
  | C_getStorage auth_token collection key user_id => getStorage config auth_token collection key user_id
  | C_writeStorageObject auth_token collection key user_id body => writeStorageObject config auth_token collection key user_id body
  | C_deleteStorageObject2 auth_token collection key user_id version => deleteStorageObject2 config auth_token collection key user_id version
  | C_listSubscriptions auth_token user_id limit cursor => listSubscriptions config auth_token user_id limit cursor
  | C_deleteUser auth_token username => deleteUser config auth_token username
  | C_listUsers auth_token => listUsers config auth_token
  | C_addUser auth_token body => addUser config auth_token body
  | C_requireUserMfa auth_token username body => requireUserMfa config auth_token username body
  | C_resetUserMfa auth_token username => resetUserMfa config auth_token username
  end.

(** The token argument; [authenticate] has none. *)
Definition auth_token_of (c : call) : option string :=
  match c with
  | C_authenticate _ => None
  | C_deleteAccounts t => Some t
  | C_listAccounts t _ _ _ => Some t
  | C_getWalletLedger t _ _ _ => Some t
  | C_deleteAccount t _ _ => Some t
  | C_getAccount t _ => Some t
  | C_updateAccount t _ _ => Some t
  | C_banAccount t _ => Some t
  | C_exportAccount t _ => Some t
  | C_getFriends t _ => Some t
  | C_deleteFriend t _ _ => Some t
  | C_getGroups t _ => Some t
  | C_deleteGroupUser t _ _ => Some t
  | C_unbanAccount t _ => Some t
  | C_unlinkApple t _ => Some t
  | C_unlinkCustom t _ => Some t
  | C_unlinkDevice t _ _ => Some t
  | C_unlinkEmail t _ => Some t
  | C_unlinkFacebook t _ => Some t
  | C_unlinkFacebookInstantGame t _ => Some t
  | C_unlinkGameCenter t _ => Some t
  | C_unlinkGoogle t _ => Some t
  | C_unlinkSteam t _ => Some t
  | C_deleteWalletLedger t _ _ => Some t
  | C_deleteAllData t => Some t
  | C_listApiEndpoints t => Some t
  | C_callRpcEndpoint t _ _ => Some t
  | C_callApiEndpoint t _ _ => Some t
  | C_authenticateLogout t _ => Some t
  | C_authenticateMFASetup t _ => Some t
  | C_listChannelMessages t _ _ _ _ _ _ => Some t
  | C_addNFTCollection t _ _ _ _ => Some t
  | C_getConfig t => Some t
  | C_listGroups t _ _ => Some t
  | C_demoteGroupMember t _ _ => Some t
  | C_promoteGroupMember t _ _ => Some t
  | C_addGroupUsers t _ _ => Some t
  | C_deleteGroup t _ => Some t
  | C_getGroup t _ => Some t
  | C_updateGroup t _ _ => Some t
  | C_exportGroup t _ => Some t
  | C_getMembers t _ => Some t
  | C_getPurchase t _ => Some t
  | C_getSubscription t _ => Some t
  | C_listLeaderboards t _ => Some t
  | C_deleteLeaderboard t _ => Some t
  | C_getLeaderboard t _ => Some t
  | C_deleteLeaderboardRecord t _ _ => Some t
  | C_listLeaderboardRecords t _ _ _ _ _ => Some t
  | C_listMatches t _ _ _ _ _ _ _ _ => Some t
  | C_getMatchState t _ => Some t
  | C_deleteChannelMessages t _ _ => Some t
  | C_listNotifications t _ _ _ => Some t
  | C_deleteNotification t _ => Some t
  | C_getNotification t _ => Some t
  | C_listPurchases t _ _ _ => Some t
  | C_getRuntime t => Some t
  | C_getStatus t => Some t
  | C_deleteStorage t => Some t
  | C_listStorage t _ _ _ _ => Some t
  | C_listStorageCollections t => Some t
  | C_deleteStorageObject t _ _ _ _ => Some t
  | C_getStorage t _ _ _ => Some t
  | C_writeStorageObject t _ _ _ _ => Some t
  | C_deleteStorageObject2 t _ _ _ _ => Some t
  | C_listSubscriptions t _ _ _ => Some t
  | C_deleteUser t _ => Some t
  | C_listUsers t => Some t
  | C_addUser t _ => Some t
  | C_requireUserMfa t _ _ => Some t
  | C_resetUserMfa t _ => Some t
  end.

(** ** The routes *)

(** A segment of a route is a literal or stands for an argument. *)
Abbreviation segment := (option string).

Record route := mkRoute { route_name : string; route_method : method; route_path : list segment }.

Definition routes : list route := [
  mkRoute "deleteAccounts" DELETE [Some "v2"; Some "console"; Some "account"];
  mkRoute "listAccounts" GET [Some "v2"; Some "console"; Some "account"];
  mkRoute "getWalletLedger" GET [Some "v2"; Some "console"; Some "account"; None; Some "wallet"];
  mkRoute "deleteAccount" DELETE [Some "v2"; Some "console"; Some "account"; None];
  mkRoute "getAccount" GET [Some "v2"; Some "console"; Some "account"; None];
  mkRoute "updateAccount" POST [Some "v2"; Some "console"; Some "account"; None];
  mkRoute "banAccount" POST [Some "v2"; Some "console"; Some "account"; None; Some "ban"];
  mkRoute "exportAccount" GET [Some "v2"; Some "console"; Some "account"; None; Some "export"];
  mkRoute "getFriends" GET [Some "v2"; Some "console"; Some "account"; None; Some "friend"];
  mkRoute "deleteFriend" DELETE [Some "v2"; Some "console"; Some "account"; None; Some "friend"; None];
  mkRoute "getGroups" GET [Some "v2"; Some "console"; Some "account"; None; Some "group"];
  mkRoute "deleteGroupUser" DELETE [Some "v2"; Some "console"; Some "account"; None; Some "group"; None];
  mkRoute "unbanAccount" POST [Some "v2"; Some "console"; Some "account"; None; Some "unban"];
  mkRoute "unlinkApple" POST [Some "v2"; Some "console"; Some "account"; None; Some "unlink"; Some "apple"];
  mkRoute "unlinkCustom" POST [Some "v2"; Some "console"; Some "account"; None; Some "unlink"; Some "custom"];
  mkRoute "unlinkDevice" POST [Some "v2"; Some "console"; Some "account"; None; Some "unlink"; Some "device"];
  mkRoute "unlinkEmail" POST [Some "v2"; Some "console"; Some "account"; None; Some "unlink"; Some "email"];
  mkRoute "unlinkFacebook" POST [Some "v2"; Some "console"; Some "account"; None; Some "unlink"; Some "facebook"];
  mkRoute "unlinkFacebookInstantGame" POST [Some "v2"; Some "console"; Some "account"; None; Some "unlink"; Some "facebookinstantgame"];
  mkRoute "unlinkGameCenter" POST [Some "v2"; Some "console"; Some "account"; None; Some "unlink"; Some "gamecenter"];
  mkRoute "unlinkGoogle" POST [Some "v2"; Some "console"; Some "account"; None; Some "unlink"; Some "google"];
  mkRoute "unlinkSteam" POST [Some "v2"; Some "console"; Some "account"; None; Some "unlink"; Some "steam"];
  mkRoute "deleteWalletLedger" DELETE [Some "v2"; Some "console"; Some "account"; None; Some "wallet"; None];
  mkRoute "deleteAllData" DELETE [Some "v2"; Some "console"; Some "all"];
  mkRoute "listApiEndpoints" GET [Some "v2"; Some "console"; Some "api"; Some "endpoints"];
  mkRoute "callRpcEndpoint" POST [Some "v2"; Some "console"; Some "api"; Some "endpoints"; Some "rpc"; None];
  mkRoute "callApiEndpoint" POST [Some "v2"; Some "console"; Some "api"; Some "endpoints"; None];
  mkRoute "authenticate" POST [Some "v2"; Some "console"; Some "authenticate"];
  mkRoute "authenticateLogout" POST [Some "v2"; Some "console"; Some "authenticate"; Some "logout"];
  mkRoute "authenticateMFASetup" POST [Some "v2"; Some "console"; Some "authenticate"; Some "mfa"];
  mkRoute "listChannelMessages" GET [Some "v2"; Some "console"; Some "channel"];
  mkRoute "addNFTCollection" POST [Some "v2"; Some "console"; Some "collection"; None; Some "type"; None; Some "block"; None; Some "chain"; None];
  mkRoute "getConfig" GET [Some "v2"; Some "console"; Some "config"];
  mkRoute "listGroups" GET [Some "v2"; Some "console"; Some "group"];
  mkRoute "demoteGroupMember" POST [Some "v2"; Some "console"; Some "group"; None; Some "account"; None; Some "demote"];
  mkRoute "promoteGroupMember" POST [Some "v2"; Some "console"; Some "group"; None; Some "account"; None; Some "promote"];
  mkRoute "addGroupUsers" POST [Some "v2"; Some "console"; Some "group"; None; Some "add"];
  mkRoute "deleteGroup" DELETE [Some "v2"; Some "console"; Some "group"; None];
  mkRoute "getGroup" GET [Some "v2"; Some "console"; Some "group"; None];
  mkRoute "updateGroup" POST [Some "v2"; Some "console"; Some "group"; None];
  mkRoute "exportGroup" GET [Some "v2"; Some "console"; Some "group"; None; Some "export"];
  mkRoute "getMembers" GET [Some "v2"; Some "console"; Some "group"; None; Some "member"];
  mkRoute "getPurchase" GET [Some "v2"; Some "console"; Some "iap"; Some "purchase"; None];
  mkRoute "getSubscription" GET [Some "v2"; Some "console"; Some "iap"; Some "subscription"; None];
  mkRoute "listLeaderboards" GET [Some "v2"; Some "console"; Some "leaderboard"];
  mkRoute "deleteLeaderboard" DELETE [Some "v2"; Some "console"; Some "leaderboard"; None];
  mkRoute "getLeaderboard" GET [Some "v2"; Some "console"; Some "leaderboard"; None];
  mkRoute "deleteLeaderboardRecord" DELETE [Some "v2"; Some "console"; Some "leaderboard"; None; Some "owner"; None];
  mkRoute "listLeaderboardRecords" GET [Some "v2"; Some "console"; Some "leaderboard"; None; Some "records"];
  mkRoute "listMatches" GET [Some "v2"; Some "console"; Some "match"];
  mkRoute "getMatchState" GET [Some "v2"; Some "console"; Some "match"; None; Some "state"];
  mkRoute "deleteChannelMessages" DELETE [Some "v2"; Some "console"; Some "message"];
  mkRoute "listNotifications" GET [Some "v2"; Some "console"; Some "notification"];
  mkRoute "deleteNotification" DELETE [Some "v2"; Some "console"; Some "notification"; None];
  mkRoute "getNotification" GET [Some "v2"; Some "console"; Some "notification"; None];
  mkRoute "listPurchases" GET [Some "v2"; Some "console"; Some "purchase"];
  mkRoute "getRuntime" GET [Some "v2"; Some "console"; Some "runtime"];
  mkRoute "getStatus" GET [Some "v2"; Some "console"; Some "status"];
  mkRoute "deleteStorage" DELETE [Some "v2"; Some "console"; Some "storage"];
  mkRoute "listStorage" GET [Some "v2"; Some "console"; Some "storage"];
  mkRoute "listStorageCollections" GET [Some "v2"; Some "console"; Some "storage"; Some "collections"];
  mkRoute "deleteStorageObject" DELETE [Some "v2"; Some "console"; Some "storage"; None; None; None];
  mkRoute "getStorage" GET [Some "v2"; Some "console"; Some "storage"; None; None; None];
  mkRoute "writeStorageObject" PUT [Some "v2"; Some "console"; Some "storage"; None; None; None];
  mkRoute "deleteStorageObject2" DELETE [Some "v2"; Some "console"; Some "storage"; None; None; None; None];
  mkRoute "listSubscriptions" GET [Some "v2"; Some "console"; Some "subscription"];
  mkRoute "deleteUser" DELETE [Some "v2"; Some "console"; Some "user"];
  mkRoute "listUsers" GET [Some "v2"; Some "console"; Some "user"];
  mkRoute "addUser" POST [Some "v2"; Some "console"; Some "user"];
  mkRoute "requireUserMfa" POST [Some "v2"; Some "console"; Some "user"; None; Some "mfa"; Some "require"];
  mkRoute "resetUserMfa" POST [Some "v2"; Some "console"; Some "user"; None; Some "mfa"; Some "reset"]].

(** The position of a call's route in the table, and the arguments of its path. *)
Definition route_index (c : call) : nat :=
  match c with
  | C_deleteAccounts _ => 0
  | C_listAccounts _ _ _ _ => 1
  | C_getWalletLedger _ _ _ _ => 2
  | C_deleteAccount _ _ _ => 3
  | C_getAccount _ _ => 4
  | C_updateAccount _ _ _ => 5
  | C_banAccount _ _ => 6
  | C_exportAccount _ _ => 7
  | C_getFriends _ _ => 8
  | C_deleteFriend _ _ _ => 9
  | C_getGroups _ _ => 10
  | C_deleteGroupUser _ _ _ => 11
  | C_unbanAccount _ _ => 12
  | C_unlinkApple _ _ => 13
  | C_unlinkCustom _ _ => 14
  | C_unlinkDevice _ _ _ => 15
  | C_unlinkEmail _ _ => 16
  | C_unlinkFacebook _ _ => 17
  | C_unlinkFacebookInstantGame _ _ => 18
  | C_unlinkGameCenter _ _ => 19
  | C_unlinkGoogle _ _ => 20
  | C_unlinkSteam _ _ => 21
  | C_deleteWalletLedger _ _ _ => 22
  | C_deleteAllData _ => 23
  | C_listApiEndpoints _ => 24
  | C_callRpcEndpoint _ _ _ => 25
  | C_callApiEndpoint _ _ _ => 26
  | C_authenticate _ => 27
  | C_authenticateLogout _ _ => 28
  | C_authenticateMFASetup _ _ => 29
  | C_listChannelMessages _ _ _ _ _ _ _ => 30
  | C_addNFTCollection _ _ _ _ _ => 31
  | C_getConfig _ => 32
  | C_listGroups _ _ _ => 33
  | C_demoteGroupMember _ _ _ => 34
  | C_promoteGroupMember _ _ _ => 35
  | C_addGroupUsers _ _ _ => 36
  | C_deleteGroup _ _ => 37
  | C_getGroup _ _ => 38
  | C_updateGroup _ _ _ => 39
  | C_exportGroup _ _ => 40
  | C_getMembers _ _ => 41
  | C_getPurchase _ _ => 42
  | C_getSubscription _ _ => 43
  | C_listLeaderboards _ _ => 44
  | C_deleteLeaderboard _ _ => 45
  | C_getLeaderboard _ _ => 46
  | C_deleteLeaderboardRecord _ _ _ => 47
  | C_listLeaderboardRecords _ _ _ _ _ _ => 48
  | C_listMatches _ _ _ _ _ _ _ _ _ => 49
  | C_getMatchState _ _ => 50
  | C_deleteChannelMessages _ _ _ => 51
  | C_listNotifications _ _ _ _ => 52
  | C_deleteNotification _ _ => 53
  | C_getNotification _ _ => 54
  | C_listPurchases _ _ _ _ => 55
  | C_getRuntime _ => 56
  | C_getStatus _ => 57
  | C_deleteStorage _ => 58
  | C_listStorage _ _ _ _ _ => 59
  | C_listStorageCollections _ => 60
  | C_deleteStorageObject _ _ _ _ _ => 61
  | C_getStorage _ _ _ _ => 62
  | C_writeStorageObject _ _ _ _ _ => 63
  | C_deleteStorageObject2 _ _ _ _ _ => 64
  | C_listSubscriptions _ _ _ _ => 65
  | C_deleteUser _ _ => 66
  | C_listUsers _ => 67
  | C_addUser _ _ => 68
  | C_requireUserMfa _ _ _ => 69
  | C_resetUserMfa _ _ => 70
  end.

Definition path_args (c : call) : list string :=
  match c with
  | C_getWalletLedger _ account_id _ _ => [js_String account_id]
  | C_deleteAccount _ id _ => [js_String id]
  | C_getAccount _ id => [js_String id]
  | C_updateAccount _ id _ => [js_String id]
  | C_banAccount _ id => [js_String id]
  | C_exportAccount _ id => [js_String id]
  | C_getFriends _ id => [js_String id]
  | C_deleteFriend _ id friend_id => [js_String id; js_String friend_id]
  | C_getGroups _ id => [js_String id]
  | C_deleteGroupUser _ id group_id => [js_String id; js_String group_id]
  | C_unbanAccount _ id => [js_String id]
  | C_unlinkApple _ id => [js_String id]
  | C_unlinkCustom _ id => [js_String id]
  | C_unlinkDevice _ id _ => [js_String id]
  | C_unlinkEmail _ id => [js_String id]
  | C_unlinkFacebook _ id => [js_String id]
  | C_unlinkFacebookInstantGame _ id => [js_String id]
  | C_unlinkGameCenter _ id => [js_String id]
  | C_unlinkGoogle _ id => [js_String id]
  | C_unlinkSteam _ id => [js_String id]
  | C_deleteWalletLedger _ id wallet_id => [js_String id; js_String wallet_id]
  | C_callRpcEndpoint _ method _ => [js_String method]
  | C_callApiEndpoint _ method _ => [js_String method]
  | C_addNFTCollection _ collection_address type_ initial_block chain_id => [js_String collection_address; js_String type_; js_String initial_block; js_String chain_id]
  | C_demoteGroupMember _ group_id id => [js_String group_id; js_String id]
  | C_promoteGroupMember _ group_id id => [js_String group_id; js_String id]
  | C_addGroupUsers _ group_id _ => [js_String group_id]
  | C_deleteGroup _ id => [js_String id]
  | C_getGroup _ id => [js_String id]
  | C_updateGroup _ id _ => [js_String id]
  | C_exportGroup _ id => [js_String id]
  | C_getMembers _ id => [js_String id]
  | C_getPurchase _ transaction_id => [js_String transaction_id]
  | C_getSubscription _ original_transaction_id => [js_String original_transaction_id]
  | C_deleteLeaderboard _ id => [js_String id]
  | C_getLeaderboard _ id => [js_String id]
  | C_deleteLeaderboardRecord _ id owner_id => [js_String id; js_String owner_id]
  | C_listLeaderboardRecords _ leaderboard_id _ _ _ _ => [js_String leaderboard_id]
  | C_getMatchState _ id => [js_String id]
  | C_deleteNotification _ id => [js_String id]
  | C_getNotification _ id => [js_String id]
  | C_deleteStorageObject _ collection key user_id _ => [js_String collection; js_String key; js_String user_id]
  | C_getStorage _ collection key user_id => [js_String collection; js_String key; js_String user_id]
  | C_writeStorageObject _ collection key user_id _ => [js_String collection; js_String key; js_String user_id]
  | C_deleteStorageObject2 _ collection key user_id version => [js_String collection; js_String key; js_String user_id; js_String version]
  | C_requireUserMfa _ username _ => [js_String username]
  | C_resetUserMfa _ username => [js_String username]
  | _ => []
  end.

(** The calls whose [post] is given the options object as its body. *)
Definition options_as_body (c : call) : bool :=
  match c with
  | C_banAccount _ _
  | C_unbanAccount _ _
  | C_unlinkApple _ _
  | C_unlinkCustom _ _
  | C_unlinkEmail _ _
  | C_unlinkFacebook _ _
  | C_unlinkFacebookInstantGame _ _
  | C_unlinkGameCenter _ _
  | C_unlinkGoogle _ _
  | C_unlinkSteam _ _
  | C_addNFTCollection _ _ _ _ _
  | C_demoteGroupMember _ _ _
  | C_promoteGroupMember _ _ _
  | C_resetUserMfa _ _ => true
  | _ => false
  end.
