(* ===== verification/ConsoleRoutes.v ===== *)
(** * The requests of the console service, against the server's routes

    [dispatch] is the reading of a URL by the server's gateway: split on slashes,
    compare literals, decode the other segments.  The theorems show that every
    request of [ConsoleService] is read back as the operation and the arguments it
    was made from, which token it carries, and what its query string holds. *)

From S2P Require Import Prelude Codec JsVal Runtime ConsoleTypes ConsoleService.
From Stdlib Require Import Ascii.

(** ** Splitting and rendering paths *)

Fixpoint slashed (l : list string) : string :=
  match l with [] => "" | x :: l => String "/" (x +:+ slashed l) end.

(** The text of a path: literals as they are, arguments encoded. *)
Fixpoint fill (p : list segment) (args : list string) : list string :=
  match p, args with
  | [], _ => []
  | Some s :: p, _ => s :: fill p args
  | None :: p, a :: args => encodeURIComponent a :: fill p args
  | None :: p, [] => "" :: fill p []
  end.

Definition render (p : list segment) (args : list string) : string := slashed (fill p args).

Definition arity (p : list segment) : nat := length (List.filter (fun s => negb (bool_decide (is_Some s))) p).

(** ** What the server reads *)

Fixpoint match_path (p : list segment) (l : list string) : option (list string) :=
  match p, l with
  | [], [] => Some []
  | Some s :: p, x :: l => if String.eqb s x then match_path p l else None
  | None :: p, x :: l => a ← decodeURIComponent x; args ← match_path p l; Some (a :: args)
  | _, _ => None
  end.

Definition match_route (m : method) (l : list string) (r : route) : option (string * list string) :=
  if decide (route_method r = m) then (fun args => (route_name r, args)) <$> match_path (route_path r) l
  else None.

(** The routes that accept a method and a path, with the arguments they extract. *)
Definition dispatch (m : method) (path : string) : list (string * list string) :=
  match split_on "/" path with
  | "" :: l => omap (match_route m l) routes
  | _ => []
  end.

(** Two routes of one method that some path could both match: equal lengths and
    no position with two different literals. *)
Fixpoint overlap (p q : list segment) : bool :=
  match p, q with
  | [], [] => true
  | Some s :: p, Some t :: q => String.eqb s t && overlap p q
  | _ :: p, _ :: q => overlap p q
  | _, _ => false
  end.

Definition conflict (r r' : route) : bool :=
  bool_decide (route_method r = route_method r') && overlap (route_path r) (route_path r').

Fixpoint unambiguous (l : list route) : bool :=
  match l with
  | [] => true
  | r :: l => forallb (fun r' => negb (conflict r r')) l && unambiguous l
  end.

(** ** Lemmas *)

Lemma split_on_slashed l : Forall (fun s => string_has "/" s = false) l ->
  split_on "/" (slashed l) = "" :: match l with [] => [] | _ => l end.
Proof.
  intros H. destruct l as [|x l]; [done|].
  cbn [slashed]. rewrite split_on_cons_sep. f_equal.
  revert x H. induction l as [|y l IH]; intros x H; apply Forall_cons in H as [Hx H].
  - cbn [slashed]. rewrite string_app_nil_r. by apply split_on_none.
  - cbn [slashed]. rewrite split_on_app by done. f_equal. by apply IH.
Qed.

Definition literals_ok (p : list segment) : bool :=
  forallb (fun s => match s with Some s => negb (string_has "/" s) | None => true end) p.

Lemma fill_no_slash p args : literals_ok p = true ->
  Forall (fun s => string_has "/" s = false) (fill p args).
Proof.
  revert args. induction p as [|[s|] p IH]; intros args H; simpl in *; [done|..].
  - apply andb_true_iff in H as [H1 H2]. constructor; [by apply negb_true_iff|by apply IH].
  - destruct args; constructor; auto. by apply encodeURIComponent_no.
Qed.

Lemma match_path_fill p args :
  arity p = length args -> Forall (fun a => utf8_valid a = true) args ->
  match_path p (fill p args) = Some args.
Proof.
  revert args. induction p as [|[s|] p IH]; intros args Hlen Hok; simpl in *.
  - by destruct args.
  - by rewrite String.eqb_refl, IH.
  - destruct args as [|a args]; [done|]. apply Forall_cons in Hok as [Ha Hok].
    injection Hlen as Hlen. simpl. by rewrite decodeURIComponent_encode, IH.
Qed.

Lemma match_overlap p q x a b :
  match_path p x = Some a -> match_path q x = Some b -> overlap p q = true.
Proof.
  revert q x a b. induction p as [|[s|] p IH]; intros [|[t|] q] [|y x] a b Hp Hq; simpl in *; try done;
    repeat match goal with
           | H : (if String.eqb ?s ?t then _ else _) = _ |- _ =>
               destruct (String.eqb_spec s t); [subst|discriminate]
           | H : (_ ≫= _) = Some _ |- _ => apply bind_Some in H as (? & ? & ?)
           end; rewrite ?String.eqb_refl; simpl; eauto.
Qed.

Lemma match_route_conflict m x r r' v v' :
  match_route m x r = Some v -> match_route m x r' = Some v' -> conflict r r' = true.
Proof.
  unfold match_route, conflict. intros H H'.
  destruct (decide (route_method r = m)); [|done].
  destruct (decide (route_method r' = m)); [|done].
  apply fmap_Some in H as (a & Ha & _), H' as (a' & Ha' & _).
  rewrite bool_decide_eq_true_2 by congruence. simpl. by eapply match_overlap.
Qed.

Lemma omap_unambiguous m x l i r v :
  unambiguous l = true -> l !! i = Some r -> match_route m x r = Some v ->
  omap (match_route m x) l = [v].
Proof.
  revert i. induction l as [|r0 l IH]; intros i Hu Hi Hv; [done|].
  simpl in Hu. apply andb_true_iff in Hu as [H0 Hu]. rewrite forallb_forall in H0.
  destruct i as [|i]; simpl in Hi.
  - injection Hi as ->. simpl. rewrite Hv. f_equal.
    assert (Hn : forall r', r' ∈ l -> match_route m x r' = None).
    { intros r' Hr'. destruct (match_route m x r') eqn:E; [|done].
      specialize (H0 r' (proj1 (list_elem_of_In _ _) Hr')).
      by rewrite (match_route_conflict m x r r' _ _ Hv E) in H0. }
    clear -Hn. induction l as [|r' l IH]; simpl; [done|].
    rewrite Hn by left. apply IH. intros r'' ?. apply Hn. by right.
  - simpl. destruct (match_route m x r0) eqn:E; [|by eapply IH].
    apply list_elem_of_lookup_2 in Hi. apply list_elem_of_In in Hi.
    specialize (H0 r Hi). by rewrite (match_route_conflict m x r0 r _ _ E Hv) in H0.
Qed.

Lemma routes_unambiguous : unambiguous routes = true.
Proof. vm_compute. reflexivity. Qed.

Lemma routes_literals : Forall (fun r => literals_ok (route_path r) = true) routes.
Proof. apply (proj2 (Forall_forall _ _)). intros r Hr. revert r Hr. apply Forall_forall. unfold routes. repeat constructor. Qed.

Lemma dispatch_render i r args :
  routes !! i = Some r -> arity (route_path r) = length args ->
  Forall (fun a => utf8_valid a = true) args ->
  dispatch (route_method r) (render (route_path r) args) = [(route_name r, args)].
Proof.
  intros Hi Ha Hok. unfold dispatch, render.
  pose proof routes_literals as Hl. rewrite Forall_lookup in Hl. specialize (Hl i r Hi).
  rewrite split_on_slashed by (by apply fill_no_slash).
  assert (E : (match fill (route_path r) args with [] => [] | _ => fill (route_path r) args end)
              = fill (route_path r) args) by (by destruct fill).
  rewrite E. apply (omap_unambiguous _ _ _ i r); [apply routes_unambiguous|done|].
  unfold match_route. rewrite decide_True by done. by rewrite match_path_fill.
Qed.

(** ** Each call against its route *)

Definition default_route : route := mkRoute "" GET [].
Definition route_of (c : call) : route := nth (route_index c) routes default_route.

Lemma call_route config c :
  routes !! route_index c = Some (route_of c) /\
  req_method (request_of config c) = route_method (route_of c) /\
  arity (route_path (route_of c)) = length (path_args c) /\
  req_url (request_of config c) = ConfigParams_host config +:+ render (route_path (route_of c)) (path_args c).
Proof.
  destruct c; (split; [|split; [|split]]); try reflexivity;
    cbn; rewrite ?string_app_nil_r; reflexivity.
Qed.

(** ** Query strings *)

(** The keys under which a request may hold several values. *)
Definition repeatable (k : string) : bool := String.eqb k "ids" || String.eqb k "owner_ids".

Lemma param_values_app k l l' :
  param_values k (l ++ l') =
  fold_left (fun l op => match op with
                         | PSet k' v => if decide (k = k') then [v] else l
                         | PAppend k' v => if decide (k = k') then l ++ [v] else l
                         end) l' (param_values k l).
Proof. unfold param_values. by rewrite fold_left_app. Qed.

Lemma param_values_snoc_set k l k' v :
  param_values k (l ++ [PSet k' v]) = if decide (k = k') then [v] else param_values k l.
Proof. by rewrite param_values_app. Qed.

Lemma param_values_snoc_append k l k' v :
  param_values k (l ++ [PAppend k' v]) =
  if decide (k = k') then param_values k l ++ [v] else param_values k l.
Proof. by rewrite param_values_app. Qed.

Lemma param_values_append_list k k' (es : list (opt string)) l :
  param_values k (fold_left (fun params e => params ++ [PAppend k' (js_String e)]) es l) =
  if decide (k = k') then param_values k l ++ map js_String es else param_values k l.
Proof.
  revert l. induction es as [|e es IH]; intros l; simpl.
  - case_decide; by rewrite ?app_nil_r.
  - rewrite IH, param_values_snoc_append. case_decide; [|done]. by rewrite <- app_assoc.
Qed.

#[export] Hint Rewrite param_values_snoc_set param_values_snoc_append param_values_append_list : js.

Lemma set_once k k' v b ps : length (param_values k ps) <= 1 ->
  length (param_values k (if b : bool then ps ++ [PSet k' v] else ps)) <= 1.
Proof. intros H. destruct b; [|done]. rewrite param_values_snoc_set. by case_decide. Qed.

Lemma append_list_once k k' (o : opt (list (opt string))) ps : k <> k' ->
  length (param_values k ps) <= 1 ->
  length (param_values k (match o with
                          | Val es => fold_left (fun ps e => ps ++ [PAppend k' (js_String e)]) es ps
                          | _ => ps
                          end)) <= 1.
Proof. intros Hk H. destruct o; [done..|]. rewrite param_values_append_list. by case_decide. Qed.

Ltac params_once :=
  cbv beta zeta delta [request_of httpGet httpPost httpPut httpDelete
    deleteAccounts listAccounts getWalletLedger deleteAccount getAccount updateAccount
    banAccount exportAccount getFriends deleteFriend getGroups deleteGroupUser unbanAccount
    unlinkApple unlinkCustom unlinkDevice unlinkEmail unlinkFacebook unlinkFacebookInstantGame
    unlinkGameCenter unlinkGoogle unlinkSteam deleteWalletLedger deleteAllData listApiEndpoints
    callRpcEndpoint callApiEndpoint authenticateLogout authenticateMFASetup listChannelMessages
    addNFTCollection getConfig listGroups demoteGroupMember promoteGroupMember addGroupUsers
    deleteGroup getGroup updateGroup exportGroup getMembers getPurchase getSubscription
    listLeaderboards deleteLeaderboard getLeaderboard deleteLeaderboardRecord
    listLeaderboardRecords listMatches getMatchState deleteChannelMessages listNotifications
    deleteNotification getNotification listPurchases getRuntime getStatus deleteStorage
    listStorage listStorageCollections deleteStorageObject getStorage writeStorageObject
    deleteStorageObject2 listSubscriptions deleteUser listUsers addUser requireUserMfa
    resetUserMfa authenticate];
  cbn [req_params]; repeat first [ apply (set_once _ _ _ _ []) | apply set_once
               | apply append_list_once; [assumption|] ];
  cbn; auto using le_S, le_n.

(** ** The properties *)

(** C1: [ConsoleService] and the gateway agree on every operation: the URL a method
    builds, split and decoded by the server, is matched by one route only, the one
    of the operation called, and the decoded segments are the arguments of the call,
    whatever characters (slashes, percent signs, dots, other scripts) they hold. *)
Theorem request_resolves config c
    (H : Forall (fun a => utf8_valid a = true) (path_args c)) :
  exists path, req_url (request_of config c) = ConfigParams_host config +:+ path /\
    dispatch (req_method (request_of config c)) path = [(route_name (route_of c), path_args c)].
Proof.
  destruct (call_route config c) as (Hi & Hm & Ha & Hu).
  exists (render (route_path (route_of c)) (path_args c)). split; [done|].
  rewrite Hm. by apply (dispatch_render (route_index c)).
Qed.

Definition test_config : ConfigParams := new_ConsoleService Und.

Lemma request_resolves_witness :
  exists path,
    req_url (request_of test_config (C_getStorage "t" (Val "a/b") (Val "50% off") (Val "x y")))
      = "http://127.0.0.1:7120" +:+ path /\
    dispatch GET path = [("getStorage", ["a/b"; "50% off"; "x y"])].
Proof.
  apply (request_resolves test_config (C_getStorage "t" (Val "a/b") (Val "50% off") (Val "x y"))).
  repeat constructor.
Defined.

(** Which requests of [ConsoleService] are authenticated by the service itself: a
    call made with a token sends it in the [Authorization] header, except the bodiless
    [POST]s, which send no header at all because the options object holding the header
    is passed in the place of the body (and is what the server receives as the body). *)
Theorem authorization_header config c t (H : auth_token_of c = Some t) :
  req_headers (request_of config c) !! "Authorization" =
    (if options_as_body c then None else Some ("Bearer " +:+ t)) /\
  (options_as_body c = true <-> req_body (request_of config c) = OptionsObject [] (getTokenAuthHeaders t)).
Proof.
  destruct c; try discriminate H; injection H as ->; (split; [reflexivity|]);
    cbn; split; intros E; first [reflexivity | discriminate E | exfalso; revert E; cbn; congruence].
Qed.

Lemma authorization_header_witness :
  req_headers (request_of test_config (C_banAccount "tok" (Val "u1"))) !! "Authorization" = None /\
  (true = true <-> req_body (request_of test_config (C_banAccount "tok" (Val "u1")))
                   = OptionsObject [] (getTokenAuthHeaders "tok")).
Proof. exact (authorization_header test_config (C_banAccount "tok" (Val "u1")) "tok" eq_refl). Defined.

(** [listLeaderboardRecords], with any [HttpParams] that obeys its laws, repeats
    the key [owner_ids] once per owner in order; sends [limit] unless it is missing, 0
    or NaN; sends [cursor] and [expiry] unless they are missing or empty; and sends no
    other key. *)
Theorem listLeaderboardRecords_query {P} `{HttpParams P} config t id owners limit cursor expiry :
  let get k := p_getAll k (build_params (req_params
                 (listLeaderboardRecords config t id owners limit cursor expiry)) : P) in
  get "owner_ids" = match owners with Val es => map js_String es | _ => [] end /\
  get "limit" = (if truthy num_truthy limit then [js_String_num limit] else []) /\
  get "cursor" = (if truthy_str cursor then [js_String cursor] else []) /\
  get "expiry" = (if truthy_str expiry then [js_String expiry] else []) /\
  (forall k, k ∉ ["owner_ids"; "limit"; "cursor"; "expiry"] -> get k = []).
Proof.
  intros get. unfold get. setoid_rewrite getAll_build_params.
  unfold listLeaderboardRecords. cbn [httpGet req_params].
  destruct owners as [| |es], (truthy num_truthy limit), (truthy_str cursor), (truthy_str expiry);
    split_and_all; try (intros k Hk; repeat (apply not_elem_of_cons in Hk as [? Hk]));
    autorewrite with js; repeat (rewrite decide_True by done); repeat (rewrite decide_False by done);
    try reflexivity.
Qed.

(** A query key is sent at most once by every call, but for the identifiers of
    [deleteChannelMessages] and the owners of [listLeaderboardRecords]. *)
Theorem query_key_once config c k (H : repeatable k = false) :
  length (param_values k (req_params (request_of config c))) <= 1.
Proof.
  assert (Hk : k <> "ids" /\ k <> "owner_ids").
  { unfold repeatable in H. apply orb_false_iff in H as [H1 H2].
    split; by apply String.eqb_neq. }
  destruct Hk as [Hk1 Hk2].
  destruct c; params_once.
Qed.

Lemma query_key_once_witness :
  length (param_values "limit" (req_params (request_of test_config
    (C_listNotifications "t" Und (Val (int 100)) (Val "c"))))) <= 1.
Proof. exact (query_key_once test_config _ "limit" eq_refl). Defined.
