(* ===== verification/Session.v ===== *)
(** * The session: [AuthenticationService] and the two HTTP interceptors

    The browser keeps the session twice, in [localStorage] and in the subject
    [currentSessionSubject]; [step] is the life of the application between them:
    logins and logouts answered in any order, failed requests that log the user
    out, the portal's token, reloads of the page. *)

From S2P Require Import Prelude Codec JsVal Json Runtime ConsoleTypes ConsoleService ConsoleRoutes.
From Stdlib Require Import Ascii.

(** [environments/environment*.ts] *)
Record environment := mkEnvironment {
  production : bool;
  segment_write_key : string;
  apiBaseUrl : string;
  nt : bool
}.

Definition environment_dev : environment :=
  mkEnvironment false "k23XRwEFKYnaKDk2esbRgEG49sLN6CDV" "http://127.0.0.1:7351" false.
Definition environment_prod : environment :=
  mkEnvironment true "dHl7FTjJ9icepBjEdOCcyMFQYL1BBiQO" "" false.
Definition environment_prod_nt : environment := mkEnvironment true "" "" true.

Definition SESSION_LOCALSTORAGE_KEY : string := "currentSession".

(** The state shared by the whole page. *)
Record browser := mkBrowser {
  localStorage : gmap string string;
  currentSessionSubject : jsval
}.

#[export] Instance eta_browser : Eta browser := fun b =>
  mkBrowser (localStorage b) (currentSessionSubject b).

(** [segment.identify(null, {username, email, cookie})] *)
Inductive effect := Identify (username email cookie : jsval).

Abbreviation App := (M browser effect).

(** ** Storage *)

(** [JSON.parse(localStorage.getItem(k))]: a missing item is [null], which
    [JSON.parse] reads as the text "null". *)
Definition read_item (k : string) (ls : gmap string string) : option jsval :=
  parse (js_String (get_or_null (ls !! k))).

Definition SyntaxError : jsval := JError "SyntaxError" "Unexpected token in JSON".
Definition InvalidCharacterError : jsval :=
  JError "InvalidCharacterError" "The string to be decoded is not correctly encoded.".

Definition or_throw {S C A} (o : option A) (e : jsval) : M S C A :=
  match o with Some a => ret a | None => throw e end.

(** [v.k] *)
Definition prop {S C} (k : string) (v : jsval) : M S C jsval :=
  or_throw (jget k v) (TypeError ("Cannot read properties of null (reading '" +:+ k +:+ "')")).

(** ** Claims of a token *)

(** [JSON.parse(atob(token.split('.')[1]))] *)
Definition claims_of_token {S C} (token : jsval) : M S C jsval :=
  match token with
  | JStr t =>
      let payload := get_or_undefined (split_on "." t !! 1) in
      raw ← or_throw (atob (js_String payload)) InvalidCharacterError;
      or_throw (parse raw) SyntaxError
  | _ => throw (TypeError "token.split is not a function")
  end.

Definition session_claims {S C} (session : jsval) : M S C jsval :=
  token ← prop "token" session;
  claims_of_token token.

Definition currentSessionValue : App jsval := gets currentSessionSubject.

Definition username : App jsval :=
  session ← currentSessionValue;
  claims ← session_claims session;
  prop "usn" claims.

(** The [switch] on the claim [rol]. *)
Definition role_of_claim (rol : jsval) : UserRole :=
  let eqs z := match rol with JNum n => num_eqb n (int z) | _ => false end in
  if eqs 1%Z then USER_ROLE_ADMIN
  else if eqs 2%Z then USER_ROLE_DEVELOPER
  else if eqs 3%Z then USER_ROLE_MAINTAINER
  else if eqs 4%Z then USER_ROLE_READONLY
  else USER_ROLE_UNKNOWN.

Definition sessionRole : App UserRole :=
  session ← currentSessionValue;
  claims ← session_claims session;
  role ← prop "rol" claims;
  ret (role_of_claim role).

Definition segmentIdentify (session : jsval) : App unit :=
  claims ← session_claims session;
  usn ← prop "usn" claims;
  ema ← prop "ema" claims;
  cki ← prop "cki" claims;
  emit (Identify usn ema cki).

Section authentication.
Context (env : environment) (config : ConfigParams).

(** The constructor, run once when the page is loaded. *)
Definition new_AuthenticationService : App unit :=
  ls ← gets localStorage;
  restoredSession ← or_throw (read_item SESSION_LOCALSTORAGE_KEY ls) SyntaxError;
  when (jtruthy restoredSession && negb (nt env)) (segmentIdentify restoredSession);;
  currentSessionSubject <~ restoredSession.

(** [login]: the request, and the [tap] its answer runs through. *)
Definition login_request (username password : opt string) : request :=
  authenticate config (mkAuthenticateRequest Und password username).

Definition setItem (k : string) (v : jsval) : App unit :=
  ls ← gets localStorage;
  localStorage <~ <[k := match stringify v with Some s => s | None => "undefined" end]> ls.
Definition removeItem (k : string) : App unit :=
  ls ← gets localStorage;
  localStorage <~ delete k ls.

Definition login_tap (session : jsval) : App unit :=
  setItem SESSION_LOCALSTORAGE_KEY session;;
  currentSessionSubject <~ session;;
  when (negb (nt env)) (segmentIdentify session).

(** A token is a string when it is present: the type of the request's field. *)
Definition token_field (v : jsval) : opt string :=
  match v with JStr s => Val s | JNull => Nul | _ => Und end.

(** [logout]: [None] is [EMPTY], which completes without an answer. *)
Definition logout_request (b : browser) : option request :=
  let session := currentSessionSubject b in
  if jtruthy session
  then Some (authenticateLogout config ""
               (mkAuthenticateLogoutRequest (token_field (jchain "token" session))))
  else None.

Definition logout_tap : App unit :=
  removeItem SESSION_LOCALSTORAGE_KEY;;
  removeItem "accessToken";;
  currentSessionSubject <~ JNull.

(** ** [SessionInterceptor] *)

Definition coreApiUrl (origin : string) : string :=
  if production env then origin else apiBaseUrl env.

(** [hubApiUrl] is declared and never assigned; [startsWith] converts its argument. *)
Definition hubApiUrl : opt string := Und.

Definition startsWith (s : string) (p : string) : bool := String.prefix p s.

Definition clone_authorization (req : request) (value : string) : request :=
  setf (f := req_headers) (fun h => <["Authorization" := value]> h) req.

Definition session_intercept (origin : string) (req : request) : App request :=
  session ← currentSessionValue;
  let coreToken := if jtruthy session && jtruthy (jchain "token" session)
                   then jchain "token" session else JStr "" in
  ls ← gets localStorage;
  hubToken ← or_throw (read_item "accessToken" ls) SyntaxError;
  ret (if startsWith (req_url req) (coreApiUrl origin) && jtruthy coreToken
       then clone_authorization req ("Bearer " +:+ String_ coreToken)
       else if startsWith (req_url req) (js_String hubApiUrl) && jtruthy hubToken
       then clone_authorization req ("Bearer " +:+ String_ (jchain "accessToken" hubToken))
       else req).
End authentication.

(** ** [AuthenticationErrorInterceptor] *)

(** [s.includes(p)] *)
Fixpoint includes (p s : string) : bool :=
  String.prefix p s || match s with "" => false | String _ s => includes p s end.

(** What [catchError] does with a failed request: whether it subscribes to
    [logout], what that subscription does when the logout is answered, and the
    error that is passed on (the value thrown by the handler itself, when reading
    [err.error.message] throws). *)
Record error_reaction := mkReaction {
  logs_out : bool;
  to_login_after_logout : bool;
  logged : option string;
  rethrown : jsval
}.

(** [err.error.message || err.statusText] *)
Definition error_text (err : http_error) : outcome jsval :=
  match jget "message" (err_error err) with
  | Some m => Ret (jor m (JStr (err_statusText err)))
  | None => Throw (TypeError "Cannot read properties of null (reading 'message')")
  end.

Definition error_intercept (req : request) (err : http_error) : error_reaction :=
  let unauthorized := (err_status err =? 401)%Z in
  match error_text err with
  | Ret m =>
      mkReaction unauthorized (unauthorized && negb (includes "/v3/auth" (req_url req)))
        (if negb unauthorized && (500 <=? err_status err)%Z
         then Some (string_of_num (int (err_status err)) +:+ ": + " +:+ String_ m) else None) m
  | Throw e =>
      mkReaction unauthorized (unauthorized && negb (includes "/v3/auth" (req_url req))) None e
  end.

(** ** The life of the application *)

(** Requests in flight: logins of the login page, logouts (with whether the user is
    taken to the login page afterwards), logins to the portal. *)
Record system := mkSystem {
  sys_browser : browser;
  sys_logins : nat;
  sys_logouts : list bool;
  sys_hub_logins : nat;
  sys_at_login : bool       (* the last navigation made by these components *)
}.

Definition state_after {A} (m : App A) (b : browser) : browser := (m b).1.2.
Definition returns {A} (m : App A) (b : browser) : bool :=
  match (m b).1.1 with Ret _ => true | Throw _ => false end.

(** What can happen: requests that are sent, their answers, and the page loaded again. *)
Inductive happening :=
| SignInSent
| SignedIn (session : jsval)
| SignInRefused
| SignOutSent
| SignedOut
| SignOutRefused
| PortalSent
| PortalGranted (d : jsval)
| PortalRefused
| Reloaded.

Section life.
Context (env : environment) (config : ConfigParams).

Inductive step : happening -> system -> system -> Prop :=
| step_login b n l h p :
    step SignInSent (mkSystem b n l h p) (mkSystem b (S n) l h p)
| step_login_ok session b n l h p :
    wf_json session ->
    step (SignedIn session) (mkSystem b (S n) l h p)
         (mkSystem (state_after (login_tap env session) b) n l h false)
| step_login_error b n l h p :
    step SignInRefused (mkSystem b (S n) l h p) (mkSystem b n l h p)
| step_logout r b n l h p :
    logout_request config b = Some r ->
    step SignOutSent (mkSystem b n l h p) (mkSystem b n (l ++ [true]) h p)
| step_failed_request req err r b n l h p :
    logs_out (error_intercept req err) = true ->
    logout_request config b = Some r ->
    step SignOutSent (mkSystem b n l h p)
         (mkSystem b n (l ++ [to_login_after_logout (error_intercept req err)]) h p)
| step_logout_ok i go b n l h p :
    l !! i = Some go ->
    step SignedOut (mkSystem b n l h p)
         (mkSystem (state_after logout_tap b) n (splice1 i l) h (go || p))
| step_logout_error i go b n l h p :
    l !! i = Some go ->
    step SignOutRefused (mkSystem b n l h p) (mkSystem b n (splice1 i l) h p)
| step_hub_login b n l h p :
    step PortalSent (mkSystem b n l h p) (mkSystem b n l (S h) p)
| step_hub_ok d b n l h p :
    wf_json d ->
    step (PortalGranted d) (mkSystem b n l (S h) p)
         (mkSystem (state_after (setItem "accessToken" d) b) n l h p)
| step_hub_error b n l h p :
    step PortalRefused (mkSystem b n l (S h) p)
         (mkSystem (state_after (removeItem "accessToken") b) n l h p)
| step_reload b n l h p :
    returns (new_AuthenticationService env) b = true ->
    step Reloaded (mkSystem b n l h p)
         (mkSystem (state_after (new_AuthenticationService env) b) 0 [] 0 p).
End life.

(** The application starts with whatever the page finds in [localStorage]. *)
Definition boots (env : environment) (ls : gmap string string) (s : system) : Prop :=
  let b := mkBrowser ls JNull in
  returns (new_AuthenticationService env) b = true /\
  s = mkSystem (state_after (new_AuthenticationService env) b) 0 [] 0 false.

Inductive lives (env : environment) (config : ConfigParams) (ls : gmap string string) : system -> Prop :=
| lives_boot s : boots env ls s -> lives env config ls s
| lives_step e s s' : lives env config ls s -> step env config e s s' -> lives env config ls s'.

(** The same lives with all that has happened in them, in order. *)
Inductive history (env : environment) (config : ConfigParams) (ls : gmap string string) : list happening -> system -> Prop :=
| history_boot s : boots env ls s -> history env config ls [] s
| history_step es e s s' : history env config ls es s -> step env config e s s' -> history env config ls (es ++ [e]) s'.

(** ** Lemmas *)

(** What is stored and what is in memory agree, and the portal's token is readable. *)
Definition coherent (b : browser) : Prop :=
  read_item SESSION_LOCALSTORAGE_KEY (localStorage b) = Some (currentSessionSubject b) /\
  is_Some (read_item "accessToken" (localStorage b)).

Lemma read_item_set k v ls : wf_json v ->
  read_item k (<[k := match stringify v with Some s => s | None => "undefined" end]> ls) = Some v.
Proof.
  intros (s & Hs & Hp)%parse_stringify. unfold read_item.
  by rewrite lookup_insert_eq, Hs.
Qed.

Lemma read_item_other k k' t ls : k' <> k -> read_item k (<[k' := t]> ls) = read_item k ls.
Proof. intros. unfold read_item. by rewrite lookup_insert_ne. Qed.

Lemma read_item_delete k ls : read_item k (delete k ls) = Some JNull.
Proof. unfold read_item. by rewrite lookup_delete_eq. Qed.

Lemma read_item_delete_other k k' ls : k' <> k -> read_item k (delete k' ls) = read_item k ls.
Proof. intros. unfold read_item. by rewrite lookup_delete_ne. Qed.

#[export] Hint Rewrite read_item_delete : js.

(** Reading the claims changes nothing, whether it throws or not. *)
Definition silent {A} (m : App A) : Prop := forall b, (m b).1.2 = b.

Lemma silent_bind {A B} (m : App A) (f : A -> App B) :
  silent m -> (forall a, silent (f a)) -> silent (m ≫= f).
Proof.
  intros Hm Hf b. specialize (Hm b). run_m.
  destruct (m b) as [[[a|e] b'] l]; simpl in *; [|done]. subst b'.
  specialize (Hf a b). destruct (f a b) as [[o b'] l']. exact Hf.
Qed.

Lemma silent_or_throw {A} (o : option A) e : silent (or_throw o e).
Proof. by destruct o. Qed.

Lemma silent_session_claims session : silent (session_claims session).
Proof.
  apply silent_bind; [apply silent_or_throw|]. intros token. destruct token; try done.
  apply silent_bind; intros; apply silent_or_throw.
Qed.

Lemma silent_segmentIdentify session : silent (segmentIdentify session).
Proof.
  unfold segmentIdentify, prop. apply silent_bind; [apply silent_session_claims|intros claims].
  repeat (apply silent_bind; [apply silent_or_throw|intros ?]). done.
Qed.

Lemma state_after_bind {A B} (m : App A) (f : A -> App B) b a b' l :
  m b = (Ret a, b', l) -> state_after (m ≫= f) b = state_after (f a) b'.
Proof. intros E. unfold state_after. rewrite (M_bind_ret _ _ _ _ _ _ E). by destruct (f a b') as [[o s] l']. Qed.

Lemma login_tap_state env session b :
  state_after (login_tap env session) b =
  mkBrowser (<[SESSION_LOCALSTORAGE_KEY := match stringify session with Some s => s | None => "undefined" end]>
               (localStorage b)) session.
Proof.
  unfold state_after, login_tap, setItem. run_m. cbn.
  destruct (negb (nt env)); [|done].
  match goal with |- context [segmentIdentify session ?b] =>
    pose proof (silent_segmentIdentify session b); by destruct (segmentIdentify session b) as [[o b'] l]
  end.
Qed.

Lemma new_AuthenticationService_state env b :
  returns (new_AuthenticationService env) b = true ->
  exists session, read_item SESSION_LOCALSTORAGE_KEY (localStorage b) = Some session /\
    state_after (new_AuthenticationService env) b = mkBrowser (localStorage b) session.
Proof.
  unfold returns, state_after, new_AuthenticationService, or_throw. run_m.
  destruct (read_item _ _) as [session|] eqn:E; [|done]. intros H. exists session. split; [done|].
  revert H. destruct (jtruthy session && negb (nt env)); [|done].
  pose proof (silent_segmentIdentify session b) as Hs.
  destruct (segmentIdentify session b) as [[[[]|e] b'] l]; simpl in *; [|done]. by subst.
Qed.

Lemma logout_tap_state b :
  state_after logout_tap b =
  mkBrowser (delete "accessToken" (delete SESSION_LOCALSTORAGE_KEY (localStorage b))) JNull.
Proof. reflexivity. Qed.

Lemma coherent_login env session b : wf_json session -> coherent b ->
  coherent (state_after (login_tap env session) b).
Proof.
  intros Hwf [_ H]. rewrite login_tap_state. split; simpl.
  - by apply read_item_set.
  - by rewrite read_item_other.
Qed.

Lemma coherent_logout b : coherent (state_after logout_tap b).
Proof.
  rewrite logout_tap_state. split; simpl.
  - rewrite read_item_delete_other by done. apply read_item_delete.
  - rewrite read_item_delete. done.
Qed.

Lemma coherent_hub d b : wf_json d -> coherent b -> coherent (state_after (setItem "accessToken" d) b).
Proof.
  intros Hwf [H _]. unfold state_after, setItem. run_m. split; simpl.
  - by rewrite read_item_other.
  - by rewrite read_item_set.
Qed.

Lemma coherent_hub_error b : coherent b -> coherent (state_after (removeItem "accessToken") b).
Proof.
  intros [H _]. unfold state_after, removeItem. run_m. split; simpl.
  - by rewrite read_item_delete_other.
  - by rewrite read_item_delete.
Qed.

Lemma coherent_reload env b : is_Some (read_item "accessToken" (localStorage b)) ->
  returns (new_AuthenticationService env) b = true ->
  coherent (state_after (new_AuthenticationService env) b).
Proof.
  intros H (session & Hs & ->)%new_AuthenticationService_state. by split.
Qed.

Lemma lives_coherent env config ls s :
  is_Some (read_item "accessToken" ls) -> lives env config ls s -> coherent (sys_browser s).
Proof.
  intros Htok. induction 1 as [s [Hr ->]|e s s' _ IH Hstep].
  - simpl. by apply coherent_reload.
  - destruct Hstep; simpl in *;
      eauto using coherent_login, coherent_logout, coherent_hub, coherent_hub_error.
    apply coherent_reload; [apply IH|done].
Qed.

(** ** What the session promises to the rest of the console

    The specification knows who is signed in, the portal's token, and how many requests of
    each kind wait for an answer, and nothing of the store, the copy in memory, the form of
    the requests or the page.  Each happening is one step of it, with one outcome: an answer
    comes only to what was asked, only a signed-in user is signed out, the identity is what
    the last answer made it, and loading the page again changes nobody's identity. *)
Record identity := mkIdentity { who : jsval; hub : jsval }.

Record contract := mkContract { identity_of : identity; sign_ins : nat; sign_outs : nat; portal_sign_ins : nat }.

Inductive contract_step : happening -> contract -> contract -> Prop :=
| does_SignInSent i n o h : contract_step SignInSent (mkContract i n o h) (mkContract i (S n) o h)
| does_SignedIn session i n o h :
    contract_step (SignedIn session) (mkContract i (S n) o h) (mkContract (mkIdentity session (hub i)) n o h)
| does_SignInRefused i n o h : contract_step SignInRefused (mkContract i (S n) o h) (mkContract i n o h)
| does_SignOutSent i n o h :
    jtruthy (who i) = true -> contract_step SignOutSent (mkContract i n o h) (mkContract i n (S o) h)
| does_SignedOut i n o h :
    contract_step SignedOut (mkContract i n (S o) h) (mkContract (mkIdentity JNull JNull) n o h)
| does_SignOutRefused i n o h : contract_step SignOutRefused (mkContract i n (S o) h) (mkContract i n o h)
| does_PortalSent i n o h : contract_step PortalSent (mkContract i n o h) (mkContract i n o (S h))
| does_PortalGranted d i n o h :
    contract_step (PortalGranted d) (mkContract i n o (S h)) (mkContract (mkIdentity (who i) d) n o h)
| does_PortalRefused i n o h :
    contract_step PortalRefused (mkContract i n o (S h)) (mkContract (mkIdentity (who i) JNull) n o h)
| does_Reloaded i n o h : contract_step Reloaded (mkContract i n o h) (mkContract i 0 0 0).

(** The runs of the specification. *)
Inductive contract_runs (x0 : contract) : list happening -> contract -> Prop :=
| contract_start : contract_runs x0 [] x0
| contract_next es e x x' : contract_runs x0 es x -> contract_step e x x' -> contract_runs x0 (es ++ [e]) x'.

(** The browser holds an identity: the session twice, the portal's token once. *)
Definition holds (b : browser) (i : identity) : Prop :=
  currentSessionSubject b = who i /\
  read_item SESSION_LOCALSTORAGE_KEY (localStorage b) = Some (who i) /\
  read_item "accessToken" (localStorage b) = Some (hub i).

Lemma holds_login env session b i : wf_json session -> holds b i ->
  holds (state_after (login_tap env session) b) (mkIdentity session (hub i)).
Proof.
  intros Hwf (_ & _ & H). rewrite login_tap_state. unfold holds; split_and_all; simpl;
    [done|by apply read_item_set|by rewrite read_item_other].
Qed.

Lemma holds_logout b : holds (state_after logout_tap b) (mkIdentity JNull JNull).
Proof.
  rewrite logout_tap_state. unfold holds; split_and_all; simpl; [done|..].
  - rewrite read_item_delete_other by done. apply read_item_delete.
  - apply read_item_delete.
Qed.

Lemma holds_hub d b i : wf_json d -> holds b i ->
  holds (state_after (setItem "accessToken" d) b) (mkIdentity (who i) d).
Proof.
  intros Hwf (H1 & H2 & _). unfold state_after, setItem. run_m. unfold holds; split_and_all; simpl;
    [done|by rewrite read_item_other|by apply read_item_set].
Qed.

Lemma holds_hub_lost b i : holds b i ->
  holds (state_after (removeItem "accessToken") b) (mkIdentity (who i) JNull).
Proof.
  intros (H1 & H2 & _). unfold state_after, removeItem. run_m. unfold holds; split_and_all; simpl;
    [done|by rewrite read_item_delete_other|apply read_item_delete].
Qed.

(** Loading the page again changes nothing of what it holds. *)
Lemma holds_reload env b i : returns (new_AuthenticationService env) b = true -> holds b i ->
  holds (state_after (new_AuthenticationService env) b) i.
Proof.
  intros (session & Hs & ->)%new_AuthenticationService_state (H1 & H2 & H3).
  rewrite H2 in Hs. injection Hs as <-. by unfold holds; split_and_all.
Qed.

(** The system and the specification. *)
Definition agrees (s : system) (x : contract) : Prop :=
  holds (sys_browser s) (identity_of x) /\ sys_logins s = sign_ins x /\ length (sys_logouts s) = sign_outs x /\
  sys_hub_logins s = portal_sign_ins x.

Lemma logout_request_signed_in config b i r : logout_request config b = Some r -> holds b i -> jtruthy (who i) = true.
Proof. intros Hr (E & _). unfold logout_request in Hr. rewrite <- E. by destruct (jtruthy (currentSessionSubject b)). Qed.

Lemma length_splice1_lookup {A} i (l : list A) x : l !! i = Some x -> length l = S (length (splice1 i l)).
Proof. intros Hi%lookup_lt_Some. rewrite splice1_length_lt by done. lia. Qed.

(** Every step is the step of the specification that it is called. *)
Lemma step_agrees env config e s s' x : step env config e s s' -> agrees s x ->
  exists x', contract_step e x x' /\ agrees s' x'.
Proof.
  intros Hstep (Hi & Hn & Ho & Hh). destruct x as [i n o h]. cbn in *. unfold agrees.
  destruct Hstep as [b n' l h' p|session b n' l h' p Hw|b n' l h' p|r b n' l h' p Hr|req err r b n' l h' p _ Hr
    |k go b n' l h' p Hk|k go b n' l h' p Hk|b n' l h' p|d b n' l h' p Hw|b n' l h' p|b n' l h' p Hr];
    cbn in *; subst; rewrite ?length_app, ?Nat.add_1_r;
    try rewrite (length_splice1_lookup _ _ _ Hk);
    eexists; (split; [constructor; by eauto using logout_request_signed_in|]);
    cbn; eauto 10 using holds_login, holds_logout, holds_hub, holds_hub_lost, holds_reload.
Qed.

Lemma history_contract env config ls es s session d :
  read_item SESSION_LOCALSTORAGE_KEY ls = Some session -> read_item "accessToken" ls = Some d ->
  history env config ls es s ->
  exists x, contract_runs (mkContract (mkIdentity session d) 0 0 0) es x /\ agrees s x.
Proof.
  intros Hs Hd Hrun. induction Hrun as [s [Hr ->]|es e s s' _ [x [Hx Ha]] Hstep].
  - eexists. split; [constructor|]. apply new_AuthenticationService_state in Hr as (session' & E & E').
    cbn in E, E'. rewrite Hs in E. injection E as <-. rewrite E'. by unfold agrees, holds.
  - destruct (step_agrees env config e s s' x Hstep Ha) as (x' & Hx' & Ha'). exists x'.
    split; [by eapply contract_next|done].
Qed.

Lemma startsWith_app p s : startsWith (p +:+ s) p = true.
Proof.
  unfold startsWith. induction p as [|c p IH]; [by destruct s|].
  rewrite string_app_cons. simpl. by destruct (Ascii.ascii_dec c c).
Qed.

(** A token as the server makes it: the payload is the text of the claims. *)
Definition jwt (header payload signature : string) : string :=
  header +:+ "." +:+ base64url payload +:+ "." +:+ signature.

Lemma jwt_payload h p s : string_has "." h = false ->
  split_on "." (jwt h p s) !! 1 = Some (base64url p).
Proof.
  intros Hh. unfold jwt.
  rewrite (string_app_cons "." "" _), (split_on_app "." h) by done.
  rewrite string_app_nil_l, (string_app_cons "." "" s), split_on_app by apply base64url_no_dot.
  done.
Qed.

Lemma session_claims_token {S C} h p s session v (st : S) :
  string_has "." h = false -> jget "token" session = Some (JStr (jwt h p s)) ->
  plain_sextets p = true -> parse (of_latin1 p) = Some v ->
  session_claims (C := C) session st = (Ret v, st, []).
Proof.
  intros Hh Ht Hp Hv. unfold session_claims, prop, claims_of_token. rewrite Ht. run_m.
  unfold or_throw at 1. run_m. rewrite jwt_payload by done. cbn [get_or_undefined js_String].
  rewrite atob_base64url by done. unfold or_throw. run_m. by rewrite Hv.
Qed.

Lemma session_claims_bad {S C} h p s session (st : S) :
  string_has "." h = false -> jget "token" session = Some (JStr (jwt h p s)) ->
  plain_sextets p = false ->
  session_claims (C := C) session st = (Throw InvalidCharacterError, st, []).
Proof.
  intros Hh Ht Hp. unfold session_claims, prop, claims_of_token. rewrite Ht. run_m.
  unfold or_throw at 1. run_m. rewrite jwt_payload by done. cbn [get_or_undefined js_String].
  rewrite atob_base64url_bad by done. unfold or_throw. by run_m.
Qed.

(** ** The properties *)

(** C3: the session keeps its contract: in every life of it, what has happened is a run of
    the specification, from the identity that was stored, and ends with the specification in
    agreement with the system: the session in memory and the stored one are the one the
    specification names, the stored token of the portal is the one it names, and as many
    requests of each kind wait.  So the identity is what the happenings have made it, each
    with its own effect: signing in replaces the session and keeps the portal's token,
    signing out forgets both, in memory and in the store, the portal's answers change only
    the portal's token, and requests, failures and reloads change nothing. *)
Theorem session_refines_specification env config ls es s session d
    (Hs : read_item SESSION_LOCALSTORAGE_KEY ls = Some session) (Hd : read_item "accessToken" ls = Some d)
    (Hrun : history env config ls es s) :
  exists x, contract_runs (mkContract (mkIdentity session d) 0 0 0) es x /\ agrees s x.
Proof. by eapply history_contract. Qed.

(** C2: along every run of the application (logins, logouts, failed requests, portal
    logins and reloads in any order, answers in any order), from any contents of
    [localStorage] on which the page starts, the stored session is the one in memory:
    reloading the page never changes who is logged in. *)
Theorem session_survives_reload env config ls s
    (Htok : is_Some (read_item "accessToken" ls)) (Hs : lives env config ls s) :
  read_item SESSION_LOCALSTORAGE_KEY (localStorage (sys_browser s))
    = Some (currentSessionSubject (sys_browser s)) /\
  (returns (new_AuthenticationService env) (sys_browser s) = true ->
   state_after (new_AuthenticationService env) (sys_browser s) = sys_browser s).
Proof.
  destruct (lives_coherent _ _ _ _ Htok Hs) as [Hc _]. split; [done|].
  intros (session & Hr & ->)%new_AuthenticationService_state.
  destruct (sys_browser s) as [l cur]. simpl in *. congruence.
Qed.

Definition test_claims : string :=
  json_text "{'id':'7','usn':'admin','ema':'a@b.c','rol':1,'exp':9,'cki':'c'}".
Definition test_session : jsval := JObj [("token", JStr (jwt "h" test_claims "s"))].
Definition test_browser : browser := state_after (login_tap environment_dev test_session) (mkBrowser ∅ JNull).

Definition dev_config : ConfigParams := mkConfigParams (coreApiUrl environment_dev "") Und.

Lemma dev_life : lives environment_dev dev_config ∅ (mkSystem test_browser 0 [] 0 false).
Proof.
  replace false with (negb (returns (login_tap environment_dev test_session) (mkBrowser ∅ JNull)) && false)
    by apply andb_false_r.
  eapply lives_step; [eapply lives_step; [apply lives_boot|apply step_login]|apply step_login_ok].
  - split; [vm_compute; reflexivity|reflexivity].
  - apply wf_obj; [|reflexivity]. repeat constructor.
Qed.

Lemma session_survives_reload_witness :
  read_item SESSION_LOCALSTORAGE_KEY (localStorage test_browser) = Some test_session /\
  (returns (new_AuthenticationService environment_dev) test_browser = true ->
   state_after (new_AuthenticationService environment_dev) test_browser = test_browser).
Proof.
  refine (session_survives_reload environment_dev dev_config ∅ _ _ dev_life).
  exists JNull. vm_compute. reflexivity.
Defined.

(** A user signs in and out again. *)
Lemma session_refines_specification_witness :
  let s2 := mkSystem test_browser 0 [] 0 false in
  let s4 := mkSystem (state_after logout_tap test_browser) 0 [] 0 true in
  (exists x, contract_runs (mkContract (mkIdentity JNull JNull) 0 0 0) [SignInSent; SignedIn test_session] x /\ agrees s2 x) /\
  (exists x, contract_runs (mkContract (mkIdentity JNull JNull) 0 0 0) [SignInSent; SignedIn test_session; SignOutSent; SignedOut] x /\ agrees s4 x).
Proof.
  intros s2 s4.
  assert (H2 : history environment_dev dev_config ∅ [SignInSent; SignedIn test_session] s2).
  { apply (history_step _ _ _ [SignInSent] _ (mkSystem (mkBrowser ∅ JNull) 1 [] 0 false)).
    - apply (history_step _ _ _ [] _ (mkSystem (mkBrowser ∅ JNull) 0 [] 0 false)); [|constructor].
      constructor. split; [vm_compute; reflexivity|reflexivity].
    - apply step_login_ok. apply wf_obj; [|reflexivity]. repeat constructor. }
  assert (H4 : history environment_dev dev_config ∅ [SignInSent; SignedIn test_session; SignOutSent; SignedOut] s4).
  { apply (history_step _ _ _ [SignInSent; SignedIn test_session; SignOutSent] _ (mkSystem test_browser 0 [true] 0 false)).
    - eapply (history_step _ _ _ [SignInSent; SignedIn test_session]); [exact H2|]. eapply (step_logout _ _ _ test_browser 0 [] 0 false).
      vm_compute. reflexivity.
    - apply (step_logout_ok _ _ 0 true test_browser 0 [true] 0 false). reflexivity. }
  split; eapply (session_refines_specification environment_dev dev_config ∅); try eassumption; vm_compute; reflexivity.
Defined.



(** C35: a session whose token has a payload with the sextet 62 or 63 (written [-] and
    [_] in a token) is stored by [login] and then fails it with an
    [InvalidCharacterError]; from then on the role cannot be read, and the page cannot
    be started again, until [localStorage] is cleared. *)
Theorem url_alphabet_token_locks_out env h p sig session b
    (Hnt : nt env = false) (Hh : string_has "." h = false) (Hp : plain_sextets p = false)
    (Hwf : wf_json session)
    (Ht : jget "token" session = Some (JStr (jwt h p sig))) :
  let b' := state_after (login_tap env session) b in
  (login_tap env session b).1.1 = Throw InvalidCharacterError /\
  currentSessionSubject b' = session /\
  sessionRole b' = (Throw InvalidCharacterError, b', []) /\
  new_AuthenticationService env b' = (Throw InvalidCharacterError, b', []).
Proof.
  intros b'. subst b'. rewrite login_tap_state.
  assert (Htr : jtruthy session = true) by (by destruct session; try discriminate Ht).
  unfold login_tap, setItem, sessionRole, new_AuthenticationService, currentSessionValue, segmentIdentify.
  rewrite Hnt. unfold or_throw. run_m. cbn [localStorage currentSessionSubject setf eta eta_browser].
  rewrite (read_item_set SESSION_LOCALSTORAGE_KEY session _ Hwf). cbn [negb]. rewrite Htr. cbn [andb].
  by rewrite !(session_claims_bad h p sig session) by done.
Qed.

Definition tilde_claims : string := json_text "{'usn':'ana~~~1','rol':1}".
Definition tilde_session : jsval := JObj [("token", JStr (jwt "h" tilde_claims "s"))].

Lemma url_alphabet_token_locks_out_witness :
  let b' := state_after (login_tap environment_prod tilde_session) (mkBrowser ∅ JNull) in
  (login_tap environment_prod tilde_session (mkBrowser ∅ JNull)).1.1 = Throw InvalidCharacterError /\
  currentSessionSubject b' = tilde_session /\
  sessionRole b' = (Throw InvalidCharacterError, b', []) /\
  new_AuthenticationService environment_prod b' = (Throw InvalidCharacterError, b', []).
Proof.
  apply (url_alphabet_token_locks_out environment_prod "h" tilde_claims "s" tilde_session);
    [reflexivity | reflexivity | vm_compute; reflexivity | | reflexivity].
  apply wf_obj; [|reflexivity]. repeat constructor.
Defined.

(** C7: every request the console service makes while a session is open reaches the
    server with the token of that session, including the requests whose own header is
    lost, and with its method, URL, body and parameters unchanged: in a running
    application [SessionInterceptor] does not throw. *)
Theorem intercepted_calls_authorized env config ls s origin c t
    (Htok : is_Some (read_item "accessToken" ls)) (Hs : lives env config ls s)
    (Hhost : ConfigParams_host config = coreApiUrl env origin)
    (Ht : jget "token" (currentSessionSubject (sys_browser s)) = Some (JStr t)) (Hne : t <> "") :
  exists req, session_intercept env origin (request_of config c) (sys_browser s)
                = (Ret req, sys_browser s, []) /\
    req_headers req !! "Authorization" = Some ("Bearer " +:+ t) /\
    req_method req = req_method (request_of config c) /\
    req_url req = req_url (request_of config c) /\
    req_body req = req_body (request_of config c) /\
    req_params req = req_params (request_of config c).
Proof.
  destruct (lives_coherent _ _ _ _ Htok Hs) as [_ [hub Hhub]].
  destruct (call_route config c) as (_ & _ & _ & Hu).
  assert (Htr : jtruthy (currentSessionSubject (sys_browser s)) = true)
    by (by destruct (currentSessionSubject (sys_browser s)); try discriminate Ht).
  assert (Hts : truthy_string t = true).
  { unfold truthy_string. by rewrite (proj2 (String.eqb_neq t "")). }
  exists (clone_authorization (request_of config c) ("Bearer " +:+ t)).
  unfold session_intercept, currentSessionValue, or_throw. run_m.
  rewrite Hhub, Htr. unfold jchain. rewrite Ht. cbn [jtruthy]. rewrite Hts. cbn [andb jtruthy]. rewrite Hts.
  assert (startsWith (req_url (request_of config c)) (coreApiUrl env origin) = true) as ->
    by (rewrite <- Hhost, Hu; apply startsWith_app).
  split_and_all; try done. apply lookup_insert_eq.
Qed.

Lemma intercepted_calls_authorized_witness :
  exists req, session_intercept environment_dev "" (request_of dev_config (C_banAccount "" (Val "u"))) test_browser
                = (Ret req, test_browser, []) /\
    req_headers req !! "Authorization" = Some ("Bearer " +:+ jwt "h" test_claims "s") /\
    req_method req = POST /\
    req_url req = "http://127.0.0.1:7351/v2/console/account/u/ban" /\
    req_body req = OptionsObject [] (getTokenAuthHeaders "") /\
    req_params req = [].
Proof.
  refine (intercepted_calls_authorized environment_dev dev_config ∅ _ ""
            (C_banAccount "" (Val "u")) (jwt "h" test_claims "s") _ dev_life eq_refl _ _).
  - exists JNull. vm_compute. reflexivity.
  - reflexivity.
  - discriminate.
Defined.

(** A request is left exactly as it is when its URL does not start with the address
    of the console API nor with the text "undefined" ([hubApiUrl] is never assigned):
    no token is added to requests to other hosts. *)
Theorem foreign_requests_untouched env origin req b
    (Hhub : is_Some (read_item "accessToken" (localStorage b)))
    (Hcore : startsWith (req_url req) (coreApiUrl env origin) = false)
    (Hundef : startsWith (req_url req) "undefined" = false) :
  session_intercept env origin req b = (Ret req, b, []).
Proof.
  destruct Hhub as [hub Hhub].
  unfold session_intercept, currentSessionValue, or_throw. run_m.
  rewrite Hhub, Hcore. cbn. by rewrite Hundef.
Qed.

Lemma foreign_requests_untouched_witness :
  session_intercept environment_dev "" (mkRequest GET "https://hub.example/api" NoBody [] ∅) test_browser
    = (Ret (mkRequest GET "https://hub.example/api" NoBody [] ∅), test_browser, []).
Proof.
  apply foreign_requests_untouched; [exists JNull|..]; vm_compute; reflexivity.
Defined.

(** [logout], once answered, leaves no session and no portal token, in memory or in
    [localStorage]; another logout is then [EMPTY] and sends
    no request; the other items stay; and the page starts without a session. *)
Theorem logout_clears env config b :
  let b' := state_after logout_tap b in
  currentSessionSubject b' = JNull /\
  localStorage b' !! SESSION_LOCALSTORAGE_KEY = None /\ localStorage b' !! "accessToken" = None /\
  logout_request config b' = None /\
  (forall k, k <> SESSION_LOCALSTORAGE_KEY -> k <> "accessToken" -> localStorage b' !! k = localStorage b !! k) /\
  new_AuthenticationService env b' = (Ret tt, b', []).
Proof.
  intros b'. subst b'. rewrite logout_tap_state. cbn [currentSessionSubject localStorage].
  split_and_all; try reflexivity.
  - rewrite lookup_delete_ne by done. apply lookup_delete_eq.
  - apply lookup_delete_eq.
  - intros k H1 H2. by rewrite !lookup_delete_ne.
  - unfold new_AuthenticationService, or_throw. run_m. cbn [localStorage].
    by rewrite read_item_delete_other, read_item_delete.
Qed.

(** [AuthenticationErrorInterceptor] logs out exactly on status 401; what it passes
    on is the message of the error body, or the status text when the body has none;
    and it fails with its own [TypeError] when the body is [null]; errors of the server
    itself (from 500 on) are also logged. *)
Theorem error_interceptor_result req err :
  logs_out (error_intercept req err) = (err_status err =? 401)%Z /\
  rethrown (error_intercept req err) =
    match err_error err with
    | JNull | JUndef => TypeError "Cannot read properties of null (reading 'message')"
    | body => jor (jchain "message" body) (JStr (err_statusText err))
    end /\
  logged (error_intercept req err) =
    match err_error err with
    | JNull | JUndef => None
    | _ => if (500 <=? err_status err)%Z
           then Some (string_of_num (int (err_status err)) +:+ ": + " +:+ String_ (rethrown (error_intercept req err)))
           else None
    end.
Proof.
  unfold error_intercept, error_text, jchain.
  destruct (jget "message" (err_error err)) as [m|] eqn:E; cbn.
  - split_and_all; [done|by destruct (err_error err); first [discriminate E|injection E as <-]|].
    assert (Hm : match err_error err with JNull | JUndef => false | _ => true end = true)
      by (destruct (err_error err); done).
    destruct (err_error err); try discriminate Hm;
      (destruct (err_status err =? 401)%Z eqn:H; [apply Z.eqb_eq in H as ->; reflexivity|done]).
  - split_and_all; [done|by destruct (err_error err)..].
Qed.
