(* ===== verification/LayergPortal.v ===== *)
(** * [LayergPortalService] ([layergPortal.service.ts]): the requests to the portal

    The service keeps the address of the portal, which other parts of the page
    replace by the one found in the server's configuration, and reads the portal's
    token from [localStorage] at every request. *)

From S2P Require Import Prelude Codec JsVal Json Runtime ConsoleService Session.

Definition LAYERG_DEFAULT_HOST : string := "https://w0f43x62-3000.asse.devtunnels.ms/api".

(** [LayergPortalConfig]; the host comes from a configuration file, so it may be
    missing or of any type. *)
Record LayergPortalConfig := mkLayergPortalConfig {
  layerg_host : jsval;
  layerg_timeoutMs : num
}.

Definition new_LayergPortalService (config : option LayergPortalConfig) : LayergPortalConfig :=
  match config with
  | Some c => c
  | None => mkLayergPortalConfig (JStr LAYERG_DEFAULT_HOST) (int 5000)
  end.

(** The two guards' and the base page's [tap] on the configuration: the JSON text of
    the field [config], or an empty object when the answer or the field is missing. *)
Definition parse_config (configRes : jsval) : outcome jsval :=
  match jor (jchain "config" configRes) (JStr "{}") with
  | JStr s => match parse s with Some v => Ret v | None => Throw SyntaxError end
  | v => match parse (String_ v) with Some v => Ret v | None => Throw SyntaxError end
  end.

Definition layerg_core (parsed : jsval) (k : string) : jsval := jchain k (jchain "layerg_core" parsed).

Definition config_tap (configRes : jsval) : outcome LayergPortalConfig :=
  match parse_config configRes with
  | Ret parsed => Ret (mkLayergPortalConfig (layerg_core parsed "hub_url") (int 5000))
  | Throw e => Throw e
  end.

(** ** What the portal answers

    [project] and the other fields that the pages never read are dynamic values. *)

Record SmartContract := mkSmartContract {
  SmartContract_id : opt string;
  SmartContract_updatedAt : opt string;
  SmartContract_contractAddress : opt string;
  SmartContract_contractType : opt string;
  SmartContract_networkID : opt num;
  SmartContract_contractName : opt string;
  SmartContract_tokenSymbol : opt string;
  SmartContract_totalSupply : jsval;
  SmartContract_collectionId : opt string;
  SmartContract_deployedAt : opt string;
  SmartContract_nameSlug : opt string
}.

Record CollectionItem := mkCollectionItem {
  CollectionItem_id : opt string;
  CollectionItem_createdAt : opt string;
  CollectionItem_updatedAt : opt string;
  CollectionItem_name : opt string;
  CollectionItem_nameSlug : opt string;
  CollectionItem_description : opt string;
  CollectionItem_avatarUrl : opt string;
  CollectionItem_projectId : opt string;
  CollectionItem_project : jsval;
  CollectionItem_totalAssets : opt num;
  CollectionItem_slug : opt string;
  CollectionItem_SmartContract : opt (list SmartContract);
  CollectionItem_isPublic : opt bool
}.

Record Paging := mkPaging {
  Paging_total : opt num;
  Paging_limit : opt num;
  Paging_page : opt num
}.

Record CollectionList := mkCollectionList {
  CollectionList_paging : opt Paging;
  CollectionList_data : opt (list CollectionItem)
}.

Record Attribute := mkAttribute {
  Attribute_value : opt string;
  Attribute_trait_type : opt string
}.

Record Media := mkMedia {
  Media_id : opt string;
  Media_S3Url : opt string;
  Media_IPFSUrl : jsval;
  Media_apiKeyID : opt string
}.

(** The inner record of the field [metadata]. *)
Record Metadata := mkMetadata { Metadata_attributes : opt (list Attribute) }.

Record CollectibleMetadata := mkCollectibleMetadata {
  CollectibleMetadata_id : opt string;
  CollectibleMetadata_metadata : opt Metadata;
  CollectibleMetadata_IPFSUrl : jsval;
  CollectibleMetadata_apiKeyID : opt string
}.

Record ICollectibleItem := mkCollectibleItem {
  CollectibleItem_id : opt string;
  CollectibleItem_tokenId : opt string;
  CollectibleItem_collectionId : opt string;
  CollectibleItem_name : opt string;
  CollectibleItem_description : opt string;
  CollectibleItem_createdAt : opt string;
  CollectibleItem_updatedAt : opt string;
  CollectibleItem_mediaStorageId : opt string;
  CollectibleItem_metaDataId : opt string;
  CollectibleItem_nameSlug : opt string;
  CollectibleItem_slug : opt string;
  CollectibleItem_quantity : opt num;
  CollectibleItem_collection : jsval;
  CollectibleItem_media : opt Media;
  CollectibleItem_metadata : opt CollectibleMetadata
}.

Record CollectibleList := mkCollectibleList {
  CollectibleList_paging : opt Paging;
  CollectibleList_data : opt (list ICollectibleItem)
}.

(** The answer to the upload of an image: the type admits one hash instead of a list. *)
Inductive fileHashes := OneHash (h : string) | Hashes (l : list string).

(** ** Requests *)

(** [HttpClient] turns an object of parameters into a query string; the elements of
    an array repeat the key. *)
Definition object_params (o : list (string * jsval)) : list param_op :=
  flat_map (fun kv : string * jsval =>
    match kv.2 with
    | JArr l => map (fun v => PAppend kv.1 (String_ v)) l
    | v => [PSet kv.1 (String_ v)]
    end) o.

Section portal.
Context (layerg : LayergPortalConfig) (ls : gmap string string).

Definition url_of (urlPath : string) : string := String_ (layerg_host layerg) +:+ urlPath.

(** [None] when the stored token is not JSON. The [|| ''] applies to the whole
    concatenation, which is never empty. *)
Definition portal_headers : option http_headers :=
  (fun accessToken => <["Authorization" := "Bearer " +:+ String_ (jchain "accessToken" accessToken)]> ∅)
    <$> read_item "accessToken" ls.

Definition portal_login (data : jsval) : request :=
  mkRequest POST (url_of "/auth/login") (JsonBody data) [] ∅.

Definition portal_get (urlPath : string) (params : list param_op) : option request :=
  (fun h => mkRequest GET (url_of urlPath) NoBody params h) <$> portal_headers.
Definition portal_post (urlPath : string) (body : http_body) : option request :=
  (fun h => mkRequest POST (url_of urlPath) body [] h) <$> portal_headers.
Definition portal_put (urlPath : string) (body : http_body) : option request :=
  (fun h => mkRequest PUT (url_of urlPath) body [] h) <$> portal_headers.

Definition listCollections (filter : list (string * jsval)) : option request :=
  portal_get "/collection" (object_params filter).
Definition createCollections (data : jsval) : option request :=
  portal_post "/collection" (JsonBody data).
Definition updateCollections (id : opt string) (data : jsval) : option request :=
  portal_put ("/collection/" +:+ encodeURIComponent (js_String id)) (JsonBody data).
Definition updateCollectionLinkContract (id : opt string) (data : jsval) : option request :=
  portal_put ("/collection/" +:+ encodeURIComponent (js_String id)) (JsonBody data).
Definition detailCollection (id : opt string) : option request :=
  portal_get ("/collection/" +:+ encodeURIComponent (js_String id)) [].
Definition uploadImage (data : list string) : option request :=
  portal_post "/common/upload-ipfs" (FormBody data).
Definition getIpfsUrl (hash : string) : string := url_of ("/common/ipfs-serve?ipfsPath=" +:+ hash).
Definition uploadNft (data : list string) : option request :=
  portal_post "/common/upload" (FormBody data).
Definition createCollectibleNft (data : jsval) : option request :=
  portal_post "/assets/create" (JsonBody data).
Definition updateCollectibleNft (id : opt string) (data : jsval) : option request :=
  portal_put ("/assets/" +:+ js_String id) (JsonBody data).
Definition listCollectibles (filter : list (string * jsval)) : option request :=
  portal_get "/assets" (object_params filter).
Definition detailCollectible (id : opt string) : option request :=
  portal_get ("/assets/" +:+ js_String id) [].
Definition publicCollection (id : opt string) : option request :=
  portal_post ("/collection/public/" +:+ js_String id) (JsonBody (JObj [])).
End portal.

(** ** The properties *)

(** The [|| ''] of [getTokenAuthHeaders] never takes effect: without a stored portal
    token, every authenticated request still carries an [Authorization] header, with the
    text "Bearer undefined"; with a token, it carries the token. *)
Theorem portal_authorization ls :
  (ls !! "accessToken" = None -> exists h, portal_headers ls = Some h /\
     h !! "Authorization" = Some "Bearer undefined") /\
  (forall d t, wf_json d -> jchain "accessToken" d = JStr t ->
     exists h, portal_headers (localStorage (state_after (setItem "accessToken" d) (mkBrowser ls JNull))) = Some h /\
       h !! "Authorization" = Some ("Bearer " +:+ t)).
Proof.
  unfold portal_headers. split.
  - intros H. unfold read_item. rewrite H. eexists. split; [reflexivity|].
    by rewrite lookup_insert_eq.
  - intros d t Hwf Ht. unfold state_after, setItem. run_m. cbn [localStorage].
    unfold setf. cbn [localStorage]. rewrite read_item_set by done. eexists. split; [reflexivity|].
    rewrite lookup_insert_eq. by rewrite Ht.
Qed.

Lemma portal_authorization_witness :
  (exists h, portal_headers ∅ = Some h /\ h !! "Authorization" = Some "Bearer undefined") /\
  (exists h, portal_headers (localStorage (state_after (setItem "accessToken"
       (JObj [("accessToken", JStr "tok")])) (mkBrowser ∅ JNull))) = Some h /\
       h !! "Authorization" = Some "Bearer tok").
Proof.
  split.
  - apply (portal_authorization ∅). reflexivity.
  - apply (portal_authorization ∅); [|reflexivity]. apply wf_obj; [|reflexivity]. repeat constructor.
Defined.

(** The address of the portal after an answer of [getConfig]: the [hub_url] of the
    section [layerg_core] of the text in the field [config]; a missing answer, field or
    section leaves it undefined, and requests then go to the relative address
    "undefined/..."; a field that is not JSON is the only failure. *)
Theorem config_tap_host text v res
    (Hres : jchain "config" res = JStr text) (Hne : text <> "") :
  (parse text = Some v ->
     config_tap res = Ret (mkLayergPortalConfig (jchain "hub_url" (jchain "layerg_core" v)) (int 5000))) /\
  (parse text = None -> config_tap res = Throw SyntaxError) /\
  (config_tap JNull = Ret (mkLayergPortalConfig JUndef (int 5000))) /\
  (jchain "layerg_core" v = JUndef -> parse text = Some v ->
     forall layerg, config_tap res = Ret layerg -> url_of layerg "/auth/login" = "undefined/auth/login").
Proof.
  assert (E : config_tap res = match parse text with
                | Some v => Ret (mkLayergPortalConfig (layerg_core v "hub_url") (int 5000))
                | None => Throw SyntaxError end).
  { unfold config_tap, parse_config. rewrite Hres. unfold jor. simpl. unfold truthy_string.
    rewrite (proj2 (String.eqb_neq text "")) by done. simpl. by destruct (parse text). }
  rewrite E. split_and_all.
  - by intros ->.
  - by intros ->.
  - reflexivity.
  - intros Hl -> layerg [= <-]. unfold url_of, layerg_core. rewrite Hl. reflexivity.
Qed.

Lemma config_tap_host_witness :
  config_tap (JObj [("config", JStr (json_text "{'layerg_core':{'hub_url':'https://hub.example'}}"))])
    = Ret (mkLayergPortalConfig (JStr "https://hub.example") (int 5000)).
Proof.
  refine (proj1 (config_tap_host (json_text "{'layerg_core':{'hub_url':'https://hub.example'}}")
    (JObj [("layerg_core", JObj [("hub_url", JStr "https://hub.example")])]) _ _ _) _);
    [reflexivity | discriminate | vm_compute; reflexivity].
Defined.

(** A portal and a stored token, for the examples. *)
Definition hub : LayergPortalConfig := new_LayergPortalService None.
Definition tok : jsval := JObj [("accessToken", JStr "tok"); ("projectId", JStr "p1")].
Definition hub_token : gmap string string := {["accessToken" := json_text "{'accessToken':'tok','projectId':'p1'}"]}.
