(* ===== verification/Guards.v ===== *)
(** * Navigation: the routes, the guards and the frame of the console

    [AppRoutingModule] as data, the three guards, the sidebar of [BaseComponent]
    and [LoginComponent].  The router itself is Angular's: [resolve] gives its
    documented matching (routes in order, backtracking, redirects), [navigate] the
    order in which it runs the guards and the navigation they start instead. *)

From S2P Require Import Prelude Codec JsVal Json Runtime ConsoleTypes ConsoleService Session LayergPortal.

(** ** [Globals] *)

Definition restrictedPages : list (string * UserRole) := [
  ("users", USER_ROLE_ADMIN);
  ("config", USER_ROLE_DEVELOPER);
  ("modules", USER_ROLE_DEVELOPER);
  ("apiexplorer", USER_ROLE_DEVELOPER)].

(** [a < b] on roles, and with [undefined] on the left. *)
Definition role_ltb (a b : UserRole) : bool := (UserRole_value a <? UserRole_value b)%Z.
Definition role_leb (a b : UserRole) : bool := (UserRole_value a <=? UserRole_value b)%Z.

(** ** The routes *)

Inductive route_config := RouteConfig {
  rc_path : list segment;           (* a parameter is [None] *)
  rc_component : string;
  rc_redirect : option (list string);
  rc_resolve : list string;
  rc_children : list route_config
}.

Definition page (path : list segment) (component : string) (res : list string) : route_config :=
  RouteConfig path component None res [].
Definition redirect (path target : list string) : route_config :=
  RouteConfig (map Some path) "" (Some target) [] [].

Definition base_children : list route_config := [
  redirect [] ["status"];
  page [Some "status"] "StatusComponent" ["GraphInitNodesResolver"];
  page [Some "config"] "ConfigComponent" ["ConfigResolver"];
  page [Some "users"] "UsersComponent" ["UsersResolver"];
  page [Some "modules"] "RuntimeComponent" ["RuntimeResolver"];
  page [Some "collections"] "CollectionsComponent" ["CollectionsResolver"];
  page [Some "collections"; Some "create"] "CreateCollectionComponent" ["CreateCollectionResolver"];
  RouteConfig [Some "collections"; None] "CollectionComponent" None ["CollectionResolver"] [
    redirect [] ["details"];
    page [Some "details"] "CollectionDetail1Component" []];
  page [Some "storage"] "StorageListComponent" ["StorageCollectionResolver"; "StorageSearchResolver"];
  page [Some "storage"; None; None; None] "StorageObjectComponent" ["StorageObjectResolver"];
  page [Some "leaderboards"] "LeaderboardsComponent" ["LeaderboardListResolver"];
  RouteConfig [Some "leaderboards"; None] "LeaderboardComponent" None ["LeaderboardResolver"] [
    redirect [] ["details"];
    page [Some "details"] "LeaderboardDetailsComponent" [];
    page [Some "records"] "LeaderboardRecordsComponent" ["LeaderboardRecordsResolver"]];
  page [Some "matches"] "MatchesComponent" ["MatchesResolver"; "NodesResolver"];
  page [Some "groups"] "GroupListComponent" ["GroupSearchResolver"];
  RouteConfig [Some "groups"; None] "GroupComponent" None ["GroupResolver"] [
    redirect [] ["details"];
    page [Some "details"] "GroupDetailsComponent" [];
    page [Some "members"] "GroupMembersComponent" ["GroupMembersResolver"]];
  page [Some "accounts"] "AccountListComponent" ["AccountSearchResolver"];
  RouteConfig [Some "accounts"; None] "AccountComponent" None ["AccountResolver"] [
    redirect [] ["profile"];
    page [Some "profile"] "ProfileComponent" [];
    page [Some "authentication"] "AuthenticationComponent" [];
    page [Some "wallet"] "WalletComponent" ["WalletLedgerResolver"];
    page [Some "friends"] "FriendsComponent" ["FriendsResolver"];
    page [Some "groups"] "GroupsComponent" ["GroupsResolver"];
    page [Some "notifications"] "NotificationsComponent" ["NotificationsResolver"];
    page [Some "purchases"] "PurchasesComponent" ["PurchasesResolver"];
    page [Some "subscriptions"] "SubscriptionsComponent" ["SubscriptionsResolver"]];
  page [Some "apiexplorer"] "ApiExplorerComponent" ["ApiExplorerEndpointsResolver"];
  page [Some "chat"] "ChatListComponent" ["ChatSearchResolver"];
  page [Some "notifications"] "NotificationsListComponent" ["NotificationsResolver"];
  page [Some "purchases"] "PurchasesListComponent" ["PurchasesResolver"];
  page [Some "subscriptions"] "SubscriptionsListComponent" ["SubscriptionsResolver"]].

(** The guards of a route: [canActivate] of the component, [canActivateChild] of
    its descendants. *)
Inductive guard := AuthenticationGuard | LoginGuard | PageviewGuard.

Definition canActivate_of (component : string) : list guard :=
  if String.eqb component "BaseComponent" then [AuthenticationGuard]
  else if String.eqb component "LoginComponent" then [LoginGuard] else [].
Definition canActivateChild_of (component : string) : list guard :=
  if String.eqb component "BaseComponent" then [PageviewGuard] else [].

Definition base_route : route_config := RouteConfig [] "BaseComponent" None [] base_children.
Definition login_route : route_config := page [Some "login"] "LoginComponent" [].

(** ** Matching *)

(** The routes that a URL activates, outermost first: component and the segments
    it consumed. *)
Abbreviation activation := (list (string * list string)).

Fixpoint consume (p : list segment) (url : list string) : option (list string * list string) :=
  match p, url with
  | [], _ => Some ([], url)
  | Some s :: p, x :: url =>
      if String.eqb s x then (fun r => (x :: r.1, r.2)) <$> consume p url else None
  | None :: p, x :: url => (fun r => (x :: r.1, r.2)) <$> consume p url
  | _, [] => None
  end.

(** A redirect replaces the segments it consumed and starts the list over; the empty
    redirects have [pathMatch: 'full'].  The outer option tells that the fuel ran out,
    the inner one that no route matches. *)
Fixpoint resolve (fuel : nat) (all l : list route_config) (url : list string) : option (option activation) :=
  match fuel with
  | O => None
  | S fuel =>
      match l with
      | [] => Some None
      | r :: l =>
          match rc_redirect r with
          | Some target =>
              match rc_path r, url with
              | [], _ :: _ => resolve fuel all l url
              | _, _ => match consume (rc_path r) url with
                        | Some (_, rest) => resolve fuel all all (target ++ rest)
                        | None => resolve fuel all l url
                        end
              end
          | None =>
              attempt ← match consume (rc_path r) url with
                        | None => Some None
                        | Some (used, rest) =>
                            match rc_children r with
                            | [] => Some (if decide (rest = []) then Some [(rc_component r, used)] else None)
                            | children =>
                                fmap (fun a => (rc_component r, used) :: a) <$> resolve fuel children children rest
                            end
                        end;
              match attempt with Some a => Some (Some a) | None => resolve fuel all l url end
          end
      end
  end.

(** What a list of routes costs at most: each route once for every list that
    contains it, and each list of children twice, as a redirect starts it over. *)
Fixpoint cost (r : route_config) : nat := 1 + 2 * list_sum (map cost (rc_children r)).
Definition costs (l : list route_config) : nat := list_sum (map cost l).

Definition resolve_fuel : nat := S (costs base_children + costs base_children).

(** The top level: the frame, the login page, and the fallback, which is the empty URL. *)
Definition resolve_base (url : list string) : option activation :=
  match resolve resolve_fuel base_children base_children url with
  | Some (Some a) => Some (("BaseComponent", []) :: a)
  | _ => None
  end.

Definition resolve_url (url : list string) : option activation :=
  match resolve_base url with
  | Some a => Some a
  | None => if decide (url = ["login"]) then Some [("LoginComponent", ["login"])]
            else resolve_base []
  end.

(** ** The guards *)

Inductive verdict := Activate | GoTo (url : list string) (next : option (list string)).

Definition AuthenticationGuard_canActivate (session : jsval) (url : list string) : verdict :=
  if jtruthy session then Activate else GoTo ["login"] (Some url).

Definition LoginGuard_canActivate (session : jsval) : verdict :=
  if jtruthy session then GoTo [] None else Activate.

(** [role !== null && role < sessionRole]; [get] gives [undefined] for a page without
    a restriction, and the role of the session is read in any case. *)
Definition PageviewGuard_canActivateChild (role : UserRole) (segments : list string) : verdict :=
  match head segments with
  | Some p => match assoc p restrictedPages with
              | Some m => if role_ltb m role then GoTo [] None else Activate
              | None => Activate
              end
  | None => Activate
  end.

(** The configuration request both methods of [PageviewGuard] send on success. *)
Definition PageviewGuard_request (config : ConfigParams) : request := getConfig config "".

(** The methods that no route uses: [canActivateChild] of the first guard and [canActivate] of
    the last, which admits everyone and asks for the configuration as well. *)
Definition AuthenticationGuard_canActivateChild : jsval -> list string -> verdict := AuthenticationGuard_canActivate.
Definition PageviewGuard_canActivate (config : ConfigParams) : verdict * request := (Activate, PageviewGuard_request config).

(** Runs the guards of an activation from the outermost route inwards. *)
Fixpoint run_children (role : UserRole) (a : activation) : verdict :=
  match a with
  | [] => Activate
  | (_, segments) :: a =>
      match PageviewGuard_canActivateChild role segments with
      | Activate => run_children role a
      | v => v
      end
  end.

Definition run_guards (session : jsval) (role : outcome UserRole) (url : list string) (a : activation)
  : outcome verdict :=
  match a with
  | ("BaseComponent", _) :: children =>
      match AuthenticationGuard_canActivate session url with
      | Activate => match role with
                    | Ret role => Ret (run_children role children)
                    | Throw e => Throw e
                    end
      | v => Ret v
      end
  | ("LoginComponent", _) :: _ => Ret (LoginGuard_canActivate session)
  | _ => Ret Activate
  end.

(** [state.url] in a guard is the URL after redirects: the segments of the routes it
    activates. *)
Definition activation_url (a : activation) : list string := concat (map snd a).

(** A navigation: the page shown in the end, or the exception of a guard. *)
Fixpoint navigate (hops : nat) (session : jsval) (role : outcome UserRole) (url : list string)
  : option (outcome activation) :=
  match hops with
  | O => None
  | S hops =>
      match resolve_url url with
      | None => None
      | Some a =>
          match run_guards session role (activation_url a) a with
          | Ret Activate => Some (Ret a)
          | Ret (GoTo url' _) => navigate hops session role url'
          | Throw e => Some (Throw e)
          end
      end
  end.

(** ** The sidebar *)

Record nav_item := mkNavItem { navItem : string; nav_routerLink : list string; nav_minRole : UserRole }.

Definition nav_routes : list nav_item := [
  mkNavItem "status" ["status"] USER_ROLE_READONLY;
  mkNavItem "users" ["users"] USER_ROLE_ADMIN;
  mkNavItem "config" ["config"] USER_ROLE_DEVELOPER;
  mkNavItem "collections" ["collections"] USER_ROLE_DEVELOPER;
  mkNavItem "modules" ["modules"] USER_ROLE_DEVELOPER;
  mkNavItem "accounts" ["accounts"] USER_ROLE_READONLY;
  mkNavItem "groups" ["groups"] USER_ROLE_READONLY;
  mkNavItem "storage" ["storage"] USER_ROLE_READONLY;
  mkNavItem "leaderboards" ["leaderboards"] USER_ROLE_READONLY;
  mkNavItem "chat" ["chat"] USER_ROLE_READONLY;
  mkNavItem "notifications" ["notifications"] USER_ROLE_READONLY;
  mkNavItem "purchases" ["purchases"] USER_ROLE_READONLY;
  mkNavItem "subscriptions" ["subscriptions"] USER_ROLE_READONLY;
  mkNavItem "matches" ["matches"] USER_ROLE_READONLY;
  mkNavItem "apiexplorer" ["apiexplorer"] USER_ROLE_DEVELOPER].

(** The [*ngIf] of an entry. *)
Definition nav_shown (role : UserRole) (r : nav_item) : bool := role_leb role (nav_minRole r).

Definition all_roles : list UserRole :=
  [USER_ROLE_UNKNOWN; USER_ROLE_ADMIN; USER_ROLE_DEVELOPER; USER_ROLE_MAINTAINER; USER_ROLE_READONLY].

Lemma all_roles_spec r : r ∈ all_roles.
Proof. destruct r; set_solver. Qed.

(** ** Lemmas *)

(** Redirects have an empty path and a target. *)
Fixpoint rc_ok (r : route_config) : bool :=
  match rc_redirect r with
  | Some target => bool_decide (rc_path r = []) && bool_decide (target <> [])
  | None => true
  end && forallb rc_ok (rc_children r).

Lemma resolve_total fuel : forall all l url,
  forallb rc_ok all = true -> forallb rc_ok l = true ->
  costs l + (if decide (url = []) then costs all else 0) < fuel ->
  resolve fuel all l url <> None.
Proof.
  induction fuel as [|fuel IH]; intros all l url Hall Hl Hf; [lia|].
  destruct l as [|r l]; [done|]. simpl in Hl. apply andb_true_iff in Hl as [Hr Hl].
  assert (Hc : costs (r :: l) = 1 + 2 * costs (rc_children r) + costs l) by (by destruct r).
  rewrite Hc in Hf.
  assert (Hnext : resolve fuel all l url <> None) by (apply IH; [done..|lia]).
  destruct r as [path comp red res children]. simpl in Hr, Hf, Hnext |- *.
  apply andb_true_iff in Hr as [Hred Hch].
  destruct red as [target|].
  - apply andb_true_iff in Hred as [->%bool_decide_eq_true Ht%bool_decide_eq_true].
    destruct url as [|x url]; [|done]. simpl. apply IH; [done..|].
    rewrite decide_True in Hf by done. rewrite app_nil_r.
    destruct (decide (target = [])); [done|lia].
  - destruct (consume path url) as [[used rest]|]; simpl; [|done].
    destruct children as [|r' children]; [by destruct (decide (rest = []))|].
    assert (Hin : resolve fuel (r' :: children) (r' :: children) rest <> None).
    { apply IH; [done..|]. destruct (decide (rest = [])); lia. }
    destruct (resolve fuel (r' :: children) (r' :: children) rest) as [[a|]|]; done.
Qed.

Lemma base_children_ok : forallb rc_ok base_children = true.
Proof. vm_compute. reflexivity. Qed.

Lemma resolve_fuel_enough url : resolve resolve_fuel base_children base_children url <> None.
Proof.
  apply resolve_total; [apply base_children_ok..|]. unfold resolve_fuel.
  destruct (decide (url = [])); lia.
Qed.

Definition login_activation : activation := [("LoginComponent", ["login"])].
Definition status_activation : activation :=
  [("BaseComponent", []); ("StatusComponent", ["status"])].

Lemma resolve_base_empty : resolve_base [] = Some status_activation.
Proof. vm_compute. reflexivity. Qed.

Lemma resolve_base_shape url a : resolve_base url = Some a -> exists c, a = ("BaseComponent", []) :: c.
Proof. unfold resolve_base. repeat case_match; try done. intros [= <-]. by eexists. Qed.

Lemma resolve_url_cases url :
  resolve_url url = Some login_activation \/
  exists c, resolve_url url = Some (("BaseComponent", []) :: c).
Proof.
  unfold resolve_url. destruct (resolve_base url) as [a|] eqn:E.
  - destruct (resolve_base_shape _ _ E) as [c ->]. right. by exists c.
  - case_decide; [by left|]. right. rewrite resolve_base_empty. by eexists.
Qed.

Lemma resolve_login : resolve_url ["login"] = Some login_activation.
Proof. vm_compute. reflexivity. Qed.

Lemma resolve_empty : resolve_url [] = Some status_activation.
Proof. vm_compute. reflexivity. Qed.

(** Every page of an activation is open to the role. *)
Definition permitted (role : UserRole) (a : activation) : Prop :=
  Forall (fun x => forall p m, head x.2 = Some p -> assoc p restrictedPages = Some m ->
                     role_ltb m role = false) a.

Lemma run_children_spec role a :
  (run_children role a = Activate /\ permitted role a) \/
  (run_children role a = GoTo [] None /\ ~ permitted role a).
Proof.
  induction a as [|[c seg] a IH]; [left; split; [done|constructor]|]. cbn [run_children].
  unfold PageviewGuard_canActivateChild, permitted in *.
  destruct (head seg) as [p|] eqn:Hh; [destruct (assoc p restrictedPages) as [m|] eqn:Hm|];
    [destruct (role_ltb m role) eqn:Hlt|..].
  { right. split; [done|]. rewrite Forall_cons. intros [H _]. specialize (H p m Hh Hm). congruence. }
  all: rewrite Forall_cons; destruct IH as [[-> IH]|[-> IH]]; [left|right]; split; try done.
  all: try (split; [|done]; cbn [snd]; intros; congruence).
  all: by intros [_ ?].
Qed.

(** ** The properties *)

(** C9: navigation ends: whatever the URL, the session and its role, the router reaches
    a page (or an exception of a guard that cannot read the role) within two redirections
    by guards.  Without a session it is the login page; with one it is never the login
    page, and it is the page asked for or, when a guard refuses it, the status page. *)
Theorem navigation_ends session role url :
  exists a, resolve_url url = Some a /\
  navigate 3 session role url = Some (
    if jtruthy session then
      match role with
      | Ret r => if decide (a = login_activation) then Ret status_activation
                 else match run_children r (tail a) with
                      | Activate => Ret a
                      | GoTo _ _ => Ret status_activation
                      end
      | Throw e => Throw e
      end
    else Ret login_activation).
Proof.
  destruct (resolve_url_cases url) as [E|[c E]]; eexists; (split; [exact E|]);
    cbn [navigate]; rewrite E; cbn -[resolve_url run_children];
    unfold AuthenticationGuard_canActivate, LoginGuard_canActivate;
    destruct (jtruthy session) eqn:Hs; cbn -[resolve_url run_children];
    rewrite ?resolve_login, ?resolve_empty; cbn -[resolve_url run_children];
    rewrite ?decide_True, ?decide_False by done; try done.
  all: unfold AuthenticationGuard_canActivate, LoginGuard_canActivate; rewrite ?Hs; try done.
  - destruct role as [r|e]; [|done].
    destruct (run_children_spec r [("StatusComponent", ["status"])]) as [[-> _]|[H _]]; done.
  - destruct role as [r|e]; [|done].
    destruct (run_children_spec r c) as [[-> _]|[-> _]]; [done|].
    rewrite resolve_empty. cbn -[resolve_url run_children].
    unfold AuthenticationGuard_canActivate. rewrite Hs. reflexivity.
Qed.

(** The guards let a role see a URL as it is. *)
Definition guards_admit (role : UserRole) (url : list string) : bool :=
  match resolve_url url with
  | Some a => match run_children role (tail a) with Activate => true | GoTo _ _ => false end
  | None => false
  end.

(** C36: the sidebar shows a role exactly the entries whose page the guards let it open,
    except the collections: that entry is hidden from maintainers and read-only users,
    but the page is in no list of restricted pages and opens for every role. *)
Theorem sidebar_agrees_with_guards role item (H : item ∈ nav_routes) :
  guards_admit role (nav_routerLink item) =
    (String.eqb (navItem item) "collections" || nav_shown role item).
Proof.
  assert (Hall : forallb (fun r => forallb (fun i =>
    Bool.eqb (guards_admit r (nav_routerLink i))
      (String.eqb (navItem i) "collections" || nav_shown r i)) nav_routes) all_roles = true)
    by (vm_compute; reflexivity).
  rewrite forallb_forall in Hall.
  specialize (Hall role (proj1 (list_elem_of_In _ _) (all_roles_spec role))). cbv beta in Hall.
  rewrite forallb_forall in Hall.
  specialize (Hall item (proj1 (list_elem_of_In _ _) H)). by apply Bool.eqb_prop in Hall.
Qed.

Lemma sidebar_agrees_with_guards_witness :
  guards_admit USER_ROLE_READONLY ["collections"] = true /\
  nav_shown USER_ROLE_READONLY (mkNavItem "collections" ["collections"] USER_ROLE_DEVELOPER) = false /\
  guards_admit USER_ROLE_MAINTAINER ["users"] = false.
Proof.
  split; [|split; [reflexivity|]].
  - refine (sidebar_agrees_with_guards USER_ROLE_READONLY
      (mkNavItem "collections" ["collections"] USER_ROLE_DEVELOPER) _).
    unfold nav_routes. repeat (first [left | right]).
  - refine (sidebar_agrees_with_guards USER_ROLE_MAINTAINER (mkNavItem "users" ["users"] USER_ROLE_ADMIN) _).
    unfold nav_routes. right. left.
Defined.

(** C8: the guards let a role see a URL exactly when none of the pages it activates is
    restricted to roles above it; a claim that is no known role counts as role 0, which
    opens every page, those of administrators included. *)
Theorem restricted_pages_enforced role url :
  exists a, resolve_url url = Some a /\
  (guards_admit role url = true <-> permitted role (tail a)) /\
  guards_admit (role_of_claim JUndef) url = true.
Proof.
  assert (Hsome : exists a, resolve_url url = Some a)
    by (destruct (resolve_url_cases url) as [->|[c ->]]; eexists; reflexivity).
  destruct Hsome as [a E]. exists a. unfold guards_admit. rewrite E. split_and_all; [done|..].
  - destruct (run_children_spec role (tail a)) as [[-> ?]|[-> ?]]; naive_solver.
  - destruct (run_children_spec (role_of_claim JUndef) (tail a)) as [[-> _]|[_ []]]; [done|].
    apply Forall_forall. intros x _ p [] _ _; reflexivity.
Qed.
