(* ===== verification/Router.v ===== *)
(** * The router between pages

    [Guards] gives the routes and the guards of a navigation from outside.  Here a
    navigation starts from the page that is shown: the router keeps the routes that do not
    change and runs the guards of the others only; and addresses are texts when the code
    hands them around. *)

From S2P Require Import Prelude Codec JsVal Json Runtime ConsoleTypes ConsoleService Session LayergPortal Guards.
From Stdlib Require Import Ascii.

(** ** Addresses

    What the code relies on of the router's serializer: [state.url] is a text of path and
    query, and [navigate([text])] splits its argument at the slashes and takes everything
    else for part of a segment. *)

(** Segments that need no percent-encoding. *)
Definition plain (s : string) : bool := truthy_string s && string_forall (fun c => is_alnum c || Ascii.eqb c "-"%char || Ascii.eqb c "_"%char) s.

Class UrlSerializer := {
  state_url : list string -> string -> string;
  next_query : string -> string;                 (* the query text of [{queryParams: {next}}] *)
  commands_of : string -> list string;
  commands_plain p : p <> [] -> forallb plain p = true -> commands_of (state_url p "") = p;
  commands_query p x q :
    forallb plain p = true -> plain x = true -> q <> "" -> string_has "/"%char q = false ->
    commands_of (state_url (p ++ [x]) q) = p ++ [x +:+ "?" +:+ q];
  state_url_rooted p q : exists s, state_url p q = "/" +:+ s;
  commands_home : commands_of "/" = [];
  commands_login : commands_of "/login" = ["login"]
}.

(** Where the router stands; [next] is the parameter that [LoginComponent] reads. *)
Record address := mkAddress { path : list string; query : string; next : opt string }.

(** ** Navigation from the page that is shown *)

(** A route whose guards run at every navigation ([runGuardsAndResolvers: 'always']). *)
Definition always (component : string) : bool := String.eqb component "GroupMembersComponent".

(** The routes of a target that are not those on the screen: their guards run. *)
Fixpoint changed (shown target : activation) : activation :=
  match shown, target with
  | x :: shown', y :: target' =>
      if decide (x = y) then (if always y.1 then target else changed shown' target') else target
  | _, _ => target
  end.

Definition run_changed (session : jsval) (role : outcome UserRole) (url : list string) (shown a : activation)
  : outcome verdict :=
  match changed shown a with
  | [] => Ret Activate
  | l =>
      if decide (l = a) then run_guards session role url a
      else match role with
           | Ret r => Ret (run_children r l)
           | Throw e => Throw e
           end
  end.

Definition role_of (b : browser) : outcome UserRole := (sessionRole b).1.1.

Section routing.
Context {urls : UrlSerializer}.

(** The address that a guard asks for instead of [t]: the login page is told the
    address that was refused. *)
Definition redirected (t : address) (url' : list string) (refused : option (list string)) : address :=
  match refused with
  | Some u => let n := state_url u (query t) in mkAddress url' (next_query n) (Val n)
  | None => mkAddress url' "" Und
  end.

Fixpoint route (hops : nat) (b : browser) (shown : activation) (t : address) : option (outcome (activation * address)) :=
  match hops with
  | O => None
  | S hops =>
      match resolve_url (path t) with
      | None => None
      | Some a =>
          match run_changed (currentSessionSubject b) (role_of b) (activation_url a) shown a with
          | Ret Activate => Some (Ret (a, mkAddress (activation_url a) (query t) (next t)))
          | Ret (GoTo url' refused) => route hops b shown (redirected t url' refused)
          | Throw e => Some (Throw e)
          end
      end
  end.

(** ** What a navigation checks *)

Lemma changed_split shown0 target : exists p q, target = p ++ changed shown0 target /\ shown0 = p ++ q.
Proof.
  revert target. induction shown0 as [|x l IH]; intros [|y target]; cbn [changed]; try by exists [], [].
  - by exists [], (x :: l).
  - case_decide as E; [subst y|by exists [], (x :: l)].
    destruct (always x.1); [by exists [], (x :: l)|].
    destruct (IH target) as (p & q & E1 & E2). exists (x :: p), q.
    split; [by rewrite <- app_comm_cons, <- E1|by rewrite E2].
Qed.

Lemma permitted_app r p q : permitted r (p ++ q) <-> permitted r p /\ permitted r q.
Proof. apply Forall_app. Qed.

Lemma permitted_frame r c : permitted r (("BaseComponent", []) :: c) <-> permitted r c.
Proof. unfold permitted. rewrite Forall_cons. split; [by intros [_ ?]|by split]. Qed.

Lemma permitted_login r : permitted r login_activation.
Proof. repeat constructor; cbn; intros p m [= <-]; discriminate. Qed.

Lemma run_children_permits r a : run_children r a = Activate -> permitted r a.
Proof. by destruct (run_children_spec r a) as [[-> ?]|[-> ?]]. Qed.

(** The role can be read only when there is a session. *)
Lemma role_of_session b r : role_of b = Ret r -> jtruthy (currentSessionSubject b) = true.
Proof.
  unfold role_of, sessionRole, currentSessionValue, session_claims, prop, claims_of_token. run_m.
  by destruct (currentSessionSubject b).
Qed.

(** A navigation ends on a page that the role of the session may see, provided the pages
    that stay on the screen were such; and in the frame the role could be read or the frame
    was on the screen before. *)
Definition admitted (b : browser) (a : activation) : Prop := forall r, role_of b = Ret r -> permitted r a.
Definition in_frame (a : activation) : Prop := exists c, a = ("BaseComponent", []) :: c.

Lemma run_changed_admits b url shown0 a :
  a = login_activation \/ in_frame a ->
  run_changed (currentSessionSubject b) (role_of b) url shown0 a = Ret Activate ->
  admitted b shown0 ->
  admitted b a /\ (in_frame a -> in_frame shown0 \/ exists r, role_of b = Ret r).
Proof.
  intros Hshape Hrun Hadm. destruct (changed_split shown0 a) as (p & q & Ea & Eshown).
  unfold run_changed in Hrun. destruct (changed shown0 a) as [|x l] eqn:E.
  { rewrite app_nil_r in Ea. subst p. split.
    - intros r Hr. specialize (Hadm r Hr). rewrite Eshown in Hadm. by apply permitted_app in Hadm as [].
    - intros [c ->]. left. by exists (c ++ q). }
  destruct Hshape as [->|[c0 Ha]].
  { split; [intros r _; apply permitted_login|]. by intros [c0 [=]]. }
  destruct p as [|y p].
  - rewrite decide_True in Hrun by done. rewrite Ha in *. cbn in Hrun. unfold AuthenticationGuard_canActivate in Hrun.
    destruct (jtruthy (currentSessionSubject b)) eqn:Hs; [|done].
    destruct (role_of b) as [r0|] eqn:Hr0; [|done]. split; [|right; by exists r0].
    intros r Hr. rewrite Hr0 in Hr. injection Hr as ->. rewrite permitted_frame. apply run_children_permits. by injection Hrun.
  - rewrite decide_False in Hrun
      by (intros El; apply (f_equal length) in Ea; rewrite <- El, length_app in Ea; cbn in Ea; lia).
    split; [|intros _; left; rewrite Ha in Ea; injection Ea as <- _; rewrite Eshown; by eexists].
    intros r Hr. specialize (Hadm r Hr). rewrite Eshown in Hadm. apply permitted_app in Hadm as [Hp _].
    rewrite Ea. apply permitted_app. split; [done|]. rewrite Hr in Hrun. injection Hrun as Hrun. by apply run_children_permits.
Qed.

Lemma resolve_shape url a : resolve_url url = Some a -> a = login_activation \/ in_frame a.
Proof. intros E. destruct (resolve_url_cases url) as [H|[c H]]; rewrite H in E; injection E as <-; [by left|right; by exists c]. Qed.

Lemma route_admits hops b shown0 t act t' :
  route hops b shown0 t = Some (Ret (act, t')) -> admitted b shown0 ->
  (act = login_activation \/ in_frame act) /\ path t' = activation_url act /\ admitted b act /\
  (in_frame act -> in_frame shown0 \/ exists r, role_of b = Ret r).
Proof.
  revert t. induction hops as [|hops IH]; intros t; [done|]. cbn [route].
  destruct (resolve_url (path t)) as [a|] eqn:E; [|done]. apply resolve_shape in E.
  destruct (run_changed _ _ _ _ _) as [[|url' refused]|e] eqn:Hrun; [|apply IH|done].
  intros [= <- <-] Hadm. destruct (run_changed_admits _ _ _ _ E Hrun Hadm). by split_and_all.
Qed.

(** Where a guard sends a navigation, and that the second target is not refused. *)
Lemma run_changed_goto b url shown0 a url' refused :
  a = login_activation \/ in_frame a ->
  run_changed (currentSessionSubject b) (role_of b) url shown0 a = Ret (GoTo url' refused) ->
  (url' = [] /\ refused = None /\ jtruthy (currentSessionSubject b) = true) \/
  (url' = ["login"] /\ refused = Some url /\ jtruthy (currentSessionSubject b) = false).
Proof.
  intros Hshape. unfold run_changed. destruct (changed shown0 a) as [|x l]; [done|].
  assert (Hchildren : forall l, match role_of b with Ret r => Ret (run_children r l) | Throw e => Throw e end = Ret (GoTo url' refused) ->
            url' = [] /\ refused = None /\ jtruthy (currentSessionSubject b) = true).
  { intros l'. destruct (role_of b) as [r|] eqn:Hr; [|done]. apply role_of_session in Hr.
    destruct (run_children_spec r l') as [[-> _]|[-> _]]; [done|]. by intros [= <- <-]. }
  case_decide; [|intros H'; left; by eapply Hchildren].
  destruct Hshape as [->|[c ->]]; cbn -[run_children]; unfold LoginGuard_canActivate, AuthenticationGuard_canActivate;
    destruct (jtruthy (currentSessionSubject b)); try done.
  - intros [= <- <-]. by left.
  - intros H'. left. by eapply Hchildren.
  - intros [= <- <-]. by right.
Qed.

Lemma route_home hops b shown0 t : path t = [] -> jtruthy (currentSessionSubject b) = true ->
  route (S hops) b shown0 t <> None.
Proof.
  intros Et Hs. cbn [route]. rewrite Et, resolve_empty. unfold run_changed.
  destruct (changed_split shown0 status_activation) as (p & q & Ea & _).
  destruct (changed shown0 status_activation) as [|x l]; [done|].
  assert (Hst : forall r, run_children r [("StatusComponent", ["status"])] = Activate) by done.
  destruct p as [|y [|z p]]; [..|by destruct p]; injection Ea; intros; subst.
  - rewrite decide_True by done. cbn -[run_children]. unfold AuthenticationGuard_canActivate. rewrite Hs.
    destruct (role_of b); [|done]. by rewrite Hst.
  - rewrite decide_False by done. destruct (role_of b); [|done]. by rewrite Hst.
Qed.

Lemma route_login hops b shown0 t : path t = ["login"] -> jtruthy (currentSessionSubject b) = false ->
  route (S hops) b shown0 t = Some (Ret (login_activation, mkAddress ["login"] (query t) (next t))).
Proof.
  intros Et Hs. cbn [route]. rewrite Et, resolve_login. unfold run_changed.
  destruct (changed_split shown0 login_activation) as (p & q & Ea & _).
  destruct (changed shown0 login_activation) as [|x l]; [done|].
  destruct p as [|y p]; [|by destruct p]. rewrite decide_True by done.
  cbn. unfold LoginGuard_canActivate. by rewrite Hs.
Qed.

(** Every navigation ends, on a page or in the exception of a guard. *)
Lemma route_ends b shown0 t : route 3 b shown0 t <> None.
Proof.
  assert (E3 : forall hops, route (S hops) b shown0 t = match resolve_url (path t) with
     | None => None
     | Some a =>
         match run_changed (currentSessionSubject b) (role_of b) (activation_url a) shown0 a with
         | Ret Activate => Some (Ret (a, mkAddress (activation_url a) (query t) (next t)))
         | Ret (GoTo url' refused) => route hops b shown0 (redirected t url' refused)
         | Throw e => Some (Throw e)
         end
     end) by done.
  rewrite E3.
  destruct (resolve_url (path t)) as [a|] eqn:E; [|by destruct (resolve_url_cases (path t)) as [?|[? ?]]; congruence].
  apply resolve_shape in E. destruct (run_changed _ _ _ _ _) as [[|url' refused]|e] eqn:Hrun; try done.
  destruct (run_changed_goto _ _ _ _ _ _ E Hrun) as [(-> & -> & Hs)|(-> & -> & Hs)].
  - by apply route_home.
  - by rewrite route_login.
Qed.

(** Without a page on the screen the router does what [Guards.navigate] says. *)
Lemma route_fresh hops b t :
  (fmap (fun o => match o with Ret (act, _) => Ret act | Throw e => Throw e end) (route hops b [] t)) =
  navigate hops (currentSessionSubject b) (role_of b) (path t).
Proof.
  revert t. induction hops as [|hops IH]; intros t; [done|]. cbn [route navigate].
  destruct (resolve_url (path t)) as [a|] eqn:E; [|done].
  assert (run_changed (currentSessionSubject b) (role_of b) (activation_url a) [] a =
          run_guards (currentSessionSubject b) (role_of b) (activation_url a) a) as ->.
  { unfold run_changed. cbn. destruct a; [|by rewrite decide_True].
    apply resolve_shape in E as [?|[? ?]]; discriminate. }
  destruct (run_guards _ _ _ _) as [[|url' refused]|e]; try done. rewrite IH. by destruct refused.
Qed.

End routing.

(** A one-segment address that names no page leads home. *)
Lemma resolve_other y fuel all l :
  length l < fuel ->
  forallb (fun r => match rc_path r with
                    | [] => bool_decide (is_Some (rc_redirect r))
                    | Some s :: _ => negb (String.eqb s y)
                    | None :: _ => false
                    end) l = true ->
  resolve fuel all l [y] = Some None.
Proof.
  revert fuel. induction l as [|[path0 c red res children] l IH]; intros [|fuel] Hf Hl; try (simpl in Hf; lia); [done|].
  simpl in Hl. apply andb_true_iff in Hl as [Hr Hl].
  assert (Hnext : resolve fuel all l [y] = Some None) by (apply IH; [simpl in Hf; lia|done]).
  cbn [resolve rc_redirect rc_path rc_children]. destruct path0 as [|[s|] path0]; [| |done].
  - apply bool_decide_eq_true in Hr. destruct red; [exact Hnext|by destruct Hr].
  - apply negb_true_iff in Hr. destruct red; cbn [consume]; rewrite Hr; exact Hnext.
Qed.

Lemma resolve_question y : string_has "?" y = true -> resolve_url [y] = Some status_activation.
Proof.
  intros Hy. assert (Hne : forall s, string_has "?" s = false -> String.eqb s y = false).
  { intros s Hs. apply String.eqb_neq. intros ->. congruence. }
  unfold resolve_url. unfold resolve_base at 1. rewrite resolve_other.
  - rewrite decide_False by (intros [= ->]; discriminate). apply resolve_base_empty.
  - vm_compute. lia.
  - cbn -[String.eqb]. rewrite !Hne by reflexivity. reflexivity.
Qed.

(** A serializer with these laws. *)
Fixpoint slashes (p : list string) : string :=
  match p with [] => "" | x :: p => "/" +:+ x +:+ slashes p end.
Definition simple_url (p : list string) (q : string) : string :=
  (if decide (p = []) then "/" else slashes p) +:+ (if String.eqb q "" then "" else "?" +:+ q).
Definition simple_commands (s : string) : list string :=
  List.filter truthy_string (split_on "/"%char s).

Lemma plain_no_slash x : plain x = true -> string_has "/"%char x = false.
Proof.
  intros [_ Hx]%andb_true_iff. unfold string_has. apply negb_false_iff.
  apply (string_forall_impl _ (fun d => negb (Ascii.eqb "/" d))) in Hx; [done|].
  intros c Hc. destruct (Ascii.eqb_spec "/" c) as [<-|]; [discriminate Hc|done].
Qed.

Lemma split_slashes l x t :
  forallb plain l = true -> string_has "/"%char (x +:+ t) = false ->
  exists u, slashes (l ++ [x]) +:+ t = String "/" u /\ split_on "/" u = l ++ [x +:+ t].
Proof.
  intros Hl Hx. induction l as [|y l IH].
  - exists (x +:+ t). split; [|by apply split_on_none]. simpl. by rewrite string_app_nil_r.
  - simpl in Hl. apply andb_true_iff in Hl as [Hy Hl]. destruct (IH Hl) as (u & Eu & Es).
    exists (y +:+ String "/" u). split.
    + rewrite <- app_comm_cons. cbn [slashes]. by rewrite !string_app_assoc, Eu.
    + rewrite split_on_app by (by apply plain_no_slash). by rewrite Es.
Qed.

Lemma simple_commands_url l x t : forallb plain l = true -> plain x = true -> string_has "/"%char t = false ->
  simple_commands (slashes (l ++ [x]) +:+ t) = l ++ [x +:+ t].
Proof.
  intros Hl Hx Ht. unfold simple_commands.
  destruct (split_slashes l x t) as (u & -> & Eu); [done|rewrite string_has_app, plain_no_slash by done; exact Ht|].
  rewrite split_on_cons_sep, Eu. cbn [List.filter]. change (truthy_string "") with false. cbn.
  assert (Hy : forall y, plain y = true -> truthy_string y = true) by (by intros y [? _]%andb_true_iff).
  rewrite List.filter_app. f_equal.
  - clear -Hl Hy. induction l as [|y l IH]; [done|]. simpl in Hl. apply andb_true_iff in Hl as [Hy' Hl]. simpl. by rewrite Hy, IH.
  - specialize (Hy x Hx). simpl. by destruct x.
Qed.

Definition simple_urls : UrlSerializer.
Proof.
  refine {| state_url := simple_url; next_query := fun n => "next=" +:+ encodeURIComponent n; commands_of := simple_commands |}.
  - intros p Hne Hp. unfold simple_url. rewrite decide_False by done. change (if String.eqb "" "" then "" else "?" +:+ "") with "".
    destruct p as [|x l _] using rev_ind; [done|]. rewrite forallb_app in Hp. apply andb_true_iff in Hp as [Hl [Hx _]%andb_true_iff].
    simpl in Hx.
    by rewrite simple_commands_url, string_app_nil_r.
  - intros p x q Hp Hx Hq Hsl. unfold simple_url. rewrite decide_False by (by destruct p).
    rewrite (proj2 (String.eqb_neq q "")) by done. apply simple_commands_url; [done..|]. by rewrite string_has_app.
  - intros p q. unfold simple_url. destruct (decide (p = [])) as [->|Hne]; [by eexists|].
    destruct p as [|x p]; [done|]. simpl. by eexists.
  - reflexivity.
  - reflexivity.
Defined.
