(* ===== verification/Frame.v ===== *)
(** * The frame of the console: the base page, the login page, the confirmation dialog

    [BaseComponent] asks for the server's configuration, logs in to the portal with
    the key it finds there and follows the router's events; [LoginComponent] turns a
    form into a session; [DeleteConfirmService] guards deletions by a dialog. *)

From S2P Require Import Prelude Codec JsVal Json Runtime ConsoleTypes ConsoleService ConsoleRoutes Session LayergPortal Forms.

(** ** [app.module.ts]: the configuration of the services

    The provided object has a [timeout] and no [timeoutMs]. *)
Definition app_config (env : environment) (origin : string) : ConfigParams :=
  mkConfigParams (if production env then origin else apiBaseUrl env) Und.

Definition app_service (env : environment) (origin : string) : ConfigParams :=
  new_ConsoleService (Val (app_config env origin)).

(** [initApp], which would load the configuration before the application starts; the module
    does not register it. *)
Module InitApp.

Record state := mkState { layergConfig : jsval; resolved : bool }.
#[export] Instance eta_state : Eta state := fun s => mkState (layergConfig s) (resolved s).

Inductive subscription := GetConfig.
Inductive event := Start.

Section init.
Context (config : ConfigParams).

Abbreviation H := (M state (cmd subscription Empty_set)).

Definition initApp : H unit := emit (Send GetConfig (getConfig config "")).

Definition config_next (configRes : jsval) : H unit :=
  match parse_config configRes with
  | Throw e => throw e
  | Ret parsed => layergConfig <~ parsed;; resolved <~ true
  end.

#[export] Instance app : Component state event subscription Empty_set := {
  resp _ := jsval;
  on_event e := match e with Start => initApp end;
  on_next _ res := subscriber (config_next res);
  on_error _ _ := resolved <~ true;
  on_confirm d := match d with end;
  take_until _ := false
}.
End init.

(** The promise is resolved by an answer with a configuration that parses and by a failed
    request, but never by an answer whose configuration is malformed. *)
Theorem start_resolves config s res err :
  let c := exec (comp := app config) (start s) (User Start) in
  resolved (c_state (exec (comp := app config) c (Respond (comp := app config) 0 (fun _ => res)))) =
    match parse_config res with Ret _ => true | Throw _ => resolved s end /\
  resolved (c_state (exec (comp := app config) c (Refuse 0 err))) = true.
Proof.
  intros c. split; [|done]. subst c. erewrite (exec_User (start s)) by reflexivity.
  cbn -[parse_config]. unfold run. cbn -[parse_config]. unfold config_next. by destruct (parse_config res).
Qed.
End InitApp.

(** ** [DeleteConfirmService] and its dialog *)
Module DeleteConfirm.

(** A form group: whether it is valid, and its value. *)
Record form_group := mkForm { form_valid : bool; form_value : jsval }.

Record dialog := mkDialog {
  title : string;
  message : string;
  confirmDeleteForm : option form_group;
  dialog_open : bool
}.

#[export] Instance eta_dialog : Eta dialog := fun d =>
  mkDialog (title d) (message d) (confirmDeleteForm d) (dialog_open d).

Definition openDeleteConfirmModal (formGroup : option form_group) (t m : string) : dialog :=
  mkDialog (if truthy_string t then t else "Delete Confirmation")
    (if truthy_string m then m else "Are you sure you want to delete this item?")
    formGroup true.

(** [confirm]: emits only without a form or with a valid one. *)
Definition confirm (d : dialog) : bool :=
  match confirmDeleteForm d with None => true | Some f => form_valid f end.

(** The subscriber of [confirmed]: the callback gets the value of the form, and the
    dialog is closed unless the callback throws. *)
Definition confirmed {S C} (callback : jsval -> M S C unit) (d : dialog) : M S C dialog :=
  callback (match confirmDeleteForm d with Some f => form_value f | None => JUndef end);;
  ret (setf (f := dialog_open) (fun _ => false) d).

(** A click on the confirmation button, and one on cancel or close. *)
Definition click_confirm {S C} (callback : jsval -> M S C unit) (d : dialog) : M S C dialog :=
  if confirm d then confirmed callback d else ret d.
Definition click_cancel (d : dialog) : dialog := setf (f := dialog_open) (fun _ => false) d.

(** The callback of a deletion runs exactly when the dialog is confirmed with no form
    or a valid one, and gets the form's value; an invalid form leaves the dialog open and
    nothing happens; a dialog whose callback throws stays open. *)
Theorem delete_confirmed {S C} (callback : jsval -> M S C unit) form t m (s : S) :
  let d := openDeleteConfirmModal form t m in
  click_confirm callback d s =
    match form with
    | Some f =>
        if form_valid f then
          match callback (form_value f) s with
          | (Ret _, s', l) => (Ret (click_cancel d), s', l)
          | (Throw e, s', l) => (Throw e, s', l)
          end
        else (Ret d, s, [])
    | None =>
        match callback JUndef s with
        | (Ret _, s', l) => (Ret (click_cancel d), s', l)
        | (Throw e, s', l) => (Throw e, s', l)
        end
    end.
Proof.
  intros d. unfold click_confirm, confirm, confirmed. subst d.
  destruct form as [[v x]|]; cbn; [destruct v; [|done]|]; run_m; cbn;
    destruct (callback _ s) as [[[u|e] s'] l]; by rewrite ?app_nil_r.
Qed.
End DeleteConfirm.

(** ** [BaseComponent] *)
Module Base.

Inductive router_event :=
| NavigationStart (url : string) | NavigationEnd (url : string) | NavigationCancel (url : string)
| NavigationError (url : string) (error : jsval)
| OtherEvent (url : opt string).

(** The session and the portal's address are those of the shared services. *)
Record state := mkState {
  loading : bool;
  error : jsval;
  layerg : LayergPortalConfig;
  session : jsval
}.

#[export] Instance eta_state : Eta state := fun s =>
  mkState (loading s) (error s) (layerg s) (session s).

Inductive subscription := GetConfig | PortalLogin | Logout.
Inductive event :=
| Init (data_error : jsval)
| RouteData (data_error : jsval)
| RouterEvents (events : list router_event)     (* two seconds of events *)
| LogoutClick.

Section base.
Context (config : ConfigParams).

Abbreviation H := (M state (cmd subscription Empty_set)).

(** The subscriber of [router.events.pipe(bufferTime(2000))]. *)
Definition on_router_events (events : list router_event) : H unit :=
  match last events with
  | None => ret tt
  | Some e =>
      (match e with NavigationStart _ => loading <~ true | _ => ret tt end);;
      (match e with NavigationEnd _ => loading <~ false | _ => ret tt end);;
      (match e with NavigationCancel _ => loading <~ false | _ => ret tt end);;
      (match e with NavigationError _ err => loading <~ false;; error <~ err | _ => ret tt end)
  end.

Definition initLaygergPortalService : H unit := emit (Send GetConfig (getConfig config "")).

Definition handleLogin (params : jsval) : H unit :=
  l ← gets layerg;
  emit (Send PortalLogin (portal_login l params)).

(** The [tap] on the configuration. *)
Definition config_next (configRes : jsval) : H unit :=
  match parse_config configRes with
  | Throw e => emit (Report e)
  | Ret parsed =>
      layerg <~ mkLayergPortalConfig (layerg_core parsed "hub_url") (int 5000);;
      let apiKey := layerg_core parsed "hub_api_key" in
      let apiKeyID := layerg_core parsed "hub_api_key_id" in
      handleLogin (JObj [("apiKey", apiKey); ("apiKeyID", apiKeyID)])
  end.

(** The subscriber of the portal's login. *)
Definition login_next (d : jsval) : H unit := emit (SetItem "accessToken" d).
Definition login_error (err : jsval) : H unit :=
  error <~ jchain "message" err;;
  emit (RemoveItem "accessToken").

(** The subscriber of [route.data]. *)
Definition route_data (data_error : jsval) : H unit :=
  error <~ (if jtruthy data_error then data_error else JStr "").

(** The route's data is there when the component is initialised. *)
Definition ngOnInit (data_error : jsval) : H unit :=
  initLaygergPortalService;;
  route_data data_error.

Definition logout_next : H unit :=
  emit (RemoveItem SESSION_LOCALSTORAGE_KEY);; emit (RemoveItem "accessToken");;
  session <~ JNull;;
  emit (Navigate (mkNavigation ["/login"] [] false)).

Definition logout : H unit :=
  s ← gets session;
  when (jtruthy s) (emit (Send Logout (authenticateLogout config ""
    (mkAuthenticateLogoutRequest (token_field (jchain "token" s)))))).

#[export] Instance base : Component state event subscription Empty_set := {
  resp _ := jsval;
  on_event e :=
    match e with
    | Init err => ngOnInit err
    | RouteData err => route_data err
    | RouterEvents l => on_router_events l
    | LogoutClick => logout
    end;
  on_next k :=
    match k with
    | GetConfig => fun res => config_next res
    | PortalLogin => fun d => login_next d
    | Logout => fun _ => logout_next
    end;
  on_error k err :=
    match k with
    | PortalLogin => login_error err
    | GetConfig | Logout => emit (Report err)
    end;
  on_confirm d := match d with end;
  take_until _ := false
}.
End base.

(** What the templates read from the session. *)
Definition getSessionRole (b : browser) : outcome UserRole := (sessionRole b).1.1.
Definition getUsername (b : browser) : outcome jsval := (username b).1.1.

(** *** The pages reported to the analytics

    [event_url] is the [url] of a router event; some have none. *)
Definition event_url (e : router_event) : opt string :=
  match e with
  | NavigationStart url | NavigationEnd url | NavigationCancel url | NavigationError url _ => Val url
  | OtherEvent url => url
  end.

(** Whether [distinctUntilChanged] takes an event for the same as the last one it let
    through. *)
Definition unchanged (previous current : router_event) : bool :=
  match current with
  | NavigationEnd url => bool_decide (event_url previous = Val url)
  | _ => true
  end.

(** The events let through, after [previous]: the first one always is. *)
Fixpoint distinct_events (previous : option router_event) (events : list router_event) : list router_event :=
  match events with
  | [] => []
  | e :: events =>
      match previous with
      | Some p => if unchanged p e then distinct_events previous events else e :: distinct_events (Some e) events
      | None => e :: distinct_events (Some e) events
      end
  end.

(** The addresses reported by [segment.page]. *)
Definition segment_pages (env : environment) (events : list router_event) : list (opt string) :=
  if nt env then [] else map event_url (distinct_events None events).

(** The addresses at which navigations have ended. *)
Definition ends (events : list router_event) : list string :=
  flat_map (fun e => match e with NavigationEnd url => [url] | _ => [] end) events.

(** A list without the elements that repeat the one before. *)
Fixpoint no_repeats (previous : opt string) (l : list string) : list string :=
  match l with
  | [] => []
  | x :: l => if decide (previous = Val x) then no_repeats previous l else x :: no_repeats (Val x) l
  end.

(** Whatever the events, the analytics are told the address of the first event (if it has
    one), and then the address of every navigation that ends elsewhere than the page
    reported before; addresses of navigations that fail are not reported. *)
Theorem pages_reported env e events :
  nt env = false ->
  segment_pages env (e :: events) = event_url e :: map Val (no_repeats (event_url e) (ends events)).
Proof.
  intros Hnt. unfold segment_pages. rewrite Hnt. cbn [distinct_events map]. f_equal.
  revert e. induction events as [|x events IH]; intros e; [done|]. cbn [distinct_events].
  unfold unchanged. destruct x; cbn [ends flat_map app]; try apply IH.
  cbn [no_repeats]. destruct (decide (event_url e = Val url)) as [E|E].
  - rewrite bool_decide_eq_true_2 by done. apply IH.
  - rewrite bool_decide_eq_false_2 by done. cbn [map]. f_equal. apply (IH (NavigationEnd url)).
Qed.

Lemma pages_reported_witness :
  segment_pages environment_dev [OtherEvent Und; NavigationEnd "/status"; NavigationStart "/users"; NavigationCancel "/users";
    NavigationEnd "/status"; NavigationEnd "/accounts"] = [Und; Val "/status"; Val "/accounts"].
Proof. rewrite (pages_reported environment_dev (OtherEvent Und)); reflexivity. Defined.

(** The spinner follows the last router event of each interval, and nothing else
    changes it: it turns on when the interval ends with the start of a navigation and
    off when it ends with an end, a cancellation or an error; intermediate events of the
    interval (an error included, whose text is then never shown) are lost. *)
Theorem loading_follows_last_event config events s :
  let s' := (on_event (Component := base config) (RouterEvents events) s).1.2 in
  loading s' = match last events with
               | Some (NavigationStart _) => true
               | Some (NavigationEnd _ | NavigationCancel _ | NavigationError _ _) => false
               | _ => loading s
               end /\
  error s' = match last events with Some (NavigationError _ e) => e | _ => error s end /\
  layerg s' = layerg s /\ session s' = session s.
Proof.
  cbn. unfold on_router_events. destruct (last events) as [[]|]; run_m; cbn; done.
Qed.

(** A portal login that the error interceptor reports (it passes on the text of the
    error) removes the portal's token and clears the page's error: the reason read from
    the text is [undefined], and no message is shown. *)
Theorem portal_login_failure_is_silent config s reason :
  on_error (Component := base config) PortalLogin (JStr reason) s =
    (Ret tt, mkState (loading s) JUndef (layerg s) (session s), [RemoveItem "accessToken"]).
Proof. reflexivity. Qed.

Definition answer config (v : jsval) : action state event subscription Empty_set :=
  Respond (comp := base config) 0 (fun _ => v).

(** After the frame has started, an answer of [getConfig] and one of the portal leave
    the portal's address and token as the configuration and the portal gave them. *)
Theorem portal_session_established config s text v d
    (Hparse : parse text = Some v) (Hne : text <> "") :
  let c := exec_all (comp := base config) (start s)
             [User (Init JUndef); answer config (JObj [("config", JStr text)]); answer config d] in
  layerg (c_state c) = mkLayergPortalConfig (layerg_core v "hub_url") (int 5000) /\
  c_pending c = [] /\
  c_trace c = [Send GetConfig (getConfig config "");
               Send PortalLogin (portal_login (mkLayergPortalConfig (layerg_core v "hub_url") (int 5000))
                 (JObj [("apiKey", layerg_core v "hub_api_key"); ("apiKeyID", layerg_core v "hub_api_key_id")]));
               SetItem "accessToken" d].
Proof.
  intros c.
  assert (E : parse_config (JObj [("config", JStr text)]) = Ret v).
  { unfold parse_config, jor. cbn. unfold truthy_string.
    rewrite (proj2 (String.eqb_neq text "")) by done. cbn. by rewrite Hparse. }
  assert (Ec : forall st, config_next (JObj [("config", JStr text)]) st =
            (Ret tt, setf (f := layerg) (fun _ => mkLayergPortalConfig (layerg_core v "hub_url") (int 5000)) st,
             [Send PortalLogin (portal_login (mkLayergPortalConfig (layerg_core v "hub_url") (int 5000))
                (JObj [("apiKey", layerg_core v "hub_api_key"); ("apiKeyID", layerg_core v "hub_api_key_id")]))]))
    by (intros st; unfold config_next; by rewrite E).
  subst c. unfold answer. user_step. respond_step by Ec. respond_step. by split_and_all.
Qed.

Lemma portal_session_established_witness :
  let c := exec_all (comp := base test_config) (start (mkState true (JStr "") (new_LayergPortalService None) JNull))
             [User (Init JUndef); answer test_config (JObj [("config", JStr "{}")]); answer test_config JNull] in
  layerg (c_state c) = mkLayergPortalConfig JUndef (int 5000) /\
  c_pending c = [] /\
  c_trace c = [Send GetConfig (getConfig test_config "");
               Send PortalLogin (portal_login (mkLayergPortalConfig JUndef (int 5000))
                 (JObj [("apiKey", JUndef); ("apiKeyID", JUndef)]));
               SetItem "accessToken" JNull].
Proof.
  refine (portal_session_established test_config _ "{}" (JObj []) JNull _ _); [reflexivity | discriminate].
Defined.
End Base.

(** ** [LoginComponent] *)
Module Login.

(** The value of a control is [null] after a reset. *)
Record state := mkState {
  error : jsval;
  username : opt string;
  password : opt string;
  submitted : opt bool;
  returnUrl : opt string;
  page : browser
}.

#[export] Instance eta_state : Eta state := fun s =>
  mkState (error s) (username s) (password s) (submitted s) (returnUrl s) (page s).

Section validated.
Context {validators : Validators}.

(** [Validators.required] and [Validators.minLength(8)]. *)
Definition loginForm_valid (s : state) : bool :=
  required (of_opt (username s)) && (required (of_opt (password s)) && minLength 8 (of_opt (password s))).

Inductive event :=
| Init (next : opt string)
| Type_ (u p : string)
| Submit.

Section login.
Context (env : environment) (config : ConfigParams).

Abbreviation H := (M state (cmd unit Empty_set)).

Definition ngOnInit (next : opt string) : H unit :=
  username <~ Val "";; password <~ Val "";;
  returnUrl <~ or_str next (Val "/").

Definition onSubmit : H unit :=
  submitted <~ Val true;;
  error <~ JStr "";;
  valid ← gets loginForm_valid;
  when valid (
    u ← gets username;
    p ← gets password;
    emit (Send tt (login_request config u p))).

Definition login_failed (err : jsval) : H unit :=
  error <~ err;; submitted <~ Val false.

(** The [tap] of the service, then the subscriber; an exception of the first goes to
    the error callback. *)
Definition login_next (session : jsval) : H unit :=
  b ← gets page;
  page <~ state_after (login_tap env session) b;;
  match (login_tap env session b).1.1 with
  | Throw e => login_failed e
  | Ret _ =>
      username <~ Nul;; password <~ Nul;;
      submitted <~ Val false;;
      url ← gets returnUrl;
      emit (Navigate (mkNavigation [js_String url] [] false))
  end.

#[export] Instance login : Component state event unit Empty_set := {
  resp _ := jsval;
  on_event e :=
    match e with
    | Init next => ngOnInit next
    | Type_ u p => username <~ Val u;; password <~ Val p
    | Submit => onSubmit
    end;
  on_next _ := login_next;
  on_error _ := login_failed;
  on_confirm d := match d with end;
  take_until _ := false
}.
End login.

Definition new_state (b : browser) : state := mkState (JStr "") Und Und Und Und b.

Definition answer env config (v : jsval) : action state event unit Empty_set :=
  Respond (comp := login env config) 0 (fun _ => v).

Lemma onSubmit_spec config s :
  onSubmit config s =
    let s' := mkState (JStr "") (username s) (password s) (Val true) (returnUrl s) (page s) in
    (Ret tt, s', if loginForm_valid s' then [Send tt (login_request config (username s) (password s))] else []).
Proof. unfold onSubmit. run_m. cbn -[loginForm_valid]. by destruct (loginForm_valid _). Qed.

Lemma login_next_ok env session s :
  returns (login_tap env session) (page s) = true ->
  login_next env session s =
    (Ret tt, mkState (error s) Nul Nul (Val false) (returnUrl s) (state_after (login_tap env session) (page s)),
     [Navigate (mkNavigation [js_String (returnUrl s)] [] false)]).
Proof.
  intros H. unfold login_next, returns in *. run_m.
  destruct ((login_tap env session (page s)).1.1) as [a|e]; [|done]. reflexivity.
Qed.

Lemma loginForm_valid_long u p s :
  username s = Val u -> password s = Val p -> u <> "" -> p <> "" ->
  loginForm_valid s = (8 <=? js_length p).
Proof.
  intros Eu Ep Hu Hp. unfold loginForm_valid. rewrite Eu, Ep. cbn [of_opt].
  rewrite !required_nonempty, minLength_text by done. by rewrite (proj2 (String.eqb_neq p "")).
Qed.

(** Signing in: with a user name and a password of at least eight characters, the form
    sends one request with exactly them; when the answer's token can be read, the session
    is stored and current, the form is empty again, and the user is taken to the page that
    was asked for, or home.  With a shorter password nothing is sent. *)
Theorem sign_in env config b next u p session
    (Hu : u <> "") (Hp : p <> "")
    (Hok : returns (login_tap env session) b = true) :
  let c := exec_all (comp := login env config) (start (new_state b))
             [User (Init next); User (Type_ u p); User Submit; answer env config session] in
  if 8 <=? js_length p then
    c_trace c = [Send tt (authenticate config (mkAuthenticateRequest Und (Val p) (Val u)));
                 Navigate (mkNavigation [js_String (or_str next (Val "/"))] [] false)] /\
    currentSessionSubject (page (c_state c)) = session /\
    username (c_state c) = Nul /\ password (c_state c) = Nul /\ submitted (c_state c) = Val false
  else c_trace c = [] /\ page (c_state c) = b.
Proof.
  intros c. subst c. unfold answer. user_step. user_step. user_step by onSubmit_spec.
  rewrite (loginForm_valid_long u p) by done. destruct (8 <=? js_length p); simpl_config.
  - respond_step by login_next_ok. cbn. by rewrite login_tap_state.
  - no_response. done.
Qed.

End validated.

#[local] Existing Instance angular.

Lemma sign_in_witness :
  let c := exec_all (comp := login environment_dev test_config) (start (new_state (mkBrowser ∅ JNull)))
             [User (Init (Val "/accounts")); User (Type_ "admin" "password"); User Submit;
              answer environment_dev test_config test_session] in
  if 8 <=? js_length "password" then
    c_trace c = [Send tt (authenticate test_config (mkAuthenticateRequest Und (Val "password") (Val "admin")));
                 Navigate (mkNavigation ["/accounts"] [] false)] /\
    currentSessionSubject (page (c_state c)) = test_session /\
    username (c_state c) = Nul /\ password (c_state c) = Nul /\ submitted (c_state c) = Val false
  else c_trace c = [] /\ page (c_state c) = mkBrowser ∅ JNull.
Proof.
  refine (sign_in environment_dev test_config (mkBrowser ∅ JNull) (Val "/accounts") "admin" "password"
            test_session _ _ _); [discriminate | discriminate | vm_compute; reflexivity].
Defined.
End Login.
