(* ===== verification/Application.v ===== *)
(** * The application: the session, the guards, the router and the login page together

    [Session] models who is logged in, [Guards] which page a navigation reaches, [Frame]
    the login page.  Here they run together: what is on the screen, where the router
    stands, and the sign-ins and sign-outs that wait for an answer.  A navigation checks
    only the routes that it changes, so that a page can stay on the screen while the
    session changes under it; the theorems say when this cannot happen. *)

From S2P Require Import Prelude Codec JsVal Json Runtime Forms ConsoleTypes ConsoleService ConsoleRoutes Session LayergPortal Guards Router Frame.
From Stdlib Require Import Ascii.

#[local] Existing Instance Login.eta_state.

Section routing.
Context {urls : UrlSerializer}.

(** ** The application *)

Inductive origin := FromFrame | FromInterceptor (req : request).

Record app := mkApp {
  login_page : Login.state;               (* its [page] is the browser of the whole application *)
  instance_ : nat;                        (* which login page it is, of all that were opened *)
  shown : activation;
  at_ : address;
  signing_in : list (nat * opt string);   (* the login page that asked, and its [returnUrl] *)
  signing_out : list origin;
  portal_logins : nat;
  reuse : bool                            (* the router keeps the components of routes that stay *)
}.

#[export] Instance eta_app : Eta app := fun a =>
  mkApp (login_page a) (instance_ a) (shown a) (at_ a) (signing_in a) (signing_out a) (portal_logins a) (reuse a).

Definition browser_of (a : app) : browser := Login.page (login_page a).
Definition set_browser (b : browser) (a : app) : app :=
  setf (f := login_page) (setf (f := Login.page) (fun _ => b)) a.

(** The constructor of [GroupMembersComponent] makes the router of the whole application
    create every component anew at each navigation, from then on. *)
Definition creates_members (act : activation) : bool := existsb (fun x => String.eqb x.1 "GroupMembersComponent") act.

(** A new login page is created when none was shown before, or when nothing is reused. *)
Definition enter (act : activation) (t : address) (a : app) : app :=
  let a' := setf (f := shown) (fun _ => act) (setf (f := at_) (fun _ => t)
              (setf (f := reuse) (fun r => r && negb (creates_members act)) a)) in
  if decide (act = login_activation /\ (shown a <> login_activation \/ reuse a = false))
  then setf (f := login_page)
         (fun s => ((Login.ngOnInit (next t)) (Login.new_state (Login.page s))).1.2)
         (setf (f := instance_) S a')
  else a'.

(** A navigation whose guard throws fails and leaves everything as it is. *)
Definition goto (t : address) (a : app) : app :=
  match route 3 (browser_of a) (shown a) t with
  | Some (Ret (act, t')) => enter act t' a
  | _ => a
  end.

(** [router.navigate([text])] *)
Definition goto_text (text : string) (a : app) : app := goto (mkAddress (commands_of text) "" Und) a.

(** What the commands of the login page do. *)
Definition obey (a : app) (x : cmd unit Empty_set) : app :=
  match x with
  | Send _ _ => setf (f := signing_in) (fun l => l ++ [(instance_ a, Login.returnUrl (login_page a))]) a
  | Navigate n => match nav_commands n with [text] => goto_text text a | _ => a end
  | _ => a
  end.

Definition run_login (m : M Login.state (cmd unit Empty_set) unit) (a : app) : app :=
  let '(_, s, l) := m (login_page a) in fold_left obey l (setf (f := login_page) (fun _ => s) a).

(** The answer to a sign-in runs the callback of the login page that asked; when that one
    is gone, the session is stored and the router called all the same. *)
Definition run_login_of (i : nat) (returnUrl : opt string) (m : M Login.state (cmd unit Empty_set) unit) (a : app) : app :=
  if decide (i = instance_ a) then run_login m a
  else
    let gone := setf (f := Login.returnUrl) (fun _ => returnUrl) (Login.new_state (browser_of a)) in
    let '(_, s, l) := m gone in fold_left obey l (set_browser (Login.page s) a).

(** What the answer to a sign-out does after [logout_tap]: the frame's callback, or that
    of the error interceptor. *)
Definition signed_out (o : origin) (a : app) : app :=
  let a := set_browser (state_after logout_tap (browser_of a)) a in
  match o with
  | FromFrame => goto (mkAddress ["login"] "" Und) a
  | FromInterceptor req =>
      if includes "/v3/auth" (req_url req) then a
      else let n := state_url (path (at_ a)) (query (at_ a)) in
           goto (mkAddress ["login"] (next_query n) (Val n)) a
  end.

Section moves.
Context {validators : Validators} (env : environment) (config : ConfigParams).

(** The button of the login page is disabled while the form is invalid or submitted. *)
Definition can_submit (s : Login.state) : bool :=
  Login.loginForm_valid s && negb (truthy_bool (Login.submitted s)).

(** What the user, the server and the portal can do while the page is open, and what happens
    to the session by it, if anything. *)
Inductive acts : option happening -> app -> app -> Prop :=
| move_goto t a : acts None a (goto t a)            (* a link, a typed address, a page's navigation *)
| move_type u p a :
    shown a = login_activation ->
    acts None a (run_login (on_event (Component := Login.login env config) (Login.Type_ u p)) a)
| move_submit a :
    shown a = login_activation -> can_submit (login_page a) = true ->
    acts (Some SignInSent) a (run_login (on_event (Component := Login.login env config) Login.Submit) a)
| move_signed_in i n u session a :
    signing_in a !! i = Some (n, u) -> wf_json session ->
    acts (Some (SignedIn session)) a (run_login_of n u (on_next (Component := Login.login env config) tt session)
               (setf (f := signing_in) (splice1 i) a))
| move_sign_in_failed i n u err a :
    signing_in a !! i = Some (n, u) ->
    acts (Some SignInRefused) a (run_login_of n u (on_error (Component := Login.login env config) tt err)
               (setf (f := signing_in) (splice1 i) a))
| move_logout_click r a :
    logout_request config (browser_of a) = Some r ->
    acts (Some SignOutSent) a (setf (f := signing_out) (fun l => l ++ [FromFrame]) a)
| move_failed_request req err r a :
    logs_out (error_intercept req err) = true ->
    logout_request config (browser_of a) = Some r ->
    acts (Some SignOutSent) a (setf (f := signing_out) (fun l => l ++ [FromInterceptor req]) a)
| move_signed_out i o a :
    signing_out a !! i = Some o ->
    acts (Some SignedOut) a (signed_out o (setf (f := signing_out) (splice1 i) a))
| move_sign_out_failed i o a :
    signing_out a !! i = Some o ->
    acts (Some SignOutRefused) a (setf (f := signing_out) (splice1 i) a)
| move_portal_login a : acts (Some PortalSent) a (setf (f := portal_logins) S a)
| move_portal_ok n d a :
    portal_logins a = S n -> wf_json d ->
    acts (Some (PortalGranted d)) a (set_browser (state_after (setItem "accessToken" d) (browser_of a)) (setf (f := portal_logins) (fun _ => n) a))
| move_portal_failed n a :
    portal_logins a = S n ->
    acts (Some PortalRefused) a (set_browser (state_after (removeItem "accessToken") (browser_of a)) (setf (f := portal_logins) (fun _ => n) a)).

(** The page is loaded again at its address, from what the browser has stored. *)
Definition reloaded (a : app) : app :=
  goto (at_ a)
    (mkApp (Login.new_state (state_after (new_AuthenticationService env) (browser_of a))) (S (instance_ a))
       [] (at_ a) [] [] 0 true).

(** The life of the application. *)
Inductive moves : option happening -> app -> app -> Prop :=
| move_act e a a' : acts e a a' -> moves e a a'
| move_reload a : returns (new_AuthenticationService env) (browser_of a) = true -> moves (Some Reloaded) a (reloaded a).

(** The page is opened at an address, with what the browser has stored. *)
Definition opened (ls : gmap string string) (t : address) (a : app) : Prop :=
  returns (new_AuthenticationService env) (mkBrowser ls JNull) = true /\
  a = goto t (mkApp (Login.new_state (state_after (new_AuthenticationService env) (mkBrowser ls JNull))) 0 [] t [] [] 0 true).

(** The runs of the application whose states all satisfy [P]. *)
Inductive runs (P : app -> Prop) (ls : gmap string string) (t : address) : app -> Prop :=
| runs_opened a : opened ls t a -> P a -> runs P ls t a
| runs_move e a a' : runs P ls t a -> moves e a a' -> P a' -> runs P ls t a'.

(** The runs with all that has happened to the session in them, in order. *)
Inductive app_history (ls : gmap string string) (t : address) : list happening -> app -> Prop :=
| app_history_opened a : opened ls t a -> app_history ls t [] a
| app_history_move es e a a' : app_history ls t es a -> moves e a a' -> app_history ls t (es ++ option_list e) a'.
End moves.

(** ** What holds in every state *)

Definition unreadable (b : browser) : Prop := forall r, role_of b <> Ret r.

Record sound (a : app) : Prop := mkSound {
  sound_shape : shown a = [] \/ shown a = login_activation \/ in_frame (shown a);
  sound_admitted : admitted (browser_of a) (shown a);
  sound_role : in_frame (shown a) -> exists r, role_of (browser_of a) = Ret r;
  sound_signing : signing_in a = [] \/
    (shown a = login_activation /\ exists n u, signing_in a = [(n, u)] /\ n <= instance_ a /\
     (n = instance_ a -> Login.submitted (login_page a) = Val true))
}.

Lemma enter_shown act t a : shown (enter act t a) = act.
Proof. unfold enter. by case_decide. Qed.
Lemma enter_browser act t a : browser_of (enter act t a) = browser_of a.
Proof. unfold enter. by case_decide. Qed.
Lemma enter_signing act t a : signing_in (enter act t a) = signing_in a.
Proof. unfold enter. by case_decide. Qed.
Lemma enter_again act t a : shown a = login_activation ->
  instance_ (enter act t a) = S (instance_ a) \/
  (login_page (enter act t a) = login_page a /\ instance_ (enter act t a) = instance_ a).
Proof. intros E. unfold enter. case_decide as Hd; [by left|by right]. Qed.

(** A sign-in that waits is still the only one after a navigation to the login page. *)
Lemma enter_signing_in t a : signing_in a = [] \/
    (shown a = login_activation /\ exists n u, signing_in a = [(n, u)] /\ n <= instance_ a /\
     (n = instance_ a -> Login.submitted (login_page a) = Val true)) ->
  let a' := enter login_activation t a in
  signing_in a' = [] \/
    (shown a' = login_activation /\ exists n u, signing_in a' = [(n, u)] /\ n <= instance_ a' /\
     (n = instance_ a' -> Login.submitted (login_page a') = Val true)).
Proof.
  intros Hs a'. subst a'. rewrite enter_signing, enter_shown. destruct Hs as [Hn|(Hl & n & u & Hn & Hle & Hsub)]; [by left|right].
  split; [done|]. exists n, u. split; [done|]. destruct (enter_again login_activation t a Hl) as [E|[-> ->]]; [|done].
  rewrite E. split; lia.
Qed.

Lemma not_in_frame_login : ~ in_frame login_activation.
Proof. by intros [c [=]]. Qed.

(** A navigation keeps this, when no sign-in is waiting or the role cannot be read. *)
Lemma sound_goto t a : sound a -> signing_in a = [] \/ unreadable (browser_of a) -> sound (goto t a).
Proof.
  intros Ha Hs. unfold goto. destruct (route 3 _ _ t) as [[[act t']|e]|] eqn:E; [|done..].
  destruct (route_admits _ _ _ _ _ _ E (sound_admitted a Ha)) as (Hshape & _ & Hadm & Hframe).
  split; rewrite ?enter_shown, ?enter_browser, ?enter_signing.
  - by right.
  - done.
  - intros Hf. destruct (Hframe Hf) as [Hf'|Hr]; [by apply Ha|done].
  - destruct Hs as [Hs|Hs]; [by left|]. destruct (sound_signing a Ha) as [Hn|Hn]; [by left|].
    destruct Hshape as [->|Hf].
    { pose proof (enter_signing_in t' a (or_intror Hn)) as Hn'. cbv zeta in Hn'.
      by rewrite enter_signing, enter_shown in Hn'. }
    destruct Hn as [Hl _]. destruct (Hframe Hf) as [Hf'|[r Hr]]; [|by destruct (Hs r)].
    rewrite Hl in Hf'. by apply not_in_frame_login in Hf'.
Qed.

Lemma role_of_browser b b' : currentSessionSubject b = currentSessionSubject b' -> role_of b = role_of b'.
Proof.
  intros E. unfold role_of, sessionRole, currentSessionValue, session_claims, prop, claims_of_token. run_m. rewrite E.
  unfold or_throw, throw, ret. destruct (jget "token" _) as [v|]; [|done]. destruct v; try done.
  destruct (atob _); [|done]. destruct (parse _); [|done]. by destruct (jget "rol" _).
Qed.

Lemma unreadable_signed_out b : currentSessionSubject b = JNull -> unreadable b.
Proof. intros E r Hr. apply role_of_session in Hr. by rewrite E in Hr. Qed.

(** Replacing the browser by one with the same session. *)
Lemma sound_set_browser b a :
  currentSessionSubject b = currentSessionSubject (browser_of a) -> sound a -> sound (set_browser b a).
Proof.
  intros E [H1 H2 H3 H4]. rewrite <- (role_of_browser _ _ E) in H3. split; [exact H1| |exact H3|exact H4].
  intros r Hr. apply H2. rewrite <- Hr. symmetry. by apply role_of_browser.
Qed.

Section invariant.
Context {validators : Validators} (env : environment) (config : ConfigParams).

(** The login page is not shown to a user who is signed in (only an address whose [next]
    leads back to the login page does that) and is not created anew while a sign-in is
    waiting (only a router that reuses nothing does that); and the failed requests that
    sign the user out are none whose URL the interceptor takes for one of its own pages. *)
Definition orderly (a : app) : Prop :=
  (shown a = login_activation -> unreadable (browser_of a)) /\
  Forall (fun x => x.1 = instance_ a) (signing_in a) /\
  Forall (fun o => match o with FromFrame => True | FromInterceptor req => includes "/v3/auth" (req_url req) = false end)
    (signing_out a).

(** Changes of the login page that keep the browser and the flag of its button. *)
Lemma sound_set_login s a :
  Login.page s = browser_of a -> signing_in a = [] \/ Login.submitted s = Login.submitted (login_page a) ->
  sound a -> sound (setf (f := login_page) (fun _ => s) a).
Proof.
  intros Ep Es [H1 H2 H3 H4]. split; cbn.
  - exact H1.
  - unfold browser_of. cbn. by rewrite Ep.
  - unfold browser_of. cbn. by rewrite Ep.
  - destruct H4 as [H4|(? & n & u & ? & ? & Hsub)]; [by left|]. destruct Es as [Es|Es]; [by left|]. right.
    split; [done|]. exists n, u. rewrite Es. by split_and_all.
Qed.

Lemma sound_submit a : shown a = login_activation -> can_submit (login_page a) = true -> orderly a -> sound a ->
  sound (run_login (on_event (Component := Login.login env config) Login.Submit) a).
Proof.
  intros Hl Hc (_ & Ho & _) Ha. unfold run_login. cbn [on_event Login.login]. rewrite Login.onSubmit_spec. cbn zeta.
  apply andb_true_iff in Hc as [_ Hsub].
  destruct (sound_signing a Ha) as [Hn|(_ & n & u & E & _ & Hn)].
  2: { rewrite E in Ho. inversion_clear Ho as [|? ? En _]. by rewrite (Hn En) in Hsub. }
  pose proof (sound_set_login (Login.mkState (JStr "") (Login.username (login_page a)) (Login.password (login_page a))
    (Val true) (Login.returnUrl (login_page a)) (Login.page (login_page a))) a eq_refl (or_introl Hn) Ha) as Hs.
  destruct (Login.loginForm_valid _); [|exact Hs]. destruct Hs as [H1 H2 H3 H4]. cbn [fold_left obey].
  split; [exact H1|exact H2|exact H3|]. right. cbn in *. rewrite Hn. split; [done|]. eexists _, _. by split_and_all.
Qed.

(** The answer to the one sign-in that can be waiting. *)
Lemma sound_answer i n u m a :
  signing_in a !! i = Some (n, u) -> orderly a -> sound a ->
  (forall b, let '(_, s, l) := m (login_page b) in
     Forall (fun x => exists nav, x = Navigate nav) l) ->
  sound (run_login_of n u m (setf (f := signing_in) (splice1 i) a)).
Proof.
  intros Hi (_ & Ho & _) Ha Hm. destruct (sound_signing a Ha) as [Hn|(Hl & n' & u' & Hn & _)]; [by rewrite Hn in Hi|].
  rewrite Hn in Hi, Ho. destruct i; [|done]. injection Hi as <- <-. inversion_clear Ho as [|? ? En _]. cbn in En.
  unfold run_login_of.
  rewrite decide_True by done. unfold run_login. cbn. specialize (Hm a). destruct (m (login_page a)) as [[o s] l].
  assert (H0 : forall a', shown a' = login_activation -> signing_in a' = [] -> sound a').
  { intros a' E1 E2. split; rewrite ?E1; [by right; left| |by intros ?%not_in_frame_login|by left].
    intros r _. apply permitted_login. }
  assert (Hgo : forall l a', Forall (fun x => exists nav, x = Navigate nav) l -> signing_in a' = [] -> sound a' ->
            sound (fold_left obey l a')).
  { clear -validators. induction l as [|x l IH]; intros a' Hl E Ha'; [done|]. inversion Hl as [|? ? [nav ->] Hl']. subst. cbn.
    assert (sound (match nav_commands nav with [text] => goto_text text a' | _ => a' end) /\
            signing_in (match nav_commands nav with [text] => goto_text text a' | _ => a' end) = []) as [H1 H2].
    { destruct (nav_commands nav) as [|text []]; try done. unfold goto_text. split; [by apply sound_goto; [|left]|].
      unfold goto. destruct (route _ _ _ _) as [[[act t']|e]|]; [by rewrite enter_signing|done..]. }
    by apply IH. }
  apply Hgo; [exact Hm|cbn; by rewrite Hn|]. apply H0; cbn; [done|by rewrite Hn].
Qed.

Lemma sound_signed_out i o a : signing_out a !! i = Some o -> orderly a -> sound a ->
  sound (signed_out o (setf (f := signing_out) (splice1 i) a)).
Proof.
  intros Hi Ho Ha. unfold signed_out. rewrite logout_tap_state.
  match goal with |- context [set_browser ?b ?a0] => set (a' := set_browser b a0) end.
  assert (Hj : currentSessionSubject (browser_of a') = JNull) by done.
  assert (Hlogin : forall q n, sound (goto (mkAddress ["login"] q n) a')).
  { intros q n. unfold goto. rewrite route_login by (by rewrite ?Hj). cbn [query next].
    split; rewrite ?enter_shown, ?enter_browser, ?enter_signing.
    - by right; left.
    - intros r _. apply permitted_login.
    - by intros ?%not_in_frame_login.
    - pose proof (enter_signing_in (mkAddress ["login"] q n) a' (sound_signing a Ha)) as Hn. cbv zeta in Hn.
      by rewrite enter_signing, enter_shown in Hn. }
  destruct o as [|req]; [apply Hlogin|]. destruct Ho as (_ & _ & Ho). rewrite Forall_forall in Ho.
  specialize (Ho _ (list_elem_of_lookup_2 _ _ _ Hi)). cbn in Ho. rewrite Ho. apply Hlogin.
Qed.

Lemma sound_moves e a a' : moves env config e a a' -> orderly a -> sound a -> sound a'.
Proof.
  intros Hm Ho Ha. destruct Hm as [e a a' Hm|a Hret]; [destruct Hm|].
  - apply sound_goto; [done|]. destruct (sound_signing a Ha) as [?|(Hl & _)]; [by left|right]. by apply Ho.
  - apply sound_set_login; [done|by right|done].
  - by apply sound_submit.
  - apply sound_answer; [done..|]. intros b. cbn [on_next Login.login]. unfold Login.login_next. run_m.
    destruct ((login_tap env session _).1.1); repeat constructor. by eexists.
  - apply sound_answer; [done..|]. intros b. cbn. repeat constructor.
  - destruct Ha; by split.
  - destruct Ha; by split.
  - by apply sound_signed_out.
  - destruct Ha; by split.
  - destruct Ha; by split.
  - destruct Ha; apply sound_set_browser; by split.
  - destruct Ha; apply sound_set_browser; by split.
  - apply sound_goto; [|by left]. split; cbn; [by left|by intros r _; constructor|by intros [? ?]|by left].
Qed.

Lemma runs_sound ls t a : runs env config orderly ls t a -> sound a.
Proof.
  assert (Hp : forall a, runs env config orderly ls t a -> orderly a) by (by destruct 1).
  induction 1 as [a [_ ->] _|e a a' Hr IH Hm _]; [|by eapply sound_moves; [|apply Hp|]].
  apply sound_goto; [|by left]. split; cbn; [by left|by intros r _; constructor|by intros [? ?]|by left].
Qed.
End invariant.

(** ** The session's part of the application *)

Section refinement.
Context {validators : Validators} (env : environment) (config : ConfigParams).

Definition goes (o : origin) : bool := match o with FromFrame => true | FromInterceptor req => negb (includes "/v3/auth" (req_url req)) end.

(** The state of [Session.step]; [p], the last navigation of the components that sign in
    and out, is refined by [shown]. *)
Definition session_of (a : app) (p : bool) : system :=
  mkSystem (browser_of a) (length (signing_in a)) (map goes (signing_out a)) (portal_logins a) p.

Lemma session_of_goto t a p : session_of (goto t a) p = session_of a p.
Proof.
  unfold goto. destruct (route _ _ _ _) as [[[act t']|e]|]; [|done..]. unfold enter. by case_decide.
Qed.

Lemma session_of_navigate l a p : Forall (fun x => exists nav, x = Navigate nav) l ->
  session_of (fold_left obey l a) p = session_of a p.
Proof.
  revert a. induction l as [|x l IH]; intros a Hl; [done|]. inversion Hl as [|? ? [nav ->] Hl']. subst. cbn.
  rewrite IH by done. destruct (nav_commands nav) as [|text []]; try done. apply session_of_goto.
Qed.

(** The callback of a sign-in changes the browser only; [f] says how. *)
Lemma session_of_login n u m (f : browser -> browser) a p :
  (forall s, let '(_, s', l) := m s in Login.page s' = f (Login.page s) /\ Forall (fun x => exists nav, x = Navigate nav) l) ->
  session_of (run_login_of n u m a) p =
    mkSystem (f (browser_of a)) (length (signing_in a)) (map goes (signing_out a)) (portal_logins a) p.
Proof.
  intros Hm. unfold run_login_of. case_decide.
  - unfold run_login. specialize (Hm (login_page a)). destruct (m (login_page a)) as [[o s'] l]. destruct Hm as [Ef Hl].
    rewrite session_of_navigate by done. unfold session_of, browser_of. cbn. by rewrite Ef.
  - match goal with |- context [m ?s] => specialize (Hm s); destruct (m s) as [[o s'] l] end. destruct Hm as [Ef Hl].
    rewrite session_of_navigate by done. unfold session_of, set_browser, browser_of in *. cbn in *. by rewrite Ef.
Qed.

Lemma map_splice1 {A B} (f : A -> B) i l : map f (splice1 i l) = splice1 i (map f l).
Proof. unfold splice1. by rewrite map_app, firstn_map, skipn_map. Qed.

(** One move of the application is the step of the session's life that it is called, or none. *)
Lemma move_is_step e a a' p : moves env config e a a' ->
  exists p', match e with
             | None => session_of a' p' = session_of a p
             | Some e => step env config e (session_of a p) (session_of a' p')
             end.
Proof.
  intros Hm. destruct Hm as [e a a' Hm|a Hret]; [destruct Hm as [t a|u p0 a Hl|a Hl Hc|i n u session a Hi Hw|i n u err a Hi|r a Hr|req err r a Hlo Hr|i o a Hi
    |i o a Hi|a|n d a Hn Hw|n a Hn]|].
  - exists p. apply session_of_goto.
  - by exists p.
  - exists p. unfold run_login. cbn [on_event Login.login]. rewrite Login.onSubmit_spec. cbn zeta.
    apply andb_true_iff in Hc as [Hv _]. unfold Login.loginForm_valid in *. cbn [Login.username Login.password]. rewrite Hv.
    unfold session_of, browser_of. cbn. rewrite length_app, Nat.add_comm. apply step_login.
  - exists false. rewrite (session_of_login _ _ _ (fun b => state_after (login_tap env session) b)).
    + cbn. rewrite splice1_length_lt by (by eapply lookup_lt_Some).
      assert (length (signing_in a) = S (pred (length (signing_in a)))) as E by (apply lookup_lt_Some in Hi; lia).
      unfold session_of. rewrite E at 1. by apply step_login_ok.
    + intros s. cbn [on_next Login.login]. unfold Login.login_next. run_m.
      destruct ((login_tap env session _).1.1); (split; [done|repeat constructor]). by eexists.
  - exists p. rewrite (session_of_login _ _ _ (fun b => b)) by (intros s; by repeat constructor).
    cbn. rewrite splice1_length_lt by (by eapply lookup_lt_Some).
    assert (length (signing_in a) = S (pred (length (signing_in a)))) as E by (apply lookup_lt_Some in Hi; lia).
    unfold session_of. rewrite E at 1. apply step_login_error.
  - exists p. unfold session_of, browser_of. cbn. rewrite map_app. by eapply step_logout.
  - exists p. unfold session_of, browser_of. cbn. rewrite map_app.
    assert (goes (FromInterceptor req) = to_login_after_logout (error_intercept req err)) as E.
    { unfold error_intercept in *. destruct (error_text err); cbn in *; by rewrite Hlo. }
    cbn [map]. rewrite E. by eapply step_failed_request.
  - exists (goes o || p). assert (Hs : session_of (signed_out o (setf (f := signing_out) (splice1 i) a)) (goes o || p) =
      mkSystem (state_after logout_tap (browser_of a)) (length (signing_in a)) (splice1 i (map goes (signing_out a))) (portal_logins a) (goes o || p)).
    { unfold signed_out. rewrite <- map_splice1. destruct o as [|req]; [by rewrite session_of_goto|].
      destruct (includes "/v3/auth" (req_url req)); [done|by rewrite session_of_goto]. }
    rewrite Hs. apply (step_logout_ok env config i). change (map goes (signing_out a)) with (goes <$> signing_out a).
    by rewrite list_lookup_fmap, Hi.
  - exists p. unfold session_of. cbn. rewrite map_splice1. apply (step_logout_error env config i (goes o)).
    change (map goes (signing_out a)) with (goes <$> signing_out a). by rewrite list_lookup_fmap, Hi.
  - exists p. apply step_hub_login.
  - exists p. unfold session_of. cbn. rewrite Hn. by apply step_hub_ok.
  - exists p. unfold session_of. cbn. rewrite Hn. apply step_hub_error.
  - exists p. unfold reloaded. rewrite session_of_goto. by apply step_reload.
Qed.

Lemma runs_live P ls t a : runs env config P ls t a -> exists p, lives env config ls (session_of a p).
Proof.
  induction 1 as [a [Hr ->] _|e a a' _ [p IH] Hm _].
  - exists false. rewrite session_of_goto. apply lives_boot. by split.
  - destruct (move_is_step e a a' p Hm) as [p' Hs]. exists p'. destruct e; [by eapply lives_step|by rewrite Hs].
Qed.

Lemma app_history_is_history ls t es a : app_history env config ls t es a -> exists p, history env config ls es (session_of a p).
Proof.
  induction 1 as [a [Hr ->]|es e a a' _ [p IH] Hm].
  - exists false. rewrite session_of_goto. apply history_boot. by split.
  - destruct (move_is_step e a a' p Hm) as [p' Hs]. exists p'.
    destruct e; cbn [option_list]; [by eapply history_step|by rewrite app_nil_r, Hs].
Qed.

Lemma runs_coherent P ls t a : is_Some (read_item "accessToken" ls) -> runs env config P ls t a -> coherent (browser_of a).
Proof. intros Htok [p Hl]%runs_live. by apply (lives_coherent _ _ _ _ Htok Hl). Qed.

Lemma signed_out_shows_login o a : goes o = true -> shown (signed_out o a) = login_activation.
Proof.
  intros Hgo. unfold signed_out. destruct o as [|req].
  - unfold goto. rewrite route_login by (by rewrite ?logout_tap_state). apply enter_shown.
  - cbn in Hgo. apply negb_true_iff in Hgo. rewrite Hgo. cbn -[goto state_after].
    unfold goto. rewrite route_login by (by rewrite ?logout_tap_state). apply enter_shown.
Qed.

(** C5: the application keeps the contract of a session ([Session.contract_step]): whatever
    the router shows, whichever login page asked and whatever else is done in between, what
    has happened since the page was opened is a run of the specification, each sign-in,
    sign-out, answer of the portal and reload being the step of that name, and the
    application agrees with its end: who is signed in, in memory and in the store, the
    token of the portal, and how many requests wait.  So an answer is never ignored, a
    navigation or a text typed changes nobody's identity, and the answer to a sign-in is
    taken also when the login page that asked is gone.  And a sign-out that is answered,
    the user's own or that of a refused request, shows the login page. *)
Theorem application_refines_session ls t es a session d
    (Hs : read_item SESSION_LOCALSTORAGE_KEY ls = Some session) (Hd : read_item "accessToken" ls = Some d)
    (Hrun : app_history env config ls t es a) :
  (exists x, contract_runs (mkContract (mkIdentity session d) 0 0 0) es x /\
     holds (browser_of a) (identity_of x) /\ length (signing_in a) = sign_ins x /\
     length (signing_out a) = sign_outs x /\ portal_logins a = portal_sign_ins x) /\
  (forall a', moves env config (Some SignedOut) a a' -> Forall (fun o => goes o = true) (signing_out a) ->
     shown a' = login_activation).
Proof.
  split.
  - destruct (app_history_is_history ls t es a Hrun) as [p Hh].
    destruct (history_contract env config ls es _ session d Hs Hd Hh) as (x & Hx & H1 & H2 & H3 & H4).
    exists x. cbn in H3. rewrite length_map in H3. by split_and_all.
  - intros a' Hm Hgo. inversion Hm as [e a0 a1 Hacts|]; subst. inversion Hacts as [| | | | | | |i o a0 Hi| | | |]; subst.
    apply signed_out_shows_login. by apply (Forall_lookup_1 _ _ _ _ Hgo Hi).
Qed.
End refinement.

(** ** The properties *)

Section properties.
Context {validators : Validators} (env : environment) (config : ConfigParams).

(** C4: whatever the user, the server and the portal do, in any order, along every run that is
    [orderly] (no signed-in user is sent to the login page, the login page is not created
    anew while a sign-in waits, no failed request is one of the interceptor's own URLs):
    the screen shows nothing yet, the login page, or a page of the frame; then the token of
    the session tells a role, and every part of the page is open to that role, also when
    the guards last ran for another part of the page or for an earlier session; and no
    more than one sign-in waits for its answer. *)
Theorem pages_on_screen_admitted ls t a (Hrun : runs env config orderly ls t a) :
  (shown a = [] \/ shown a = login_activation \/ in_frame (shown a)) /\
  (in_frame (shown a) -> exists r, role_of (browser_of a) = Ret r /\ permitted r (shown a)) /\
  length (signing_in a) <= 1.
Proof.
  destruct (runs_sound _ _ _ _ _ Hrun) as [H1 H2 H3 H4]. split_and_all; [done|..].
  - intros Hf. destruct (H3 Hf) as [r Hr]. exists r. split; [done|by apply H2].
  - destruct H4 as [->|(_ & n & u & -> & _)]; simpl; lia.
Qed.

(** What a fresh navigation of a signed-in user reaches. *)
Lemma goto_admitted a t act r :
  shown a = login_activation -> resolve_url (path t) = Some act -> in_frame act ->
  role_of (browser_of a) = Ret r -> permitted r act ->
  shown (goto t a) = act.
Proof.
  intros Hl Et [c ->] Hr Hp. unfold goto. rewrite Hl.
  change (route 3 (browser_of a) login_activation t) with
    (match resolve_url (path t) with
     | None => None
     | Some x =>
         match run_changed (currentSessionSubject (browser_of a)) (role_of (browser_of a)) (activation_url x) login_activation x with
         | Ret Activate => Some (Ret (x, mkAddress (activation_url x) (query t) (next t)))
         | Ret (GoTo url' refused) => route 2 (browser_of a) login_activation (redirected t url' refused)
         | Throw e => Some (Throw e)
         end
     end).
  rewrite Et. unfold run_changed. unfold login_activation. cbn [changed].
  destruct (decide (_ = _)) as [E|_]; [discriminate E|].
  rewrite decide_True by done. cbn -[run_children].
  unfold AuthenticationGuard_canActivate. rewrite (role_of_session _ _ Hr), Hr.
  rewrite permitted_frame in Hp. destruct (run_children_spec r c) as [[-> _]|[_ Hn]]; [|by destruct (Hn Hp)].
  by rewrite enter_shown.
Qed.

(** C10: a session that the server no longer accepts: the request that fails with 401 ends
    it and takes the user to the login page, which remembers the address; signing in again
    shows the page that was on the screen when its address, of plain segments, has no query,
    but the home page when an address of one segment has one, as every list has after a
    search: the address is handed to
    [navigate] as one text, in which a query is part of the last segment. *)
Theorem expired_session_returns a req err session r
    (Hframe : in_frame (shown a)) (Hat : resolve_url (path (at_ a)) = Some (shown a))
    (Hs : jtruthy (currentSessionSubject (browser_of a)) = true)
    (H401 : err_status err = 401%Z) (Hauth : includes "/v3/auth" (req_url req) = false)
    (Hnew : forall b, returns (login_tap env session) b = true)
    (Hr : forall b, currentSessionSubject b = session -> role_of b = Ret r)
    (Hp : permitted r (shown a)) :
  let a1 := signed_out (FromInterceptor req) a in
  let returnUrl := state_url (path (at_ a)) (query (at_ a)) in
  let a2 := run_login_of (instance_ a1) (Val returnUrl)
              (on_next (Component := Login.login env config) tt session) a1 in
  logs_out (error_intercept req err) = true /\ is_Some (logout_request config (browser_of a)) /\
  shown a1 = login_activation /\ Login.returnUrl (login_page a1) = Val returnUrl /\
  currentSessionSubject (browser_of a2) = session /\
  (query (at_ a) = "" -> path (at_ a) <> [] -> forallb plain (path (at_ a)) = true -> shown a2 = shown a) /\
  (forall x, path (at_ a) = [x] -> plain x = true -> query (at_ a) <> "" ->
     string_has "/"%char (query (at_ a)) = false -> shown a2 = status_activation).
Proof.
  intros a1 returnUrl a2.
  assert (E1 : a1 = enter login_activation (mkAddress ["login"] (next_query returnUrl) (Val returnUrl))
                      (set_browser (state_after logout_tap (browser_of a)) a)).
  { subst a1. unfold signed_out. rewrite Hauth. cbn -[goto state_after].
    unfold goto. rewrite route_login; [reflexivity|reflexivity|]. cbn. by rewrite logout_tap_state. }
  assert (Hnl : shown a <> login_activation) by (intros E; rewrite E in Hframe; by apply not_in_frame_login in Hframe).
  assert (Hret : Login.returnUrl (login_page a1) = Val returnUrl).
  { rewrite E1. unfold enter. rewrite decide_True by (split; [done|by left]). cbn.
    unfold or_str. destruct (state_url_rooted (path (at_ a)) (query (at_ a))) as [u Eu]. subst returnUrl. by rewrite Eu. }
  assert (Hshown : shown a1 = login_activation) by (by rewrite E1, enter_shown).
  set (b2 := state_after (login_tap env session) (browser_of a1)).
  assert (Hb2 : currentSessionSubject b2 = session) by (subst b2; by rewrite login_tap_state).
  assert (E2 : exists s, a2 = goto_text returnUrl (setf (f := login_page) (fun _ => s) a1) /\ Login.page s = b2).
  { subst a2. unfold run_login_of. rewrite decide_True by done. unfold run_login. cbn [on_next Login.login].
    rewrite Login.login_next_ok by apply Hnew. cbn [fold_left obey nav_commands]. rewrite Hret. by eexists. }
  destruct E2 as (s2 & E2 & Hs2).
  assert (Hgo : forall act, resolve_url (commands_of returnUrl) = Some act -> in_frame act -> permitted r act -> shown a2 = act).
  { intros act Eact Hf Hpa. rewrite E2. apply goto_admitted with (r := r); try done. apply Hr. unfold browser_of. cbn. by rewrite Hs2. }
  split_and_all.
  - unfold error_intercept. rewrite H401. by destruct (error_text err).
  - unfold logout_request. rewrite Hs. by eexists.
  - done.
  - done.
  - rewrite E2. unfold goto_text, goto. destruct (route _ _ _ _) as [[[act t']|e]|];
      rewrite ?enter_browser; unfold browser_of; cbn; by rewrite Hs2.
  - intros Eq Hne Hpl. apply Hgo; [|done|done]. subst returnUrl. by rewrite Eq, commands_plain.
  - intros x Ex Hx Hq Hsl. apply Hgo.
    + subst returnUrl. rewrite Ex, (commands_query [] x) by done. apply resolve_question.
      rewrite !string_has_app. cbn. by rewrite orb_true_r.
    + by eexists.
    + repeat constructor; cbn; intros p m [= <-]; discriminate.
Qed.
End properties.
End routing.

(** ** The properties at work *)

#[local] Existing Instance angular.
#[local] Existing Instance simple_urls.

Definition at_path (p : list string) (q : string) : address := mkAddress p q Und.
Definition open_at (ls : gmap string string) (t : address) : app :=
  goto t (mkApp (Login.new_state (state_after (new_AuthenticationService environment_dev) (mkBrowser ls JNull))) 0 [] t [] [] 0 true).

Definition users_activation : activation := [("BaseComponent", []); ("UsersComponent", ["users"])].

Lemma users_opened : shown (open_at (localStorage test_browser) (at_path ["users"] "")) = users_activation.
Proof. vm_compute. reflexivity. Qed.

Lemma users_orderly : orderly (open_at (localStorage test_browser) (at_path ["users"] "")).
Proof.
  split; [rewrite users_opened; by intros [=]|].
  assert (signing_in (open_at (localStorage test_browser) (at_path ["users"] "")) = []) as -> by (vm_compute; reflexivity).
  assert (signing_out (open_at (localStorage test_browser) (at_path ["users"] "")) = []) as -> by (vm_compute; reflexivity).
  split; constructor.
Qed.

Lemma pages_on_screen_admitted_witness :
  let a := open_at (localStorage test_browser) (at_path ["users"] "") in
  shown a = users_activation /\
  ((shown a = [] \/ shown a = login_activation \/ in_frame (shown a)) /\
   (in_frame (shown a) -> exists r, role_of (browser_of a) = Ret r /\ permitted r (shown a)) /\
   length (signing_in a) <= 1).
Proof.
  split; [exact users_opened|].
  apply (pages_on_screen_admitted environment_dev dev_config (localStorage test_browser) (at_path ["users"] "")).
  apply runs_opened; [split; [vm_compute; reflexivity|reflexivity]|exact users_orderly].
Defined.

(** The administrator opens a page of the frame and signs out. *)
Lemma application_refines_session_witness :
  let a := open_at (localStorage test_browser) (at_path ["users"] "") in
  let a1 := setf (f := signing_out) (fun l => l ++ [FromFrame]) a in
  let a2 := signed_out FromFrame (setf (f := signing_out) (splice1 0) a1) in
  ((exists x, contract_runs (mkContract (mkIdentity test_session JNull) 0 0 0) [SignOutSent] x /\
      holds (browser_of a1) (identity_of x) /\ length (signing_in a1) = sign_ins x /\
      length (signing_out a1) = sign_outs x /\ portal_logins a1 = portal_sign_ins x) /\
   shown a2 = login_activation) /\
  (exists x, contract_runs (mkContract (mkIdentity test_session JNull) 0 0 0) [SignOutSent; SignedOut] x /\
      holds (browser_of a2) (identity_of x) /\ length (signing_in a2) = sign_ins x /\
      length (signing_out a2) = sign_outs x /\ portal_logins a2 = portal_sign_ins x).
Proof.
  intros a a1 a2.
  assert (H0 : app_history environment_dev dev_config (localStorage test_browser) (at_path ["users"] "") [] a)
    by (apply app_history_opened; split; [vm_compute; reflexivity|reflexivity]).
  assert (Hr : exists r, logout_request dev_config (browser_of a) = Some r) by (eexists; vm_compute; reflexivity).
  destruct Hr as [r Hr].
  assert (H1 : app_history environment_dev dev_config (localStorage test_browser) (at_path ["users"] "") [SignOutSent] a1)
    by (eapply (app_history_move _ _ _ _ [] (Some SignOutSent)); [exact H0|by eapply move_act, move_logout_click]).
  assert (Hm : moves environment_dev dev_config (Some SignedOut) a1 a2).
  { apply move_act, (move_signed_out _ _ 0 FromFrame a1).
    assert (E : signing_out a = []) by (vm_compute; reflexivity). cbn. by rewrite E. }
  assert (H2 : app_history environment_dev dev_config (localStorage test_browser) (at_path ["users"] "") [SignOutSent; SignedOut] a2)
    by exact (app_history_move _ _ _ _ [SignOutSent] (Some SignedOut) _ _ H1 Hm).
  assert (Es : read_item SESSION_LOCALSTORAGE_KEY (localStorage test_browser) = Some test_session) by (vm_compute; reflexivity).
  assert (Ed : read_item "accessToken" (localStorage test_browser) = Some JNull) by (vm_compute; reflexivity).
  destruct (application_refines_session environment_dev dev_config _ _ _ _ _ _ Es Ed H1) as [Hx1 Hl].
  destruct (application_refines_session environment_dev dev_config _ _ _ _ _ _ Es Ed H2) as [Hx2 _].
  split; [split; [exact Hx1|]|exact Hx2]. apply (Hl a2 Hm).
  assert (E : signing_out a = []) by (vm_compute; reflexivity). cbn. rewrite E. by repeat constructor.
Defined.

Definition unauthorized : http_error := mkHttpError 401 "Unauthorized" (JObj [("message", JStr "Auth token invalid")]).

Lemma test_login_returns b : returns (login_tap environment_dev test_session) b = true.
Proof. vm_compute. reflexivity. Qed.

Lemma test_role b : currentSessionSubject b = test_session -> role_of b = Ret USER_ROLE_ADMIN.
Proof. intros E. rewrite (role_of_browser b test_browser) by (rewrite E; vm_compute; reflexivity). vm_compute. reflexivity. Qed.

Lemma expired_session_returns_witness :
  let a := open_at (localStorage test_browser) (at_path ["accounts"] "filter=ann") in
  let req := request_of dev_config (C_banAccount "" (Val "u")) in
  let a1 := signed_out (FromInterceptor req) a in
  let a2 := run_login_of (instance_ a1) (Val "/accounts?filter=ann")
              (on_next (Component := Login.login environment_dev dev_config) tt test_session) a1 in
  (logs_out (error_intercept req unauthorized) = true /\ is_Some (logout_request dev_config (browser_of a)) /\
  shown a1 = login_activation /\ Login.returnUrl (login_page a1) = Val "/accounts?filter=ann" /\
  currentSessionSubject (browser_of a2) = test_session /\
  (query (at_ a) = "" -> path (at_ a) <> [] -> forallb plain (path (at_ a)) = true -> shown a2 = shown a) /\
  (forall x, path (at_ a) = [x] -> plain x = true -> query (at_ a) <> "" ->
     string_has "/"%char (query (at_ a)) = false -> shown a2 = status_activation)).
Proof.
  intros a req a1 a2.
  refine (expired_session_returns environment_dev dev_config a req unauthorized test_session USER_ROLE_ADMIN _ _ _ _ _ _ _ _).
  - eexists. vm_compute. reflexivity.
  - vm_compute. reflexivity.
  - vm_compute. reflexivity.
  - reflexivity.
  - vm_compute. reflexivity.
  - apply test_login_returns.
  - apply test_role.
  - assert (E : shown a = [("BaseComponent", []); ("AccountListComponent", ["accounts"])]) by (vm_compute; reflexivity).
    rewrite E. repeat constructor; cbn; intros p m [= <-]; discriminate.
Defined.
