(* ===== verification/RowDeletion.v ===== *)
(** * Lists whose rows can be deleted

    The pages that list things delete a row the same way: a click opens a dialog that
    remembers the row and its position, the confirmation sends the request, and the
    answer removes the remembered position from whatever list the page then shows.
    [RowDeletion] is the contract of such a page; the theorems of the section hold of
    every instance. *)

From S2P Require Import Prelude JsVal Runtime.

(** Commands that start nothing asynchronous. *)
Definition quiet {K D} (x : cmd K D) : bool :=
  match x with Send _ _ | Notify | OpenConfirm _ => false | _ => true end.

Class RowDeletion {S Ev K D} (comp : Component S Ev K D) (R : Type) := {
  rows : S -> list R;
  del_click : nat -> R -> Ev;
  del_dialog : nat -> R -> D;
  del_sub : nat -> R -> K;
  del_request : S -> R -> option request;   (* [None]: building it throws *)
  del_click_spec i r s :
    on_event (del_click i r) s = (Ret tt, s, [OpenConfirm (del_dialog i r)]);
  del_confirm_spec i r v s rq : del_request s r = Some rq ->
    exists s' l, on_confirm (del_dialog i r) v s = (Ret tt, s', l ++ [Send (del_sub i r) rq]) /\
      forallb quiet l = true /\ rows s' = rows s /\ (forall r', del_request s' r' = del_request s r');
  del_next_spec i r a s :
    exists s', on_next (del_sub i r) a s = (Ret tt, s', []) /\ rows s' = splice1 i (rows s);
  del_error_spec i r e s :
    exists s', on_error (del_sub i r) e s = (Ret tt, s', []) /\ rows s' = rows s
}.
Arguments rows {S Ev K D} comp {R _} _.
Arguments del_click {S Ev K D} comp {R _} _ _.
Arguments del_dialog {S Ev K D} comp {R _} _ _.
Arguments del_sub {S Ev K D} comp {R _} _ _.
Arguments del_request {S Ev K D} comp {R _} _ _.

Section row_deletion.
Context {S Ev K D : Type} {comp : Component S Ev K D} {R : Type} `{!RowDeletion comp R}.
Implicit Types c : config S K D.

Lemma absorb_quiet l c : forallb quiet l = true ->
  fold_left absorb l c = mkMachine (c_state c) (c_pending c) (c_dialogs c) (c_trace c ++ l).
Proof.
  revert c. induction l as [|x l IH]; intros c H; [by destruct c; simpl; rewrite app_nil_r|].
  simpl in H. apply andb_true_iff in H as [Hx Hl]. simpl. rewrite IH by done.
  destruct x; try discriminate Hx; simpl; by rewrite <- app_assoc.
Qed.

(** A click and its confirmation: one more pending request, the same rows. *)
Lemma delete_sent c i r v rq : del_request comp (c_state c) r = Some rq ->
  exists l, let c' := exec_all c [User (del_click comp i r); Confirm (length (c_dialogs c)) v] in
  forallb quiet l = true /\
  rows comp (c_state c') = rows comp (c_state c) /\
  c_pending c' = c_pending c ++ [del_sub comp i r] /\ c_dialogs c' = c_dialogs c /\
  c_trace c' = c_trace c ++ OpenConfirm (del_dialog comp i r) :: l ++ [Send (del_sub comp i r) rq] /\
  (forall r', del_request comp (c_state c') r' = del_request comp (c_state c) r').
Proof.
  intros Hrq. destruct (del_confirm_spec i r v (c_state c) rq Hrq) as (s' & l & E & Hl & Hr & Hq).
  exists l. rewrite exec_all_cons, (exec_User _ _ _ _ _ (del_click_spec i r (c_state c))), exec_all_cons.
  simpl_config. erewrite exec_Confirm; [|simpl; by rewrite lookup_app_r, Nat.sub_diag by lia|exact E].
  cbn -[fold_left]. rewrite fold_left_app, (absorb_quiet l) by exact Hl. simpl.
  split_and_all; try done; [|by rewrite <- !app_assoc].
  pose proof (splice1_middle (c_dialogs c) [] (del_dialog comp i r)) as Hs. by rewrite app_nil_r in Hs.
Qed.

(** The answer to a deletion that is the [j]-th pending request. *)
Lemma delete_answered c i r j a : c_pending c !! j = Some (del_sub comp i r) ->
  let c' := exec c (Respond j a) in
  rows comp (c_state c') = splice1 i (rows comp (c_state c)) /\
  c_pending c' = splice1 j (c_pending c) /\ c_dialogs c' = c_dialogs c /\ c_trace c' = c_trace c.
Proof.
  intros Hj. destruct (del_next_spec i r (a _) (c_state c)) as (s' & E & Hr).
  cbv zeta. by rewrite (exec_Respond _ _ _ _ _ _ _ Hj E).
Qed.

(** One deletion from click to answer removes the row at its position. *)
Lemma delete_row_gen c i r v a rq : del_request comp (c_state c) r = Some rq ->
  exists l, let c' := exec_all c [User (del_click comp i r); Confirm (length (c_dialogs c)) v;
                                  Respond (length (c_pending c)) a] in
  forallb quiet l = true /\
  rows comp (c_state c') = splice1 i (rows comp (c_state c)) /\
  c_pending c' = c_pending c /\ c_dialogs c' = c_dialogs c /\
  c_trace c' = c_trace c ++ OpenConfirm (del_dialog comp i r) :: l ++ [Send (del_sub comp i r) rq].
Proof.
  intros Hrq. destruct (delete_sent c i r v rq Hrq) as (l & Hl & Hr & Hp & Hd & Ht & _).
  exists l. cbv zeta in *. rewrite (exec_all_cons c), (exec_all_cons (exec c _)).
  rewrite (exec_all_cons c), (exec_all_cons (exec c _)) in Hr, Hp, Hd, Ht.
  rewrite exec_all_cons. set (c1 := exec (exec c _) _) in *.
  change (exec_all c1 []) with c1 in *. cbn [exec_all fold_left].
  destruct (delete_answered c1 i r (length (c_pending c)) a) as (Hr' & Hp' & Hd' & Ht').
  { by rewrite Hp, lookup_app_r, Nat.sub_diag by lia. }
  change (exec_all ?x []) with x. rewrite Hr', Hp', Hd', Ht', Hr, Hp, Hd, Ht.
  split_and_all; try done.
  pose proof (splice1_middle (c_pending c) [] (del_sub comp i r)) as Hs. by rewrite app_nil_r in Hs.
Qed.

(** Two deletions in flight at once: the second answer removes its position from the
    list that the first one has already shortened. *)
Lemma delete_two_gen c i j r r' v v' a a' rq rq' :
  del_request comp (c_state c) r = Some rq -> del_request comp (c_state c) r' = Some rq' ->
  let n := length (c_pending c) in
  let d := length (c_dialogs c) in
  let c' := exec_all c [User (del_click comp i r); Confirm d v; User (del_click comp j r'); Confirm d v';
                        Respond n a; Respond n a'] in
  rows comp (c_state c') = splice1 j (splice1 i (rows comp (c_state c))) /\
  Send (del_sub comp i r) rq ∈ c_trace c' /\ Send (del_sub comp j r') rq' ∈ c_trace c'.
Proof.
  intros Hrq Hrq' n d c'.
  destruct (delete_sent c i r v rq Hrq) as (l & _ & Hr1 & Hp1 & Hd1 & Ht1 & Hq1). cbv zeta in *.
  change (exec_all c [User (del_click comp i r); Confirm (length (c_dialogs c)) v])
    with (exec (exec c (User (del_click comp i r))) (Confirm d v)) in *.
  set (c1 := exec (exec c (User (del_click comp i r))) (Confirm d v)) in *.
  rewrite <- Hq1 in Hrq'.
  destruct (delete_sent c1 j r' v' rq' Hrq') as (l' & _ & Hr2 & Hp2 & Hd2 & Ht2 & _). cbv zeta in *.
  change (exec_all c1 [User (del_click comp j r'); Confirm (length (c_dialogs c1)) v'])
    with (exec (exec c1 (User (del_click comp j r'))) (Confirm (length (c_dialogs c1)) v')) in *.
  rewrite Hd1 in *. fold d in Hr2, Hp2, Hd2, Ht2.
  set (c2 := exec (exec c1 (User (del_click comp j r'))) (Confirm d v')) in *.
  assert (Hc' : c' = exec (exec c2 (Respond n a)) (Respond n a')) by reflexivity. rewrite Hc'.
  destruct (delete_answered c2 i r n a) as (Hr3 & Hp3 & _ & Ht3).
  { rewrite Hp2, Hp1, <- app_assoc. subst n. by rewrite lookup_app_r, Nat.sub_diag by lia. }
  destruct (delete_answered (exec c2 (Respond n a)) j r' n a') as (Hr4 & _ & _ & Ht4).
  { rewrite Hp3, Hp2, Hp1, <- app_assoc. subst n. simpl. rewrite splice1_middle.
    by rewrite lookup_app_r, Nat.sub_diag by lia. }
  split_and_all.
  - by rewrite Hr4, Hr3, Hr2, Hr1.
  - rewrite Ht4, Ht3, Ht2, Ht1. set_solver.
  - rewrite Ht4, Ht3, Ht2. set_solver.
Qed.
End row_deletion.
