(* ===== verification/Searches.v ===== *)
(** * Pages whose searches can be cancelled

    The lists of accounts and of collections pipe their searches through
    [takeUntil(querySubject)] and keep a flag [ongoingQuery]: a new search cancels the one
    in flight.  [SearchPage] is the contract of such a page, stated handler by handler; the
    theorem of the section holds of every instance: of all searches ever sent, only the
    last one can still be answered. *)

From S2P Require Import Prelude JsVal Runtime RowDeletion.

Section discipline.
Context {S K D : Type} (searching : K -> bool) (ongoing : S -> bool).

Abbreviation H := (M S (cmd K D)).
Implicit Types m : M S (cmd K D) unit.

(** The searches sent by some commands, and those in flight after them. *)
Definition sent (l : list (cmd K D)) : list K :=
  flat_map (fun x => match x with Send k _ => if searching k then [k] else [] | _ => [] end) l.

Definition flight (fl : list K) (x : cmd K D) : list K :=
  match x with
  | Send k _ => if searching k then fl ++ [k] else fl
  | Notify => []
  | _ => fl
  end.

(** What holds between two handlers: nothing is in flight, or the page says that a query
    is going on, and it is the last search that was sent. *)
Definition settled (b : bool) (fl : list K) (tr : list (cmd K D)) : Prop :=
  fl = [] \/ (b = true /\ exists k, fl = [k] /\ last (sent tr) = Some k).

(** A handler that keeps to this; [answer] says that it answers the search in flight. *)
Definition keeps (answer : bool) m : Prop := forall s fl tr,
  (if answer then fl = [] else settled (ongoing s) fl tr) ->
  settled (ongoing (m s).1.2) (fold_left flight (m s).2 fl) (tr ++ (m s).2).

(** Commands that send no search, and handlers that send none and leave the flag alone. *)
Definition sends_none (x : cmd K D) : bool := match x with Send k _ => negb (searching k) | _ => true end.
Definition passive {A} (m : M S (cmd K D) A) : Prop := forall s,
  ongoing (m s).1.2 = ongoing s /\ forallb sends_none (m s).2 = true.

Lemma sent_app l l' : sent (l ++ l') = sent l ++ sent l'.
Proof. apply flat_map_app. Qed.

Lemma sent_none l : forallb sends_none l = true -> sent l = [].
Proof.
  induction l as [|x l IH]; [done|]. simpl. intros [Hx Hl]%andb_true_iff. rewrite IH by done.
  destruct x; try done. simpl in Hx. by destruct (searching k).
Qed.

Lemma flight_none l fl : forallb sends_none l = true -> fold_left flight l fl = fl \/ fold_left flight l fl = [].
Proof.
  revert fl. induction l as [|x l IH]; intros fl; [by left|]. simpl. intros [Hx Hl]%andb_true_iff.
  destruct (IH (flight fl x) Hl) as [-> | ->]; [|by right].
  destruct x; simpl in *; auto. destruct (searching k); [done|by left].
Qed.

Lemma flight_nil l : forallb sends_none l = true -> fold_left flight l [] = [].
Proof. intros Hl. by destruct (flight_none l [] Hl). Qed.

(** Commands without a search settle what was settled, whatever the flag becomes when
    nothing is in flight. *)
Lemma settled_none b b' fl tr l : forallb sends_none l = true ->
  settled b fl tr -> (b' = b \/ fold_left flight l fl = []) -> settled b' (fold_left flight l fl) (tr ++ l).
Proof.
  intros Hl Hs Hb. destruct (flight_none l fl Hl) as [E|E]; rewrite E in *; [|by left].
  destruct Hs as [->|(Hb' & k & -> & Hk)]; [by left|]. destruct Hb as [->|?]; [|by left].
  right. split; [done|]. exists k. split; [done|]. by rewrite sent_app, (sent_none l), app_nil_r.
Qed.

Lemma passive_keeps m : passive m -> keeps false m.
Proof.
  intros Hm s fl tr Hs. destruct (Hm s) as [Ho Hl]. rewrite Ho. by apply settled_none with (b := ongoing s); [..|left].
Qed.

(** The answer of a search may change the flag as it likes. *)
Lemma answer_keeps m : (forall s, forallb sends_none (m s).2 = true) -> keeps true m.
Proof. intros Hm s fl tr ->. left. by apply flight_nil. Qed.

(** A search: it cancels the one in flight, if there is one, and raises the flag. *)
Lemma search_keeps m : (forall s, exists k r, searching k = true /\
    (m s).2 = (if ongoing s then [Notify] else []) ++ [Send k r] /\ ongoing (m s).1.2 = true) -> keeps false m.
Proof.
  intros Hm s fl tr Hs. destruct (Hm s) as (k & r & Hk & -> & ->).
  assert (E : fold_left flight ((if ongoing s then [Notify] else []) ++ [Send k r]) fl = [k]).
  { destruct Hs as [->|(-> & _)]; [destruct (ongoing s)|]; simpl; by rewrite Hk. }
  rewrite E. right. split; [done|]. exists k. split; [done|].
  rewrite !sent_app, app_assoc. simpl. rewrite Hk. apply last_snoc.
Qed.

(** A search whose request cannot be built. *)
Lemma search_fails_keeps m : (forall s, (m s).2 = if ongoing s then [Notify] else []) -> keeps false m.
Proof. intros Hm s fl tr Hs. rewrite Hm. left. by destruct Hs as [->|(-> & _)]; [destruct (ongoing s)|]. Qed.

(** A handler that cancels before anything else. *)
Lemma cancel_keeps m : (forall s, exists l, (m s).2 = Notify :: l /\ forallb sends_none l = true) -> keeps false m.
Proof. intros Hm s fl tr _. destruct (Hm s) as (l & -> & Hl). left. by apply flight_nil. Qed.

Lemma keeps_then m m' : keeps false m -> keeps false m' -> keeps false (m;; m').
Proof.
  intros Hm Hm' s fl tr Hs. specialize (Hm s fl tr Hs). run_m.
  destruct (m s) as [[[[]|e] s1] l] eqn:E; [|exact Hm]. specialize (Hm' s1 _ _ Hm).
  destruct (m' s1) as [[o s2] l']. cbn [fst snd] in *. by rewrite fold_left_app, app_assoc.
Qed.

Lemma keeps_cases b m : (forall s, exists m', keeps b m' /\ m s = m' s) -> keeps b m.
Proof. intros Hm s fl tr Hs. destruct (Hm s) as (m' & Hm' & E). rewrite E. by apply Hm'. Qed.

Lemma subscriber_keeps m : keeps false m -> keeps false (subscriber m).
Proof.
  intros Hm s fl tr Hs. specialize (Hm s fl tr Hs). run_m.
  destruct (m s) as [[[a|e] s'] l]; [exact Hm|]. cbn [fst snd] in *. rewrite fold_left_app. cbn [fold_left flight].
  destruct Hm as [->|(Ho & k & E & Hk)]; [by left|right]. split; [done|]. exists k. split; [done|].
  rewrite app_assoc, sent_app. cbn. by rewrite app_nil_r.
Qed.

Lemma passive_bind {A B} (m : M S (cmd K D) A) (f : A -> M S (cmd K D) B) :
  passive m -> (forall a, passive (f a)) -> passive (m ≫= f).
Proof.
  intros Hm Hf s. destruct (Hm s) as [Ho Hl]. run_m. destruct (m s) as [[[a|e] s1] l]; [|by split].
  destruct (Hf a s1) as [Ho' Hl']. destruct (f a s1) as [[o s2] l']. cbn [fst snd] in *.
  split; [by rewrite Ho'|]. rewrite forallb_app. by rewrite Hl, Hl'.
Qed.
Lemma passive_ret {A} (a : A) : passive (ret a). Proof. done. Qed.
Lemma passive_throw {A} e : passive (throw (A := A) e). Proof. done. Qed.
Lemma passive_gets {A} (f : S -> A) : passive (gets f). Proof. done. Qed.
Lemma passive_emit x : sends_none x = true -> passive (emit x).
Proof. intros Hx s. split; [done|]. simpl. by rewrite Hx. Qed.
Lemma passive_assign {A} (f : S -> A) `{!Setter f} v :
  (forall s, ongoing (setf (f := f) (fun _ => v) s) = ongoing s) -> passive (f <~ v).
Proof. intros Hf s. split; [apply Hf|done]. Qed.
Lemma passive_force {A} what (v : opt A) : passive (force what v).
Proof. by destruct v. Qed.
Lemma passive_try {A} (m : M S (cmd K D) A) h : passive m -> (forall e, passive (h e)) -> passive (try_catch m h).
Proof.
  intros Hm Hh s. destruct (Hm s) as [Ho Hl]. run_m. destruct (m s) as [[[a|e] s1] l]; [by split|].
  destruct (Hh e s1) as [Ho' Hl']. destruct (h e s1) as [[o s2] l']. cbn [fst snd] in *.
  split; [by rewrite Ho'|]. rewrite forallb_app. by rewrite Hl, Hl'.
Qed.
Lemma passive_subscriber m : passive m -> passive (subscriber m).
Proof. intros Hm. apply passive_try; [done|]. intros e. by apply passive_emit. Qed.
End discipline.

(** Proves [passive] of the code of a handler. *)
Create HintDb passive.
#[export] Hint Resolve passive_bind passive_ret passive_throw passive_gets passive_force passive_subscriber : passive.
#[export] Hint Extern 1 (passive _ _ (emit _)) => apply passive_emit; reflexivity : passive.
#[export] Hint Extern 1 (passive _ _ (_ <~ _)) => apply passive_assign; let s := fresh in intros s; destruct s; reflexivity : passive.
#[export] Hint Extern 1 (passive _ _ (match ?v with _ => _ end)) => destruct v : passive.

(** ** The contract *)

Class SearchPage {S Ev K D} (comp : Component S Ev K D) := {
  searching : K -> bool;
  ongoing : S -> bool;
  searching_cancelled k : searching k = true -> take_until k = true;
  event_keeps e : keeps searching ongoing false (on_event e);
  next_keeps k a : keeps searching ongoing (searching k) (on_next k a);
  error_keeps k e : keeps searching ongoing (searching k) (on_error k e);
  confirm_keeps d v : keeps searching ongoing false (on_confirm d v)
}.
Arguments searching {S Ev K D} comp {_} _.
Arguments ongoing {S Ev K D} comp {_} _.

Section search_page.
Context {S Ev K D : Type} {comp : Component S Ev K D} `{!SearchPage comp}.
Implicit Types c : config S K D.

(** The searches waiting for an answer. *)
Definition in_flight c : list K := List.filter (searching comp) (c_pending c).

Definition last_only c : Prop := settled (searching comp) (ongoing comp (c_state c)) (in_flight c) (c_trace c).

Lemma in_flight_absorb l c : in_flight (fold_left absorb l c) = fold_left (flight (searching comp)) l (in_flight c).
Proof.
  revert c. induction l as [|x l IH]; intros c; [done|]. simpl. rewrite IH. f_equal.
  unfold in_flight. destruct x; try done; simpl.
  - rewrite List.filter_app. simpl. destruct (searching comp k); [done|apply app_nil_r].
  - induction (c_pending c) as [|k l' IH']; [done|]. simpl.
    destruct (searching comp k) eqn:E; [rewrite (searching_cancelled k) by done; exact IH'|].
    destruct (take_until k); simpl; [|rewrite E]; exact IH'.
Qed.

Lemma last_only_run m c b :
  keeps (searching comp) (ongoing comp) b m -> (if b then in_flight c = [] else last_only c) -> last_only (run m c).2.
Proof.
  intros Hm Hc. unfold last_only, run. specialize (Hm (c_state c) (in_flight c) (c_trace c)).
  destruct (m (c_state c)) as [[o s] l]. cbn [fst snd] in *.
  rewrite absorb_state, absorb_trace, in_flight_absorb. apply Hm. by destruct b.
Qed.

Lemma filter_app_middle (f : K -> bool) l1 k l2 :
  List.filter f (l1 ++ k :: l2) = List.filter f l1 ++ (if f k then [k] else []) ++ List.filter f l2.
Proof. rewrite List.filter_app. simpl. by destruct (f k). Qed.

(** Taking a subscription out of the pending ones leaves no search in flight when it was
    one, and the same searches when it was not. *)
Lemma last_only_answered c i k : c_pending c !! i = Some k -> last_only c ->
  if searching comp k then in_flight (drop_pending i c) = [] else last_only (drop_pending i c).
Proof.
  intros Hi Hc. pose proof (take_drop_middle _ _ _ Hi) as E.
  assert (E' : in_flight c = List.filter (searching comp) (take i (c_pending c)) ++
                 (if searching comp k then [k] else []) ++ List.filter (searching comp) (drop (Datatypes.S i) (c_pending c)))
    by (unfold in_flight; rewrite <- E at 1; apply filter_app_middle).
  assert (E2 : in_flight (drop_pending i c) = List.filter (searching comp) (take i (c_pending c)) ++
                 List.filter (searching comp) (drop (Datatypes.S i) (c_pending c)))
    by (unfold in_flight, drop_pending, splice1; simpl; apply List.filter_app).
  destruct (searching comp k).
  - rewrite E2. destruct Hc as [Hc|(_ & k' & Hc & _)]; rewrite Hc in E'; clear -E'.
    + by destruct (List.filter _ (take _ _)).
    + destruct (List.filter _ (take _ _)) as [|? [|]]; simplify_eq/=. done.
  - unfold last_only. cbn [app] in E'. rewrite E2, <- E'. exact Hc.
Qed.

Lemma last_only_exec c a : last_only c -> last_only (exec c a).
Proof.
  intros Hc. destruct a as [e|i answer|i e|i v|i]; cbn [exec].
  - by apply (last_only_run _ _ false); [apply event_keeps|].
  - destruct (c_pending c !! i) as [k|] eqn:E; [|done].
    apply (last_only_run _ _ (searching comp k)); [apply next_keeps|by apply last_only_answered].
  - destruct (c_pending c !! i) as [k|] eqn:E; [|done].
    apply (last_only_run _ _ (searching comp k)); [apply error_keeps|by apply last_only_answered].
  - destruct (c_dialogs c !! i) as [d|]; [|done].
    pose proof (last_only_run _ c false (confirm_keeps d v) Hc) as H'.
    destruct (run (on_confirm d v) c) as [[] c']; exact H'.
  - done.
Qed.

(** Whatever happens, at most one search is in flight, only while the page says that a
    query is going on, and then it is the last one sent. *)
Theorem last_search_only s0 c : reachable (start s0) c -> last_only c.
Proof. apply reachable_invariant; [by left|apply last_only_exec]. Qed.
End search_page.
