(* ===== verification/Accounts.v ===== *)
(** * [AccountListComponent] ([accounts/accounts.component.ts])

    The list of user accounts: searches with paging, of which the page keeps at most
    one in flight, and deletions. *)

From S2P Require Import Prelude Codec JsVal Runtime ConsoleTypes ConsoleService RowDeletion Searches.

(** ** What the list pages share *)

(** The [switch (state)] of [search]: -1 for the previous page, 1 for the next. *)
Definition search_cursor (state : Z) (prev next : opt string) : opt string :=
  match state with
  | (-1)%Z => prev
  | 0%Z => Val ""
  | 1%Z => next
  | _ => Val ""
  end.

(** [qp.get(k)] *)
Abbreviation query_params := (gmap string string).
Definition qp_get (k : string) (qp : query_params) : opt string := get_or_null (qp !! k).

(** [this.router.navigate([], {queryParams, queryParamsHandling: 'merge'})] *)
Definition merge_query (q : list (string * jsval)) : navigation := mkNavigation [] q true.

(** The address after a navigation that replaces the query string: the router leaves out
    [null] and [undefined] and writes the other values as strings. *)
Definition address_after (n : navigation) (qp : query_params) : Prop :=
  forall k, qp !! k = match assoc k (nav_query n) with
                      | Some JNull | Some JUndef | None => None
                      | Some v => Some (String_ v)
                      end.

Lemma address_get n qp k : address_after n qp ->
  qp_get k qp = match assoc k (nav_query n) with
                | Some JNull | Some JUndef | None => Nul
                | Some v => Val (String_ v)
                end.
Proof. intros H. unfold qp_get. rewrite (H k). by destruct (assoc k _) as [[]|]. Qed.

Record state := mkState {
  error : jsval;
  accountsCount : opt num;
  accounts : list ApiUser;
  nextCursor : opt string;
  prevCursor : opt string;
  filter : opt string;
  filter_type : num;
  ongoingQuery : bool
}.

#[export] Instance eta_state : Eta state := fun s =>
  mkState (error s) (accountsCount s) (accounts s) (nextCursor s) (prevCursor s)
    (filter s) (filter_type s) (ongoingQuery s).

Definition systemUserId : string := "00000000-0000-0000-0000-000000000000".

Definition new_state : state :=
  mkState (JStr "") (Val (int 0)) [] (Val "") (Val "") (Val "") (int 0) false.

Inductive subscription :=
| Search (cursor : opt string)
| Delete (i : nat) (o : ApiUser).

Inductive event :=
| Init (qp : query_params) (data : opt AccountList)   (* [ngOnInit], with the resolved data *)
| RouteData (data : opt AccountList)                  (* a later emission of [route.data] *)
| Destroy
| SetFilter (v : string)
| SetFilterType (n : num)
| SearchClick (state : Z)
| CancelQuery
| DeleteClick (i : nat) (o : ApiUser)
| View (u : ApiUser).

Inductive confirmation := ConfirmDelete (i : nat) (o : ApiUser).

Section accounts.
Context (config : ConfigParams).

Abbreviation H := (M state (cmd subscription confirmation)).

(** [this.f.filter_type.value && this.f.filter_type.value === 1] *)
Definition tombstones_of (t : num) : jsval :=
  if num_truthy t then JBool (num_eqb t (int 1)) else JNum t.

Definition search (state : Z) : H unit :=
  ongoing ← gets ongoingQuery;
  when ongoing (emit Notify);;
  ongoingQuery <~ true;;
  prev ← gets prevCursor;
  next ← gets nextCursor;
  let cursor := search_cursor state prev next in
  t ← gets filter_type;
  let tombstones := tombstones_of t in
  f ← gets filter;
  emit (Send (Search cursor) (listAccounts config "" f tombstones cursor)).

Definition search_next (cursor : opt string) (d : AccountList) : H unit :=
  error <~ JStr "";;
  accounts <~ [];;
  users ← force "d.users is not iterable" (AccountList_users d);
  accounts <~ users;;
  accountsCount <~ AccountList_total_count d;;
  nextCursor <~ AccountList_next_cursor d;;
  f ← gets filter;
  t ← gets filter_type;
  emit (Navigate (merge_query [("filter", of_opt f); ("filter_type", JNum t); ("cursor", of_opt cursor)]));;
  ongoingQuery <~ false.

Definition search_error (err : jsval) : H unit :=
  error <~ err;;
  ongoingQuery <~ false.

(** The subscriber of [route.data]; an [AccountList] has no [prev_cursor]. *)
Definition route_data (d : opt AccountList) : H unit :=
  accounts <~ [];;
  d ← force "Cannot read properties of undefined (reading 'users')" d;
  users ← force "d[0].users is not iterable" (AccountList_users d);
  accounts <~ users;;
  accountsCount <~ AccountList_total_count d;;
  nextCursor <~ AccountList_next_cursor d;;
  prevCursor <~ Und.

(** The three parts of [ngOnInit]: the form from the query string, the search it asks
    for, and the subscription to the resolved data. *)
Definition init_form (qp : query_params) : H unit :=
  filter <~ qp_get "filter" qp;;
  filter_type <~ Number (qp_get "filter_type" qp);;
  nextCursor <~ qp_get "cursor" qp.

Definition init_search : H unit :=
  next ← gets nextCursor;
  f ← gets filter;
  t ← gets filter_type;
  if truthy_str next then search 1
  else when (truthy_str f || num_truthy t) (search 0).

Definition ngOnInit (qp : query_params) (data : opt AccountList) : H unit :=
  init_form qp;;
  init_search;;
  subscriber (route_data data).

Definition ngOnDestroy : H unit := emit Notify;; emit Complete.

Definition cancelQuery : H unit := emit Notify;; ongoingQuery <~ false.

Definition deleteAccount_confirmed (i : nat) (o : ApiUser) : H unit :=
  emit (SetDisabled true);;
  emit PreventDefault;;
  error <~ JStr "";;
  emit (Send (Delete i o) (deleteAccount config "" (ApiUser_id o) (JBool false))).

Definition delete_next (i : nat) : H unit :=
  error <~ JStr "";;
  l ← gets accounts;
  accounts <~ splice1 i l;;
  n ← gets accountsCount;
  accountsCount <~ decr n.

Definition viewAccount (u : ApiUser) : H unit :=
  emit (Navigate (mkNavigation ["/accounts"; js_String (ApiUser_id u)] [] false)).

#[export] Instance page : Component state event subscription confirmation := {
  resp k := match k with Search _ => AccountList | Delete _ _ => jsval end;
  on_event e :=
    match e with
    | Init qp data => ngOnInit qp data
    | RouteData data => subscriber (route_data data)
    | Destroy => ngOnDestroy
    | SetFilter v => filter <~ Val v
    | SetFilterType n => filter_type <~ n
    | SearchClick state => search state
    | CancelQuery => cancelQuery
    | DeleteClick i o => emit (OpenConfirm (ConfirmDelete i o))
    | View u => viewAccount u
    end;
  on_next k :=
    match k with
    | Search cursor => search_next cursor
    | Delete i _ => fun _ => delete_next i
    end;
  on_error k err :=
    match k with
    | Search _ => search_error err
    | Delete _ _ => error <~ err
    end;
  on_confirm d _ := match d with ConfirmDelete i o => deleteAccount_confirmed i o end;
  take_until k := match k with Search _ => true | Delete _ _ => false end
}.
End accounts.

(** [deleteAllowed]: the role number of a session, which is smaller for wider rights. *)
Definition deleteAllowed (role : UserRole) : bool :=
  (UserRole_value role <=? UserRole_value USER_ROLE_DEVELOPER)%Z.

(** [AccountSearchResolver]: it reads the parameter [tombstones], where the page keeps
    its choice in [filter_type]. *)
Definition AccountSearchResolver (config : ConfigParams) (qp : query_params) : request :=
  listAccounts config "" (qp_get "filter" qp)
    (JBool (bool_decide (qp_get "tombstones" qp = Val "true"))) Nul.

#[export] Instance account_rows config : RowDeletion (page config) ApiUser.
Proof.
  refine {|
    rows := accounts;
    del_click := DeleteClick;
    del_dialog := ConfirmDelete;
    del_sub := Delete;
    del_request := fun _ o => Some (deleteAccount config "" (ApiUser_id o) (JBool false))
  |}.
  - reflexivity.
  - intros i r v s rq [= <-]. eexists _, [_; _]. split; [reflexivity|]. done.
  - intros i r a s. eexists. split; reflexivity.
  - intros i r e s. eexists. split; reflexivity.
Defined.

(** ** The searches *)

Definition is_search (k : subscription) : bool := match k with Search _ => true | Delete _ _ => false end.

Lemma accounts_search_spec cp st s :
  let cursor := search_cursor st (prevCursor s) (nextCursor s) in
  search cp st s =
    (Ret tt, setf (f := ongoingQuery) (fun _ => true) s,
     (if ongoingQuery s then [Notify] else []) ++
     [Send (Search cursor) (listAccounts cp "" (filter s) (tombstones_of (filter_type s)) cursor)]).
Proof. unfold search. run_m. destruct s as [? ? ? ? ? ? ? []]; reflexivity. Qed.

Lemma search_keeps_one cp st : keeps is_search ongoingQuery false (search cp st).
Proof.
  apply search_keeps. intros s. rewrite accounts_search_spec. eexists _, _.
  split; [|split; [reflexivity|by destruct s]]. reflexivity.
Qed.

Lemma passive_route_data d : passive is_search ongoingQuery (subscriber (route_data d)).
Proof. unfold route_data. eauto 20 with passive. Qed.

Lemma init_keeps_one cp qp d : keeps is_search ongoingQuery false (ngOnInit cp qp d).
Proof.
  unfold ngOnInit. apply keeps_then; [apply passive_keeps; unfold init_form; eauto with passive|].
  apply keeps_then; [|apply passive_keeps, passive_route_data].
  apply keeps_cases. intros s. unfold init_search. run_m.
  destruct (truthy_str (nextCursor s)); [|destruct (truthy_str (filter s) || num_truthy (filter_type s))].
  - exists (search cp 1). split; [apply search_keeps_one|]. by destruct (search cp 1 s) as [[o s'] l].
  - exists (search cp 0). split; [apply search_keeps_one|]. by destruct (search cp 0 s) as [[o s'] l].
  - exists (ret tt). split; [apply passive_keeps, passive_ret|done].
Qed.

#[export] Instance accounts_searches cp : SearchPage (page cp).
Proof.
  refine {| searching := is_search : _ -> bool; ongoing := ongoingQuery |}.
  - by intros [].
  - intros []; cbn [on_event page];
      try (apply passive_keeps; solve [eauto with passive]).
    + apply init_keeps_one.
    + apply passive_keeps, passive_route_data.
    + apply search_keeps_one.
    + apply cancel_keeps. by eexists.
    + apply passive_keeps. unfold viewAccount. eauto with passive.
  - intros [cur|i o] a; cbn [on_next page is_search]; [|apply passive_keeps; unfold delete_next; eauto with passive].
    apply answer_keeps. intros s. unfold search_next. run_m. by destruct (AccountList_users a).
  - intros [cur|i o] e; cbn [on_error page is_search]; [by apply answer_keeps|apply passive_keeps; eauto with passive].
  - intros [i o] v. apply passive_keeps. cbn [on_confirm page]. unfold deleteAccount_confirmed. eauto with passive.
Defined.

(** ** The properties *)

(** C12: the page never has two searches in flight: whatever the user and the server do,
    in any order, at most one search is waiting for its answer, only while the page shows
    that a query is going on, and it is the last one that was sent; so the list on the
    screen is never replaced by the answer to a search that the user has replaced or
    cancelled. *)
Theorem single_search_in_flight cp c (H : reachable (comp := page cp) (start new_state) c) :
  List.filter is_search (c_pending c) = [] \/
  (ongoingQuery (c_state c) = true /\ exists cursor,
     List.filter is_search (c_pending c) = [Search cursor] /\
     last (sent is_search (c_trace c)) = Some (Search cursor)).
Proof.
  destruct (last_search_only (comp := page cp) _ _ H) as [E|(Ho & k & E & Hk)]; [by left|right].
  split; [exact Ho|]. assert (Hs : is_search k = true).
  { apply (proj1 (List.filter_In is_search k (c_pending c))). change (List.In k (in_flight (comp := page cp) c)). rewrite E. by left. }
  destruct k as [cursor|]; [by exists cursor|done].
Qed.

Definition ann : ApiUser :=
  mkApiUser Und Und Und Und Und Und Und Und Und (Val "id-ann") Und Und Und Und Und Und Und Und (Val "ann").

Lemma single_search_in_flight_witness :
  let c := exec_all (comp := page (new_ConsoleService Und)) (start new_state) [User (SearchClick 0); User (SearchClick 0)] in
  (List.filter is_search (c_pending c) = [] \/
   (ongoingQuery (c_state c) = true /\ exists cursor,
      List.filter is_search (c_pending c) = [Search cursor] /\
      last (sent is_search (c_trace c)) = Some (Search cursor))) /\
  length (c_pending c) = 1.
Proof.
  intros c. split; [|reflexivity].
  apply (single_search_in_flight (new_ConsoleService Und)). apply reachable_exec_all.
Defined.

Lemma accounts_search_next_ok cursor d s users : AccountList_users d = Val users ->
  search_next cursor d s =
    (Ret tt, mkState (JStr "") (AccountList_total_count d) users (AccountList_next_cursor d) (prevCursor s)
               (filter s) (filter_type s) false,
     [Navigate (merge_query [("filter", of_opt (filter s)); ("filter_type", JNum (filter_type s));
                             ("cursor", of_opt cursor)])]).
Proof. destruct d as [cur total us], s. simpl. intros ->. reflexivity. Qed.

(** An answer of the server, for searches [d]. *)
Definition answer cp (d : AccountList) : forall k, resp (Component := page cp) k :=
  fun k => match k with Search _ => d | Delete _ _ => JUndef end.
Definition empty_answer : AccountList := mkAccountList Und Und Und.

(** A search and its answer: the request carries the filter, the tombstones option
    and the cursor that the button stands for; the answer replaces the list, the count and
    the cursor of the next page, takes the query string along, and ends the query. *)
Theorem search_shows_answer cp s st d users
    (Hd : AccountList_users d = Val users) (Hfree : ongoingQuery s = false) :
  let cursor := search_cursor st (prevCursor s) (nextCursor s) in
  let c := exec_all (comp := page cp) (start s)
             [User (SearchClick st); Respond (comp := page cp) 0 (answer cp d)] in
  c_state c = mkState (JStr "") (AccountList_total_count d) users (AccountList_next_cursor d) (prevCursor s)
                (filter s) (filter_type s) false /\
  c_trace c = [Send (Search cursor) (listAccounts cp "" (filter s) (tombstones_of (filter_type s)) cursor);
               Navigate (merge_query [("filter", of_opt (filter s)); ("filter_type", JNum (filter_type s));
                                      ("cursor", of_opt cursor)])].
Proof.
  intros cursor c. subst c. user_step by accounts_search_spec. rewrite Hfree. simpl_config.
  respond_step by accounts_search_next_ok. by destruct s.
Qed.

Lemma search_shows_answer_witness :
  let s := new_state in
  let c := exec_all (comp := page (new_ConsoleService Und)) (start s)
             [User (SearchClick 0); Respond (comp := page (new_ConsoleService Und)) 0
                (answer (new_ConsoleService Und) (mkAccountList (Val "n") (Val (int 1)) (Val [ann])))] in
  c_state c = mkState (JStr "") (Val (int 1)) [ann] (Val "n") (Val "") (Val "") (int 0) false /\
  c_trace c = [Send (Search (Val "")) (listAccounts (new_ConsoleService Und) "" (Val "") (JNum (int 0)) (Val ""));
               Navigate (merge_query [("filter", JStr ""); ("filter_type", JNum (int 0)); ("cursor", JStr "")])].
Proof.
  exact (search_shows_answer (new_ConsoleService Und) new_state 0 (mkAccountList (Val "n") (Val (int 1)) (Val [ann]))
           [ann] eq_refl eq_refl).
Defined.

#[export] Instance ApiUser_eq_dec : EqDecision ApiUser.
Proof. solve_decision. Defined.

(** Deleting an account: from the click to the answer the page asks the user, sends one
    request for that account (whose deletion is not recorded) and removes its row and no
    other; the other pending requests and dialogs are as before. *)
Theorem delete_account_row cp c i o v a
    (Hi : accounts (c_state c) !! i = Some o) (Hnd : NoDup (accounts (c_state c))) :
  exists l, let c' := exec_all (comp := page cp) c
      [User (DeleteClick i o); Confirm (length (c_dialogs c)) v; Respond (comp := page cp) (length (c_pending c)) a] in
    accounts (c_state c') = base.filter (fun u => u <> o) (accounts (c_state c)) /\
    c_pending c' = c_pending c /\ c_dialogs c' = c_dialogs c /\ forallb quiet l = true /\
    c_trace c' = c_trace c ++ OpenConfirm (ConfirmDelete i o) ::
      l ++ [Send (Delete i o) (deleteAccount cp "" (ApiUser_id o) (JBool false))].
Proof.
  destruct (delete_row_gen (RowDeletion0 := account_rows cp) c i o v a _ eq_refl) as (l & Hl & Hr & Hp & Hd & Ht).
  exists l. cbv zeta. split_and_all; try assumption.
  refine (eq_trans Hr _). by apply splice1_filter.
Qed.

Definition bob : ApiUser :=
  mkApiUser Und Und Und Und Und Und Und Und Und (Val "id-bob") Und Und Und Und Und Und Und Und (Val "bob").
Definition carl : ApiUser :=
  mkApiUser Und Und Und Und Und Und Und Und Und (Val "id-carl") Und Und Und Und Und Und Und Und (Val "carl").
Definition three_accounts : state :=
  mkState (JStr "") (Val (int 3)) [ann; bob; carl] (Val "") (Val "") (Val "") (int 0) false.

Lemma delete_account_row_witness :
  exists l, let c' := exec_all (comp := page (new_ConsoleService Und)) (start three_accounts)
      [User (DeleteClick 1 bob); Confirm 0 JUndef; Respond (comp := page (new_ConsoleService Und)) 0
         (answer (new_ConsoleService Und) empty_answer)] in
    accounts (c_state c') = base.filter (fun u => u <> bob) [ann; bob; carl] /\
    c_pending c' = [] /\ c_dialogs c' = [] /\ forallb quiet l = true /\
    c_trace c' = OpenConfirm (ConfirmDelete 1 bob) ::
      l ++ [Send (Delete 1 bob) (deleteAccount (new_ConsoleService Und) "" (Val "id-bob") (JBool false))].
Proof.
  refine (delete_account_row (new_ConsoleService Und) (start three_accounts) 1 bob JUndef _ eq_refl _).
  apply (bool_decide_unpack _). vm_compute. exact I.
Defined.

(** Positions are remembered, rows are not: when two deletions are confirmed before the
    first is answered, the page sends both requests, but the answer to the second removes
    the row that has moved into its position. Of the accounts [x, y, z, ...] the first two
    are deleted on the server, and the page shows [y, ...]: a deleted account stays on the
    screen and one that exists is gone from it. *)
Theorem concurrent_deletes_remove_wrong_row cp c x y z l v v' a a'
    (Hl : accounts (c_state c) = x :: y :: z :: l) :
  let c' := exec_all (comp := page cp) c
      [User (DeleteClick 0 x); Confirm (length (c_dialogs c)) v;
       User (DeleteClick 1 y); Confirm (length (c_dialogs c)) v';
       Respond (comp := page cp) (length (c_pending c)) a; Respond (comp := page cp) (length (c_pending c)) a'] in
  Send (Delete 0 x) (deleteAccount cp "" (ApiUser_id x) (JBool false)) ∈ c_trace c' /\
  Send (Delete 1 y) (deleteAccount cp "" (ApiUser_id y) (JBool false)) ∈ c_trace c' /\
  accounts (c_state c') = y :: l.
Proof.
  destruct (delete_two_gen (RowDeletion0 := account_rows cp) c 0 1 x y v v' a a' _ _ eq_refl eq_refl) as (Hr & H1 & H2).
  cbv zeta. split_and_all; [exact H1|exact H2|]. refine (eq_trans Hr _). cbn [rows account_rows]. by rewrite Hl.
Qed.

Lemma concurrent_deletes_witness :
  let c' := exec_all (comp := page (new_ConsoleService Und)) (start three_accounts)
      [User (DeleteClick 0 ann); Confirm 0 JUndef; User (DeleteClick 1 bob); Confirm 0 JUndef;
       Respond (comp := page (new_ConsoleService Und)) 0 (answer (new_ConsoleService Und) empty_answer);
        Respond (comp := page (new_ConsoleService Und)) 0 (answer (new_ConsoleService Und) empty_answer)] in
  Send (Delete 0 ann) (deleteAccount (new_ConsoleService Und) "" (Val "id-ann") (JBool false)) ∈ c_trace c' /\
  Send (Delete 1 bob) (deleteAccount (new_ConsoleService Und) "" (Val "id-bob") (JBool false)) ∈ c_trace c' /\
  accounts (c_state c') = [bob].
Proof.
  exact (concurrent_deletes_remove_wrong_row (new_ConsoleService Und) (start three_accounts) ann bob carl []
           JUndef JUndef _ _ eq_refl).
Defined.


Lemma listAccounts_tombstones cp t f tomb cursor :
  param_values "tombstones" (req_params (listAccounts cp t f tomb cursor)) =
  if jtruthy tomb || is_false tomb then [String_ tomb] else [].
Proof.
  unfold listAccounts, httpGet. cbn [req_params].
  destruct (truthy_str f), (jtruthy tomb || is_false tomb), (truthy_str cursor); reflexivity.
Qed.

(** A search for deleted accounts does not survive a reload: the page keeps its choice
    in the parameter [filter_type] and searches with [tombstones] set, while the resolver
    that loads the first list looks for a parameter [tombstones], which the page never
    writes, and asks for the live accounts. *)
Theorem resolver_ignores_filter_type cp qp s st
    (Hq : qp !! "tombstones" = None) (Ht : filter_type s = int 1) :
  param_values "tombstones" (req_params (AccountSearchResolver cp qp)) = ["false"] /\
  (exists k rq l, search cp st s = (Ret tt, setf (f := ongoingQuery) (fun _ => true) s, l ++ [Send k rq]) /\
     param_values "tombstones" (req_params rq) = ["true"]).
Proof.
  split.
  - unfold AccountSearchResolver, qp_get. rewrite listAccounts_tombstones. by rewrite Hq.
  - eexists _, _, _. split; [apply accounts_search_spec|]. rewrite listAccounts_tombstones. by rewrite Ht.
Qed.

Definition tombstone_search : state := setf (f := filter_type) (fun _ => int 1) new_state.

Lemma resolver_ignores_filter_type_witness :
  param_values "tombstones" (req_params (AccountSearchResolver (new_ConsoleService Und) {["filter_type" := "1"]})) = ["false"] /\
  (exists k rq l, search (new_ConsoleService Und) 0 tombstone_search =
       (Ret tt, setf (f := ongoingQuery) (fun _ => true) tombstone_search, l ++ [Send k rq]) /\
     param_values "tombstones" (req_params rq) = ["true"]).
Proof.
  exact (resolver_ignores_filter_type (new_ConsoleService Und) {["filter_type" := "1"]} tombstone_search 0 eq_refl eq_refl).
Defined.
