(* ===== verification/Lists.v ===== *)
(** * The other list pages: storage, groups, leaderboards and their records, users

    One module per page of [storage/], [groups/], [leaderboards/], [leaderboard/] and
    [users/].  None of them cancels a search: answers are shown in the order in which
    they arrive. *)

From S2P Require Import Prelude Codec JsVal Runtime ConsoleTypes ConsoleService RowDeletion Accounts.

(** The permission checks of the pages: role numbers grow as rights shrink. *)
Definition at_most (max role : UserRole) : bool := (UserRole_value role <=? UserRole_value max)%Z.

(** ** [StorageListComponent] *)
Module Storage.

Record state := mkState {
  error : jsval;
  collections : list (opt string);
  objects : list StorageListObject;
  objectCount : opt num;
  nextCursor : opt string;
  prevCursor : opt string;
  collection : opt string;
  key : opt string;
  user_id : opt string
}.

#[export] Instance eta_state : Eta state := fun s =>
  mkState (error s) (collections s) (objects s) (objectCount s) (nextCursor s) (prevCursor s)
    (collection s) (key s) (user_id s).

Definition new_state : state :=
  mkState (JStr "") [] [] (Val (int 0)) (Val "") (Val "") (Val "") (Val "") (Val "").

Inductive subscription := Search (cursor : opt string) | Delete (i : nat) (o : StorageListObject).
Inductive confirmation := ConfirmDelete (i : nat) (o : StorageListObject).
Inductive event :=
| Init (qp : query_params) (d : StorageCollectionsList * StorageList)
| RouteData (d : StorageCollectionsList * StorageList)
| SetForm (c k u : string)
| ResetCollection                       (* [f.collection.reset()], in the list of collections *)
| SearchClick (state : Z)
| DeleteClick (i : nat) (o : StorageListObject)
| View (o : StorageListObject).

Section storage.
Context (cp : ConfigParams).

Abbreviation H := (M state (cmd subscription confirmation)).

Definition search (state : Z) : H unit :=
  prev ← gets prevCursor;
  next ← gets nextCursor;
  let cursor := search_cursor state prev next in
  u ← gets user_id; k ← gets key; c ← gets collection;
  emit (Send (Search cursor) (listStorage cp "" u k c cursor)).

Definition search_next (cursor : opt string) (d : StorageList) : H unit :=
  error <~ JStr "";;
  objectCount <~ StorageList_total_count d;;
  nextCursor <~ StorageList_next_cursor d;;
  objects <~ [];;
  l ← force "d.objects is not iterable" (StorageList_objects d);
  objects <~ l;;
  c ← gets collection; k ← gets key; u ← gets user_id;
  emit (Navigate (merge_query [("collection", of_opt c); ("key", of_opt k); ("user_id", of_opt u);
                               ("cursor", of_opt cursor)])).

Definition route_data (d : StorageCollectionsList * StorageList) : H unit :=
  collections <~ [];;
  l ← force "d[0].collections is not iterable" (StorageCollectionsList_collections d.1);
  collections <~ l;;
  objectCount <~ StorageList_total_count d.2;;
  nextCursor <~ StorageList_next_cursor d.2;;
  prevCursor <~ Und;;
  objects <~ [];;
  l ← force "d[1].objects is not iterable" (StorageList_objects d.2);
  objects <~ l.

Definition ngOnInit (qp : query_params) (d : StorageCollectionsList * StorageList) : H unit :=
  collection <~ qp_get "collection" qp;;
  key <~ qp_get "key" qp;;
  user_id <~ qp_get "user_id" qp;;
  nextCursor <~ qp_get "cursor" qp;;
  next ← gets nextCursor; c ← gets collection; u ← gets user_id;
  (if truthy_str next then search 1
   else when (truthy_str c || truthy_str u) (search 0));;
  subscriber (route_data d).

(** A key without a collection cannot be searched for. *)
Definition disableSearch (s : state) : bool :=
  if truthy_str (key s) then negb (truthy_str (collection s)) else false.

Definition deleteObject_confirmed (i : nat) (o : StorageListObject) : H unit :=
  emit (SetDisabled true);;
  emit PreventDefault;;
  error <~ JStr "";;
  emit (Send (Delete i o) (deleteStorageObject cp "" (StorageListObject_collection o)
    (StorageListObject_key o) (StorageListObject_user_id o) (StorageListObject_version o))).

Definition delete_next (i : nat) : H unit :=
  error <~ JStr "";;
  n ← gets objectCount;
  objectCount <~ decr n;;
  l ← gets objects;
  objects <~ splice1 i l.

Definition viewObject (o : StorageListObject) : H unit :=
  emit (Navigate (mkNavigation ["/storage"; js_String (StorageListObject_collection o);
    js_String (StorageListObject_key o); js_String (StorageListObject_user_id o)] [] false)).

#[export] Instance page : Component state event subscription confirmation := {
  resp k := match k with Search _ => StorageList | Delete _ _ => jsval end;
  on_event e :=
    match e with
    | Init qp d => ngOnInit qp d
    | RouteData d => subscriber (route_data d)
    | SetForm c k u => collection <~ Val c;; key <~ Val k;; user_id <~ Val u
    | ResetCollection => collection <~ Nul
    | SearchClick st => search st
    | DeleteClick i o => emit (OpenConfirm (ConfirmDelete i o))
    | View o => viewObject o
    end;
  on_next k :=
    match k with
    | Search cursor => search_next cursor
    | Delete i _ => fun _ => delete_next i
    end;
  on_error k err := error <~ err;
  on_confirm d _ := match d with ConfirmDelete i o => deleteObject_confirmed i o end;
  take_until _ := false
}.
End storage.

(** The comment above the check says "only admin and developers". *)
Definition deleteAllowed : UserRole -> bool := at_most USER_ROLE_MAINTAINER.

Definition StorageCollectionResolver (cp : ConfigParams) : request := listStorageCollections cp "".
Definition StorageSearchResolver (cp : ConfigParams) (qp : query_params) : request :=
  listStorage cp "" (qp_get "user_id" qp) (qp_get "key" qp) (qp_get "collection" qp) Nul.

#[export] Instance storage_rows cp : RowDeletion (page cp) StorageListObject.
Proof.
  refine {|
    rows := objects;
    del_click := DeleteClick;
    del_dialog := ConfirmDelete;
    del_sub := Delete;
    del_request := fun _ o => Some (deleteStorageObject cp "" (StorageListObject_collection o)
      (StorageListObject_key o) (StorageListObject_user_id o) (StorageListObject_version o))
  |}.
  - reflexivity.
  - intros i r v s rq [= <-]. eexists _, [_; _]. split; [reflexivity|]. done.
  - intros i r a s. eexists. split; reflexivity.
  - intros i r e s. eexists. split; reflexivity.
Defined.

Lemma storage_search_next_ok cursor d s l : StorageList_objects d = Val l ->
  search_next cursor d s =
    (Ret tt, mkState (JStr "") (collections s) l (StorageList_total_count d) (StorageList_next_cursor d)
               (prevCursor s) (collection s) (key s) (user_id s),
     [Navigate (merge_query [("collection", of_opt (collection s)); ("key", of_opt (key s));
                             ("user_id", of_opt (user_id s)); ("cursor", of_opt cursor)])]).
Proof. destruct d as [cur objs total], s. simpl. intros ->. reflexivity. Qed.

Definition answer cp (d : StorageList) : forall k, resp (Component := page cp) k :=
  fun k => match k with Search _ => d | Delete _ _ => JUndef end.

(** Searches of the storage page are not cancelled, so an old answer can replace a new
    one: when the user searches twice and the answers come in the opposite order, the page
    ends up with the objects, the count and the next page of the first search, next to the
    form of the second, and takes the form of the second into the address. *)
Theorem stale_answer_wins cp s c1 k1 u1 c2 k2 u2 d1 d2 l1 l2
    (H1 : StorageList_objects d1 = Val l1) (H2 : StorageList_objects d2 = Val l2) :
  let c := exec_all (comp := page cp) (start s)
    [User (SetForm c1 k1 u1); User (SearchClick 0); User (SetForm c2 k2 u2); User (SearchClick 0);
     Respond (comp := page cp) 1 (answer cp d2); Respond (comp := page cp) 0 (answer cp d1)] in
  objects (c_state c) = l1 /\ objectCount (c_state c) = StorageList_total_count d1 /\
  nextCursor (c_state c) = StorageList_next_cursor d1 /\
  collection (c_state c) = Val c2 /\ key (c_state c) = Val k2 /\ user_id (c_state c) = Val u2 /\
  c_pending c = [] /\
  last (c_trace c) = Some (Navigate (merge_query [("collection", JStr c2); ("key", JStr k2);
                                                  ("user_id", JStr u2); ("cursor", JStr "")])).
Proof.
  destruct s. intros c. subst c. user_step. user_step. user_step. user_step.
  respond_step by storage_search_next_ok. respond_step by storage_search_next_ok. cbn. split_and_all; reflexivity.
Qed.

Definition one_object (k : string) : StorageListObject :=
  mkStorageListObject (Val "c") Und (Val k) Und Und Und (Val "u") (Val "v1").
Definition one_page (k n : string) : StorageList := mkStorageList (Val n) (Val [one_object k]) (Val (int 1)).

Lemma stale_answer_wins_witness :
  let cp := new_ConsoleService Und in
  let c := exec_all (comp := page cp) (start new_state)
    [User (SetForm "saves" "" ""); User (SearchClick 0); User (SetForm "stats" "" ""); User (SearchClick 0);
     Respond (comp := page cp) 1 (answer cp (one_page "new" "n2"));
     Respond (comp := page cp) 0 (answer cp (one_page "old" "n1"))] in
  objects (c_state c) = [one_object "old"] /\ objectCount (c_state c) = Val (int 1) /\
  nextCursor (c_state c) = Val "n1" /\
  collection (c_state c) = Val "stats" /\ key (c_state c) = Val "" /\ user_id (c_state c) = Val "" /\
  c_pending c = [] /\
  last (c_trace c) = Some (Navigate (merge_query [("collection", JStr "stats"); ("key", JStr "");
                                                  ("user_id", JStr ""); ("cursor", JStr "")])).
Proof.
  exact (stale_answer_wins (new_ConsoleService Und) new_state "saves" "" "" "stats" "" ""
           (one_page "old" "n1") (one_page "new" "n2") _ _ eq_refl eq_refl).
Defined.
End Storage.

(** ** [GroupListComponent] *)
Module GroupsList.

Record state := mkState {
  error : jsval;
  groupsCount : opt num;
  groups : list ApiGroup;
  nextCursor : opt string;
  prevCursor : opt string;
  filter : opt string
}.

#[export] Instance eta_state : Eta state := fun s =>
  mkState (error s) (groupsCount s) (groups s) (nextCursor s) (prevCursor s) (filter s).

Definition new_state : state := mkState (JStr "") (Val (int 0)) [] (Val "") (Val "") (Val "").

Inductive subscription := Search (cursor : opt string) | Delete (i : nat) (o : ApiGroup).
Inductive confirmation := ConfirmDelete (i : nat) (o : ApiGroup).
Inductive event :=
| Init (qp : query_params) (d : opt GroupList)
| RouteData (d : opt GroupList)
| SetFilter (v : string)
| SearchClick (state : Z)
| DeleteClick (i : nat) (o : ApiGroup)
| View (g : ApiGroup).

Section groups.
Context (cp : ConfigParams).

Abbreviation H := (M state (cmd subscription confirmation)).

Definition search (state : Z) : H unit :=
  prev ← gets prevCursor;
  next ← gets nextCursor;
  let cursor := search_cursor state prev next in
  f ← gets filter;
  emit (Send (Search cursor) (listGroups cp "" f cursor)).

Definition search_next (cursor : opt string) (d : GroupList) : H unit :=
  error <~ JStr "";;
  groups <~ [];;
  l ← force "d.groups is not iterable" (GroupList_groups d);
  groups <~ l;;
  groupsCount <~ GroupList_total_count d;;
  nextCursor <~ GroupList_next_cursor d;;
  f ← gets filter;
  emit (Navigate (merge_query [("filter", of_opt f); ("cursor", of_opt cursor)])).

Definition route_data (d : opt GroupList) : H unit :=
  groups <~ [];;
  d ← force "Cannot read properties of undefined (reading 'groups')" d;
  l ← force "d[0].groups is not iterable" (GroupList_groups d);
  groups <~ l;;
  groupsCount <~ GroupList_total_count d;;
  nextCursor <~ GroupList_next_cursor d;;
  prevCursor <~ Und.

Definition ngOnInit (qp : query_params) (d : opt GroupList) : H unit :=
  filter <~ qp_get "filter" qp;;
  nextCursor <~ qp_get "cursor" qp;;
  next ← gets nextCursor;
  f ← gets filter;
  (if truthy_str next then search 1 else when (truthy_str f) (search 0));;
  subscriber (route_data d).

Definition deleteGroup_confirmed (i : nat) (o : ApiGroup) : H unit :=
  emit (SetDisabled true);;
  emit PreventDefault;;
  error <~ JStr "";;
  emit (Send (Delete i o) (deleteGroup cp "" (ApiGroup_id o))).

Definition delete_next (i : nat) : H unit :=
  error <~ JStr "";;
  l ← gets groups;
  groups <~ splice1 i l;;
  n ← gets groupsCount;
  groupsCount <~ decr n.

Definition viewGroup (g : ApiGroup) : H unit :=
  emit (Navigate (mkNavigation ["/groups"; js_String (ApiGroup_id g)] [] false)).

#[export] Instance page : Component state event subscription confirmation := {
  resp k := match k with Search _ => GroupList | Delete _ _ => jsval end;
  on_event e :=
    match e with
    | Init qp d => ngOnInit qp d
    | RouteData d => subscriber (route_data d)
    | SetFilter v => filter <~ Val v
    | SearchClick st => search st
    | DeleteClick i o => emit (OpenConfirm (ConfirmDelete i o))
    | View g => viewGroup g
    end;
  on_next k :=
    match k with Search cursor => search_next cursor | Delete i _ => fun _ => delete_next i end;
  on_error k err := error <~ err;
  on_confirm d _ := match d with ConfirmDelete i o => deleteGroup_confirmed i o end;
  take_until _ := false
}.
End groups.

Definition deleteAllowed : UserRole -> bool := at_most USER_ROLE_DEVELOPER.
Definition GroupSearchResolver (cp : ConfigParams) (qp : query_params) : request :=
  listGroups cp "" (qp_get "filter" qp) Nul.

#[export] Instance group_rows cp : RowDeletion (page cp) ApiGroup.
Proof.
  refine {| rows := groups; del_click := DeleteClick; del_dialog := ConfirmDelete; del_sub := Delete;
            del_request := fun _ o => Some (deleteGroup cp "" (ApiGroup_id o)) |}.
  - reflexivity.
  - intros i r v s rq [= <-]. eexists _, [_; _]. split; [reflexivity|]. done.
  - intros i r a s. eexists. split; reflexivity.
  - intros i r e s. eexists. split; reflexivity.
Defined.

Lemma route_data_ok d s l : GroupList_groups d = Val l ->
  subscriber (route_data (Val d)) s =
    (Ret tt, mkState (error s) (GroupList_total_count d) l (GroupList_next_cursor d) Und (filter s), []).
Proof. destruct d as [gs cur total], s. simpl. intros ->. reflexivity. Qed.

Lemma ngOnInit_spec cp qp d s l : GroupList_groups d = Val l ->
  ngOnInit cp qp (Val d) s =
    (Ret tt, mkState (error s) (GroupList_total_count d) l (GroupList_next_cursor d) Und (qp_get "filter" qp),
     if truthy_str (qp_get "cursor" qp)
     then [Send (Search (qp_get "cursor" qp)) (listGroups cp "" (qp_get "filter" qp) (qp_get "cursor" qp))]
     else if truthy_str (qp_get "filter" qp)
     then [Send (Search (Val "")) (listGroups cp "" (qp_get "filter" qp) (Val ""))] else []).
Proof.
  intros Hl. destruct d as [gs cur total], s. simpl in Hl. subst gs.
  unfold ngOnInit. run_m. cbn -[qp_get truthy].
  destruct (truthy_str (qp_get "cursor" qp)); [reflexivity|]. by destruct (truthy_str (qp_get "filter" qp)).
Qed.

(** Opening the page of groups with a cursor in its address: the resolved first page is
    shown at once, its cursor replaces the one of the address, and the request that is sent
    all the same carries the cursor of the address and the filter; its answer is what the
    page shows in the end. *)
Theorem opening_with_cursor cp qp d l d' l' cur
    (Hcur : qp !! "cursor" = Some cur) (Hne : cur <> "")
    (Hd : GroupList_groups d = Val l) (Hd' : GroupList_groups d' = Val l') :
  let c := exec_all (comp := page cp) (start new_state) [User (Init qp (Val d))] in
  let c' := exec (comp := page cp) c (Respond (comp := page cp) 0 (fun k =>
              match k return resp (Component := page cp) k with Search _ => d' | Delete _ _ => JUndef end)) in
  groups (c_state c) = l /\ nextCursor (c_state c) = GroupList_next_cursor d /\
  c_trace c = [Send (Search (Val cur)) (listGroups cp "" (qp_get "filter" qp) (Val cur))] /\
  groups (c_state c') = l' /\ nextCursor (c_state c') = GroupList_next_cursor d' /\ c_pending c' = [].
Proof.
  assert (Hn : qp_get "cursor" qp = Val cur) by (unfold qp_get; by rewrite Hcur).
  assert (Ht : truthy_str (Val cur) = true)
    by (simpl; unfold truthy_string; by rewrite (proj2 (String.eqb_neq cur ""))).
  cbv zeta. user_step by (ngOnInit_spec cp qp d new_state l Hd).
  rewrite Hn, Ht. destruct d' as [gs' cur' total']. simpl in Hd'. subst gs'.
  cbn -[qp_get listGroups]. split_and_all; reflexivity.
Qed.
End GroupsList.

(** ** [LeaderboardsComponent] *)
Module Leaderboards.

Record state := mkState {
  error : jsval;
  leaderboards : list Leaderboard;
  nextCursor : opt string;
  leaderboardsCount : opt num
}.

#[export] Instance eta_state : Eta state := fun s =>
  mkState (error s) (leaderboards s) (nextCursor s) (leaderboardsCount s).

Definition new_state : state := mkState (JStr "") [] (Val "") (Val (int 0)).

Inductive subscription := Search (cursor : opt string) | Delete (i : nat) (l : Leaderboard).
Inductive confirmation := ConfirmDelete (i : nat) (l : Leaderboard).
Inductive event :=
| Init (qp : query_params)
| SearchClick (state : Z)
| DeleteClick (i : nat) (l : Leaderboard)
| View (l : Leaderboard).

Section leaderboards.
Context (cp : ConfigParams).

Abbreviation H := (M state (cmd subscription confirmation)).

(** The [switch] has no case for the previous page. *)
Definition search (state : Z) : H unit :=
  next ← gets nextCursor;
  let cursor := match state with 0%Z => Val "" | 1%Z => next | _ => Val "" end in
  emit (Send (Search cursor) (listLeaderboards cp "" cursor)).

Definition search_next (cursor : opt string) (d : LeaderboardList) : H unit :=
  error <~ JStr "";;
  leaderboards <~ [];;
  l ← force "d.leaderboards is not iterable" (LeaderboardList_leaderboards d);
  leaderboards <~ l;;
  leaderboardsCount <~ LeaderboardList_total d;;
  nextCursor <~ LeaderboardList_cursor d;;
  emit (Navigate (merge_query [("cursor", of_opt cursor)])).

Definition ngOnInit (qp : query_params) : H unit :=
  nextCursor <~ qp_get "cursor" qp;;
  next ← gets nextCursor;
  if truthy_str next then search 1 else search 0.

Definition deleteLeaderboard_confirmed (i : nat) (l : Leaderboard) : H unit :=
  emit (SetDisabled true);;
  emit PreventDefault;;
  error <~ JStr "";;
  emit (Send (Delete i l) (deleteLeaderboard cp "" (Leaderboard_id l))).

Definition delete_next (i : nat) : H unit :=
  error <~ JStr "";;
  l ← gets leaderboards;
  leaderboards <~ splice1 i l;;
  n ← gets leaderboardsCount;
  leaderboardsCount <~ decr n.

Definition viewLeaderboardEntries (l : Leaderboard) : H unit :=
  emit (Navigate (mkNavigation ["/leaderboards"; js_String (Leaderboard_id l)] [] false)).

#[export] Instance page : Component state event subscription confirmation := {
  resp k := match k with Search _ => LeaderboardList | Delete _ _ => jsval end;
  on_event e :=
    match e with
    | Init qp => ngOnInit qp
    | SearchClick st => search st
    | DeleteClick i l => emit (OpenConfirm (ConfirmDelete i l))
    | View l => viewLeaderboardEntries l
    end;
  on_next k :=
    match k with Search cursor => search_next cursor | Delete i _ => fun _ => delete_next i end;
  on_error k err := error <~ err;
  on_confirm d _ := match d with ConfirmDelete i l => deleteLeaderboard_confirmed i l end;
  take_until _ := false
}.
End leaderboards.

Definition deleteAllowed : UserRole -> bool := at_most USER_ROLE_DEVELOPER.
Definition LeaderboardListResolver (cp : ConfigParams) : request := listLeaderboards cp "" Und.

#[export] Instance leaderboard_rows cp : RowDeletion (page cp) Leaderboard.
Proof.
  refine {| rows := leaderboards; del_click := DeleteClick; del_dialog := ConfirmDelete; del_sub := Delete;
            del_request := fun _ l => Some (deleteLeaderboard cp "" (Leaderboard_id l)) |}.
  - reflexivity.
  - intros i r v s rq [= <-]. eexists _, [_; _]. split; [reflexivity|]. done.
  - intros i r a s. eexists. split; reflexivity.
  - intros i r e s. eexists. split; reflexivity.
Defined.
End Leaderboards.

(** ** [LeaderboardComponent] and [LeaderboardDetailsComponent] *)
Module LeaderboardPage.

Record state := mkState { error : jsval; leaderboard : opt Leaderboard }.
#[export] Instance eta_state : Eta state := fun s => mkState (error s) (leaderboard s).

Inductive subscription := Delete.
Inductive confirmation := ConfirmDelete.
Inductive event := RouteData (l : opt Leaderboard) | RouteError (err : jsval) | DeleteClick.

Section leaderboard.
Context (cp : ConfigParams).

Abbreviation H := (M state (cmd subscription confirmation)).

Definition deleteLeaderboard_confirmed : H unit :=
  emit (SetDisabled true);;
  error <~ JStr "";;
  l ← gets leaderboard;
  l ← force "Cannot read properties of undefined (reading 'id')" l;
  emit (Send Delete (deleteLeaderboard cp "" (Leaderboard_id l))).

#[export] Instance page : Component state event subscription confirmation := {
  resp _ := jsval;
  on_event e :=
    match e with
    | RouteData l => leaderboard <~ l
    | RouteError err => error <~ err
    | DeleteClick => emit (OpenConfirm ConfirmDelete)
    end;
  on_next _ _ := error <~ JStr "";; emit (Navigate (mkNavigation ["/leaderboards"] [] false));
  on_error _ err := error <~ err;
  on_confirm _ _ := deleteLeaderboard_confirmed;
  take_until _ := false
}.
End leaderboard.

Definition deleteAllowed : UserRole -> bool := at_most USER_ROLE_DEVELOPER.
Definition LeaderboardResolver (cp : ConfigParams) (id : opt string) : request := getLeaderboard cp "" id.

(** [LeaderboardDetailsComponent]: the text shown in the read-only editor once the view
    exists; [None] is the [TypeError] of a missing leaderboard. *)
Definition details_editor (l : opt Leaderboard) : option string :=
  match l with Val l => Some (nullish (Leaderboard_metadata l) "") | _ => None end.
End LeaderboardPage.

(** ** [LeaderboardRecordsComponent] *)
Module Records.

(** [recordsMetadataOpen] has holes where no row was opened yet. *)
Record state := mkState {
  error : jsval;
  leaderboard : opt Leaderboard;
  records : list ApiLeaderboardRecord;
  recordsMetadataOpen : list (opt bool);
  nextCursor : opt string;
  prevCursor : opt string
}.

#[export] Instance eta_state : Eta state := fun s =>
  mkState (error s) (leaderboard s) (records s) (recordsMetadataOpen s) (nextCursor s) (prevCursor s).

Definition new_state : state := mkState (JStr "") Und [] [] (Val "") (Val "").

Inductive subscription := Load | Delete (i : nat) (r : ApiLeaderboardRecord).
Inductive confirmation := ConfirmDelete (i : nat) (r : ApiLeaderboardRecord).
Inductive event :=
| RouteData (d : ApiLeaderboardRecordList)
| ParentData (l : opt Leaderboard)
| LoadClick (state : Z)
| ToggleRow (i : nat)                      (* a click in the template, on a row that is shown *)
| DeleteClick (i : nat) (r : ApiLeaderboardRecord).

Section records.
Context (cp : ConfigParams).

Abbreviation H := (M state (cmd subscription confirmation)).

Definition route_data (d : ApiLeaderboardRecordList) : H unit :=
  records <~ [];;
  l ← force "d[0].records is not iterable" (ApiLeaderboardRecordList_records d);
  records <~ l;;
  nextCursor <~ ApiLeaderboardRecordList_next_cursor d;;
  prevCursor <~ ApiLeaderboardRecordList_prev_cursor d;;
  flags ← gets recordsMetadataOpen;
  recordsMetadataOpen <~ set_length (length l) flags.

Definition loadRecords (state : Z) : H unit :=
  prev ← gets prevCursor;
  next ← gets nextCursor;
  let cursor := search_cursor state prev next in
  l ← gets leaderboard;
  l ← force "Cannot read properties of undefined (reading 'id')" l;
  emit (Send Load (listLeaderboardRecords cp "" (Leaderboard_id l) Nul (Val (int 100)) cursor Nul)).

Definition load_next (d : ApiLeaderboardRecordList) : H unit :=
  error <~ JStr "";;
  nextCursor <~ ApiLeaderboardRecordList_next_cursor d;;
  prevCursor <~ ApiLeaderboardRecordList_prev_cursor d;;
  records <~ [];;
  l ← force "d.records is not iterable" (ApiLeaderboardRecordList_records d);
  records <~ l;;
  recordsMetadataOpen <~ set_length 0 [];;
  recordsMetadataOpen <~ set_length (length l) [].

Definition toggleRow (i : nat) : H unit :=
  l ← gets records;
  flags ← gets recordsMetadataOpen;
  when (i <? length l)
    (recordsMetadataOpen <~ array_set i (Val (negb (truthy_bool (array_get i flags)))) flags).

Definition deleteRecord_confirmed (i : nat) (r : ApiLeaderboardRecord) : H unit :=
  emit (SetDisabled true);;
  emit PreventDefault;;
  error <~ JStr "";;
  emit (Send (Delete i r) (deleteLeaderboardRecord cp "" (ApiLeaderboardRecord_leaderboard_id r)
    (ApiLeaderboardRecord_owner_id r))).

Definition delete_next (i : nat) : H unit :=
  error <~ JStr "";;
  l ← gets records;
  records <~ splice1 i l;;
  flags ← gets recordsMetadataOpen;
  recordsMetadataOpen <~ splice1 i flags.

#[export] Instance page : Component state event subscription confirmation := {
  resp k := match k with Load => ApiLeaderboardRecordList | Delete _ _ => jsval end;
  on_event e :=
    match e with
    | RouteData d => subscriber (route_data d)
    | ParentData l => leaderboard <~ l
    | LoadClick st => loadRecords st
    | ToggleRow i => toggleRow i
    | DeleteClick i r => emit (OpenConfirm (ConfirmDelete i r))
    end;
  on_next k := match k with Load => load_next | Delete i _ => fun _ => delete_next i end;
  on_error k err := error <~ err;
  on_confirm d _ := match d with ConfirmDelete i r => deleteRecord_confirmed i r end;
  take_until _ := false
}.
End records.

Definition deleteAllowed : UserRole -> bool := at_most USER_ROLE_MAINTAINER.
Definition LeaderboardRecordsResolver (cp : ConfigParams) (id : opt string) : request :=
  listLeaderboardRecords cp "" id Nul (Val (int 100)) Nul Nul.

#[export] Instance record_rows cp : RowDeletion (page cp) ApiLeaderboardRecord.
Proof.
  refine {| rows := records; del_click := DeleteClick; del_dialog := ConfirmDelete; del_sub := Delete;
            del_request := fun _ r => Some (deleteLeaderboardRecord cp ""
              (ApiLeaderboardRecord_leaderboard_id r) (ApiLeaderboardRecord_owner_id r)) |}.
  - reflexivity.
  - intros i r v s rq [= <-]. eexists _, [_; _]. split; [reflexivity|]. done.
  - intros i r a s. eexists. split; reflexivity.
  - intros i r e s. eexists. split; reflexivity.
Defined.

(** Every record has its flag, and every flag its record. *)
Definition aligned (s : state) : Prop := length (recordsMetadataOpen s) = length (records s).

(** The server always sends the list, possibly empty. *)
Definition answers cp (a : action state event subscription confirmation (comp := page cp)) : Prop :=
  match a with
  | User (RouteData d) => exists l, ApiLeaderboardRecordList_records d = Val l
  | Respond _ f => exists l, ApiLeaderboardRecordList_records (f Load) = Val l
  | _ => True
  end.

Lemma array_set_length {A} i (v : opt A) l : i < length l -> length (array_set i v l) = length l.
Proof. intros Hi. unfold array_set. rewrite decide_True by done. apply length_insert. Qed.

Lemma splice1_length_eq {A B} i (l : list A) (l' : list B) :
  length l = length l' -> length (splice1 i l) = length (splice1 i l').
Proof. intros E. unfold splice1. rewrite !length_app, !length_take, !length_drop. lia. Qed.

Lemma aligned_step cp c a : answers cp a -> aligned (c_state c) -> aligned (c_state (exec (comp := page cp) c a)).
Proof.
  intros Ha H. destruct c as [s p d t]. unfold aligned in *.
  destruct a as [e|i f|i e|i v|i]; simpl in *.
  - rewrite run_state. destruct e as [dd| | |i|]; simpl in *; try exact H.
    + destruct Ha as [l Hl], s, dd. simpl in *. subst. cbn. apply set_length_length.
    + by destruct s as [? [| |?] ? ? ? ?].
    + destruct s as [er lb l fl n pr]. unfold toggleRow. run_m. cbn -[Nat.ltb] in *.
      destruct (i <? length l) eqn:Hi; cbn; [|done]. rewrite array_set_length by lia. done.
  - destruct (p !! i) as [[|j r]|] eqn:E; [..|exact H]; rewrite run_state; simpl.
    + destruct Ha as [l Hl], s. unfold load_next. run_m. cbn. rewrite Hl. cbn. apply set_length_length.
    + destruct s. by apply splice1_length_eq.
  - destruct (p !! i) as [[|j r]|] eqn:E; exact H.
  - destruct (d !! i) as [[j r]|]; [|exact H]. exact H.
  - exact H.
Qed.

(** C34: the page of records keeps one flag per record whatever happens, in any order: pages
    that are loaded, rows that are opened, deletions and failures; so the metadata that is
    shown unfolded is always that of an existing row. *)
Theorem flags_match_records cp l (Hl : Forall (answers cp) l) :
  aligned (c_state (exec_all (comp := page cp) (start new_state) l)).
Proof.
  assert (H0 : aligned (c_state (start (K := subscription) (D := confirmation) new_state))) by reflexivity.
  revert H0. generalize (start (K := subscription) (D := confirmation) new_state).
  induction Hl as [|a l Ha _ IH]; intros c Hc; [done|].
  rewrite exec_all_cons. apply IH. by apply aligned_step.
Qed.

Lemma flags_match_records_witness :
  let cp := new_ConsoleService Und in
  let r := mkApiLeaderboardRecord Und Und (Val "lb") Und Und Und (Val "owner") Und Und Und Und Und in
  let d := mkApiLeaderboardRecordList (Val "n") Und Und Und (Val [r; r]) in
  let c := exec_all (comp := page cp) (start new_state)
    [User (RouteData d); User (ToggleRow 1); User (DeleteClick 0 r); Confirm 0 JUndef;
     Respond (comp := page cp) 0 (fun k => match k return resp (Component := page cp) k with Load => d | Delete _ _ => JUndef end)] in
  aligned (c_state c) /\ recordsMetadataOpen (c_state c) = [Val true].
Proof.
  intros cp r d c. split; [|vm_compute; reflexivity].
  apply (flags_match_records cp). repeat constructor; by eexists.
Defined.
End Records.

(** ** [UsersComponent] *)
Module Users.

Record state := mkState {
  error : jsval;
  userCreateError : jsval;
  users : list UserListUser;
  username : opt string;
  email : opt string;
  password : opt string;
  role : opt num;
  newsletter : opt bool;
  form_disabled : bool
}.

#[export] Instance eta_state : Eta state := fun s =>
  mkState (error s) (userCreateError s) (users s) (username s) (email s) (password s) (role s)
    (newsletter s) (form_disabled s).

(** [deleteUser] and [addUser] go on with [listUsers] ([mergeMap]); [role] is the
    variable that the last callback captures. *)
Inductive subscription :=
| DeleteUser | ListAfterDelete
| AddUser (role : UserRole) | ListAfterAdd (role : UserRole).
Inductive event :=
| Init (d : UserList)
| SetForm (u e p : string) (r : Z) (n : bool)
| DeleteClick (username : opt string)
| AddClick.

Section users.
Context (cp : ConfigParams).

Abbreviation H := (M state (cmd subscription Empty_set)).

Definition show (d : UserList) : H unit :=
  users <~ [];;
  l ← force "userList.users is not iterable" (UserList_users d);
  users <~ l.

Definition ngOnInit (d : UserList) : H unit :=
  username <~ Val "";; email <~ Val "";; password <~ Val "";;
  role <~ Val (int (UserRole_value USER_ROLE_READONLY));; newsletter <~ Val false;;
  subscriber (show d).

Definition deleteUser_click (u : opt string) : H unit :=
  error <~ JStr "";;
  emit (Send DeleteUser (deleteUser cp "" u)).

(** The [switch] on the form's number. *)
Definition role_of_form (v : opt num) : UserRole :=
  let eqs z := match v with Val n => num_eqb n (int z) | _ => false end in
  if eqs 1%Z then USER_ROLE_ADMIN
  else if eqs 2%Z then USER_ROLE_DEVELOPER
  else if eqs 3%Z then USER_ROLE_MAINTAINER
  else if eqs 4%Z then USER_ROLE_READONLY
  else USER_ROLE_READONLY.

Definition addUser_click : H unit :=
  userCreateError <~ JStr "";;
  form_disabled <~ true;;
  v ← gets role;
  let r := role_of_form v in
  u ← gets username; e ← gets email; p ← gets password; n ← gets newsletter;
  let req := mkAddUserRequest e Und n p (Val r) u in
  emit (Send (AddUser r) (addUser cp "" req)).

Definition added_next (r : UserRole) (d : UserList) : H unit :=
  userCreateError <~ JStr "";;
  username <~ Nul;; email <~ Nul;; password <~ Nul;;
  role <~ Val (int (UserRole_value r));; newsletter <~ Nul;;
  form_disabled <~ false;;
  show d.

#[export] Instance page : Component state event subscription Empty_set := {
  resp k := match k with DeleteUser | AddUser _ => jsval | ListAfterDelete | ListAfterAdd _ => UserList end;
  on_event e :=
    match e with
    | Init d => ngOnInit d
    | SetForm u e p r n =>
        username <~ Val u;; email <~ Val e;; password <~ Val p;; role <~ Val (int r);; newsletter <~ Val n
    | DeleteClick u => deleteUser_click u
    | AddClick => addUser_click
    end;
  on_next k :=
    match k with
    | DeleteUser => fun _ => emit (Send ListAfterDelete (listUsers cp ""))
    | ListAfterDelete => fun d => error <~ JStr "";; show d
    | AddUser r => fun _ => emit (Send (ListAfterAdd r) (listUsers cp ""))
    | ListAfterAdd r => added_next r
    end;
  on_error k err :=
    match k with
    | DeleteUser | ListAfterDelete => error <~ err
    | AddUser _ | ListAfterAdd _ => userCreateError <~ err;; form_disabled <~ false
    end;
  on_confirm d := match d with end;
  take_until _ := false
}.
End users.

Definition UsersResolver (cp : ConfigParams) : request := listUsers cp "".

Definition answer cp (d : UserList) : forall k, resp (Component := page cp) k :=
  fun k => match k with DeleteUser | AddUser _ => JUndef | ListAfterDelete | ListAfterAdd _ => d end.

Lemma added_next_ok r d s l : UserList_users d = Val l ->
  added_next r d s = (Ret tt, mkState (error s) (JStr "") l Nul Nul Nul (Val (int (UserRole_value r))) Nul false, []).
Proof. destruct d, s. simpl. intros ->. reflexivity. Qed.

Definition role_number (n : Z) : UserRole :=
  match n with 1 => USER_ROLE_ADMIN | 2 => USER_ROLE_DEVELOPER | 3 => USER_ROLE_MAINTAINER | _ => USER_ROLE_READONLY end%Z.

Lemma role_of_form_int n : role_of_form (Val (int n)) = role_number n.
Proof.
  unfold role_of_form, num_eqb, pow10. rewrite !Z.mul_1_r.
  destruct (Z.eqb_spec n 1) as [->|]; [done|]. destruct (Z.eqb_spec n 2) as [->|]; [done|].
  destruct (Z.eqb_spec n 3) as [->|]; [done|]. destruct (Z.eqb_spec n 4) as [->|]; [done|].
  destruct n as [|[[]|[]|]|]; done.
Qed.

(** Creating a user: the request holds what the form holds, with the chosen role, and
    the read-only role for any number that is none; the form is disabled until the answer,
    then the list of users is asked for again and shown, and the form is emptied but for
    the role. When either request fails the form keeps its contents and is enabled again. *)
Theorem create_user cp s u e p n news d l err
    (Hd : UserList_users d = Val l) :
  let r := role_number n in
  let c := exec_all (comp := page cp) (start s) [User (SetForm u e p n news); User AddClick] in
  c_trace c = [Send (AddUser r) (addUser cp "" (mkAddUserRequest (Val e) Und (Val news) (Val p) (Val r) (Val u)))] /\
  form_disabled (c_state c) = true /\
  c_state (exec_all c [Respond (comp := page cp) 0 (answer cp d); Respond (comp := page cp) 0 (answer cp d)]) =
    mkState (error s) (JStr "") l Nul Nul Nul (Val (int (UserRole_value r))) Nul false /\
  (forall steps, steps = [Refuse 0 err] \/ steps = [Respond (comp := page cp) 0 (answer cp d); Refuse 0 err] ->
     c_state (exec_all c steps) =
       mkState (error s) err (users s) (Val u) (Val e) (Val p) (Val (int n)) (Val news) false).
Proof.
  intros r c. subst r.
  assert (Ec : c = mkMachine (mkState (error s) (JStr "") (users s) (Val u) (Val e) (Val p) (Val (int n)) (Val news) true)
            [AddUser (role_number n)] []
            [Send (AddUser (role_number n)) (addUser cp "" (mkAddUserRequest (Val e) Und (Val news) (Val p) (Val (role_number n)) (Val u)))]).
  { subst c. destruct s. user_step. user_step. cbn -[role_of_form]. by rewrite role_of_form_int. }
  rewrite Ec. clear c Ec. split_and_all; [done|done|..].
  - respond_step. respond_step by added_next_ok. done.
  - intros steps [->| ->]; reflexivity.
Qed.

Lemma create_user_witness :
  let cp := new_ConsoleService Und in
  let s := mkState (JStr "") (JStr "") [] (Val "") (Val "") (Val "") (Val (int 4)) (Val false) false in
  let c := exec_all (comp := page cp) (start s) [User (SetForm "zoe" "z@x.io" "longenough" 7 true); User AddClick] in
  c_state (exec_all c [Respond (comp := page cp) 0 (answer cp (mkUserList (Val [])));
                       Respond (comp := page cp) 0 (answer cp (mkUserList (Val [])))]) =
    mkState (JStr "") (JStr "") [] Nul Nul Nul (Val (int 4)) Nul false.
Proof.
  apply (create_user (new_ConsoleService Und)
    (mkState (JStr "") (JStr "") [] (Val "") (Val "") (Val "") (Val (int 4)) (Val false) false)
    "zoe" "z@x.io" "longenough" 7 true (mkUserList (Val [])) [] JUndef eq_refl).
Defined.
End Users.
