(* ===== verification/AccountPage.v ===== *)
(** * The page of one account: [AccountComponent] and its tabs

    The resolved account is one object, shared by the page and by the tab that is
    open: the tabs fill their forms from it when they are opened, unlinking mutates
    it, banning mutates it, and updating does not.  A tab that has been left still
    receives the answers to its requests: the tabs stay in the state under a number,
    and a subscription names the tab whose [this] it captured. *)

From S2P Require Import Prelude Codec JsVal Runtime ConsoleTypes ConsoleService RowDeletion Accounts Lists.

(** The comments above the checks of [AccountComponent] say "only admin and developers". *)
Definition updateAllowed : UserRole -> bool := at_most USER_ROLE_MAINTAINER.
Definition exportAllowed : UserRole -> bool := at_most USER_ROLE_MAINTAINER.
Definition banAllowed : UserRole -> bool := at_most USER_ROLE_MAINTAINER.
Definition deleteAllowed : UserRole -> bool := at_most USER_ROLE_MAINTAINER.

Definition AccountResolver (cp : ConfigParams) (id : opt string) : request := getAccount cp "" id.

Module Area.

(** [AuthenticationComponent] *)
Record auth_tab := mkAuthTab {
  auth_error : jsval;
  auth_updating : bool;
  auth_updated : bool;
  auth_email : opt string;
  auth_password : opt string;
  auth_password_dirty : bool;
  selected_device_id_index : nat;
  device_select_disabled : bool;
  auth_disabled : bool
}.
#[export] Instance eta_auth_tab : Eta auth_tab := fun s =>
  mkAuthTab (auth_error s) (auth_updating s) (auth_updated s) (auth_email s) (auth_password s)
    (auth_password_dirty s) (selected_device_id_index s) (device_select_disabled s) (auth_disabled s).

(** [ProfileComponent] *)
Record profile_tab := mkProfileTab {
  profile_error : jsval;
  profile_updating : bool;
  profile_updated : bool;
  profile_username : opt string;
  profile_display_name : opt string;
  profile_avatar_url : opt string;
  profile_location : opt string;
  profile_timezone : opt string;
  profile_disabled : bool
}.
#[export] Instance eta_profile_tab : Eta profile_tab := fun s =>
  mkProfileTab (profile_error s) (profile_updating s) (profile_updated s) (profile_username s)
    (profile_display_name s) (profile_avatar_url s) (profile_location s) (profile_timezone s) (profile_disabled s).

(** The tabs opened so far, the last one being on the screen; a callback refers to the
    tab that made its request. *)
Record state := mkState {
  error : jsval;
  account : opt ApiAccount;
  tab_id : nat;
  auths : gmap nat auth_tab;
  profiles : gmap nat profile_tab
}.
#[export] Instance eta_state : Eta state := fun s =>
  mkState (error s) (account s) (tab_id s) (auths s) (profiles s).

Inductive provider := Custom | Facebook | FacebookInstantGames | Apple | GameCenter | Google | Steam.

Inductive subscription :=
| DeleteAccount | Unban | Ban | Export
| UpdateAuth (tab : nat) | UnlinkDevice (tab : nat) | Unlink (tab : nat) (p : provider)
| UpdateProfile (tab : nat).

Inductive confirmation := ConfirmDelete (recorded : bool).

Inductive event :=
| RouteData (d : Account)
| DeleteClick (recorded : bool)
| BanClick
| ExportClick
| OpenAuthentication (role : UserRole)
| OpenProfile (role : UserRole)
| TypeEmail (v : string)
| TypePassword (v : string)
| SelectDevice (i : nat)
| UpdateAuthClick
| UnlinkDeviceClick
| UnlinkClick (p : provider)
| TypeProfile (username display_name avatar_url location timezone : string)
| UpdateProfileClick (editor : outcome string).   (* what the JSON editor gives or throws *)

Section area.
Context (cp : ConfigParams) (now : string).

Abbreviation H := (M state (cmd subscription confirmation)).

(** Assignments to a field of a tab. *)
Definition in_auth (t : nat) {A} (f : auth_tab -> A) `{!Setter f} (v : A) : H unit :=
  m ← gets auths; auths <~ alter (setf (f := f) (fun _ => v)) t m.
Definition in_profile (t : nat) {A} (f : profile_tab -> A) `{!Setter f} (v : A) : H unit :=
  m ← gets profiles; profiles <~ alter (setf (f := f) (fun _ => v)) t m.

Definition new_auth_tab : auth_tab := mkAuthTab (JStr "") false false (Val "") (Val "") false 0 false false.
Definition new_profile_tab : profile_tab :=
  mkProfileTab (JStr "") false false (Val "") (Val "") (Val "") (Val "") (Val "") false.
Definition the_auth (t : nat) : H auth_tab := m ← gets auths; ret (default new_auth_tab (m !! t)).
Definition the_profile (t : nat) : H profile_tab := m ← gets profiles; ret (default new_profile_tab (m !! t)).

Definition the_account : H ApiAccount :=
  a ← gets account; force "Cannot read properties of undefined (reading 'user')" a.
Definition the_user : H ApiUser :=
  a ← the_account; force "Cannot read properties of undefined (reading 'id')" (ApiAccount_user a).
Definition mutate_account (f : ApiAccount -> ApiAccount) : H unit :=
  a ← the_account; account <~ Val (f a).
Definition mutate_user (f : ApiUser -> ApiUser) : H unit :=
  u ← the_user; mutate_account (setf (f := ApiAccount_user) (fun _ => Val (f u))).

(** *** [AccountComponent] *)

Definition deleteAccount_confirmed (recorded : bool) : H unit :=
  emit (SetDisabled true);;
  error <~ JStr "";;
  u ← the_user;
  emit (Send DeleteAccount (deleteAccount cp "" (ApiUser_id u) (JBool recorded))).

Definition banUnbanAccount : H unit :=
  emit (SetDisabled true);;
  error <~ JStr "";;
  a ← the_account;
  u ← the_user;
  if truthy_str (ApiAccount_disable_time a)
  then emit (Send Unban (unbanAccount cp "" (ApiUser_id u)))
  else emit (Send Ban (banAccount cp "" (ApiUser_id u))).

Definition ban_next (disable_time : opt string) : H unit :=
  error <~ JStr "";;
  mutate_account (setf (f := ApiAccount_disable_time) (fun _ => disable_time));;
  emit (SetDisabled false).

Definition exportAccount_click : H unit :=
  emit (SetDisabled true);;
  error <~ JStr "";;
  u ← the_user;
  emit (Send Export (exportAccount cp "" (ApiUser_id u))).

(** The file holds the answer printed as JSON. *)
Definition export_next (answer : jsval) : H unit :=
  error <~ JStr "";;
  u ← the_user;
  emit (SaveFile (js_String (ApiUser_id u) +:+ "-export.json") answer);;
  emit (SetDisabled false).

(** *** [AuthenticationComponent] *)

Definition open_authentication (role : UserRole) : H unit :=
  n ← gets tab_id;
  let t := S n in
  tab_id <~ t;;
  m ← gets auths;
  auths <~ <[t := new_auth_tab]> m;;
  subscriber (
    a ← the_account;
    in_auth t auth_email (ApiAccount_email a);;
    in_auth t auth_password (Val "");;
    in_auth t selected_device_id_index 0;;
    devices ← force "Cannot read properties of undefined (reading 'length')" (ApiAccount_devices a);
    when (length devices =? 0) (in_auth t device_select_disabled true);;
    when (negb (updateAllowed role)) (in_auth t auth_disabled true)).

Definition empty_body : ConsoleUpdateAccountBody :=
  mkConsoleUpdateAccountBody Und Und JUndef Und Und Und Und Und Und Und Und Und.

Definition updateAuth (t : nat) : H unit :=
  in_auth t auth_error (JStr "");;
  in_auth t auth_updated false;;
  in_auth t auth_updating true;;
  s ← the_auth t;
  u ← the_user;
  emit (Send (UpdateAuth t) (updateAccount cp "" (ApiUser_id u)
    (mkConsoleUpdateAccountBody Und Und JUndef Und (auth_email s) Und Und Und
       (if auth_password_dirty s then auth_password s else Und) Und Und Und))).

Definition updateAuth_next (t : nat) : H unit :=
  in_auth t auth_updated true;;
  in_auth t auth_updating false;;
  in_auth t auth_password Nul;;
  in_auth t auth_password_dirty false.

Definition unlinkDeviceId (t : nat) : H unit :=
  emit (SetDisabled true);;
  in_auth t auth_error (JStr "");;
  a ← the_account;
  devices ← force "Cannot read properties of undefined" (ApiAccount_devices a);
  s ← the_auth t;
  d ← (match devices !! selected_device_id_index s with
       | Some d => ret d
       | None => throw (TypeError "Cannot read properties of undefined (reading 'id')")
       end);
  u ← the_user;
  emit (Send (UnlinkDevice t) (unlinkDevice cp "" (ApiUser_id u) (mkConsoleUnlinkDeviceBody (ApiAccountDevice_id d)))).

(** The position is read again when the answer arrives. *)
Definition unlinkDevice_next (t : nat) : H unit :=
  in_auth t auth_error (JStr "");;
  s ← the_auth t;
  a ← the_account;
  devices ← force "Cannot read properties of undefined" (ApiAccount_devices a);
  mutate_account (setf (f := ApiAccount_devices)
    (fun _ => Val (splice1 (selected_device_id_index s) devices)));;
  in_auth t selected_device_id_index 0.

(** The seven methods [unlinkCustomID], [unlinkFacebook], ...: the request, and the
    field that the answer sets to [null]. *)
Definition unlink_request (p : provider) (id : opt string) : request :=
  match p with
  | Custom => unlinkCustom cp "" id
  | Facebook => unlinkFacebook cp "" id
  | FacebookInstantGames => unlinkFacebookInstantGame cp "" id
  | Apple => unlinkApple cp "" id
  | GameCenter => unlinkGameCenter cp "" id
  | Google => unlinkGoogle cp "" id
  | Steam => unlinkSteam cp "" id
  end.

Definition linked_id (p : provider) (a : ApiAccount) : opt string :=
  let of_user g := chain (ApiAccount_user a) g in
  match p with
  | Custom => ApiAccount_custom_id a
  | Facebook => of_user ApiUser_facebook_id
  | FacebookInstantGames => of_user ApiUser_facebook_instant_game_id
  | Apple => of_user ApiUser_apple_id
  | GameCenter => of_user ApiUser_gamecenter_id
  | Google => of_user ApiUser_google_id
  | Steam => of_user ApiUser_steam_id
  end.

Definition unlink_clear (p : provider) : H unit :=
  match p with
  | Custom => mutate_account (setf (f := ApiAccount_custom_id) (fun _ => Nul))
  | Facebook => mutate_user (setf (f := ApiUser_facebook_id) (fun _ => Nul))
  | FacebookInstantGames => mutate_user (setf (f := ApiUser_facebook_instant_game_id) (fun _ => Nul))
  | Apple => mutate_user (setf (f := ApiUser_apple_id) (fun _ => Nul))
  | GameCenter => mutate_user (setf (f := ApiUser_gamecenter_id) (fun _ => Nul))
  | Google => mutate_user (setf (f := ApiUser_google_id) (fun _ => Nul))
  | Steam => mutate_user (setf (f := ApiUser_steam_id) (fun _ => Nul))
  end.

Definition unlink (t : nat) (p : provider) : H unit :=
  emit (SetDisabled true);;
  in_auth t auth_error (JStr "");;
  u ← the_user;
  emit (Send (Unlink t p) (unlink_request p (ApiUser_id u))).

Definition unlink_next (t : nat) (p : provider) : H unit :=
  in_auth t auth_error (JStr "");;
  unlink_clear p.

(** *** [ProfileComponent] *)

Definition open_profile (role : UserRole) : H unit :=
  n ← gets tab_id;
  let t := S n in
  tab_id <~ t;;
  m ← gets profiles;
  profiles <~ <[t := new_profile_tab]> m;;
  subscriber (
    u ← the_user;
    in_profile t profile_username (ApiUser_username u);;
    in_profile t profile_display_name (ApiUser_display_name u);;
    in_profile t profile_avatar_url (ApiUser_avatar_url u);;
    in_profile t profile_location (ApiUser_location u);;
    in_profile t profile_timezone (ApiUser_timezone u);;
    when (negb (updateAllowed role)) (in_profile t profile_disabled true)).

Definition updateProfile (t : nat) (editor : outcome string) : H unit :=
  in_profile t profile_error (JStr "");;
  in_profile t profile_updated false;;
  in_profile t profile_updating true;;
  match editor with
  | Throw e => in_profile t profile_error e;; in_profile t profile_updating false
  | Ret metadata =>
      s ← the_profile t;
      u ← the_user;
      emit (Send (UpdateProfile t) (updateAccount cp "" (ApiUser_id u)
        (mkConsoleUpdateAccountBody (profile_avatar_url s) Und JUndef (profile_display_name s) Und Und
           (profile_location s) (Val metadata) Und (profile_timezone s) (profile_username s) Und)))
  end.

Definition typeProfile (t : nat) (username display_name avatar_url location timezone : string) : H unit :=
  in_profile t profile_username (Val username);;
  in_profile t profile_display_name (Val display_name);;
  in_profile t profile_avatar_url (Val avatar_url);;
  in_profile t profile_location (Val location);;
  in_profile t profile_timezone (Val timezone).

(** Events concern the tab on the screen. *)
Definition on_tab (m : nat -> H unit) : H unit := t ← gets tab_id; m t.

#[export] Instance page : Component state event subscription confirmation := {
  resp _ := jsval;
  on_event e :=
    match e with
    | RouteData d => account <~ Account_account d
    | DeleteClick recorded => emit (OpenConfirm (ConfirmDelete recorded))
    | BanClick => banUnbanAccount
    | ExportClick => exportAccount_click
    | OpenAuthentication role => open_authentication role
    | OpenProfile role => open_profile role
    | TypeEmail v => on_tab (fun t => in_auth t auth_email (Val v))
    | TypePassword v => on_tab (fun t => in_auth t auth_password (Val v);; in_auth t auth_password_dirty true)
    | SelectDevice i => on_tab (fun t => in_auth t selected_device_id_index i)
    | UpdateAuthClick => on_tab updateAuth
    | UnlinkDeviceClick => on_tab unlinkDeviceId
    | UnlinkClick p => on_tab (fun t => unlink t p)
    | TypeProfile u d a l z => on_tab (fun t => typeProfile t u d a l z)
    | UpdateProfileClick editor => on_tab (fun t => updateProfile t editor)
    end;
  on_next k :=
    match k with
    | DeleteAccount => fun _ => error <~ JStr "";; emit (Navigate (mkNavigation ["/accounts"] [] false))
    | Unban => fun _ => ban_next Nul
    | Ban => fun _ => ban_next (Val now)
    | Export => export_next
    | UpdateAuth t => fun _ => updateAuth_next t
    | UnlinkDevice t => fun _ => unlinkDevice_next t
    | Unlink t p => fun _ => unlink_next t p
    | UpdateProfile t => fun _ => in_profile t profile_updated true;; in_profile t profile_updating false
    end;
  on_error k err :=
    match k with
    | DeleteAccount => error <~ err
    | Unban | Ban => error <~ err;; emit (SetDisabled false)
    | Export => emit (SetDisabled false);; error <~ err
    | UpdateAuth t => in_auth t auth_error err;; in_auth t auth_updating false
    | UnlinkDevice t | Unlink t _ => in_auth t auth_error err
    | UpdateProfile t => in_profile t profile_error err;; in_profile t profile_updating false
    end;
  on_confirm d _ := match d with ConfirmDelete recorded => deleteAccount_confirmed recorded end;
  take_until _ := false
}.
End area.

(** The page just after the account was resolved. *)
Definition opened (a : ApiAccount) : state := mkState (JStr "") (Val a) 0 ∅ ∅.

Definition ok cp now : action state event subscription confirmation (comp := page cp now) :=
  Respond (comp := page cp now) 0 (fun _ => JUndef).

(** What a tab shows of the account's profile. *)
Definition profile_form (p : profile_tab) : list (opt string) :=
  [profile_username p; profile_display_name p; profile_avatar_url p; profile_location p; profile_timezone p].
Definition profile_of_user (u : ApiUser) : list (opt string) :=
  [ApiUser_username u; ApiUser_display_name u; ApiUser_avatar_url u; ApiUser_location u; ApiUser_timezone u].

Lemma the_user_ok a u s : account s = Val a -> ApiAccount_user a = Val u -> the_user s = (Ret u, s, []).
Proof. intros Ha Hu. unfold the_user, the_account. run_m. rewrite Ha. cbn. by rewrite Hu. Qed.

Lemma mutate_account_ok f a s : account s = Val a ->
  mutate_account f s = (Ret tt, setf (f := account) (fun _ => Val (f a)) s, []).
Proof. intros Ha. unfold mutate_account, the_account. run_m. by rewrite Ha. Qed.

Lemma mutate_user_ok f a u s : account s = Val a -> ApiAccount_user a = Val u ->
  mutate_user f s = (Ret tt, setf (f := account) (fun _ => Val (setf (f := ApiAccount_user) (fun _ => Val (f u)) a)) s, []).
Proof.
  intros Ha Hu. unfold mutate_user. rewrite (M_bind_ret _ _ _ _ _ _ (the_user_ok a u s Ha Hu)).
  by rewrite (mutate_account_ok _ a).
Qed.

Lemma unlink_spec cp t p a u s : account s = Val a -> ApiAccount_user a = Val u ->
  exists s', unlink cp t p s = (Ret tt, s', [SetDisabled true; Send (Unlink t p) (unlink_request cp p (ApiUser_id u))]) /\
    account s' = account s /\ tab_id s' = tab_id s /\ error s' = error s.
Proof.
  intros Ha Hu. destruct s as [er ac n au pr]. simpl in Ha. subst ac. unfold unlink, in_auth. run_m. cbn.
  rewrite (the_user_ok a u) by done. eexists. split; [reflexivity|]. done.
Qed.

Lemma unlink_clear_spec p a u s : account s = Val a -> ApiAccount_user a = Val u ->
  exists a', unlink_clear p s = (Ret tt, setf (f := account) (fun _ => Val a') s, []) /\
    linked_id p a' = Nul /\ (forall q, q <> p -> linked_id q a' = linked_id q a) /\
    ApiAccount_email a' = ApiAccount_email a /\ ApiAccount_devices a' = ApiAccount_devices a.
Proof.
  intros Ha Hu. destruct p; unfold unlink_clear;
    rewrite ?(mutate_account_ok _ a s Ha), ?(mutate_user_ok _ a u s Ha Hu);
    (eexists; split; [reflexivity|]); destruct a, u; simpl in Hu; subst;
    (split; [reflexivity|]); (split; [|done]); intros []; done.
Qed.

(** The name of a provider in the routes of the server ([console.proto]). *)
Definition provider_name (p : provider) : string :=
  match p with
  | Custom => "custom"
  | Facebook => "facebook"
  | FacebookInstantGames => "facebookinstantgame"
  | Apple => "apple"
  | GameCenter => "gamecenter"
  | Google => "google"
  | Steam => "steam"
  end.

Lemma unlink_request_route cp p id :
  req_method (unlink_request cp p id) = POST /\
  req_url (unlink_request cp p id) =
    ConfigParams_host cp +:+ "/v2/console/account/" +:+ encodeURIComponent (js_String id) +:+ "/unlink/" +:+ provider_name p.
Proof. by destruct p. Qed.


Definition zed : ApiUser :=
  mkApiUser Und Und Und (Val "Zed") Und Und Und Und (Val "g-1") (Val "id-zed") Und (Val "Oslo") Und Und Und
    (Val "s-1") Und Und (Val "zed").
Definition zed_account : ApiAccount := mkApiAccount (Val "c-1") (Val []) Nul (Val "z@x.io") (Val zed) Und (Val "{}").


Lemma ban_click_spec cp a u s : account s = Val a -> ApiAccount_user a = Val u ->
  banUnbanAccount cp s =
    (Ret tt, mkState (JStr "") (Val a) (tab_id s) (auths s) (profiles s),
     [SetDisabled true; if truthy_str (ApiAccount_disable_time a) then Send Unban (unbanAccount cp "" (ApiUser_id u))
                        else Send Ban (banAccount cp "" (ApiUser_id u))]).
Proof.
  intros Ha Hu. destruct s as [er ac n au pr], a. simpl in Ha, Hu. subst.
  unfold banUnbanAccount, the_user, the_account. run_m. cbn -[truthy]. by destruct (truthy_str _).
Qed.

Lemma ban_next_spec v a s : account s = Val a ->
  ban_next v s =
    (Ret tt, mkState (JStr "") (Val (setf (f := ApiAccount_disable_time) (fun _ => v) a)) (tab_id s) (auths s) (profiles s),
     [SetDisabled false]).
Proof. intros Ha. destruct s, a. simpl in Ha. by subst. Qed.

(** Banning is a toggle: the button of an account that is not banned sends a ban and, once
    answered, shows the account as banned since now; the next click sends an unban and shows it
    as not banned; a failed request changes nothing but the message. The button is disabled
    while the request is in flight. *)
Theorem ban_toggles cp now s a u e
    (Ha : account s = Val a) (Hu : ApiAccount_user a = Val u)
    (Hfree : truthy_str (ApiAccount_disable_time a) = false) (Hnow : now <> "") :
  let run l := exec_all (comp := page cp now) (start s) l in
  let with_ban v := mkState (JStr "") (Val (setf (f := ApiAccount_disable_time) (fun _ => v) a))
                      (tab_id s) (auths s) (profiles s) in
  c_state (run [User BanClick; ok cp now]) = with_ban (Val now) /\
  c_state (run [User BanClick; ok cp now; User BanClick; ok cp now]) = with_ban Nul /\
  c_trace (run [User BanClick; ok cp now; User BanClick; ok cp now]) =
    [SetDisabled true; Send Ban (banAccount cp "" (ApiUser_id u)); SetDisabled false;
     SetDisabled true; Send Unban (unbanAccount cp "" (ApiUser_id u)); SetDisabled false] /\
  c_state (run [User BanClick; Refuse 0 e]) = mkState e (Val a) (tab_id s) (auths s) (profiles s).
Proof.
  intros run with_ban. subst run with_ban. unfold ok.
  assert (Hnow' : truthy_str (Val now) = true)
    by (simpl; unfold truthy_string; by rewrite (proj2 (String.eqb_neq now "") Hnow)).
  assert (H1 : exec_all (comp := page cp now) (start s) [User BanClick; ok cp now] =
    mkMachine (mkState (JStr "") (Val (setf (f := ApiAccount_disable_time) (fun _ => Val now) a))
                 (tab_id s) (auths s) (profiles s)) [] []
      [SetDisabled true; Send Ban (banAccount cp "" (ApiUser_id u)); SetDisabled false]).
  { unfold ok. user_step by (ban_click_spec cp a u). rewrite Hfree. simpl_config.
    respond_step by (ban_next_spec (Val now) a). done. }
  assert (H2 : exec_all (comp := page cp now) (start s) [User BanClick; ok cp now; User BanClick; ok cp now] =
    mkMachine (mkState (JStr "") (Val (setf (f := ApiAccount_disable_time) (fun _ => Nul) a))
                 (tab_id s) (auths s) (profiles s)) [] []
      [SetDisabled true; Send Ban (banAccount cp "" (ApiUser_id u)); SetDisabled false;
       SetDisabled true; Send Unban (unbanAccount cp "" (ApiUser_id u)); SetDisabled false]).
  { change (exec_all (comp := page cp now) (start s) [User BanClick; ok cp now; User BanClick; ok cp now])
      with (exec_all (exec_all (comp := page cp now) (start s) [User BanClick; ok cp now]) [User BanClick; ok cp now]).
    rewrite H1. unfold ok.
    user_step by (ban_click_spec cp (setf (f := ApiAccount_disable_time) (fun _ => Val now) a) u).
    cbn [ApiAccount_disable_time setf eta_ApiAccount]. unfold setf at 1. cbn [ApiAccount_disable_time].
    rewrite Hnow'. simpl_config.
    respond_step by (ban_next_spec Nul (setf (f := ApiAccount_disable_time) (fun _ => Val now) a)). done. }
  unfold ok in H1, H2. split_and_all; [by rewrite H1|by rewrite H2|by rewrite H2|].
  user_step by (ban_click_spec cp a u). rewrite Hfree. simpl_config.
  rewrite exec_all_cons. erewrite exec_Refuse by reflexivity. done.
Qed.

Lemma ban_toggles_witness :
  let cp := new_ConsoleService Und in
  c_state (exec_all (comp := page cp "170") (start (opened zed_account)) [User BanClick; ok cp "170"]) =
    mkState (JStr "") (Val (setf (f := ApiAccount_disable_time) (fun _ => Val "170") zed_account)) 0 ∅ ∅.
Proof.
  apply (ban_toggles (new_ConsoleService Und) "170" (opened zed_account) zed_account zed JUndef
           eq_refl eq_refl eq_refl). discriminate.
Defined.

(** Updating a profile does not touch the account that the page keeps: after a successful
    update, leaving the tab and opening it again shows the values from before the update, and
    another click on the update button sends these old values, undoing the update. *)
Theorem profile_update_is_forgotten cp now a u role u' d' l' t' z' m m'
    (Hu : ApiAccount_user a = Val u) :
  let c := exec_all (comp := page cp now) (start (opened a))
     [User (OpenProfile role); User (TypeProfile u' d' l' t' z'); User (UpdateProfileClick (Ret m)); ok cp now;
      User (OpenProfile role); User (UpdateProfileClick (Ret m'))] in
  account (c_state c) = Val a /\
  profile_form <$> (profiles (c_state c) !! 1) = Some [Val u'; Val d'; Val l'; Val t'; Val z'] /\
  profile_form <$> (profiles (c_state c) !! 2) = Some (profile_of_user u) /\
  c_trace c =
    [Send (UpdateProfile 1) (updateAccount cp "" (ApiUser_id u)
       (mkConsoleUpdateAccountBody (Val l') Und JUndef (Val d') Und Und (Val t') (Val m) Und (Val z') (Val u') Und));
     Send (UpdateProfile 2) (updateAccount cp "" (ApiUser_id u)
       (mkConsoleUpdateAccountBody (ApiUser_avatar_url u) Und JUndef (ApiUser_display_name u) Und Und
          (ApiUser_location u) (Val m') Und (ApiUser_timezone u) (ApiUser_username u) Und))].
Proof.
  destruct a as [c0 d0 dt em us v w]. simpl in Hu. subst us. intros c. subst c.
  destruct role; split_and_all; reflexivity.
Qed.

Lemma profile_update_is_forgotten_witness :
  let cp := new_ConsoleService Und in
  let c := exec_all (comp := page cp "1") (start (opened zed_account))
     [User (OpenProfile USER_ROLE_ADMIN); User (TypeProfile "zed" "Zed 2" "" "Bergen" ""); User (UpdateProfileClick (Ret "{}"));
      ok cp "1"; User (OpenProfile USER_ROLE_ADMIN); User (UpdateProfileClick (Ret "{}"))] in
  account (c_state c) = Val zed_account /\
  profile_form <$> (profiles (c_state c) !! 1) = Some [Val "zed"; Val "Zed 2"; Val ""; Val "Bergen"; Val ""] /\
  profile_form <$> (profiles (c_state c) !! 2) = Some [Val "zed"; Val "Zed"; Und; Val "Oslo"; Und].
Proof.
  pose proof (profile_update_is_forgotten (new_ConsoleService Und) "1" zed_account zed USER_ROLE_ADMIN
    "zed" "Zed 2" "" "Bergen" "" "{}" "{}" eq_refl) as H.
  destruct H as (H1 & H2 & H3 & _). exact (conj H1 (conj H2 H3)).
Defined.
End Area.
