(* ===== verification/AccountTabs.v ===== *)
(** * The lists of the account page: friends, groups, wallet, purchases, subscriptions,
    notifications

    The last three are one design written three times (a list with a next and a previous
    page, and the look-up of a single item by its identifier); [LookupList] is that design
    over the operations that differ, and the modules after it are its three uses. *)

From S2P Require Import Prelude Codec JsVal Runtime ConsoleTypes ConsoleService RowDeletion Accounts Lists.
From Stdlib Require Import Ascii.

(** ** [FriendsComponent] *)
Module Friends.

Record state := mkState { error : jsval; account : opt ApiAccount; friends : list ApiFriend }.
#[export] Instance eta_state : Eta state := fun s => mkState (error s) (account s) (friends s).

Inductive subscription := Delete (i : nat) (f : ApiFriend).
Inductive confirmation := ConfirmDelete (i : nat) (f : ApiFriend).
Inductive event :=
| RouteData (d : ApiFriendList)
| ParentData (d : Account)
| DeleteClick (i : nat) (f : ApiFriend)
| View (u : ApiUser).

(** [account.user.id] and [friend.user.id] *)
Definition user_id_of (a : opt ApiAccount) : option (opt string) :=
  match a with
  | Val a => match ApiAccount_user a with Val u => Some (ApiUser_id u) | _ => None end
  | _ => None
  end.

Section friends.
Context (cp : ConfigParams).

Abbreviation H := (M state (cmd subscription confirmation)).

Definition delete_request (s : state) (f : ApiFriend) : option request :=
  id ← user_id_of (account s);
  fid ← (match ApiFriend_user f with Val u => Some (ApiUser_id u) | _ => None end);
  Some (deleteFriend cp "" id fid).

Definition deleteFriend_confirmed (i : nat) (f : ApiFriend) : H unit :=
  emit (SetDisabled true);;
  emit PreventDefault;;
  error <~ JStr "";;
  s ← gets (fun s => s);
  match delete_request s f with
  | Some rq => emit (Send (Delete i f) rq)
  | None => throw (TypeError "Cannot read properties of undefined (reading 'id')")
  end.

Definition delete_next (i : nat) : H unit :=
  error <~ JStr "";;
  l ← gets friends;
  friends <~ splice1 i l.

Definition route_data (d : ApiFriendList) : H unit :=
  friends <~ [];;
  l ← force "d[0].friends is not iterable" (ApiFriendList_friends d);
  friends <~ l.

#[export] Instance page : Component state event subscription confirmation := {
  resp _ := jsval;
  on_event e :=
    match e with
    | RouteData d => subscriber (route_data d)
    | ParentData d => account <~ Account_account d
    | DeleteClick i f => emit (OpenConfirm (ConfirmDelete i f))
    | View u => emit (Navigate (mkNavigation ["/accounts"; js_String (ApiUser_id u)] [] false))
    end;
  on_next k := match k with Delete i _ => fun _ => delete_next i end;
  on_error _ err := error <~ err;
  on_confirm d _ := match d with ConfirmDelete i f => deleteFriend_confirmed i f end;
  take_until _ := false
}.
End friends.

Definition deleteAllowed : UserRole -> bool := at_most USER_ROLE_MAINTAINER.
Definition FriendsResolver (cp : ConfigParams) (id : opt string) : request := getFriends cp "" id.

#[export] Instance friend_rows cp : RowDeletion (page cp) ApiFriend.
Proof.
  refine {| rows := friends; del_click := DeleteClick; del_dialog := ConfirmDelete; del_sub := Delete;
            del_request := delete_request cp |}.
  - reflexivity.
  - intros i r v s rq Hrq. eexists _, [SetDisabled true; PreventDefault]. split; [|split_and_all; [reflexivity| |]].
    + cbn [on_confirm page]. unfold deleteFriend_confirmed. run_m.
      change (delete_request cp _ r) with (delete_request cp s r). rewrite Hrq. reflexivity.
    + done.
    + done.
  - intros i r a s. eexists. split; reflexivity.
  - intros i r e s. eexists. split; reflexivity.
Defined.
End Friends.

(** ** [GroupsComponent], the groups of an account *)
Module UserGroups.

Record state := mkState { error : jsval; account : opt ApiAccount; groups : list UserGroupListUserGroup }.
#[export] Instance eta_state : Eta state := fun s => mkState (error s) (account s) (groups s).

Inductive subscription := Delete (i : nat) (g : UserGroupListUserGroup).
Inductive confirmation := ConfirmDelete (i : nat) (g : UserGroupListUserGroup).
Inductive event :=
| RouteData (d : ApiUserGroupList)
| ParentData (d : Account)
| DeleteClick (i : nat) (g : UserGroupListUserGroup)
| View (g : UserGroupListUserGroup).

Section groups.
Context (cp : ConfigParams).

Abbreviation H := (M state (cmd subscription confirmation)).

Definition group_id_of (g : UserGroupListUserGroup) : option (opt string) :=
  match UserGroupListUserGroup_group g with Val g => Some (ApiGroup_id g) | _ => None end.

Definition delete_request (s : state) (g : UserGroupListUserGroup) : option request :=
  id ← Friends.user_id_of (account s);
  gid ← group_id_of g;
  Some (deleteGroupUser cp "" id gid).

Definition deleteGroupUser_confirmed (i : nat) (g : UserGroupListUserGroup) : H unit :=
  emit (SetDisabled true);;
  emit PreventDefault;;
  error <~ JStr "";;
  s ← gets (fun s => s);
  match delete_request s g with
  | Some rq => emit (Send (Delete i g) rq)
  | None => throw (TypeError "Cannot read properties of undefined (reading 'id')")
  end.

Definition delete_next (i : nat) : H unit :=
  error <~ JStr "";;
  l ← gets groups;
  groups <~ splice1 i l.

Definition route_data (d : ApiUserGroupList) : H unit :=
  groups <~ [];;
  l ← force "d[0].user_groups is not iterable" (ApiUserGroupList_user_groups d);
  groups <~ l.

(** [viewAccount], which opens the group. *)
Definition viewAccount (g : UserGroupListUserGroup) : H unit :=
  match group_id_of g with
  | Some id => emit (Navigate (mkNavigation ["/groups"; js_String id] [] false))
  | None => throw (TypeError "Cannot read properties of undefined (reading 'id')")
  end.

#[export] Instance page : Component state event subscription confirmation := {
  resp _ := jsval;
  on_event e :=
    match e with
    | RouteData d => subscriber (route_data d)
    | ParentData d => account <~ Account_account d
    | DeleteClick i g => emit (OpenConfirm (ConfirmDelete i g))
    | View g => viewAccount g
    end;
  on_next k := match k with Delete i _ => fun _ => delete_next i end;
  on_error _ err := error <~ err;
  on_confirm d _ := match d with ConfirmDelete i g => deleteGroupUser_confirmed i g end;
  take_until _ := false
}.
End groups.

Definition deleteAllowed : UserRole -> bool := at_most USER_ROLE_MAINTAINER.
Definition GroupsResolver (cp : ConfigParams) (id : opt string) : request := getGroups cp "" id.

#[export] Instance user_group_rows cp : RowDeletion (page cp) UserGroupListUserGroup.
Proof.
  refine {| rows := groups; del_click := DeleteClick; del_dialog := ConfirmDelete; del_sub := Delete;
            del_request := delete_request cp |}.
  - reflexivity.
  - intros i r v s rq Hrq. eexists _, [SetDisabled true; PreventDefault]. split; [|split_and_all; [reflexivity| |]].
    + cbn [on_confirm page]. unfold deleteGroupUser_confirmed. run_m.
      change (delete_request cp _ r) with (delete_request cp s r). rewrite Hrq. reflexivity.
    + done.
    + done.
  - intros i r a s. eexists. split; reflexivity.
  - intros i r e s. eexists. split; reflexivity.
Defined.
End UserGroups.

(** ** [WalletComponent] *)
Module Wallet.

Record state := mkState {
  error : jsval;
  account : opt ApiAccount;
  walletLedger : opt (list WalletLedger);
  walletLedgerMetadataOpen : list (opt bool);
  updating : bool;
  updated : bool;
  nextCursor : opt string;
  prevCursor : opt string;
  userID : opt string
}.
#[export] Instance eta_state : Eta state := fun s =>
  mkState (error s) (account s) (walletLedger s) (walletLedgerMetadataOpen s) (updating s) (updated s)
    (nextCursor s) (prevCursor s) (userID s).

Definition new_state : state := mkState (JStr "") Und (Val []) [] false false (Val "") (Val "") Und.

Definition limit : num := int 100.

Inductive subscription := Load | Update | Delete (i : nat) (w : WalletLedger).
Inductive confirmation := ConfirmDelete (i : nat) (w : WalletLedger).
Inductive event :=
| Init (id : opt string)
| RouteData (d : WalletLedgerList)
| ParentData (d : Account)
| LoadClick (cursor : opt string)
| ToggleRow (i : nat)
| UpdateClick (editor : outcome string)
| DeleteClick (i : nat) (w : WalletLedger).

Section wallet.
Context (cp : ConfigParams).

Abbreviation H := (M state (cmd subscription confirmation)).

Definition the_ledger : H (list WalletLedger) :=
  l ← gets walletLedger; force "Cannot read properties of undefined" l.

Definition route_data (d : WalletLedgerList) : H unit :=
  l ← the_ledger;
  walletLedger <~ Val [];;
  items ← force "d[0].items is not iterable" (WalletLedgerList_items d);
  walletLedger <~ Val items;;
  flags ← gets walletLedgerMetadataOpen;
  walletLedgerMetadataOpen <~ set_length (length items) flags;;
  nextCursor <~ WalletLedgerList_next_cursor d;;
  prevCursor <~ WalletLedgerList_prev_cursor d.

Definition loadData (cursor : opt string) : H unit :=
  u ← gets userID;
  emit (Send Load (getWalletLedger cp "" u (Val limit) cursor)).

Definition load_next (res : WalletLedgerList) : H unit :=
  walletLedger <~ WalletLedgerList_items res;;
  walletLedgerMetadataOpen <~ [];;
  nextCursor <~ WalletLedgerList_next_cursor res;;
  prevCursor <~ WalletLedgerList_prev_cursor res.

Definition toggleRow (i : nat) : H unit :=
  l ← gets walletLedger;
  flags ← gets walletLedgerMetadataOpen;
  when (i <? length (nullish l []))
    (walletLedgerMetadataOpen <~ array_set i (Val (negb (truthy_bool (array_get i flags)))) flags).

Definition user_id : H (opt string) :=
  a ← gets account;
  match Friends.user_id_of a with
  | Some id => ret id
  | None => throw (TypeError "Cannot read properties of undefined (reading 'id')")
  end.

Definition updateWallet (editor : outcome string) : H unit :=
  error <~ JStr "";;
  updated <~ false;;
  updating <~ true;;
  match editor with
  | Throw e => error <~ e;; updating <~ false
  | Ret wallet =>
      id ← user_id;
      emit (Send Update (updateAccount cp "" id
        (mkConsoleUpdateAccountBody Und Und JUndef Und Und Und Und Und Und Und Und (Val wallet))))
  end.

Definition deleteLedgerItem_confirmed (i : nat) (w : WalletLedger) : H unit :=
  emit (SetDisabled true);;
  emit PreventDefault;;
  error <~ JStr "";;
  id ← user_id;
  emit (Send (Delete i w) (deleteWalletLedger cp "" id (WalletLedger_id w))).

Definition delete_next (i : nat) : H unit :=
  error <~ JStr "";;
  l ← the_ledger;
  walletLedger <~ Val (splice1 i l);;
  flags ← gets walletLedgerMetadataOpen;
  walletLedgerMetadataOpen <~ splice1 i flags.

#[export] Instance page : Component state event subscription confirmation := {
  resp k := match k with Load => WalletLedgerList | _ => jsval end;
  on_event e :=
    match e with
    | Init id => userID <~ id
    | RouteData d => subscriber (route_data d)
    | ParentData d => account <~ Account_account d
    | LoadClick cursor => loadData cursor
    | ToggleRow i => toggleRow i
    | UpdateClick editor => updateWallet editor
    | DeleteClick i w => emit (OpenConfirm (ConfirmDelete i w))
    end;
  on_next k :=
    match k with
    | Load => load_next
    | Update => fun _ => updated <~ true;; updating <~ false
    | Delete i _ => fun _ => delete_next i
    end;
  on_error k err :=
    match k with
    | Update => error <~ err;; updating <~ false
    | _ => error <~ err
    end;
  on_confirm d _ := match d with ConfirmDelete i w => deleteLedgerItem_confirmed i w end;
  take_until _ := false
}.
End wallet.

Definition updateAllowed : UserRole -> bool := at_most USER_ROLE_MAINTAINER.
Definition deleteAllowed : UserRole -> bool := at_most USER_ROLE_MAINTAINER.
Definition WalletLedgerResolver (cp : ConfigParams) (id : opt string) : request :=
  getWalletLedger cp "" id (Val (int 100)) (Val "").

(** The row at [i] is unfolded. *)
Definition is_open (s : state) (i : nat) : bool := truthy_bool (array_get i (walletLedgerMetadataOpen s)).

Lemma array_get_splice1 {A} i j (l : list (opt A)) :
  array_get j (splice1 i l) = array_get (if j <? i then j else S j) l.
Proof.
  unfold array_get. destruct (j <? i) eqn:E.
  - by rewrite splice1_lookup_lt by lia.
  - by rewrite splice1_lookup_ge by lia.
Qed.

Lemma wallet_delete_next_ok i l s : walletLedger s = Val l ->
  delete_next i s =
    (Ret tt, setf (f := walletLedgerMetadataOpen) (fun fl => splice1 i fl)
               (setf (f := walletLedger) (fun _ => Val (splice1 i l))
                  (setf (f := error) (fun _ => JStr "") s)), []).
Proof. intros Hl. destruct s. simpl in Hl. by subst. Qed.

(** Deleting an entry of the wallet's history keeps every other entry as it was shown: the
    entries before it stay in place and those after it move up by one, each unfolded exactly
    when it was before. *)
Theorem delete_keeps_unfolded_rows cp c i w k f l
    (Hk : c_pending c !! k = Some (Delete i w)) (Hl : walletLedger (c_state c) = Val l) :
  let s' := c_state (exec (comp := page cp) c (Respond (comp := page cp) k f)) in
  walletLedger s' = Val (splice1 i l) /\
  forall j, splice1 i l !! j = l !! (if j <? i then j else S j) /\
            is_open s' j = is_open (c_state c) (if j <? i then j else S j).
Proof.
  assert (E : exec (comp := page cp) c (Respond (comp := page cp) k f) =
    mkMachine (setf (f := walletLedgerMetadataOpen) (fun fl => splice1 i fl)
                 (setf (f := walletLedger) (fun _ => Val (splice1 i l))
                    (setf (f := error) (fun _ => JStr "") (c_state c))))
      (splice1 k (c_pending c)) (c_dialogs c) (c_trace c)).
  { erewrite exec_Respond; [|exact Hk|apply (wallet_delete_next_ok i l _ Hl)]. done. }
  cbv zeta. rewrite E. split; [done|]. intros j. split.
  - destruct (j <? i) eqn:Hj; [apply splice1_lookup_lt|apply splice1_lookup_ge]; lia.
  - unfold is_open. by rewrite <- array_get_splice1.
Qed.

Definition entry (id : string) : WalletLedger := mkWalletLedger Und Und (Val id) Und Und Und.

Lemma delete_keeps_unfolded_rows_witness :
  let cp := new_ConsoleService Und in
  let s := mkState (JStr "") Und (Val [entry "a"; entry "b"; entry "c"]) [Und; Und; Val true] false false Und Und (Val "u") in
  let c := mkMachine s [Delete 0 (entry "a")] [] [] in
  let s' := c_state (exec (comp := page cp) c (Respond (comp := page cp) 0
              (fun k => match k return resp (Component := page cp) k with
                        | Load => mkWalletLedgerList Und Und Und | Update => JUndef | Delete _ _ => JUndef end))) in
  walletLedger s' = Val [entry "b"; entry "c"] /\
  forall j, [entry "b"; entry "c"] !! j = [entry "a"; entry "b"; entry "c"] !! (if j <? 0 then j else S j) /\
            is_open s' j = is_open s (if j <? 0 then j else S j).
Proof.
  intros cp s c. exact (delete_keeps_unfolded_rows cp c 0 (entry "a") 0 _ [entry "a"; entry "b"; entry "c"] eq_refl eq_refl).
Defined.
End Wallet.

(** ** Lists with the look-up of one item *)
Module LookupList.

(** What differs between purchases, subscriptions and notifications. *)
Record operations (Item Page : Type) := mkOps {
  items_of : Page -> opt (list Item);
  next_of : Page -> opt string;
  prev_of : Page -> opt string;
  list_request : opt string -> opt num -> opt string -> request;   (* user, limit, cursor *)
  get_request : opt string -> request;
  delete_request : option (Item -> request);     (* [None]: items cannot be deleted *)
  overwrites_user : bool          (* [ngOnInit] assigns the route's id even when it is missing *)
}.
Arguments items_of {Item Page} _ _.
Arguments next_of {Item Page} _ _.
Arguments prev_of {Item Page} _ _.
Arguments list_request {Item Page} _ _ _ _.
Arguments get_request {Item Page} _ _.
Arguments delete_request {Item Page} _.
Arguments overwrites_user {Item Page} _.

Section lookup.
Context {Item Page : Type} (ops : operations Item Page).

Record state := mkState {
  items : opt (list Item);
  rowsOpen : list (opt bool);
  error : jsval;
  nextCursor : opt string;
  prevCursor : opt string;
  userId : opt string;
  item_id : opt string
}.
#[export] Instance eta_state : Eta state := fun s =>
  mkState (items s) (rowsOpen s) (error s) (nextCursor s) (prevCursor s) (userId s) (item_id s).

Definition new_state : state := mkState (Val []) [] (JStr "") (Val "") (Val "") Und Und.

Definition limit : num := int 100.

Inductive subscription := Load | Get | Delete (i : nat) (x : Item).
Inductive confirmation := ConfirmDelete (i : nat) (x : Item).
Inductive event :=
| Init (route_id : opt string) (d : Page)
| InputChange (id : opt string) (first : bool)   (* [ngOnChanges] with the new value of the input *)
| LoadClick (cursor : opt string)
| ToggleRow (i : nat)
| DeleteClick (i : nat) (x : Item).

Abbreviation H := (M state (cmd subscription confirmation)).

(** [route_id] is [paramMap.get('id')]. *)
Definition ngOnInit (route_id : opt string) (d : Page) : H unit :=
  let paramUserId := nullish route_id "" in
  when (truthy_string paramUserId) (userId <~ Val paramUserId);;
  when (overwrites_user ops) (userId <~ route_id);;
  items <~ items_of ops d;;
  nextCursor <~ next_of ops d;;
  prevCursor <~ prev_of ops d.

Definition loadData (cursor : opt string) : H unit :=
  error <~ JStr "";;
  u ← gets userId;
  emit (Send Load (list_request ops u (Val limit) cursor)).

Definition load_next (res : Page) : H unit :=
  items <~ items_of ops res;;
  rowsOpen <~ [];;
  nextCursor <~ next_of ops res;;
  prevCursor <~ prev_of ops res.

Definition ngOnChanges (id : opt string) (firstChange : bool) : H unit :=
  item_id <~ id;;
  when (negb firstChange)
    (match id with
     | Val "" => loadData (Val "")
     | Val t =>
         item_id <~ Val (trim t);;
         emit (Send Get (get_request ops (Val (trim t))))
     | _ => ret tt
     end).

Definition toggleRow (i : nat) : H unit :=
  l ← gets items;
  flags ← gets rowsOpen;
  when (i <? length (nullish l []))
    (rowsOpen <~ array_set i (Val (negb (truthy_bool (array_get i flags)))) flags).

Definition delete_click (i : nat) (x : Item) : H unit :=
  when (bool_decide (is_Some (delete_request ops))) (emit (OpenConfirm (ConfirmDelete i x))).

Definition delete_confirmed (i : nat) (x : Item) : H unit :=
  emit (SetDisabled true);;
  error <~ JStr "";;
  match delete_request ops with
  | Some rq => emit (Send (Delete i x) (rq x))
  | None => ret tt
  end.

(** Only the items are spliced. *)
Definition delete_next (i : nat) : H unit :=
  error <~ JStr "";;
  l ← gets items;
  l ← force "Cannot read properties of undefined (reading 'splice')" l;
  items <~ Val (splice1 i l).

#[export] Instance page : Component state event subscription confirmation := {
  resp k := match k with Load => Page | Get => Item | Delete _ _ => jsval end;
  on_event e :=
    match e with
    | Init id d => ngOnInit id d
    | InputChange id first => ngOnChanges id first
    | LoadClick cursor => loadData cursor
    | ToggleRow i => toggleRow i
    | DeleteClick i x => delete_click i x
    end;
  on_next k :=
    match k with
    | Load => load_next
    | Get => fun res => items <~ Val [res]
    | Delete i _ => fun _ => delete_next i
    end;
  on_error _ err := error <~ err;
  on_confirm d _ := match d with ConfirmDelete i x => delete_confirmed i x end;
  take_until _ := false
}.

(** The row at [i] is unfolded. *)
Definition is_open (s : state) (i : nat) : bool := truthy_bool (array_get i (rowsOpen s)).

Lemma lookup_delete_next_ok i l s : items s = Val l ->
  delete_next i s =
    (Ret tt, mkState (Val (splice1 i l)) (rowsOpen s) (JStr "") (nextCursor s) (prevCursor s) (userId s) (item_id s), []).
Proof. intros Hl. destruct s. simpl in Hl. by subst. Qed.

Lemma lookup_spec t s : t <> "" ->
  ngOnChanges (Val t) false s =
    (Ret tt, mkState (items s) (rowsOpen s) (error s) (nextCursor s) (prevCursor s) (userId s) (Val (trim t)),
     [Send Get (get_request ops (Val (trim t)))]).
Proof. intros Ht. destruct s, t; [done|reflexivity]. Qed.
End lookup.
Arguments state Item : clear implicits.
Arguments subscription Item : clear implicits.
Arguments confirmation Item : clear implicits.
Arguments event Item Page : clear implicits.
End LookupList.

(** [getStoreText], [formatStoreText] and [getRefundText], the same on both pages. *)
Fixpoint toLowerCase (s : string) : string :=
  match s with
  | "" => ""
  | String c s => String (if between 65 90 (byte_of c) then of_byte (byte_of c + 32) else c) (toLowerCase s)
  end.

(** [s[0] + s.slice(1).toLowerCase()], where an empty part has no first character. *)
Definition capitalize (s : string) : string :=
  match s with "" => "undefined" | String c s => String c (toLowerCase s) end.

Definition formatStoreText (label : string) : string :=
  String.concat " " (map capitalize (split_on "_" label)).

Definition ApiStoreProvider_name (p : ApiStoreProvider) : string :=
  match p with
  | APPLE_APP_STORE => "APPLE_APP_STORE"
  | GOOGLE_PLAY_STORE => "GOOGLE_PLAY_STORE"
  | HUAWEI_APP_GALLERY => "HUAWEI_APP_GALLERY"
  | FACEBOOK_INSTANT_STORE => "FACEBOOK_INSTANT_STORE"
  end.
Definition getStoreText (p : ApiStoreProvider) : string := formatStoreText (ApiStoreProvider_name p).
Definition getRefundText (time : string) : string :=
  if String.eqb time "1970-01-01T00:00:00Z" then "" else time.

Example getStoreText_ex :
  map getStoreText [APPLE_APP_STORE; GOOGLE_PLAY_STORE; HUAWEI_APP_GALLERY; FACEBOOK_INSTANT_STORE] =
  ["Apple App Store"; "Google Play Store"; "Huawei App Gallery"; "Facebook Instant Store"].
Proof. reflexivity. Qed.

(** ** [PurchasesComponent] *)
Module Purchases.
Definition ops (cp : ConfigParams) : LookupList.operations ApiValidatedPurchase ApiPurchaseList :=
  LookupList.mkOps _ _ ApiPurchaseList_validated_purchases ApiPurchaseList_cursor ApiPurchaseList_prev_cursor
    (listPurchases cp "") (getPurchase cp "") None false.
Definition page cp := LookupList.page (ops cp).
Definition PurchasesResolver (cp : ConfigParams) (route_id : opt string) : request :=
  listPurchases cp "" (Val (nullish route_id "")) (Val (int 100)) (Val "").
End Purchases.

(** ** [SubscriptionsComponent] *)
Module Subscriptions.
Definition ops (cp : ConfigParams) : LookupList.operations ApiValidatedSubscription ApiSubscriptionList :=
  LookupList.mkOps _ _ ApiSubscriptionList_validated_subscriptions ApiSubscriptionList_cursor
    ApiSubscriptionList_prev_cursor (listSubscriptions cp "") (getSubscription cp "")
    None true.
Definition page cp := LookupList.page (ops cp).
Definition SubscriptionsResolver (cp : ConfigParams) (route_id : opt string) : request :=
  listSubscriptions cp "" (Val (nullish route_id "")) (Val (int 100)) (Val "").
End Subscriptions.

(** ** [NotificationsComponent] *)
Module Notifications.
Definition ops (cp : ConfigParams) : LookupList.operations Notification NotificationList :=
  LookupList.mkOps _ _ NotificationList_notifications NotificationList_next_cursor NotificationList_prev_cursor
    (listNotifications cp "") (getNotification cp "") (Some (fun n => deleteNotification cp "" (Notification_id n))) false.
Definition page cp := LookupList.page (ops cp).
Definition NotificationsResolver (cp : ConfigParams) (route_id : opt string) : request :=
  listNotifications cp "" (Val (nullish route_id "")) (Val (int 100)) Und.
Definition deleteAllowed : UserRole -> bool := at_most USER_ROLE_MAINTAINER.
End Notifications.

(** Deleting a notification does not carry the unfolded rows along: after the answer,
    position [j] is unfolded exactly when it was before, although from the deleted position
    on it now holds the next notification; with the first of two notifications deleted while
    the second is unfolded, the second is shown folded. *)
Theorem notification_delete_shifts_rows cp c i n k f l
    (Hk : c_pending c !! k = Some (LookupList.Delete i n)) (Hl : LookupList.items (c_state c) = Val l) :
  let s := c_state c in
  let s' := c_state (exec (comp := Notifications.page cp) c (Respond (comp := Notifications.page cp) k f)) in
  LookupList.items s' = Val (splice1 i l) /\
  (forall j, LookupList.is_open s' j = LookupList.is_open s j) /\
  (forall x y, i = 0 -> l = [x; y] -> LookupList.is_open s 0 = false -> LookupList.is_open s 1 = true ->
     LookupList.items s' = Val [y] /\ LookupList.is_open s' 0 = false).
Proof.
  assert (E : exec (comp := Notifications.page cp) c (Respond (comp := Notifications.page cp) k f) =
    mkMachine (LookupList.mkState (Val (splice1 i l)) (LookupList.rowsOpen (c_state c)) (JStr "")
                 (LookupList.nextCursor (c_state c)) (LookupList.prevCursor (c_state c))
                 (LookupList.userId (c_state c)) (LookupList.item_id (c_state c)))
      (splice1 k (c_pending c)) (c_dialogs c) (c_trace c)).
  { erewrite exec_Respond; [|exact Hk|apply (LookupList.lookup_delete_next_ok i l _ Hl)]. done. }
  cbv zeta. rewrite E. split_and_all; [done..|]. intros x y -> -> H0 H1. by split.
Qed.

Definition note (id : string) : Notification := mkNotification Und Und Und (Val id) Und Und Und Und.

Lemma notification_delete_shifts_rows_witness :
  let cp := new_ConsoleService Und in
  let c := exec_all (comp := Notifications.page cp) (start LookupList.new_state)
    [User (LookupList.Init Nul (mkNotificationList Und (Val [note "a"; note "b"]) Und));
     User (LookupList.ToggleRow 1); User (LookupList.DeleteClick 0 (note "a")); Confirm 0 JUndef] in
  let s' := c_state (exec (comp := Notifications.page cp) c (Respond (comp := Notifications.page cp) 0
              (fun k => match k return resp (Component := Notifications.page cp) k with
                        | LookupList.Load => mkNotificationList Und Und Und
                        | LookupList.Get => note "" | LookupList.Delete _ _ => JUndef end))) in
  LookupList.items s' = Val [note "b"] /\ LookupList.is_open s' 0 = false.
Proof.
  intros cp c. refine (proj2 (proj2 (notification_delete_shifts_rows cp c 0 (note "a") 0 _ [note "a"; note "b"] _ _))
    (note "a") (note "b") _ _ _ _); reflexivity.
Defined.

(** Looking up one item, on each of the three pages: the identifier is trimmed before it
    is sent, an empty one asks for the first page of the list instead, and the answer shows
    that item alone; but the message of an earlier failure stays on the screen next to it. *)
Theorem lookup_shows_one_item {Item Page} (ops : LookupList.operations Item Page) s t x
    (Ht : t <> "") (f : forall k, resp (Component := LookupList.page ops) k) (Hf : f LookupList.Get = x) :
  let c := exec_all (comp := LookupList.page ops) (start s) [User (LookupList.InputChange (Val t) false)] in
  let c' := exec (comp := LookupList.page ops) c (Respond (comp := LookupList.page ops) 0 f) in
  c_trace c = [Send LookupList.Get (LookupList.get_request ops (Val (trim t)))] /\
  LookupList.items (c_state c') = Val [x] /\
  LookupList.error (c_state c') = LookupList.error s /\
  LookupList.nextCursor (c_state c') = LookupList.nextCursor s /\
  c_trace (exec (comp := LookupList.page ops) (start s) (User (LookupList.InputChange (Val "") false))) =
    [Send LookupList.Load (LookupList.list_request ops (LookupList.userId s) (Val (int 100)) (Val ""))].
Proof.
  cbv zeta.
  assert (E : exec_all (comp := LookupList.page ops) (start s) [User (LookupList.InputChange (Val t) false)] =
    mkMachine (LookupList.mkState (LookupList.items s) (LookupList.rowsOpen s) (LookupList.error s)
                 (LookupList.nextCursor s) (LookupList.prevCursor s) (LookupList.userId s) (Val (trim t)))
      [LookupList.Get] [] [Send LookupList.Get (LookupList.get_request ops (Val (trim t)))]).
  { by user_step by (LookupList.lookup_spec ops t s Ht). }
  rewrite E. subst x. by destruct s.
Qed.

Lemma lookup_shows_one_item_witness :
  let cp := new_ConsoleService Und in
  let f : forall k, resp (Component := Notifications.page cp) k :=
    fun k => match k return resp (Component := Notifications.page cp) k with
             | LookupList.Load => mkNotificationList Und Und Und
             | LookupList.Get => note "a" | LookupList.Delete _ _ => JUndef end in
  let c := exec_all (comp := Notifications.page cp) (start LookupList.new_state)
             [User (LookupList.InputChange (Val " a ") false)] in
  c_trace c = [Send LookupList.Get (getNotification cp "" (Val "a"))].
Proof.
  intros cp f. refine (proj1 (lookup_shows_one_item (Notifications.ops cp) LookupList.new_state " a " (note "a") _ f eq_refl)).
  discriminate.
Defined.
