(* ===== verification/SearchForms.v ===== *)
(** * The pages that look up one item: [purchases/], [subscriptions/], [notifications/]

    Each of them is a form with one field above the component of the account tab, to whose
    input it passes the text of the field when the user searches.  Angular calls the
    component's [ngOnChanges] when the value passed is another one than before. *)

From S2P Require Import Prelude Codec JsVal Runtime ConsoleTypes ConsoleService RowDeletion Accounts Lists AccountTabs.

Section search_form.
Context {Item Page : Type} (ops : LookupList.operations Item Page).

Abbreviation child_config := (config (LookupList.state Item) (LookupList.subscription Item) (LookupList.confirmation Item)).
Abbreviation child_action := (action (comp := LookupList.page ops) (LookupList.state Item) (LookupList.event Item Page)
  (LookupList.subscription Item) (LookupList.confirmation Item)).

(** The field of the form, the property bound to the input, and the component below. *)
Record state := mkState {
  searchForm : opt string;
  bound : opt string;
  child : child_config
}.

#[export] Instance eta_state : Eta state := fun s => mkState (searchForm s) (bound s) (child s).

Inductive action_ :=
| TypeId (v : string)
| SearchClick
| InChild (a : child_action).

(** [ngOnInit] of the page, then of the component, whose input is bound to [undefined];
    there is no account in the address. *)
Definition ngOnInit (d : Page) : state :=
  mkState (Val "") Und
    (exec_all (comp := LookupList.page ops) (start LookupList.new_state)
       [User (LookupList.InputChange Und true); User (LookupList.Init Nul d)]).

Definition search (s : state) : state := setf (f := bound) (fun _ => searchForm s) s.

(** Change detection, after the page's handler: passes the property on when it has changed. *)
Definition detect_changes (s s' : state) : state :=
  if decide (bound s' = bound s) then s'
  else setf (f := child) (fun c => exec (comp := LookupList.page ops) c (User (LookupList.InputChange (bound s') false))) s'.

(** Its input belongs to the page, and it is initialised once. *)
Definition of_user (a : child_action) : bool :=
  match a with User (LookupList.InputChange _ _) | User (LookupList.Init _ _) => false | _ => true end.

Definition exec_page (s : state) (a : action_) : state :=
  match a with
  | TypeId v => setf (f := searchForm) (fun _ => Val v) s
  | SearchClick => detect_changes s (search s)
  | InChild a => if of_user a then setf (f := child) (fun c => exec (comp := LookupList.page ops) c a) s else s
  end.

Definition exec_page_all (s : state) (l : list action_) : state := fold_left exec_page l s.

(** The page passes on what the component was last given. *)
Lemma search_again s : searchForm s = bound s -> exec_page s SearchClick = s.
Proof.
  intros E. cbn [exec_page]. unfold detect_changes, search. destruct s as [f b c]. cbn in *. subst f. by rewrite decide_True.
Qed.

Lemma search_other t s : searchForm s = Val t -> bound s <> Val t -> t <> "" ->
  exec_page s SearchClick =
    mkState (Val t) (Val t)
      (mkMachine (LookupList.mkState (LookupList.items (c_state (child s))) (LookupList.rowsOpen (c_state (child s)))
                    (LookupList.error (c_state (child s))) (LookupList.nextCursor (c_state (child s)))
                    (LookupList.prevCursor (c_state (child s))) (LookupList.userId (c_state (child s))) (Val (trim t)))
         (c_pending (child s) ++ [LookupList.Get]) (c_dialogs (child s))
         (c_trace (child s) ++ [Send LookupList.Get (LookupList.get_request ops (Val (trim t)))])).
Proof.
  intros Ef Eb Ht. cbn [exec_page]. unfold detect_changes, search. destruct s as [f b c]. cbn in *. subst f.
  rewrite decide_False by done. unfold setf. cbn. unfold run. rewrite (LookupList.lookup_spec ops t _ Ht). reflexivity.
Qed.

(** ** The properties *)

(** The requests of a run. *)
Definition sent_by (s : state) : list request :=
  flat_map (fun x => match x with Send _ r => [r] | _ => [] end) (c_trace (child s)).

(** Searching for an item: the text is trimmed and asked for once, and the answer shows
    that item alone; but after the user has gone back to the list, searching for the
    same text again asks for nothing and leaves the list on the screen, because the value
    bound to the component's input has not changed. *)
Theorem search_page_lookup s t x l
    (Hidle : c_pending (child s) = []) (Ht : t <> "") (Hnew : bound s <> Val t)
    (f : forall k, resp (Component := LookupList.page ops) k) (Hget : f LookupList.Get = x) (Hload : f LookupList.Load = l) :
  let found := exec_page_all s [TypeId t; SearchClick; InChild (Respond 0 f)] in
  let listed := exec_page_all found [InChild (User (LookupList.LoadClick (Val ""))); InChild (Respond 0 f)] in
  let again := exec_page_all listed [TypeId t; SearchClick] in
  sent_by found = sent_by s ++ [LookupList.get_request ops (Val (trim t))] /\
  LookupList.items (c_state (child found)) = Val [x] /\ c_pending (child found) = [] /\
  LookupList.items (c_state (child listed)) = LookupList.items_of ops l /\
  sent_by listed = sent_by found ++ [LookupList.list_request ops (LookupList.userId (c_state (child s))) (Val LookupList.limit) (Val "")] /\
  again = listed.
Proof.
  subst x l. intros found listed again.
  assert (Ef : found = mkState (Val t) (Val t)
    (mkMachine (LookupList.mkState (Val [f LookupList.Get]) (LookupList.rowsOpen (c_state (child s)))
                  (LookupList.error (c_state (child s))) (LookupList.nextCursor (c_state (child s)))
                  (LookupList.prevCursor (c_state (child s))) (LookupList.userId (c_state (child s))) (Val (trim t)))
       [] (c_dialogs (child s)) (c_trace (child s) ++ [Send LookupList.Get (LookupList.get_request ops (Val (trim t)))]))).
  { subst found. unfold exec_page_all. cbn [fold_left]. 
    rewrite (search_other t) by (try done; by destruct s). destruct s as [sf b c]. cbn in Hidle. cbn. by rewrite Hidle. }
  assert (El : exists st, listed = mkState (Val t) (Val t)
    (mkMachine st [] (c_dialogs (child s)) (c_trace (child s) ++ [Send LookupList.Get (LookupList.get_request ops (Val (trim t)))] ++
       [Send LookupList.Load (LookupList.list_request ops (LookupList.userId (c_state (child s))) (Val LookupList.limit) (Val ""))])) /\
    LookupList.items st = LookupList.items_of ops (f LookupList.Load)).
  { subst listed. rewrite Ef. rewrite app_assoc.
    exists (LookupList.mkState (LookupList.items_of ops (f LookupList.Load)) [] (JStr "") (LookupList.next_of ops (f LookupList.Load))
      (LookupList.prev_of ops (f LookupList.Load)) (LookupList.userId (c_state (child s))) (Val (trim t))).
    by split. }
  destruct El as (st & El & Eitems).
  split_and_all.
  - rewrite Ef. unfold sent_by. cbn [child c_trace]. by rewrite flat_map_app.
  - by rewrite Ef.
  - by rewrite Ef.
  - by rewrite El.
  - rewrite El, Ef. unfold sent_by. cbn [child c_trace]. by rewrite !flat_map_app, <- app_assoc.
  - subst again. rewrite El. unfold exec_page_all. cbn [fold_left]. by rewrite search_again.
Qed.
End search_form.

(** ** The three pages *)

Definition PurchasesListComponent (cp : ConfigParams) : state -> action_ (Purchases.ops cp) -> state := exec_page (Purchases.ops cp).
Definition SubscriptionsListComponent (cp : ConfigParams) : state -> action_ (Subscriptions.ops cp) -> state := exec_page (Subscriptions.ops cp).
Definition NotificationsListComponent (cp : ConfigParams) : state -> action_ (Notifications.ops cp) -> state := exec_page (Notifications.ops cp).

#[local] Abbreviation note_page := (Notifications.page (new_ConsoleService Und)).

Lemma search_page_lookup_witness :
  let ops := Notifications.ops (new_ConsoleService Und) in
  let f : forall k, resp (Component := note_page) k :=
    fun k => match k return resp (Component := note_page) k with
             | LookupList.Load => mkNotificationList Und (Val [note "a"; note "b"]) Und
             | LookupList.Get => note "a" | LookupList.Delete _ _ => JUndef end in
  let s := ngOnInit ops (mkNotificationList Und (Val [note "a"; note "b"]) Und) in
  let found := exec_page_all ops s [TypeId ops " a "; SearchClick ops; InChild ops (Respond (comp := note_page) 0 f)] in
  let listed := exec_page_all ops found [InChild ops (User (comp := note_page) (LookupList.LoadClick (Val "")));
                                         InChild ops (Respond (comp := note_page) 0 f)] in
  let again := exec_page_all ops listed [TypeId ops " a "; SearchClick ops] in
  sent_by found = [getNotification (new_ConsoleService Und) "" (Val "a")] /\
  LookupList.items (c_state (child found)) = Val [note "a"] /\ c_pending (child found) = [] /\
  LookupList.items (c_state (child listed)) = Val [note "a"; note "b"] /\
  sent_by listed = sent_by found ++ [listNotifications (new_ConsoleService Und) "" Und (Val (int 100)) (Val "")] /\
  again = listed.
Proof.
  intros ops f s. apply (search_page_lookup ops s " a " (note "a") (mkNotificationList Und (Val [note "a"; note "b"]) Und)); try reflexivity; discriminate.
Defined.
