(* ===== verification/GroupPage.v ===== *)
(** * The page of one group: [GroupComponent] and its tabs

    One module for the page ([group/group.component.ts]: export and deletion), one for the
    form of its details ([group/details/]) and one for the members ([group/members/]), whose
    ranks are numbers that promotions lower and demotions raise. *)

From S2P Require Import Prelude Codec JsVal Runtime ConsoleTypes ConsoleService RowDeletion Accounts Lists.

(** ** [GroupComponent] *)
Module GroupArea.

(** The comments above the checks say "only admin and developers". *)
Definition updateAllowed : UserRole -> bool := at_most USER_ROLE_MAINTAINER.
Definition exportAllowed : UserRole -> bool := at_most USER_ROLE_MAINTAINER.
Definition banAllowed : UserRole -> bool := at_most USER_ROLE_MAINTAINER.
Definition deleteAllowed : UserRole -> bool := at_most USER_ROLE_MAINTAINER.
Definition GroupResolver (cp : ConfigParams) (id : opt string) : request := getGroup cp "" id.

Record state := mkState { error : jsval; group : opt ApiGroup }.
#[export] Instance eta_state : Eta state := fun s => mkState (error s) (group s).

Inductive subscription := Delete | Export.
Inductive confirmation := ConfirmDelete.
Inductive event := RouteData (g : opt ApiGroup) | DeleteClick | ExportClick.

Section group.
Context (cp : ConfigParams).

Abbreviation H := (M state (cmd subscription confirmation)).

Definition group_id : H (opt string) :=
  g ← gets group;
  g ← force "Cannot read properties of undefined (reading 'id')" g;
  ret (ApiGroup_id g).

Definition deleteGroup_confirmed : H unit :=
  emit (SetDisabled true);;
  error <~ JStr "";;
  id ← group_id;
  emit (Send Delete (deleteGroup cp "" id)).

Definition exportGroup_click : H unit :=
  emit (SetDisabled true);;
  error <~ JStr "";;
  id ← group_id;
  emit (Send Export (exportGroup cp "" id)).

Definition export_next (answer : jsval) : H unit :=
  error <~ JStr "";;
  id ← group_id;
  emit (SaveFile (js_String id +:+ "-export.json") answer);;
  emit (SetDisabled false).

#[export] Instance page : Component state event subscription confirmation := {
  resp _ := jsval;
  on_event e :=
    match e with
    | RouteData g => group <~ g
    | DeleteClick => emit (OpenConfirm ConfirmDelete)
    | ExportClick => exportGroup_click
    end;
  on_next k :=
    match k with
    | Delete => fun _ => error <~ JStr "";; emit (Navigate (mkNavigation ["/groups"] [] false))
    | Export => export_next
    end;
  on_error k err :=
    match k with
    | Delete => error <~ err
    | Export => emit (SetDisabled false);; error <~ err
    end;
  on_confirm _ _ := deleteGroup_confirmed;
  take_until _ := false
}.
End group.

(** Exporting a group disables the button while the request is in flight and enables it
    again in every case; the answer is saved under the identifier the group has when it
    arrives, and nothing is saved when the request fails. *)
Theorem export_restores_button cp g s answer err
    (Hg : group s = Val g) :
  let run l := exec_all (comp := page cp) (start s) l in
  c_trace (run [User ExportClick; Respond (comp := page cp) 0 (fun k => match k with Delete => answer | Export => answer end)]) =
    [SetDisabled true; Send Export (exportGroup cp "" (ApiGroup_id g));
     SaveFile (js_String (ApiGroup_id g) +:+ "-export.json") answer; SetDisabled false] /\
  c_trace (run [User ExportClick; Refuse 0 err]) =
    [SetDisabled true; Send Export (exportGroup cp "" (ApiGroup_id g)); SetDisabled false] /\
  c_state (run [User ExportClick; Refuse 0 err]) = mkState err (Val g).
Proof. destruct s as [e gr]. simpl in Hg. subst gr. intros run. subst run. split_and_all; reflexivity. Qed.

Lemma export_restores_button_witness :
  let cp := new_ConsoleService Und in
  let g := mkApiGroup Und Und Und Und Und (Val "g1") Und Und Und Und Und Und in
  c_trace (exec_all (comp := page cp) (start (mkState JUndef (Val g))) [User ExportClick; Refuse 0 JUndef]) =
    [SetDisabled true; Send Export (exportGroup cp "" (Val "g1")); SetDisabled false].
Proof.
  intros cp g. exact (proj1 (proj2 (export_restores_button cp g (mkState JUndef (Val g)) JUndef JUndef eq_refl))).
Defined.
End GroupArea.

(** ** [GroupDetailsComponent] *)
Module Details.

(** The form's [max_count] is the number of the group until the text input changes it
    into a string.  The control [open] starts as an empty text, which the group's data
    replaces at once; it is left out. *)
Record state := mkState {
  error : jsval;
  group : opt ApiGroup;
  name : opt string;
  description : opt string;
  avatar_url : opt string;
  lang_tag : opt string;
  open : opt bool;
  max_count : jsval;
  form_disabled : bool;
  updating : bool;
  updated : bool
}.
#[export] Instance eta_state : Eta state := fun s =>
  mkState (error s) (group s) (name s) (description s) (avatar_url s) (lang_tag s) (open s) (max_count s)
    (form_disabled s) (updating s) (updated s).

Definition new_state : state := mkState (JStr "") Und Und Und Und Und Und JUndef false false false.

Inductive subscription := Update.
Inductive event :=
| Init (g : opt ApiGroup) (role : UserRole)
| TypeForm (n d a l : string) (o : bool)
| TypeMaxCount (v : string)
| UpdateClick (editor : outcome string).

Section details.
Context (cp : ConfigParams).

Abbreviation H := (M state (cmd subscription Empty_set)).

Definition ngOnInit (d : opt ApiGroup) (role : UserRole) : H unit :=
  name <~ Val "";; description <~ Val "";; avatar_url <~ Val "";; lang_tag <~ Val "";;
  max_count <~ JStr "";;
  subscriber (
    group <~ d;;
    g ← force "Cannot read properties of undefined (reading 'name')" d;
    name <~ ApiGroup_name g;;
    description <~ ApiGroup_description g;;
    avatar_url <~ ApiGroup_avatar_url g;;
    lang_tag <~ ApiGroup_lang_tag g;;
    open <~ ApiGroup_open g;;
    max_count <~ of_opt_num (ApiGroup_max_count g);;
    when (negb (GroupArea.updateAllowed role)) (form_disabled <~ true)).

Definition max_count_error : jsval := JStr "Max Count cannot be lower than the number of members".

Definition updateGroup_click (editor : outcome string) : H unit :=
  error <~ JStr "";;
  updated <~ false;;
  updating <~ true;;
  match editor with
  | Throw e => error <~ e;; updating <~ false
  | Ret metadata =>
      m ← gets max_count;
      g ← gets group;
      g ← force "Cannot read properties of undefined (reading 'edge_count')" g;
      if num_ltb (Number_ m) (to_num (ApiGroup_edge_count g))
      then error <~ max_count_error;; updating <~ false
      else
        n ← gets name; d ← gets description; a ← gets avatar_url; l ← gets lang_tag; o ← gets open;
        emit (Send Update (updateGroup cp "" (ApiGroup_id g) (mkConsoleUpdateGroupBody a d l m (Val metadata) n o)))
  end.

#[export] Instance page : Component state event subscription Empty_set := {
  resp _ := jsval;
  on_event e :=
    match e with
    | Init g role => ngOnInit g role
    | TypeForm n d a l o =>
        name <~ Val n;; description <~ Val d;; avatar_url <~ Val a;; lang_tag <~ Val l;; open <~ Val o
    | TypeMaxCount v => max_count <~ JStr v
    | UpdateClick editor => updateGroup_click editor
    end;
  on_next _ _ := updated <~ true;; updating <~ false;
  on_error _ err := error <~ err;; updating <~ false;
  on_confirm d := match d with end;
  take_until _ := false
}.
End details.

Lemma updateGroup_spec cp metadata g s : group s = Val g ->
  let low := num_ltb (Number_ (max_count s)) (to_num (ApiGroup_edge_count g)) in
  updateGroup_click cp (Ret metadata) s =
    (Ret tt, mkState (if low then max_count_error else JStr "") (Val g) (name s) (description s) (avatar_url s)
               (lang_tag s) (open s) (max_count s) (form_disabled s) (negb low) false,
     if low then []
     else [Send Update (updateGroup cp "" (ApiGroup_id g)
             (mkConsoleUpdateGroupBody (avatar_url s) (description s) (lang_tag s) (max_count s) (Val metadata) (name s) (open s)))]).
Proof.
  intros Hg. destruct s. simpl in Hg. subst. unfold updateGroup_click. run_m. cbn -[num_ltb Number_ to_num].
  by destruct (num_ltb _ _).
Qed.

(** C38: the limit of members: a number typed into the form is sent exactly when it is not
    lower than the group's number of members, otherwise the page shows the error and sends
    nothing; the number is sent as the text that was typed. A text that is no number passes
    the check. *)
Theorem max_count_guard cp s g v k n
    (Hg : group s = Val g) (Hk : ApiGroup_edge_count g = Val (int k)) (Hv : Number (Val v) = n) :
  let c := exec_all (comp := page cp) (start s) [User (TypeMaxCount v); User (UpdateClick (Ret "{}"))] in
  (forall z, n = int z ->
     if (z <? k)%Z then c_trace c = [] /\ error (c_state c) = max_count_error /\ updating (c_state c) = false
     else exists body, c_trace c = [Send Update (updateGroup cp "" (ApiGroup_id g) body)] /\
            ConsoleUpdateGroupBody_max_count body = JStr v) /\
  (n = NaN -> exists body, c_trace c = [Send Update (updateGroup cp "" (ApiGroup_id g) body)] /\
                ConsoleUpdateGroupBody_max_count body = JStr v).
Proof.
  destruct s. simpl in Hg. subst group0. intros c. subst c. user_step.
  user_step by (updateGroup_spec cp "{}" g). cbn [max_count Number_ setf]. cbn [Number] in Hv. rewrite Hv, Hk. split.
  - intros z ->. cbn [to_num num_ltb]. unfold pow10. rewrite !Z.mul_1_r.
    destruct (z <? k)%Z; [done|]. eexists. split; reflexivity.
  - intros ->. eexists. split; reflexivity.
Qed.

Definition small_group : ApiGroup :=
  mkApiGroup Und Und Und Und (Val (int 5)) (Val "g1") Und (Val (int 10)) (Val "{}") (Val "five") (Val true) Und.

Lemma max_count_guard_witness :
  let cp := new_ConsoleService Und in
  let s := mkState (JStr "") (Val small_group) (Val "five") Und Und Und (Val true) (JNum (int 10)) false false false in
  let c := exec_all (comp := page cp) (start s) [User (TypeMaxCount "4"); User (UpdateClick (Ret "{}"))] in
  (if (4 <? 5)%Z then c_trace c = [] /\ error (c_state c) = max_count_error /\ updating (c_state c) = false
   else exists body, c_trace c = [Send Update (updateGroup cp "" (Val "g1") body)] /\
          ConsoleUpdateGroupBody_max_count body = JStr "4").
Proof.
  intros cp s c.
  refine (proj1 (max_count_guard cp s small_group "4" 5 (int 4) eq_refl eq_refl _) 4%Z eq_refl). reflexivity.
Defined.
End Details.

(** ** [GroupMembersComponent] *)
Module Members.

Record state := mkState {
  error : jsval;
  group : opt ApiGroup;
  members : list GroupUserListGroupUser;
  activeState : string;
  ids : opt string
}.
#[export] Instance eta_state : Eta state := fun s =>
  mkState (error s) (group s) (members s) (activeState s) (ids s).

Definition new_state : state := mkState (JStr "") Und [] "Add Member" (Val "").

Inductive subscription := Delete (i : nat) | Demote (i : nat) | Promote (i : nat) | Add.
Inductive event :=
| RouteData (d : ApiGroupUserList)
| ParentData (g : opt ApiGroup)
| DeleteClick (i : nat) (f : GroupUserListGroupUser)
| DemoteClick (i : nat) (f : GroupUserListGroupUser)
| PromoteClick (i : nat) (f : GroupUserListGroupUser)
| View (g : GroupUserListGroupUser)
| ChooseState (s : string)
| TypeIds (v : string)
| AddClick.

Section members.
Context (cp : ConfigParams) (router_url : string).

Abbreviation H := (M state (cmd subscription Empty_set)).

Definition group_id : H (opt string) :=
  g ← gets group;
  g ← force "Cannot read properties of undefined (reading 'id')" g;
  ret (ApiGroup_id g).
Definition user_id_of (f : GroupUserListGroupUser) : H (opt string) :=
  u ← force "Cannot read properties of undefined (reading 'id')" (GroupUserListGroupUser_user f);
  ret (ApiUser_id u).

Definition route_data (d : ApiGroupUserList) : H unit :=
  members <~ [];;
  l ← force "d[0].group_users is not iterable" (ApiGroupUserList_group_users d);
  members <~ l.

(** Unlike the other lists, this one deletes without asking. *)
Definition deleteGroupUser_click (i : nat) (f : GroupUserListGroupUser) : H unit :=
  emit (SetDisabled true);;
  emit PreventDefault;;
  error <~ JStr "";;
  u ← user_id_of f;
  g ← group_id;
  emit (Send (Delete i) (deleteGroupUser cp "" u g)).

Definition demoteGroupUser (i : nat) (f : GroupUserListGroupUser) : H unit :=
  error <~ JStr "";;
  g ← group_id;
  u ← user_id_of f;
  emit (Send (Demote i) (demoteGroupMember cp "" g u)).

Definition promoteGroupUser (i : nat) (f : GroupUserListGroupUser) : H unit :=
  error <~ JStr "";;
  g ← group_id;
  u ← user_id_of f;
  emit (Send (Promote i) (promoteGroupMember cp "" g u)).

(** [this.members[i].state++] and [--] *)
Definition change_state (step : opt num -> opt num) (i : nat) : H unit :=
  l ← gets members;
  match l !! i with
  | Some m => members <~ <[i := setf (f := GroupUserListGroupUser_state) step m]> l
  | None => throw (TypeError "Cannot read properties of undefined (reading 'state')")
  end.

Definition viewAccount (f : GroupUserListGroupUser) : H unit :=
  u ← user_id_of f;
  emit (Navigate (mkNavigation ["/accounts"; js_String u] [] false)).

Definition add : H unit :=
  v ← gets ids;
  a ← gets activeState;
  let body := mkConsoleAddGroupUsersBody v (Val (String.eqb a "Join")) in
  g ← group_id;
  emit (Send Add (addGroupUsers cp "" g body)).

#[export] Instance page : Component state event subscription Empty_set := {
  resp _ := jsval;
  on_event e :=
    match e with
    | RouteData d => subscriber (route_data d)
    | ParentData g => group <~ g
    | DeleteClick i f => deleteGroupUser_click i f
    | DemoteClick i f => demoteGroupUser i f
    | PromoteClick i f => promoteGroupUser i f
    | View f => viewAccount f
    | ChooseState s => activeState <~ s
    | TypeIds v => ids <~ Val v
    | AddClick => add
    end;
  on_next k :=
    match k with
    | Delete i => fun _ => l ← gets members; members <~ splice1 i l
    | Demote i => fun _ => change_state incr i
    | Promote i => fun _ => change_state decr i
    | Add => fun _ => error <~ JStr "";; emit (Navigate (mkNavigation [router_url] [] false))
    end;
  on_error _ err := error <~ err;
  on_confirm d := match d with end;
  take_until _ := false
}.
End members.

Definition editionAllowed : UserRole -> bool := at_most USER_ROLE_MAINTAINER.
Definition GroupMembersResolver (cp : ConfigParams) (id : opt string) : request := getMembers cp "" id.

(** The rank of a member: 0 superadmin, 1 admin, 2 member, 3 join request. *)
Definition rank (s : state) (i : nat) : option (opt num) := GroupUserListGroupUser_state <$> members s !! i.

Lemma change_state_ok step i s m : members s !! i = Some m ->
  change_state step i s =
    (Ret tt, setf (f := members) (fun l => <[i := setf (f := GroupUserListGroupUser_state) step m]> l) s, []).
Proof. intros Hm. destruct s. simpl in Hm. unfold change_state. run_m. cbn. by rewrite Hm. Qed.

Lemma incr_int z : incr (Val (int z)) = Val (int (z + 1)).
Proof. unfold incr. cbn. reflexivity. Qed.
Lemma decr_int z : decr (Val (int z)) = Val (int (z - 1)).
Proof. unfold decr. cbn. reflexivity. Qed.

(** Promoting and demoting a member: the request names the group and the user, and the
    answer moves the rank shown for that row by one, down in number for a promotion and up
    for a demotion, and no other row; a promotion followed by a demotion shows the rank it
    began with. The page sets no bound: it relies on the server to refuse the rest. *)
Theorem promote_demote cp url s g i m u z
    (Hg : group s = Val g) (Hm : members s !! i = Some m) (Hu : GroupUserListGroupUser_user m = Val u)
    (Hz : GroupUserListGroupUser_state m = Val (int z)) :
  let run l := exec_all (comp := page cp url) (start s) l in
  let answer := Respond (comp := page cp url) 0 (fun _ => JUndef) in
  c_trace (run [User (PromoteClick i m)]) = [Send (Promote i) (promoteGroupMember cp "" (ApiGroup_id g) (ApiUser_id u))] /\
  c_trace (run [User (DemoteClick i m)]) = [Send (Demote i) (demoteGroupMember cp "" (ApiGroup_id g) (ApiUser_id u))] /\
  rank (c_state (run [User (PromoteClick i m); answer])) i = Some (Val (int (z - 1))) /\
  rank (c_state (run [User (DemoteClick i m); answer])) i = Some (Val (int (z + 1))) /\
  rank (c_state (run [User (PromoteClick i m); answer; User (DemoteClick i m); answer])) i = Some (Val (int z)) /\
  (forall j, j <> i -> rank (c_state (run [User (PromoteClick i m); answer])) j = rank s j).
Proof.
  intros run answer.
  assert (Hp : forall s', group s' = Val g ->
    promoteGroupUser cp i m s' = (Ret tt, setf (f := error) (fun _ => JStr "") s',
      [Send (Promote i) (promoteGroupMember cp "" (ApiGroup_id g) (ApiUser_id u))])).
  { intros [] E. simpl in E. subst. destruct m. simpl in Hu. by subst. }
  assert (Hd : forall s', group s' = Val g ->
    demoteGroupUser cp i m s' = (Ret tt, setf (f := error) (fun _ => JStr "") s',
      [Send (Demote i) (demoteGroupMember cp "" (ApiGroup_id g) (ApiUser_id u))])).
  { intros [] E. simpl in E. subst. destruct m. simpl in Hu. by subst. }
  assert (Hi : i < length (members s)) by (by eapply lookup_lt_Some).
  subst run answer. split_and_all.
  - by user_step by Hp.
  - by user_step by Hd.
  - user_step by Hp. respond_step by (change_state_ok decr i _ m). unfold rank. cbn.
    rewrite list_lookup_insert_eq by done. cbn. by rewrite Hz, decr_int.
  - user_step by Hd. respond_step by (change_state_ok incr i _ m). unfold rank. cbn.
    rewrite list_lookup_insert_eq by done. cbn. by rewrite Hz, incr_int.
  - user_step by Hp. respond_step by (change_state_ok decr i _ m).
    user_step by Hd.
    rewrite exec_all_cons. erewrite exec_Respond; [|reflexivity|].
    2: { apply (change_state_ok incr i _ (setf (f := GroupUserListGroupUser_state) decr m)).
         by apply list_lookup_insert_eq. }
    simpl_config. unfold rank. cbn.
    rewrite list_insert_insert_eq, list_lookup_insert_eq by done. cbn -[incr decr]. rewrite Hz, decr_int, incr_int.
    by replace (z - 1 + 1)%Z with z by lia.
  - intros j Hj. user_step by Hp. respond_step by (change_state_ok decr i _ m). unfold rank. cbn.
    by rewrite list_lookup_insert_ne.
Qed.

Definition member_zed : GroupUserListGroupUser := mkGroupUserListGroupUser (Val (int 2))
  (Val (mkApiUser Und Und Und Und Und Und Und Und Und (Val "id-zed") Und Und Und Und Und Und Und Und (Val "zed"))).

Lemma promote_demote_witness :
  let cp := new_ConsoleService Und in
  let s := mkState (JStr "") (Val Details.small_group) [member_zed] "Add Member" (Val "") in
  rank (c_state (exec_all (comp := page cp "/groups/g1/members") (start s)
          [User (PromoteClick 0 member_zed); Respond (comp := page cp "/groups/g1/members") 0 (fun _ => JUndef)])) 0
    = Some (Val (int 1)).
Proof.
  intros cp s.
  exact (proj1 (proj2 (proj2 (promote_demote cp "/groups/g1/members" s Details.small_group 0 member_zed _ 2
    eq_refl eq_refl eq_refl eq_refl)))).
Defined.
End Members.
