(* ===== verification/StorageObject.v ===== *)
(** * [StorageObjectComponent] ([storage-object/storage-object.component.ts])

    The editor of one storage object, with the version that makes an update
    conditional, and the deletion of the object. *)

From S2P Require Import Prelude Codec JsVal Runtime ConsoleTypes ConsoleService Accounts Lists.

Definition updateAllowed : UserRole -> bool := at_most USER_ROLE_MAINTAINER.
Definition deleteAllowed : UserRole -> bool := at_most USER_ROLE_MAINTAINER.
Definition StorageObjectResolver (cp : ConfigParams) (collection key user_id : opt string) : request :=
  getStorage cp "" collection key user_id.

(** The form's controls; there is [keyname] and no [key]. *)
Record state := mkState {
  error : jsval;
  object : opt ApiStorageObject;
  collection : opt string;
  keyname : opt string;
  user_id : opt string;
  permission_read : opt num;
  permission_write : opt num;
  form_disabled : bool;
  updating : bool;
  updated : bool
}.
#[export] Instance eta_state : Eta state := fun s =>
  mkState (error s) (object s) (collection s) (keyname s) (user_id s) (permission_read s) (permission_write s)
    (form_disabled s) (updating s) (updated s).

Definition new_state : state :=
  mkState (JStr "") Und (Val "") (Val "") (Val "") (Val (int 0)) (Val (int 0)) false false false.

(** [version] is the variable that the callback captures. *)
Inductive subscription := Update (version : opt string) | Delete.
Inductive event :=
| Init (o : opt ApiStorageObject) (role : UserRole)
| TypeForm (c k u : string)
| ChoosePermissions (r w : Z)
| UpdateClick (editor : outcome string)
| DeleteClick.

Section object.
Context (cp : ConfigParams).

Abbreviation H := (M state (cmd subscription Empty_set)).

Definition the_object : H ApiStorageObject :=
  o ← gets object; force "Cannot read properties of undefined" o.

Definition ngOnInit (d : opt ApiStorageObject) (role : UserRole) : H unit :=
  subscriber (
    object <~ d;;
    o ← the_object;
    collection <~ ApiStorageObject_collection o;;
    keyname <~ ApiStorageObject_key o;;
    user_id <~ ApiStorageObject_user_id o;;
    permission_read <~ ApiStorageObject_permission_read o;;
    permission_write <~ ApiStorageObject_permission_write o;;
    when (negb (updateAllowed role)) (form_disabled <~ true)).

(** [version] is sent only when the object is written back in its place. *)
Definition version_to_send (o : ApiStorageObject) (c k u : opt string) : opt string :=
  if decide (ApiStorageObject_collection o = c /\ ApiStorageObject_key o = k /\ ApiStorageObject_user_id o = u)
  then ApiStorageObject_version o else Val "".

Definition updateObject (editor : outcome string) : H unit :=
  error <~ JStr "";;
  updated <~ false;;
  updating <~ true;;
  match editor with
  | Throw e => error <~ e;; updating <~ false
  | Ret value =>
      o ← the_object;
      c ← gets collection; k ← gets keyname; u ← gets user_id;
      r ← gets permission_read; w ← gets permission_write;
      let version := version_to_send o c k u in
      emit (Send (Update version) (writeStorageObject cp "" c k u
        (mkConsoleWriteStorageObjectBody r w (Val value) version)))
  end.

Definition update_next (version : opt string) (d : ApiStorageObjectAck) : H unit :=
  updated <~ true;;
  updating <~ false;;
  o ← the_object;
  object <~ Val (setf (f := ApiStorageObject_version) (fun _ => ApiStorageObjectAck_version d) o);;
  when (bool_decide (version = Val "")) (
    o ← the_object;
    c ← gets collection; k ← gets keyname; u ← gets user_id;
    r ← gets permission_read; w ← gets permission_write;
    object <~ Val (mkApiStorageObject c (ApiStorageObject_create_time o) k r w
                     (ApiStorageObject_update_time o) u (ApiStorageObject_value o) (ApiStorageObject_version o))).

Definition deleteObject : H unit :=
  error <~ JStr "";;
  updated <~ false;;
  updating <~ false;;
  o ← the_object;
  emit (Send Delete (deleteStorageObject cp "" (ApiStorageObject_collection o) (ApiStorageObject_key o)
    (ApiStorageObject_user_id o) (ApiStorageObject_version o))).

(** The value of a control of the form, by name; [None] is a missing control. *)
Definition control (s : state) (name : string) : option (opt string) :=
  if String.eqb name "collection" then Some (collection s)
  else if String.eqb name "keyname" then Some (keyname s)
  else if String.eqb name "user_id" then Some (user_id s)
  else None.
Definition control_value (name : string) : H (opt string) :=
  s ← gets (fun s => s);
  match control s name with
  | Some v => ret v
  | None => throw (TypeError "Cannot read properties of undefined (reading 'value')")
  end.

(** The callback of the deletion goes back to the list. *)
Definition delete_next : H unit :=
  c ← control_value "collection";
  k ← control_value "key";
  u ← control_value "user_id";
  emit (Navigate (mkNavigation ["/storage"]
    [("collection", of_opt c); ("key", of_opt k); ("user_id", of_opt u)] false)).

#[export] Instance page : Component state event subscription Empty_set := {
  resp k := match k with Update _ => ApiStorageObjectAck | Delete => jsval end;
  on_event e :=
    match e with
    | Init o role => ngOnInit o role
    | TypeForm c k u => collection <~ Val c;; keyname <~ Val k;; user_id <~ Val u
    | ChoosePermissions r w => permission_read <~ Val (int r);; permission_write <~ Val (int w)
    | UpdateClick editor => updateObject editor
    | DeleteClick => deleteObject
    end;
  on_next k := match k with Update version => update_next version | Delete => fun _ => delete_next end;
  on_error k err := match k with Update _ => error <~ err;; updating <~ false | Delete => error <~ err end;
  on_confirm d := match d with end;
  take_until _ := false
}.
End object.

(** ** Lemmas *)

Definition in_place (s : state) (o : ApiStorageObject) : Prop :=
  ApiStorageObject_collection o = collection s /\ ApiStorageObject_key o = keyname s /\
  ApiStorageObject_user_id o = user_id s.

Definition write_request cp (s : state) (o : ApiStorageObject) (value : string) : request :=
  writeStorageObject cp "" (collection s) (keyname s) (user_id s)
    (mkConsoleWriteStorageObjectBody (permission_read s) (permission_write s) (Val value)
       (version_to_send o (collection s) (keyname s) (user_id s))).

Lemma updateObject_spec cp value o s : object s = Val o ->
  updateObject cp (Ret value) s =
    (Ret tt, mkState (JStr "") (Val o) (collection s) (keyname s) (user_id s) (permission_read s)
               (permission_write s) (form_disabled s) true false,
     [Send (Update (version_to_send o (collection s) (keyname s) (user_id s))) (write_request cp s o value)]).
Proof. intros Ho. destruct s. simpl in Ho. by subst. Qed.

Lemma update_next_spec v d o s : object s = Val o ->
  update_next v d s =
    (Ret tt, mkState (error s)
       (Val (if decide (v = Val "")
             then mkApiStorageObject (collection s) (ApiStorageObject_create_time o) (keyname s) (permission_read s)
                    (permission_write s) (ApiStorageObject_update_time o) (user_id s) (ApiStorageObject_value o)
                    (ApiStorageObjectAck_version d)
             else setf (f := ApiStorageObject_version) (fun _ => ApiStorageObjectAck_version d) o))
       (collection s) (keyname s) (user_id s) (permission_read s) (permission_write s) (form_disabled s) false true, []).
Proof.
  intros Ho. destruct s. simpl in Ho. subst. unfold update_next. run_m. cbn -[bool_decide].
  destruct (decide (v = Val "")); [rewrite bool_decide_eq_true_2 by done|rewrite bool_decide_eq_false_2 by done]; by destruct o.
Qed.

Definition ack (v : string) : ApiStorageObjectAck := mkApiStorageObjectAck Und Und Und Und Und (Val v).
Definition answer cp (d : ApiStorageObjectAck) : action state event subscription Empty_set (comp := page cp) :=
  Respond (comp := page cp) 0 (fun k => match k return resp (Component := page cp) k with
                                        | Update _ => d | Delete => JUndef end).

(** ** The properties *)

(** Conditional updates: writing an object back in its place sends the version the page
    knows, and after the answer the next update sends the version of that answer, so that a
    sequence of updates by one user never fails on its own account; writing it elsewhere sends
    no version, and from the answer on the page edits the object that was written. *)
Theorem update_versions cp s o value value' v
    (Ho : object s = Val o) (Hv : v <> "") (Hov : ApiStorageObject_version o <> Val "") :
  let run l := exec_all (comp := page cp) (start s) l in
  (in_place s o ->
     c_trace (run [User (UpdateClick (Ret value)); answer cp (ack v); User (UpdateClick (Ret value'))]) =
       [Send (Update (ApiStorageObject_version o)) (writeStorageObject cp "" (collection s) (keyname s) (user_id s)
          (mkConsoleWriteStorageObjectBody (permission_read s) (permission_write s) (Val value) (ApiStorageObject_version o)));
        Send (Update (Val v)) (writeStorageObject cp "" (collection s) (keyname s) (user_id s)
          (mkConsoleWriteStorageObjectBody (permission_read s) (permission_write s) (Val value') (Val v)))]) /\
  (~ in_place s o ->
     c_trace (run [User (UpdateClick (Ret value)); answer cp (ack v); User (UpdateClick (Ret value'))]) =
       [Send (Update (Val "")) (writeStorageObject cp "" (collection s) (keyname s) (user_id s)
          (mkConsoleWriteStorageObjectBody (permission_read s) (permission_write s) (Val value) (Val "")));
        Send (Update (Val v)) (writeStorageObject cp "" (collection s) (keyname s) (user_id s)
          (mkConsoleWriteStorageObjectBody (permission_read s) (permission_write s) (Val value') (Val v)))]).
Proof.
  intros run. subst run. unfold answer. split; intros Hp.
  - user_step by (updateObject_spec cp value o). unfold write_request, version_to_send.
    rewrite decide_True by exact Hp.
    respond_step by (update_next_spec _ _ o). rewrite decide_False by exact Hov.
    user_step by (updateObject_spec cp value' (setf (f := ApiStorageObject_version) (fun _ => Val v) o)).
    unfold write_request, version_to_send. cbn. rewrite decide_True by exact Hp. done.
  - user_step by (updateObject_spec cp value o). unfold write_request, version_to_send.
    rewrite decide_False by exact Hp.
    respond_step by (update_next_spec _ _ o). rewrite decide_True by done.
    user_step by (updateObject_spec cp value' (mkApiStorageObject (collection s) (ApiStorageObject_create_time o) (keyname s)
      (permission_read s) (permission_write s) (ApiStorageObject_update_time o) (user_id s) (ApiStorageObject_value o) (Val v))).
    unfold write_request, version_to_send. cbn. rewrite decide_True by done. done.
Qed.

Definition save1 : ApiStorageObject :=
  mkApiStorageObject (Val "saves") Und (Val "slot1") (Val (int 1)) (Val (int 1)) Und (Val "u1") (Val "{}") (Val "v1").
Definition editing : state :=
  mkState (JStr "") (Val save1) (Val "saves") (Val "slot1") (Val "u1") (Val (int 1)) (Val (int 1)) false false false.

Lemma update_versions_witness :
  let cp := new_ConsoleService Und in
  c_trace (exec_all (comp := page cp) (start editing)
             [User (UpdateClick (Ret "1")); answer cp (ack "v2"); User (UpdateClick (Ret "2"))]) =
    [Send (Update (Val "v1")) (writeStorageObject cp "" (Val "saves") (Val "slot1") (Val "u1")
       (mkConsoleWriteStorageObjectBody (Val (int 1)) (Val (int 1)) (Val "1") (Val "v1")));
     Send (Update (Val "v2")) (writeStorageObject cp "" (Val "saves") (Val "slot1") (Val "u1")
       (mkConsoleWriteStorageObjectBody (Val (int 1)) (Val (int 1)) (Val "2") (Val "v2")))].
Proof.
  intros cp. refine (proj1 (update_versions cp editing save1 "1" "2" "v2" eq_refl _ _) _); [discriminate | discriminate |].
  repeat split.
Defined.

(** Deleting an object never leads back to the list: the deletion is sent with the object's
    version, and when the server has carried it out, the callback reads the control [key], which
    the form does not have, and throws; the user stays on the page of an object that is gone. *)
Theorem delete_does_not_navigate cp s o
    (Ho : object s = Val o) :
  let c := exec_all (comp := page cp) (start s) [User DeleteClick] in
  let c' := exec (comp := page cp) c (answer cp (ack "")) in
  c_trace c = [Send Delete (deleteStorageObject cp "" (ApiStorageObject_collection o) (ApiStorageObject_key o)
                 (ApiStorageObject_user_id o) (ApiStorageObject_version o))] /\
  (run (comp := page cp) delete_next (drop_pending 0 c)).1 = false /\
  c_trace c' = c_trace c /\ c_pending c' = [] /\ object (c_state c') = Val o.
Proof. destruct s. simpl in Ho. subst. intros c c'. subst c c'. split_and_all; reflexivity. Qed.

Lemma delete_does_not_navigate_witness :
  let cp := new_ConsoleService Und in
  let c := exec_all (comp := page cp) (start editing) [User DeleteClick] in
  c_trace (exec (comp := page cp) c (answer cp (ack ""))) =
    [Send Delete (deleteStorageObject cp "" (Val "saves") (Val "slot1") (Val "u1") (Val "v1"))].
Proof.
  intros cp c. destruct (delete_does_not_navigate cp editing save1 eq_refl) as (H1 & _ & H2 & _).
  exact (eq_trans H2 H1).
Defined.
