(* ===== verification/Viewers.v ===== *)
(** * What pages show without changing it

    The JSON editors of the pages, the page of the runtime modules, the details of a
    leaderboard, and the text that the account's page puts into the clipboard. *)

From S2P Require Import Prelude Codec JsVal Json Runtime ConsoleTypes ConsoleService Session RowDeletion Accounts Lists AccountPage AccountTabs GroupPage StorageObject.

(** ** The JSON editors *)

(** The properties that [ngAfterViewInit] passes to the editor, which is in text mode;
    [content] is missing when the server left the field out. *)
Record editor_props := mkEditorProps { content : opt string; readOnly : bool }.

(** What the pages rely on of the editor: untouched, it gives back the text it was opened
    with. *)
Class JsonEditor := {
  editor : Type;
  open_editor : editor_props -> editor;
  get_text : editor -> outcome string;       (* [toTextContent(editor.get()).text] *)
  get_untouched p t : content p = Val t -> get_text (open_editor p) = Ret t
}.

Definition profile_editor (role : UserRole) (u : ApiUser) : editor_props := mkEditorProps (ApiUser_metadata u) (negb (AccountPage.updateAllowed role)).
Definition wallet_editor (role : UserRole) (a : ApiAccount) : editor_props := mkEditorProps (ApiAccount_wallet a) (negb (Wallet.updateAllowed role)).
Definition group_editor (role : UserRole) (g : ApiGroup) : editor_props := mkEditorProps (ApiGroup_metadata g) (negb (GroupArea.updateAllowed role)).
Definition object_editor (role : UserRole) (o : ApiStorageObject) : editor_props := mkEditorProps (ApiStorageObject_value o) (negb (StorageObject.updateAllowed role)).

(** ** [LeaderboardDetailsComponent] ([leaderboard/details/details.component.ts]) *)

Definition orderString (n : num) : opt string :=
  if num_eqb n (int 0) then Val "Ascending" else if num_eqb n (int 1) then Val "Descending" else Und.

Definition operatorString (n : num) : opt string :=
  if num_eqb n (int 0) then Val "Best" else if num_eqb n (int 1) then Val "Set"
  else if num_eqb n (int 2) then Val "Increment" else if num_eqb n (int 3) then Val "Decrement" else Und.

(** ** [RuntimeComponent] ([runtime/runtime.component.ts]) *)
Module RuntimeModules.

Record state := mkState { error : jsval; runtimeInfo : opt RuntimeInfo }.
#[export] Instance eta_state : Eta state := fun s => mkState (error s) (runtimeInfo s).

Inductive event := RouteData (d : opt RuntimeInfo) | RouteError (err : jsval) | Destroy.

Definition new_state : state := mkState (JStr "") Und.

#[export] Instance page : Component state event Empty_set Empty_set := {
  resp k := match k with end;
  on_event e :=
    match e with
    | RouteData d => runtimeInfo <~ d
    | RouteError err => error <~ err
    | Destroy => ret tt
    end;
  on_next k := match k with end;
  on_error k := match k with end;
  on_confirm d := match d with end;
  take_until _ := false
}.

Definition RuntimeResolver (cp : ConfigParams) : request := getRuntime cp "".

(** The page shows the last answer of its resolver and sends nothing by itself. *)
Theorem shows_last_answer c0 c d :
  reachable (comp := page) c0 c ->
  c_trace c = c_trace c0 /\ runtimeInfo (c_state (exec (comp := page) c (User (RouteData d)))) = d.
Proof.
  intros Hr. split; [|by destruct c as [[] ? ? ?]].
  induction Hr as [|c a _ IH]; [done|]. rewrite <- IH. destruct a as [[]|i f|i e|i v|i]; cbn; try done.
  - by destruct (c_pending c !! i) as [[]|].
  - by destruct (c_pending c !! i) as [[]|].
  - by destruct (c_dialogs c !! i) as [[]|].
Qed.

Lemma shows_last_answer_witness :
  c_trace (start (K := Empty_set) (D := Empty_set) new_state) = [] /\
  runtimeInfo (c_state (exec (comp := page) (start new_state) (User (RouteData Nul)))) = Nul.
Proof. split; [reflexivity|]. apply (shows_last_answer (start new_state) (start new_state) Nul). constructor. Defined.
End RuntimeModules.

(** ** The clipboard: [copyDeviceIdToClipboard] of [AuthenticationComponent] *)

(** The text that is put into the area and copied: the identifier of the [i]-th device, as
    a text area shows it; [None] is the [TypeError] of a missing device. *)
Definition copyDeviceIdToClipboard (a : ApiAccount) (i : nat) : option string :=
  match ApiAccount_devices a with
  | Val l => (fun d => match ApiAccountDevice_id d with Val s => s | Nul => "" | Und => "undefined" end) <$> l !! i
  | _ => None
  end.

(** ** An update without an edit *)

Section unedited.
Context {json_editor : JsonEditor} (cp : ConfigParams).

Definition untouched (p : editor_props) : outcome string := get_text (open_editor p).

(** C28: an update without an edit sends back what was received: on the profile, the wallet,
    the details of a group and a storage object, opening the page and pressing the button
    sends one request with the very fields and the very text that the server had sent, the
    object's version included; but a group that has more members than its limit cannot be
    updated at all. *)
Theorem unedited_updates now role a u g o metadata wallet group_metadata value
    (Hu : ApiAccount_user a = Val u) (Hm : ApiUser_metadata u = Val metadata) (Hw : ApiAccount_wallet a = Val wallet)
    (Hg : ApiGroup_metadata g = Val group_metadata) (Ho : ApiStorageObject_value o = Val value) :
  c_trace (exec_all (comp := Area.page cp now) (start (Area.opened a))
     [User (Area.OpenProfile role); User (Area.UpdateProfileClick (untouched (profile_editor role u)))]) =
    [Send (Area.UpdateProfile 1) (updateAccount cp "" (ApiUser_id u)
       (mkConsoleUpdateAccountBody (ApiUser_avatar_url u) Und JUndef (ApiUser_display_name u) Und Und
          (ApiUser_location u) (ApiUser_metadata u) Und (ApiUser_timezone u) (ApiUser_username u) Und))] /\
  c_trace (exec_all (comp := Wallet.page cp) (start Wallet.new_state)
     [User (Wallet.ParentData (mkAccount (Val a) Und)); User (Wallet.UpdateClick (untouched (wallet_editor role a)))]) =
    [Send Wallet.Update (updateAccount cp "" (ApiUser_id u)
       (mkConsoleUpdateAccountBody Und Und JUndef Und Und Und Und Und Und Und Und (ApiAccount_wallet a)))] /\
  c_trace (exec_all (comp := Details.page cp) (start Details.new_state)
     [User (Details.Init (Val g) role); User (Details.UpdateClick (untouched (group_editor role g)))]) =
    (if num_ltb (Number_ (of_opt_num (ApiGroup_max_count g))) (to_num (ApiGroup_edge_count g)) then []
     else [Send Details.Update (updateGroup cp "" (ApiGroup_id g)
             (mkConsoleUpdateGroupBody (ApiGroup_avatar_url g) (ApiGroup_description g) (ApiGroup_lang_tag g)
                (of_opt_num (ApiGroup_max_count g)) (ApiGroup_metadata g) (ApiGroup_name g) (ApiGroup_open g)))]) /\
  c_trace (exec_all (comp := StorageObject.page cp) (start StorageObject.new_state)
     [User (StorageObject.Init (Val o) role); User (StorageObject.UpdateClick (untouched (object_editor role o)))]) =
    [Send (StorageObject.Update (ApiStorageObject_version o))
       (writeStorageObject cp "" (ApiStorageObject_collection o) (ApiStorageObject_key o) (ApiStorageObject_user_id o)
          (mkConsoleWriteStorageObjectBody (ApiStorageObject_permission_read o) (ApiStorageObject_permission_write o)
             (ApiStorageObject_value o) (ApiStorageObject_version o)))].
Proof.
  unfold untouched. rewrite (get_untouched _ metadata), (get_untouched _ wallet), (get_untouched _ group_metadata), (get_untouched _ value) by done.
  rewrite Hm, Hw, Hg, Ho. split_and_all.
  - destruct a. simpl in Hu. subst. destruct role; reflexivity.
  - destruct a. simpl in Hu. subst. reflexivity.
  - destruct role; user_step; user_step by (Details.updateGroup_spec cp group_metadata g); by destruct (num_ltb _ _).
  - destruct role; user_step; user_step by (StorageObject.updateObject_spec cp value o);
      unfold StorageObject.write_request, StorageObject.version_to_send; cbn; by rewrite decide_True.
Qed.
End unedited.

(** An editor with this law. *)
Definition text_editor : JsonEditor.
Proof.
  refine {| editor := editor_props; open_editor := fun p => p;
            get_text := fun e => match content e with Val t => Ret t | _ => Throw (TypeError "text is undefined") end |}.
  intros p t E. by rewrite E.
Defined.

Lemma unedited_updates_witness :
  let cp := new_ConsoleService Und in
  let u := setf (f := ApiUser_metadata) (fun _ => Val "{'level':3}") Area.zed in
  let a := setf (f := ApiAccount_user) (fun _ => Val u) Area.zed_account in
  c_trace (exec_all (comp := Area.page cp "1") (start (Area.opened a))
     [User (Area.OpenProfile USER_ROLE_MAINTAINER);
      User (Area.UpdateProfileClick (untouched (json_editor := text_editor) (profile_editor USER_ROLE_MAINTAINER u)))]) =
    [Send (Area.UpdateProfile 1) (updateAccount cp "" (ApiUser_id u)
       (mkConsoleUpdateAccountBody (ApiUser_avatar_url u) Und JUndef (ApiUser_display_name u) Und Und
          (ApiUser_location u) (Val "{'level':3}") Und (ApiUser_timezone u) (ApiUser_username u) Und))].
Proof.
  intros cp u a.
  apply (unedited_updates (json_editor := text_editor) cp "1" USER_ROLE_MAINTAINER a u Details.small_group save1 "{'level':3}" "{}" "{}" "{}");
    reflexivity.
Defined.
