(* ===== verification/Chat.v ===== *)
(** * [ChatListComponent] ([channels/chat-list.component.ts])

    The messages of a chat room, a group or a pair of users, with their deletion one by
    one or by age. *)

From S2P Require Import Prelude Codec JsVal Runtime ConsoleTypes ConsoleService RowDeletion Accounts Lists.
From Stdlib Require Import Ascii.

Record state := mkState {
  error : jsval;
  messages : list ApiChannelMessage;
  nextCursor : opt string;
  label : opt string;
  group_id : opt string;
  user_id_one : opt string;
  user_id_two : opt string;
  type : num;
  deleteError : jsval;
  deleteSuccess : bool;
  deleting : bool;
  totalDeleted : num;
  activeFilter : opt string;
  messageStatesOpen : list (opt bool);
  address : query_params            (* [route.snapshot.queryParamMap], kept by the router *)
}.

#[export] Instance eta_state : Eta state := fun s =>
  mkState (error s) (messages s) (nextCursor s) (label s) (group_id s) (user_id_one s) (user_id_two s)
    (type s) (deleteError s) (deleteSuccess s) (deleting s) (totalDeleted s) (activeFilter s)
    (messageStatesOpen s) (address s).

Definition systemUserId : string := "00000000-0000-0000-0000-000000000000".
Definition filters : list string := ["Chat Room"; "Group Chat"; "Direct Chat"].

(** [type] has no value before [ngOnInit] computes it. *)
Definition new_state : state :=
  mkState (JStr "") [] (Val "") (Val "") (Val "") (Val "") (Val "") NaN (JStr "") false false (int 0)
    (Val "") [] ∅.

Inductive subscription :=
| List_ (cursor : opt string)
| Delete (i : nat) (o : ApiChannelMessage)
| DeleteBefore.
Inductive confirmation := ConfirmDelete (i : nat) (o : ApiChannelMessage) | ConfirmDeleteData.

(** [d]: what the route resolved ([d[0]]) and the error its resolver recorded. *)
Inductive event :=
| Init (qp : query_params) (d0 : opt ApiChannelMessageList) (d_error : jsval)
| RouteData (d0 : opt ApiChannelMessageList) (d_error : jsval)
| Routed (qp : query_params)
| SetLabel (v : string) | SetGroup (v : string) | SetUserOne (v : string) | SetUserTwo (v : string)
| PickFilter (f : string)                (* (click)="activeFilter = f;" *)
| SearchAs (t : num)                     (* (click)="type=2; search(0)" *)
| SearchClick (state : Z)
| ToggleOpen (i : nat)
| DeleteClick (i : nat) (o : ApiChannelMessage)
| DeleteDataClick
| View (o : ApiChannelMessage).

Section chat.
Context (cp : ConfigParams).

(** [threshold.setDate(threshold.getDate() - days); threshold.toISOString()], which
    depends on the clock and the time zone; [None] is an invalid date. *)
Context (days_ago : num -> option string).

Abbreviation H := (M state (cmd subscription confirmation)).

Definition filter_of (t : num) : opt string :=
  if num_eqb t (int 2) then Val "Chat Room"
  else if num_eqb t (int 3) then Val "Group Chat"
  else if num_eqb t (int 4) then Val "Direct Chat"
  else Und.

Definition route_data (d0 : opt ApiChannelMessageList) (d_error : jsval) : H unit :=
  match d0 with
  | Val d =>
      error <~ JStr "";;
      messageStatesOpen <~ [];;
      messages <~ [];;
      l ← force "d[0].messages is not iterable" (ApiChannelMessageList_messages d);
      messages <~ l;;
      nextCursor <~ ApiChannelMessageList_next_cursor d
  | _ => ret tt
  end;;
  when (jtruthy d_error) (error <~ d_error).

Definition init_form (qp : query_params) : H unit :=
  address <~ qp;;
  label <~ qp_get "label" qp;;
  group_id <~ qp_get "group_id" qp;;
  user_id_one <~ qp_get "user_id_one" qp;;
  user_id_two <~ qp_get "user_id_two" qp;;
  nextCursor <~ qp_get "cursor" qp;;
  type <~ Number (qp_get "type" qp).

Definition init_type (qp : query_params) : H unit :=
  match qp !! "type" with
  | None => type <~ int 2;; activeFilter <~ Val "Chat Room"
  | Some _ =>
      t ← gets type;
      match filter_of t with
      | Val f => activeFilter <~ Val f
      | _ => error <~ JStr "Invalid type."
      end
  end.

Definition ngOnInit (qp : query_params) (d0 : opt ApiChannelMessageList) (d_error : jsval) : H unit :=
  init_form qp;;
  subscriber (route_data d0 d_error);;
  init_type qp.

(** The request for the messages of a type, when the type has one; shared by the page and
    its resolver, which spell it three times each. *)
Definition list_request (t : num) (label group_id user_id_one user_id_two cursor : opt string) : option request :=
  let type_ := Val (string_of_num t) in
  let cursor := Val (encodeURIComponent (js_String cursor)) in
  if num_eqb t (int 2) then Some (listChannelMessages cp "" type_ label Nul Nul Nul cursor)
  else if num_eqb t (int 3) then Some (listChannelMessages cp "" type_ Nul group_id Nul Nul cursor)
  else if num_eqb t (int 4) then Some (listChannelMessages cp "" type_ Nul Nul user_id_one user_id_two cursor)
  else None.

Definition updateMessages (t : num) (label group_id user_id_one user_id_two cursor : opt string) : H unit :=
  match list_request t label group_id user_id_one user_id_two cursor with
  | Some r => emit (Send (List_ cursor) r)
  | None => ret tt
  end.

Definition search (state : Z) : H unit :=
  next ← gets nextCursor;
  let cursor := match state with 1%Z => next | _ => Val "" end in
  t ← gets type; l ← gets label; g ← gets group_id; a ← gets user_id_one; b ← gets user_id_two;
  updateMessages t l g a b cursor.

(** The query string after a search. *)
Definition search_params (s : state) (cursor : opt string) : list (string * jsval) :=
  if num_eqb (type s) (int 2) then
    [("type", JNum (type s)); ("label", of_opt (label s)); ("cursor", of_opt cursor)]
  else if num_eqb (type s) (int 3) then
    [("type", JNum (type s)); ("group_id", of_opt (group_id s)); ("cursor", of_opt cursor)]
  else if num_eqb (type s) (int 4) then
    [("type", JNum (type s)); ("user_id_one", of_opt (user_id_one s)); ("user_id_two", of_opt (user_id_two s));
     ("cursor", of_opt cursor)]
  else [].

Definition postData (d : ApiChannelMessageList) (cursor : opt string) : H unit :=
  error <~ JStr "";;
  messageStatesOpen <~ [];;
  messages <~ [];;
  l ← force "d.messages is not iterable" (ApiChannelMessageList_messages d);
  messages <~ l;;
  nextCursor <~ ApiChannelMessageList_next_cursor d;;
  q ← gets (fun s => search_params s cursor);
  emit (Navigate (mkNavigation [] q false)).

Definition deleteMessage_confirmed (i : nat) (o : ApiChannelMessage) : H unit :=
  emit (SetDisabled true);;
  emit PreventDefault;;
  error <~ JStr "";;
  emit (Send (Delete i o) (deleteChannelMessages cp "" Nul (Val [ApiChannelMessage_message_id o]))).

Definition deleteMessage_next (i : nat) : H unit :=
  error <~ JStr "";;
  f ← gets messageStatesOpen;
  messageStatesOpen <~ splice1 i f;;
  l ← gets messages;
  messages <~ splice1 i l.

Definition deleteData_confirmed (formValue : jsval) : H unit :=
  deleteError <~ JStr "";;
  deleting <~ true;;
  match jget "days" formValue with
  | None => throw (TypeError "Cannot read properties of null (reading 'days')")
  | Some days =>
      match days_ago (Number_ days) with
      | None => throw (JError "RangeError" "Invalid time value")
      | Some before => emit (Send DeleteBefore (deleteChannelMessages cp "" (Val before) Nul))
      end
  end.

Definition deleteData_next (total : DeleteChannelMessagesResponse) : H unit :=
  totalDeleted <~ Number (DeleteChannelMessagesResponse_total total);;
  deleting <~ false;;
  deleteError <~ JStr "";;
  deleteSuccess <~ true;;
  qp ← gets address;
  let t := qp_get "type" qp in
  let l := if truthy_str (qp_get "label" qp) then qp_get "label" qp else Val "0" in
  let c := if truthy_str (qp_get "cursor" qp) then qp_get "cursor" qp else Val "" in
  when (truthy_str t)
    (updateMessages (Number t) l (qp_get "group_id" qp) (qp_get "user_id_one" qp) (qp_get "user_id_two" qp) c).

Definition deleteData_error (err : jsval) : H unit :=
  deleting <~ false;;
  deleteError <~ err.

Definition viewAccount (o : ApiChannelMessage) : H unit :=
  emit (Navigate (mkNavigation ["/accounts"; js_String (ApiChannelMessage_sender_id o)] [] false)).

Definition toggleOpen (i : nat) : H unit :=
  f ← gets messageStatesOpen;
  messageStatesOpen <~ array_set i (Val (negb (truthy_bool (array_get i f)))) f.

#[export] Instance page : Component state event subscription confirmation := {
  resp k := match k with
            | List_ _ => ApiChannelMessageList
            | Delete _ _ => jsval
            | DeleteBefore => DeleteChannelMessagesResponse
            end;
  on_event e :=
    match e with
    | Init qp d0 err => ngOnInit qp d0 err
    | RouteData d0 err => subscriber (route_data d0 err)
    | Routed qp => address <~ qp
    | SetLabel v => label <~ Val v
    | SetGroup v => group_id <~ Val v
    | SetUserOne v => user_id_one <~ Val v
    | SetUserTwo v => user_id_two <~ Val v
    | PickFilter f => activeFilter <~ Val f
    | SearchAs t => type <~ t;; search 0
    | SearchClick st => search st
    | ToggleOpen i => toggleOpen i
    | DeleteClick i o => emit (OpenConfirm (ConfirmDelete i o))
    | DeleteDataClick => emit (OpenConfirm ConfirmDeleteData)
    | View o => viewAccount o
    end;
  on_next k :=
    match k with
    | List_ cursor => fun d => postData d cursor
    | Delete i _ => fun _ => deleteMessage_next i
    | DeleteBefore => deleteData_next
    end;
  on_error k err :=
    match k with
    | List_ _ | Delete _ _ => error <~ err
    | DeleteBefore => deleteData_error err
    end;
  on_confirm d v :=
    match d with
    | ConfirmDelete i o => deleteMessage_confirmed i o
    | ConfirmDeleteData => deleteData_confirmed v
    end;
  take_until _ := false
}.
End chat.

Definition deleteAllowed : UserRole -> bool := at_most USER_ROLE_MAINTAINER.
Definition deleteMessagesAllowed : UserRole -> bool := at_most USER_ROLE_MAINTAINER.

(** [ChatSearchResolver]: [None] is the resolver's [of(null)]. *)
Definition ChatSearchResolver (cp : ConfigParams) (qp : query_params) : option request :=
  list_request cp (Number (qp_get "type" qp)) (qp_get "label" qp) (qp_get "group_id" qp)
    (qp_get "user_id_one" qp) (qp_get "user_id_two" qp) (qp_get "cursor" qp).

#[export] Instance chat_rows cp days_ago : RowDeletion (page cp days_ago) ApiChannelMessage.
Proof.
  refine {|
    rows := messages;
    del_click := DeleteClick;
    del_dialog := ConfirmDelete;
    del_sub := Delete;
    del_request := fun _ o => Some (deleteChannelMessages cp "" Nul (Val [ApiChannelMessage_message_id o]))
  |}.
  - reflexivity.
  - intros i r v s rq [= <-]. eexists _, [_; _]. split; [reflexivity|]. done.
  - intros i r a s. eexists. split; reflexivity.
  - intros i r e s. eexists. split; reflexivity.
Defined.

(** ** What a search sends *)

Lemma list_request_cursor cp t l g a b cursor rq :
  list_request cp t l g a b cursor = Some rq ->
  param_values "cursor" (req_params rq) =
    (if truthy_string (encodeURIComponent (js_String cursor)) then [encodeURIComponent (js_String cursor)] else []).
Proof.
  unfold list_request.
  destruct (num_eqb t (int 2)); [|destruct (num_eqb t (int 3)); [|destruct (num_eqb t (int 4)); [|done]]];
    intros [= <-]; unfold listChannelMessages, httpGet; cbn [req_params truthy];
    repeat match goal with |- context [if truthy ?t ?b then _ else _] => destruct (truthy t b) end;
    by destruct (truthy_string (string_of_num t)), (truthy_string (encodeURIComponent _)).
Qed.

Lemma encode_nonempty c : c <> "" -> truthy_string (encodeURIComponent c) = true.
Proof. destruct c as [|a c]; [done|]. intros _. simpl. by destruct (uri_unreserved a). Qed.

(** The cursor of the next page reaches the server as it was received: for the three
    types of chat the button sends one request with one [cursor] parameter, which holds
    the page's cursor percent-encoded (the server decodes the parameter once more than
    usual), without the [+] that the decoding of a query string turns into a space. *)
Theorem next_page_cursor cp da s c
    (Ht : is_Some (match filter_of (type s) with Val f => Some f | _ => None end))
    (Hc : nextCursor s = Val c) (Hne : c <> "") (Hu : utf8_valid c = true) :
  exists rq v, on_event (Component := page cp da) (SearchClick 1) s = (Ret tt, s, [Send (List_ (Val c)) rq]) /\
    req_url rq = ConfigParams_host cp +:+ "/v2/console/channel" /\
    param_values "cursor" (req_params rq) = [v] /\ decodeURIComponent v = Some c /\ string_has "+"%char v = false.
Proof.
  assert (exists rq, list_request cp (type s) (label s) (group_id s) (user_id_one s) (user_id_two s) (Val c) = Some rq
                     /\ req_url rq = ConfigParams_host cp +:+ "/v2/console/channel") as (rq & E & Hurl).
  { revert Ht. unfold list_request, filter_of.
    destruct (num_eqb _ (int 2)); [|destruct (num_eqb _ (int 3)); [|destruct (num_eqb _ (int 4))]];
      intros Ht; [by eexists..|by destruct Ht]. }
  exists rq, (encodeURIComponent c). split_and_all.
  - cbn [on_event page]. unfold search, updateMessages. run_m. rewrite Hc, E. reflexivity.
  - exact Hurl.
  - rewrite (list_request_cursor _ _ _ _ _ _ _ _ E). cbn [js_String]. by rewrite encode_nonempty.
  - by apply decodeURIComponent_encode.
  - by apply encodeURIComponent_no.
Qed.

Definition room : state :=
  setf (f := type) (fun _ => int 2) (setf (f := nextCursor) (fun _ => Val "a+b=") (setf (f := label) (fun _ => Val "lobby") new_state)).

Lemma next_page_cursor_witness :
  exists rq v, on_event (Component := page (new_ConsoleService Und) (fun _ => None)) (SearchClick 1) room =
      (Ret tt, room, [Send (List_ (Val "a+b=")) rq]) /\
    req_url rq = ConfigParams_host (new_ConsoleService Und) +:+ "/v2/console/channel" /\
    param_values "cursor" (req_params rq) = [v] /\ decodeURIComponent v = Some "a+b=" /\ string_has "+"%char v = false.
Proof.
  refine (next_page_cursor (new_ConsoleService Und) (fun _ => None) room "a+b=" _ eq_refl _ eq_refl);
    [by eexists|discriminate].
Defined.

(** An address with a type but no cursor loads nothing: the resolver percent-encodes
    the missing cursor, and asks the server for the page after the cursor [null]. *)
Theorem address_without_cursor cp qp rq
    (Hc : qp !! "cursor" = None) (Hrq : ChatSearchResolver cp qp = Some rq) :
  param_values "cursor" (req_params rq) = ["null"].
Proof.
  rewrite (list_request_cursor _ _ _ _ _ _ _ _ Hrq). unfold qp_get. by rewrite Hc.
Qed.

Lemma address_without_cursor_witness :
  exists rq, ChatSearchResolver (new_ConsoleService Und) {["type" := "2"; "label" := "lobby"]} = Some rq /\
  param_values "cursor" (req_params rq) = ["null"].
Proof.
  eexists. split; [reflexivity|].
  exact (address_without_cursor (new_ConsoleService Und) {["type" := "2"; "label" := "lobby"]} _ eq_refl eq_refl).
Defined.

(** ** Deletions *)

(** Runs a handler on an explicit state; the record is computed once per assignment. *)
Ltac run_state :=
  cbv beta iota zeta delta [when force subscriber try_catch mbind M_bind bind mret M_ret ret throw gets assign emit
    setf fst snd app error messages nextCursor label group_id user_id_one user_id_two type deleteError deleteSuccess
    deleting totalDeleted activeFilter messageStatesOpen address].

(** Deleting the old messages, from the click to the answer: the confirmed form's
    number of days becomes the threshold of one request for all messages before it; the
    answer is reported with its total, and the messages that the address stands for (not
    those of a form edited since) are asked for again. *)
Theorem old_messages_deleted cp da c v days before d rq
    (Hdays : jget "days" v = Some days) (Hbefore : da (Number_ days) = Some before)
    (qp := address (c_state c)) (Ht : truthy_str (qp_get "type" qp) = true)
    (cursor := if truthy_str (qp_get "cursor" qp) then qp_get "cursor" qp else Val "")
    (Hrq : list_request cp (Number (qp_get "type" qp))
             (if truthy_str (qp_get "label" qp) then qp_get "label" qp else Val "0")
             (qp_get "group_id" qp) (qp_get "user_id_one" qp) (qp_get "user_id_two" qp) cursor = Some rq) :
  let answer k : resp (Component := page cp da) k :=
    match k with List_ _ => mkApiChannelMessageList Und Und Und Und | Delete _ _ => JUndef | DeleteBefore => d end in
  let c' := exec_all (comp := page cp da) c
     [User DeleteDataClick; Confirm (length (c_dialogs c)) v; Respond (comp := page cp da) (length (c_pending c)) answer] in
  c_trace c' = c_trace c ++ [OpenConfirm ConfirmDeleteData;
                             Send DeleteBefore (deleteChannelMessages cp "" (Val before) Nul);
                             Send (List_ cursor) rq] /\
  c_pending c' = c_pending c ++ [List_ cursor] /\ c_dialogs c' = c_dialogs c /\
  totalDeleted (c_state c') = Number (DeleteChannelMessagesResponse_total d) /\
  deleting (c_state c') = false /\ deleteSuccess (c_state c') = true /\ messages (c_state c') = messages (c_state c).
Proof.
  intros answer c'. destruct c as [[e m nc lb gi u1 u2 ty de ds dg td af mo ad] p dl tr]. subst c' qp cursor.
  cbn [c_state c_dialogs c_pending c_trace address messages] in *.
  user_step. rewrite exec_all_cons.
  erewrite exec_Confirm; [|by apply list_lookup_middle|].
  2: { cbn [on_confirm page c_state]. unfold deleteData_confirmed. run_state. rewrite Hdays, Hbefore. reflexivity. }
  simpl_config. unfold drop_dialog. simpl_config.
  rewrite (splice1_middle dl [] ConfirmDeleteData), app_nil_r, exec_all_cons.
  erewrite exec_Respond; [|by apply list_lookup_middle|].
  2: { cbn [on_next page answer c_state]. unfold deleteData_next, updateMessages. run_state. rewrite Ht, Hrq. reflexivity. }
  simpl_config. rewrite (splice1_middle p [] DeleteBefore), app_nil_r, <- !app_assoc. done.
Qed.

Lemma old_messages_deleted_witness :
  let cp := new_ConsoleService Und in
  let da := fun d => if num_eqb d (int 30) then Some "2024-01-01T00:00:00.000Z" else None in
  let s := setf (f := address) (fun _ => {["type" := "2"; "label" := "lobby"]}) room in
  let answer k : resp (Component := page cp da) k :=
    match k with
    | List_ _ => mkApiChannelMessageList Und Und Und Und
    | Delete _ _ => JUndef
    | DeleteBefore => mkDeleteChannelMessagesResponse (Val "7")
    end in
  let c' := exec_all (comp := page cp da) (start s)
     [User DeleteDataClick; Confirm 0 (JObj [("delete", JStr "DELETE"); ("days", JStr "30")]);
      Respond (comp := page cp da) 0 answer] in
  c_trace c' = [OpenConfirm ConfirmDeleteData;
                Send DeleteBefore (deleteChannelMessages cp "" (Val "2024-01-01T00:00:00.000Z") Nul);
                Send (List_ (Val "")) (listChannelMessages cp "" (Val "2") (Val "lobby") Nul Nul Nul (Val ""))] /\
  c_pending c' = [List_ (Val "")] /\ c_dialogs c' = [] /\
  totalDeleted (c_state c') = int 7 /\
  deleting (c_state c') = false /\ deleteSuccess (c_state c') = true /\ messages (c_state c') = [].
Proof.
  exact (old_messages_deleted (new_ConsoleService Und) _
    (start (setf (f := address) (fun _ => {["type" := "2"; "label" := "lobby"]}) room))
    (JObj [("delete", JStr "DELETE"); ("days", JStr "30")]) (JStr "30") "2024-01-01T00:00:00.000Z"
    (mkDeleteChannelMessagesResponse (Val "7")) _ eq_refl eq_refl eq_refl eq_refl).
Defined.
