(* ===== verification/Matches.v ===== *)
(** * [MatchesComponent] ([matches/matches.component.ts])

    The running matches, searched by type, and the state of a match, which is fetched when
    its row is unfolded. *)

From S2P Require Import Prelude Codec JsVal Json Runtime ConsoleTypes ConsoleService RowDeletion Accounts.

Record state := mkState {
  error : jsval;
  matches : list MatchListMatch;
  matchStates : list (opt MatchState);
  matchStatesOpen : list (opt bool);
  updated : bool;
  f1_match_id : opt string;
  f2_match_id : opt string;
  f3_query : opt string;
  type : num;
  activeType : string;
  activeNode : opt string;
  nodes : list (opt string)
}.

#[export] Instance eta_state : Eta state := fun s =>
  mkState (error s) (matches s) (matchStates s) (matchStatesOpen s) (updated s) (f1_match_id s) (f2_match_id s)
    (f3_query s) (type s) (activeType s) (activeNode s) (nodes s).

Definition all_nodes : opt string := Val "All Nodes".

(** [type] has no value before [ngOnInit] computes it. *)
Definition new_state : state :=
  mkState (JStr "") [] [] [] false (Val "") (Val "") (Val "") NaN "All" all_nodes [all_nodes].

(** Runs a handler on an explicit state; the record is computed once per assignment. *)
Ltac run_state :=
  cbv beta iota zeta delta [when force subscriber try_catch mbind M_bind bind mret M_ret ret throw gets assign emit
    setf fst snd app error matches matchStates matchStatesOpen updated f1_match_id f2_match_id f3_query type
    activeType activeNode nodes].

Inductive subscription := List_ | State_ (i : nat).
Inductive event :=
| Init (qp : query_params) (d0 : opt MatchList) (d1 : opt (list (opt string))) (d_error : jsval)
| RouteData (d0 : opt MatchList) (d1 : opt (list (opt string))) (d_error : jsval)
| SetMatchId1 (v : string) | SetMatchId2 (v : string) | SetQuery (v : string)
| PickType (t : string)
| PickNode (n : opt string)
| SearchClick
| RowClick (i : nat) (m : MatchListMatch).

Section matches.
Context (cp : ConfigParams).

Abbreviation H := (M state (cmd subscription Empty_set)).

(** [list]; [None] is its [of(null)]. *)
Definition list_ (t : num) (matchId query node : opt string) : option request :=
  if num_eqb t (int 0) then Some (listMatches cp "" Nul JNull Nul Nul Nul matchId Und Und)
  else if num_eqb t (int 1) then Some (listMatches cp "" Nul (JBool true) Nul Nul Nul Nul query node)
  else if num_eqb t (int 2) then Some (listMatches cp "" Nul (JBool false) Nul Nul Nul matchId Und Und)
  else None.

Definition types : list string := ["All"; "Authoritative"; "Relayed"].

(** [this.types[t]] for the valid types *)
Definition type_name (t : num) : option string :=
  if num_eqb t (int 0) then types !! 0
  else if num_eqb t (int 1) then types !! 1
  else if num_eqb t (int 2) then types !! 2
  else None.

(** The new list, with the arrays of the row states cut or extended to its length. *)
Definition show_matches (d : MatchList) : H unit :=
  error <~ JStr "";;
  matches <~ [];;
  l ← force "d.matches is not iterable" (MatchList_matches d);
  matches <~ l;;
  st ← gets matchStates;
  matchStates <~ set_length (length l) st;;
  op ← gets matchStatesOpen;
  matchStatesOpen <~ set_length (length l) op.

Definition route_data (d0 : opt MatchList) (d1 : opt (list (opt string))) (d_error : jsval) : H unit :=
  match d0 with Val d => show_matches d | _ => ret tt end;;
  match d1 with
  | Val names => l ← gets nodes; nodes <~ (l ++ names)
  | _ => ret tt
  end;;
  when (jtruthy d_error) (error <~ d_error).

Definition init_form (qp : query_params) : H unit :=
  f1_match_id <~ qp_get "match_id" qp;;
  f2_match_id <~ qp_get "match_id" qp;;
  f3_query <~ qp_get "query" qp;;
  type <~ Number (qp_get "type" qp).

Definition init_type (qp : query_params) : H unit :=
  match qp !! "type" with
  | None => type <~ int 0;; activeType <~ "All"
  | Some _ =>
      t ← gets type;
      match type_name t with
      | Some n => activeType <~ n
      | None => error <~ JStr "Invalid type"
      end
  end.

Definition init_node (qp : query_params) : H unit :=
  match qp !! "node" with
  | None => ret tt
  | Some qNode =>
      l ← gets nodes;
      if bool_decide (Val qNode ∈ l) then activeNode <~ Val qNode
      else error <~ JStr "Invalid node."
  end.

Definition ngOnInit (qp : query_params) (d0 : opt MatchList) (d1 : opt (list (opt string))) (d_error : jsval) : H unit :=
  init_form qp;;
  subscriber (route_data d0 d1 d_error);;
  init_type qp;;
  init_node qp.

(** The position of the chosen type in [types]: the last one, or 0 when there is none. *)
Definition getType (s : state) : num :=
  Fin (Z.of_nat (fold_left (fun tp '(ix, t) => if String.eqb (activeType s) t then ix else tp)
                   (imap pair types) 0)) 0.

(** [this.activeNode === this.nodes[0] ? '' : this.activeNode] *)
Definition chosen_node (s : state) : opt string :=
  if decide (activeNode s = array_get 0 (nodes s)) then Val "" else activeNode s.

Definition search : H unit :=
  t ← gets getType;
  type <~ t;;
  m1 ← gets f1_match_id; m2 ← gets f2_match_id; q ← gets f3_query; n ← gets chosen_node;
  match list_ t (if num_eqb t (int 0) then m1 else m2) q n with
  | Some r => emit (Send List_ r)
  | None => subscriber (error <~ JStr "";; matches <~ [];;
                        throw (TypeError "Cannot read properties of null (reading 'matches')"))
  end.

(** The query string after a search. *)
Definition search_params (s : state) : list (string * jsval) :=
  if num_eqb (type s) (int 0) then [("type", JNum (type s)); ("match_id", of_opt (f1_match_id s))]
  else if num_eqb (type s) (int 1) then
    [("type", JNum (type s)); ("query", of_opt (f3_query s))] ++
    (if decide (activeNode s = array_get 0 (nodes s)) then [] else [("node", of_opt (activeNode s))])
  else if num_eqb (type s) (int 2) then [("type", JNum (type s)); ("match_id", of_opt (f2_match_id s))]
  else [].

Definition postData (d : MatchList) : H unit :=
  show_matches d;;
  q ← gets search_params;
  emit (Navigate (mkNavigation [] q false)).

Definition getMatchState (i : nat) (m : MatchListMatch) : H unit :=
  op ← gets matchStatesOpen;
  if truthy_bool (array_get i op) then ret tt
  else
    st ← gets matchStates;
    matchStates <~ array_set i Nul st;;
    error <~ JStr "";;
    a ← force "Cannot read properties of undefined (reading 'match_id')" (MatchListMatch_api_match m);
    emit (Send (State_ i) (ConsoleService.getMatchState cp "" (ApiMatch_match_id a))).

(** [matchStatesOpen[i] = !matchStatesOpen[i]], after [getMatchState] in the template. *)
Definition toggle (i : nat) : H unit :=
  op ← gets matchStatesOpen;
  matchStatesOpen <~ array_set i (Val (negb (truthy_bool (array_get i op)))) op.

Definition getMatchState_next (i : nat) (d : MatchState) : H unit :=
  op ← gets matchStatesOpen;
  matchStatesOpen <~ array_set i (Val true) op;;
  st ← gets matchStates;
  matchStates <~ array_set i (Val d) st.

Definition getMatchState_error (i : nat) (err : jsval) : H unit :=
  op ← gets matchStatesOpen;
  matchStatesOpen <~ array_set i (Val false) op;;
  st ← gets matchStates;
  matchStates <~ array_set i Nul st;;
  error <~ err.

#[export] Instance page : Component state event subscription Empty_set := {
  resp k := match k with List_ => MatchList | State_ _ => MatchState end;
  on_event e :=
    match e with
    | Init qp d0 d1 err => ngOnInit qp d0 d1 err
    | RouteData d0 d1 err => subscriber (route_data d0 d1 err)
    | SetMatchId1 v => f1_match_id <~ Val v
    | SetMatchId2 v => f2_match_id <~ Val v
    | SetQuery v => f3_query <~ Val v
    | PickType t => activeType <~ t
    | PickNode n => activeNode <~ n
    | SearchClick => search
    | RowClick i m => getMatchState i m;; toggle i
    end;
  on_next k :=
    match k with
    | List_ => postData
    | State_ i => getMatchState_next i
    end;
  on_error k err :=
    match k with
    | List_ => error <~ err
    | State_ i => getMatchState_error i err
    end;
  on_confirm d := match d with end;
  take_until _ := false
}.
End matches.

(** [getMatchPresencesString]: the presences as the server sent them, which the template shows
    as text. *)
Definition getMatchPresencesString (ps : jsval) : option string := stringify ps.

Lemma presences_readable ps : wf_json ps -> exists s, getMatchPresencesString ps = Some s /\ parse s = Some ps.
Proof. apply parse_stringify. Qed.

(** The resolvers: the request for the first list, and the node names of the answer to
    [getStatus] (an error, also of a missing list, gives none). *)
Definition MatchesResolver (cp : ConfigParams) (qp : query_params) : option request :=
  list_ cp (Number (qp_get "type" qp)) (qp_get "match_id" qp) (qp_get "query" qp) (qp_get "node" qp).

Definition NodesResolver (answer : option StatusList) : list (opt string) :=
  match answer with
  | Some r => match StatusList_nodes r with Val l => StatusListStatus_name <$> l | _ => [] end
  | None => []
  end.

(** ** The properties *)

Lemma show_matches_spec s d l : MatchList_matches d = Val l ->
  show_matches d s =
    (Ret tt, mkState (JStr "") l (set_length (length l) (matchStates s)) (set_length (length l) (matchStatesOpen s))
       (updated s) (f1_match_id s) (f2_match_id s) (f3_query s) (type s) (activeType s) (activeNode s) (nodes s), []).
Proof. destruct s, d. cbn. intros ->. unfold show_matches. by run_state. Qed.

Lemma postData_spec s d l : MatchList_matches d = Val l ->
  postData d s =
    (Ret tt, mkState (JStr "") l (set_length (length l) (matchStates s)) (set_length (length l) (matchStatesOpen s))
       (updated s) (f1_match_id s) (f2_match_id s) (f3_query s) (type s) (activeType s) (activeNode s) (nodes s),
     [Navigate (mkNavigation [] (search_params s) false)]).
Proof.
  intros Hd. unfold postData. rewrite (M_bind_ret _ _ _ _ _ _ (show_matches_spec s d l Hd)).
  by destruct s.
Qed.

Definition search_request cp s : option request :=
  let t := getType s in
  list_ cp t (if num_eqb t (int 0) then f1_match_id s else f2_match_id s) (f3_query s) (chosen_node s).

Lemma matches_search_spec cp s r : search_request cp s = Some r ->
  search cp s = (Ret tt, setf (f := type) (fun _ => getType s) s, [Send List_ r]).
Proof.
  intros E. destruct s as [e m st op up m1 m2 q t at_ an ns]. unfold search, chosen_node. run_state.
  unfold search_request, chosen_node in E. cbn [f1_match_id f2_match_id f3_query activeNode nodes] in E. by rewrite E.
Qed.


Lemma getType_cases s : getType s = int 0 \/ getType s = int 1 \/ getType s = int 2.
Proof.
  unfold getType. cbn [types imap fold_left compose].
  destruct (String.eqb _ "All"), (String.eqb _ "Authoritative"), (String.eqb _ "Relayed"); cbn; auto.
Qed.

Lemma listMatches_falsy cp l a lb mi ma id id' q q' n n' :
  js_String id = js_String id' \/ truthy_str id = false -> truthy_str id = truthy_str id' ->
  js_String q = js_String q' \/ truthy_str q = false -> truthy_str q = truthy_str q' ->
  js_String n = js_String n' \/ truthy_str n = false -> truthy_str n = truthy_str n' ->
  listMatches cp "" l a lb mi ma id q n = listMatches cp "" l a lb mi ma id' q' n'.
Proof.
  intros H1 E1 H2 E2 H3 E3. unfold listMatches. rewrite E1, E2, E3 in *.
  destruct H1 as [-> | ->], H2 as [-> | ->], H3 as [-> | ->]; done.
Qed.

(** What a field of the form becomes on its way through the address bar. *)
Definition readback (v : opt string) : opt string :=
  match Some (of_opt v) with Some JNull | Some JUndef | None => Nul | Some w => Val (String_ w) end.
Lemma readback_String v : js_String v = js_String (readback v) \/ truthy_str v = false.
Proof. destruct v as [| |v]; auto. Qed.
Lemma readback_truthy v : truthy_str v = truthy_str (readback v).
Proof. by destruct v as [| |v]. Qed.
#[local] Hint Resolve readback_String readback_truthy : core.

(** What a search depends on: the type last searched for, the fields, and the chosen node. *)
Definition searched_form (s : state) : num * opt string * opt string * opt string * opt string :=
  (type s, f1_match_id s, f2_match_id s, f3_query s, chosen_node s).

Definition form_request cp s : option request :=
  list_ cp (type s) (if num_eqb (type s) (int 0) then f1_match_id s else f2_match_id s) (f3_query s) (chosen_node s).

Definition known_type (s : state) : Prop := type s = int 0 \/ type s = int 1 \/ type s = int 2.

Lemma form_request_known cp s : known_type s -> is_Some (form_request cp s).
Proof. unfold form_request, list_. by intros [-> |[-> | ->]]. Qed.

Lemma form_request_same cp s s' : searched_form s = searched_form s' -> form_request cp s = form_request cp s'.
Proof. unfold searched_form, form_request. by intros [= -> -> -> -> ->]. Qed.

(** The address that a form is written to stands for the search of that form. *)
Lemma address_of_form cp s qp : known_type s -> address_after (mkNavigation [] (search_params s) false) qp ->
  MatchesResolver cp qp = form_request cp s.
Proof.
  intros Et Hq. unfold MatchesResolver. rewrite !(address_get _ _ _ Hq). unfold form_request, search_params, chosen_node, known_type in *.
  destruct s as [e m st op up m1 m2 q ty at_ an ns]. cbn [type f1_match_id f2_match_id f3_query activeNode nodes] in *.
  destruct Et as [-> | [-> | ->]].
  - change (Some (listMatches cp "" Nul JNull Nul Nul Nul (readback m1) Und Und) =
            Some (listMatches cp "" Nul JNull Nul Nul Nul m1 Und Und)).
    f_equal. symmetry. apply listMatches_falsy; auto.
  - destruct (decide (an = array_get 0 ns)).
    + change (Some (listMatches cp "" Nul (JBool true) Nul Nul Nul Nul (readback q) Nul) =
              Some (listMatches cp "" Nul (JBool true) Nul Nul Nul Nul q (Val ""))).
      f_equal. symmetry. apply listMatches_falsy; auto.
    + change (Some (listMatches cp "" Nul (JBool true) Nul Nul Nul Nul (readback q) (readback an)) =
              Some (listMatches cp "" Nul (JBool true) Nul Nul Nul Nul q an)).
      f_equal. symmetry. apply listMatches_falsy; auto.
  - change (Some (listMatches cp "" Nul (JBool false) Nul Nul Nul (readback m2) Und Und) =
            Some (listMatches cp "" Nul (JBool false) Nul Nul Nul m2 Und Und)).
    f_equal. symmetry. apply listMatches_falsy; auto.
Qed.

(** A click sends the search of the form and keeps its type. *)
Lemma search_click cp c : exists rq,
  exec (comp := page cp) c (User SearchClick) =
    mkMachine (setf (f := type) (fun _ => getType (c_state c)) (c_state c)) (c_pending c ++ [List_]) (c_dialogs c)
      (c_trace c ++ [Send List_ rq]) /\
  form_request cp (setf (f := type) (fun _ => getType (c_state c)) (c_state c)) = Some rq.
Proof.
  set (s' := setf (f := type) (fun _ => getType (c_state c)) (c_state c)).
  assert (Ht : known_type s') by (pose proof (getType_cases (c_state c)); by destruct (c_state c)).
  destruct (form_request_known cp s' Ht) as [rq E]. exists rq. split; [|exact E].
  assert (Es : search_request cp (c_state c) = Some rq) by (rewrite <- E; by destruct (c_state c)).
  erewrite exec_User by (by apply (matches_search_spec cp _ rq Es)). by destruct c.
Qed.

Definition first_opened (e : event) : bool := match e with Init _ _ _ _ => true | _ => false end.

Lemma known_type_kept cp c acts : known_type (c_state c) ->
  Forall (fun a : action state event subscription Empty_set (comp := page cp) =>
            match a with User e => first_opened e = false | _ => True end) acts ->
  known_type (c_state (exec_all (comp := page cp) c acts)).
Proof.
  intros H0. apply (exec_all_preserves (comp := page cp) known_type (fun e => first_opened e = false)); [done|..].
  - intros [] He; cbn [on_event page]; try discriminate He; try by intros s Hs.
    + intros s Hs. unfold route_data, show_matches. destruct s, d0 as [| |[[| |]]], d1, (jtruthy d_error) eqn:Ej; run_m; cbn; rewrite ?Ej; done.
    + intros s _. unfold search. run_m. pose proof (getType_cases s) as Ht. destruct s. cbn. destruct (list_ _ _ _ _ _); exact Ht.
    + intros s Hs. unfold getMatchState, toggle. destruct s. run_m. cbn. destruct (truthy_bool _); [done|]. by destruct (MatchListMatch_api_match m).
  - intros [] a; cbn [on_next page]; intros s Hs; [|by destruct s].
    unfold postData, show_matches. destruct s, a as [[| |]]; by run_m.
  - intros [] e; cbn [on_error page]; intros s Hs; by destruct s.
  - intros [].
Qed.

(** C23: the address stands for the form when the answer comes.  After a click on Search,
    whatever the user and the server do until one of the searches that wait is answered,
    the page that is loaded from the address it then writes sends the request of the
    form as it is at that moment, for the type that was last searched for.  So the search
    survives a reload, its request being the very same, if the form is the one that was
    clicked on; if the user has typed in between, the address does not say what was
    searched for but what was typed. *)
Theorem search_survives_reload cp c acts i (f : forall k, resp (Component := page cp) k) l
    (Hinit : Forall (fun a : action state event subscription Empty_set (comp := page cp) =>
               match a with User e => first_opened e = false | _ => True end) acts)
    (Hi : c_pending (exec_all (comp := page cp) (exec (comp := page cp) c (User SearchClick)) acts) !! i = Some List_)
    (Hl : MatchList_matches (f List_) = Val l) :
  let c1 := exec (comp := page cp) c (User SearchClick) in
  let c2 := exec_all (comp := page cp) c1 acts in
  exists rq rq' n,
    c_trace c1 = c_trace c ++ [Send List_ rq] /\
    c_trace (exec (comp := page cp) c2 (Respond i f)) = c_trace c2 ++ [Navigate n] /\
    (forall qp, address_after n qp -> MatchesResolver cp qp = Some rq') /\
    form_request cp (c_state c2) = Some rq' /\
    (searched_form (c_state c2) = searched_form (c_state c1) -> rq' = rq).
Proof.
  intros c1 c2. destruct (search_click cp c) as (rq & E1 & Erq).
  assert (Hk : known_type (c_state c2)).
  { apply known_type_kept; [|done]. unfold c1. rewrite E1. pose proof (getType_cases (c_state c)). by destruct (c_state c). }
  destruct (form_request_known cp _ Hk) as [rq' Erq'].
  exists rq, rq', (mkNavigation [] (search_params (c_state c2)) false). split_and_all.
  - unfold c1. by rewrite E1.
  - erewrite exec_Respond; [|exact Hi|apply (postData_spec _ _ l Hl)]. by rewrite absorb_trace.
  - intros qp Hq. by rewrite (address_of_form cp _ qp Hk Hq).
  - exact Erq'.
  - intros Ef. apply (form_request_same cp) in Ef. unfold c1 in Ef. rewrite E1 in Ef. cbn [c_state] in Ef. rewrite Erq', Erq in Ef. by injection Ef.
Qed.

Definition match_ (id : string) : MatchListMatch :=
  mkMatchListMatch (Val (mkApiMatch (Val true) Und Und (Val id) Und Und)) (Val "node1").

(** A search by identifier, answered at once, and after another identifier has been typed. *)
Lemma search_survives_reload_witness :
  let cp := new_ConsoleService Und in
  let s := setf (f := activeType) (fun _ => "Relayed") (setf (f := f2_match_id) (fun _ => Val "old") new_state) in
  let f : forall k, resp (Component := page cp) k := fun k =>
    match k with List_ => mkMatchList (Val [match_ "m1"]) | State_ _ => mkMatchState Und Und Und end in
  let c1 := exec (comp := page cp) (start s) (User SearchClick) in
  let c2 := exec (comp := page cp) c1 (User (SetMatchId2 "new")) in
  let r id := listMatches cp "" Nul (JBool false) Nul Nul Nul (Val id) Und Und in
  c_trace c1 = [Send List_ (r "old")] /\
  (exists n, c_trace (exec (comp := page cp) c1 (Respond 0 f)) = [Send List_ (r "old"); Navigate n] /\
     forall qp, address_after n qp -> MatchesResolver cp qp = Some (r "old")) /\
  (exists n, c_trace (exec (comp := page cp) c2 (Respond 0 f)) = [Send List_ (r "old"); Navigate n] /\
     forall qp, address_after n qp -> MatchesResolver cp qp = Some (r "new")).
Proof.
  intros cp s f c1 c2 r. split; [reflexivity|]. split.
  - destruct (search_survives_reload cp (start s) [] 0 f [match_ "m1"] ltac:(constructor) eq_refl eq_refl) as (rq & rq' & n & _ & H2 & H3 & H4 & _).
    exists n. split; [exact H2|]. intros qp Hq. rewrite (H3 qp Hq). symmetry. exact H4.
  - destruct (search_survives_reload cp (start s) [User (SetMatchId2 "new")] 0 f [match_ "m1"] ltac:(by repeat constructor) eq_refl eq_refl)
      as (rq & rq' & n & _ & H2 & H3 & H4 & _).
    exists n. split; [exact H2|]. intros qp Hq. rewrite (H3 qp Hq). symmetry. exact H4.
Defined.

(** The rows of a new list keep what was unfolded for the old one: after a search the
    state under row [i] (and whether it is shown) is that of the match which stood in row
    [i] before, although the row is now another match; rows beyond the old list are closed. *)
Theorem new_matches_keep_open_rows s d l (Hl : MatchList_matches d = Val l) :
  let s' := (postData d s).1.2 in
  matches s' = l /\ length (matchStates s') = length l /\ length (matchStatesOpen s') = length l /\
  forall i, i < length l -> array_get i (matchStates s') = array_get i (matchStates s) /\
                       array_get i (matchStatesOpen s') = array_get i (matchStatesOpen s).
Proof.
  cbv zeta. rewrite (postData_spec s d l Hl). cbn [fst snd matches matchStates matchStatesOpen].
  rewrite !set_length_length. split_and_all; [done..|]. intros i Hi. split; by apply array_get_set_length.
Qed.

Lemma new_matches_keep_open_rows_witness :
  let st := mkMatchState Und (Val "state of m1") (Val "5") in
  let s := mkState (JStr "") [match_ "m1"] [Val st] [Val true] false (Val "") (Val "") (Val "") (int 1) "All" all_nodes [all_nodes] in
  let s' := (postData (mkMatchList (Val [match_ "m2"; match_ "m3"])) s).1.2 in
  matches s' = [match_ "m2"; match_ "m3"] /\ length (matchStates s') = 2 /\ length (matchStatesOpen s') = 2 /\
  forall i, i < 2 -> array_get i (matchStates s') = array_get i [Val st] /\
                array_get i (matchStatesOpen s') = array_get i [Val true].
Proof.
  intros st s. exact (new_matches_keep_open_rows s (mkMatchList (Val [match_ "m2"; match_ "m3"])) _ eq_refl).
Defined.

Lemma getMatchState_spec cp s i m a :
  truthy_bool (array_get i (matchStatesOpen s)) = false -> MatchListMatch_api_match m = Val a ->
  on_event (Component := page cp) (RowClick i m) s =
    (Ret tt, mkState (JStr "") (matches s) (array_set i Nul (matchStates s))
               (array_set i (Val true) (matchStatesOpen s)) (updated s)
               (f1_match_id s) (f2_match_id s) (f3_query s) (type s) (activeType s) (activeNode s) (nodes s),
     [Send (State_ i) (ConsoleService.getMatchState cp "" (ApiMatch_match_id a))]).
Proof.
  intros Ho Ha. destruct s as [e ms st op up m1 m2 q t at_ an ns]. cbn [matchStatesOpen] in *.
  cbn [on_event page]. unfold getMatchState, toggle. run_state. by rewrite Ho, Ha, Ho.
Qed.

Lemma close_row_spec cp s i m :
  truthy_bool (array_get i (matchStatesOpen s)) = true ->
  on_event (Component := page cp) (RowClick i m) s =
    (Ret tt, mkState (error s) (matches s) (matchStates s)
               (array_set i (Val false) (matchStatesOpen s)) (updated s)
               (f1_match_id s) (f2_match_id s) (f3_query s) (type s) (activeType s) (activeNode s) (nodes s), []).
Proof.
  intros Ho. destruct s as [e ms st op up m1 m2 q t at_ an ns]. cbn [matchStatesOpen] in *.
  cbn [on_event page]. unfold getMatchState, toggle. run_state. by rewrite Ho, Ho.
Qed.

(** An answer unfolds its row: unfolding a match and folding it again before the answer
    sends one request, for the state of that match, and the answer unfolds the row with the
    state it carries, against the user's last click. *)
Theorem answer_unfolds_row cp s i m a d
    (Ho : truthy_bool (array_get i (matchStatesOpen s)) = false) (Ha : MatchListMatch_api_match m = Val a) :
  let answer k : resp (Component := page cp) k := match k with List_ => mkMatchList Und | State_ _ => d end in
  let c1 := exec_all (comp := page cp) (start s) [User (RowClick i m); User (RowClick i m)] in
  let c2 := exec_all (comp := page cp) c1 [Respond (comp := page cp) 0 answer] in
  array_get i (matchStatesOpen (c_state c1)) = Val false /\
  c_trace c2 = [Send (State_ i) (ConsoleService.getMatchState cp "" (ApiMatch_match_id a))] /\
  array_get i (matchStatesOpen (c_state c2)) = Val true /\ array_get i (matchStates (c_state c2)) = Val d /\
  matches (c_state c2) = matches s.
Proof.
  intros answer.
  assert (E : exec_all (comp := page cp) (start s) [User (RowClick i m); User (RowClick i m)] =
    mkMachine (mkState (JStr "") (matches s) (array_set i Nul (matchStates s))
                 (array_set i (Val false) (array_set i (Val true) (matchStatesOpen s))) (updated s)
                 (f1_match_id s) (f2_match_id s) (f3_query s) (type s) (activeType s) (activeNode s) (nodes s))
      [State_ i] [] [Send (State_ i) (ConsoleService.getMatchState cp "" (ApiMatch_match_id a))]).
  { user_step by (getMatchState_spec cp s i m a Ho Ha).
    rewrite exec_all_cons. erewrite exec_User; [|apply close_row_spec; cbn; by rewrite array_get_set]. done. }
  cbv zeta. rewrite E. cbn [c_state matchStatesOpen]. rewrite array_get_set.
  rewrite exec_all_cons. erewrite exec_Respond; [|reflexivity|].
  2: { cbn [on_next page c_state answer]. unfold getMatchState_next. run_state. reflexivity. }
  cbn [exec_all fold_left c_state c_trace matchStatesOpen matchStates matches]. by rewrite !array_get_set.
Qed.

Lemma answer_unfolds_row_witness :
  let cp := new_ConsoleService Und in
  let d := mkMatchState Und (Val "state") (Val "1") in
  let s := setf (f := matches) (fun _ => [match_ "m1"]) new_state in
  let answer k : resp (Component := page cp) k := match k with List_ => mkMatchList Und | State_ _ => d end in
  let c1 := exec_all (comp := page cp) (start s) [User (RowClick 0 (match_ "m1")); User (RowClick 0 (match_ "m1"))] in
  let c2 := exec_all (comp := page cp) c1 [Respond (comp := page cp) 0 answer] in
  array_get 0 (matchStatesOpen (c_state c1)) = Val false /\
  c_trace c2 = [Send (State_ 0) (ConsoleService.getMatchState cp "" (Val "m1"))] /\
  array_get 0 (matchStatesOpen (c_state c2)) = Val true /\ array_get 0 (matchStates (c_state c2)) = Val d /\
  matches (c_state c2) = [match_ "m1"].
Proof.
  intros cp d s. exact (answer_unfolds_row cp s 0 (match_ "m1") _ d eq_refl eq_refl).
Defined.
