(* ===== verification/Status.v ===== *)
(** * [StatusComponent] ([status/status.component.ts])

    The load of the server's nodes, polled on a timer and drawn as four graphs of a fixed
    number of samples for each node. *)

From S2P Require Import Prelude Codec JsVal Runtime ConsoleTypes ConsoleService.
From stdpp Require Import sorting.

(** A point in time: milliseconds ([None] is an invalid date), or what [new Date(ts)]
    makes of the timestamp of an answer. *)
Inductive date := DateMs (ms : option Z) | DateOf (ts : opt string).

Record point := mkPoint { point_name : date; point_value : opt num }.
Record node_series := mkSeries { node_name : opt string; series : list point }.

(** [timers]: the subscriptions to a timer that have not been unsubscribed, with their
    periods in milliseconds; [refreshTimer]: the one the page remembers.  [clock] is the
    time that [new Date()] reads. *)
Record state := mkState {
  error : jsval;
  statusData : opt StatusList;
  rateGraphData : list node_series;
  latencyGraphData : list node_series;
  inputGraphData : list node_series;
  outputGraphData : list node_series;
  rangeMinutes : num;
  timers : gmap nat (option Z);
  next_timer : nat;
  refreshTimer : option nat;
  clock : Z
}.

#[export] Instance eta_state : Eta state := fun s =>
  mkState (error s) (statusData s) (rateGraphData s) (latencyGraphData s) (inputGraphData s) (outputGraphData s)
    (rangeMinutes s) (timers s) (next_timer s) (refreshTimer s) (clock s).

(** Before [ngOnInit] there is no form; its only control has no number yet. *)
Definition new_state : state := mkState (JStr "") Und [] [] [] [] NaN ∅ 0 None 0.

(** Runs a handler on an explicit state; the record is computed once per assignment. *)
Ltac run_state :=
  cbv beta iota zeta delta [when force subscriber try_catch mbind M_bind bind mret M_ret ret throw gets assign emit
    setf fst snd app error statusData rateGraphData latencyGraphData inputGraphData outputGraphData rangeMinutes
    timers next_timer refreshTimer clock].

Inductive subscription := Refresh | Reset_.
Inductive event :=
| Init (nodeNames : opt (list (opt string)))
| RouteData (nodeNames : opt (list (opt string)))
| Tick (timer : nat)
| SetRange (value : string)
| Clock (now : Z)
| Destroy.

Definition samples : nat := 60.

Section status.
Context (cp : ConfigParams).

Abbreviation H := (M state (cmd subscription Empty_set)).

(** [Math.floor((rangeMinutes * 60) / samples)], in seconds; [None] is [NaN] or infinite. *)
Definition getPeriod (rangeMinutes : num) : option Z :=
  match rangeMinutes with
  | Fin m e => Some ((m * 60) / (pow10 e * Z.of_nat samples))%Z
  | _ => None
  end.

(** The loop of [generateSeries]: [n] more points, each a period before the last. *)
Fixpoint timestamps (n : nat) (pointTs : option Z) (period : option Z) : list (option Z) :=
  match n with
  | O => []
  | S n =>
      let p := t ← pointTs; d ← period; Some (t - d * 1000)%Z in
      p :: timestamps n p period
  end.

Definition generateSeries (now : Z) (rangeMinutes : num) : list point :=
  let pointTs := Some (now - now mod 1000)%Z in      (* setMilliseconds(0) *)
  (fun p => mkPoint (DateMs p) (Val (int 0))) <$> reverse (timestamps samples pointTs (getPeriod rangeMinutes)).

Definition initData (names : list (opt string)) : H unit :=
  now ← gets clock; r ← gets rangeMinutes;
  let g := (fun n => mkSeries n (generateSeries now r)) <$> names in
  latencyGraphData <~ g;;
  rateGraphData <~ g;;
  inputGraphData <~ g;;
  outputGraphData <~ g.

(** [Array.from(new Set(l))] *)
Fixpoint distinct (l : list (opt string)) : list (opt string) :=
  match l with [] => [] | x :: l => x :: base.filter (fun y => y <> x) (distinct l) end.

Definition diff (setA setB : list (opt string)) : list (opt string) :=
  base.filter (fun x => x ∉ setB) (distinct setA).

Definition shiftData (data : list point) (value : opt num) (ts : opt string) : list point :=
  drop 1 data ++ [mkPoint (DateOf ts) value].

(** [currentData.find(d => d.name === name)?.series] *)
Definition find_series (name : opt string) (g : list node_series) : option (list point) :=
  series <$> List.find (fun d => bool_decide (node_name d = name)) g.

Definition updateData (fresh : list point) (currentData : list node_series) (key : StatusListStatus -> opt num)
    (statusList : list StatusListStatus) (ts : opt string) : list node_series :=
  let missingNodes := diff (node_name <$> currentData) (StatusListStatus_name <$> statusList) in
  ((fun node => mkSeries (node_name node) (shiftData (series node) (Val (int 0)) ts)) <$>
     base.filter (fun node => node_name node ∈ missingNodes) currentData) ++
  ((fun node =>
      mkSeries (StatusListStatus_name node)
        (match find_series (StatusListStatus_name node) currentData with
         | Some currentSeries => shiftData currentSeries (key node) ts
         | None => shiftData fresh (key node) ts
         end)) <$> statusList).

Definition refresh : H unit := emit (Send Refresh (getStatus cp "")).

Definition refresh_next (data : StatusList) : H unit :=
  statusData <~ Val data;;
  now ← gets clock; r ← gets rangeMinutes;
  let fresh := generateSeries now r in
  let ts := StatusList_timestamp data in
  nodes ← force "Cannot read properties of undefined (reading 'map')" (StatusList_nodes data);
  g ← gets rateGraphData;
  rateGraphData <~ updateData fresh g StatusListStatus_avg_rate_sec nodes ts;;
  g ← gets latencyGraphData;
  latencyGraphData <~ updateData fresh g StatusListStatus_avg_latency_ms nodes ts;;
  g ← gets inputGraphData;
  inputGraphData <~ updateData fresh g StatusListStatus_avg_input_kbs nodes ts;;
  g ← gets outputGraphData;
  outputGraphData <~ updateData fresh g StatusListStatus_avg_output_kbs nodes ts.

(** [timer(0, period * 1000)] and its subscription. *)
Definition startTimer : H unit :=
  r ← gets rangeMinutes; n ← gets next_timer; t ← gets timers;
  timers <~ <[n := d ← getPeriod r; Some (d * 1000)%Z]> t;;
  refreshTimer <~ Some n;;
  next_timer <~ S n.

Definition stopTimer : H unit :=
  r ← gets refreshTimer; t ← gets timers;
  match r with Some n => timers <~ delete n t | None => ret tt end.

Definition route_data (nodeNames : opt (list (opt string))) : H unit :=
  names ← force "Cannot read properties of undefined (reading 'map')" nodeNames;
  initData names;;
  refresh;;
  startTimer.

Definition ngOnInit (nodeNames : opt (list (opt string))) : H unit :=
  rangeMinutes <~ int 10;;
  subscriber (route_data nodeNames).

Definition setRange (value : string) : H unit :=
  rangeMinutes <~ Number_of_string value;;
  emit (Send Reset_ (getStatus cp "")).

Definition reset_next (data : StatusList) : H unit :=
  nodes ← force "Cannot read properties of undefined (reading 'map')" (StatusList_nodes data);
  initData (StatusListStatus_name <$> nodes);;
  stopTimer;;
  startTimer.

Definition ngOnDestroy : H unit :=
  r ← gets refreshTimer;
  match r with
  | Some _ => stopTimer
  | None => throw (TypeError "Cannot read properties of undefined (reading 'unsubscribe')")
  end.

#[export] Instance page : Component state event subscription Empty_set := {
  resp _ := StatusList;
  on_event e :=
    match e with
    | Init names => ngOnInit names
    | RouteData names => subscriber (route_data names)
    | Tick n => t ← gets timers; match t !! n with Some _ => refresh | None => ret tt end
    | SetRange v => setRange v
    | Clock now => clock <~ now
    | Destroy => ngOnDestroy
    end;
  on_next k := match k with Refresh => refresh_next | Reset_ => reset_next end;
  on_error k err := match k with Refresh => emit (Report err) | Reset_ => error <~ err end;
  on_confirm d := match d with end;
  take_until _ := false
}.
End status.

(** The figures above the table; [None] is the [TypeError] of a missing list. *)
Definition total (f : StatusListStatus -> opt num) (d : StatusList) : option num :=
  match StatusList_nodes d with
  | Val l => Some (fold_left (fun acc v => num_add acc (match f v with Und => NaN | Nul => int 0 | Val n => n end)) l (int 0))
  | _ => None
  end.

Definition num_max (a b : num) : num :=
  match a, b with NaN, _ | _, NaN => NaN | _, _ => if num_ltb a b then b else a end.

(** [Math.max( ...l)]: minus infinity for no arguments. *)
Definition maximum (f : StatusListStatus -> opt num) (d : StatusList) : option num :=
  match StatusList_nodes d with
  | Val l => Some (fold_left (fun acc v => num_max acc (match f v with Und => NaN | Nul => int 0 | Val n => n end)) l
                     (Infinity true))
  | _ => None
  end.

Definition getTotalSessionCount := total StatusListStatus_session_count.
Definition getMaxSessionCount := maximum StatusListStatus_session_count.
Definition getMaxPresenceCount := maximum StatusListStatus_presence_count.
Definition getMaxMatchCount := maximum StatusListStatus_match_count.
Definition getTotalMatchCount := total StatusListStatus_match_count.
Definition getMaxGoroutineCount := maximum StatusListStatus_goroutine_count.
Definition getTotalGorountineCount := total StatusListStatus_goroutine_count.

(** ** The choice of a range *)

(** [ranges]; iterating over the keys of an object gives integers in ascending order. *)
Definition ranges : list (Z * string) := [
  (1%Z, "last 1 minute"); (10%Z, "last 10 minutes"); (30%Z, "last 30 minutes"); (60%Z, "last 1 hour"); (1440%Z, "last 24 hours")].
Definition rangesKeys : list Z := map fst ranges.

(** [SortNumbersPipe]: [items.sort((a, b) => a - b)]. *)
Definition sortNumbers (items : list Z) : list Z := merge_sort Z.le items.

(** The pipe gives the same numbers in ascending order, and so do all its later calls: it is
    impure and sorts the page's own list, each time change is detected. *)
Lemma sortNumbers_sorted items :
  StronglySorted Z.le (sortNumbers items) /\ sortNumbers items ≡ₚ items /\ sortNumbers (sortNumbers items) = sortNumbers items.
Proof.
  assert (Hs : forall l, StronglySorted Z.le (sortNumbers l)) by (intros l; apply StronglySorted_merge_sort; apply _).
  assert (Hp : forall l, sortNumbers l ≡ₚ l) by (intros l; apply merge_sort_Permutation).
  split_and_all; [done|done|]. apply (StronglySorted_unique Z.le); [done|done|apply Hp].
Qed.

Example options_in_order : sortNumbers rangesKeys = [1; 10; 30; 60; 1440]%Z.
Proof. vm_compute. reflexivity. Qed.

(** [GraphInitNodesResolver]: the names of the nodes, or none after an error. *)
Definition GraphInitNodesResolver (answer : option StatusList) : list (opt string) :=
  match answer with
  | Some r => match StatusList_nodes r with Val l => StatusListStatus_name <$> l | _ => [] end
  | None => []
  end.

(** ** Sixty samples in every graph *)

Definition full (n : node_series) : Prop := length (series n) = samples.
Definition graphs_full (s : state) : Prop :=
  Forall full (rateGraphData s) /\ Forall full (latencyGraphData s) /\
  Forall full (inputGraphData s) /\ Forall full (outputGraphData s).

Lemma length_timestamps n t d : length (timestamps n t d) = n.
Proof. revert t. induction n as [|n IH]; intros t; simpl; [done|]. by rewrite IH. Qed.

Lemma length_generateSeries now r : length (generateSeries now r) = samples.
Proof. unfold generateSeries. by rewrite length_fmap, length_reverse, length_timestamps. Qed.

Lemma length_shiftData l v ts : length l = samples -> length (shiftData l v ts) = samples.
Proof. intros H. unfold shiftData. rewrite length_app, length_drop, H. done. Qed.

Lemma find_series_full n g l : Forall full g -> find_series n g = Some l -> length l = samples.
Proof.
  intros Hg E. unfold find_series in E. destruct (List.find _ g) as [x|] eqn:F; [|done].
  apply find_some in F as [F _]. injection E as <-.
  apply (proj1 (Forall_forall full g) Hg). by apply list_elem_of_In.
Qed.
#[local] Hint Resolve length_generateSeries length_shiftData find_series_full : js.

Lemma updateData_full fresh g key l ts :
  length fresh = samples -> Forall full g -> Forall full (updateData fresh g key l ts).
Proof.
  intros Hf Hg. unfold updateData. apply Forall_app. split; apply Forall_fmap, Forall_forall; intros x Hx.
  - apply list_elem_of_filter in Hx as [_ Hx]. apply length_shiftData. by apply (proj1 (Forall_forall full g) Hg).
  - unfold full. simpl. destruct (find_series _ g) eqn:E; eauto with js.
Qed.

Lemma refresh_next_full d s : graphs_full s -> graphs_full (refresh_next d s).1.2.
Proof.
  destruct s. intros (H1 & H2 & H3 & H4). unfold refresh_next. run_state.
  destruct (StatusList_nodes d); [done..|]. unfold graphs_full.
  split_and_all; (apply updateData_full; [apply length_generateSeries|done]).
Qed.

Lemma initData_spec names s : exists g,
  initData names s = (Ret tt, mkState (error s) (statusData s) g g g g (rangeMinutes s) (timers s) (next_timer s)
                                (refreshTimer s) (clock s), []) /\ Forall full g.
Proof.
  destruct s. eexists. split; [unfold initData; by run_state|].
  apply Forall_fmap, Forall_forall. intros x _. apply length_generateSeries.
Qed.

Lemma route_data_full cp names s : graphs_full s -> graphs_full (subscriber (route_data cp names) s).1.2.
Proof.
  intros Hs. unfold route_data, subscriber, try_catch. destruct names as [| |names]; [done..|].
  destruct (initData_spec names s) as (g & E & Hg). destruct s.
  rewrite bind_force, (M_bind_ret _ _ _ _ _ _ E).
  unfold refresh, startTimer. by run_state.
Qed.

Lemma reset_next_full d s : graphs_full s -> graphs_full (reset_next d s).1.2.
Proof.
  intros Hs. unfold reset_next. destruct (StatusList_nodes d) as [| |nodes]; [done..|].
  destruct (initData_spec (StatusListStatus_name <$> nodes) s) as (g & E & Hg). destruct s.
  rewrite bind_force, (M_bind_ret _ _ _ _ _ _ E).
  unfold stopTimer, startTimer. run_state. by destruct refreshTimer0.
Qed.

Lemma on_event_full cp e s : graphs_full s -> graphs_full (on_event (Component := page cp) e s).1.2.
Proof.
  intros Hs. destruct e as [names|names|n|v|now|]; cbn [on_event page].
  - unfold ngOnInit. rewrite (M_bind_ret _ _ s tt (setf (f := rangeMinutes) (fun _ => int 10) s) [] eq_refl).
    assert (H1 : graphs_full (setf (f := rangeMinutes) (fun _ => int 10) s)) by (destruct s; exact Hs).
    pose proof (route_data_full cp names _ H1) as H2.
    destruct (subscriber _ _) as [[o s'] l]. exact H2.
  - by apply route_data_full.
  - destruct s. run_state. by destruct (_ !! n).
  - by destruct s.
  - by destruct s.
  - destruct s. unfold ngOnDestroy, stopTimer. run_state. by destruct refreshTimer0.
Qed.

(** C21: every line of every graph always has sixty samples: whatever answers arrive, with
    nodes that come and go, and whatever ranges are chosen, a series neither grows with
    the polling nor loses its history. *)
Theorem graphs_keep_their_length cp c
    (H : reachable (comp := page cp) (start new_state) c) : graphs_full (c_state c).
Proof.
  apply (reachable_handlers (comp := page cp) (fun s _ => graphs_full s) new_state); [..|exact H].
  - repeat split; constructor.
  - intros e s _. apply on_event_full.
  - intros [] d s _; [apply refresh_next_full|apply reset_next_full].
  - by intros [] e [] _.
  - intros [].
Qed.

Definition node (n : string) (rate : Z) : StatusListStatus :=
  mkStatusListStatus (Val (int 0)) (Val (int 1)) (Val (int 2)) (Val (int rate)) (Val (int 9)) Und (Val (int 0)) (Val n)
    (Val (int 3)) (Val (int 4)).

Lemma graphs_keep_their_length_witness :
  let cp := new_ConsoleService Und in
  let c := exec_all (comp := page cp) (start new_state)
    [User (Init (Val [Val "n1"]));
     Respond (comp := page cp) 0 (fun _ => mkStatusList (Val [node "n1" 5; node "n2" 6]) Und (Val "ts"))] in
  graphs_full (c_state c) /\ node_name <$> rateGraphData (c_state c) = [Val "n1"; Val "n2"].
Proof.
  intros cp c. split; [|vm_compute; reflexivity].
  apply (graphs_keep_their_length cp). apply reachable_exec_all.
Defined.

(** ** What an answer adds *)

Lemma distinct_elem x l : x ∈ distinct l <-> x ∈ l.
Proof.
  induction l as [|y l IH]; simpl; [done|]. rewrite !elem_of_cons, list_elem_of_filter, IH.
  destruct (decide (x = y)) as [-> |]; tauto.
Qed.

Lemma diff_elem x a b : x ∈ diff a b <-> x ∈ a /\ x ∉ b.
Proof. unfold diff. rewrite list_elem_of_filter, distinct_elem. tauto. Qed.

Lemma find_series_app n g g' :
  find_series n (g ++ g') = match find_series n g with Some l => Some l | None => find_series n g' end.
Proof.
  unfold find_series. induction g as [|x g IH]; simpl; [done|].
  by destruct (bool_decide _).
Qed.

Lemma find_series_none n g : n ∉ (node_name <$> g) -> find_series n g = None.
Proof.
  unfold find_series. induction g as [|x g IH]; simpl; [done|]. intros H. apply not_elem_of_cons in H as [H1 H2].
  rewrite bool_decide_eq_false_2 by congruence. by apply IH.
Qed.

Lemma find_series_statuses n (f : StatusListStatus -> list point) l :
  find_series n ((fun x => mkSeries (StatusListStatus_name x) (f x)) <$> l) =
  f <$> List.find (fun x => bool_decide (StatusListStatus_name x = n)) l.
Proof. unfold find_series. induction l as [|x l IH]; simpl; [done|]. by destruct (bool_decide _). Qed.

Lemma find_series_missing n (missing : list (opt string)) (f : list point -> list point) g : n ∈ missing ->
  find_series n ((fun x => mkSeries (node_name x) (f (series x))) <$> base.filter (fun x => node_name x ∈ missing) g) =
  f <$> find_series n g.
Proof.
  intros Hn. unfold find_series. induction g as [|x g IH]; simpl; [done|].
  destruct (decide (node_name x = n)) as [E|E].
  - rewrite filter_cons_True by (by rewrite E). simpl. by rewrite !bool_decide_eq_true_2 by done.
  - rewrite (bool_decide_eq_false_2 _ E). rewrite filter_cons. destruct (decide _); simpl; [|done].
    by rewrite (bool_decide_eq_false_2 _ E).
Qed.

Lemma find_none_names n l :
  List.find (fun x => bool_decide (StatusListStatus_name x = n)) l = None <-> n ∉ (StatusListStatus_name <$> l).
Proof.
  induction l as [|x l IH]; simpl; [by split; [intros _ H%elem_of_nil|]|].
  rewrite not_elem_of_cons, <- IH. case_bool_decide as E; [|split; [intros F; split; [congruence|done]|tauto]].
  split; [done|]. intros [H _]. by destruct H.
Qed.


(** ** The time axis *)

Lemma getPeriod_minutes m : getPeriod (int m) = Some m.
Proof. unfold getPeriod, samples, pow10. f_equal. change (10 ^ Z.of_nat 0 * Z.of_nat 60)%Z with 60%Z. by apply Z.div_mul. Qed.

Lemma timestamps_spec n t d :
  timestamps n (Some t) (Some d) = (fun i => Some (t - (Z.of_nat i + 1) * d * 1000)%Z) <$> seq 0 n.
Proof.
  revert t. induction n as [|n IH]; intros t; simpl; [done|]. f_equal; [f_equal; lia|].
  rewrite IH, <- (fmap_S_seq 0 n), <- list_fmap_compose. apply list_fmap_ext. intros i k _. simpl. f_equal. lia.
Qed.

(** The empty graph spans exactly the chosen range: for a range of [m] minutes its sixty
    points are [m] seconds apart, from [m] minutes before the current second up to one
    period before it, all of them zero. *)
Theorem empty_graph_spans_range now m :
  generateSeries now (int m) =
    (fun i => mkPoint (DateMs (Some (now - now mod 1000 - (60 - Z.of_nat i) * m * 1000)%Z)) (Val (int 0))) <$> seq 0 60.
Proof.
  unfold generateSeries. rewrite getPeriod_minutes, timestamps_spec. change samples with 60.
  set (t := (now - now mod 1000)%Z). cbn -[Z.mul Z.sub Z.of_nat].
  repeat (f_equal; [repeat f_equal; lia|]). done.
Qed.

(** ** The timer *)

(** Leaving the page while a new range is being loaded leaves a timer behind: the
    answer starts a timer that nothing stops any more, and every tick of it asks the
    server for its status. *)
Theorem polling_outlives_page cp s n v d nodes
    (Hr : refreshTimer s = Some n) (Hd : StatusList_nodes d = Val nodes) :
  let c := exec_all (comp := page cp) (start s)
    [User (SetRange v); User Destroy; Respond (comp := page cp) 0 (fun _ => d)] in
  let k := next_timer s in
  refreshTimer (c_state c) = Some k /\
  timers (c_state c) = <[k := p ← getPeriod (Number_of_string v); Some (p * 1000)%Z]> (delete n (timers s)) /\
  c_pending c = [] /\
  c_trace (exec (comp := page cp) c (User (Tick k))) = [Send Reset_ (getStatus cp ""); Send Refresh (getStatus cp "")].
Proof.
  destruct s as [e sd g1 g2 g3 g4 r ts nt rt cl]. cbn [refreshTimer next_timer timers] in *. subst rt.
  assert (E : exists g, exec_all (comp := page cp) (start (mkState e sd g1 g2 g3 g4 r ts nt (Some n) cl))
    [User (SetRange v); User Destroy; Respond (comp := page cp) 0 (fun _ => d)] =
    mkMachine (mkState e sd g g g g (Number_of_string v)
      (<[nt := p ← getPeriod (Number_of_string v); Some (p * 1000)%Z]> (delete n ts)) (S nt) (Some nt) cl)
      [] [] [Send Reset_ (getStatus cp "")]).
  { eexists. rewrite exec_all_cons. erewrite exec_User.
    2: { cbn [on_event page start c_state]. unfold setRange. run_state. reflexivity. }
    simpl_config. rewrite exec_all_cons. erewrite exec_User.
    2: { cbn [on_event page c_state]. unfold ngOnDestroy, stopTimer. run_state. reflexivity. }
    simpl_config. rewrite exec_all_cons. erewrite exec_Respond; [|reflexivity|].
    2: { cbn [on_next page c_state]. unfold reset_next, initData, stopTimer, startTimer. run_state. rewrite Hd. reflexivity. }
    simpl_config. by rewrite delete_delete_eq. }
  destruct E as [g E]. cbv zeta. rewrite E. split_and_all; [done..|].
  erewrite exec_User.
  2: { cbn [on_event page c_state]. unfold refresh. run_state. by rewrite lookup_insert_eq. }
  done.
Qed.

Lemma polling_outlives_page_witness :
  let cp := new_ConsoleService Und in
  let s := mkState (JStr "") Und [] [] [] [] (int 10) {[0 := Some 10000%Z]} 1 (Some 0) 0 in
  let c := exec_all (comp := page cp) (start s)
    [User (SetRange "30"); User Destroy; Respond (comp := page cp) 0 (fun _ => mkStatusList (Val [node "n1" 5]) Und (Val "ts"))] in
  refreshTimer (c_state c) = Some 1 /\
  timers (c_state c) = <[1 := Some 30000%Z]> (delete 0 {[0 := Some 10000%Z]}) /\
  c_pending c = [] /\
  c_trace (exec (comp := page cp) c (User (Tick 1))) = [Send Reset_ (getStatus cp ""); Send Refresh (getStatus cp "")].
Proof.
  intros cp s. exact (polling_outlives_page cp s 0 "30" (mkStatusList (Val [node "n1" 5]) Und (Val "ts")) _ eq_refl eq_refl).
Defined.
