(* ===== verification/Config.v ===== *)
(** * [ConfigComponent] ([config/config.component.ts])

    The server's configuration as a flat list of settings, the import of storage data from
    files, and the deletion of all data. *)

From S2P Require Import Prelude Codec JsVal Json Runtime ConsoleTypes ConsoleService Session.
From Stdlib Require Import Ascii Sorting.Sorted Sorting.Permutation.

Record setting := mkSetting { name : string; value : jsval }.

(** A dropped entry: a file or a directory. *)
Record file := mkFile { is_file : bool; file_name : string }.

Record state := mkState {
  configError : jsval;
  uploadError : jsval;
  deleteError : jsval;
  jsonConfig : jsval;
  flatConfig : list setting;
  layergVersion : opt string;
  uploading : bool;
  uploadSuccess : bool;
  deleteSuccess : bool;
  deleting : bool;
  reading : list file       (* dropped files whose content has been asked for *)
}.

#[export] Instance eta_state : Eta state := fun s =>
  mkState (configError s) (uploadError s) (deleteError s) (jsonConfig s) (flatConfig s) (layergVersion s)
    (uploading s) (uploadSuccess s) (deleteSuccess s) (deleting s) (reading s).

Definition new_state : state := mkState (JStr "") (JStr "") (JStr "") JUndef [] Und false false false false [].

(** Runs a handler on an explicit state; the record is computed once per assignment. *)
Ltac run_state :=
  cbv beta iota zeta delta [when force subscriber try_catch mbind M_bind bind mret M_ret ret throw gets assign emit
    setf fst snd app configError uploadError deleteError jsonConfig flatConfig layergVersion uploading uploadSuccess
    deleteSuccess deleting reading].

(** ** Flattening *)

(** [l.join(sep)]: a missing element is empty. *)
Definition array_join (sep : string) (l : list jsval) : string :=
  Json.join sep ((fun v => match v with JUndef | JNull => "" | _ => String_ v end) <$> l).

(** [traverseConfig(prefix, config, flattened)] for the properties of an object: what it
    appends.  Iterating over [null] appends nothing. *)
Fixpoint traverseConfig (prefix : string) (config : jsval) {struct config} : list setting :=
  match config with
  | JObj l =>
      (fix go (l : list (string * jsval)) : list setting :=
         match l with
         | [] => []
         | (key, v) :: l =>
             (if String.eqb key "env" then []
              else match v with
                   | JArr a => [mkSetting (prefix +:+ key) (JStr (array_join ", " a))]
                   | JObj _ | JNull | JError _ _ => traverseConfig (key +:+ ".") v
                   | _ => [mkSetting (prefix +:+ key) v]
                   end) ++ go l
         end) l
  | _ => []
  end.

Section flatten.
(** [a.localeCompare(b) <= 0], which depends on the locale. *)
Context (localeLe : string -> string -> bool).

(** [sort] is stable. *)
Fixpoint insert (x : setting) (l : list setting) : list setting :=
  match l with
  | [] => [x]
  | y :: l' => if localeLe (name x) (name y) then x :: l else y :: insert x l'
  end.
Definition sort (l : list setting) : list setting := foldr insert [] l.

Definition flattenConfig (config : jsval) : list setting := sort (traverseConfig "" config).

Definition isEmpty (v : jsval) : bool :=
  match v with
  | JStr s => String.eqb s ""
  | JNum n => num_eqb n (int 0)
  | _ => false
  end.

(** ** The handlers *)

Inductive subscription := Upload | DeleteAll.
Inductive confirmation := ConfirmDelete.
Inductive event :=
| RouteData (d : Config)
| Dropped (files : list file)
| FileRead (i : nat)                (* the callback of [fileEntry.file] *)
| DeleteClick.

Context (cp : ConfigParams).
Abbreviation H := (M state (cmd subscription confirmation)).

Definition ngOnInit (d : Config) : H unit :=
  layergVersion <~ Config_server_version d;;
  match parse (js_String (Config_config d)) with
  | None => throw SyntaxError
  | Some json =>
      jsonConfig <~ json;;
      flatConfig <~ flattenConfig json
  end.

Definition lower (c : ascii) : ascii :=
  let n := byte_of c in if between 65 90 n then of_byte (n + 32) else c.
Fixpoint toLowerCase (s : string) : string :=
  match s with "" => "" | String c s => String (lower c) (toLowerCase s) end.

(** The check of a dropped file's name. *)
Definition valid_name (n : string) : bool :=
  let tokens := split_on "." n in
  (1 <? length tokens) &&
  match last tokens with
  | Some t => String.eqb (toLowerCase t) "json" || String.eqb (toLowerCase t) "csv"
  | None => false
  end.

(** The loop of [dropped]: asks for the content of the valid files. *)
Fixpoint drop_files (files : list file) : H unit :=
  match files with
  | [] => ret tt
  | f :: files =>
      when (is_file f)
        (if valid_name (file_name f) then l ← gets reading; reading <~ (l ++ [f])
         else uploadError <~ JStr "Invalid file: must have extension .json or .csv");;
      drop_files files
  end.

Definition dropped (files : list file) : H unit :=
  uploadError <~ JStr "";;
  uploadSuccess <~ false;;
  drop_files files.

Definition uploadRequest (f : file) : request :=
  mkRequest POST (ConfigParams_host cp +:+ "/v2/console/storage/import") (FormBody [file_name f]) []
    {["Authorization" := "Bearer "]}.

Definition uploadFile (f : file) : H unit :=
  uploading <~ true;;
  emit (Send Upload (uploadRequest f)).

Definition upload_next : H unit :=
  uploading <~ false;;
  uploadSuccess <~ true.

Definition upload_error (err : jsval) : H unit :=
  uploading <~ false;;
  uploadError <~ err.

Definition deleteData_confirmed : H unit :=
  deleteError <~ JStr "";;
  deleting <~ true;;
  emit (Send DeleteAll (deleteAllData cp "")).

Definition deleteData_next : H unit :=
  deleting <~ false;;
  deleteError <~ JStr "";;
  deleteSuccess <~ true.

Definition deleteData_error (err : jsval) : H unit :=
  deleting <~ false;;
  deleteError <~ err.
Definition fileRead (i : nat) : H unit :=
  l ← gets reading;
  match l !! i with
  | Some f => reading <~ splice1 i l;; uploadFile f
  | None => ret tt
  end.

(** [exportYaml]: the name and the text of the file that is saved; [safeDump] is js-yaml's. *)
Definition exportYaml (safeDump : jsval -> outcome string) (s : state) : outcome (string * string) :=
  match safeDump (jsonConfig s) with
  | Ret text => Ret ("config.yaml", text)
  | Throw e => Throw e
  end.

#[export] Instance page : Component state event subscription confirmation := {
  resp _ := jsval;
  on_event e :=
    match e with
    | RouteData d => subscriber (ngOnInit d)
    | Dropped files => dropped files
    | FileRead i => fileRead i
    | DeleteClick => emit (OpenConfirm ConfirmDelete)
    end;
  on_next k _ := match k with Upload => upload_next | DeleteAll => deleteData_next end;
  on_error k err := match k with Upload => upload_error err | DeleteAll => deleteData_error err end;
  on_confirm _ _ := deleteData_confirmed;
  take_until _ := false
}.
End flatten.

Definition ConfigResolver (cp : ConfigParams) : request := getConfig cp "".

(** ** What the list of settings shows *)

(** Whatever a configuration sets, with its path: every value in it that is not an object
    itself, those under [env] and those that are [null] included. *)
Fixpoint entries (path : list string) (v : jsval) {struct v} : list (list string * jsval) :=
  match v with
  | JObj l =>
      (fix go (l : list (string * jsval)) :=
         match l with
         | [] => []
         | (key, w) :: l => entries (path ++ [key]) w ++ go l
         end) l
  | _ => [(path, v)]
  end.

(** What the page lists of it, and how: nothing below a key [env], and nothing that is
    [null], which the code takes for an object without keys. *)
Definition listed (e : list string * jsval) : bool :=
  negb (existsb (String.eqb "env") e.1) && match e.2 with JNull | JError _ _ => false | _ => true end.

(** The name on the page: the last key, with the one above it if there is one. *)
Definition shown_name (path : list string) : string :=
  match reverse path with
  | [] => ""
  | [k] => k
  | k :: k' :: _ => (k' +:+ ".") +:+ k
  end.

Definition shown_setting (e : list string * jsval) : setting :=
  mkSetting (shown_name e.1) (match e.2 with JArr a => JStr (array_join ", " a) | v => v end).

Definition path_prefix (path : list string) : string := match last path with Some k => k +:+ "." | None => "" end.

Lemma shown_name_snoc path k : shown_name (path ++ [k]) = path_prefix path +:+ k.
Proof.
  unfold shown_name, path_prefix. rewrite reverse_snoc. induction path as [|k' path _] using rev_ind; [done|].
  by rewrite reverse_snoc, last_snoc.
Qed.

Lemma entries_below path v e : e ∈ entries path v -> exists q, e.1 = path ++ q.
Proof.
  revert path. induction v as [| | | | | |l IH|] using jsval_nested_ind; intros path;
    try (intros ->%list_elem_of_singleton; exists []; by rewrite app_nil_r).
  cbn [entries]. induction IH as [|[k w] l Hw _ IHl]; [by intros ?%elem_of_nil|].
  intros [H|H]%elem_of_app; [|by apply IHl]. destruct (Hw _ H) as [q E]. exists (k :: q). by rewrite E, <- app_assoc.
Qed.

Lemma entries_env path v : List.filter listed (entries (path ++ ["env"]) v) = [].
Proof.
  assert (H : Forall (fun e => listed e = false) (entries (path ++ ["env"]) v)).
  { apply Forall_forall. intros e (q & E)%entries_below. unfold listed. rewrite E, !existsb_app. cbn [existsb]. by rewrite String.eqb_refl, orb_true_r. }
  induction H as [|e l He _ IH]; [done|]. cbn [List.filter]. by rewrite He.
Qed.

Lemma traverse_entries v path : existsb (String.eqb "env") path = false -> (exists l, v = JObj l) ->
  traverseConfig (path_prefix path) v = shown_setting <$> List.filter listed (entries path v).
Proof.
  intros Hp [l0 Hl0]. revert Hl0. revert l0 path Hp.
  induction v as [| | | | | |l IH|] using jsval_nested_ind; intros l0 path Hp Hl0; try discriminate Hl0. clear l0 Hl0.
  cbn [traverseConfig entries]. induction IH as [|[k w] l Hw _ IHl]; [done|]. rewrite List.filter_app, fmap_app, <- IHl. f_equal.
  destruct (String.eqb_spec k "env") as [->|Hne]; [by rewrite entries_env|].
  assert (Hp' : existsb (String.eqb "env") (path ++ [k]) = false).
  { rewrite existsb_app, Hp. cbn [existsb orb]. rewrite orb_false_r. apply String.eqb_neq. congruence. }
  assert (Hone : forall x, List.filter listed [(path ++ [k], x)] = match x with JNull | JError _ _ => [] | _ => [(path ++ [k], x)] end).
  { intros x. cbn [List.filter]. unfold listed. cbn [fst snd]. rewrite Hp'. by destruct x. }
  destruct w as [| |b|n|t|a|l'|e m]; cbn [entries]; try (rewrite Hone; cbn; unfold shown_setting; cbn [fst snd]; by rewrite ?shown_name_snoc).
  replace (k +:+ ".") with (path_prefix (path ++ [k])) by (unfold path_prefix; by rewrite last_snoc).
  exact (Hw l' (path ++ [k]) Hp' eq_refl).
Qed.

Lemma insert_perm le x l : Permutation (insert le x l) (x :: l).
Proof.
  induction l as [|y l IH]; simpl; [done|]. destruct (le _ _); [done|].
  rewrite IH. apply perm_swap.
Qed.

Lemma sort_perm le l : Permutation (sort le l) l.
Proof. unfold sort. induction l as [|x l IH]; simpl; [done|]. by rewrite insert_perm, IH. Qed.

Lemma insert_sorted le x l : (forall a b, le a b = true \/ le b a = true) ->
  Sorted (fun a b => le (name a) (name b) = true) l ->
  Sorted (fun a b => le (name a) (name b) = true) (insert le x l).
Proof.
  intros Htot. induction 1 as [|y l Hs IH Hy]; simpl; [by repeat constructor|].
  destruct (le (name x) (name y)) eqn:E; [by repeat constructor|].
  assert (le (name y) (name x) = true) by (destruct (Htot (name x) (name y)); congruence).
  constructor; [done|]. destruct Hy as [|z l Hz]; simpl; [by constructor|].
  destruct (le (name x) (name z)); by constructor.
Qed.

(** C24: the configuration page lists what the server's configuration sets, each setting
    exactly once, in the order of the locale, an array as the text of its elements: all of
    it but what stands below a key [env], which is meant, and what is [null], which is not:
    the server sends lists that were never set as [null], and these settings are missing
    from the page.  And a setting is named by its last two keys only, whatever the depth at
    which it stands. *)
Theorem config_shows_every_setting le l (Htot : forall a b, le a b = true \/ le b a = true) :
  Permutation (flattenConfig le (JObj l)) (shown_setting <$> List.filter listed (entries [] (JObj l))) /\
  Sorted (fun a b => le (name a) (name b) = true) (flattenConfig le (JObj l)).
Proof.
  unfold flattenConfig. change "" with (path_prefix []). rewrite traverse_entries by (by eauto). split; [apply sort_perm|].
  generalize (shown_setting <$> List.filter listed (entries [] (JObj l))). clear l. intros l.
  unfold sort. induction l as [|x l IH]; simpl; [constructor|]. by apply insert_sorted.
Qed.

Definition code_point_le (a b : string) : bool :=
  match String.compare a b with Gt => false | _ => true end.

Definition sample_config : jsval :=
  JObj [("name", JStr "node1");
        ("socket", JObj [("response_headers", JNull); ("protocols", JArr [JStr "a"; JStr "b"])]);
        ("runtime", JObj [("env", JArr [JStr "SECRET=1"]); ("http_key", JStr "k")]);
        ("iap", JObj [("apple", JObj [("shared_password", JStr "p")])]);
        ("social", JObj [("apple", JObj [("bundle_id", JStr "b")])])].

Lemma config_shows_every_setting_witness :
  length (entries [] sample_config) = 7 /\
  Permutation (flattenConfig code_point_le sample_config)
    [mkSetting "name" (JStr "node1"); mkSetting "socket.protocols" (JStr "a, b"); mkSetting "runtime.http_key" (JStr "k");
     mkSetting "apple.shared_password" (JStr "p"); mkSetting "apple.bundle_id" (JStr "b")] /\
  Sorted (fun a b => code_point_le (name a) (name b) = true) (flattenConfig code_point_le sample_config).
Proof.
  split; [reflexivity|]. refine (config_shows_every_setting code_point_le _ _).
  intros a b. unfold code_point_le. pose proof (String.compare_antisym a b) as E.
  destruct (String.compare a b), (String.compare b a); try discriminate E; auto.
Defined.

(** Settings of different sections get the same name: two sections that both have a
    part [m] with a setting [k] are both listed as [m.k] (as the server's [social.apple]
    and [iap.apple] are), and nothing on the page tells them apart. *)
Theorem sections_share_names s1 s2 m k a b
    (H1 : s1 <> "env") (H2 : s2 <> "env") (Hm : m <> "env") (Hk : k <> "env") :
  traverseConfig "" (JObj [(s1, JObj [(m, JObj [(k, JStr a)])]); (s2, JObj [(m, JObj [(k, JStr b)])])]) =
    [mkSetting (m +:+ "." +:+ k) (JStr a); mkSetting (m +:+ "." +:+ k) (JStr b)].
Proof.
  simpl. rewrite !(proj2 (String.eqb_neq _ _)) by done. simpl. by rewrite string_app_assoc.
Qed.

Lemma sections_share_names_witness :
  traverseConfig "" (JObj [("social", JObj [("apple", JObj [("id", JStr "x")])]);
                           ("iap", JObj [("apple", JObj [("id", JStr "y")])])]) =
    [mkSetting "apple.id" (JStr "x"); mkSetting "apple.id" (JStr "y")].
Proof. apply (sections_share_names "social" "iap" "apple" "id" "x" "y"); discriminate. Defined.

(** ** The export *)

(** The file holds the whole configuration, [env] included, also what the list of settings
    leaves out: whoever reads it back with a reader that undoes [safeDump] has the server's
    configuration. *)
Theorem export_roundtrip localeLe cp safeDump safeLoad d s text v
    (Hyaml : forall v t, safeDump v = Ret t -> safeLoad t = Some v)
    (Hd : Config_config d = Val text) (Hv : parse text = Some v) t
    (Hdump : safeDump v = Ret t) :
  let s' := (on_event (Component := page localeLe cp) (RouteData d) s).1.2 in
  exportYaml safeDump s' = Ret ("config.yaml", t) /\ safeLoad t = Some v.
Proof.
  intros s'. split; [|by apply Hyaml]. subst s'. cbn [on_event page]. unfold ngOnInit. rewrite Hd. cbn [js_String].
  destruct s. run_m. cbn. rewrite Hv. cbn. unfold exportYaml. cbn. by rewrite Hdump.
Qed.

Lemma export_roundtrip_witness :
  let s' := (on_event (Component := page code_point_le (new_ConsoleService Und)) (RouteData (mkConfig (Val "{}") Und Und)) new_state).1.2 in
  exportYaml (fun v => match v with JObj [] => Ret "{}" | _ => Throw JUndef end) s' = Ret ("config.yaml", "{}").
Proof.
  intros s'.
  apply (export_roundtrip code_point_le (new_ConsoleService Und) (fun v => match v with JObj [] => Ret "{}" | _ => Throw JUndef end)
           (fun t => Some (JObj [])) (mkConfig (Val "{}") Und Und) new_state "{}" (JObj [])); try done.
  by intros [| | | | | |[|]|].
Defined.

(** ** Imports *)

Definition importable (f : file) : bool := is_file f && valid_name (file_name f).

Lemma drop_files_spec files s :
  drop_files files s =
    (Ret tt,
     setf (f := reading) (fun l => l ++ List.filter importable files)
       (setf (f := uploadError)
          (fun e => if existsb (fun f => is_file f && negb (valid_name (file_name f))) files
                    then JStr "Invalid file: must have extension .json or .csv" else e) s),
     []).
Proof.
  revert s. induction files as [|f files IH]; intros s; [destruct s; simpl; unfold setf; simpl; by rewrite app_nil_r|].
  cbn [drop_files existsb List.filter]. unfold importable at 1. destruct s.
  destruct (is_file f), (valid_name (file_name f)) eqn:V; cbn [andb negb orb when];
    (erewrite M_bind_ret; [|by run_state]); rewrite IH; unfold setf;
    cbn [configError uploadError deleteError jsonConfig flatConfig layergVersion uploading uploadSuccess
         deleteSuccess deleting reading].
  - by rewrite <- app_assoc.
  - by destruct (existsb _ files).
  - done.
  - done.
Qed.

Section dropping.
Context (localeLe : string -> string -> bool) (cp : ConfigParams).
#[local] Instance this : Component state event subscription confirmation := page localeLe cp.
Implicit Types c : config state subscription confirmation.

(** The files that the user has dropped on the page in a run, in order. *)
Definition dropped_files (l : list (action state event subscription confirmation)) : list file :=
  flat_map (fun a => match a with User (Dropped files) => files | _ => [] end) l.

(** The import requests that were sent, in order. *)
Definition imports (t : list (cmd subscription confirmation)) : list request :=
  flat_map (fun x => match x with Send Upload r => [r] | _ => [] end) t.

(** The files imported so far: those that were dropped and passed the check, but for those
    whose content has not been read yet. *)
Definition imports_dropped (l : list (action state event subscription confirmation)) c : Prop :=
  exists files, imports (c_trace c) = uploadRequest cp <$> files /\
    Permutation (files ++ reading (c_state c)) (List.filter importable (dropped_files l)).

Lemma imports_app t t' : imports (t ++ t') = imports t ++ imports t'.
Proof. apply flat_map_app. Qed.
Lemma dropped_app l l' : dropped_files (l ++ l') = dropped_files l ++ dropped_files l'.
Proof. apply flat_map_app. Qed.

(** A step in which nothing is dropped, read or sent. *)
Lemma imports_dropped_same l a c s p d t :
  imports_dropped l c -> dropped_files [a] = [] -> reading s = reading (c_state c) -> imports t = [] ->
  imports_dropped (l ++ [a]) (mkMachine s p d (c_trace c ++ t)).
Proof.
  intros (files & E & Hp) Ha Hs Ht. exists files. cbn [c_trace c_state].
  by rewrite imports_app, Ht, app_nil_r, dropped_app, Ha, app_nil_r, Hs.
Qed.

Lemma imports_dropped_run l a c (m : M state (cmd subscription confirmation) unit) c' :
  imports_dropped l c -> c_state c' = c_state c -> c_trace c' = c_trace c -> dropped_files [a] = [] ->
  reading (m (c_state c)).1.2 = reading (c_state c) -> imports (m (c_state c)).2 = [] ->
  imports_dropped (l ++ [a]) (run m c').2.
Proof.
  intros Hi Es Et Ha Hr Hm. pose proof (run_state m c') as E1. pose proof (run_trace m c') as E2.
  destruct (run m c').2 as [s p d t]. cbn in E1, E2. rewrite E1, E2, Es, Et. by apply imports_dropped_same.
Qed.

Lemma fileRead_spec i s : fileRead cp i s =
  match reading s !! i with
  | Some f => (Ret tt, setf (f := uploading) (fun _ => true) (setf (f := reading) (splice1 i) s), [Send Upload (uploadRequest cp f)])
  | None => (Ret tt, s, [])
  end.
Proof. destruct s. unfold fileRead, uploadFile. run_state. by destruct (reading0 !! i). Qed.

Lemma imports_dropped_step l c a : imports_dropped l c -> imports_dropped (l ++ [a]) (exec c a).
Proof.
  intros Hi. destruct a as [[d|fs|i|]|i f|i e|i v|i]; cbn [exec].
  - apply imports_dropped_run with c; try done; cbn [on_event this page];
      unfold ngOnInit; destruct (c_state c); run_state; by destruct (parse _).
  - destruct Hi as (files & E & Hp). exists files. rewrite run_state, run_trace. cbn [on_event this page]. unfold dropped.
    destruct (c_state c) eqn:Es. erewrite M_bind_ret; [|by run_state]. erewrite M_bind_ret; [|by run_state].
    rewrite drop_files_spec. unfold setf. cbn [fst snd app reading].
    rewrite app_nil_r, dropped_app. unfold dropped_files at 2. cbn [flat_map]. rewrite app_nil_r, List.filter_app.
    split; [done|]. rewrite app_assoc. cbn in Hp. by apply Permutation_app_tail.
  - destruct Hi as (files & E & Hp). unfold imports_dropped. rewrite run_state, run_trace. cbn [on_event this page]. rewrite fileRead_spec.
    rewrite dropped_app. change (dropped_files [User (FileRead i)]) with (@nil file). rewrite app_nil_r.
    destruct (reading (c_state c) !! i) as [f|] eqn:Hf; cbn [fst snd]; [|exists files; by rewrite app_nil_r].
    exists (files ++ [f]). rewrite imports_app, E, fmap_app. split; [done|].
    rewrite <- Hp, <- app_assoc. apply Permutation_app_head. destruct (c_state c). unfold setf, splice1. cbn [reading app] in *.
    rewrite <- (take_drop_middle reading0 i f Hf) at 3. by rewrite Permutation_middle.
  - apply imports_dropped_run with c; try done; by destruct (c_state c).
  - destruct (c_pending c !! i) as [k|]; [|by destruct c as [s p d t]; rewrite <- (app_nil_r t); apply (imports_dropped_same _ _ (mkMachine s p d t) _ _ _ [])].
    apply imports_dropped_run with c; try done; destruct k, (c_state c); done.
  - destruct (c_pending c !! i) as [k|]; [|by destruct c as [s p d t]; rewrite <- (app_nil_r t); apply (imports_dropped_same _ _ (mkMachine s p d t) _ _ _ [])].
    apply imports_dropped_run with c; try done; destruct k, (c_state c); done.
  - destruct (c_dialogs c !! i) as [[]|]; [|by destruct c as [s p d t]; rewrite <- (app_nil_r t); apply (imports_dropped_same _ _ (mkMachine s p d t) _ _ _ [])].
    assert (H : imports_dropped (l ++ [Confirm i v]) (run (on_confirm ConfirmDelete v) c).2)
      by (apply imports_dropped_run with c; try done; destruct (c_state c); done).
    destruct (run _ c) as [[] c']; exact H.
  - destruct c as [s p d t]. unfold drop_dialog. cbn [c_state c_pending c_dialogs c_trace].
    rewrite <- (app_nil_r t). by apply (imports_dropped_same _ _ (mkMachine s p d t) _ _ _ []).
Qed.
End dropping.


(** Of three dropped entries one is imported. *)
Example import_of_three :
  let cp := new_ConsoleService Und in
  let c := exec_all (comp := page code_point_le cp) (start new_state)
    [User (Dropped [mkFile true "notes.txt"; mkFile false "dir.json"; mkFile true "data.JSON"]); User (FileRead 0)] in
  imports (c_trace c) = [uploadRequest cp (mkFile true "data.JSON")] /\ reading (c_state c) = [].
Proof. split; reflexivity. Qed.
