(* ===== verification/DeletionForms.v ===== *)
(** * Deletions that ask for a word

    The deletion of all data ([config/config.component.ts]) and that of old messages
    ([channels/chat-list.component.ts]) open the confirmation dialog with a form: the user
    types DELETE, and for messages the number of days to keep.  The form is one object,
    built with the page and handed to every dialog that the page opens. *)

From S2P Require Import Prelude Codec JsVal Json Runtime ConsoleTypes ConsoleService Session Forms Frame Config Chat.

(** ** The form and the dialogs that share it *)

(** The controls [delete] and, where there is one, [days]. *)
Record fields := mkFields { delete : jsval; days : jsval }.

#[export] Instance eta_fields : Eta fields := fun f => mkFields (delete f) (days f).

(** What a page passes to [openDeleteConfirmModal] besides the callback. *)
Class FormDialogs (D : Type) := {
  with_form : D -> bool;
  dialog_title : D -> string;
  dialog_message : D -> string;
  has_days : bool;
  form_json : fields -> jsval
}.

Section screen.
Context {validators : Validators}.
Context {S Ev K D : Type} {comp : Component S Ev K D} {dialogs : FormDialogs D}.

Definition form_group (f : fields) : DeleteConfirm.form_group :=
  DeleteConfirm.mkForm (required (delete f) && pattern "DELETE" (delete f)) (form_json f).

(** A dialog as it stands: the form in it is the page's, with its value of the moment. *)
Definition dialog_of (f : fields) (d : D) : DeleteConfirm.dialog :=
  DeleteConfirm.openDeleteConfirmModal (if with_form d then Some (form_group f) else None) (dialog_title d) (dialog_message d).

Record screen := mkScreen { page_ : config S K D; form : fields }.

Inductive form_action :=
| OnPage (a : action S Ev K D)
| TypeDelete (t : string)
| TypeDays (n : option num)
| ClickConfirm (i : nat)
| ClickCancel (i : nat).

Definition form_shown (s : screen) : bool := existsb with_form (c_dialogs (page_ s)).

Definition screen_exec (s : screen) (a : form_action) : screen :=
  match a with
  | OnPage a => if own a then mkScreen (exec (page_ s) a) (form s) else s
  | TypeDelete t => if form_shown s then mkScreen (page_ s) (setf (f := delete) (fun _ => JStr t) (form s)) else s
  | TypeDays n => if form_shown s && has_days then mkScreen (page_ s) (setf (f := days) (fun _ => number_input n) (form s)) else s
  | ClickConfirm i =>
      match c_dialogs (page_ s) !! i with
      | Some d =>
          let dl := dialog_of (form s) d in
          if DeleteConfirm.confirm dl then
            mkScreen (exec (page_ s) (Confirm i (match DeleteConfirm.confirmDeleteForm dl with
                                                 | Some f => DeleteConfirm.form_value f
                                                 | None => JUndef
                                                 end))) (form s)
          else s
      | None => s
      end
  | ClickCancel i => mkScreen (exec (page_ s) (Cancel i)) (form s)
  end.

Definition screen_exec_all (s : screen) (l : list form_action) : screen := fold_left screen_exec l s.

(** A click on the button is [DeleteConfirm.click_confirm] with the page's callback: the
    dialog is gone when that closes it. *)
Lemma click_is_click_confirm s i d :
  c_dialogs (page_ s) !! i = Some d ->
  let '(o, st, l) := DeleteConfirm.click_confirm (on_confirm d) (dialog_of (form s) d) (c_state (page_ s)) in
  let c := fold_left absorb l (mkMachine st (c_pending (page_ s)) (c_dialogs (page_ s)) (c_trace (page_ s))) in
  page_ (screen_exec s (ClickConfirm i)) =
    match o with Ret dl => if DeleteConfirm.dialog_open dl then c else drop_dialog i c | Throw _ => c end.
Proof.
  intros Hi. unfold DeleteConfirm.click_confirm. cbn [screen_exec]. rewrite Hi. cbv zeta.
  destruct (DeleteConfirm.confirm (dialog_of (form s) d)); [|by destruct s as [[] ?]].
  unfold DeleteConfirm.confirmed. cbn [exec page_]. rewrite Hi. unfold run. run_m.
  destruct (on_confirm d _ _) as [[[[]|e] st] l]; cbn [fst snd]; by rewrite ?app_nil_r.
Qed.

(** ** No deletion without the word *)

(** The form is valid exactly when the word is in it. *)
Definition has_word (f : fields) : bool := match delete f with JStr t => String.eqb t "DELETE" | _ => false end.

Lemma has_word_spec f : has_word f = true <-> delete f = JStr "DELETE".
Proof.
  unfold has_word. split; [|by intros ->]. destruct (delete f); try done. by intros ->%String.eqb_eq.
Qed.

Lemma form_valid_word f : (exists t, delete f = JStr t) -> DeleteConfirm.form_valid (form_group f) = has_word f.
Proof.
  intros [t E]. unfold form_group, has_word. cbn [DeleteConfirm.form_valid]. rewrite E, required_text, pattern_text by done.
  unfold truthy_string. by destruct (String.eqb_spec t "") as [->|Hne].
Qed.

Lemma form_kept s a : (forall t, a <> TypeDelete t) -> (forall n, a <> TypeDays n) -> form (screen_exec s a) = form s.
Proof.
  intros H1 H2. destruct a as [a|t|n|i|i]; cbn [screen_exec]; [by destruct (own a)|by destruct (H1 t)|by destruct (H2 n)| |done].
  destruct (c_dialogs (page_ s) !! i) as [d|]; [|done]. cbv zeta. by destruct (DeleteConfirm.confirm _).
Qed.

(** The button of the page and that of the dialog. *)
Lemma two_clicks e d st p tr f :
  on_event e st = (Ret tt, st, [OpenConfirm d]) -> with_form d = true -> (exists t, delete f = JStr t) ->
  let c := mkMachine st p [d] (tr ++ [OpenConfirm d]) in
  screen_exec_all (mkScreen (mkMachine st p [] tr) f) [OnPage (User e); ClickConfirm 0] =
    mkScreen (if has_word f then exec c (Confirm 0 (form_json f)) else c) f.
Proof.
  intros He Hd Hf c. unfold screen_exec_all. cbn [fold_left].
  assert (E1 : screen_exec (mkScreen (mkMachine st p [] tr) f) (OnPage (User e)) = mkScreen c f).
  { cbn [screen_exec own page_ form]. by erewrite exec_User by exact He. }
  rewrite E1. cbn [screen_exec page_ form c_dialogs c]. cbv zeta. cbn [lookup list_lookup].
  unfold dialog_of. rewrite Hd. cbn [DeleteConfirm.openDeleteConfirmModal DeleteConfirm.confirm DeleteConfirm.confirmDeleteForm].
  rewrite form_valid_word by done. by destruct (has_word f).
Qed.

(** Which of the page's commands delete what the form guards: only the callback of a dialog
    with the form issues them. *)
Context (deletes : cmd K D -> bool).
Context (quiet_event : forall e, avoids deletes (on_event e)).
Context (quiet_next : forall k a, avoids deletes (on_next k a)).
Context (quiet_error : forall k e, avoids deletes (on_error k e)).
Context (quiet_confirm : forall d v, with_form d = false -> avoids deletes (on_confirm d v)).

Lemma quiet_run m c : avoids deletes m -> existsb deletes (c_trace (run m c).2) = existsb deletes (c_trace c).
Proof. intros Hm. by rewrite run_trace, existsb_app, (avoids_existsb _ _ _ Hm), orb_false_r. Qed.

Lemma quiet_own c a : own a = true -> existsb deletes (c_trace (exec c a)) = existsb deletes (c_trace c).
Proof.
  intros Ho. destruct a as [e|i answer|i e|i v|i]; try discriminate; cbn [exec].
  - by apply quiet_run.
  - destruct (c_pending c !! i); [by rewrite quiet_run|done].
  - destruct (c_pending c !! i); [by rewrite quiet_run|done].
Qed.

Definition word_typed (l : list form_action) (s : screen) : Prop :=
  (exists t, delete (form s) = JStr t) /\
  (existsb deletes (c_trace (page_ s)) = true \/ delete (form s) = JStr "DELETE" -> In (TypeDelete "DELETE") l).

Lemma word_typed_exec l s a : word_typed l s -> word_typed (l ++ [a]) (screen_exec s a).
Proof.
  intros [Htext Hw].
  assert (Hkeep : forall c, existsb deletes (c_trace c) = existsb deletes (c_trace (page_ s)) ->
            word_typed (l ++ [a]) (mkScreen c (form s))).
  { intros c Hc. split; [exact Htext|]. cbn [page_ form]. rewrite Hc. intros H. apply in_or_app. left. by apply Hw. }
  assert (Hsame : word_typed (l ++ [a]) s) by (destruct s; by apply Hkeep).
  destruct a as [a|t|n|i|i]; cbn [screen_exec].
  - destruct (own a) eqn:Ho; [|exact Hsame]. apply Hkeep. by apply quiet_own.
  - destruct (form_shown s); [|exact Hsame]. split; [by exists t|]. cbn [page_ form setf delete].
    intros [H|[= ->]]; [apply in_or_app; left; apply Hw; by left|apply in_or_app; right; by left].
  - destruct (form_shown s && has_days); [|exact Hsame]. split; [exact Htext|]. cbn [page_ form]. intros H.
    apply in_or_app. left. by apply Hw.
  - destruct (c_dialogs (page_ s) !! i) as [d|] eqn:Hi; [|exact Hsame]. cbv zeta.
    destruct (DeleteConfirm.confirm _) eqn:Hc; [|exact Hsame]. destruct (with_form d) eqn:Hd.
    + split; [exact Htext|]. intros _. apply in_or_app. left. apply Hw. right. revert Hc. unfold dialog_of. rewrite Hd.
      cbn [DeleteConfirm.openDeleteConfirmModal DeleteConfirm.confirm DeleteConfirm.confirmDeleteForm].
      rewrite form_valid_word by done. by intros H%has_word_spec.
    + apply Hkeep. cbn [exec]. rewrite Hi.
      match goal with |- context [run (on_confirm d ?v) (page_ s)] => pose proof (quiet_run (on_confirm d v) (page_ s)) as H end.
      rewrite <- H by (by apply quiet_confirm). by destruct (run _ _) as [[] c'].
  - by apply Hkeep.
Qed.

Lemma word_typed_all s l : existsb deletes (c_trace (page_ s)) = false -> delete (form s) = JStr "" ->
  word_typed l (screen_exec_all s l).
Proof.
  intros Ht Hf. induction l as [|a l IH] using rev_ind.
  - split; [by exists ""|]. cbn. rewrite Ht, Hf. by intros [?|?].
  - unfold screen_exec_all. rewrite fold_left_app. by apply word_typed_exec.
Qed.
End screen.
Arguments screen S K D : clear implicits.

(** ** The deletion of all data *)

#[export] Instance config_dialogs : FormDialogs Config.confirmation := {
  with_form _ := true;
  dialog_title _ := "Delete All Data";
  dialog_message _ := "Are you sure you want to delete all the database data?";
  has_days := false;
  form_json f := JObj [("delete", delete f)]
}.

(** [confirmDeleteForm] of [ConfigComponent], as its [ngOnInit] builds it. *)
Definition config_form : fields := mkFields (JStr "") JUndef.

Definition deletes_all (x : cmd Config.subscription Config.confirmation) : bool :=
  match x with Send Config.DeleteAll _ => true | _ => false end.

(** Actions that leave the form alone. *)
Definition typing {S Ev K D} {comp : Component S Ev K D} (a : form_action) : bool :=
  match a with TypeDelete _ | TypeDays _ => true | _ => false end.

Lemma form_kept_all {S Ev K D} {comp : Component S Ev K D} `{FormDialogs D, Validators} s l :
  forallb (fun a => negb (typing a)) l = true -> form (screen_exec_all (comp := comp) s l) = form s.
Proof.
  revert s. induction l as [|a l IH]; intros s; [done|]. cbn [forallb]. intros [Ha Hl]%andb_true_iff.
  unfold screen_exec_all. cbn [fold_left]. change (form (screen_exec_all (screen_exec s a) l) = form s).
  rewrite IH by done. apply form_kept; by destruct a.
Qed.

Section all_data.
Context {validators : Validators} (localeLe : string -> string -> bool) (cp : ConfigParams).

Abbreviation config_page := (Config.page localeLe cp).

Definition config_screen : screen Config.state Config.subscription Config.confirmation := mkScreen (start Config.new_state) config_form.

Lemma drop_files_quiet fs : avoids deletes_all (Config.drop_files fs).
Proof. intros s. by rewrite Config.drop_files_spec. Qed.
#[local] Hint Resolve drop_files_quiet : issues.

Lemma config_quiet l : word_typed deletes_all l (screen_exec_all (comp := config_page) config_screen l).
Proof.
  apply word_typed_all; try done.
  - intros []; cbn [on_event Config.page]; unfold Config.ngOnInit, Config.dropped, Config.fileRead, Config.uploadFile;
      quietly.
  - by intros [] a s.
  - by intros [] a s.
Qed.

(** C26: the data of the server is deleted only after DELETE has been typed into the
    confirmation dialog at least once since the page was opened.  But the form is the same
    for all dialogs and keeps its text: whenever no dialog is open, the button and the
    dialog's own button delete everything if the word was typed for an earlier dialog,
    confirmed or cancelled, and nothing but typing takes it away. *)
Theorem delete_all_needs_the_word (l l' : list (form_action (comp := config_page))) :
  let s := screen_exec_all (comp := config_page) config_screen l in
  let s' := screen_exec_all (comp := config_page) s [OnPage (User Config.DeleteClick); ClickConfirm 0] in
  (existsb deletes_all (c_trace (page_ s)) = true -> In (TypeDelete "DELETE") l) /\
  (forallb (fun a => negb (typing a)) l' = true ->
     has_word (form (screen_exec_all (comp := config_page) s l')) = has_word (form s)) /\
  (c_dialogs (page_ s) = [] -> form s' = form s /\
     if has_word (form s) then
       c_trace (page_ s') = c_trace (page_ s) ++
         [OpenConfirm Config.ConfirmDelete; Send Config.DeleteAll (deleteAllData cp "")] /\ c_dialogs (page_ s') = []
     else
       c_trace (page_ s') = c_trace (page_ s) ++ [OpenConfirm Config.ConfirmDelete] /\
       c_dialogs (page_ s') = [Config.ConfirmDelete]).
Proof.
  intros s s'. destruct (config_quiet l) as [Htext Hw]. fold s in Htext, Hw. split_and_all.
  - intros H. apply Hw. by left.
  - intros Hl. by rewrite form_kept_all.
  - intros Hd. subst s'. clearbody s. clear Hw. destruct s as [[st p dl tr] f]. cbn [page_ form c_dialogs] in Hd, Htext. subst dl.
    rewrite (two_clicks _ Config.ConfirmDelete); [|reflexivity|reflexivity|exact Htext]. split; [reflexivity|].
    cbn [form page_]. destruct (has_word f); [|done]. erewrite exec_Confirm by reflexivity. cbn. by rewrite <- app_assoc.
Qed.
End all_data.

(** ** The deletion of old messages *)

#[export] Instance chat_dialogs : FormDialogs Chat.confirmation := {
  with_form d := match d with Chat.ConfirmDeleteData => true | Chat.ConfirmDelete _ _ => false end;
  dialog_title d := match d with Chat.ConfirmDeleteData => "Delete messages" | Chat.ConfirmDelete _ _ => "" end;
  dialog_message d :=
    match d with
    | Chat.ConfirmDeleteData => "Are you sure you want to delete all messages before retain days?"
    | Chat.ConfirmDelete _ _ => ""
    end;
  has_days := true;
  form_json f :=
    JObj [("delete", delete f);
          ("numberValueControl", JObj [("title", JStr "Choose how many days to retain:"); ("id", JStr "days")]);
          ("days", days f)]
}.

(** [confirmDeleteForm] of [ChatListComponent], as its constructor builds it. *)
Definition chat_form : fields := mkFields (JStr "") (JNum (int 30)).

Definition deletes_before (x : cmd Chat.subscription Chat.confirmation) : bool :=
  match x with Send Chat.DeleteBefore _ => true | _ => false end.

Section messages.
Context {validators : Validators} (cp : ConfigParams) (days_ago : num -> option string).

Abbreviation chat_page := (Chat.page cp days_ago).

Definition chat_screen : screen Chat.state Chat.subscription Chat.confirmation := mkScreen (start Chat.new_state) chat_form.

Lemma messages_quiet t l g u1 u2 c : avoids deletes_before (Chat.updateMessages cp t l g u1 u2 c).
Proof. unfold Chat.updateMessages. quietly. Qed.
#[local] Hint Resolve messages_quiet : issues.

Lemma chat_quiet l : word_typed deletes_before l (screen_exec_all (comp := chat_page) chat_screen l).
Proof.
  apply word_typed_all; try done.
  - intros []; cbn [on_event Chat.page];
      unfold Chat.ngOnInit, Chat.init_form, Chat.route_data, Chat.init_type, Chat.search, Chat.toggleOpen, Chat.viewAccount;
      quietly.
  - intros [cur|i o|] a; cbn [on_next Chat.page]; unfold Chat.postData, Chat.deleteMessage_next, Chat.deleteData_next;
      quietly.
  - intros [cur|i o|] e; cbn [on_error Chat.page]; unfold Chat.deleteData_error; quietly.
  - intros [i o|] v Hd; [|done]. clear Hd. cbn [on_confirm Chat.page]. unfold Chat.deleteMessage_confirmed. quietly.
Qed.

Lemma days_typed l : exists n, days (form (screen_exec_all (comp := chat_page) chat_screen l)) = number_input n.
Proof.
  induction l as [|a l [n IH]] using rev_ind; [by exists (Some (int 30))|].
  unfold screen_exec_all in *. rewrite fold_left_app. cbn [fold_left].
  match goal with |- context [screen_exec ?s a] => set (s0 := s) in * end. clearbody s0.
  destruct a as [a|t|m|i|i]; cbn [screen_exec]; try by exists n.
  - destruct (own a); by exists n.
  - destruct (form_shown s0); by exists n.
  - destruct (form_shown s0 && has_days); [by exists m|by exists n].
  - destruct (c_dialogs (page_ s0) !! i) as [d|]; [|by exists n]. cbv zeta. destruct (DeleteConfirm.confirm _); by exists n.
Qed.

(** C39: messages are deleted by age only after DELETE has been typed into the dialog at
    least once; the field of days holds a number or [null], which it becomes when it is
    emptied, and no validator asks for one.  Confirming sends one deletion of all
    messages older than that many days before now, [null] counting as zero, so that an
    emptied field deletes every message.  A number for which there is no date is an
    exception: nothing is sent, the dialog stays, and the page shows a deletion under
    way. *)
Theorem emptied_days_delete_everything (l : list (form_action (comp := chat_page))) :
  let s := screen_exec_all (comp := chat_page) chat_screen l in
  let s' := screen_exec_all (comp := chat_page) s [OnPage (User Chat.DeleteDataClick); ClickConfirm 0] in
  (existsb deletes_before (c_trace (page_ s)) = true -> In (TypeDelete "DELETE") l) /\
  exists n, days (form s) = number_input n /\
  (c_dialogs (page_ s) = [] -> has_word (form s) = true ->
     let opened := c_trace (page_ s) ++ [OpenConfirm Chat.ConfirmDeleteData] in
     match days_ago (default (int 0) n) with
     | Some before =>
         c_trace (page_ s') = opened ++ [Send Chat.DeleteBefore (deleteChannelMessages cp "" (Val before) Nul)] /\
         c_dialogs (page_ s') = []
     | None =>
         c_trace (page_ s') = opened /\ c_dialogs (page_ s') = [Chat.ConfirmDeleteData] /\
         Chat.deleting (c_state (page_ s')) = true
     end).
Proof.
  intros s s'. destruct (chat_quiet l) as [Htext Hw]. destruct (days_typed l) as [n En]. fold s in Htext, Hw, En.
  split; [intros H; apply Hw; by left|]. exists n. split; [exact En|]. intros Hd Hword.
  subst s'. clearbody s. clear Hw. destruct s as [[st p dl tr] f]. cbn [page_ form c_dialogs c_trace] in *. subst dl.
  rewrite (two_clicks _ Chat.ConfirmDeleteData); [|reflexivity|reflexivity|exact Htext]. rewrite Hword. cbn [page_].
  assert (Ej : jget "days" (form_json f) = Some (days f)) by done.
  assert (Edays : Number_ (days f) = default (int 0) n) by (rewrite En; by destruct n).
  destruct st. cbn [exec c_dialogs lookup list_lookup]. unfold run. cbn [on_confirm Chat.page c_state]. unfold Chat.deleteData_confirmed.
  Chat.run_state. rewrite Ej, Edays. by destruct (days_ago _).
Qed.
End messages.

(** ** Runs of both pages *)

#[local] Existing Instance angular.

(** The word is typed for a deletion that is cancelled; the next one takes two clicks. *)
Example cancelled_word :
  let page := Config.page (fun a b => String.leb a b) (new_ConsoleService Und) in
  let s := screen_exec_all (comp := page) config_screen
    [OnPage (User Config.DeleteClick); TypeDelete "DELETE"; ClickCancel 0; OnPage (User Config.DeleteClick); ClickConfirm 0] in
  existsb deletes_all (c_trace (page_ s)) = true.
Proof. vm_compute. reflexivity. Qed.

Example emptied_days :
  let page := Chat.page (new_ConsoleService Und) (fun n => if num_eqb n (int 0) then Some "now" else None) in
  let s := screen_exec_all (comp := page) chat_screen
    [OnPage (User Chat.DeleteDataClick); TypeDelete "DELETE"; TypeDays None; ClickConfirm 0] in
  existsb deletes_before (c_trace (page_ s)) = true /\ c_dialogs (page_ s) = [].
Proof. vm_compute. by split. Qed.
