(* ===== verification/ApiExplorer.v ===== *)
(** * [ApiExplorerComponent] ([apiexplorer/apiexplorer.component.ts])

    Calls of the server's endpoints by hand: the choice of an endpoint fills the editor of
    the request, and a call is sent with session variables that have been checked. *)

From S2P Require Import Prelude Codec JsVal Json Runtime ConsoleTypes ConsoleService Accounts Session.

(** What the code has put into its three editors and whether the first can be edited; what
    the user has typed since is read when a request is sent.  The editors exist from
    [ngAfterViewInit] on. *)
Record state := mkState {
  error : jsval;
  rpcEndpoints : list ApiEndpointDescriptor;
  endpoints : list ApiEndpointDescriptor;
  method : opt string;
  user_id : opt string;
  addVars : bool;
  editors : bool;
  req_content : jsval;
  req_readOnly : bool;
  vars_content : jsval;
  res_content : jsval
}.

#[export] Instance eta_state : Eta state := fun s =>
  mkState (error s) (rpcEndpoints s) (endpoints s) (method s) (user_id s) (addVars s) (editors s) (req_content s)
    (req_readOnly s) (vars_content s) (res_content s).

Definition new_state : state :=
  mkState (JStr "") [] [] Und Und false false JUndef false JUndef JUndef.

(** Runs a handler on an explicit state; the record is computed once per assignment. *)
Ltac run_state :=
  cbv beta iota zeta delta [when force subscriber try_catch mbind M_bind bind mret M_ret ret throw gets assign emit
    setf fst snd error rpcEndpoints endpoints method user_id addVars editors req_content req_readOnly
    vars_content res_content].

Inductive subscription := Call.
Inductive event :=
| Init (qp : query_params) (data : ApiEndpointList)
| AfterViewInit
| PickMethod (m : string)
| TypeUserId (v : string)
| SendClick (req vars : outcome string)   (* the texts of two editors, or what reading them throws *)
| AddVarsClick.

Section explorer.
Context (cp : ConfigParams).

Abbreviation H := (M state (cmd subscription Empty_set)).

(** [{text}] and [{json}], the contents an editor can be set to. *)
Definition text_content (s : string) : jsval := JObj [("text", JStr s)].
Definition json_content (v : jsval) : jsval := JObj [("json", v)].

Definition find_endpoint (m : opt string) (l : list ApiEndpointDescriptor) : option ApiEndpointDescriptor :=
  List.find (fun e => bool_decide (ApiEndpointDescriptor_method e = m)) l.

Definition isRpcEndpoint (m : opt string) (s : state) : bool :=
  match find_endpoint m (rpcEndpoints s) with Some _ => true | None => false end.

Definition updateQueryParam (endpoint : opt string) : H unit :=
  emit (Navigate (merge_query [("endpoint", of_opt endpoint)])).

Definition setupRequestBody (body : opt string) : H unit :=
  ready ← gets editors;
  if (ready : bool) then
    if truthy_str body then
      match parse (js_String body) with
      | Some v =>
          req_content <~ text_content (match stringify2 v with Some t => t | None => "undefined" end);;
          req_readOnly <~ false
      | None => error <~ SyntaxError
      end
    else
      req_content <~ text_content "";;
      m ← gets method;
      rpc ← gets (isRpcEndpoint m);
      req_readOnly <~ negb rpc
  else ret tt.

(** The subscriber of the method's [valueChanges]. *)
Definition method_changed (newMethod : opt string) : H unit :=
  l ← gets endpoints; r ← gets rpcEndpoints;
  match find_endpoint newMethod (l ++ r) with
  | Some e => updateQueryParam (ApiEndpointDescriptor_method e);; setupRequestBody (ApiEndpointDescriptor_body_template e)
  | None => throw (TypeError "Cannot read properties of undefined (reading 'method')")
  end.

Definition set_method (m : opt string) : H unit :=
  method <~ m;;
  subscriber (method_changed m).

Definition route_data (data : ApiEndpointList) : H unit :=
  endpoints <~ [];;
  l ← force "endpoints.endpoints is not iterable" (ApiEndpointList_endpoints data);
  endpoints <~ l;;
  rpcEndpoints <~ [];;
  l ← force "endpoints.rpc_endpoints is not iterable" (ApiEndpointList_rpc_endpoints data);
  rpcEndpoints <~ l.

Definition ngOnInit (qp : query_params) (data : ApiEndpointList) : H unit :=
  method <~ Val "";;
  user_id <~ Val "";;
  subscriber (route_data data);;
  l ← gets endpoints; r ← gets rpcEndpoints;
  match find_endpoint (qp_get "endpoint" qp) (l ++ r) with
  | Some e => set_method (ApiEndpointDescriptor_method e)
  | None => ret tt
  end.

Definition ngAfterViewInit : H unit :=
  editors <~ true;;
  req_content <~ text_content "";;
  req_readOnly <~ true;;
  vars_content <~ text_content "";;
  res_content <~ text_content "".

(** The values of an object's own properties: [Object.keys] with [varsObj[k]]. *)
Definition own_values (v : jsval) : option (list jsval) :=
  match v with
  | JUndef | JNull => None
  | JObj l => Some (snd <$> l)
  | JArr l => Some l
  | _ => Some []        (* every property of a string is a string *)
  end.

Definition is_string (v : jsval) : bool := match v with JStr _ => true | _ => false end.

(** The [try] block that reads the session variables. *)
Definition parse_vars (textVars : string) : outcome jsval :=
  if String.eqb textVars "" then Ret (JObj [])
  else match parse textVars with
       | None => Throw SyntaxError
       | Some varsObj =>
           match own_values varsObj with
           | None => Throw (TypeError "Cannot convert undefined or null to object")
           | Some l =>
               match List.find (fun v => negb (is_string v)) l with
               | Some v => Throw (JError "Error" ("Invalid session variables: " +:+ String_ v +:+ " must be a string"))
               | None => Ret varsObj
               end
           end
       end.

Definition call_request (s : state) (value : string) (vars : jsval) : request :=
  if isRpcEndpoint (method s) s
  then callRpcEndpoint cp "" (method s) (mkConsoleCallRpcEndpointBody (Val value) vars (user_id s))
  else callApiEndpoint cp "" (method s) (mkConsoleCallApiEndpointBody (Val value) vars (user_id s)).

Definition sendRequest (req vars : outcome string) : H unit :=
  error <~ JStr "";;
  match req with
  | Throw e => error <~ e
  | Ret value =>
      match vars with
      | Throw e => error <~ e
      | Ret textVars =>
          match parse_vars textVars with
          | Throw e => error <~ e
          | Ret vars => r ← gets (fun s => call_request s value vars); emit (Send Call r)
          end
      end
  end.

(** The text shown for an answer's body. *)
Definition shown_body (body : opt string) : outcome string :=
  match body with
  | Val "" => Ret ""
  | b => match parse (js_String b) with
         | Some v => Ret (match stringify2 v with Some t => t | None => "undefined" end)
         | None => Throw SyntaxError
         end
  end.

Definition call_next (resp : CallApiEndpointResponse) : H unit :=
  if truthy_str (CallApiEndpointResponse_error_message resp)
  then res_content <~ json_content (of_opt (CallApiEndpointResponse_error_message resp))
  else match shown_body (CallApiEndpointResponse_body resp) with
       | Ret value => res_content <~ text_content value
       | Throw e => error <~ e
       end.

Definition call_error (err : jsval) : H unit :=
  res_content <~ text_content "";;
  error <~ err.

Definition addSessionVars : H unit :=
  addVars <~ true;;
  vars_content <~ json_content (JObj [("<key1>", JStr "<value1>"); ("<key2>", JStr "<value2>")]).

#[export] Instance page : Component state event subscription Empty_set := {
  resp _ := CallApiEndpointResponse;
  on_event e :=
    match e with
    | Init qp data => ngOnInit qp data
    | AfterViewInit => ngAfterViewInit
    | PickMethod m => set_method (Val m)
    | TypeUserId v => user_id <~ Val v
    | SendClick req vars => sendRequest req vars
    | AddVarsClick => addSessionVars
    end;
  on_next _ := call_next;
  on_error _ err := call_error err;
  on_confirm d := match d with end;
  take_until _ := false
}.
End explorer.

Definition ApiExplorerEndpointsResolver (cp : ConfigParams) : request := listApiEndpoints cp "".

(** ** The properties *)

Lemma parse_vars_ret t vars : parse_vars t = Ret vars <->
  (t = "" /\ vars = JObj []) \/
  (t <> "" /\ parse t = Some vars /\ exists l, own_values vars = Some l /\ forallb is_string l = true).
Proof.
  unfold parse_vars. destruct (String.eqb_spec t "") as [->|Ht].
  { split; [intros [= <-]; by left|]. intros [[_ ->]|[Hn _]]; done. }
  assert (Hfind : forall l, List.find (fun v => negb (is_string v)) l = None <-> forallb is_string l = true).
  { induction l as [|v l IH]; simpl; [done|]. by destruct (is_string v). }
  destruct (parse t) as [v|]; [|split; [done|]; intros [[? _]|(_ & ? & _)]; done].
  destruct (own_values v) as [l|] eqn:E.
  - destruct (List.find _ l) as [x|] eqn:F.
    + split; [done|]. intros [[? _]|(_ & [= ->] & l' & E' & Hl)]; [done|].
      simplify_eq. apply Hfind in Hl. congruence.
    + split.
      * intros [= <-]. right. split_and_all; [done|done|]. exists l. split; [done|]. by apply Hfind.
      * intros [[? _]|(_ & Hv & _)]; [done|]. congruence.
  - split; [done|]. intros [[? _]|(_ & [= ->] & l' & E' & _)]; congruence.
Qed.

Lemma sendRequest_spec cp s value t :
  on_event (Component := page cp) (SendClick (Ret value) (Ret t)) s =
    match parse_vars t with
    | Ret vars => (Ret tt, setf (f := error) (fun _ => JStr "") s, [Send Call (call_request cp s value vars)])
    | Throw e => (Ret tt, setf (f := error) (fun _ => e) s, [])
    end.
Proof. destruct s. cbn [on_event page]. unfold sendRequest. run_state. by destruct (parse_vars t). Qed.

(** C37: session variables are checked before a call: with the text [t] in their editor, a
    click sends a request exactly when the text is empty (then there are none) or is JSON
    none of whose own properties is anything but a string; the request carries the parsed
    value and goes to the RPC endpoint of the chosen name if there is one, and to the API
    endpoint otherwise.  When it is not sent, the page shows an error.  What is parsed need
    not be an object: a number, a text or a list of texts is sent as it is. *)
Theorem session_variables_checked cp s value t vars :
  let '(_, s', l) := on_event (Component := page cp) (SendClick (Ret value) (Ret t)) s in
  let sent := match find_endpoint (method s) (rpcEndpoints s) with
              | Some _ => callRpcEndpoint cp "" (method s) (mkConsoleCallRpcEndpointBody (Val value) vars (user_id s))
              | None => callApiEndpoint cp "" (method s) (mkConsoleCallApiEndpointBody (Val value) vars (user_id s))
              end in
  (l = [Send Call sent] <->
     (t = "" /\ vars = JObj []) \/
     (t <> "" /\ parse t = Some vars /\ exists vs, own_values vars = Some vs /\ forallb is_string vs = true)) /\
  (l = [] <-> jtruthy (error s') = true).
Proof.
  rewrite sendRequest_spec. pose proof (parse_vars_ret t vars) as HP. unfold call_request, isRpcEndpoint.
  assert (Ht : forall e, parse_vars t = Throw e -> jtruthy e = true).
  { intros e. unfold parse_vars. destruct (String.eqb t ""); [done|]. destruct (parse t) as [v|]; [|by intros [= <-]].
    destruct (own_values v) as [l|]; [|by intros [= <-]]. destruct (List.find _ l); by intros [= <-]. }
  destruct (parse_vars t) as [w|e] eqn:E; destruct s; unfold setf; cbn [error method rpcEndpoints user_id]; rewrite <- HP.
  - split; [|done]. destruct (find_endpoint _ _);
      (split; [intros HS; injection HS as HS; by subst | by intros [= ->]]).
  - split; [done|]. split; [intros _; by apply Ht|done].
Qed.

(** An endpoint named in the address is chosen when the page opens, but before the
    editors exist, so that its template is dropped: the request stays empty and, even for
    an endpoint with a template, read-only.  When the same endpoint is chosen once the
    editors exist, its template fills the request, which can then be edited. *)
Theorem endpoint_of_address_not_editable cp qp data l r e m b v
    (Hl : ApiEndpointList_endpoints data = Val l) (Hr : ApiEndpointList_rpc_endpoints data = Val r)
    (He : find_endpoint (qp_get "endpoint" qp) (l ++ r) = Some e)
    (Hm : ApiEndpointDescriptor_method e = Val m) (Hb : ApiEndpointDescriptor_body_template e = Val b)
    (Hne : b <> "") (Hv : parse b = Some v) :
  let c := exec_all (comp := page cp) (start new_state) [User (Init qp data); User AfterViewInit] in
  let c' := exec (comp := page cp) c (User (PickMethod m)) in
  method (c_state c) = Val m /\ req_content (c_state c) = text_content "" /\ req_readOnly (c_state c) = true /\
  method (c_state c') = Val m /\
  req_content (c_state c') = text_content (match stringify2 v with Some t => t | None => "undefined" end) /\
  req_readOnly (c_state c') = false.
Proof.
  assert (Eq : qp_get "endpoint" qp = Val m).
  { unfold find_endpoint in He. apply find_some in He as [_ He]. apply bool_decide_eq_true in He. congruence. }
  assert (Eb : truthy_string b = true) by (unfold truthy_string; by rewrite (proj2 (String.eqb_neq b ""))).
  destruct data as [l' r']. simpl in Hl, Hr. subst l' r'.
  assert (E : exec_all (comp := page cp) (start new_state) [User (Init qp (mkApiEndpointList (Val l) (Val r))); User AfterViewInit] =
    mkMachine (mkState (JStr "") r l (Val m) (Val "") false true (text_content "") true (text_content "") (text_content ""))
      [] [] [Navigate (merge_query [("endpoint", of_opt (Val m))])]).
  { rewrite Eq in He. rewrite exec_all_cons. erewrite exec_User.
    2: { cbn [on_event page start c_state]. unfold ngOnInit, route_data, set_method, method_changed, updateQueryParam,
           setupRequestBody, new_state. cbn [ApiEndpointList_endpoints ApiEndpointList_rpc_endpoints]. run_state.
         rewrite Eq, He. run_state. rewrite Hm, He. reflexivity. }
    simpl_config. rewrite exec_all_cons. erewrite exec_User.
    2: { cbn [on_event page c_state]. unfold ngAfterViewInit. run_state. reflexivity. }
    simpl_config. by rewrite Hm. }
  cbv zeta. rewrite E. rewrite Eq in He. split_and_all; [done..| | |];
    (erewrite exec_User;
     [|cbn [on_event page c_state]; unfold set_method, method_changed, updateQueryParam, setupRequestBody; run_state;
       rewrite He; cbv beta iota; rewrite Hb; cbn [truthy js_String]; rewrite Eb, Hv; reflexivity]);
    reflexivity.
Qed.

Lemma endpoint_of_address_not_editable_witness :
  let cp := new_ConsoleService Und in
  let e := mkApiEndpointDescriptor (Val "{}") (Val "GetUsers") in
  let data := mkApiEndpointList (Val [e]) (Val []) in
  let qp : query_params := {["endpoint" := "GetUsers"]} in
  let c := exec_all (comp := page cp) (start new_state) [User (Init qp data); User AfterViewInit] in
  let c' := exec (comp := page cp) c (User (PickMethod "GetUsers")) in
  method (c_state c) = Val "GetUsers" /\ req_content (c_state c) = text_content "" /\ req_readOnly (c_state c) = true /\
  method (c_state c') = Val "GetUsers" /\
  req_content (c_state c') = text_content (match stringify2 (JObj []) with Some t => t | None => "undefined" end) /\
  req_readOnly (c_state c') = false.
Proof.
  intros cp e data qp.
  apply (endpoint_of_address_not_editable cp qp data [e] [] e "GetUsers" "{}" (JObj []));
    [reflexivity..|discriminate|vm_compute; reflexivity].
Defined.

(** An example of the check: the value of a property that is no string is reported. *)
Example parse_vars_number :
  parse_vars (json_text "{'level': 3}") = Throw (JError "Error" "Invalid session variables: 3 must be a string").
Proof. vm_compute. reflexivity. Qed.

(** A list of texts passes. *)
Example parse_vars_list : parse_vars (json_text "['a','b']") = Ret (JArr [JStr "a"; JStr "b"]).
Proof. vm_compute. reflexivity. Qed.
