(* ===== verification/ImageUpload.v ===== *)
(** * The image of a collection or a collectible

    Four forms have the same field for an image: a chosen file is read for a preview and
    uploaded to the portal, and the address of the upload becomes the form's [avatarUrl].
    The code is repeated in each of them; it is modelled once, on its part of the state.

    - [collections/create/createCollection.component.ts]
    - [collection/detail/collectionDetail.component.ts]
    - [components/collection/modalCreateNft/modal-create-nft.component.ts]
    - [components/collection/modalUpdateNft/modal-update-nft.component.ts] *)

From S2P Require Import Prelude Codec JsVal Json Runtime Session LayergPortal.

Record state := mkImage {
  selectedFile : option string;
  imagePreview : jsval;
  avatarUrl : jsval;        (* the control of the form *)
  reading : list string     (* files whose content has been asked for *)
}.

#[export] Instance eta_state : Eta state := fun s =>
  mkImage (selectedFile s) (imagePreview s) (avatarUrl s) (reading s).

Definition no_image : state := mkImage None JNull (JStr "") [].

(** Runs a handler on an explicit state; the record is computed once per assignment. *)
Ltac run_image :=
  cbv beta iota zeta delta [when force subscriber try_catch mbind M_bind bind mret M_ret ret throw gets assign emit
    or_throw setf fst snd app selectedFile imagePreview avatarUrl reading].

Section image.
Context {K D : Type} (portal : LayergPortalConfig) (ls : gmap string string) (upload : K).

Abbreviation H := (M state (cmd K D)).

Definition uploadImage : H unit :=
  f ← gets selectedFile;
  match f with
  | None => emit (Alert "Please select an image first!")
  | Some f =>
      r ← or_throw (LayergPortal.uploadImage portal ls [f]) SyntaxError;
      emit (Send upload r)
  end.

(** [files] is the selection of the input field; choosing nothing changes nothing. *)
Definition onFileSelected (files : list string) : H unit :=
  match files with
  | f :: _ =>
      selectedFile <~ Some f;;
      l ← gets reading;
      reading <~ (l ++ [f]);;
      uploadImage
  | [] => ret tt
  end.

(** [reader.onload], of the [i]-th file that is being read. *)
Definition onload (i : nat) (result : string) : H unit :=
  l ← gets reading;
  match l !! i with
  | Some _ => reading <~ splice1 i l;; imagePreview <~ JStr result
  | None => ret tt
  end.

(** [data.fileHashes[0]]: of a text it is the first character (hashes are ASCII). *)
Definition first_hash (h : fileHashes) : jsval :=
  match h with
  | OneHash (String c _) => JStr (String c "")
  | OneHash "" | Hashes [] => JUndef
  | Hashes (h :: _) => JStr h
  end.

Definition upload_next (h : fileHashes) : H unit :=
  avatarUrl <~ JStr (getIpfsUrl portal (String_ (first_hash h))).

Definition upload_error : H unit := emit (Alert "Error uploading image").
End image.

(** ** Lemmas of the forms *)

Lemma onFileSelected_spec {K D} portal ls (upload : K) f files s r :
  LayergPortal.uploadImage portal ls [f] = Some r ->
  onFileSelected (D := D) portal ls upload (f :: files) s =
    (Ret tt, mkImage (Some f) (imagePreview s) (avatarUrl s) (reading s ++ [f]), [Send upload r]).
Proof.
  intros E. destruct s as [sel prev av rd]. unfold onFileSelected, uploadImage. run_image. by rewrite E.
Qed.
