(* ===== verification/Collections.v ===== *)
(** * The pages of collections

    - [Listing]: [CollectionsComponent] and its resolver
      ([collections/collections.component.ts])
    - [Create]: [CreateCollectionComponent] ([collections/create/createCollection.component.ts])
    - [Detail]: [CollectionDetailComponent] ([collections/detail/collectionDetail.component.ts]),
      which no route shows
    - [Frame]: [CollectionComponent] ([collection/collection.component.ts]), the frame of the
      page of one collection *)

From S2P Require Import Prelude Codec JsVal Json Runtime RowDeletion Searches ConsoleTypes ConsoleService Accounts Session LayergPortal Forms ImageUpload.

(** Sends a request of the portal; reading a damaged token throws. *)
Definition portal_send {S K D} (k : K) (r : option request) : M S (cmd K D) unit :=
  r ← or_throw r SyntaxError; emit (Send k r).

(** [JSON.parse(localStorage.getItem('accessToken'))?.projectId || null] *)
Definition stored_project {S C} (ls : gmap string string) : M S C jsval :=
  token ← or_throw (read_item "accessToken" ls) SyntaxError;
  ret (jor (jchain "projectId" token) JNull).

Module Listing.

(** [nextCursor], [prevCursor] and the controls [filter] and [filter_type] are never used,
    nor is [limit] ever changed. *)
Record state := mkState {
  error : jsval;
  collectionsCount : opt num;
  collections : list CollectionItem;
  ongoingQuery : bool;
  page_ : num;             (* [this.page] *)
  f_page : jsval;
  f_limit : jsval;
  f_search : jsval
}.

#[export] Instance eta_state : Eta state := fun s =>
  mkState (error s) (collectionsCount s) (collections s) (ongoingQuery s) (page_ s) (f_page s) (f_limit s) (f_search s).

Definition limit : num := int 10.
Definition new_state : state := mkState (JStr "") (Val (int 0)) [] false (int 1) JUndef JUndef JUndef.

(** Runs a handler on an explicit state; the record is computed once per assignment. *)
Ltac run_state :=
  cbv beta iota zeta delta [when force subscriber try_catch mbind M_bind bind mret M_ret ret throw gets assign emit
    portal_send or_throw setf fst snd app error collectionsCount collections ongoingQuery page_ f_page f_limit f_search].

Inductive subscription := Search | Delete (i : nat) (o : CollectionItem).
Inductive dialog := ConfirmDelete (i : nat) (o : CollectionItem) | LinkContract (c : CollectionItem).
Inductive event :=
| Init (qp : query_params)
| RouteData                                          (* a later emission of [route.data] *)
| Destroy
| TypeSearch (v : string)
| SearchClick
| PageChange (p : positive)
| CancelQuery
| DeleteClick (i : nat) (o : CollectionItem)
| View (u : CollectionItem)
| LinkClick (c : CollectionItem).

Section listing.
Context (cp : ConfigParams) (portal : LayergPortalConfig) (ls : gmap string string).

Abbreviation H := (M state (cmd subscription dialog)).

Definition search_filter (s : state) : list (string * jsval) :=
  [("limit", jor (f_limit s) (JNum limit)); ("page", jor (f_page s) (JNum (page_ s))); ("search", jor (f_search s) (JStr ""))].

Definition search : H unit :=
  ongoing ← gets ongoingQuery;
  when ongoing (emit Notify);;
  ongoingQuery <~ true;;
  filter ← gets search_filter;
  portal_send Search (listCollections portal ls filter).

Definition address (s : state) : list (string * jsval) :=
  [("page", jor (f_page s) (JNum (page_ s))); ("limit", jor (f_limit s) (JNum limit)); ("search", jor (f_search s) (JStr ""))].

Definition search_next (d : CollectionList) : H unit :=
  error <~ JStr "";;
  collections <~ [];;
  l ← force "d.data is not iterable" (CollectionList_data d);
  collections <~ l;;
  collectionsCount <~ chain (CollectionList_paging d) Paging_total;;
  q ← gets address;
  emit (Navigate (merge_query q));;
  ongoingQuery <~ false.

Definition search_error (err : jsval) : H unit :=
  error <~ err;;
  ongoingQuery <~ false.

Definition init_form (qp : query_params) : H unit :=
  f_page <~ of_opt (qp_get "page" qp);;
  f_limit <~ of_opt (qp_get "limit" qp);;
  f_search <~ of_opt (qp_get "search" qp).

(** The resolved data are not looked at. *)
Definition ngOnInit (qp : query_params) : H unit :=
  init_form qp;;
  subscriber search.

Definition ngOnDestroy : H unit := emit Notify;; emit Complete.

Definition onPageChange (p : num) : H unit :=
  f_page <~ JNum p;;
  search.

(** The pagination runs [onPageChange] and then sets its page: [(pageChange)], [[(page)]]. *)
Definition page_changed (p : num) : H unit :=
  subscriber (onPageChange p);;
  page_ <~ p.

Definition cancelQuery : H unit := emit Notify;; ongoingQuery <~ false.

(** [deleteAccount], which deletes the account with the identifier of the collection; no
    button of the page calls it. *)
Definition deleteAccount_confirmed (i : nat) (o : CollectionItem) : H unit :=
  emit (SetDisabled true);;
  emit PreventDefault;;
  error <~ JStr "";;
  emit (Send (Delete i o) (deleteAccount cp "" (CollectionItem_id o) (JBool false))).

Definition delete_next (i : nat) : H unit :=
  error <~ JStr "";;
  l ← gets collections;
  collections <~ splice1 i l;;
  n ← gets collectionsCount;
  collectionsCount <~ decr n.

Definition viewAccount (u : CollectionItem) : H unit :=
  emit (Navigate (mkNavigation ["/collections"; js_String (CollectionItem_id u)] [] false)).

(** The dialog is given the collection; when it tells that it has linked a contract, the
    page searches again. *)
Definition openLinkContractModal (c : CollectionItem) : H unit := emit (OpenConfirm (LinkContract c)).
Definition linkContractUpdated : H unit := subscriber search.

#[export] Instance page : Component state event subscription dialog := {
  resp k := match k with Search => CollectionList | Delete _ _ => jsval end;
  on_event e :=
    match e with
    | Init qp => ngOnInit qp
    | RouteData => subscriber search
    | Destroy => ngOnDestroy
    | TypeSearch v => f_search <~ JStr v
    | SearchClick => search
    | PageChange p => page_changed (int (Zpos p))
    | CancelQuery => cancelQuery
    | DeleteClick i o => emit (OpenConfirm (ConfirmDelete i o))
    | View u => viewAccount u
    | LinkClick c => openLinkContractModal c
    end;
  on_next k := match k with Search => search_next | Delete i _ => fun _ => delete_next i end;
  on_error k err := match k with Search => search_error err | Delete _ _ => error <~ err end;
  on_confirm d _ := match d with ConfirmDelete i o => deleteAccount_confirmed i o | LinkContract _ => linkContractUpdated end;
  take_until k := match k with Search => true | Delete _ _ => false end
}.
End listing.

Definition deleteAllowed (role : UserRole) : bool :=
  (UserRole_value role <=? UserRole_value USER_ROLE_DEVELOPER)%Z.

(** [CollectionsResolver] asks for the configuration only. *)
Definition CollectionsResolver (cp : ConfigParams) : list request := [getConfig cp ""].

(** ** The searches *)

Definition is_search (k : subscription) : bool := match k with Search => true | Delete _ _ => false end.

Lemma collections_search_spec portal ls s :
  search portal ls s =
    match listCollections portal ls (search_filter s) with
    | Some r => (Ret tt, setf (f := ongoingQuery) (fun _ => true) s, (if ongoingQuery s then [Notify] else []) ++ [Send Search r])
    | None => (Throw SyntaxError, setf (f := ongoingQuery) (fun _ => true) s, if ongoingQuery s then [Notify] else [])
    end.
Proof.
  unfold search, search_filter. destruct s as [e n l og p fp fl fs]. run_state.
  destruct og; run_state; by destruct (listCollections _ _ _).
Qed.

Lemma collections_search_keeps portal ls : keeps is_search ongoingQuery false (search portal ls).
Proof.
  destruct (portal_headers ls) as [h|] eqn:E.
  - apply search_keeps. intros s. rewrite collections_search_spec. unfold listCollections, portal_get. rewrite E.
    eexists Search, _. split; [|split; [reflexivity|by destruct s]]. reflexivity.
  - apply search_fails_keeps. intros s. rewrite collections_search_spec. unfold listCollections, portal_get. by rewrite E.
Qed.

#[export] Instance collections_searches cp portal ls : SearchPage (page cp portal ls).
Proof.
  refine {| searching := is_search : _ -> bool; ongoing := ongoingQuery |}.
  - by intros [].
  - intros []; cbn [on_event page]; try (apply passive_keeps; solve [eauto with passive]);
      try (apply cancel_keeps; by eexists).
    + apply keeps_then; [apply passive_keeps; unfold init_form; eauto with passive|].
      apply subscriber_keeps, collections_search_keeps.
    + apply subscriber_keeps, collections_search_keeps.
    + apply collections_search_keeps.
    + apply keeps_then; [|apply passive_keeps; eauto with passive]. apply subscriber_keeps.
      apply keeps_then; [apply passive_keeps; eauto with passive|apply collections_search_keeps].
    + apply passive_keeps. unfold viewAccount. eauto with passive.
    + apply passive_keeps. unfold openLinkContractModal. eauto with passive.
  - intros [|i o] a; cbn [on_next page is_search]; [|apply passive_keeps; unfold delete_next; eauto with passive].
    apply answer_keeps. intros s. unfold search_next. run_m. by destruct (CollectionList_data a).
  - intros [|i o] e; cbn [on_error page is_search]; [by apply answer_keeps|apply passive_keeps; eauto with passive].
  - intros [i o|c] v; cbn [on_confirm page].
    + apply passive_keeps. unfold deleteAccount_confirmed. eauto with passive.
    + apply subscriber_keeps, collections_search_keeps.
Defined.

(** ** The address and the search it stands for *)

(** A navigation that merges its query into the address: keys with [null] or [undefined]
    are removed, the others are written as strings. *)
Definition address_merged (n : navigation) (qp : query_params) : Prop :=
  forall k v, assoc k (nav_query n) = Some v ->
    qp_get k qp = match v with JNull | JUndef => Nul | _ => Val (String_ v) end.

(** The values a control of the search form can have. *)
Definition simple (v : jsval) : bool :=
  match v with JUndef | JNull | JStr _ | JNum _ => true | _ => false end.

Definition usable (s : state) : Prop :=
  simple (f_page s) = true /\ simple (f_limit s) = true /\ simple (f_search s) = true /\ num_truthy (page_ s) = true.

Lemma usable_reachable cp portal ls c :
  reachable (comp := page cp portal ls) (start new_state) c -> usable (c_state c).
Proof.
  assert (Hs : preserves usable (search portal ls)).
  { unfold search, portal_send, or_throw. eauto 20 with preserves. }
  apply reachable_preserves.
  - done.
  - intros []; cbn [on_event page]; try (eauto with preserves; fail).
    + unfold ngOnInit. apply preserves_bind; [|intros _; by apply preserves_subscriber].
      intros s (H1 & H2 & H3 & H4). unfold init_form, usable, qp_get. run_m. destruct s. cbn in *.
      by destruct (qp !! "page"), (qp !! "limit"), (qp !! "search").
    + apply preserves_assign. intros [] (H1 & H2 & H3 & H4). done.
    + unfold page_changed. apply preserves_bind.
      * apply preserves_subscriber, preserves_bind; [|done]. apply preserves_assign. by intros [] (H1 & H2 & H3 & H4).
      * intros _. apply preserves_assign. by intros [] (H1 & H2 & H3 & H4).
  - intros [|i o] a; cbn [on_next page]; unfold search_next, delete_next; eauto 20 with preserves.
  - intros [|i o] e; cbn [on_error page]; unfold search_error; eauto with preserves.
  - intros [i o|c'] v; cbn [on_confirm page]; unfold deleteAccount_confirmed, linkContractUpdated; eauto with preserves.
Qed.
(** What a value of the form becomes on its way through the address bar. *)
Definition readback (v : jsval) : jsval := of_opt (match v with JNull | JUndef => Nul | _ => Val (String_ v) end).

Lemma readback_simple w d : simple w = true -> jtruthy w = true -> jor (readback w) d = JStr (String_ w).
Proof.
  intros Hs Ht. assert (H : truthy_string (String_ w) = true)
    by (destruct w as [| | |n|t| | |]; try discriminate; [apply string_of_num_truthy|exact Ht]).
  destruct w; try discriminate; unfold readback, of_opt, jor, jtruthy at 1; by rewrite H.
Qed.

Lemma simple_jor v d : simple v = true -> simple d = true -> simple (jor v d) = true.
Proof. intros Hv Hd. unfold jor. by destruct (jtruthy v). Qed.

Lemma jor_truthy v d : jtruthy d = true -> jtruthy (jor v d) = true.
Proof. intros Hd. unfold jor. by destruct (jtruthy v) eqn:E. Qed.

(** A filter whose values have been through the address bar. *)
Lemma filter_reads_back a b w d d' :
  simple a = true -> simple b = true -> simple w = true -> jtruthy a = true -> jtruthy b = true ->
  object_params [("limit", jor (readback a) d); ("page", jor (readback b) d'); ("search", jor (readback (jor w (JStr ""))) (JStr ""))]
  = object_params [("limit", a); ("page", b); ("search", jor w (JStr ""))].
Proof.
  intros Ha Hb Hw Ta Tb. rewrite !readback_simple by done.
  assert (E : object_params [("search", jor (readback (jor w (JStr ""))) (JStr ""))] = object_params [("search", jor w (JStr ""))]).
  { unfold jor at 2 3. destruct (jtruthy w) eqn:Ew; [|done]. rewrite readback_simple by done. by destruct w. }
  unfold object_params in *. cbn [flat_map fst snd] in *. rewrite E. f_equal; [by destruct a|f_equal; by destruct b].
Qed.

Lemma collections_search_next_ok d l s : CollectionList_data d = Val l ->
  search_next d s =
    (Ret tt, mkState (JStr "") (chain (CollectionList_paging d) Paging_total) l false (page_ s) (f_page s) (f_limit s) (f_search s),
     [Navigate (merge_query (address s))]).
Proof. destruct d as [pg dt], s. cbn [CollectionList_data]. intros ->. reflexivity. Qed.

(** With a readable token the request of a search can be built. *)
Lemma search_sent portal ls tok : read_item "accessToken" ls = Some tok ->
  exists h, forall s, listCollections portal ls (search_filter s) =
    Some (mkRequest GET (url_of portal "/collection") NoBody (object_params (search_filter s)) h).
Proof. intros Ht. unfold listCollections, portal_get, portal_headers. rewrite Ht. by eexists. Qed.

(** The page as [ngOnInit] finds it at an address. *)
Definition form_at (qp : query_params) : state :=
  setf (f := f_search) (fun _ => of_opt (qp_get "search" qp)) (setf (f := f_limit) (fun _ => of_opt (qp_get "limit" qp))
    (setf (f := f_page) (fun _ => of_opt (qp_get "page" qp)) new_state)).

(** The address that a search has written stands for that search. *)
Lemma address_keeps_filter s qp : usable s -> address_merged (merge_query (address s)) qp ->
  object_params (search_filter (form_at qp)) = object_params (search_filter s).
Proof.
  intros (H1 & H2 & H3 & H4) Hq.
  pose proof (filter_reads_back (jor (f_limit s) (JNum limit)) (jor (f_page s) (JNum (page_ s))) (f_search s)
    (JNum limit) (JNum (int 1)) (simple_jor _ (JNum limit) H2 eq_refl) (simple_jor _ (JNum (page_ s)) H1 eq_refl) H3
    (jor_truthy _ (JNum limit) eq_refl) (jor_truthy _ (JNum (page_ s)) H4)) as E.
  unfold search_filter at 2. rewrite <- E. unfold readback, search_filter, form_at.
  cbn [f_page f_limit f_search page_ setf new_state eta_state].
  by rewrite (Hq "limit" _ eq_refl), (Hq "page" _ eq_refl), (Hq "search" _ eq_refl).
Qed.

(** What the page does when it is opened at an address. *)
Lemma init_sends portal ls qp r : listCollections portal ls (search_filter (form_at qp)) = Some r ->
  ngOnInit portal ls qp new_state = (Ret tt, setf (f := ongoingQuery) (fun _ => true) (form_at qp), [Send Search r]).
Proof.
  intros listed. unfold ngOnInit, init_form. run_m.
  match goal with |- context [search portal ls ?s] => change s with (form_at qp) end.
  by rewrite collections_search_spec, listed.
Qed.

(** ** The properties *)

(** An answer of the server, for searches [d]. *)
Definition answer cp portal ls (d : CollectionList) : forall k, resp (Component := page cp portal ls) k :=
  fun k => match k with Search => d | Delete _ _ => JUndef end.

(** C33: the address stands for the form when the answer comes.  From any state the page can
    reach, after a click on Search and whatever else the user and the portal do until a
    search that waits is answered, the page that is opened at the address which the answer
    writes sends one request, that of the form as it is at that moment.  So the search
    survives a reload, its request being the very same, if the form is the one that was
    clicked on; if the user has typed in between, the address does not say what was
    searched for but what was typed. *)
Theorem collections_address_reloads cp portal ls c acts i (f : forall k, resp (Component := page cp portal ls) k) tok l
    (Hc : reachable (comp := page cp portal ls) (start new_state) c)
    (Ht : read_item "accessToken" ls = Some tok)
    (Hi : c_pending (exec_all (comp := page cp portal ls) (exec (comp := page cp portal ls) c (User SearchClick)) acts) !! i = Some Search)
    (Hd : CollectionList_data (f Search) = Val l) :
  let c1 := exec (comp := page cp portal ls) c (User SearchClick) in
  let c2 := exec_all (comp := page cp portal ls) c1 acts in
  exists pre r r' n,
    c_trace c1 = c_trace c ++ pre ++ [Send Search r] /\
    c_trace (exec (comp := page cp portal ls) c2 (Respond i f)) = c_trace c2 ++ [Navigate n] /\
    (forall qp, address_merged n qp ->
       c_trace (exec (comp := page cp portal ls) (start new_state) (User (Init qp))) = [Send Search r']) /\
    listCollections portal ls (search_filter (c_state c2)) = Some r' /\
    (search_filter (c_state c2) = search_filter (c_state c1) -> r' = r).
Proof.
  intros c1 c2. destruct (search_sent portal ls tok Ht) as (h & listed).
  assert (E1 : c_trace c1 = c_trace c ++ (if ongoingQuery (c_state c) then [Notify] else []) ++
                 [Send Search (mkRequest GET (url_of portal "/collection") NoBody (object_params (search_filter (c_state c))) h)]).
  { unfold c1. pose proof (collections_search_spec portal ls (c_state c)) as E. rewrite listed in E.
    erewrite exec_User by exact E. by rewrite absorb_trace. }
  assert (Es : search_filter (c_state c1) = search_filter (c_state c)).
  { unfold c1. cbn [exec]. rewrite run_state. cbn [on_event page]. rewrite collections_search_spec, listed. by destruct (c_state c). }
  assert (Hu : usable (c_state c2)).
  { apply (usable_reachable cp portal ls). eapply reachable_trans; [exact Hc|].
    eapply reachable_trans; [apply reach_step, reach_refl|apply reachable_exec_all]. }
  eexists _, _, _, _. split_and_all; [exact E1| | |apply listed|].
  - erewrite exec_Respond; [|exact Hi|by apply collections_search_next_ok]. by rewrite absorb_trace.
  - intros qp Hq. erewrite exec_User by (apply init_sends, listed). by rewrite (address_keeps_filter _ _ Hu Hq).
  - intros E. by rewrite E, Es.
Qed.
(** An example: the third page of the collections with "art" in their name. *)
Definition third_page (cp : ConfigParams) (portal : LayergPortalConfig) (ls : gmap string string) :=
  exec_all (comp := page cp portal ls) (start new_state)
    [User (Init ∅); User (TypeSearch "art"); User (PageChange 3)].

(** Its search is answered at once, and after another text has been typed. *)
Lemma collections_address_reloads_witness :
  let cp := new_ConsoleService Und in
  let c := third_page cp hub hub_token in
  let f := answer cp hub hub_token (mkCollectionList Und (Val [])) in
  let c1 := exec (comp := page cp hub hub_token) c (User SearchClick) in
  let c2 := exec (comp := page cp hub hub_token) c1 (User (TypeSearch "music")) in
  let opened qp := c_trace (exec (comp := page cp hub hub_token) (start new_state) (User (Init qp))) in
  exists r r' n n',
    listCollections hub hub_token [("limit", JNum (int 10)); ("page", JNum (int 3)); ("search", JStr "art")] = Some r /\
    listCollections hub hub_token [("limit", JNum (int 10)); ("page", JNum (int 3)); ("search", JStr "music")] = Some r' /\
    last (c_trace c1) = Some (Send Search r) /\
    last (c_trace (exec (comp := page cp hub hub_token) c1 (Respond 0 f))) = Some (Navigate n) /\
    (forall qp, address_merged n qp -> opened qp = [Send Search r]) /\
    last (c_trace (exec (comp := page cp hub hub_token) c2 (Respond 0 f))) = Some (Navigate n') /\
    (forall qp, address_merged n' qp -> opened qp = [Send Search r']).
Proof.
  intros cp c f c1 c2 opened.
  assert (Ht : read_item "accessToken" hub_token = Some tok) by (vm_compute; reflexivity).
  destruct (collections_address_reloads cp hub hub_token c [] 0 f tok [] ltac:(apply reachable_exec_all) Ht eq_refl eq_refl)
    as (pre & r & r0 & n & H1 & H2 & H3 & _ & H5).
  destruct (collections_address_reloads cp hub hub_token c [User (TypeSearch "music")] 0 f tok [] ltac:(apply reachable_exec_all) Ht eq_refl eq_refl)
    as (pre' & _ & r' & n' & _ & H2' & H3' & H4' & _).
  rewrite (H5 eq_refl) in H3. exists r, r', n, n'. split_and_all.
  - assert (E : last (c_trace c1) = Some (Send Search r)) by (unfold c1; rewrite H1, app_assoc; apply last_snoc).
    vm_compute in E. injection E as <-. vm_compute. reflexivity.
  - exact H4'.
  - unfold c1. rewrite H1, app_assoc. apply last_snoc.
  - etransitivity; [exact (f_equal last H2)|apply last_snoc].
  - exact H3.
  - etransitivity; [exact (f_equal last H2')|apply last_snoc].
  - exact H3'.
Defined.
End Listing.

Module Create.

(** The part of the page that the image's field is in, the other controls, the error. *)
Record state := mkState {
  error : jsval;
  image : ImageUpload.state;
  name : jsval;
  description : jsval
}.

#[export] Instance eta_state : Eta state := fun s => mkState (error s) (image s) (name s) (description s).

Definition new_state : state := mkState (JStr "") no_image (JStr "") (JStr "").

Inductive subscription := Upload | CreateCollection.
Inductive event :=
| Init
| TypeName (v : string)
| TypeDescription (v : string)
| ChooseFile (files : list string)
| FileRead (i : nat) (result : string)
| Submit
| Back.

Definition answer_of (k : subscription) : Type := match k with Upload => fileHashes | CreateCollection => jsval end.

Section validated.
Context {validators : Validators}.

Section create.
Context (portal : LayergPortalConfig) (ls : gmap string string).

Abbreviation H := (M state (cmd subscription Empty_set)).

(** [ngOnInit] makes the form; nothing is done with the resolved data. *)
Definition ngOnInit : H unit :=
  name <~ JStr "";; description <~ JStr "";; zoom image (avatarUrl <~ JStr "").

Definition collectionForm_valid (s : state) : bool :=
  (required (name s) && minLength 5 (name s)) && maxLength 255 (description s) && required (avatarUrl (image s)).

Definition onFileSelected (files : list string) : H unit := zoom image (ImageUpload.onFileSelected portal ls Upload files).
Definition onload (i : nat) (result : string) : H unit := zoom image (ImageUpload.onload i result).
Definition uploadImage_next (h : fileHashes) : H unit := zoom image (upload_next portal h).
Definition uploadImage_error : H unit := zoom image upload_error.

Definition createCollection : H unit :=
  try_catch (
    error <~ JStr "";;
    valid ← gets collectionForm_valid;
    when valid (
      n ← gets name; d ← gets description; a ← gets (fun s => avatarUrl (image s));
      projectId ← stored_project ls;
      portal_send CreateCollection (createCollections portal ls
        (JObj [("name", n); ("description", d); ("avatarUrl", a); ("projectId", projectId)]))))
    (fun e => error <~ e).

Definition createCollection_next : H unit := emit (Navigate (mkNavigation ["/collections"] [] false)).

Definition handleBack : H unit := emit (Navigate (mkNavigation ["/collections"] [] false)).

#[export] Instance page : Component state event subscription Empty_set := {
  resp := answer_of;
  on_event e :=
    match e with
    | Init => ngOnInit
    | TypeName v => name <~ JStr v
    | TypeDescription v => description <~ JStr v
    | ChooseFile files => onFileSelected files
    | FileRead i result => onload i result
    | Submit => createCollection
    | Back => handleBack
    end;
  on_next k := match k with Upload => uploadImage_next | CreateCollection => fun _ => createCollection_next end;
  on_error k err := match k with Upload => uploadImage_error | CreateCollection => error <~ err end;
  on_confirm d := match d with end;
  take_until _ := false
}.
End create.

Definition CreateCollectionResolver (cp : ConfigParams) : request := getConfig cp "".

(** Runs a handler on an explicit state; the record is computed once per assignment. *)
Ltac run_state :=
  cbv beta iota zeta delta [when force subscriber try_catch mbind M_bind bind mret M_ret ret throw gets assign emit zoom
    portal_send stored_project or_throw setf fst snd app error image name description
    ImageUpload.selectedFile ImageUpload.imagePreview ImageUpload.avatarUrl ImageUpload.reading].

(** Answers of the portal: [h] to an upload. *)
Definition answer portal ls (h : fileHashes) : forall k, resp (Component := page portal ls) k :=
  fun k => match k with Upload => h | CreateCollection => JNull end.

Definition collection_body (s : state) (token : jsval) : jsval :=
  JObj [("name", name s); ("description", description s); ("avatarUrl", avatarUrl (image s));
        ("projectId", jor (jchain "projectId" token) JNull)].

Lemma createCollection_spec portal ls s :
  createCollection portal ls s =
    let s' := setf (f := error) (fun _ => JStr "") s in
    if collectionForm_valid s then
      match read_item "accessToken" ls with
      | Some token =>
          (Ret tt, s', [Send CreateCollection (mkRequest POST (url_of portal "/collection") (JsonBody (collection_body s token)) []
             {["Authorization" := "Bearer " +:+ String_ (jchain "accessToken" token)]})])
      | None => (Ret tt, setf (f := error) (fun _ => SyntaxError) s, [])
      end
    else (Ret tt, s', []).
Proof.
  unfold createCollection, createCollections, portal_post, portal_headers, collection_body.
  change (collectionForm_valid s) with (collectionForm_valid (setf (f := error) (fun _ => JStr "") s)).
  destruct s as [e [sel prev av rd] n d]. run_state.
  destruct (collectionForm_valid _); run_state; [|done]. destruct (read_item "accessToken" ls); reflexivity.
Qed.

(** Creating a collection: with an invalid form nothing is sent and nothing is shown;
    with a valid one a single request carries the form and the project of the portal's
    token, and its answer leads back to the list; with a damaged token nothing is sent and
    the page shows the error. *)
Theorem create_collection portal ls s a :
  let c := exec (comp := page portal ls) (start s) (User Submit) in
  (collectionForm_valid s = false -> c_trace c = [] /\ error (c_state c) = JStr "") /\
  (collectionForm_valid s = true -> read_item "accessToken" ls = None ->
     c_trace c = [] /\ error (c_state c) = SyntaxError) /\
  (forall token, collectionForm_valid s = true -> read_item "accessToken" ls = Some token ->
     exists r, c_trace (exec (comp := page portal ls) c (Respond 0 a)) =
         [Send CreateCollection r; Navigate (mkNavigation ["/collections"] [] false)] /\
       req_method r = POST /\ req_url r = url_of portal "/collection" /\
       req_body r = JsonBody (collection_body s token) /\
       req_headers r !! "Authorization" = Some ("Bearer " +:+ String_ (jchain "accessToken" token))).
Proof.
  cbv zeta. pose proof (createCollection_spec portal ls s) as E. cbv zeta in E. split_and_all.
  - intros Hv. rewrite Hv in E. erewrite exec_User by exact E. by destruct s.
  - intros Hv Ht. rewrite Hv, Ht in E. erewrite exec_User by exact E. by destruct s.
  - intros token Hv Ht. rewrite Hv, Ht in E. erewrite (exec_User _ Submit) by exact E.
    eexists. split; [reflexivity|]. split_and_all; done.
Qed.

Lemma choose_spec portal ls s f r : LayergPortal.uploadImage portal ls [f] = Some r ->
  onFileSelected portal ls [f] s =
    (Ret tt, setf (f := image) (fun _ => mkImage (Some f) (imagePreview (image s)) (avatarUrl (image s)) (reading (image s) ++ [f])) s,
     [Send Upload r]).
Proof. intros E. unfold onFileSelected, zoom. by rewrite (onFileSelected_spec _ _ _ _ _ _ _ E). Qed.

(** The image of a collection is that of the last answer, not of the last choice: when
    two files are chosen and their uploads are answered in the opposite order, the form
    shows the second file and sends the first. *)
Theorem late_upload_wins portal ls token s f g hf hg rest
    (Ht : read_item "accessToken" ls = Some token) :
  let c := exec_all (comp := page portal ls) (start s)
    [User (ChooseFile [f]); User (ChooseFile [g]);
     Respond (comp := page portal ls) 1 (answer portal ls (Hashes (hg :: rest)));
     Respond (comp := page portal ls) 0 (answer portal ls (Hashes (hf :: rest)))] in
  selectedFile (image (c_state c)) = Some g /\
  avatarUrl (image (c_state c)) = JStr (getIpfsUrl portal hf).
Proof.
  assert (Hr : forall f, exists r, LayergPortal.uploadImage portal ls [f] = Some r)
    by (intros f'; unfold LayergPortal.uploadImage, portal_post, portal_headers; rewrite Ht; by eexists).
  destruct (Hr f) as [rf Ef], (Hr g) as [rg Eg]. cbv zeta.
  user_step by (choose_spec _ _ _ _ _ Ef). user_step by (choose_spec _ _ _ _ _ Eg). done.
Qed.

End validated.

#[local] Existing Instance angular.

Definition form : state := mkState (JStr "old") no_image (JStr "Art of war") (JStr "").
Definition full_form : state :=
  mkState (JStr "old") (mkImage (Some "a.png") JNull (JStr "https://hub/a") []) (JStr "Art of war") (JStr "").

Lemma create_collection_witness :
  collectionForm_valid full_form = true /\
  exists r, c_trace (exec (comp := page hub hub_token)
        (exec (comp := page hub hub_token) (start full_form) (User Submit))
        (Respond (comp := page hub hub_token) 0
           (answer hub hub_token (Hashes [])))) =
      [Send CreateCollection r; Navigate (mkNavigation ["/collections"] [] false)] /\
    req_method r = POST /\ req_url r = url_of hub "/collection" /\
    req_body r = JsonBody (JObj [("name", JStr "Art of war"); ("description", JStr "");
       ("avatarUrl", JStr "https://hub/a"); ("projectId", JStr "p1")]) /\
    req_headers r !! "Authorization" = Some "Bearer tok".
Proof.
  split; [reflexivity|].
  refine (proj2 (proj2 (create_collection hub hub_token full_form
      (answer hub hub_token (Hashes []))))
    tok _ _); vm_compute; reflexivity.
Defined.

Lemma late_upload_wins_witness :
  let c := exec_all (comp := page hub hub_token) (start form)
    [User (ChooseFile ["a.png"]); User (ChooseFile ["b.png"]);
     Respond (comp := page hub hub_token) 1 (answer hub hub_token (Hashes ["Qb"]));
     Respond (comp := page hub hub_token) 0 (answer hub hub_token (Hashes ["Qa"]))] in
  selectedFile (image (c_state c)) = Some "b.png" /\
  avatarUrl (image (c_state c)) = JStr (getIpfsUrl hub "Qa").
Proof.
  apply (late_upload_wins hub hub_token tok
    form "a.png" "b.png" "Qa" "Qb" []). vm_compute. reflexivity.
Defined.
End Create.

Module Detail.

(** The form of a page that is never shown: it is filled by nothing and sends nothing. *)
Record state := mkState { error : jsval; name : jsval; description : jsval; avatarUrl : jsval; projectId : jsval }.

#[export] Instance eta_state : Eta state := fun s => mkState (error s) (name s) (description s) (avatarUrl s) (projectId s).

Inductive event := Init | Submit | Back.

Section detail.
Abbreviation H := (M state (cmd Empty_set Empty_set)).

Definition ngOnInit : H unit :=
  name <~ JStr "";; description <~ JStr "";; avatarUrl <~ JStr "";; projectId <~ JStr "".

(** With a valid form the body is only written to the log. *)
Definition createCollection : H unit := error <~ JStr "".

Definition handleBack : H unit := emit (Navigate (mkNavigation ["/collections"] [] false)).

#[export] Instance page : Component state event Empty_set Empty_set := {
  resp k := match k with end;
  on_event e := match e with Init => ngOnInit | Submit => createCollection | Back => handleBack end;
  on_next k := match k with end;
  on_error k := match k with end;
  on_confirm d := match d with end;
  take_until _ := false
}.
End detail.

(** The resolver of the page, and the same one of the frame. *)
Definition CollectionDetailResolver (cp : ConfigParams) (portal : LayergPortalConfig) (ls : gmap string string)
    (id : opt string) : option (list request) :=
  (fun r => [getConfig cp ""; r]) <$> detailCollection portal ls id.
End Detail.

Module Outlet.

(** [CollectionComponent] shows the error of the route and the pages below it. *)
Record state := mkState { error : jsval }.

Definition viewAccount {S K D} (u : CollectionItem) : M S (cmd K D) unit :=
  emit (Navigate (mkNavigation ["/collections"; js_String (CollectionItem_id u)] [] false)).

Definition CollectionResolver (cp : ConfigParams) (portal : LayergPortalConfig) (ls : gmap string string)
    (id : opt string) : option (list request) :=
  (fun r => [getConfig cp ""; r]) <$> detailCollection portal ls id.
End Outlet.
