(* ===== verification/Recreation.v ===== *)
(** * List pages under a router that reuses nothing

    A list page writes its search to the address when it is answered, by a navigation to
    itself.  Normally the router keeps the page.  After [GroupMembersComponent]
    ([group/members/groupMembers.component.ts]) has been created once, the router creates
    every component anew at each navigation, also at one to the same address; so a list
    that searches when it is created starts over.  [Restarts] is what such a list does; the
    lists of accounts, storage objects, groups, leaderboards and collections have it.  What
    follows from it is proved once, under either kind of router. *)

From S2P Require Import Prelude Codec JsVal Json Runtime ConsoleTypes ConsoleService Session LayergPortal RowDeletion Searches Accounts Lists Collections.

(** The query string after [queryParamsHandling: 'merge']. *)
Definition merge_params (n : navigation) (qp : query_params) : query_params :=
  fold_left (fun qp x => match x.2 with JNull | JUndef => delete x.1 qp | v => <[x.1 := String_ v]> qp end)
    (nav_query n) qp.

(** What a value of a form is once it has been through the address. *)
Definition in_address (v : jsval) : opt string := match v with JNull | JUndef => Nul | _ => Val (String_ v) end.

Lemma merge_params_get q k qp : NoDup (map fst q) ->
  qp_get k (merge_params (merge_query q) qp) =
    match assoc k q with Some v => in_address v | None => qp_get k qp end.
Proof.
  unfold merge_params, merge_query. cbn [nav_query].
  revert qp. induction q as [|[k' v] q IH]; intros qp Hnd; [done|].
  inversion_clear Hnd as [|? ? Hout Hnd']. cbn [fold_left fst snd assoc]. rewrite IH by done.
  destruct (String.eqb_spec k k') as [<-|Hne].
  - replace (assoc k q) with (@None jsval).
    + unfold qp_get. destruct v; by rewrite ?lookup_delete_eq, ?lookup_insert_eq.
    + clear -Hout. induction q as [|[k' v'] q IH]; [done|]. cbn in *. apply not_elem_of_cons in Hout as [Hne Hout].
      destruct (String.eqb_spec k k'); [done|by apply IH].
  - destruct (assoc k q); [done|]. unfold qp_get. destruct v; by rewrite ?lookup_delete_ne, ?lookup_insert_ne.
Qed.

(** A parameter that was read from an address and is written back stays. *)
Lemma in_address_get k qp : in_address (of_opt (qp_get k qp)) = qp_get k qp.
Proof. unfold qp_get. by destruct (qp !! k). Qed.

(** ** Any list *)

Section recreation.
Context {S Ev K D : Type} {comp : Component S Ev K D}.
(** The page as the constructor leaves it, and what the router then hands to [ngOnInit]. *)
Context (fresh : S) (opening : query_params -> Ev).

(** The page on the screen, its query string, and all requests since it was first opened. *)
Record on_screen := mkOnScreen {
  address : query_params;
  component : config S K D;
  log : list request
}.

(** Whether the router reuses components. *)
Context (reuse : bool).

Definition created (qp : query_params) : config S K D := exec (start fresh) (User (opening qp)).

Definition opened_at (qp : query_params) : on_screen := mkOnScreen qp (created qp) (requests_of (c_trace (created qp))).

(** The oldest pending request is answered; then the router follows the page's navigation. *)
Definition answered (p : on_screen) (f : forall k, resp k) : on_screen :=
  let c := exec (component p) (Respond 0 f) in
  let l := drop (length (c_trace (component p))) (c_trace c) in
  match navigations_of l with
  | n :: _ =>
      let qp := merge_params n (address p) in
      if reuse then mkOnScreen qp c (log p ++ requests_of l)
      else mkOnScreen qp (created qp) (log p ++ requests_of l ++ requests_of (c_trace (created qp)))
  | [] => mkOnScreen (address p) c (log p ++ requests_of l)
  end.
End recreation.
Arguments mkOnScreen {S K D}.
Arguments address {S K D}.
Arguments component {S K D}.
Arguments log {S K D}.

(** A list that, created at an address with a search, sends the request of that search and
    nothing else, and when it is answered navigates to an address with the same search. *)
Class Restarts {S Ev K D} (comp : Component S Ev K D) (fresh : S) (opening : query_params -> Ev) := {
  has_search : query_params -> Prop;
  first_search : query_params -> request;
  (** the answers that the list can show *)
  proper_answer : (forall k, resp k) -> Prop;
  (** whether the page shows that a query is going on *)
  spinning : S -> bool;
  restarts qp : has_search qp -> exists s k l,
    created fresh opening qp = mkMachine s [k] [] (Send k (first_search qp) :: l) /\ requests_of l = [] /\
    forall f, proper_answer f -> exists s' n,
      on_next k (f k) s = (Ret tt, s', [Navigate n]) /\ spinning s' = false /\
      has_search (merge_params n qp) /\ first_search (merge_params n qp) = first_search qp
}.

(** Where the page stays on the screen, one request and one answer, after which it waits for
    nothing; where it is created anew, one request more than answers, all of them the same,
    and one that waits. *)
Definition never_rests {S Ev K D} (comp : Component S Ev K D) fresh opening {r : Restarts comp fresh opening}
    (qp : query_params) : Prop :=
  (forall f, proper_answer f ->
     let p := answered fresh opening true (opened_at fresh opening qp) f in
     log p = [first_search qp] /\ c_pending (component p) = [] /\ spinning (c_state (component p)) = false) /\
  (forall fs, Forall proper_answer fs ->
     let p := fold_left (answered fresh opening false) fs (opened_at fresh opening qp) in
     log p = replicate (1 + length fs) (first_search qp) /\ length (c_pending (component p)) = 1).

Section restarting.
Context {S Ev K D : Type} {comp : Component S Ev K D} {fresh : S} {opening : query_params -> Ev}.
Context {r : Restarts comp fresh opening}.

Abbreviation on_screen_of := (on_screen (S := S) (K := K) (D := D)).

Definition waiting (req : request) (p : on_screen_of) : Prop :=
  component p = created fresh opening (address p) /\ has_search (address p) /\ first_search (address p) = req.

Lemma created_once qp : has_search qp ->
  requests_of (c_trace (created fresh opening qp)) = [first_search qp] /\ length (c_pending (created fresh opening qp)) = 1.
Proof. intros Hq. destruct (restarts qp Hq) as (s & k & l & E & El & _). rewrite E. unfold requests_of in *. cbn. by rewrite El. Qed.

Lemma answered_once reuse req p f : waiting req p -> proper_answer f ->
  exists c qp, c_pending c = [] /\ spinning (c_state c) = false /\ has_search qp /\ first_search qp = req /\
    answered fresh opening reuse p f =
      if reuse then mkOnScreen qp c (log p)
      else mkOnScreen qp (created fresh opening qp) (log p ++ requests_of (c_trace (created fresh opening qp))).
Proof.
  intros (Ec & Hq & <-) Hf. destruct (restarts _ Hq) as (s & k & l & E & _ & Hn). destruct (Hn f Hf) as (s' & n & En & Es & Hq' & Er).
  exists (mkMachine s' [] [] (Send k (first_search (address p)) :: l ++ [Navigate n])), (merge_params n (address p)).
  split_and_all; [done..|]. unfold answered. rewrite Ec, E.
  erewrite exec_Respond; [|reflexivity|exact En]. cbn [fold_left absorb c_trace c_state c_pending c_dialogs splice1 take drop app length].
  rewrite drop_app_length. cbn [navigations_of requests_of flat_map app]. by rewrite app_nil_r.
Qed.

Lemma restarting_never_rests qp : has_search qp -> never_rests comp fresh opening qp.
Proof.
  intros Hq. assert (H0 : waiting (first_search qp) (opened_at fresh opening qp)) by done. split.
  - intros f Hf. destruct (answered_once true _ _ f H0 Hf) as (c & qp' & H1 & H2 & _ & _ & E). cbv zeta. rewrite E.
    split; [by apply created_once|done].
  - intros fs Hfs. cbv zeta.
    assert (H : let p := fold_left (answered fresh opening false) fs (opened_at fresh opening qp) in
              waiting (first_search qp) p /\ log p = replicate (1 + length fs) (first_search qp)).
    { induction fs as [|f fs IH] using rev_ind; [split; [done|apply created_once, Hq]|].
      apply Forall_app in Hfs as [Hfs Hf]. inversion_clear Hf as [|? ? Hf' _]. destruct (IH Hfs) as [Hw El].
      rewrite fold_left_app. cbn [fold_left]. destruct (answered_once false _ _ f Hw Hf') as (c & qp' & _ & _ & Hq' & Er & E).
      rewrite E. split; [done|]. cbn [log]. rewrite El, (proj1 (created_once qp' Hq')), Er, length_app.
      change [first_search qp] with (replicate 1 (first_search qp)). rewrite <- replicate_add. f_equal. }
    destruct H as [(Ec & Hq' & _) El]. split; [exact El|]. rewrite Ec. by apply created_once.
Qed.
End restarting.

(** ** The lists of the console *)

(** The cursor of the first search: that of the address, if it has one. *)
Definition start_cursor (qp : query_params) : string :=
  match qp_get "cursor" qp with Val c => c | _ => "" end.

Lemma start_cursor_kept q qp : NoDup (map fst q) -> assoc "cursor" q = Some (JStr (start_cursor qp)) ->
  start_cursor (merge_params (merge_query q) qp) = start_cursor qp.
Proof. intros Hnd Hc. unfold start_cursor at 1. by rewrite merge_params_get, Hc. Qed.

Lemma start_cursor_cases qp :
  truthy_str (qp_get "cursor" qp) = true /\ truthy_string (start_cursor qp) = true /\ qp_get "cursor" qp = Val (start_cursor qp) \/
  truthy_str (qp_get "cursor" qp) = false /\ truthy_string (start_cursor qp) = false /\ start_cursor qp = "".
Proof.
  unfold start_cursor. destruct (qp_get "cursor" qp) as [| |c]; [by right..|]. cbn. unfold truthy_string.
  destruct (String.eqb_spec c "") as [->|]; [by right|by left].
Qed.

(** The parameters of an address after a navigation with the query [q]. *)
Ltac merged :=
  rewrite ?start_cursor_kept, ?merge_params_get
    by first [reflexivity|apply (bool_decide_unpack _); vm_compute; exact I];
  cbn [assoc String.eqb Ascii.eqb Bool.eqb]; rewrite ?in_address_get.

(** The handler [ngOnInit] of a list that searches when the address has a cursor, or else what
    [Hq] says. *)
Ltac first_search_of qp Hq :=
  run_m; cbn -[listAccounts listStorage listGroups truthy qp_get Number num_truthy];
  destruct (start_cursor_cases qp) as [(E1 & E3 & E2)|(E1 & E3 & E2)];
  rewrite E1 in *; [|rewrite E3 in Hq; cbn [orb] in Hq; rewrite Hq];
  cbn -[listAccounts listStorage listGroups truthy qp_get Number num_truthy]; rewrite E2; eexists _, _.

Section lists.
Context (cp : ConfigParams).

Section accounts.
(** What the resolver gives at each address. *)
Context (data : query_params -> opt AccountList).

Definition accounts_search_at (qp : query_params) : bool :=
  truthy_string (start_cursor qp) || (truthy_str (qp_get "filter" qp) || num_truthy (Number (qp_get "filter_type" qp))).

Definition accounts_request (qp : query_params) : request :=
  listAccounts cp "" (qp_get "filter" qp) (tombstones_of (Number (qp_get "filter_type" qp))) (Val (start_cursor qp)).

Lemma accounts_created qp : accounts_search_at qp = true ->
  exists s l, created (comp := Accounts.page cp) Accounts.new_state (fun qp => Accounts.Init qp (data qp)) qp =
      mkMachine s [Accounts.Search (Val (start_cursor qp))] [] (Send (Accounts.Search (Val (start_cursor qp))) (accounts_request qp) :: l) /\
    requests_of l = [] /\ Accounts.filter s = qp_get "filter" qp /\ Accounts.filter_type s = Number (qp_get "filter_type" qp).
Proof.
  unfold accounts_search_at, accounts_request. intros Hq. unfold created. cbn [exec]. unfold run. cbn [on_event Accounts.page c_state start].
  unfold Accounts.ngOnInit, Accounts.init_form, Accounts.init_search.
  destruct (data qp) as [| |[cur tot [| |us]]]; by first_search_of qp Hq.
Qed.

#[export] Instance accounts_restart : Restarts (Accounts.page cp) Accounts.new_state (fun qp => Accounts.Init qp (data qp)).
Proof.
  refine {|
    has_search qp := accounts_search_at qp = true /\
                     (Number (qp_get "filter_type" qp) = int 0 \/ Number (qp_get "filter_type" qp) = int 1);
    first_search := accounts_request;
    proper_answer := fun f : forall k, resp (Component := Accounts.page cp) k => forall cur, exists us, AccountList_users (f (Accounts.Search cur)) = Val us;
    spinning := Accounts.ongoingQuery
  |}.
  intros qp [Hq Ht]. destruct (accounts_created qp Hq) as (s & l & E & El & Ef & Et).
  eexists s, _, l. split_and_all; [exact E|exact El|]. intros f Hf. destruct (Hf (Val (start_cursor qp))) as [us Hus].
  eexists _, _. split; [by apply accounts_search_next_ok|]. split; [done|].
  assert (Hn : Number (in_address (JNum (Number (qp_get "filter_type" qp)))) = Number (qp_get "filter_type" qp)) by by destruct Ht as [-> | ->].
  unfold accounts_search_at, accounts_request in *. rewrite Ef, Et. merged. by rewrite Hn.
Defined.
End accounts.

Section storage.
Context (data : query_params -> StorageCollectionsList * StorageList).

Definition storage_search_at (qp : query_params) : bool :=
  truthy_string (start_cursor qp) || (truthy_str (qp_get "collection" qp) || truthy_str (qp_get "user_id" qp)).

Definition storage_request (qp : query_params) : request :=
  listStorage cp "" (qp_get "user_id" qp) (qp_get "key" qp) (qp_get "collection" qp) (Val (start_cursor qp)).

Lemma storage_created qp : storage_search_at qp = true ->
  exists s l, created (comp := Storage.page cp) Storage.new_state (fun qp => Storage.Init qp (data qp)) qp =
      mkMachine s [Storage.Search (Val (start_cursor qp))] [] (Send (Storage.Search (Val (start_cursor qp))) (storage_request qp) :: l) /\
    requests_of l = [] /\ Storage.collection s = qp_get "collection" qp /\ Storage.key s = qp_get "key" qp /\
    Storage.user_id s = qp_get "user_id" qp.
Proof.
  unfold storage_search_at, storage_request. intros Hq. unfold created. cbn [exec]. unfold run. cbn [on_event Storage.page c_state start].
  unfold Storage.ngOnInit.
  destruct (data qp) as [[[| |cs]] [nc [| |obs] tot]]; by first_search_of qp Hq.
Qed.

#[export] Instance storage_restart : Restarts (Storage.page cp) Storage.new_state (fun qp => Storage.Init qp (data qp)).
Proof.
  refine {|
    has_search qp := storage_search_at qp = true;
    first_search := storage_request;
    proper_answer := fun f : forall k, resp (Component := Storage.page cp) k => forall cur, exists l, StorageList_objects (f (Storage.Search cur)) = Val l;
    spinning := fun _ => false
  |}.
  intros qp Hq. destruct (storage_created qp Hq) as (s & l & E & El & Ec & Ek & Eu).
  eexists s, _, l. split_and_all; [exact E|exact El|]. intros f Hf. destruct (Hf (Val (start_cursor qp))) as [os Hos].
  eexists _, _. split; [by apply Storage.storage_search_next_ok|]. split; [done|].
  unfold storage_search_at, storage_request in *. rewrite Ec, Ek, Eu. by merged.
Defined.
End storage.

Section groups.
Context (data : query_params -> opt GroupList).

Definition groups_search_at (qp : query_params) : bool :=
  truthy_string (start_cursor qp) || truthy_str (qp_get "filter" qp).

Definition groups_request (qp : query_params) : request := listGroups cp "" (qp_get "filter" qp) (Val (start_cursor qp)).

Lemma groups_created qp : groups_search_at qp = true ->
  exists s l, created (comp := GroupsList.page cp) GroupsList.new_state (fun qp => GroupsList.Init qp (data qp)) qp =
      mkMachine s [GroupsList.Search (Val (start_cursor qp))] [] (Send (GroupsList.Search (Val (start_cursor qp))) (groups_request qp) :: l) /\
    requests_of l = [] /\ GroupsList.filter s = qp_get "filter" qp.
Proof.
  unfold groups_search_at, groups_request. intros Hq. unfold created. cbn [exec]. unfold run. cbn [on_event GroupsList.page c_state start].
  unfold GroupsList.ngOnInit.
  destruct (data qp) as [| |[[| |gs] nc tot]]; by first_search_of qp Hq.
Qed.

Lemma groups_shown cursor d s l : GroupList_groups d = Val l -> exists s', GroupsList.search_next cursor d s =
  (Ret tt, s', [Navigate (merge_query [("filter", of_opt (GroupsList.filter s)); ("cursor", of_opt cursor)])]).
Proof. destruct d, s. cbn. intros ->. by eexists. Qed.

#[export] Instance groups_restart : Restarts (GroupsList.page cp) GroupsList.new_state (fun qp => GroupsList.Init qp (data qp)).
Proof.
  refine {|
    has_search qp := groups_search_at qp = true;
    first_search := groups_request;
    proper_answer := fun f : forall k, resp (Component := GroupsList.page cp) k => forall cur, exists l, GroupList_groups (f (GroupsList.Search cur)) = Val l;
    spinning := fun _ => false
  |}.
  intros qp Hq. destruct (groups_created qp Hq) as (s & l & E & El & Ef).
  eexists s, _, l. split_and_all; [exact E|exact El|]. intros f Hf. destruct (Hf (Val (start_cursor qp))) as [gs Hgs].
  destruct (groups_shown (Val (start_cursor qp)) _ s gs Hgs) as [s' Es'].
  eexists s', _. split; [exact Es'|]. split; [done|]. unfold groups_search_at, groups_request in *. rewrite Ef. by merged.
Defined.
End groups.

Section leaderboards.
(** The resolved list is not looked at; every address has a search. *)
Definition leaderboards_request (qp : query_params) : request := listLeaderboards cp "" (Val (start_cursor qp)).

Lemma leaderboards_shown cursor d s l : LeaderboardList_leaderboards d = Val l -> exists s', Leaderboards.search_next cursor d s =
  (Ret tt, s', [Navigate (merge_query [("cursor", of_opt cursor)])]).
Proof. destruct d, s. cbn. intros ->. by eexists. Qed.

#[export] Instance leaderboards_restart : Restarts (Leaderboards.page cp) Leaderboards.new_state Leaderboards.Init.
Proof.
  refine {|
    has_search _ := True;
    first_search := leaderboards_request;
    proper_answer := fun f : forall k, resp (Component := Leaderboards.page cp) k => forall cur, exists l, LeaderboardList_leaderboards (f (Leaderboards.Search cur)) = Val l;
    spinning := fun _ => false
  |}.
  intros qp _. exists (Leaderboards.mkState (JStr "") [] (qp_get "cursor" qp) (Val (int 0))),
    (Leaderboards.Search (Val (start_cursor qp))), []. split_and_all; [|done|].
  - unfold created, leaderboards_request. cbn [exec]. unfold run. cbn [on_event Leaderboards.page c_state start].
    unfold Leaderboards.ngOnInit. run_m. cbn -[listLeaderboards truthy qp_get].
    destruct (start_cursor_cases qp) as [(E1 & _ & E2)|(E1 & _ & E2)]; rewrite E1; cbn -[listLeaderboards qp_get]; by rewrite E2.
  - intros f Hf. destruct (Hf (Val (start_cursor qp))) as [ls Hls].
    match goal with |- context [on_next _ _ ?s] => destruct (leaderboards_shown (Val (start_cursor qp)) _ s ls Hls) as [s' Es'] end.
    eexists s', _. split; [exact Es'|]. split; [done|]. split; [done|]. unfold leaderboards_request. by merged.
Defined.
End leaderboards.

Section collections.
#[local] Existing Instance Listing.eta_state.
Context (portal : LayergPortalConfig) (ls : gmap string string) (tok : jsval) (Htok : read_item "accessToken" ls = Some tok).

(** Every address has a search; the token of the portal is readable. *)
Definition collections_request (qp : query_params) : request :=
  mkRequest GET (url_of portal "/collection") NoBody (object_params (Listing.search_filter (Listing.form_at qp)))
    (<["Authorization" := "Bearer " +:+ String_ (jchain "accessToken" tok)]> ∅).

Lemma address_merged_params q qp : NoDup (map fst q) -> Listing.address_merged (merge_query q) (merge_params (merge_query q) qp).
Proof. intros Hnd k v Hv. rewrite merge_params_get by done. cbn [merge_query nav_query] in Hv. by rewrite Hv. Qed.

#[export] Instance collections_restart : Restarts (Listing.page cp portal ls) Listing.new_state Listing.Init.
Proof using Htok.
  refine {|
    has_search _ := True;
    first_search := collections_request;
    proper_answer := fun f : forall k, resp (Component := Listing.page cp portal ls) k => exists l, CollectionList_data (f Listing.Search) = Val l;
    spinning := Listing.ongoingQuery
  |}.
  intros qp _. assert (listed : listCollections portal ls (Listing.search_filter (Listing.form_at qp)) = Some (collections_request qp)).
  { unfold listCollections, portal_get, portal_headers. by rewrite Htok. }
  assert (E : created (comp := Listing.page cp portal ls) Listing.new_state Listing.Init qp =
    mkMachine (setf (f := Listing.ongoingQuery) (fun _ => true) (Listing.form_at qp)) [Listing.Search] [] [Send Listing.Search (collections_request qp)]).
  { unfold created. erewrite exec_User by (by apply Listing.init_sends, listed). reflexivity. }
  eexists _, _, []. split_and_all; [exact E|done|]. intros f [l Hl].
  eexists _, _. split; [by apply Listing.collections_search_next_ok|]. split; [done|split; [done|] ].
  unfold collections_request. f_equal. rewrite (Listing.address_keeps_filter (Listing.form_at qp)); [done|..].
  - pose proof (Listing.usable_reachable cp portal ls _ (reach_step (comp := Listing.page cp portal ls) _ _ (User (Listing.Init qp)) (reach_refl _))) as Hu.
    change (exec _ _) with (created (comp := Listing.page cp portal ls) Listing.new_state Listing.Init qp) in Hu.
    by rewrite E in Hu.
  - apply address_merged_params. apply (bool_decide_unpack _). vm_compute. exact I.
Defined.
End collections.
End lists.

(** ** The property *)


