(* ===== verification/ListSpec.v ===== *)
(** * What a list of search results promises

    The specification of a list whose searches cancel each other: rows on the screen, and
    at most one query that has not been answered.  A new query takes the place of the one
    before; only the answer of the query that is asked replaces the rows; nothing else
    does but the data of the route and the removal of a deleted row.  The lists of
    accounts and of collections refine it. *)

From S2P Require Import Prelude JsVal Runtime ConsoleTypes ConsoleService Session LayergPortal RowDeletion Searches Accounts Collections.

(** ** The specification *)

Section spec.
Context {R : Type}.

Record view := mkView { shown : list R; asked : option request }.

Inductive label :=
| Ask (r : request)
| Abandon
| Answered (r : request) (l : list R)
| Failed (r : request)
| Resolved (l : list R)
| Removed (i : nat).

Inductive list_step : label -> view -> view -> Prop :=
| step_ask r v : list_step (Ask r) v (mkView (shown v) (Some r))
| step_abandon v : list_step Abandon v (mkView (shown v) None)
| step_answered r l v : asked v = Some r -> list_step (Answered r l) v (mkView l None)
| step_failed r v : asked v = Some r -> list_step (Failed r) v (mkView (shown v) None)
| step_resolved l v : list_step (Resolved l) v (mkView l (asked v))
| step_removed i v : list_step (Removed i) v (mkView (splice1 i (shown v)) (asked v)).

Inductive list_steps : list label -> view -> view -> Prop :=
| steps_nil v : list_steps [] v v
| steps_cons x l v v' v'' : list_step x v v' -> list_steps l v' v'' -> list_steps (x :: l) v v''.

Lemma list_steps_app l l' v v' v'' : list_steps l v v' -> list_steps l' v' v'' -> list_steps (l ++ l') v v''.
Proof. induction 1; [done|]. intros H'. cbn. econstructor; [done|by apply IHlist_steps]. Qed.

Lemma list_steps_one x v v' : list_step x v v' -> list_steps [x] v v'.
Proof. intros H. econstructor; [done|constructor]. Qed.
End spec.
Arguments view R : clear implicits.
Arguments label R : clear implicits.

(** ** The contract *)

(** What the handlers of a page do to its rows. *)
Class ListPage {S Ev K D} (comp : Component S Ev K D) `{!SearchPage comp} (R : Type) := {
  list_rows : S -> list R;
  resolved : Ev -> option (list R);                     (* the event brings data of the route *)
  found : forall k : K, resp k -> list R;               (* the rows of a search's answer *)
  removed : K -> option nat;                            (* the row whose deletion is answered *)
  event_rows e s : list_rows (on_event e s).1.2 = default (list_rows s) (resolved e);
  next_rows k a s : list_rows (on_next k a s).1.2 =
    if searching comp k then found k a
    else match removed k with Some i => splice1 i (list_rows s) | None => list_rows s end;
  error_rows k e s : list_rows (on_error k e s).1.2 = list_rows s;
  confirm_rows d v s : list_rows (on_confirm d v s).1.2 = list_rows s
}.
Arguments list_rows {S Ev K D} comp {_ R _} _.
Arguments resolved {S Ev K D} comp {_ R _} _.
Arguments found {S Ev K D} comp {_ R _} k _.
Arguments removed {S Ev K D} comp {_ R _} _.

Section refinement.
Context {S Ev K D : Type} {comp : Component S Ev K D} `{!SearchPage comp} {R : Type} `{!ListPage comp R}.
Implicit Types c : config S K D.

(** The requests of the searches that some commands send. *)
Definition search_requests (l : list (cmd K D)) : list request :=
  flat_map (fun x => match x with Send k r => if searching comp k then [r] else [] | _ => [] end) l.

Definition asked_of c : option request :=
  match in_flight c with [] => None | _ => last (search_requests (c_trace c)) end.

Definition view_of c : view R := mkView (list_rows comp (c_state c)) (asked_of c).

(** The labels of the commands of a handler. *)
Definition labels_of (l : list (cmd K D)) : list (label R) :=
  flat_map (fun x => match x with
                     | Send k r => if searching comp k then [Ask r] else []
                     | Notify => [Abandon]
                     | _ => []
                     end) l.

Lemma asked_absorb x c rows :
  list_steps (labels_of [x]) (mkView rows (asked_of c)) (mkView rows (asked_of (absorb c x))).
Proof.
  assert (Hf : in_flight (absorb c x) = flight (searching comp) (in_flight c) x) by exact (in_flight_absorb [x] c).
  assert (Ht : c_trace (absorb c x) = c_trace c ++ [x]) by (by destruct x).
  unfold asked_of. rewrite Hf, Ht. unfold search_requests. rewrite flat_map_app. destruct x; cbn;
    rewrite ?app_nil_r; try (by constructor).
  - destruct (searching comp k); cbn.
    + rewrite last_snoc. apply list_steps_one. destruct (in_flight c); cbn; exact (step_ask r (mkView rows _)).
    + rewrite app_nil_r. constructor.
  - apply list_steps_one. exact (step_abandon (mkView rows _)).
Qed.

Lemma asked_absorb_all l c rows :
  list_steps (labels_of l) (mkView rows (asked_of c)) (mkView rows (asked_of (fold_left absorb l c))).
Proof.
  revert c. induction l as [|x l IH]; intros c; [constructor|].
  change (labels_of (x :: l)) with ((match x with
                     | Send k r => if searching comp k then [Ask r] else []
                     | Notify => [Abandon]
                     | _ => []
                     end ++ labels_of l)).
  eapply list_steps_app; [|apply IH]. pose proof (asked_absorb x c rows) as H. unfold labels_of in H. cbn in H.
  by rewrite app_nil_r in H.
Qed.

(** Runs a handler after some labels that account for the rows it leaves. *)
Lemma run_steps m c v pre :
  list_steps pre v (mkView (list_rows comp (m (c_state c)).1.2) (asked_of c)) ->
  list_steps (pre ++ labels_of (m (c_state c)).2) v (view_of (run m c).2).
Proof.
  intros Hpre. eapply list_steps_app; [exact Hpre|]. unfold view_of. rewrite run_state. unfold run.
  destruct (m (c_state c)) as [[o s] l]. cbn [fst snd].
  exact (asked_absorb_all l (mkMachine s (c_pending c) (c_dialogs c) (c_trace c)) (list_rows comp s)).
Qed.

(** The query that is asked is the one in flight. *)
Lemma in_flight_asked c k : last_only c -> k ∈ c_pending c -> searching comp k = true -> exists r, asked_of c = Some r.
Proof.
  intros Hl Hk Hs. assert (Hin : In k (in_flight c)) by (apply List.filter_In; split; [by apply list_elem_of_In|done]).
  destruct Hl as [E|(_ & k' & E & Hlast)]; rewrite E in Hin; [done|]. unfold asked_of. rewrite E.
  assert (Hlen : length (search_requests (c_trace c)) = length (sent (searching comp) (c_trace c))).
  { unfold search_requests, sent. generalize (c_trace c). intros l. induction l as [|x l IH]; [done|]. cbn.
    rewrite !length_app, IH. destruct x; try done. by destruct (searching comp k0). }
  destruct (search_requests (c_trace c)) as [|r l] using rev_ind; [|exists r; apply last_snoc].
  symmetry in Hlen. apply nil_length_inv in Hlen. by rewrite Hlen in Hlast.
Qed.

Lemma asked_drop c i k : c_pending c !! i = Some k -> last_only c ->
  asked_of (drop_pending i c) = if searching comp k then None else asked_of c.
Proof.
  intros Hi Hl. pose proof (last_only_answered c i k Hi Hl) as H. unfold asked_of. destruct (searching comp k) eqn:Ek.
  - by rewrite H.
  - assert (E : in_flight (drop_pending i c) = in_flight c); [|by rewrite E].
    pose proof (take_drop_middle _ _ _ Hi) as Ep. unfold in_flight, drop_pending, splice1. cbn [c_pending].
    rewrite <- Ep at 3. by rewrite filter_app_middle, Ek, List.filter_app.
Qed.

(** What an action accounts for. *)
Definition explains c (a : action S Ev K D) (x : label R) : Prop :=
  let issued := drop (length (c_trace c)) (c_trace (exec c a)) in
  match x with
  | Ask r => exists k, searching comp k = true /\ In (Send k r) issued
  | Abandon => In Notify issued
  | Answered _ l => exists i f k, a = Respond i f /\ c_pending c !! i = Some k /\ searching comp k = true /\ l = found comp k (f k)
  | Failed _ => exists i e k, a = Refuse i e /\ c_pending c !! i = Some k /\ searching comp k = true
  | Resolved l => exists e, a = User e /\ resolved comp e = Some l
  | Removed i => exists j f k, a = Respond j f /\ c_pending c !! j = Some k /\ searching comp k = false /\ removed comp k = Some i
  end.

Lemma labels_explained c a l : c_trace (exec c a) = c_trace c ++ l -> Forall (explains c a) (labels_of l).
Proof.
  intros E. apply Forall_forall. intros x Hx. apply list_elem_of_In in Hx. unfold labels_of in Hx.
  apply in_flat_map in Hx as (y & Hy & Hx). unfold explains. rewrite E, drop_app_length.
  destruct y; try done; [|by destruct Hx as [<-|[]] ].
  destruct (searching comp k) eqn:Ek; [|done]. destruct Hx as [<-|[]]. by exists k.
Qed.

(** Every step of the page is some steps of the specification, which the action accounts
    for. *)
Theorem list_page_refines c a : last_only c ->
  exists l, list_steps l (view_of c) (view_of (exec c a)) /\ Forall (explains c a) l.
Proof.
  intros Hl. destruct a as [e|i f|i e|i v|i].
  - exists ((match resolved comp e with Some r => [Resolved r] | None => [] end) ++ labels_of (on_event e (c_state c)).2). split.
    + cbn [exec]. apply run_steps. rewrite event_rows. destruct (resolved comp e) as [r|]; cbn [default]; [|constructor].
      apply list_steps_one. exact (step_resolved r (view_of c)).
    + apply Forall_app. split; [|apply labels_explained; cbn [exec]; apply run_trace].
      destruct (resolved comp e) as [r|] eqn:E; repeat constructor. by exists e.
  - cbn [exec]. destruct (c_pending c !! i) as [k|] eqn:Hi; [|exists []; by split; constructor].
    pose proof (asked_drop c i k Hi Hl) as Hd.
    assert (Ht : c_trace (exec c (Respond i f)) = c_trace c ++ (on_next k (f k) (c_state c)).2)
      by (cbn [exec]; rewrite Hi; by rewrite run_trace).
    destruct (searching comp k) eqn:Ek.
    + destruct (in_flight_asked c k Hl) as [r Hr]; [by eapply list_elem_of_lookup_2|done|].
      exists ([Answered r (found comp k (f k))] ++ labels_of (on_next k (f k) (c_state (drop_pending i c))).2). split.
      * apply run_steps. cbn [drop_pending c_state]. rewrite next_rows, Ek, Hd. apply list_steps_one. by apply step_answered.
      * apply Forall_app. split; [|by apply labels_explained]. repeat constructor. by exists i, f, k.
    + exists ((match removed comp k with Some j => [Removed j] | None => [] end) ++ labels_of (on_next k (f k) (c_state (drop_pending i c))).2). split.
      * apply run_steps. cbn [drop_pending c_state]. rewrite next_rows, Ek, Hd. destruct (removed comp k) as [j|]; [|constructor].
        apply list_steps_one. exact (step_removed j (view_of c)).
      * apply Forall_app. split; [|by apply labels_explained].
        destruct (removed comp k) as [j|] eqn:Er; repeat constructor. by exists i, f, k.
  - cbn [exec]. destruct (c_pending c !! i) as [k|] eqn:Hi; [|exists []; by split; constructor].
    pose proof (asked_drop c i k Hi Hl) as Hd.
    assert (Ht : c_trace (exec c (Refuse i e)) = c_trace c ++ (on_error k e (c_state c)).2)
      by (cbn [exec]; rewrite Hi; by rewrite run_trace).
    destruct (searching comp k) eqn:Ek.
    + destruct (in_flight_asked c k Hl) as [r Hr]; [by eapply list_elem_of_lookup_2|done|].
      exists ([Failed r] ++ labels_of (on_error k e (c_state (drop_pending i c))).2). split.
      * apply run_steps. cbn [drop_pending c_state]. rewrite error_rows, Hd. apply list_steps_one. by apply (step_failed r (view_of c)).
      * apply Forall_app. split; [|by apply labels_explained]. repeat constructor. by exists i, e, k.
    + exists (labels_of (on_error k e (c_state (drop_pending i c))).2). split; [|by apply labels_explained].
      apply (run_steps _ _ _ []). cbn [drop_pending c_state]. rewrite error_rows, Hd. constructor.
  - cbn [exec]. destruct (c_dialogs c !! i) as [d|] eqn:Hi; [|exists []; by split; constructor].
    assert (Hv : forall c', view_of (drop_dialog i c') = view_of c') by done.
    exists (labels_of (on_confirm d v (c_state c)).2). split.
    + assert (Hs : list_steps (labels_of (on_confirm d v (c_state c)).2) (view_of c) (view_of (run (on_confirm d v) c).2))
        by (apply (run_steps _ _ _ []); rewrite confirm_rows; constructor).
      by destruct (run (on_confirm d v) c) as [[] c'].
    + apply labels_explained. cbn [exec]. rewrite Hi. pose proof (run_trace (on_confirm d v) c) as H.
      by destruct (run (on_confirm d v) c) as [[] c'].
  - exists []. split; [|constructor]. cbn [exec]. change (view_of (drop_dialog i c)) with (view_of c). constructor.
Qed.
End refinement.

(** ** The lists *)

(** The rows of a page, unchanged. *)
Lemma rows_kept {S C R} (rows : S -> R) (m : M S C unit) s :
  (forall l, preserves (fun s => rows s = l) m) -> rows (m s).1.2 = rows s.
Proof. intros H. by apply (H (rows s)). Qed.

(** The users of an answer; without a list of them the page has cleared its own. *)
Definition users_of (d : AccountList) : list ApiUser := nullish (AccountList_users d) [].

Lemma route_data_rows d s :
  accounts (subscriber (route_data d) s).1.2 = match d with Val d => users_of d | _ => [] end.
Proof.
  unfold route_data, users_of. destruct d as [| |[cur total us]]; [by destruct s..|]. by destruct us, s.
Qed.

Lemma accounts_search_rows cp st l : preserves (fun s => accounts s = l) (Accounts.search cp st).
Proof. intros s <-. rewrite accounts_search_spec. by destruct s. Qed.

(** A handler that runs to its end leaves the rows to the next one. *)
Lemma seq_rows {S C R} (rows : S -> R) (m m' : M S C unit) s :
  (m s).1.1 = Ret tt -> rows ((m;; m') s).1.2 = rows (m' (m s).1.2).1.2.
Proof. intros H. run_m. destruct (m s) as [[o s'] l]. cbn [fst snd] in *. subst o. by destruct (m' s') as [[o s''] l']. Qed.

Lemma init_search_ends cp s : (init_search cp s).1.1 = Ret tt.
Proof.
  unfold init_search. run_m.
  destruct (truthy_str (nextCursor s)); [by rewrite accounts_search_spec|].
  destruct (_ || _); [by rewrite accounts_search_spec|done].
Qed.

Lemma init_rows cp qp d s : accounts (Accounts.ngOnInit cp qp d s).1.2 = match d with Val d => users_of d | _ => [] end.
Proof.
  unfold Accounts.ngOnInit. rewrite !(seq_rows accounts); [apply route_data_rows|apply init_search_ends|done].
Qed.

#[export] Instance accounts_list cp : ListPage (Accounts.page cp) ApiUser.
Proof.
  refine {|
    list_rows := accounts;
    resolved e := match e with
                  | Init _ d | Accounts.RouteData d => Some (match d with Val d => users_of d | _ => [] end)
                  | _ => None
                  end;
    found k := match k return resp (Component := Accounts.page cp) k -> _ with
               | Accounts.Search _ => users_of
               | Accounts.Delete _ _ => fun _ => []
               end;
    removed k := match k with Accounts.Delete i _ => Some i | Accounts.Search _ => None end
  |}.
  - intros [qp d|d| |v|n|st| |i o|u] s; cbn [on_event Accounts.page default].
    + by apply init_rows.
    + apply route_data_rows.
    + by destruct s.
    + by destruct s.
    + by destruct s.
    + by apply rows_kept, accounts_search_rows.
    + by destruct s.
    + done.
    + done.
  - intros [cur|i o] a s; cbn [on_next Accounts.page searching accounts_searches Accounts.is_search].
    + unfold Accounts.search_next, users_of. run_m. destruct a as [cur' total us]. by destruct us, s.
    + by destruct s.
  - intros [cur|i o] e s; by destruct s.
  - intros [i o] v s. by destruct s.
Defined.

(** An answer of the portal without a list clears the rows. *)
Definition items_of (d : CollectionList) : list CollectionItem := nullish (CollectionList_data d) [].

#[local] Existing Instance Listing.collections_searches.
#[local] Existing Instance Listing.eta_state.

Lemma collections_search_rows portal ls l : preserves (fun s => Listing.collections s = l) (Listing.search portal ls).
Proof. intros s <-. rewrite Listing.collections_search_spec. by destruct (listCollections _ _ _), s. Qed.

#[export] Instance collections_list cp portal ls : ListPage (Listing.page cp portal ls) CollectionItem.
Proof.
  refine {|
    list_rows := Listing.collections;
    resolved _ := None;
    found k := match k return resp (Component := Listing.page cp portal ls) k -> _ with
               | Listing.Search => items_of
               | Listing.Delete _ _ => fun _ => []
               end;
    removed k := match k with Listing.Delete i _ => Some i | Listing.Search => None end
  |}.
  - intros e s. cbn [default]. apply rows_kept. intros l. pose proof (collections_search_rows portal ls l) as Hs.
    destruct e; cbn [on_event Listing.page]; try done; try (by intros [] <-).
    + unfold Listing.ngOnInit. apply preserves_bind; [by intros [] <-|]. intros _. by apply preserves_subscriber.
    + by apply preserves_subscriber.
    + unfold Listing.page_changed. apply preserves_bind; [apply preserves_subscriber, preserves_bind; [by intros [] <-|done]|].
      intros _. by intros [] <-.
  - intros [|i o] a s; cbn [on_next Listing.page searching Listing.collections_searches Listing.is_search].
    + unfold Listing.search_next, items_of. run_m. destruct a as [pg [| |l] ]; by destruct s.
    + by destruct s.
  - intros [|i o] e s; by destruct s.
  - intros [i o|x] v s; [by destruct s|]. apply rows_kept. intros l. apply preserves_subscriber, collections_search_rows.
Defined.

(** The list of collections refines the specification, too. *)
Theorem collections_refine_list cp portal ls c a
    (Hr : reachable (comp := Listing.page cp portal ls) (start Listing.new_state) c) :
  exists l : list (label CollectionItem),
    list_steps l (view_of (comp := Listing.page cp portal ls) c) (view_of (comp := Listing.page cp portal ls) (exec c a)) /\
    Forall (explains (comp := Listing.page cp portal ls) c a) l.
Proof. apply list_page_refines. by apply last_search_only in Hr. Qed.

(** ** The property *)

(** C13: the list of accounts is such a list: in every state it can reach, whatever happens
    next, what changes on the screen is a sequence of steps of the specification that the
    event accounts for: a query is asked when its request is sent, it is answered by the
    answer to that request and only while it is asked, the rows are those of the answer, of
    the data of the route, or the rows before less the one whose deletion was answered. *)
Theorem accounts_refine_list cp c a
    (Hr : reachable (comp := Accounts.page cp) (start Accounts.new_state) c) :
  exists l : list (label ApiUser),
    list_steps l (view_of (comp := Accounts.page cp) c) (view_of (comp := Accounts.page cp) (exec c a)) /\
    Forall (explains (comp := Accounts.page cp) c a) l.
Proof. apply list_page_refines. by apply last_search_only in Hr. Qed.

(** A search that replaces another one is answered. *)
Lemma accounts_refine_list_witness :
  let cp := new_ConsoleService Und in
  let c := exec_all (comp := Accounts.page cp) (start Accounts.new_state)
    [User (Accounts.SearchClick 0); User (Accounts.SetFilter "ann"); User (Accounts.SearchClick 0)] in
  let a := Respond (comp := Accounts.page cp) 0 (answer cp (mkAccountList Und (Val (int 1)) (Val [ann]))) in
  view_of (comp := Accounts.page cp) c =
    mkView [] (Some (listAccounts cp "" (Val "ann") (JNum (int 0)) (Val ""))) /\
  view_of (comp := Accounts.page cp) (exec c a) = mkView [ann] None /\
  exists l : list (label ApiUser),
    list_steps l (view_of (comp := Accounts.page cp) c) (view_of (comp := Accounts.page cp) (exec c a)) /\
    Forall (explains (comp := Accounts.page cp) c a) l.
Proof.
  intros cp c a. split_and_all; [reflexivity..|]. apply (accounts_refine_list cp c a). apply reachable_exec_all.
Defined.
