(* ===== verification/OpenLists.v ===== *)
(** * Lists whose searches do not cancel each other

    [ListSpec] specifies the lists that cancel a search when the next one begins.  The other
    lists do not: every search that has been sent is answered in the end, in the order in
    which the server answers, and each answer takes the place of the rows.  The
    specification is that of [ListSpec] with any number of queries that wait for an answer;
    the lists of storage objects, of groups, of leaderboards and of their records, the
    messages of a channel, the ledger of a wallet, the purchases, the subscriptions and the
    notifications refine it, in every state. *)

From S2P Require Import Prelude JsVal Runtime ConsoleTypes ConsoleService RowDeletion Searches Accounts ListSpec Lists AccountTabs Chat.

(** ** The specification *)

Section spec.
Context {K R : Type}.

Record open_view := mkOpen { on_show : list R; waiting : list K }.

Inductive open_label :=
| Asks (k : K) (r : request)
| Answers (k : K) (l : list R)
| Fails (k : K)
| Loads (l : list R)
| Removes (i : nat).

Inductive open_step : open_label -> open_view -> open_view -> Prop :=
| open_asks k r v : open_step (Asks k r) v (mkOpen (on_show v) (waiting v ++ [k]))
| open_answers k l w1 w2 v : waiting v = w1 ++ k :: w2 -> open_step (Answers k l) v (mkOpen l (w1 ++ w2))
| open_fails k w1 w2 v : waiting v = w1 ++ k :: w2 -> open_step (Fails k) v (mkOpen (on_show v) (w1 ++ w2))
| open_loads l v : open_step (Loads l) v (mkOpen l (waiting v))
| open_removes i v : open_step (Removes i) v (mkOpen (splice1 i (on_show v)) (waiting v)).

Inductive open_steps : list open_label -> open_view -> open_view -> Prop :=
| open_nil v : open_steps [] v v
| open_cons x l v v' v'' : open_step x v v' -> open_steps l v' v'' -> open_steps (x :: l) v v''.

Lemma open_steps_app l l' v v' v'' : open_steps l v v' -> open_steps l' v' v'' -> open_steps (l ++ l') v v''.
Proof. induction 1; [done|]. intros H'. cbn. econstructor; [done|by apply IHopen_steps]. Qed.

Lemma open_steps_one x v v' : open_step x v v' -> open_steps [x] v v'.
Proof. intros H. econstructor; [done|constructor]. Qed.
End spec.
Arguments open_view K R : clear implicits.
Arguments open_label K R : clear implicits.

(** ** The contract *)

(** What the handlers of a page do to its rows. *)
Class OpenList {S Ev K D} (comp : Component S Ev K D) (R : Type) := {
  open_rows : S -> list R;
  seeks : K -> bool;                                    (* the request is a search *)
  brings : Ev -> S -> option (list R);                  (* the event brings data of the route *)
  finds : forall k : K, resp k -> list R;               (* the rows of a search's answer *)
  drops : K -> option nat;                              (* the row whose deletion is answered *)
  never_cancelled k : take_until k = false;
  open_event e s : open_rows (on_event e s).1.2 = default (open_rows s) (brings e s);
  open_next k a s : open_rows (on_next k a s).1.2 =
    if seeks k then finds k a else match drops k with Some i => splice1 i (open_rows s) | None => open_rows s end;
  open_error k e s : open_rows (on_error k e s).1.2 = open_rows s;
  open_confirm d v s : open_rows (on_confirm d v s).1.2 = open_rows s
}.
Arguments open_rows {S Ev K D} comp {R _} _.
Arguments seeks {S Ev K D} comp {R _} _.
Arguments brings {S Ev K D} comp {R _} _ _.
Arguments finds {S Ev K D} comp {R _} k _.
Arguments drops {S Ev K D} comp {R _} _.

Section refinement.
Context {S Ev K D : Type} {comp : Component S Ev K D} {R : Type} `{!OpenList comp R}.
Implicit Types c : config S K D.

Definition open_of c : open_view K R := mkOpen (open_rows comp (c_state c)) (List.filter (seeks comp) (c_pending c)).

(** The searches among the commands of a handler. *)
Definition questions (l : list (cmd K D)) : list (open_label K R) :=
  flat_map (fun x => match x with Send k r => if seeks comp k then [Asks k r] else [] | _ => [] end) l.

Lemma absorb_asks x c rows :
  open_steps (questions [x]) (mkOpen rows (List.filter (seeks comp) (c_pending c)))
    (mkOpen rows (List.filter (seeks comp) (c_pending (absorb c x)))).
Proof.
  destruct x; cbn; try constructor.
  - rewrite List.filter_app. cbn. destruct (seeks comp k); cbn; [|rewrite app_nil_r; constructor].
    apply open_steps_one. exact (open_asks k r (mkOpen rows _)).
  - replace (List.filter (fun k => negb (take_until k)) (c_pending c)) with (c_pending c); [constructor|].
    induction (c_pending c) as [|k l IH]; [done|]. cbn. by rewrite never_cancelled, <- IH.
Qed.

Lemma absorb_all_asks l c rows :
  open_steps (questions l) (mkOpen rows (List.filter (seeks comp) (c_pending c)))
    (mkOpen rows (List.filter (seeks comp) (c_pending (fold_left absorb l c)))).
Proof.
  revert c. induction l as [|x l IH]; intros c; [constructor|]. cbn [fold_left].
  replace (questions (x :: l)) with (questions [x] ++ questions l) by (unfold questions; cbn; by rewrite app_nil_r).
  eapply open_steps_app; [apply absorb_asks|apply IH].
Qed.

(** Runs a handler after some labels that account for the rows it leaves. *)
Lemma run_asks m c v pre :
  open_steps pre v (mkOpen (open_rows comp (m (c_state c)).1.2) (List.filter (seeks comp) (c_pending c))) ->
  open_steps (pre ++ questions (m (c_state c)).2) v (open_of (run m c).2).
Proof.
  intros Hpre. eapply open_steps_app; [exact Hpre|]. unfold open_of. rewrite run_state. unfold run.
  destruct (m (c_state c)) as [[o s] l]. cbn [fst snd].
  exact (absorb_all_asks l (mkMachine s (c_pending c) (c_dialogs c) (c_trace c)) (open_rows comp s)).
Qed.

(** What is still waited for after an answer. *)
Lemma waiting_drop c i k : c_pending c !! i = Some k ->
  exists w1 w2, waiting (open_of c) = w1 ++ (if seeks comp k then k :: w2 else w2) /\
    List.filter (seeks comp) (c_pending (drop_pending i c)) = w1 ++ w2.
Proof.
  intros Hi. exists (List.filter (seeks comp) (take i (c_pending c))), (List.filter (seeks comp) (drop (Datatypes.S i) (c_pending c))).
  pose proof (take_drop_middle _ _ _ Hi) as E. split.
  - cbn [open_of waiting]. rewrite <- E at 1. rewrite List.filter_app. cbn. by destruct (seeks comp k).
  - cbn [drop_pending c_pending]. unfold splice1. apply List.filter_app.
Qed.

(** What an action accounts for. *)
Definition accounts_for c (a : action S Ev K D) (x : open_label K R) : Prop :=
  match x with
  | Asks k r => seeks comp k = true /\ In (Send k r) (drop (length (c_trace c)) (c_trace (exec c a)))
  | Answers k l => exists i f, a = Respond i f /\ c_pending c !! i = Some k /\ seeks comp k = true /\ l = finds comp k (f k)
  | Fails k => exists i e, a = Refuse i e /\ c_pending c !! i = Some k /\ seeks comp k = true
  | Loads l => exists e, a = User e /\ brings comp e (c_state c) = Some l
  | Removes i => exists j f k, a = Respond j f /\ c_pending c !! j = Some k /\ seeks comp k = false /\ drops comp k = Some i
  end.

Lemma questions_accounted c a l : c_trace (exec c a) = c_trace c ++ l -> Forall (accounts_for c a) (questions l).
Proof.
  intros E. apply Forall_forall. intros x Hx. apply list_elem_of_In in Hx. unfold questions in Hx.
  apply in_flat_map in Hx as (y & Hy & Hx). destruct y; try done.
  destruct (seeks comp k) eqn:Ek; [|done]. destruct Hx as [<-|[]]. unfold accounts_for. by rewrite E, drop_app_length.
Qed.

Lemma open_answered c i f k : c_pending c !! i = Some k ->
  exists l, open_steps l (open_of c) (open_of (exec c (Respond i f))) /\ Forall (accounts_for c (Respond i f)) l.
Proof.
  intros Hi. destruct (waiting_drop c i k Hi) as (w1 & w2 & Hw & Hd).
  assert (Ht : c_trace (exec c (Respond i f)) = c_trace c ++ (on_next k (f k) (c_state c)).2)
    by (cbn [exec]; rewrite Hi; by rewrite run_trace).
  exists ((if seeks comp k then [Answers k (finds comp k (f k))]
           else match drops comp k with Some j => [Removes j] | None => [] end) ++ questions (on_next k (f k) (c_state c)).2). split.
  - cbn [exec]. rewrite Hi. apply (run_asks _ (drop_pending i c)). rewrite open_next, Hd. cbn [drop_pending c_state]. destruct (seeks comp k).
    + apply open_steps_one. by apply open_answers.
    + rewrite <- Hw. destruct (drops comp k) as [j|]; [|constructor]. apply open_steps_one. exact (open_removes j (open_of c)).
  - apply Forall_app. split; [|by apply questions_accounted]. destruct (seeks comp k) eqn:Ek.
    + apply Forall_cons. split; [by exists i, f|constructor].
    + destruct (drops comp k) as [j|] eqn:Ed; [|constructor]. apply Forall_cons. split; [by exists i, f, k|constructor].
Qed.

Lemma open_refused c i e k : c_pending c !! i = Some k ->
  exists l, open_steps l (open_of c) (open_of (exec c (Refuse i e))) /\ Forall (accounts_for c (Refuse i e)) l.
Proof.
  intros Hi. destruct (waiting_drop c i k Hi) as (w1 & w2 & Hw & Hd).
  assert (Ht : c_trace (exec c (Refuse i e)) = c_trace c ++ (on_error k e (c_state c)).2)
    by (cbn [exec]; rewrite Hi; by rewrite run_trace).
  exists ((if seeks comp k then [Fails k] else []) ++ questions (on_error k e (c_state c)).2). split.
  - cbn [exec]. rewrite Hi. apply (run_asks _ (drop_pending i c)). rewrite open_error, Hd. cbn [drop_pending c_state]. destruct (seeks comp k).
    + apply open_steps_one. by apply (open_fails k w1 w2 (open_of c)).
    + rewrite <- Hw. constructor.
  - apply Forall_app. split; [|by apply questions_accounted]. destruct (seeks comp k) eqn:Ek; [|constructor].
    apply Forall_cons. split; [by exists i, e|constructor].
Qed.

(** Every step of the page is some steps of the specification, which the action accounts
    for. *)
Theorem open_list_refines c a : exists l, open_steps l (open_of c) (open_of (exec c a)) /\ Forall (accounts_for c a) l.
Proof.
  destruct a as [e|i f|i e|i v|i].
  - exists ((match brings comp e (c_state c) with Some r => [Loads r] | None => [] end) ++ questions (on_event e (c_state c)).2). split.
    + cbn [exec]. apply run_asks. rewrite open_event. destruct (brings comp e (c_state c)) as [r|]; cbn [default]; [|constructor].
      apply open_steps_one. exact (open_loads r (open_of c)).
    + apply Forall_app. split; [|apply questions_accounted; cbn [exec]; apply run_trace].
      destruct (brings comp e (c_state c)) as [r|] eqn:E; [|constructor]. apply Forall_cons. split; [by exists e|constructor].
  - destruct (c_pending c !! i) as [k|] eqn:Hi; [by eapply open_answered|].
    exists []. cbn [exec]. rewrite Hi. split; constructor.
  - destruct (c_pending c !! i) as [k|] eqn:Hi; [by eapply open_refused|].
    exists []. cbn [exec]. rewrite Hi. split; constructor.
  - destruct (c_dialogs c !! i) as [d|] eqn:Hi; [|exists []; cbn [exec]; rewrite Hi; split; constructor].
    exists (questions (on_confirm d v (c_state c)).2). split.
    + assert (Hs : open_steps (questions (on_confirm d v (c_state c)).2) (open_of c) (open_of (run (on_confirm d v) c).2))
        by (apply (run_asks _ _ _ []); rewrite open_confirm; constructor).
      cbn [exec]. rewrite Hi. by destruct (run (on_confirm d v) c) as [[] c'].
    + apply questions_accounted. cbn [exec]. rewrite Hi. pose proof (run_trace (on_confirm d v) c) as H.
      by destruct (run (on_confirm d v) c) as [[] c'].
  - exists []. split; [|constructor]. cbn [exec]. constructor.
Qed.
End refinement.

(** ** The lists *)

(** For a method that assigns other fields only. *)
#[local] Tactic Notation "rows_stay" reference(p) reference(f) :=
  cbn [on_event on_next on_confirm p default]; unfold f;
  first [apply rows_kept | apply (f_equal (fun l => nullish l [])), rows_kept]; intros; eauto 10 with preserves.

(** The objects of the route, which the page takes when their collections are there. *)
Definition objects_of (d : StorageCollectionsList * StorageList) : option (list StorageListObject) :=
  match StorageCollectionsList_collections d.1 with
  | Val _ => Some (nullish (StorageList_objects d.2) [])
  | _ => None
  end.

Lemma storage_init_rows cp qp d s :
  Storage.objects (Storage.ngOnInit cp qp d s).1.2 = default (Storage.objects s) (objects_of d).
Proof.
  unfold Storage.ngOnInit, Storage.search, Storage.route_data, objects_of. destruct d as [[[| |l]] [n [| |o] t]], s; run_m;
    cbn -[qp_get truthy_str]; destruct (truthy_str (qp_get "cursor" qp)); cbn -[qp_get truthy_str]; try reflexivity;
    destruct (_ || _); reflexivity.
Qed.

#[export] Instance storage_open cp : OpenList (Storage.page cp) StorageListObject.
Proof.
  refine {|
    open_rows := Storage.objects;
    seeks k := match k with Storage.Search _ => true | Storage.Delete _ _ => false end;
    brings e _ := match e with Storage.Init _ d | Storage.RouteData d => objects_of d | _ => None end;
    finds k := match k return resp (Component := Storage.page cp) k -> _ with
               | Storage.Search _ => fun d => nullish (StorageList_objects d) []
               | Storage.Delete _ _ => fun _ => []
               end;
    drops k := match k with Storage.Delete i _ => Some i | _ => None end
  |}; [done|..].
  - intros [qp d|d|a b u| |st|i o|o] s; [apply storage_init_rows| |by destruct s..].
    destruct d as [[[| |l]] [n [| |o] t]], s; reflexivity.
  - intros [cur|i o] a s; [|by destruct s]. destruct a as [n [| |l] t], s; reflexivity.
  - intros [cur|i o] e s; by destruct s.
  - intros [i o] v s. by destruct s.
Defined.

Lemma groups_init_rows cp qp d s :
  GroupsList.groups (GroupsList.ngOnInit cp qp d s).1.2 = match d with Val d => nullish (GroupList_groups d) [] | _ => [] end.
Proof.
  unfold GroupsList.ngOnInit, GroupsList.search, GroupsList.route_data. destruct d as [| |[[| |l] n t]], s; run_m;
    cbn -[qp_get truthy_str]; destruct (truthy_str (qp_get "cursor" qp)); cbn -[qp_get truthy_str]; try reflexivity;
    destruct (truthy_str _); reflexivity.
Qed.

#[export] Instance groups_open cp : OpenList (GroupsList.page cp) ApiGroup.
Proof.
  refine {|
    open_rows := GroupsList.groups;
    seeks k := match k with GroupsList.Search _ => true | GroupsList.Delete _ _ => false end;
    brings e _ := match e with
                  | GroupsList.Init _ d | GroupsList.RouteData d => Some (match d with Val d => nullish (GroupList_groups d) [] | _ => [] end)
                  | _ => None
                  end;
    finds k := match k return resp (Component := GroupsList.page cp) k -> _ with
               | GroupsList.Search _ => fun d => nullish (GroupList_groups d) []
               | GroupsList.Delete _ _ => fun _ => []
               end;
    drops k := match k with GroupsList.Delete i _ => Some i | _ => None end
  |}; [done|..].
  - intros [qp d|d|v|st|i o|o] s; [apply groups_init_rows| |by destruct s..].
    destruct d as [| |[[| |l] n t]], s; reflexivity.
  - intros [cur|i o] a s; [|by destruct s]. destruct a as [[| |l] n t], s; reflexivity.
  - intros [cur|i o] e s; by destruct s.
  - intros [i o] v s. by destruct s.
Defined.

#[export] Instance leaderboards_open cp : OpenList (Leaderboards.page cp) Leaderboard.
Proof.
  refine {|
    open_rows := Leaderboards.leaderboards;
    seeks k := match k with Leaderboards.Search _ => true | Leaderboards.Delete _ _ => false end;
    brings _ _ := None;
    finds k := match k return resp (Component := Leaderboards.page cp) k -> _ with
               | Leaderboards.Search _ => fun d => nullish (LeaderboardList_leaderboards d) []
               | Leaderboards.Delete _ _ => fun _ => []
               end;
    drops k := match k with Leaderboards.Delete i _ => Some i | _ => None end
  |}; [done|..].
  - intros [qp|st|i o|o] s; [|by destruct s..]. cbn [on_event Leaderboards.page default].
    unfold Leaderboards.ngOnInit, Leaderboards.search. destruct s. run_m. cbn -[qp_get truthy_str].
    by destruct (truthy_str _).
  - intros [cur|i o] a s; [|by destruct s]. destruct a as [n [| |l] t], s; reflexivity.
  - intros [cur|i o] e s; by destruct s.
  - intros [i o] v s. by destruct s.
Defined.

#[export] Instance records_open cp : OpenList (Records.page cp) ApiLeaderboardRecord.
Proof.
  refine {|
    open_rows := Records.records;
    seeks k := match k with Records.Load => true | Records.Delete _ _ => false end;
    brings e _ := match e with Records.RouteData d => Some (nullish (ApiLeaderboardRecordList_records d) []) | _ => None end;
    finds k := match k return resp (Component := Records.page cp) k -> _ with
               | Records.Load => fun d => nullish (ApiLeaderboardRecordList_records d) []
               | Records.Delete _ _ => fun _ => []
               end;
    drops k := match k with Records.Delete i _ => Some i | _ => None end
  |}; [done|..].
  - intros [d|l|st|i|i o] s.
    + destruct d as [n o p c [| |l]], s; reflexivity.
    + by destruct s.
    + destruct s as [e [| |l] r m n p]; reflexivity.
    + rows_stay Records.page Records.toggleRow.
    + by destruct s.
  - intros [|i o] a s; [|by destruct s]. destruct a as [n o p c [| |l]], s; reflexivity.
  - intros [|i o] e s; by destruct s.
  - intros [i o] v s. by destruct s.
Defined.

#[export] Instance wallet_open cp : OpenList (Wallet.page cp) WalletLedger.
Proof.
  refine {|
    open_rows s := nullish (Wallet.walletLedger s) [];
    seeks k := match k with Wallet.Load => true | _ => false end;
    brings e s := match e with
                  | Wallet.RouteData d => Some (match Wallet.walletLedger s with Val _ => nullish (WalletLedgerList_items d) [] | _ => [] end)
                  | _ => None
                  end;
    finds k := match k return resp (Component := Wallet.page cp) k -> _ with
               | Wallet.Load => fun d => nullish (WalletLedgerList_items d) []
               | Wallet.Update => fun _ => []
               | Wallet.Delete _ _ => fun _ => []
               end;
    drops k := match k with Wallet.Delete i _ => Some i | _ => None end
  |}; [done|..].
  - intros [id|d|d|cur|i|ed|i w] s; [by destruct s| |by destruct s|by destruct s|..].
    + destruct d as [[| |l] n p], s as [er ac [| |wl] mo ud ug nc pc u]; reflexivity.
    + rows_stay Wallet.page Wallet.toggleRow.
    + cbn [on_event Wallet.page]. unfold Wallet.updateWallet, Wallet.user_id. destruct s, ed; run_m; cbn; [|done].
      by destruct (Friends.user_id_of _).
    + by destruct s.
  - intros [| |i o] a s; [|by destruct s|]; [destruct a as [[| |l] n p], s; reflexivity|].
    destruct i, s as [er ac [| |wl] mo ud ug nc pc u]; reflexivity.
  - intros [| |i o] e s; by destruct s.
  - intros [i o] v s. cbn [on_confirm Wallet.page]. unfold Wallet.deleteLedgerItem_confirmed, Wallet.user_id. destruct s; run_m; cbn.
    by destruct (Friends.user_id_of _).
Defined.

#[export] Instance lookup_open {Item Page} (ops : LookupList.operations Item Page) : OpenList (LookupList.page ops) Item.
Proof.
  refine {|
    open_rows s := nullish (LookupList.items s) [];
    seeks k := match k with LookupList.Delete _ _ => false | _ => true end;
    brings e _ := match e with LookupList.Init _ d => Some (nullish (LookupList.items_of ops d) []) | _ => None end;
    finds k := match k return resp (Component := LookupList.page ops) k -> _ with
               | LookupList.Load => fun d => nullish (LookupList.items_of ops d) []
               | LookupList.Get => fun x => [x]
               | LookupList.Delete _ _ => fun _ => []
               end;
    drops k := match k with LookupList.Delete i _ => Some i | _ => None end
  |}; [done|..].
  - intros [id d|id first|cur|i|i x] s; [| |by destruct s|..]; cbn [on_event LookupList.page].
    + unfold LookupList.ngOnInit. destruct s. run_m. cbn. destruct (truthy_string _), (LookupList.overwrites_user ops); reflexivity.
    + unfold LookupList.ngOnChanges, LookupList.loadData. destruct s, first; run_m; cbn; [done|].
      by destruct id as [| |[|]].
    + rows_stay LookupList.page LookupList.toggleRow.
    + unfold LookupList.delete_click. destruct s. run_m. by destruct (bool_decide _).
  - intros [| |i o] a s; [by destruct s..|]. destruct i, s as [[| |l] ro er nc pc u it]; reflexivity.
  - intros [| |i o] e s; by destruct s.
  - intros [i o] v s. cbn [on_confirm LookupList.page]. unfold LookupList.delete_confirmed. destruct s; run_m; cbn.
    by destruct (LookupList.delete_request ops).
Defined.

(** The messages of the route; without them the page keeps its own. *)
Definition messages_of (d : opt ApiChannelMessageList) : option (list ApiChannelMessage) :=
  match d with Val d => Some (nullish (ApiChannelMessageList_messages d) []) | _ => None end.

Lemma chat_route_rows d err s : Chat.messages (subscriber (Chat.route_data d err) s).1.2 = default (Chat.messages s) (messages_of d).
Proof.
  unfold Chat.route_data. destruct d as [| |[c [| |l] n p]], s; run_m; cbn -[jtruthy]; try reflexivity; by destruct (jtruthy err).
Qed.

(** Methods that leave the messages alone. *)
Lemma update_keeps cp t lb g a b cur l : preserves (fun s => Chat.messages s = l) (updateMessages cp t lb g a b cur).
Proof. unfold updateMessages. destruct (list_request _ _ _ _ _ _ _); eauto with preserves. Qed.
#[local] Hint Resolve update_keeps : preserves.

Lemma chat_search_keeps cp st l : preserves (fun s => Chat.messages s = l) (Chat.search cp st).
Proof. unfold Chat.search. eauto 20 with preserves. Qed.
#[local] Hint Resolve chat_search_keeps : preserves.

Lemma init_type_keeps qp l : preserves (fun s => Chat.messages s = l) (init_type qp).
Proof. unfold init_type. destruct (qp !! "type"); eauto 10 with preserves. Qed.

Lemma chat_init_rows qp d err s : Chat.messages (Chat.ngOnInit qp d err s).1.2 = default (Chat.messages s) (messages_of d).
Proof.
  unfold Chat.ngOnInit. rewrite (seq_rows Chat.messages) by (by destruct s).
  rewrite (seq_rows Chat.messages) by (unfold subscriber, try_catch; by destruct (Chat.route_data d err _) as [[ [ [] |e] s1] l]).
  rewrite (rows_kept Chat.messages) by apply init_type_keeps. rewrite chat_route_rows. by destruct s.
Qed.

#[export] Instance chat_open cp days_ago : OpenList (Chat.page cp days_ago) ApiChannelMessage.
Proof.
  refine {|
    open_rows := Chat.messages;
    seeks k := match k with List_ _ => true | _ => false end;
    brings e _ := match e with Init _ d _ | RouteData d _ => messages_of d | _ => None end;
    finds k := match k return resp (Component := Chat.page cp days_ago) k -> _ with
               | List_ _ => fun d => nullish (ApiChannelMessageList_messages d) []
               | Delete _ _ => fun _ => []
               | DeleteBefore => fun _ => []
               end;
    drops k := match k with Delete i _ => Some i | _ => None end
  |}; [done|..].
  - intros [qp d err|d err|qp|v|v|v|v|f|t|st|i|i o| |o] s; [apply chat_init_rows|apply chat_route_rows| | | | | | | | | |done..];
      try (by destruct s).
    + cbn [on_event Chat.page default]. apply rows_kept. eauto with preserves.
    + cbn [on_event Chat.page default]. apply rows_kept. eauto with preserves.
  - intros [cur|i o|] a s; [..|by destruct s|].
    + destruct a as [c [| |l] n p], s; reflexivity.
    + rows_stay Chat.page deleteData_next.
  - intros [cur|i o|] e s; by destruct s.
  - intros [i o|] v s; [by destruct s|]. rows_stay Chat.page deleteData_confirmed.
Defined.

(** ** The property *)

Definition refines_open {S Ev K D} (comp : Component S Ev K D) {R} `{!OpenList comp R} : Prop :=
  forall (c : config S K D) (a : action S Ev K D),
    exists l, open_steps l (open_of c) (open_of (exec c a)) /\ Forall (accounts_for c a) l.

(** C14: the lists whose searches do not cancel each other: whatever state such a list is in
    and whatever happens next, what changes on the screen is a sequence of steps of the
    specification that the event accounts for.  A search that is sent waits until it is
    answered or refused, also when others are sent meanwhile; the rows are those of the
    answer that came last to any search, of the data of the route, or the rows before less
    the one at the position whose deletion was answered; nothing else changes them. *)
Theorem open_lists_refine cp days_ago :
  refines_open (Storage.page cp) /\ refines_open (GroupsList.page cp) /\ refines_open (Leaderboards.page cp) /\
  refines_open (Records.page cp) /\ refines_open (Wallet.page cp) /\ refines_open (Chat.page cp days_ago) /\
  refines_open (Purchases.page cp) /\ refines_open (Subscriptions.page cp) /\ refines_open (Notifications.page cp).
Proof. split_and_all; intros c a; apply open_list_refines. Qed.

(** Groups are searched for by one name and then by another, and the answers come in the
    other order: the page shows the groups of the first name under the second. *)
Example overtaken_search :
  let cp := new_ConsoleService Und in
  let c := exec_all (comp := GroupsList.page cp) (start GroupsList.new_state)
    [User (GroupsList.SetFilter "red"); User (GroupsList.SearchClick 0); User (GroupsList.SetFilter "blue"); User (GroupsList.SearchClick 0)] in
  let group name := mkApiGroup Und Und Und Und Und Und Und Und Und (Val name) Und Und in
  let answer name : forall k, resp (Component := GroupsList.page cp) k := fun k =>
    match k return resp (Component := GroupsList.page cp) k with
    | GroupsList.Search _ => mkGroupList (Val [group name]) Und Und
    | GroupsList.Delete _ _ => JUndef
    end in
  let c' := exec_all (comp := GroupsList.page cp) c [Respond (comp := GroupsList.page cp) 1 (answer "blue"); Respond (comp := GroupsList.page cp) 0 (answer "red")] in
  requests_of (c_trace c) = [listGroups cp "" (Val "red") (Val ""); listGroups cp "" (Val "blue") (Val "")] /\
  open_of (comp := GroupsList.page cp) c' = mkOpen [group "red"] [] /\ GroupsList.filter (c_state c') = Val "blue".
Proof. cbv zeta. split_and_all; reflexivity. Qed.
