(* ===== verification/Settling.v ===== *)
(** * Pages that come to rest

    A page that waits for answers comes to rest when the user leaves it alone: [settles]
    says that, whichever pending request the server answers or refuses next, and whatever
    it answers, the page reaches a state of a given kind within a number of answers.
    [HonestSearch] is what a page promises so that its spinner always stops; the lists of
    accounts and of collections keep the promise. *)

From S2P Require Import Prelude Codec JsVal Json Runtime RowDeletion Searches ConsoleTypes ConsoleService Accounts Session LayergPortal Collections.

(** ** Coming to rest *)

Section settles.
Context {S Ev K D : Type} {comp : Component S Ev K D}.
Implicit Types c : config S K D.

Section answers.
(** The answers that the server may give. *)
Context (good : forall k : K, resp k -> Prop).

Definition good_answers (answer : forall k : K, resp k) : Prop := forall k, good k (answer k).

(** [P] holds after at most [n] answers, whichever they are. *)
Inductive settles (P : config S K D -> Prop) : nat -> config S K D -> Prop :=
| settles_now n c : P c -> settles P n c
| settles_wait n c :
    c_pending c <> [] ->
    (forall i answer, i < length (c_pending c) -> good_answers answer -> settles P n (exec c (Respond i answer))) ->
    (forall i e, i < length (c_pending c) -> settles P n (exec c (Refuse i e))) ->
    settles P (Datatypes.S n) c.

(** Runs in which the user does only what [alive] admits and the server answers well. *)
Context (alive : Ev -> bool).

Definition admissible (a : action S Ev K D) : Prop :=
  match a with
  | User e => alive e = true
  | Respond _ answer => good_answers answer
  | _ => True
  end.

Inductive reachable_by (c0 : config S K D) : config S K D -> Prop :=
| by_refl : reachable_by c0 c0
| by_step c a : reachable_by c0 c -> admissible a -> reachable_by c0 (exec c a).

Lemma reachable_by_all c l : Forall admissible l -> reachable_by c (exec_all c l).
Proof.
  intros Hl. induction l as [|a l IH] using rev_ind; [constructor|].
  apply Forall_app in Hl as [Hl Ha]. inversion_clear Ha as [|? ? Ha' _].
  unfold exec_all. rewrite fold_left_app. apply (by_step c (exec_all c l) a); [by apply IH|exact Ha'].
Qed.

(** Commands that start nothing: no request and no cancellation. *)
Definition silent (x : cmd K D) : bool := match x with Send _ _ | Notify => false | _ => true end.

Lemma absorb_silent l c : forallb silent l = true -> c_pending (fold_left absorb l c) = c_pending c.
Proof.
  revert c. induction l as [|x l IH]; intros c; [done|]. simpl. intros [Hx Hl]%andb_true_iff.
  rewrite IH by done. by destruct x.
Qed.

Lemma run_silent m c : forallb silent (m (c_state c)).2 = true -> c_pending (run m c).2 = c_pending c.
Proof. unfold run. destruct (m (c_state c)) as [[o s] l]. intros Hl. cbn. by rewrite absorb_silent. Qed.

(** When the answers start nothing, every answer leaves one request fewer. *)
Lemma settles_drain (I : config S K D -> Prop) c :
  (forall k a s, forallb silent (on_next k a s).2 = true) ->
  (forall k e s, forallb silent (on_error k e s).2 = true) ->
  (forall c a, admissible a -> I c -> I (exec c a)) ->
  I c -> settles (fun c => c_pending c = [] /\ I c) (length (c_pending c)) c.
Proof.
  intros Hn He HI Hc. remember (length (c_pending c)) as n eqn:Hlen. symmetry in Hlen.
  revert c Hlen Hc. induction n as [|n IH]; intros c Hlen Hc.
  - apply settles_now. split; [by apply length_zero_iff_nil|done].
  - apply settles_wait; [by destruct (c_pending c)|..]; intros i x Hi; [intros Hx|];
      destruct (lookup_lt_is_Some_2 _ _ Hi) as [k Hk]; (apply IH; [|by apply HI]);
      cbn [exec]; rewrite Hk, run_silent by apply Hn || apply He; unfold drop_pending; cbn [c_pending];
      rewrite splice1_length_lt; lia.
Qed.

Lemma settles_impl (P Q : config S K D -> Prop) n c : (forall c, P c -> Q c) -> settles P n c -> settles Q n c.
Proof.
  intros HPQ. induction 1 as [n c Hc|n c Hne _ IHr _ IHe]; [by apply settles_now, HPQ|]. by apply settles_wait.
Qed.
End answers.
End settles.

(** ** Pages whose spinner stops *)

Section honest.
Context {S K D : Type} (searching : K -> bool) (ongoing : S -> bool).

(** While the flag is up, a search is in flight. *)
Definition honest (b : bool) (fl : list K) : Prop := b = true -> fl <> [].

Definition stays_honest (answer : bool) (m : M S (cmd K D) unit) : Prop := forall s fl,
  (if answer then fl = [] else honest (ongoing s) fl) ->
  honest (ongoing (m s).1.2) (fold_left (flight searching) (m s).2 fl).

Definition calm (x : cmd K D) : bool := match x with Send k _ => negb (searching k) | Notify => false | _ => true end.

Lemma flight_calm l fl : forallb calm l = true -> fold_left (flight searching) l fl = fl.
Proof.
  revert fl. induction l as [|x l IH]; intros fl; [done|]. simpl. intros [Hx Hl]%andb_true_iff.
  rewrite IH by done. destruct x; try done. simpl in *. by destruct (searching k).
Qed.

Lemma calm_honest m : (forall s, ongoing (m s).1.2 = ongoing s /\ forallb calm (m s).2 = true) -> stays_honest false m.
Proof. intros Hm s fl Hs. destruct (Hm s) as [-> Hl]. by rewrite flight_calm. Qed.

Lemma lowered_honest b m : (forall s, ongoing (m s).1.2 = false) -> stays_honest b m.
Proof. intros Hm s fl _. by rewrite Hm. Qed.

Lemma search_honest m : (forall s, exists k r, searching k = true /\
    (m s).2 = (if ongoing s then [Notify] else []) ++ [Send k r]) -> stays_honest false m.
Proof.
  intros Hm s fl _ _. destruct (Hm s) as (k & r & Hk & ->). rewrite fold_left_app. simpl. rewrite Hk.
  by destruct (fold_left _ _ fl).
Qed.

Lemma honest_then m m' : stays_honest false m -> stays_honest false m' -> stays_honest false (m;; m').
Proof.
  intros Hm Hm' s fl Hs. specialize (Hm s fl Hs). run_m.
  destruct (m s) as [[[[]|e] s1] l]; [|exact Hm]. specialize (Hm' s1 _ Hm).
  destruct (m' s1) as [[o s2] l']. cbn [fst snd] in *. by rewrite fold_left_app.
Qed.

Lemma honest_cases b m : (forall s, exists m', stays_honest b m' /\ m s = m' s) -> stays_honest b m.
Proof. intros Hm s fl Hs. destruct (Hm s) as (m' & Hm' & E). rewrite E. by apply Hm'. Qed.

Lemma honest_subscriber m : stays_honest false m -> stays_honest false (subscriber m).
Proof.
  intros Hm s fl Hs. specialize (Hm s fl Hs). run_m.
  destruct (m s) as [[[a|e] s'] l]; [exact Hm|]. cbn [fst snd] in *. by rewrite fold_left_app.
Qed.
End honest.

(** What a page promises, for the events [alive] and the answers [good]. *)
Class HonestSearch {S Ev K D} (comp : Component S Ev K D) `{!SearchPage comp}
    (good : forall k : K, resp k -> Prop) (alive : Ev -> bool) := {
  event_honest e : alive e = true -> stays_honest (searching comp) (ongoing comp) false (on_event e);
  next_honest k a : good k a -> stays_honest (searching comp) (ongoing comp) (searching comp k) (on_next k a);
  error_honest k e : stays_honest (searching comp) (ongoing comp) (searching comp k) (on_error k e);
  confirm_honest d v : stays_honest (searching comp) (ongoing comp) false (on_confirm d v);
  next_silent k a s : forallb silent (on_next k a s).2 = true;
  error_silent k e s : forallb silent (on_error k e s).2 = true
}.

Section honest_page.
Context {S Ev K D : Type} {comp : Component S Ev K D} `{!SearchPage comp}.
Context {good : forall k : K, resp k -> Prop} {alive : Ev -> bool} `{!HonestSearch comp good alive}.
Implicit Types c : config S K D.

Definition spinning c : Prop := honest (ongoing comp (c_state c)) (in_flight c).

Lemma spinning_run m c b :
  stays_honest (searching comp) (ongoing comp) b m -> (if b then in_flight c = [] else spinning c) -> spinning (run m c).2.
Proof.
  intros Hm Hc. unfold spinning. rewrite run_state. specialize (Hm (c_state c) (in_flight c)).
  unfold run. destruct (m (c_state c)) as [[o s] l]. cbn [fst snd] in *. rewrite in_flight_absorb. apply Hm. by destruct b.
Qed.

(** One answer fewer in flight: none, when it was that of the search. *)
Lemma spinning_answered c i k : c_pending c !! i = Some k -> last_only c -> spinning c ->
  if searching comp k then in_flight (drop_pending i c) = [] else spinning (drop_pending i c).
Proof.
  intros Hi Hl Hc. pose proof (last_only_answered c i k Hi Hl) as H. destruct (searching comp k) eqn:Ek; [done|].
  pose proof (take_drop_middle _ _ _ Hi) as E. intros Ho. specialize (Hc Ho). unfold in_flight in Hc.
  rewrite <- E, filter_app_middle, Ek in Hc. unfold in_flight, drop_pending, splice1. simpl. by rewrite List.filter_app.
Qed.

Lemma spinning_exec c a : admissible good alive a -> last_only c /\ spinning c -> last_only (exec c a) /\ spinning (exec c a).
Proof.
  intros Ha [Hl Hc]. split; [by apply last_only_exec|]. destruct a as [e|i answer|i e|i v|i]; cbn [exec].
  - by apply (spinning_run _ _ false); [apply event_honest|].
  - destruct (c_pending c !! i) as [k|] eqn:E; [|done].
    apply (spinning_run _ _ (searching comp k)); [apply next_honest, Ha|by apply spinning_answered].
  - destruct (c_pending c !! i) as [k|] eqn:E; [|done].
    apply (spinning_run _ _ (searching comp k)); [apply error_honest|by apply spinning_answered].
  - destruct (c_dialogs c !! i) as [d|]; [|done].
    pose proof (spinning_run _ c false (confirm_honest d v) Hc) as H'.
    destruct (run (on_confirm d v) c) as [[] c']; exact H'.
  - done.
Qed.

(** From every state that can be reached, however the server answers, the page comes to
    rest after as many answers as requests are pending: nothing is pending and no query
    is going on. *)
Theorem search_page_settles s0 c :
  ongoing comp s0 = false -> reachable_by good alive (start s0) c ->
  settles good (fun c => c_pending c = [] /\ ongoing comp (c_state c) = false) (length (c_pending c)) c.
Proof.
  intros H0 Hr. assert (Hinv : last_only c /\ spinning c).
  { induction Hr as [|c a _ IH Ha]; [|by apply spinning_exec].
    split; [by left|]. intros Ho. cbn in Ho. by rewrite H0 in Ho. }
  eapply settles_impl; [|apply (settles_drain good alive (fun c => last_only c /\ spinning c)); try done].
  - intros c' [Hp [_ Hs]]. split; [done|]. destruct (ongoing comp (c_state c')) eqn:Ho; [|done].
    destruct (Hs Ho). unfold in_flight. by rewrite Hp.
  - apply next_silent.
  - apply error_silent.
  - intros c' a Ha. by apply spinning_exec.
Qed.
End honest_page.

(** ** The list of accounts *)

(** The server always writes the list of users ([EmitUnpopulated]), also when it is empty. *)
Definition accounts_good cp (k : Accounts.subscription) : resp (Component := Accounts.page cp) k -> Prop :=
  match k with Accounts.Search _ => fun d => exists l, AccountList_users d = Val l | Accounts.Delete _ _ => fun _ => True end.
Definition accounts_open (e : Accounts.event) : bool := match e with Accounts.Destroy => false | _ => true end.

Lemma accounts_search_honest cp st : stays_honest Accounts.is_search Accounts.ongoingQuery false (Accounts.search cp st).
Proof. apply search_honest. intros s. rewrite accounts_search_spec. eexists (Accounts.Search _), _. by split. Qed.

Lemma accounts_route_calm d : stays_honest Accounts.is_search Accounts.ongoingQuery false (subscriber (Accounts.route_data d)).
Proof. apply calm_honest. intros s. destruct s, d as [| |[cur tot [| |us]]]; by split. Qed.

#[export] Instance accounts_honest cp : HonestSearch (Accounts.page cp) (accounts_good cp) accounts_open.
Proof.
  split.
  - intros []; try discriminate; intros _; cbn [on_event Accounts.page];
      try (apply calm_honest; intros []; by split).
    + unfold Accounts.ngOnInit. apply honest_then; [apply calm_honest; intros []; by split|].
      apply honest_then; [|apply accounts_route_calm]. apply honest_cases. intros s. unfold init_search. run_m.
      destruct (truthy_str (nextCursor s)); [|destruct (truthy_str (filter s) || num_truthy (filter_type s))].
      * exists (Accounts.search cp 1). split; [apply accounts_search_honest|]. by destruct (Accounts.search cp 1 s) as [[o s'] l].
      * exists (Accounts.search cp 0). split; [apply accounts_search_honest|]. by destruct (Accounts.search cp 0 s) as [[o s'] l].
      * exists (ret tt). split; [by apply calm_honest|done].
    + apply accounts_route_calm.
    + apply accounts_search_honest.
  - intros [cur|i o] a; cbn [on_next Accounts.page searching accounts_searches Accounts.is_search accounts_good].
    + intros [l Hl]. apply lowered_honest. intros s. by rewrite (accounts_search_next_ok _ _ _ _ Hl).
    + intros _. apply calm_honest. intros []. by split.
  - intros [cur|i o] e; cbn [on_error Accounts.page searching accounts_searches Accounts.is_search];
      [apply lowered_honest; by intros []|apply calm_honest; intros []; by split].
  - intros [i o] v. apply calm_honest. intros []. by split.
  - intros [cur|i o] a s; cbn [on_next Accounts.page]; [|by destruct s].
    destruct s, a as [? ? [| |us]]; reflexivity.
  - intros [cur|i o] e []; reflexivity.
Defined.

(** C15: the list of accounts comes to rest: after any run of the page, up to its being left,
    with answers that have a list of users, if the user then does nothing, the server may
    answer or refuse what is pending in any order: after as many answers as there are
    requests pending, nothing is pending and the page shows no ongoing query. *)
Theorem accounts_come_to_rest cp c
    (Hr : reachable_by (comp := Accounts.page cp) (accounts_good cp) accounts_open (start Accounts.new_state) c) :
  settles (comp := Accounts.page cp) (accounts_good cp)
    (fun c' => c_pending c' = [] /\ Accounts.ongoingQuery (c_state c') = false) (length (c_pending c)) c.
Proof.
  exact (search_page_settles (comp := Accounts.page cp) (good := accounts_good cp) (alive := accounts_open) Accounts.new_state c eq_refl Hr).
Qed.

Lemma accounts_come_to_rest_witness :
  let cp := new_ConsoleService Und in
  let c := exec_all (comp := Accounts.page cp) (start Accounts.new_state)
    [User (Accounts.SearchClick 0); User (Accounts.DeleteClick 0 ann); Confirm 0 JUndef; User (Accounts.SearchClick 0)] in
  length (c_pending c) = 2 /\ Accounts.ongoingQuery (c_state c) = true /\
  settles (comp := Accounts.page cp) (accounts_good cp)
    (fun c' => c_pending c' = [] /\ Accounts.ongoingQuery (c_state c') = false) (length (c_pending c)) c.
Proof.
  intros cp c. split_and_all; [reflexivity..|]. apply accounts_come_to_rest. apply reachable_by_all. by repeat constructor.
Defined.

(** ** The list of collections *)

#[local] Existing Instance Listing.collections_searches.
#[local] Existing Instance Listing.eta_state.

Definition collections_good cp portal ls (k : Listing.subscription) : resp (Component := Listing.page cp portal ls) k -> Prop :=
  match k with Listing.Search => fun d => exists l, CollectionList_data d = Val l | Listing.Delete _ _ => fun _ => True end.
Definition collections_open (e : Listing.event) : bool := match e with Listing.Destroy => false | _ => true end.

Section collections.
Context (cp : ConfigParams) (portal : LayergPortalConfig) (ls : gmap string string).

(** With a portal token that can be read; a damaged one makes the search fail after the
    flag has been raised, and the spinner never stops. *)
Context (token : is_Some (read_item "accessToken" ls)).

Lemma collections_search_honest : stays_honest Listing.is_search Listing.ongoingQuery false (Listing.search portal ls).
Proof.
  destruct token as [t Ht]. apply search_honest. intros s.
  rewrite Listing.collections_search_spec. unfold listCollections, portal_get, portal_headers. rewrite Ht.
  eexists Listing.Search, _. by split.
Qed.

Lemma collections_honest : HonestSearch (Listing.page cp portal ls) (collections_good cp portal ls) collections_open.
Proof.
  split.
  - intros []; try discriminate; intros _; cbn [on_event Listing.page];
      try (apply calm_honest; intros []; by split).
    + apply honest_then; [apply calm_honest; intros []; by split|]. apply honest_subscriber, collections_search_honest.
    + apply honest_subscriber, collections_search_honest.
    + apply collections_search_honest.
    + apply honest_then; [|apply calm_honest; intros []; by split]. apply honest_subscriber.
      apply honest_then; [apply calm_honest; intros []; by split|apply collections_search_honest].
  - intros [|i o] a; cbn [on_next Listing.page searching Listing.collections_searches Listing.is_search collections_good].
    + intros [l Hl]. apply lowered_honest. intros []. unfold Listing.search_next. rewrite Hl. reflexivity.
    + intros _. apply calm_honest. intros []. by split.
  - intros [|i o] e; cbn [on_error Listing.page searching Listing.collections_searches Listing.is_search];
      [apply lowered_honest; by intros []|apply calm_honest; intros []; by split].
  - intros [i o|col] v; cbn [on_confirm Listing.page]; [apply calm_honest; intros []; by split|].
    apply honest_subscriber, collections_search_honest.
  - intros [|i o] a s; cbn [on_next Listing.page]; [|by destruct s]. destruct s, a as [? [| |us]]; reflexivity.
  - intros [|i o] e []; reflexivity.
Qed.

(** The list of collections comes to rest in the same way. *)
Theorem collections_come_to_rest c
    (Hr : reachable_by (comp := Listing.page cp portal ls) (collections_good cp portal ls) collections_open (start Listing.new_state) c) :
  settles (comp := Listing.page cp portal ls) (collections_good cp portal ls)
    (fun c' => c_pending c' = [] /\ Listing.ongoingQuery (c_state c') = false) (length (c_pending c)) c.
Proof.
  pose proof collections_honest.
  exact (search_page_settles (comp := Listing.page cp portal ls) (good := collections_good cp portal ls)
    (alive := collections_open) Listing.new_state c eq_refl Hr).
Qed.
End collections.

(** A damaged token of the portal: the search raises the flag, sends nothing and throws,
    so that the page shows an ongoing query for which no answer will come. *)
Theorem damaged_token_spins portal ls s
    (Hbad : read_item "accessToken" ls = None) :
  Listing.search portal ls s =
    (Throw SyntaxError, setf (f := Listing.ongoingQuery) (fun _ => true) s, if Listing.ongoingQuery s then [Notify] else []).
Proof.
  rewrite Listing.collections_search_spec. unfold listCollections, portal_get, portal_headers. by rewrite Hbad.
Qed.

Lemma damaged_token_spins_witness :
  Listing.search hub {["accessToken" := "{"]} Listing.new_state =
    (Throw SyntaxError, setf (f := Listing.ongoingQuery) (fun _ => true) Listing.new_state, []).
Proof. apply (damaged_token_spins hub {["accessToken" := "{"]} Listing.new_state). vm_compute. reflexivity. Defined.
