(* ===== verification/Paging.v ===== *)
(** * Turning the pages of a list

    The lists that come from the server in pages: accounts, storage objects, groups,
    leaderboards, records, the ledger of a wallet, purchases, subscriptions, notifications
    and messages.  [PageOps] and [Paged] are what they share: a button that asks for the
    page after the one on the screen, and an answer that takes its place.  The theorem is
    what a reader relies on: turning the pages until the button is disabled shows every
    row of the server's list, once and in order. *)

From S2P Require Import Prelude JsVal Runtime ConsoleTypes ConsoleService Accounts Lists AccountTabs Chat.

(** ** The contract *)

Class PageOps {S Ev K D} (comp : Component S Ev K D) (R : Type) := {
  page_rows : S -> list R;
  more : S -> opt string;                                       (* the cursor of the next page *)
  ready : S -> Prop;
  next_click : S -> Ev;
  page_sub : opt string -> K;
  question : S -> opt string -> request;                        (* for the page at a cursor *)
  rows_in : forall cursor, resp (page_sub cursor) -> opt (list R);
  more_in : forall cursor, resp (page_sub cursor) -> opt string
}.
Arguments page_rows {S Ev K D} comp {R _} _.
Arguments more {S Ev K D} comp {R _} _.
Arguments ready {S Ev K D} comp {R _} _.
Arguments next_click {S Ev K D} comp {R _} _.
Arguments page_sub {S Ev K D} comp {R _} _.
Arguments question {S Ev K D} comp {R _} _ _.
Arguments rows_in {S Ev K D} comp {R _} _ _.
Arguments more_in {S Ev K D} comp {R _} _ _.

(** Commands that leave the pending requests alone. *)
Definition idle {K D} (x : cmd K D) : bool := match x with Send _ _ | Notify => false | _ => true end.

Section contract.
Context {S Ev K D : Type} {comp : Component S Ev K D} {R : Type} `{!PageOps comp R}.

(** The same list is asked for, and the same rows are shown. *)
Definition same_list (s s' : S) : Prop := ready comp s' /\ forall cursor, question comp s' cursor = question comp s cursor.

(** In state [s] the event [e] asks for the page at [cursor], once. *)
Definition asks (e : Ev) (s : S) (cursor : opt string) : Prop :=
  exists s' l, on_event e s = (Ret tt, s', l ++ [Send (page_sub comp cursor) (question comp s cursor)]) /\ same_list s s'.
End contract.
Arguments same_list {S Ev K D} comp {R _} _ _.
Arguments asks {S Ev K D} comp {R _} _ _ _.

Class Paged {S Ev K D} (comp : Component S Ev K D) (R : Type) `{!PageOps comp R} := {
  next_asks s : ready comp s -> asks comp (next_click comp s) s (more comp s);
  page_shown cursor a s l : ready comp s -> rows_in comp cursor a = Val l ->
    exists s' n, on_next (page_sub comp cursor) a s = (Ret tt, s', n) /\ forallb idle n = true /\
      page_rows comp s' = l /\ more comp s' = more_in comp cursor a /\ same_list comp s s'
}.

(** ** Turning pages *)

Section paging.
Context {S Ev K D : Type} {comp : Component S Ev K D} {R : Type} `{!PageOps comp R} `{!Paged comp R}.
Implicit Types c : config S K D.

(** The server: what it answers to a request. *)
Context (serve : forall k : K, request -> resp k).

(** The event, and the answer to the request that it has sent. *)
Definition answered c (e : Ev) : config S K D :=
  let c' := exec c (User e) in
  match last (c_trace c') with
  | Some (Send k r) => exec c' (Respond (pred (length (c_pending c'))) (fun k => serve k r))
  | _ => c'
  end.

(** The page after [n] clicks on the button. *)
Fixpoint turn (n : nat) c : config S K D :=
  match n with
  | 0 => c
  | Datatypes.S n => let c' := turn n c in answered c' (next_click comp (c_state c'))
  end.

Definition screens (n : nat) c : list R :=
  concat (map (fun i => page_rows comp (c_state (turn i c))) (seq 0 (Datatypes.S n))).

(** The server has the rows [l] from [cursor] on, under the question [q]: its pages carry
    them, each but the last with the cursor of the next. *)
Inductive serves (q : opt string -> request) : string -> list R -> Prop :=
| serves_last cursor l (a := serve (page_sub comp (Val cursor)) (q (Val cursor))) :
    rows_in comp _ a = Val l -> more_in comp _ a = Val "" -> serves q cursor l
| serves_more cursor l cursor' l' (a := serve (page_sub comp (Val cursor)) (q (Val cursor))) :
    rows_in comp _ a = Val l -> more_in comp _ a = Val cursor' -> cursor' <> "" ->
    serves q cursor' l' -> serves q cursor (l ++ l').

Lemma serves_ext q q' cursor l : (forall x, q x = q' x) -> serves q cursor l -> serves q' cursor l.
Proof.
  intros E. induction 1 as [cursor l a Hl Hm|cursor l cursor' l' a Hl Hm Hne _ IH]; subst a; rewrite E in Hl, Hm.
  - by apply serves_last.
  - by eapply serves_more.
Qed.

(** An event that asks for a page, and its answer. *)
Lemma answered_page c e cursor l :
  ready comp (c_state c) -> asks comp e (c_state c) cursor ->
  let a := serve (page_sub comp cursor) (question comp (c_state c) cursor) in
  rows_in comp cursor a = Val l ->
  let s' := c_state (answered c e) in
  page_rows comp s' = l /\ more comp s' = more_in comp cursor a /\ same_list comp (c_state c) s'.
Proof.
  intros Hr (s1 & pre & E & Hs1) a Hl. unfold answered. rewrite (exec_User _ _ _ _ _ E), fold_left_app.
  set (c1 := fold_left absorb pre _).
  assert (Es : c_state c1 = s1) by (unfold c1; by rewrite absorb_state).
  set (c2 := fold_left absorb [_] c1).
  assert (Ht : last (c_trace c2) = Some (Send (page_sub comp cursor) (question comp (c_state c) cursor))) by apply last_snoc.
  assert (Hp : c_pending c2 !! pred (length (c_pending c2)) = Some (page_sub comp cursor)).
  { change (c_pending c2) with (c_pending c1 ++ [page_sub comp cursor]).
    rewrite length_app, Nat.add_comm. cbn. by rewrite lookup_app_r, Nat.sub_diag by lia. }
  rewrite Ht. destruct (page_shown cursor a s1 l (proj1 Hs1) Hl) as (s2 & n & E2 & _ & H1 & H2 & H3 & H4).
  rewrite <- Es in E2. rewrite (exec_Respond c2 _ _ _ _ _ _ Hp E2), absorb_state. cbn [c_state].
  split_and_all; [done|done|]. split; [done|]. intros x. by rewrite H4, (proj2 Hs1).
Qed.

Lemma turn_from n c : turn n (turn 1 c) = turn (Datatypes.S n) c.
Proof. induction n as [|n IH]; [done|]. cbn [turn] in *. by rewrite IH. Qed.

Lemma screens_from n c : screens (Datatypes.S n) c = page_rows comp (c_state c) ++ screens n (turn 1 c).
Proof.
  unfold screens. change (seq 0 (Datatypes.S (Datatypes.S n))) with (0 :: seq 1 (Datatypes.S n)).
  rewrite <- seq_shift. cbn [map concat]. f_equal. f_equal. rewrite map_map. apply map_ext. intros i. by rewrite turn_from.
Qed.

(** One click on the enabled button. *)
Lemma turn_page q c cursor l (a := serve (page_sub comp (Val cursor)) (q (Val cursor))) :
  ready comp (c_state c) -> (forall x, question comp (c_state c) x = q x) ->
  more comp (c_state c) = Val cursor -> rows_in comp _ a = Val l ->
  let s' := c_state (turn 1 c) in
  page_rows comp s' = l /\ more comp s' = more_in comp _ a /\ ready comp s' /\ forall x, question comp s' x = q x.
Proof.
  intros Hr Hq E Hl. pose proof (next_asks _ Hr) as Ha. rewrite E in Ha. unfold a in *. clear a. revert Hl. rewrite <- (Hq (Val cursor)). intros Hl.
  destruct (answered_page c _ _ _ Hr Ha Hl) as (H1 & H2 & H3 & H4). split_and_all; [done..|].
  intros x. rewrite <- (Hq x). apply H4.
Qed.

(** Turning the pages while the button is enabled shows the rows on the screen and then
    all the others, and ends. *)
Lemma serves_shown q cursor l : serves q cursor l -> cursor <> "" -> forall c,
  ready comp (c_state c) -> (forall x, question comp (c_state c) x = q x) -> more comp (c_state c) = Val cursor ->
  exists n, screens n c = page_rows comp (c_state c) ++ l /\
    (forall i, i < n -> more comp (c_state (turn i c)) <> Val "") /\
    more comp (c_state (turn n c)) = Val "".
Proof.
  assert (Hfirst : forall c cursor n, more comp (c_state c) = Val cursor -> cursor <> "" ->
    (forall i, i < n -> more comp (c_state (turn i (turn 1 c))) <> Val "") ->
    forall i, i < Datatypes.S n -> more comp (c_state (turn i c)) <> Val "").
  { intros c x n E Hne Hlt [|i] Hi; [cbn; rewrite E; by intros [= ?]|]. rewrite <- turn_from. apply Hlt. lia. }
  induction 1 as [cursor l a Hl Hm|cursor l cursor' l' a Hl Hm Hne' _ IH]; intros Hne c Hr Hq E;
    destruct (turn_page q c cursor l Hr Hq E Hl) as (H1 & H2 & H3 & H4); fold a in H2; rewrite Hm in H2.
  - exists 1. rewrite screens_from. split_and_all; [|by eapply Hfirst; [..|lia]|done].
    unfold screens. cbn [seq map concat]. rewrite app_nil_r. by f_equal.
  - destruct (IH Hne' (turn 1 c) H3 H4 H2) as (n & Hn & Hlt & Hend).
    exists (Datatypes.S n). rewrite screens_from, Hn, H1. rewrite turn_from in Hend. split_and_all; [done|by eapply Hfirst|done].
Qed.

(** From [c] on, turning the pages while the button is enabled ends, and shows the rows
    [l], each once and in order. *)
Definition reads c (l : list R) : Prop :=
  exists n, screens n c = l /\
    (forall i, i < n -> more comp (c_state (turn i c)) <> Val "") /\
    more comp (c_state (turn n c)) = Val "".

Lemma serves_answers q cursor l : serves q cursor l ->
  exists l1, rows_in comp _ (serve (page_sub comp (Val cursor)) (q (Val cursor))) = Val l1.
Proof. by inversion 1; eexists. Qed.

(** A state that shows the first page. *)
Lemma first_page_reads q c l (a := serve (page_sub comp (Val "")) (q (Val ""))) :
  serves q "" l -> ready comp (c_state c) -> (forall x, question comp (c_state c) x = q x) ->
  (forall l, rows_in comp _ a = Val l -> page_rows comp (c_state c) = l) -> more comp (c_state c) = more_in comp _ a ->
  reads c l.
Proof.
  intros Hs Hr Hq Hl1 Hm. inversion Hs as [? l0 a' Hl Hm'|? l0 cursor' l' a' Hl Hm' Hne Hs']; subst;
    pose proof (eq_trans Hm Hm') as E; pose proof (Hl1 _ Hl) as Hl'.
  - exists 0. unfold screens. cbn. rewrite app_nil_r. split_and_all; [done|lia|done].
  - destruct (serves_shown q cursor' l' Hs' Hne c Hr Hq E) as (n & Hn & Hrest). exists n. by rewrite Hn, Hl'.
Qed.

(** A search that starts at the first page. *)
Lemma search_reads c e l :
  ready comp (c_state c) -> asks comp e (c_state c) (Val "") -> serves (question comp (c_state c)) "" l ->
  reads (answered c e) l.
Proof.
  intros Hr Ha Hs. destruct (serves_answers _ _ _ Hs) as [l1 Hl]. destruct (answered_page c e _ l1 Hr Ha Hl) as (H1 & H2 & H3 & H4).
  eapply first_page_reads; [exact Hs|done..| |exact H2]. intros l2 E. rewrite Hl in E. by injection E as <-.
Qed.
End paging.

(** ** The pages *)

#[local] Ltac shown := eexists _, _; repeat split; reflexivity.

#[export] Instance accounts_ops cp : PageOps (Accounts.page cp) ApiUser := {
  page_rows := accounts;
  more := Accounts.nextCursor;
  ready _ := True;
  next_click _ := Accounts.SearchClick 1;
  page_sub := Accounts.Search;
  question s := listAccounts cp "" (filter s) (tombstones_of (filter_type s));
  rows_in _ := AccountList_users;
  more_in _ := AccountList_next_cursor
}.

Lemma accounts_asks cp st s :
  asks (Accounts.page cp) (Accounts.SearchClick st) s (search_cursor st (Accounts.prevCursor s) (Accounts.nextCursor s)).
Proof. eexists _, _. cbn [on_event Accounts.page]. rewrite accounts_search_spec. split; [done|]. by destruct s. Qed.

#[export] Instance accounts_paged cp : Paged (Accounts.page cp) ApiUser.
Proof.
  split; [intros s _; apply (accounts_asks cp 1)|]. intros cursor a s l _ Hl. cbn in Hl. cbn [on_next Accounts.page page_sub accounts_ops].
  rewrite (accounts_search_next_ok _ _ _ _ Hl). by shown.
Qed.

#[export] Instance storage_ops cp : PageOps (Storage.page cp) StorageListObject := {
  page_rows := Storage.objects;
  more := Storage.nextCursor;
  ready _ := True;
  next_click _ := Storage.SearchClick 1;
  page_sub := Storage.Search;
  question s := listStorage cp "" (Storage.user_id s) (Storage.key s) (Storage.collection s);
  rows_in _ := StorageList_objects;
  more_in _ := StorageList_next_cursor
}.

#[export] Instance storage_paged cp : Paged (Storage.page cp) StorageListObject.
Proof.
  split; [intros s _; by exists s, []|]. intros cursor a s l _ Hl. cbn in Hl. cbn [on_next Storage.page page_sub storage_ops].
  rewrite (Storage.storage_search_next_ok _ _ _ _ Hl). by shown.
Qed.

#[export] Instance groups_ops cp : PageOps (GroupsList.page cp) ApiGroup := {
  page_rows := GroupsList.groups;
  more := GroupsList.nextCursor;
  ready _ := True;
  next_click _ := GroupsList.SearchClick 1;
  page_sub := GroupsList.Search;
  question s := listGroups cp "" (GroupsList.filter s);
  rows_in _ := GroupList_groups;
  more_in _ := GroupList_next_cursor
}.

#[export] Instance groups_paged cp : Paged (GroupsList.page cp) ApiGroup.
Proof.
  split; [intros s _; by exists s, []|]. intros cursor [] s l _ Hl. cbn in Hl. subst. destruct s. by shown.
Qed.

#[export] Instance leaderboards_ops cp : PageOps (Leaderboards.page cp) Leaderboard := {
  page_rows := Leaderboards.leaderboards;
  more := Leaderboards.nextCursor;
  ready _ := True;
  next_click _ := Leaderboards.SearchClick 1;
  page_sub := Leaderboards.Search;
  question _ := listLeaderboards cp "";
  rows_in _ := LeaderboardList_leaderboards;
  more_in _ := LeaderboardList_cursor
}.

#[export] Instance leaderboards_paged cp : Paged (Leaderboards.page cp) Leaderboard.
Proof.
  split; [intros s _; by exists s, []|]. intros cursor [] s l _ Hl. cbn in Hl. subst. destruct s. by shown.
Qed.

(** The records can be asked for once the leaderboard is known. *)
#[export] Instance records_ops cp : PageOps (Records.page cp) ApiLeaderboardRecord := {
  page_rows := Records.records;
  more := Records.nextCursor;
  ready s := exists l, Records.leaderboard s = Val l;
  next_click _ := Records.LoadClick 1;
  page_sub _ := Records.Load;
  question s cursor := listLeaderboardRecords cp "" (chain (Records.leaderboard s) Leaderboard_id) Nul (Val (int 100)) cursor Nul;
  rows_in _ := ApiLeaderboardRecordList_records;
  more_in _ := ApiLeaderboardRecordList_next_cursor
}.

#[export] Instance records_paged cp : Paged (Records.page cp) ApiLeaderboardRecord.
Proof.
  split.
  - intros [] [l Hl]. cbn in Hl. subst. exists (Records.mkState error (Val l) records recordsMetadataOpen nextCursor prevCursor), [].
    split; [reflexivity|]. split; [by eexists|done].
  - intros cursor [] [] l [b Hb] Hl. cbn in Hb, Hl. subst. eexists _, _. split; [reflexivity|].
    split_and_all; [done..|]. split; [by eexists|done].
Qed.

#[export] Instance wallet_ops cp : PageOps (Wallet.page cp) WalletLedger := {
  page_rows s := nullish (Wallet.walletLedger s) [];
  more := Wallet.nextCursor;
  ready _ := True;
  next_click s := Wallet.LoadClick (Wallet.nextCursor s);
  page_sub _ := Wallet.Load;
  question s := getWalletLedger cp "" (Wallet.userID s) (Val Wallet.limit);
  rows_in _ := WalletLedgerList_items;
  more_in _ := WalletLedgerList_next_cursor
}.

#[export] Instance wallet_paged cp : Paged (Wallet.page cp) WalletLedger.
Proof.
  split; [intros s _; by exists s, []|]. intros cursor [] [] l _ Hl. cbn in Hl. subst. by shown.
Qed.

(** Purchases, subscriptions and notifications. *)
#[export] Instance lookup_ops {Item Page} (ops : LookupList.operations Item Page) : PageOps (LookupList.page ops) Item := {
  page_rows s := nullish (LookupList.items s) [];
  more := LookupList.nextCursor;
  ready _ := True;
  next_click s := LookupList.LoadClick (LookupList.nextCursor s);
  page_sub _ := LookupList.Load;
  question s := LookupList.list_request ops (LookupList.userId s) (Val LookupList.limit);
  rows_in _ := LookupList.items_of ops;
  more_in _ := LookupList.next_of ops
}.

#[export] Instance lookup_paged {Item Page} (ops : LookupList.operations Item Page) : Paged (LookupList.page ops) Item.
Proof.
  split; [intros [] _; eexists _, []; by split|]. intros cursor a [] l _ Hl. cbn in Hl.
  cbn [on_next LookupList.page page_sub lookup_ops]. unfold LookupList.load_next. run_m. rewrite Hl. by shown.
Qed.

(** The messages of a channel can be asked for once its type is known. *)
#[export] Instance chat_ops cp days_ago : PageOps (Chat.page cp days_ago) ApiChannelMessage := {
  page_rows := Chat.messages;
  more := Chat.nextCursor;
  ready s := exists f, filter_of (Chat.type s) = Val f;
  next_click _ := Chat.SearchClick 1;
  page_sub := Chat.List_;
  question s cursor := default (mkRequest GET "" NoBody [] ∅)
    (list_request cp (Chat.type s) (Chat.label s) (Chat.group_id s) (Chat.user_id_one s) (Chat.user_id_two s) cursor);
  rows_in _ := ApiChannelMessageList_messages;
  more_in _ := ApiChannelMessageList_next_cursor
}.

Lemma list_request_typed cp t l g a b cursor f : filter_of t = Val f -> is_Some (list_request cp t l g a b cursor).
Proof.
  unfold filter_of, list_request.
  destruct (num_eqb t (int 2)), (num_eqb t (int 3)), (num_eqb t (int 4)); try done; by eexists.
Qed.

#[export] Instance chat_paged cp days_ago : Paged (Chat.page cp days_ago) ApiChannelMessage.
Proof.
  split.
  - intros s [f Hf]. exists s, []. split; [|split; [by exists f|done]].
    cbn [on_event Chat.page next_click chat_ops question more]. unfold Chat.search, updateMessages. run_m.
    destruct (list_request_typed cp _ (Chat.label s) (Chat.group_id s) (Chat.user_id_one s) (Chat.user_id_two s) (Chat.nextCursor s) f Hf)
      as [r Hr]. by rewrite Hr.
  - intros cursor [] [] l [f Hf] Hl. cbn in Hf, Hl. subst. eexists _, _. split; [reflexivity|].
    split_and_all; [done..|]. split; [by exists f|done].
Qed.

(** A page of purchases, subscriptions or notifications that has been opened. *)
Definition opened_user (overwrites : bool) (id : opt string) : opt string :=
  if overwrites then id else if truthy_string (nullish id "") then Val (nullish id "") else Und.

Lemma lookup_opened_reads {Item Page} (ops : LookupList.operations Item Page) serve id q l :
  (forall cursor, LookupList.list_request ops (opened_user (LookupList.overwrites_user ops) id) (Val LookupList.limit) cursor = q cursor) ->
  serves (comp := LookupList.page ops) serve q "" l ->
  reads (comp := LookupList.page ops) serve
    (exec (comp := LookupList.page ops) (start LookupList.new_state)
       (User (LookupList.Init id (serve LookupList.Load (q (Val "")))))) l.
Proof.
  intros Hq Hs. set (d := serve _ _).
  assert (E : LookupList.ngOnInit ops id d LookupList.new_state = (Ret tt, LookupList.mkState (LookupList.items_of ops d) [] (JStr "")
      (LookupList.next_of ops d) (LookupList.prev_of ops d) (opened_user (LookupList.overwrites_user ops) id) Und, [])).
  { unfold LookupList.ngOnInit, opened_user. run_m. by destruct (truthy_string (nullish id "")), (LookupList.overwrites_user ops). }
  erewrite exec_User by exact E.
  eapply (first_page_reads (comp := LookupList.page ops)); [exact Hs|done|exact Hq|..]; cbn; [|done].
  intros l0 Hl. fold d in Hl. by rewrite Hl.
Qed.

(** The ledger, after the identifier and the resolved data have arrived. *)
Lemma wallet_opened_reads cp serve id l :
  serves (comp := Wallet.page cp) serve (fun cursor => getWalletLedger cp "" id (Val (int 100)) cursor) "" l ->
  reads (comp := Wallet.page cp) serve
    (exec_all (comp := Wallet.page cp) (start Wallet.new_state)
       [User (Wallet.Init id); User (Wallet.RouteData (serve Wallet.Load (Wallet.WalletLedgerResolver cp id)))]) l.
Proof.
  intros Hs. destruct (serves_answers _ _ _ _ Hs) as [l1 Hl].
  change (serve Wallet.Load (Wallet.WalletLedgerResolver cp id)) with
    (serve (page_sub (Wallet.page cp) (Val "")) (getWalletLedger cp "" id (Val (int 100)) (Val ""))).
  set (d := serve _ _) in *.
  assert (E : subscriber (Wallet.route_data d) (Wallet.mkState (JStr "") Und (Val []) [] false false (Val "") (Val "") id) =
    (Ret tt, Wallet.mkState (JStr "") Und (Val l1) (set_length (length l1) []) false false
       (WalletLedgerList_next_cursor d) (WalletLedgerList_prev_cursor d) id, [])).
  { cbn in Hl. unfold Wallet.route_data. run_m. cbn. by rewrite Hl. }
  user_step. user_step by E.
  eapply (first_page_reads (comp := Wallet.page cp)); [exact Hs|done|done|..]; [|done].
  intros l0 Hl0. by injection (eq_trans (eq_sym Hl) Hl0).
Qed.

(** The records, after the resolved data and the leaderboard have arrived. *)
Lemma records_opened_reads cp serve lb l :
  serves (comp := Records.page cp) serve
    (fun cursor => listLeaderboardRecords cp "" (Leaderboard_id lb) Nul (Val (int 100)) cursor Nul) "" l ->
  reads (comp := Records.page cp) serve
    (exec_all (comp := Records.page cp) (start Records.new_state)
       [User (Records.RouteData (serve Records.Load (Records.LeaderboardRecordsResolver cp (Leaderboard_id lb))));
        User (Records.ParentData (Val lb))]) l.
Proof.
  intros Hs. destruct (serves_answers _ _ _ _ Hs) as [l1 Hl].
  change (serve Records.Load (Records.LeaderboardRecordsResolver cp (Leaderboard_id lb))) with
    (serve (page_sub (Records.page cp) (Val "")) (listLeaderboardRecords cp "" (Leaderboard_id lb) Nul (Val (int 100)) (Val "") Nul)).
  set (d := serve _ _) in *.
  assert (E : subscriber (Records.route_data d) Records.new_state =
    (Ret tt, Records.mkState (JStr "") Und l1 (set_length (length l1) [])
       (ApiLeaderboardRecordList_next_cursor d) (ApiLeaderboardRecordList_prev_cursor d), [])).
  { cbn in Hl. unfold Records.route_data. run_m. cbn. by rewrite Hl. }
  user_step by E. user_step.
  eapply (first_page_reads (comp := Records.page cp)); [exact Hs|by eexists|done|..]; [|done].
  intros l0 Hl0. by injection (eq_trans (eq_sym Hl) Hl0).
Qed.

(** ** The properties *)

(** C16: searching and turning the pages until the button is disabled shows every row that
    the server has for the search, each once and in order, and ends: on the lists of
    accounts, of storage objects, of groups and of leaderboards and on the messages of a
    channel, in every state of the page. *)
Theorem searches_read_everything cp :
  (forall serve (c : config Accounts.state _ _) l,
     serves (comp := Accounts.page cp) serve
       (listAccounts cp "" (filter (c_state c)) (tombstones_of (filter_type (c_state c)))) "" l ->
     reads (comp := Accounts.page cp) serve (answered serve c (Accounts.SearchClick 0)) l) /\
  (forall serve (c : config Storage.state _ _) l,
     serves (comp := Storage.page cp) serve
       (listStorage cp "" (Storage.user_id (c_state c)) (Storage.key (c_state c)) (Storage.collection (c_state c))) "" l ->
     reads (comp := Storage.page cp) serve (answered serve c (Storage.SearchClick 0)) l) /\
  (forall serve (c : config GroupsList.state _ _) l,
     serves (comp := GroupsList.page cp) serve (listGroups cp "" (GroupsList.filter (c_state c))) "" l ->
     reads (comp := GroupsList.page cp) serve (answered serve c (GroupsList.SearchClick 0)) l) /\
  (forall serve (c : config Leaderboards.state _ _) l,
     serves (comp := Leaderboards.page cp) serve (listLeaderboards cp "") "" l ->
     reads (comp := Leaderboards.page cp) serve (answered serve c (Leaderboards.SearchClick 0)) l) /\
  (forall days_ago serve (c : config Chat.state _ _) l f,
     filter_of (Chat.type (c_state c)) = Val f ->
     serves (comp := Chat.page cp days_ago) serve (question (Chat.page cp days_ago) (c_state c)) "" l ->
     reads (comp := Chat.page cp days_ago) serve (answered serve c (Chat.SearchClick 0)) l).
Proof.
  split_and_all.
  - intros serve c l Hs. apply search_reads; [done| |exact Hs]. apply (accounts_asks cp 0).
  - intros serve c l Hs. apply search_reads; [done| |exact Hs]. by eexists _, [].
  - intros serve c l Hs. apply search_reads; [done| |exact Hs]. by eexists _, [].
  - intros serve c l Hs. apply search_reads; [done| |exact Hs]. by eexists _, [].
  - intros da serve c l f Hf Hs. apply search_reads; [by exists f| |exact Hs].
    exists (c_state c), []. split; [|split; [by exists f|done]].
    cbn [on_event Chat.page question chat_ops]. unfold Chat.search, updateMessages. run_m.
    destruct (list_request_typed cp _ (Chat.label (c_state c)) (Chat.group_id (c_state c)) (Chat.user_id_one (c_state c))
      (Chat.user_id_two (c_state c)) (Val "") f Hf) as [r Hr]. by rewrite Hr.
Qed.


(** C17: the page that the route has resolved and then the pages that the button asks for
    are every row that the server has, each once and in order: on the purchases, the
    subscriptions and the notifications (of an account or of all accounts), on the ledger
    of a wallet and on the records of a leaderboard. *)
Theorem opened_pages_read_everything cp :
  (forall serve id l,
     serves (comp := Purchases.page cp) serve (fun cursor => listPurchases cp "" (Val (nullish id "")) (Val (int 100)) cursor) "" l ->
     reads (comp := Purchases.page cp) serve
       (exec (comp := Purchases.page cp) (start LookupList.new_state)
          (User (LookupList.Init id (serve LookupList.Load (Purchases.PurchasesResolver cp id))))) l) /\
  (forall serve id l,
     serves (comp := Subscriptions.page cp) serve (fun cursor => listSubscriptions cp "" (Val (nullish id "")) (Val (int 100)) cursor) "" l ->
     reads (comp := Subscriptions.page cp) serve
       (exec (comp := Subscriptions.page cp) (start LookupList.new_state)
          (User (LookupList.Init id (serve LookupList.Load (Subscriptions.SubscriptionsResolver cp id))))) l) /\
  (forall serve id l,
     serves (comp := Notifications.page cp) serve (fun cursor => listNotifications cp "" (Val (nullish id "")) (Val (int 100)) cursor) "" l ->
     reads (comp := Notifications.page cp) serve
       (exec (comp := Notifications.page cp) (start LookupList.new_state)
          (User (LookupList.Init id (serve LookupList.Load (Notifications.NotificationsResolver cp id))))) l) /\
  (forall serve id l,
     serves (comp := Wallet.page cp) serve (fun cursor => getWalletLedger cp "" id (Val (int 100)) cursor) "" l ->
     reads (comp := Wallet.page cp) serve
       (exec_all (comp := Wallet.page cp) (start Wallet.new_state)
          [User (Wallet.Init id); User (Wallet.RouteData (serve Wallet.Load (Wallet.WalletLedgerResolver cp id)))]) l) /\
  (forall serve lb l,
     serves (comp := Records.page cp) serve
       (fun cursor => listLeaderboardRecords cp "" (Leaderboard_id lb) Nul (Val (int 100)) cursor Nul) "" l ->
     reads (comp := Records.page cp) serve
       (exec_all (comp := Records.page cp) (start Records.new_state)
          [User (Records.RouteData (serve Records.Load (Records.LeaderboardRecordsResolver cp (Leaderboard_id lb))));
           User (Records.ParentData (Val lb))]) l).
Proof.
  split_and_all.
  - intros serve id l. apply (lookup_opened_reads (Purchases.ops cp)). by destruct id as [| |[]].
  - intros serve id l. apply (lookup_opened_reads (Subscriptions.ops cp)). by destruct id as [| |[]].
  - intros serve id l. apply (lookup_opened_reads (Notifications.ops cp)). by destruct id as [| |[]].
  - intros serve id l. apply wallet_opened_reads.
  - intros serve lb l. apply records_opened_reads.
Qed.

(** Servers with two pages. *)
Definition at_second (r : request) : bool := bool_decide (param_values "cursor" (req_params r) = ["n"]).

Definition two_pages_of_accounts cp : forall k : Accounts.subscription, request -> resp (Component := Accounts.page cp) k :=
  fun k r => match k with
             | Accounts.Search _ => if at_second r then mkAccountList (Val "") (Val (int 3)) (Val [carl])
                                    else mkAccountList (Val "n") (Val (int 3)) (Val [ann; bob])
             | Accounts.Delete _ _ => JUndef
             end.

Definition purchase (id : string) : ApiValidatedPurchase :=
  mkApiValidatedPurchase Und Und Und Und Und Und Und Und (Val id) Und Und.

Definition two_pages_of_purchases cp : forall k, request -> resp (Component := Purchases.page cp) k :=
  fun k r => match k return resp (Component := Purchases.page cp) k with
             | LookupList.Load => if at_second r then mkApiPurchaseList (Val "") Und (Val [purchase "c"])
                                  else mkApiPurchaseList (Val "n") Und (Val [purchase "a"; purchase "b"])
             | LookupList.Get => purchase "a"
             | LookupList.Delete _ _ => JUndef
             end.

Lemma searches_read_everything_witness :
  let cp := new_ConsoleService Und in
  reads (comp := Accounts.page cp) (two_pages_of_accounts cp)
    (answered (two_pages_of_accounts cp) (start Accounts.new_state) (Accounts.SearchClick 0)) [ann; bob; carl].
Proof.
  intros cp. apply (proj1 (searches_read_everything cp)).
  apply (serves_more _ _ "" [ann; bob] "n" [carl]); [reflexivity|reflexivity|discriminate|].
  apply serves_last; reflexivity.
Defined.

Lemma opened_pages_read_everything_witness :
  let cp := new_ConsoleService Und in
  reads (comp := Purchases.page cp) (two_pages_of_purchases cp)
    (exec (comp := Purchases.page cp) (start LookupList.new_state)
       (User (LookupList.Init (Val "u") (two_pages_of_purchases cp LookupList.Load (Purchases.PurchasesResolver cp (Val "u"))))))
    [purchase "a"; purchase "b"; purchase "c"].
Proof.
  intros cp. apply (proj1 (opened_pages_read_everything cp)).
  apply (serves_more _ _ "" [purchase "a"; purchase "b"] "n" [purchase "c"]); [reflexivity|reflexivity|discriminate|].
  apply serves_last; reflexivity.
Defined.
