(* ===== verification/DeletionOrder.v ===== *)
(** * Deletions that are answered out of order

    A list page remembers the positions of the rows whose deletion has been confirmed, not
    the rows; each answer removes its position from the list as it is by then.  Here is
    exactly when that is right: the rows that are left are the others if and only if the
    answers come from the bottom of the list to its top. *)

From Stdlib Require Import Sorted.
From S2P Require Import Prelude JsVal Runtime ConsoleTypes ConsoleService RowDeletion Accounts Lists AccountTabs Chat.

(** ** Removing positions one after the other *)

Definition remove_all {A} (pos : list nat) (l : list A) : list A := fold_left (fun l i => splice1 i l) pos l.

(** What should be left: the elements at the other positions. *)
Definition others {A} (pos : list nat) (l : list A) : list A :=
  omap (fun i => if bool_decide (i ∈ pos) then None else l !! i) (seq 0 (length l)).

(** Natural numbers in strictly increasing order. *)
Abbreviation increasing := (StronglySorted lt).

Lemma increasing_lookup l i j x y : increasing l -> l !! i = Some x -> l !! j = Some y -> i <= j -> x + (j - i) <= y.
Proof.
  intros Hl. revert i j x. induction Hl as [|a l Hl IH Ha]; intros i j x Hi Hj Hij; [by destruct i|].
  destruct i as [|i], j as [|j]; cbn in Hi, Hj; [injection Hi as ->; injection Hj as ->; lia| |lia|].
  - injection Hi as ->. destruct l as [|b l]; [by destruct j|].
    assert (b + (j - 0) <= y) by (apply (IH 0 j b); [done|done|lia]).
    apply Forall_inv in Ha. lia.
  - specialize (IH i j x Hi Hj). lia.
Qed.

Lemma increasing_position l i x : increasing l -> l !! i = Some x -> i <= x.
Proof.
  intros Hl Hx. destruct l as [|a l]; [done|]. pose proof (increasing_lookup _ 0 i a x Hl eq_refl Hx). lia.
Qed.

(** A number that stands at its own position has all the smaller ones before it. *)
Lemma increasing_fixed l i m : increasing l -> l !! i = Some i -> m <= i -> m ∈ l.
Proof.
  intros Hl Hi Hm. destruct (lookup_lt_is_Some_2 l m) as [x Hx]; [apply lookup_lt_Some in Hi; lia|].
  pose proof (increasing_position _ _ _ Hl Hx). pose proof (increasing_lookup _ _ _ _ _ Hl Hx Hi Hm).
  assert (x = m) as -> by lia. by eapply list_elem_of_lookup_2.
Qed.

Lemma splice1_sublist {A} i (l : list A) : sublist (splice1 i l) l.
Proof. rewrite splice1_delete. apply sublist_delete. Qed.

Lemma sublist_increasing l l' : sublist l l' -> increasing l' -> increasing l.
Proof.
  induction 1 as [|x l l' Hs IH|x l l' Hs IH]; intros Hl'; [done|..]; inversion_clear Hl' as [|? ? H1 H2].
  - constructor; [by apply IH|]. apply List.Forall_forall. intros y Hy. rewrite List.Forall_forall in H2. apply H2.
    apply list_elem_of_In. eapply sublist_subseteq; [exact Hs|]. by apply list_elem_of_In.
  - by apply IH.
Qed.

Lemma increasing_splice1_gone l i x : increasing l -> l !! i = Some x -> x ∉ splice1 i l.
Proof.
  intros Hl Hx Hin. apply list_elem_of_lookup in Hin as [j Hj]. destruct (decide (j < i)) as [Hlt|Hge].
  - rewrite splice1_lookup_lt in Hj by done. pose proof (increasing_lookup _ _ _ _ _ Hl Hj Hx). lia.
  - rewrite splice1_lookup_ge in Hj by lia. pose proof (increasing_lookup _ _ _ _ _ Hl Hx Hj). lia.
Qed.

Lemma sum_splice1 l i x : l !! i = Some x -> sum_list l = x + sum_list (splice1 i l).
Proof.
  intros Hx. rewrite <- (take_drop_middle _ _ _ Hx) at 1. unfold splice1. rewrite !sum_list_with_app. cbn. lia.
Qed.

Lemma remove_all_length {A} pos (l : list A) : length l <= length (remove_all pos l) + length pos.
Proof.
  revert l. induction pos as [|i pos IH]; intros l; cbn; [lia|]. specialize (IH (splice1 i l)).
  destruct (decide (i < length l)); [rewrite splice1_length_lt in IH by done|rewrite splice1_ge in * by lia]; cbn in *; unfold remove_all in *; lia.
Qed.

(** The sum of what is left, when every position removes something. *)
Lemma remove_all_sum pos l : increasing l -> length l = length (remove_all pos l) + length pos ->
  sum_list (remove_all pos l) + sum_list pos <= sum_list l.
Proof.
  revert l. induction pos as [|i pos IH]; intros l Hl Hlen; [cbn; lia|].
  change (remove_all (i :: pos) l) with (remove_all pos (splice1 i l)) in *. cbn [length sum_list sum_list_with] in *.
  pose proof (remove_all_length pos (splice1 i l)) as Hge. destruct (decide (i < length l)) as [Hi|Hi].
  - destruct (lookup_lt_is_Some_2 _ _ Hi) as [x Hx]. rewrite (sum_splice1 l i x Hx).
    pose proof (increasing_position _ _ _ Hl Hx). rewrite splice1_length_lt in Hge by done.
    specialize (IH (splice1 i l)). rewrite splice1_length_lt in IH by done.
    assert (sum_list (remove_all pos (splice1 i l)) + sum_list pos <= sum_list (splice1 i l)); [|cbn in *; lia].
    apply IH; [by eapply sublist_increasing; [apply splice1_sublist|]|lia].
  - rewrite splice1_ge in * by lia. lia.
Qed.

(** When it is as large as it can be, every position has removed the number that it is,
    and they came in decreasing order. *)
Lemma remove_all_tight pos l : increasing l -> length l = length (remove_all pos l) + length pos ->
  sum_list (remove_all pos l) + sum_list pos = sum_list l ->
  StronglySorted gt pos /\ forall i m, i ∈ pos -> m <= i -> m ∈ l.
Proof.
  revert l. induction pos as [|i pos IH]; intros l Hl Hlen Hsum; [split; [constructor|by intros i m ?%not_elem_of_nil]|].
  change (remove_all (i :: pos) l) with (remove_all pos (splice1 i l)) in *. cbn [length] in *.
  change (sum_list (i :: pos)) with (i + sum_list pos) in *.
  pose proof (remove_all_length pos (splice1 i l)) as Hge. destruct (decide (i < length l)) as [Hi|Hi]; [|rewrite splice1_ge in * by lia; lia].
  destruct (lookup_lt_is_Some_2 _ _ Hi) as [x Hx]. rewrite (sum_splice1 l i x Hx) in Hsum.
  pose proof (increasing_position _ _ _ Hl Hx). rewrite splice1_length_lt in Hge by done.
  assert (Hl1 : increasing (splice1 i l)) by (by eapply sublist_increasing; [apply splice1_sublist|]).
  assert (Hlen1 : length (splice1 i l) = length (remove_all pos (splice1 i l)) + length pos) by (rewrite splice1_length_lt by done; lia).
  pose proof (remove_all_sum _ _ Hl1 Hlen1). assert (x = i) as -> by lia.
  destruct (IH _ Hl1 Hlen1) as [Hs Hin]; [lia|]. split.
  - constructor; [done|]. apply List.Forall_forall. intros j Hj%list_elem_of_In.
    destruct (decide (j < i)) as [Hlt|Hge']; [lia|].
    destruct (increasing_splice1_gone _ _ _ Hl Hx). apply (Hin j i Hj). lia.
  - intros j m Hj Hm. apply elem_of_cons in Hj as [->|Hj]; [by eapply increasing_fixed|].
    eapply sublist_subseteq; [apply splice1_sublist|]. by eapply Hin.
Qed.

(** ** The rows that are left *)

Lemma filter_true {A} (P : A -> Prop) `{!forall x, Decision (P x)} l : Forall P l -> base.filter P l = l.
Proof. induction 1 as [|x l Hx _ IH]; [done|]. rewrite filter_cons, decide_True by done. by f_equal. Qed.

Lemma filter_same {A} (P Q : A -> Prop) `{!forall x, Decision (P x), !forall x, Decision (Q x)} l :
  Forall (fun x => P x <-> Q x) l -> base.filter P l = base.filter Q l.
Proof.
  induction 1 as [|x l Hx _ IH]; [done|]. rewrite !filter_cons, IH. destruct (decide (P x)), (decide (Q x)); tauto.
Qed.

Lemma others_seq pos n : others pos (seq 0 n) = base.filter (fun i => i ∉ pos) (seq 0 n).
Proof.
  unfold others. rewrite length_seq.
  assert (H : forall l, Forall (fun i => i < n) l ->
    omap (fun i => if bool_decide (i ∈ pos) then None else seq 0 n !! i) l = base.filter (fun i => i ∉ pos) l).
  { induction 1 as [|i l Hi _ IH]; [done|]. cbn [omap list_omap]. rewrite filter_cons, IH. case_bool_decide as Hin.
    - by rewrite decide_False by tauto.
    - rewrite decide_True by done. by rewrite lookup_seq_lt. }
  apply H. apply Forall_seq. intros; lia.
Qed.

Lemma remove_all_fmap {A B} (f : A -> B) pos l : remove_all pos (f <$> l) = f <$> remove_all pos l.
Proof.
  revert l. induction pos as [|i pos IH]; intros l; [done|].
  change (remove_all (i :: pos) ?l) with (remove_all pos (splice1 i l)). rewrite <- IH. f_equal.
  unfold splice1. by rewrite fmap_app, fmap_take, fmap_drop.
Qed.

Lemma others_fmap {A B} (f : A -> B) pos l : others pos (f <$> l) = f <$> others pos l.
Proof.
  unfold others. rewrite length_fmap. generalize (seq 0 (length l)). induction l0 as [|i l0 IH]; [done|].
  cbn [omap list_omap]. rewrite IH. case_bool_decide; [done|]. rewrite list_lookup_fmap. by destruct (l !! i).
Qed.

Lemma remove_all_sublist {A} pos (l : list A) : sublist (remove_all pos l) l.
Proof.
  revert l. induction pos as [|i pos IH]; intros l; [done|]. etrans; [apply IH|apply splice1_sublist].
Qed.

(** Positions in decreasing order remove the elements that stand there. *)
Lemma remove_all_decreasing pos n : StronglySorted gt pos -> Forall (fun i => i < n) pos ->
  remove_all pos (seq 0 n) = others pos (seq 0 n).
Proof.
  rewrite others_seq. intros Hs.
  assert (H : forall n l', Forall (fun i => i < n) pos ->
    remove_all pos (seq 0 n ++ l') = base.filter (fun i => i ∉ pos) (seq 0 n) ++ l'); [|intros Hn; specialize (H n [] Hn); by rewrite !app_nil_r in H].
  clear n. induction Hs as [|i pos Hs IH Hi]; intros n l' Hn.
  - cbn. f_equal. apply eq_sym, filter_true, Forall_true. by intros ? ?%not_elem_of_nil.
  - inversion_clear Hn as [|? ? Hin _].
    assert (E : seq 0 n = seq 0 i ++ i :: seq (S i) (n - S i)).
    { replace n with (i + S (n - S i)) at 1 by lia. rewrite seq_app. done. }
    rewrite E, <- app_assoc. cbn [app]. change (remove_all (i :: pos) ?l) with (remove_all pos (splice1 i l)).
    pose proof (splice1_middle (seq 0 i) (seq (S i) (n - S i) ++ l') i) as Hm. rewrite length_seq in Hm. rewrite Hm, IH.
    + rewrite app_assoc. f_equal. rewrite filter_app, filter_cons, decide_False by set_solver. f_equal.
      * apply filter_same. apply Forall_seq. intros j Hj. rewrite elem_of_cons. intuition lia.
      * symmetry. apply filter_true. apply Forall_seq. intros j Hj. rewrite elem_of_cons. intros [->|Hjp]; [lia|].
        rewrite List.Forall_forall in Hi. specialize (Hi j). rewrite <- list_elem_of_In in Hi. specialize (Hi Hjp). lia.
    + eapply Forall_impl; [exact Hi|]. intros; lia.
Qed.

Lemma sum_list_permutation l l' : l ≡ₚ l' -> sum_list l = sum_list l'.
Proof. induction 1; cbn in *; lia. Qed.

Lemma increasing_seq a n : increasing (seq a n).
Proof.
  revert a. induction n as [|n IH]; intros a; [constructor|]. cbn. constructor; [apply IH|].
  apply Forall_seq. intros; lia.
Qed.

Lemma remove_all_seq_iff pos n : NoDup pos -> Forall (fun i => i < n) pos ->
  remove_all pos (seq 0 n) = others pos (seq 0 n) <-> StronglySorted gt pos.
Proof.
  intros Hnd Hn. split; [|intros Hs; by apply remove_all_decreasing]. intros E. rewrite others_seq in E.
  assert (Hp : seq 0 n ≡ₚ pos ++ base.filter (fun i => i ∉ pos) (seq 0 n)).
  { rewrite List.Forall_forall in Hn. apply NoDup_Permutation.
    - apply NoDup_seq.
    - apply NoDup_app. split_and!; [done| |by apply NoDup_filter, NoDup_seq]. intros x Hx. rewrite list_elem_of_filter. tauto.
    - intros x. rewrite elem_of_app, list_elem_of_filter, elem_of_seq. specialize (Hn x). rewrite <- list_elem_of_In in Hn.
      destruct (decide (x ∈ pos)); intuition lia. }
  rewrite <- E in Hp. pose proof (sum_list_permutation _ _ Hp) as Hsum. rewrite sum_list_with_app in Hsum.
  pose proof (Permutation_length Hp) as Hlen. rewrite length_app in Hlen.
  apply (remove_all_tight pos (seq 0 n)); [apply increasing_seq|lia|cbn in *; lia].
Qed.

(** A list without repetitions as the image of its positions. *)
Lemma list_as_positions {A} (l : list A) (d : A) : l = (fun i => nth i l d) <$> seq 0 (length l).
Proof.
  apply list_eq. intros i. rewrite list_lookup_fmap. destruct (decide (i < length l)) as [Hi|Hi].
  - rewrite lookup_seq_lt by done. cbn.
    destruct (lookup_lt_is_Some_2 _ _ Hi) as [x Hx]. by rewrite Hx, (nth_lookup_Some _ _ _ _ Hx).
  - rewrite !lookup_ge_None_2; [done|rewrite length_seq; lia|lia].
Qed.

Lemma nth_injective {A} (l : list A) d i j : NoDup l -> i < length l -> j < length l -> nth i l d = nth j l d -> i = j.
Proof.
  intros Hl Hi Hj E. destruct (lookup_lt_is_Some_2 _ _ Hi) as [x Hx], (lookup_lt_is_Some_2 _ _ Hj) as [y Hy].
  rewrite (nth_lookup_Some _ _ _ _ Hx), (nth_lookup_Some _ _ _ _ Hy) in E. subst. by eapply NoDup_lookup.
Qed.

Lemma fmap_injective_on {A B} (f : A -> B) (l l' : list A) :
  (forall x y, x ∈ l -> y ∈ l' -> f x = f y -> x = y) -> f <$> l = f <$> l' -> l = l'.
Proof.
  revert l'. induction l as [|x l IH]; intros [|y l'] Hf E; [done..|]. injection E as Ex E. f_equal.
  - apply Hf; [left|left|done].
  - apply IH; [|done]. intros a b Ha Hb. apply Hf; by right.
Qed.

(** Deletions at different positions of a list without repetitions leave the elements at
    the other positions exactly when the positions come in decreasing order. *)
Theorem remove_all_iff {A} pos (l : list A) : NoDup l -> NoDup pos -> Forall (fun i => i < length l) pos ->
  remove_all pos l = others pos l <-> StronglySorted gt pos.
Proof.
  intros Hl Hnd Hn. destruct l as [|d l'].
  { destruct pos as [|i pos]; [|by inversion_clear Hn as [|? ? Hi _]; cbn in Hi; lia]. split; [constructor|done]. }
  set (l := d :: l') in *. rewrite <- (remove_all_seq_iff pos (length l) Hnd Hn).
  assert (Hsub : forall x, x ∈ remove_all pos (seq 0 (length l)) \/ x ∈ others pos (seq 0 (length l)) -> x < length l).
  { intros x Hx. assert (Hin : x ∈ seq 0 (length l)); [|by apply elem_of_seq in Hin; lia].
    destruct Hx as [Hx|Hx]; [eapply sublist_subseteq; [apply remove_all_sublist|exact Hx]|].
    rewrite others_seq in Hx. by apply list_elem_of_filter in Hx as [_ Hx]. }
  rewrite (list_as_positions l d) at 1 2. rewrite remove_all_fmap, others_fmap. split; [|by intros ->].
  apply fmap_injective_on. intros x y Hx Hy. apply nth_injective; auto.
Qed.

(** ** Pages *)

(** The order in which the answers come: each is to one of the requests still pending. *)
Fixpoint drawn {A} (order : list nat) (l : list A) : list A :=
  match order with
  | [] => []
  | j :: order => match l !! j with Some x => x :: drawn order (splice1 j l) | None => drawn order l end
  end.

Lemma drawn_permutation {A} order (l : list A) : length (drawn order l) = length l -> drawn order l ≡ₚ l.
Proof.
  assert (Hle : forall order (l : list A), length (drawn order l) <= length l).
  { clear. induction order as [|j order IH]; intros l; cbn; [lia|]. destruct (l !! j) eqn:E; [|apply IH].
    specialize (IH (splice1 j l)). apply lookup_lt_Some in E. rewrite splice1_length_lt in IH by done. cbn. lia. }
  revert l. induction order as [|j order IH]; intros l Hlen; cbn in *; [by destruct l|].
  destruct (l !! j) as [x|] eqn:E; [|by apply IH]. cbn in Hlen. pose proof (lookup_lt_Some _ _ _ E).
  rewrite IH by (rewrite splice1_length_lt by done; lia). rewrite splice1_delete. symmetry. by apply delete_Permutation.
Qed.

Section page.
Context {S Ev K D : Type} {comp : Component S Ev K D} {R : Type} `{!RowDeletion comp R}.
Implicit Types c : config S K D.

(** The clicks on the rows [ps] and their confirmations. *)
Definition confirmed (v : jsval) (ps : list (nat * R)) c : config S K D :=
  fold_left (fun c p => exec_all c [User (del_click comp p.1 p.2); Confirm (length (c_dialogs c)) v]) ps c.

Lemma confirmed_pending v ps c : (forall r, is_Some (del_request comp (c_state c) r)) ->
  rows comp (c_state (confirmed v ps c)) = rows comp (c_state c) /\
  c_pending (confirmed v ps c) = c_pending c ++ map (fun p => del_sub comp p.1 p.2) ps.
Proof.
  revert c. induction ps as [|[i r] ps IH]; intros c Hrq; [by rewrite app_nil_r|].
  destruct (Hrq r) as [rq Hr]. destruct (delete_sent c i r v rq Hr) as (l & _ & H1 & H2 & _ & _ & H3). cbv zeta in *.
  unfold confirmed. cbn [fold_left fst snd]. set (c1 := exec_all c _) in *.
  destruct (IH c1) as [H4 H5]; [intros r'; by rewrite H3|]. unfold confirmed in *. rewrite H4, H5, H1, H2. split; [done|].
  by rewrite <- app_assoc.
Qed.

Lemma answers_remove order answer ps c : c_pending c = map (fun p => del_sub comp p.1 p.2) ps ->
  rows comp (c_state (exec_all c (map (fun j => Respond j answer) order))) =
  remove_all (map fst (drawn order ps)) (rows comp (c_state c)).
Proof.
  revert ps c. induction order as [|j order IH]; intros ps c Hp; [done|]. cbn [map drawn]. rewrite exec_all_cons.
  destruct (ps !! j) as [[i r]|] eqn:E.
  - assert (Hj : c_pending c !! j = Some (del_sub comp i r)).
    { rewrite Hp. change (map ?f ?l) with (f <$> l). by rewrite list_lookup_fmap, E. }
    destruct (delete_answered c i r j answer Hj) as (H1 & H2 & _ & _). cbv zeta in *.
    rewrite (IH (splice1 j ps)); [by rewrite H1|]. rewrite H2, Hp. unfold splice1. by rewrite map_app, firstn_map, skipn_map.
  - rewrite exec_Respond_none; [by apply IH|]. rewrite Hp. change (map ?f ?l) with (f <$> l). by rewrite list_lookup_fmap, E.
Qed.

(** Several deletions confirmed and then answered, each once, in some order: the rows that
    are left are the others exactly when the answers come from the bottom to the top. *)
Theorem deletions_right_iff c ps order v answer :
  (forall r, is_Some (del_request comp (c_state c) r)) -> c_pending c = [] ->
  NoDup (rows comp (c_state c)) -> NoDup (map fst ps) -> Forall (fun p => p.1 < length (rows comp (c_state c))) ps ->
  length (drawn order ps) = length ps ->
  rows comp (c_state (exec_all (confirmed v ps c) (map (fun j => Respond j answer) order))) =
    others (map fst ps) (rows comp (c_state c))
  <-> StronglySorted gt (map fst (drawn order ps)).
Proof.
  intros Hrq Hp Hnd Hps Hin Hlen. destruct (confirmed_pending v ps c Hrq) as [Hr Hp']. rewrite Hp in Hp'.
  rewrite (answers_remove order answer ps _ Hp'), Hr.
  pose proof (drawn_permutation order ps Hlen) as Hperm.
  assert (Hperm' : map fst (drawn order ps) ≡ₚ map fst ps) by (by rewrite Hperm).
  assert (Ho : others (map fst ps) (rows comp (c_state c)) = others (map fst (drawn order ps)) (rows comp (c_state c))).
  { unfold others. generalize (seq 0 (length (rows comp (c_state c)))). induction l as [|i l IH]; [done|].
    cbn [omap list_omap]. rewrite IH. assert (E : i ∈ map fst ps <-> i ∈ map fst (drawn order ps)) by (by rewrite Hperm').
    by rewrite (bool_decide_ext _ _ E). }
  rewrite Ho. apply remove_all_iff; [done|by rewrite Hperm'|].
  rewrite Hperm'. apply Forall_map. exact Hin.
Qed.
End page.

(** ** The property *)

(** Deletions of different rows, all confirmed before the first is answered, leave exactly
    the other rows if and only if they are answered from the bottom of the list to its top. *)
Definition right_iff_bottom_up {S Ev K D} (comp : Component S Ev K D) {R} `{!RowDeletion comp R} : Prop :=
  forall (c : config S K D) ps order v answer (l := rows comp (c_state c)),
    c_pending c = [] -> NoDup l -> NoDup (map fst ps) -> Forall (fun p => p.1 < length l) ps ->
    length (drawn order ps) = length ps ->
    rows comp (c_state (exec_all (confirmed v ps c) (map (fun j => Respond j answer) order))) =
      others (map fst ps) l
    <-> StronglySorted gt (map fst (drawn order ps)).

#[local] Existing Instance Storage.storage_rows.
#[local] Existing Instance GroupsList.group_rows.
#[local] Existing Instance Leaderboards.leaderboard_rows.
#[local] Existing Instance Records.record_rows.

(** C18: on the lists of accounts, of storage objects, of groups, of leaderboards and of their
    records and on the messages of a channel: when several deletions have been confirmed
    and are then answered, in whatever order, the page shows exactly the rows that have not
    been deleted if and only if the answers come from the bottom of the list to its top. *)
Theorem deletions_right_iff_bottom_up cp days_ago :
  right_iff_bottom_up (Accounts.page cp) /\ right_iff_bottom_up (Storage.page cp) /\
  right_iff_bottom_up (GroupsList.page cp) /\ right_iff_bottom_up (Leaderboards.page cp) /\
  right_iff_bottom_up (Records.page cp) /\ right_iff_bottom_up (Chat.page cp days_ago).
Proof.
  split_and_all; intros c ps order v answer l; apply deletions_right_iff; intros r; by eexists.
Qed.

(** Of the accounts ann, bob and carl the first two are deleted; answered in the order of
    the clicks they leave bob. *)
Lemma deletions_right_iff_bottom_up_witness :
  let cp := new_ConsoleService Und in
  let c := start three_accounts in
  let ps := [(0, ann); (1, bob)] in
  let a := answer cp empty_answer in
  let after order := accounts (c_state (exec_all (comp := Accounts.page cp) (confirmed (comp := Accounts.page cp) JUndef ps c)
                       (map (fun j => Respond (comp := Accounts.page cp) j a) order))) in
  (after [0; 0] = [carl] <-> StronglySorted gt [0; 1]) /\ (after [1; 0] = [carl] <-> StronglySorted gt [1; 0]) /\
  after [0; 0] = [bob] /\ after [1; 0] = [carl].
Proof.
  intros cp c ps a after. split_and_all; [..|reflexivity|reflexivity].
  - apply (proj1 (deletions_right_iff_bottom_up cp (fun _ => None)) c ps [0; 0] JUndef a); [reflexivity|..|reflexivity];
      apply (bool_decide_unpack _); vm_compute; exact I.
  - apply (proj1 (deletions_right_iff_bottom_up cp (fun _ => None)) c ps [1; 0] JUndef a); [reflexivity|..|reflexivity];
      apply (bool_decide_unpack _); vm_compute; exact I.
Defined.
