(* ===== verification/Departure.v ===== *)
(** * Lists that have been left

    The subscriptions of a page outlive it.  The list of accounts cancels its searches when
    it is destroyed and is silent from then on; the other lists do not, and a late answer
    writes the search of a page that is gone to the address of the page that is shown. *)

From S2P Require Import Prelude Codec JsVal Json Runtime RowDeletion Searches ConsoleTypes ConsoleService Accounts Session Recreation Lists.

(** What happens without the user, who sees another page: answers and failures, and the
    dialogs that are still open. *)
Definition unattended {S Ev K D} {comp : Component S Ev K D} (a : action S Ev K D) : bool :=
  match a with User _ => false | _ => true end.

(** Commands of the accounts list that neither search nor navigate. *)
Definition modest (x : cmd Accounts.subscription Accounts.confirmation) : bool :=
  match x with Navigate _ | Send (Accounts.Search _) _ => false | _ => true end.

Section accounts.
Context (cp : ConfigParams).
#[local] Instance this : Component Accounts.state Accounts.event Accounts.subscription Accounts.confirmation := Accounts.page cp.

Definition no_search (l : list Accounts.subscription) : Prop := List.filter Accounts.is_search l = [].

Lemma filter_rejected l : List.filter Accounts.is_search (List.filter (fun k => negb (take_until k)) l) = [].
Proof. induction l as [|[] l IH]; [done|exact IH|exact IH]. Qed.

Lemma no_search_at i l k : no_search l -> l !! i = Some k -> Accounts.is_search k = false.
Proof.
  intros Hl Hk. destruct (Accounts.is_search k) eqn:E; [|done].
  assert (Hin : List.In k (List.filter Accounts.is_search l)) by (apply List.filter_In; split; [by apply list_elem_of_In, (list_elem_of_lookup_2 _ i)|done]).
  by rewrite Hl in Hin.
Qed.

Lemma no_search_splice i l : no_search l -> no_search (splice1 i l).
Proof.
  unfold no_search, splice1. intros Hl. rewrite <- (take_drop i l), List.filter_app in Hl. apply app_eq_nil in Hl as [H1 H2].
  rewrite List.filter_app, H1. cbn. replace (S i) with (i + 1) by lia. rewrite <- drop_drop.
  destruct (drop i l) as [|x l']; [done|]. cbn in *. destruct (Accounts.is_search x); [done|]. by rewrite drop_0.
Qed.

Lemma no_search_snoc l i o : no_search l -> no_search (l ++ [Accounts.Delete i o]).
Proof. unfold no_search. intros Hl. by rewrite List.filter_app, Hl. Qed.

(** One step of a list without searches in flight. *)
Lemma unattended_step c a : unattended a = true -> no_search (c_pending c) ->
  no_search (c_pending (exec c a)) /\ exists l, c_trace (exec c a) = c_trace c ++ l /\ forallb modest l = true.
Proof.
  intros Ha Hc. assert (Hnone : exists l, c_trace c = c_trace c ++ l /\ forallb modest l = true) by (exists []; by rewrite app_nil_r).
  destruct a as [e|i f|i e|i v|i]; [done|..]; cbn [exec].
  - destruct (c_pending c !! i) as [k|] eqn:Ek; [|by split].
    pose proof (no_search_at _ _ _ Hc Ek). destruct k as [|j o]; [done|]. split; [by apply no_search_splice|].
    exists []. rewrite run_trace. by split.
  - destruct (c_pending c !! i) as [k|] eqn:Ek; [|by split].
    pose proof (no_search_at _ _ _ Hc Ek). destruct k as [|j o]; [done|]. split; [by apply no_search_splice|].
    exists []. rewrite run_trace. by split.
  - destruct (c_dialogs c !! i) as [[j o]|]; [|by split]. split; [by apply no_search_snoc|].
    exists (on_confirm (Accounts.ConfirmDelete j o) v (c_state c)).2. split; [|done].
    pose proof (run_trace (on_confirm (Accounts.ConfirmDelete j o) v) c) as Ht. cbn [exec on_confirm this Accounts.page] in *.
    by destruct (run (deleteAccount_confirmed cp j o) c) as [[] c'].
  - by split.
Qed.

(** C19: after the list of accounts has been left, whatever the server answers or refuses and
    whatever is done in the dialogs that are still open, it never searches and never
    navigates again. *)
Theorem left_accounts_silent c l (Hl : forallb unattended l = true) :
  let c1 := exec c (User Accounts.Destroy) in
  let c2 := exec_all c1 l in
  no_search (c_pending c2) /\ exists t, c_trace c2 = c_trace c1 ++ t /\ forallb modest t = true.
Proof.
  cbv zeta. assert (H0 : no_search (c_pending (exec c (User Accounts.Destroy)))).
  { unfold no_search. cbn. apply filter_rejected. }
  revert H0. generalize (exec c (User Accounts.Destroy)). clear c.
  induction l as [|a l IH]; intros c Hc; [split; [done|]; exists []; by rewrite app_nil_r|].
  cbn in Hl. apply andb_true_iff in Hl as [Ha Hl]. destruct (unattended_step c a Ha Hc) as (Hc' & t & Ht & Hm).
  rewrite exec_all_cons. destruct (IH Hl _ Hc') as (Hn & t' & Ht' & Hm'). split; [done|].
  exists (t ++ t'). rewrite Ht', Ht, forallb_app, Hm, Hm'. by rewrite app_assoc.
Qed.
End accounts.

(** The list of storage objects, opened at an address with a cursor. *)
Lemma storage_opened cp qp sd cur :
  qp_get "cursor" qp = Val cur -> cur <> "" ->
  requests_of (c_trace (exec (comp := Storage.page cp) (start Storage.new_state) (User (Storage.Init qp sd)))) =
    [listStorage cp "" (qp_get "user_id" qp) (qp_get "key" qp) (qp_get "collection" qp) (Val cur)].
Proof.
  intros E Hne. assert (Ht : truthy_string cur = true) by (unfold truthy_string; by rewrite (proj2 (String.eqb_neq cur ""))).
  cbn [exec]. rewrite run_trace. cbn [on_event Storage.page c_trace start app c_state].
  unfold Storage.ngOnInit. run_m. cbn -[qp_get listStorage Storage.route_data truthy_str]. rewrite E.
  cbn -[qp_get listStorage Storage.route_data]. rewrite Ht. unfold Storage.route_data.
  destruct sd as [[[| |cs]] [nc [| |obs] tot]]; reflexivity.
Qed.

(** An answer to a search of groups, of which the user has asked for the page at [cur], and
    who now looks at the list of storage objects: the answer writes the filter and the
    cursor of the groups to the address, and when the page is loaded again, storage is
    asked for the objects after the cursor of the groups.  A navigation without segments
    keeps the path that is shown, as the router of Angular 15 does, whichever route it is
    relative to. *)
Theorem late_answer_rewrites_address cp c i cur (answer : forall k, resp (Component := GroupsList.page cp) k) l (qp : query_params) sd
    (Hi : c_pending c !! i = Some (GroupsList.Search (Val cur))) (Hne : cur <> "")
    (Hd : GroupList_groups (answer (GroupsList.Search (Val cur))) = Val l) :
  exists n, let qp' := merge_params n qp in
    c_trace (exec (comp := GroupsList.page cp) c (Respond (comp := GroupsList.page cp) i answer)) = c_trace c ++ [Navigate n] /\
    qp_get "cursor" qp' = Val cur /\
    requests_of (c_trace (exec (comp := Storage.page cp) (start Storage.new_state) (User (Storage.Init qp' sd)))) =
      [listStorage cp "" (qp_get "user_id" qp') (qp_get "key" qp') (qp_get "collection" qp') (Val cur)].
Proof.
  assert (Hcur : forall f, qp_get "cursor" (merge_params (merge_query [("filter", f); ("cursor", JStr cur)]) qp) = Val cur).
  { intros f. unfold merge_params, merge_query, qp_get. cbn -[String_]. by rewrite lookup_insert_eq. }
  exists (merge_query [("filter", of_opt (GroupsList.filter (c_state c))); ("cursor", JStr cur)]). cbv zeta. split_and_all.
  - cbn [exec]. rewrite Hi, run_trace. cbn [on_next GroupsList.page drop_pending c_trace c_state].
    destruct (answer _) as [gs cur' tot]. cbn in Hd. subst gs. by destruct (c_state c).
  - apply Hcur.
  - by apply storage_opened.
Qed.

Lemma late_answer_rewrites_address_witness :
  let cp := new_ConsoleService Und in
  let c := start (K := GroupsList.subscription) (D := GroupsList.confirmation) GroupsList.new_state in
  let asked := exec (comp := GroupsList.page cp) c (User (GroupsList.Init {["filter" := "clan"; "cursor" := "n"]} Nul)) in
  exists n, let qp' := merge_params n {["collection" := "saves"]} in
    c_trace (exec (comp := GroupsList.page cp) asked (Respond (comp := GroupsList.page cp) 0 (fun k =>
        match k return resp (Component := GroupsList.page cp) k with
        | GroupsList.Search _ => mkGroupList (Val []) Und Und
        | GroupsList.Delete _ _ => JUndef
        end))) = c_trace asked ++ [Navigate n] /\
    qp_get "cursor" qp' = Val "n" /\
    requests_of (c_trace (exec (comp := Storage.page cp) (start Storage.new_state)
        (User (Storage.Init qp' (mkStorageCollectionsList (Val []), mkStorageList Und (Val []) Und))))) =
      [listStorage cp "" (qp_get "user_id" qp') (qp_get "key" qp') (qp_get "collection" qp') (Val "n")].
Proof.
  intros cp c asked. eapply (late_answer_rewrites_address cp asked 0 "n"); [reflexivity|discriminate|reflexivity].
Defined.

Lemma left_accounts_silent_witness :
  let cp := new_ConsoleService Und in
  let c := exec_all (comp := Accounts.page cp) (start Accounts.new_state)
    [User (Accounts.DeleteClick 0 ann); User (Accounts.SearchClick 0)] in
  let l := [Respond (comp := Accounts.page cp) 0 (answer cp empty_answer); Confirm 0 JUndef; Respond (comp := Accounts.page cp) 0 (answer cp empty_answer)] in
  let c1 := exec (comp := Accounts.page cp) c (User Accounts.Destroy) in
  let c2 := exec_all (comp := Accounts.page cp) c1 l in
  length (c_pending c) = 1 /\ no_search (c_pending c2) /\ exists t, c_trace c2 = c_trace c1 ++ t /\ forallb modest t = true.
Proof.
  intros cp c l c1 c2. split; [reflexivity|]. by apply (left_accounts_silent cp c l).
Defined.
