(* ===== verification/Collectibles.v ===== *)
(** * The dialogs of a collection

    - [CreateNft]: [ModalCreateNftComponent]
      ([components/collection/modalCreateNft/modal-create-nft.component.ts])
    - [UpdateNft]: [ModalUpdateNftComponent]
      ([components/collection/modalUpdateNft/modal-update-nft.component.ts])
    - [LinkContract]: [ModalLinkContractComponent]
      ([components/collection/modalLinkContract/modal-link-contract.component.ts])

    The page that opens a dialog sets its inputs, which the dialog never changes; a dialog
    that has succeeded closes itself and emits its output. *)

From S2P Require Import Prelude Codec JsVal Json Runtime ConsoleTypes Session LayergPortal Forms ImageUpload Collections.

(** [v.toString()] *)
Definition toString {S C} (v : jsval) : M S C string :=
  match v with
  | JUndef => throw (TypeError "Cannot read properties of undefined (reading 'toString')")
  | JNull => throw (TypeError "Cannot read properties of null (reading 'toString')")
  | _ => ret (String_ v)
  end.

(** ** The rows of attributes, which two dialogs share

    [checked] tells whether both fields of a row are required. *)
Record attribute := mkRow { trait_type : jsval; attr_value : jsval; checked : bool }.

Definition empty_row (checked : bool) : attribute := mkRow (JStr "") (JStr "") checked.

Definition row_valid `{!Validators} (a : attribute) : bool :=
  negb (checked a) || (required (trait_type a) && required (attr_value a)).

Definition row_json (a : attribute) : jsval := JObj [("trait_type", trait_type a); ("value", attr_value a)].
Definition attributes_json (l : list attribute) : jsval := JArr (map row_json l).

Definition type_trait (i : nat) (v : string) (l : list attribute) : list attribute :=
  alter (fun a => mkRow (JStr v) (attr_value a) (checked a)) i l.
Definition type_value (i : nat) (v : string) (l : list attribute) : list attribute :=
  alter (fun a => mkRow (trait_type a) (JStr v) (checked a)) i l.

(** The form of a collectible. *)
Record form := mkForm {
  name : jsval;
  description : jsval;
  tokenId : jsval;
  quantity : jsval;
  attributes : list attribute
}.

#[export] Instance eta_form : Eta form := fun s =>
  mkForm (name s) (description s) (tokenId s) (quantity s) (attributes s).

(** What the user does in either dialog. *)
Inductive event :=
| Init
| TypeName (v : string)
| TypeDescription (v : string)
| TypeToken (v : option num)
| TypeQuantity (v : option num)
| TypeTrait (i : nat) (v : string)
| TypeValue (i : nat) (v : string)
| AddAttribute
| RemoveAttribute (i : nat)
| ChooseFile (files : list string)
| FileRead (i : nat) (result : string)
| Submit.

Definition metadata_json (l : list attribute) : jsval :=
  JObj [("metadata", JObj [("attributes", attributes_json l)])].

Module CreateNft.

Record state := mkState {
  error : jsval;
  image : ImageUpload.state;
  collectibleForm : form
}.

#[export] Instance eta_state : Eta state := fun s => mkState (error s) (image s) (collectibleForm s).

Definition empty_form : form := mkForm (JStr "") (JStr "") (JStr "") (JStr "") [empty_row false].
Definition new_state : state := mkState (JStr "") no_image (mkForm JUndef JUndef JUndef JUndef []).

Inductive subscription := Upload | Create.
Definition answer_of (k : subscription) : Type := match k with Upload => fileHashes | Create => jsval end.

Section validated.
Context {validators : Validators}.

Section create.
Context (portal : LayergPortalConfig) (ls : gmap string string) (collectionData : opt CollectionItem).

Abbreviation H := (M state (cmd subscription Empty_set)).

Definition ngOnInit : H unit :=
  collectibleForm <~ empty_form;;
  zoom image (avatarUrl <~ JStr "").

Definition collectibleForm_valid (s : state) : bool :=
  let f := collectibleForm s in
  required (name f) && maxLength 500 (description f) && required (avatarUrl (image s)) && required (quantity f) &&
  forallb row_valid (attributes f).

Definition addAttribute : H unit :=
  zoom collectibleForm (l ← gets attributes; attributes <~ (l ++ [empty_row true])).
Definition removeAttribute (index : nat) : H unit :=
  zoom collectibleForm (l ← gets attributes; attributes <~ splice1 index l).

Definition onFileSelected (files : list string) : H unit := zoom image (ImageUpload.onFileSelected portal ls Upload files).
Definition onload (i : nat) (result : string) : H unit := zoom image (ImageUpload.onload i result).
Definition uploadImage_next (h : fileHashes) : H unit := zoom image (upload_next portal h).
Definition uploadImage_error : H unit := zoom image upload_error.

Definition createCollectible : H unit :=
  try_catch (
    error <~ JStr "";;
    valid ← gets collectibleForm_valid;
    when valid (
      f ← gets collectibleForm;
      a ← gets (fun s => avatarUrl (image s));
      c ← force "Cannot read properties of undefined (reading 'id')" collectionData;
      q ← toString (quantity f);
      t ← toString (tokenId f);
      portal_send Create (createCollectibleNft portal ls
        (JObj ([("name", name f); ("description", description f); ("avatarUrl", a);
                ("collectionId", of_opt (CollectionItem_id c)); ("quantity", JStr q);
                ("metadata", metadata_json (attributes f)); ("media", JObj [("IPFSUrl", a)])] ++
               (if truthy_string t then [("tokenId", JStr t)] else []))))))
    (fun e => error <~ e).

Definition createCollectible_next : H unit := emit CloseModal;; emit (Output "collectibleCreated").

#[export] Instance page : Component state event subscription Empty_set := {
  resp := answer_of;
  on_event e :=
    match e with
    | Init => ngOnInit
    | TypeName v => zoom collectibleForm (name <~ JStr v)
    | TypeDescription v => zoom collectibleForm (description <~ JStr v)
    | TypeToken v => zoom collectibleForm (tokenId <~ number_input v)
    | TypeQuantity v => zoom collectibleForm (quantity <~ number_input v)
    | TypeTrait i v => zoom collectibleForm (l ← gets attributes; attributes <~ type_trait i v l)
    | TypeValue i v => zoom collectibleForm (l ← gets attributes; attributes <~ type_value i v l)
    | AddAttribute => addAttribute
    | RemoveAttribute i => removeAttribute i
    | ChooseFile files => onFileSelected files
    | FileRead i result => onload i result
    | Submit => createCollectible
    end;
  on_next k := match k with Upload => uploadImage_next | Create => fun _ => createCollectible_next end;
  on_error k err := match k with Upload => uploadImage_error | Create => error <~ err end;
  on_confirm d := match d with end;
  take_until _ := false
}.
End create.

(** Runs a handler on an explicit state; the record is computed once per assignment. *)
Ltac run_state :=
  cbv beta iota zeta delta [when force subscriber try_catch mbind M_bind bind mret M_ret ret throw gets assign emit zoom
    portal_send or_throw setf fst snd error image collectibleForm name description tokenId quantity attributes
    ImageUpload.selectedFile ImageUpload.imagePreview ImageUpload.avatarUrl ImageUpload.reading].

(** What is sent for a form, with the text of its token identifier. *)
Definition nft_body (s : state) (c : CollectionItem) (q t : string) : jsval :=
  let f := collectibleForm s in
  JObj ([("name", name f); ("description", description f); ("avatarUrl", avatarUrl (image s));
         ("collectionId", of_opt (CollectionItem_id c)); ("quantity", JStr q);
         ("metadata", metadata_json (attributes f)); ("media", JObj [("IPFSUrl", avatarUrl (image s))])] ++
        (if truthy_string t then [("tokenId", JStr t)] else [])).

Lemma createCollectible_valid {portal ls c token s} q
    (Hv : collectibleForm_valid s = true) (Hq : quantity (collectibleForm s) = JNum q)
    (Ht : read_item "accessToken" ls = Some token) :
  createCollectible portal ls (Val c) s =
    match tokenId (collectibleForm s) with
    | JUndef => (Ret tt, setf (f := error) (fun _ => TypeError "Cannot read properties of undefined (reading 'toString')") s, [])
    | JNull => (Ret tt, setf (f := error) (fun _ => TypeError "Cannot read properties of null (reading 'toString')") s, [])
    | t => (Ret tt, setf (f := error) (fun _ => JStr "") s,
        [Send Create (mkRequest POST (url_of portal "/assets/create") (JsonBody (nft_body s c (string_of_num q) (String_ t))) []
           {["Authorization" := "Bearer " +:+ String_ (jchain "accessToken" token)]})])
    end.
Proof.
  unfold createCollectible, createCollectibleNft, portal_post, portal_headers, nft_body. rewrite Ht.
  change (collectibleForm_valid s) with (collectibleForm_valid (setf (f := error) (fun _ => JStr "") s)) in Hv.
  destruct s as [e [sel prev av rd] [n d t qu l]]. cbn in Hq. subst qu. run_state. unfold setf in Hv. cbn in Hv.
  cbv [collectibleForm_valid] in *. cbn in Hv |- *. rewrite Hv. destruct t; reflexivity.
Qed.

Definition body_field (r : request) (k : string) : option jsval :=
  match req_body r with JsonBody (JObj l) => assoc k l | _ => None end.

(** The state after the user has typed into the field of the token identifier. *)
Definition with_token (t : jsval) (s : state) : state :=
  let f := collectibleForm s in
  mkState (error s) (image s) (mkForm (name f) (description f) t (quantity f) (attributes f)).

Lemma type_token_spec portal ls c v s :
  on_event (Component := page portal ls c) (TypeToken v) s = (Ret tt, with_token (number_input v) s, []).
Proof. by destruct s as [e im [n d t q l]]. Qed.

(** Creating a collectible from a valid form: with the optional field of the token
    identifier untouched, the request names no identifier; with a number in it, it names
    the number; but once the user has typed a number and removed it again, nothing is sent
    and the page shows a TypeError, because an emptied number field is null. *)
Theorem cleared_token_blocks_creation portal ls c s q token n
    (Hv : collectibleForm_valid s = true) (Hq : quantity (collectibleForm s) = JNum q)
    (Ht : read_item "accessToken" ls = Some token) :
  let after l := exec_all (comp := page portal ls (Val c)) (start s) l in
  (tokenId (collectibleForm s) = JStr "" ->
     exists r, c_trace (after [User Submit]) = [Send Create r] /\ body_field r "tokenId" = None) /\
  (exists r, c_trace (after [User (TypeToken (Some n)); User Submit]) = [Send Create r] /\
     body_field r "tokenId" = Some (JStr (string_of_num n))) /\
  (let c' := after [User (TypeToken (Some n)); User (TypeToken None); User Submit] in
   c_trace c' = [] /\ error (c_state c') = TypeError "Cannot read properties of null (reading 'toString')").
Proof.
  assert (Hw : forall t, collectibleForm_valid (with_token t s) = true) by (intros t; by destruct s as [? ? []]).
  assert (Hwq : forall t, quantity (collectibleForm (with_token t s)) = JNum q) by (intros t; by destruct s as [? ? []]).
  cbv zeta. split_and_all.
  - intros E. pose proof (createCollectible_valid (portal := portal) (c := c) q Hv Hq Ht) as Es. rewrite E in Es.
    user_step by Es. eexists. split; [reflexivity|]. by destruct s as [? ? []].
  - user_step by type_token_spec.
    pose proof (createCollectible_valid (portal := portal) (c := c) q (Hw (JNum n)) (Hwq _) Ht) as Es.
    user_step by Es. eexists. split; [reflexivity|].
    unfold body_field, nft_body. cbn. by rewrite string_of_num_truthy.
  - user_step by type_token_spec. user_step by type_token_spec.
    pose proof (createCollectible_valid (portal := portal) (c := c) q (Hw JNull) (Hwq _) Ht) as Es.
    user_step by Es. done.
  - user_step by type_token_spec. user_step by type_token_spec.
    pose proof (createCollectible_valid (portal := portal) (c := c) q (Hw JNull) (Hwq _) Ht) as Es.
    user_step by Es. done.
Qed.
End validated.
End CreateNft.

Module UpdateNft.

Record state := mkState {
  error : jsval;
  image : ImageUpload.state;
  collectibleForm : form;
  item : opt ICollectibleItem
}.

#[export] Instance eta_state : Eta state := fun s => mkState (error s) (image s) (collectibleForm s) (item s).

Definition empty_form : form := mkForm (JStr "") (JStr "") (JStr "") (JStr "0") [empty_row false].
Definition new_state : state := mkState (JStr "") no_image (mkForm JUndef JUndef JUndef JUndef []) Und.

Inductive subscription := Detail | Upload | Update.
Definition answer_of (k : subscription) : Type :=
  match k with Detail => ICollectibleItem | Upload => fileHashes | Update => jsval end.

Section validated.
Context {validators : Validators}.

Section update.
Context (portal : LayergPortalConfig) (ls : gmap string string).
Context (collectionData : opt CollectionItem) (collectibleData : opt ICollectibleItem).

Abbreviation H := (M state (cmd subscription Empty_set)).

(** [`${this.collectionData?.id}/${this.collectibleData?.id}`] *)
Definition nft_id : string :=
  js_String (chain collectionData CollectionItem_id) +:+ "/" +:+ js_String (chain collectibleData CollectibleItem_id).

Definition handleDetail : H unit :=
  try_catch (
    error <~ JStr "";;
    portal_send Detail (detailCollectible portal ls (Val nft_id)))
    (fun e => error <~ e).

Definition row_of (a : Attribute) : attribute :=
  let control v := match v with Val s => JStr s | _ => JNull end in
  mkRow (control (Attribute_trait_type a)) (control (Attribute_value a)) true.

Definition handleDetail_next (d : ICollectibleItem) : H unit :=
  zoom collectibleForm (
    name <~ of_opt (CollectibleItem_name d);;
    description <~ of_opt (CollectibleItem_description d);;
    tokenId <~ of_opt (CollectibleItem_tokenId d);;
    quantity <~ of_opt_num (CollectibleItem_quantity d));;
  m ← force "Cannot read properties of undefined (reading 'IPFSUrl')" (CollectibleItem_media d);
  let url := jor (Media_IPFSUrl m) (of_opt (Media_S3Url m)) in
  zoom image (imagePreview <~ url;; avatarUrl <~ url);;
  zoom collectibleForm (attributes <~ []);;
  md ← force "Cannot read properties of undefined (reading 'metadata')" (CollectibleItem_metadata d);
  md ← force "Cannot read properties of undefined (reading 'attributes')" (CollectibleMetadata_metadata md);
  l ← force "Cannot read properties of undefined (reading 'forEach')" (Metadata_attributes md);
  zoom collectibleForm (attributes <~ map row_of l);;
  item <~ Val d.

Definition ngOnInit : H unit :=
  handleDetail;;
  collectibleForm <~ empty_form;;
  zoom image (avatarUrl <~ JStr "").

Definition collectibleForm_valid (s : state) : bool :=
  let f := collectibleForm s in
  required (name f) && maxLength 500 (description f) && required (tokenId f) && required (avatarUrl (image s)) &&
  required (quantity f) && forallb row_valid (attributes f).

Definition addAttribute : H unit :=
  zoom collectibleForm (l ← gets attributes; attributes <~ (l ++ [empty_row true])).
Definition removeAttribute (index : nat) : H unit :=
  zoom collectibleForm (l ← gets attributes; attributes <~ splice1 index l).

Definition onFileSelected (files : list string) : H unit := zoom image (ImageUpload.onFileSelected portal ls Upload files).
Definition onload (i : nat) (result : string) : H unit := zoom image (ImageUpload.onload i result).
Definition uploadImage_next (h : fileHashes) : H unit := zoom image (upload_next portal h).
Definition uploadImage_error : H unit := zoom image upload_error.

Definition updateCollectible : H unit :=
  try_catch (
    error <~ JStr "";;
    valid ← gets collectibleForm_valid;
    when valid (
      f ← gets collectibleForm;
      a ← gets (fun s => avatarUrl (image s));
      t ← toString (tokenId f);
      c ← force "Cannot read properties of undefined (reading 'id')" collectionData;
      q ← toString (quantity f);
      portal_send Update (updateCollectibleNft portal ls (Val nft_id)
        (JObj [("name", name f); ("description", description f); ("avatarUrl", a); ("tokenId", JStr t);
               ("collectionId", of_opt (CollectionItem_id c)); ("quantity", JStr q);
               ("metadata", metadata_json (attributes f)); ("media", JObj [("IPFSUrl", a)])]))))
    (fun e => error <~ e).

Definition updateCollectible_next : H unit := emit CloseModal;; emit (Output "collectibleUpdated").

#[export] Instance page : Component state event subscription Empty_set := {
  resp := answer_of;
  on_event e :=
    match e with
    | Init => ngOnInit
    | TypeName v => zoom collectibleForm (name <~ JStr v)
    | TypeDescription v => zoom collectibleForm (description <~ JStr v)
    | TypeToken v => zoom collectibleForm (tokenId <~ number_input v)
    | TypeQuantity v => zoom collectibleForm (quantity <~ number_input v)
    | TypeTrait i v => zoom collectibleForm (l ← gets attributes; attributes <~ type_trait i v l)
    | TypeValue i v => zoom collectibleForm (l ← gets attributes; attributes <~ type_value i v l)
    | AddAttribute => addAttribute
    | RemoveAttribute i => removeAttribute i
    | ChooseFile files => onFileSelected files
    | FileRead i result => onload i result
    | Submit => updateCollectible
    end;
  on_next k :=
    match k with Detail => handleDetail_next | Upload => uploadImage_next | Update => fun _ => updateCollectible_next end;
  on_error k err := match k with Upload => uploadImage_error | _ => error <~ err end;
  on_confirm d := match d with end;
  take_until _ := false
}.
End update.

(** Runs a handler on an explicit state; the record is computed once per assignment. *)
Ltac run_state :=
  cbv beta iota zeta delta [when force subscriber try_catch mbind M_bind bind mret M_ret ret throw gets assign emit zoom
    portal_send or_throw setf fst snd error image collectibleForm item name description tokenId quantity attributes
    ImageUpload.selectedFile ImageUpload.imagePreview ImageUpload.avatarUrl ImageUpload.reading].

(** An answer of the portal about the item. *)
Definition answer portal ls c i (d : ICollectibleItem) : forall k, resp (Component := page portal ls c i) k :=
  fun k => match k with Detail => d | Upload => Hashes [] | Update => JNull end.

(** The form that an item fills in. *)
Definition form_of (d : ICollectibleItem) (l : list Attribute) : form :=
  mkForm (of_opt (CollectibleItem_name d)) (of_opt (CollectibleItem_description d)) (of_opt (CollectibleItem_tokenId d))
    (of_opt_num (CollectibleItem_quantity d)) (map row_of l).

Definition nft_url (m : Media) : jsval := jor (Media_IPFSUrl m) (of_opt (Media_S3Url m)).

Lemma handleDetail_next_spec d m md mm l s
    (Hm : CollectibleItem_media d = Val m) (Hmd : CollectibleItem_metadata d = Val md)
    (Hmm : CollectibleMetadata_metadata md = Val mm) (Hl : Metadata_attributes mm = Val l) :
  handleDetail_next d s =
    (Ret tt, mkState (error s) (mkImage (selectedFile (image s)) (nft_url m) (nft_url m) (reading (image s))) (form_of d l) (Val d), []).
Proof.
  destruct s as [e [sel prev av rd] [n de t q at_] it]. unfold handleDetail_next. rewrite Hm. run_state.
  rewrite Hmd. run_state. rewrite Hmm. run_state. rewrite Hl. reflexivity.
Qed.

Lemma init_spec portal ls c i token s : read_item "accessToken" ls = Some token ->
  ngOnInit portal ls c i s =
    (Ret tt, mkState (JStr "") (mkImage (selectedFile (image s)) (imagePreview (image s)) (JStr "") (reading (image s))) empty_form (item s),
     [Send Detail (mkRequest GET (url_of portal ("/assets/" +:+ nft_id c i)) NoBody []
        {["Authorization" := "Bearer " +:+ String_ (jchain "accessToken" token)]})]).
Proof.
  intros Ht. unfold ngOnInit, handleDetail, detailCollectible, portal_get, portal_headers. rewrite Ht.
  by destruct s as [e [sel prev av rd] f it].
Qed.

Lemma updateCollectible_spec portal ls c i token s q :
  quantity (collectibleForm s) = JNum q -> read_item "accessToken" ls = Some token -> tokenId (collectibleForm s) <> JNull ->
  tokenId (collectibleForm s) <> JUndef ->
  let s' := mkState (JStr "") (image s) (collectibleForm s) (item s) in
  let f := collectibleForm s in
  updateCollectible portal ls (Val c) i s =
    (Ret tt, s', if collectibleForm_valid s then
       [Send Update (mkRequest PUT (url_of portal ("/assets/" +:+ nft_id (Val c) i))
          (JsonBody (JObj [("name", name f); ("description", description f); ("avatarUrl", avatarUrl (image s));
             ("tokenId", JStr (String_ (tokenId f))); ("collectionId", of_opt (CollectionItem_id c));
             ("quantity", JStr (string_of_num q)); ("metadata", metadata_json (attributes f));
             ("media", JObj [("IPFSUrl", avatarUrl (image s))])])) []
          {["Authorization" := "Bearer " +:+ String_ (jchain "accessToken" token)]})]
     else []).
Proof.
  intros Hq Ht H1 H2. unfold updateCollectible, updateCollectibleNft, portal_put, portal_headers. rewrite Ht.
  change (collectibleForm_valid s) with (collectibleForm_valid (setf (f := error) (fun _ => JStr "") s)).
  destruct s as [e [sel prev av rd] [n d t qu l] it]. cbn in Hq, H1, H2. subst qu. run_state.
  destruct (collectibleForm_valid _); run_state; [|done]. by destruct t.
Qed.

(** An attribute both of whose fields are texts that are not empty, and what is sent for it. *)
Definition complete (a : Attribute) : bool := truthy_str (Attribute_trait_type a) && truthy_str (Attribute_value a).
Definition attribute_json (a : Attribute) : jsval :=
  JObj [("trait_type", of_opt (Attribute_trait_type a)); ("value", of_opt (Attribute_value a))].

Lemma row_valid_of a : row_valid (row_of a) = complete a.
Proof.
  destruct a as [[| |v] [| |t]]; unfold row_valid, complete, row_of; cbn [checked trait_type attr_value negb orb Attribute_value Attribute_trait_type];
    by rewrite ?required_null, ?required_text.
Qed.

Lemma rows_valid_of l : forallb row_valid (map row_of l) = forallb complete l.
Proof. induction l as [|a l IH]; [done|]. cbn [map forallb]. by rewrite row_valid_of, IH. Qed.

Lemma rows_json_of l : forallb complete l = true -> attributes_json (map row_of l) = JArr (map attribute_json l).
Proof.
  intros H. unfold attributes_json. f_equal. induction l as [|a l IH]; [done|]. cbn [map forallb] in *.
  apply andb_true_iff in H as [Ha Hl]. rewrite (IH Hl). f_equal.
  apply andb_true_iff in Ha as [H1 H2]. by destruct a as [[| |v] [| |t]].
Qed.

(** What the update of an unedited item sends. *)
Definition item_json (c : CollectionItem) (d : ICollectibleItem) (n t u : string) (q : num) (l : list Attribute) : jsval :=
  JObj [("name", JStr n); ("description", of_opt (CollectibleItem_description d)); ("avatarUrl", JStr u);
        ("tokenId", JStr t); ("collectionId", of_opt (CollectionItem_id c)); ("quantity", JStr (string_of_num q));
        ("metadata", JObj [("metadata", JObj [("attributes", JArr (map attribute_json l))])]);
        ("media", JObj [("IPFSUrl", JStr u)])].

Section unedited.
Context (portal : LayergPortalConfig) (ls : gmap string string) (token : jsval).
Context (c : CollectionItem) (i : opt ICollectibleItem) (d : ICollectibleItem).
Context (n t u : string) (q : num) (m : Media) (md : CollectibleMetadata) (mm : Metadata) (l : list Attribute).
#[local] Instance this : Component state event subscription Empty_set := page portal ls (Val c) i.
Implicit Types cf : config state subscription Empty_set.

Lemma opened_item s :
  read_item "accessToken" ls = Some token -> CollectibleItem_media d = Val m -> nft_url m = JStr u ->
  CollectibleItem_metadata d = Val md -> CollectibleMetadata_metadata md = Val mm -> Metadata_attributes mm = Val l ->
  exists r, exec_all (start s) [User Init; Respond 0 (answer portal ls (Val c) i d)] =
    mkMachine (mkState (JStr "") (mkImage (selectedFile (image s)) (JStr u) (JStr u) (reading (image s))) (form_of d l) (Val d)) [] []
      [Send Detail r].
Proof.
  intros Ht Hm Hu Hmd Hmm Hl. eexists. user_step by (init_spec portal ls (Val c) i token s Ht).
  respond_step by (handleDetail_next_spec d m md mm l _ Hm Hmd Hmm Hl). by rewrite Hu.
Qed.

(** The item opened and sent back: nothing is sent exactly when an attribute is incomplete. *)
Lemma opened_and_sent tk :
  read_item "accessToken" ls = Some token -> CollectibleItem_media d = Val m -> nft_url m = JStr u ->
  CollectibleItem_metadata d = Val md -> CollectibleMetadata_metadata md = Val mm -> Metadata_attributes mm = Val l ->
  CollectibleItem_tokenId d = Val tk -> CollectibleItem_quantity d = Val q ->
  exists r0 r, let s := mkState (JStr "") (mkImage None (JStr u) (JStr u) []) (form_of d l) (Val d) in
    let c' := exec_all (start new_state) [User Init; Respond 0 (answer portal ls (Val c) i d); User Submit] in
    c_state c' = s /\
    c_trace c' = Send Detail r0 :: (if collectibleForm_valid s then [Send Update r] else []) /\
    req_method r = PUT /\ req_url r = url_of portal ("/assets/" +:+ nft_id (Val c) i) /\
    (forallb complete l = true -> req_body r = JsonBody (JObj
      [("name", of_opt (CollectibleItem_name d)); ("description", of_opt (CollectibleItem_description d)); ("avatarUrl", JStr u);
        ("tokenId", JStr tk); ("collectionId", of_opt (CollectionItem_id c)); ("quantity", JStr (string_of_num q));
        ("metadata", JObj [("metadata", JObj [("attributes", JArr (map attribute_json l))])]);
        ("media", JObj [("IPFSUrl", JStr u)])])).
Proof.
  intros Ht Hm Hu Hmd Hmm Hl Htk Hq. destruct (opened_item new_state Ht Hm Hu Hmd Hmm Hl) as [r0 E].
  eexists r0, _. cbv zeta. change (exec_all ?c0 [?a; ?b; ?x]) with (exec (exec_all c0 [a; b]) x). rewrite E.
  erewrite exec_User.
  2: { cbn [on_event page c_state this]. apply (updateCollectible_spec portal ls c i token _ q); [|done|..];
       unfold form_of; cbn [collectibleForm quantity tokenId]; rewrite ?Hq, ?Htk; done. }
  rewrite absorb_state, absorb_trace. cbn [new_state image no_image selectedFile reading c_state c_trace collectibleForm item].
  split; [done|]. split; [reflexivity|]. split_and_all; [done..|]. intros Hc.
  unfold metadata_json, form_of. cbn [req_body name description tokenId quantity attributes avatarUrl]. by rewrite rows_json_of, Htk.
Qed.

Lemma opened_valid tk s : nft_url m = JStr u -> u <> "" -> CollectibleItem_tokenId d = Val tk -> tk <> "" ->
  CollectibleItem_quantity d = Val q -> CollectibleItem_name d = Val n -> n <> "" ->
  maxLength 500 (of_opt (CollectibleItem_description d)) = true ->
  image s = mkImage None (JStr u) (JStr u) [] -> collectibleForm s = form_of d l ->
  collectibleForm_valid s = forallb complete l.
Proof.
  intros Hu Hu' Htk Htk' Hq Hn Hn' Hdesc Ei Ef. unfold collectibleForm_valid. rewrite Ei, Ef. unfold form_of.
  cbn [name description tokenId quantity attributes avatarUrl]. rewrite rows_valid_of, Hn, Htk, Hq, Hdesc. cbn [of_opt of_opt_num].
  by rewrite !required_nonempty, required_number by done.
Qed.
End unedited.

(** C27: an update that edits nothing loses nothing: when the dialog has been opened on an
    item with a name, an identifier and an image, and Update is pressed, the request
    carries the item's name, description, identifier, quantity and attributes as they were
    received, with the collection and the address of the image, and goes to the item; but
    if any attribute lacks its type or its value, nothing is sent and no error is shown. *)
Theorem unedited_update portal ls token c i d n t u q m md mm l
    (Ht : read_item "accessToken" ls = Some token)
    (Hn : CollectibleItem_name d = Val n) (Htk : CollectibleItem_tokenId d = Val t) (Hq : CollectibleItem_quantity d = Val q)
    (Hm : CollectibleItem_media d = Val m) (Hu : nft_url m = JStr u) (Hmd : CollectibleItem_metadata d = Val md)
    (Hmm : CollectibleMetadata_metadata md = Val mm) (Hl : Metadata_attributes mm = Val l)
    (Hdesc : maxLength 500 (of_opt (CollectibleItem_description d)) = true) (Hne : n <> "" /\ t <> "" /\ u <> "") :
  let c' := exec_all (comp := page portal ls (Val c) i) (start new_state)
    [User Init; Respond 0 (answer portal ls (Val c) i d); User Submit] in
  error (c_state c') = JStr "" /\
  exists r0, if forallb complete l
    then exists r, c_trace c' = [Send Detail r0; Send Update r] /\
      req_method r = PUT /\ req_url r = url_of portal ("/assets/" +:+ nft_id (Val c) i) /\
      req_body r = JsonBody (item_json c d n t u q l)
    else c_trace c' = [Send Detail r0].
Proof.
  destruct Hne as (Hn' & Ht' & Hu').
  destruct (opened_and_sent portal ls token c i d u q m md mm l t Ht Hm Hu Hmd Hmm Hl Htk Hq) as (r0 & r & Es & Etr & H1 & H2 & H3).
  cbv zeta. rewrite Es, Etr. split; [done|]. exists r0.
  rewrite (opened_valid d n u q m l t (mkState (JStr "") (mkImage None (JStr u) (JStr u) []) (form_of d l) (Val d)) Hu Hu' Htk Ht' Hq Hn Hn' Hdesc eq_refl eq_refl).
  destruct (forallb complete l); [|done]. exists r. split_and_all; [done..|].
  rewrite H3 by done. by rewrite Hn.
Qed.

(** A row of attributes left blank when a collectible is created locks the collectible:
    the create dialog starts with such a row and accepts it, so that a collectible whose
    creator had no attributes in mind is sent with one blank attribute; the update dialog
    requires both fields of every row, so that for an item with that attribute Update sends
    nothing, whatever else the item holds, and shows no error, until the row is filled in or
    removed. *)
Theorem blank_row_freezes_collectible portal ls token c i d s q tk q' u m md mm
    (Ht : read_item "accessToken" ls = Some token)
    (Hv : CreateNft.collectibleForm_valid s = true) (Hq : quantity (CreateNft.collectibleForm s) = JNum q)
    (Htok : tokenId (CreateNft.collectibleForm s) = JStr "")
    (Hrows : attributes (CreateNft.collectibleForm s) = attributes CreateNft.empty_form)
    (Htk : CollectibleItem_tokenId d = Val tk) (Hq' : CollectibleItem_quantity d = Val q')
    (Hm : CollectibleItem_media d = Val m) (Hu : nft_url m = JStr u) (Hmd : CollectibleItem_metadata d = Val md)
    (Hmm : CollectibleMetadata_metadata md = Val mm) (Hl : Metadata_attributes mm = Val [mkAttribute (Val "") (Val "")]) :
  (exists r, c_trace (exec (comp := CreateNft.page portal ls (Val c)) (start s) (User Submit)) = [Send CreateNft.Create r] /\
     CreateNft.body_field r "metadata" =
       Some (JObj [("metadata", JObj [("attributes", JArr [attribute_json (mkAttribute (Val "") (Val ""))])])])) /\
  let c' := exec_all (comp := page portal ls (Val c) i) (start new_state)
    [User Init; Respond 0 (answer portal ls (Val c) i d); User Submit] in
  error (c_state c') = JStr "" /\ exists r0, c_trace c' = [Send Detail r0].
Proof.
  split.
  - pose proof (CreateNft.createCollectible_valid (portal := portal) (c := c) q Hv Hq Ht) as E. rewrite Htok in E.
    erewrite exec_User by exact E. eexists. split; [reflexivity|].
    unfold CreateNft.body_field, CreateNft.nft_body. cbn. by rewrite Hrows.
  - destruct (opened_and_sent portal ls token c i d u q' m md mm _ tk Ht Hm Hu Hmd Hmm Hl Htk Hq') as (r0 & r & Es & Etr & _).
    cbv zeta. rewrite Es, Etr. split; [done|]. exists r0. unfold collectibleForm_valid, form_of.
    cbn [collectibleForm attributes]. rewrite rows_valid_of. cbn [forallb complete]. by rewrite !andb_false_r.
Qed.

End validated.

#[local] Existing Instance angular.

(** An item and its collection, for the examples. *)
Definition museum : CollectionItem :=
  mkCollectionItem (Val "c1") Und Und (Val "Museum") Und (Val "") (Val "https://hub/m") (Val "p1") JUndef Und Und Und Und.
Definition sword (rows : list Attribute) : ICollectibleItem :=
  mkCollectibleItem (Val "n1") (Val "7") (Val "c1") (Val "Sword") (Val "Sharp") Und Und Und Und Und Und (Val (int 2)) JUndef
    (Val (mkMedia Und (Val "https://hub/s") JNull Und)) (Val (mkCollectibleMetadata Und (Val (mkMetadata (Val rows))) JUndef Und)).
Definition filled : CreateNft.state :=
  CreateNft.mkState (JStr "") (mkImage None JNull (JStr "https://hub/s") [])
    (mkForm (JStr "Sword") (JStr "Sharp") (JStr "") (JNum (int 2)) [empty_row false]).

Lemma unedited_update_witness :
  let d := sword [mkAttribute (Val "sharp") (Val "edge")] in
  let c' := exec_all (comp := page hub hub_token (Val museum) (Val d)) (start new_state)
    [User Init; Respond 0 (answer hub hub_token (Val museum) (Val d) d); User Submit] in
  error (c_state c') = JStr "" /\
  exists r0 r, c_trace c' = [Send Detail r0; Send Update r] /\
    req_method r = PUT /\ req_url r = url_of hub "/assets/c1/n1" /\
    req_body r = JsonBody (item_json museum d "Sword" "7" "https://hub/s" (int 2) [mkAttribute (Val "sharp") (Val "edge")]).
Proof.
  intros d. refine (unedited_update hub hub_token tok museum (Val d) d "Sword" "7" "https://hub/s" (int 2)
    (mkMedia Und (Val "https://hub/s") JNull Und) (mkCollectibleMetadata Und (Val (mkMetadata (Val [mkAttribute (Val "sharp") (Val "edge")]))) JUndef Und)
    (mkMetadata (Val [mkAttribute (Val "sharp") (Val "edge")])) [mkAttribute (Val "sharp") (Val "edge")] _ _ _ _ _ _ _ _ _ _ _);
    try reflexivity. split_and_all; discriminate.
Defined.

Lemma blank_row_freezes_collectible_witness :
  let blank := [mkAttribute (Val "") (Val "")] in
  (exists r, c_trace (exec (comp := CreateNft.page hub hub_token (Val museum)) (start filled) (User Submit)) = [Send CreateNft.Create r] /\
     CreateNft.body_field r "metadata" =
       Some (JObj [("metadata", JObj [("attributes", JArr [attribute_json (mkAttribute (Val "") (Val ""))])])])) /\
  let c' := exec_all (comp := page hub hub_token (Val museum) (Val (sword blank))) (start new_state)
    [User Init; Respond 0 (answer hub hub_token (Val museum) (Val (sword blank)) (sword blank)); User Submit] in
  error (c_state c') = JStr "" /\ exists r0, c_trace c' = [Send Detail r0].
Proof.
  intros blank. apply (blank_row_freezes_collectible hub hub_token tok museum (Val (sword blank)) (sword blank) filled (int 2) "7" (int 2)
    "https://hub/s" (mkMedia Und (Val "https://hub/s") JNull Und) (mkCollectibleMetadata Und (Val (mkMetadata (Val blank))) JUndef Und)
    (mkMetadata (Val blank))); reflexivity.
Defined.

Lemma cleared_token_blocks_creation_witness :
  let after l := exec_all (comp := CreateNft.page hub hub_token (Val museum)) (start filled) l in
  (exists r, c_trace (after [User (TypeToken (Some (int 5))); User Submit]) = [Send CreateNft.Create r] /\
     CreateNft.body_field r "tokenId" = Some (JStr "5")) /\
  (let c' := after [User (TypeToken (Some (int 5))); User (TypeToken None); User Submit] in
   c_trace c' = [] /\ CreateNft.error (c_state c') = TypeError "Cannot read properties of null (reading 'toString')").
Proof.
  exact (proj2 (CreateNft.cleared_token_blocks_creation hub hub_token museum filled (int 2) tok (int 5) eq_refl eq_refl
    ltac:(vm_compute; reflexivity))).
Defined.
End UpdateNft.

Module LinkContract.

Record state := mkState {
  error : jsval;
  contractAddress : jsval;
  contractType : jsval;
  networkID : jsval;
  tokenSymbol : jsval
}.

#[export] Instance eta_state : Eta state := fun s =>
  mkState (error s) (contractAddress s) (contractType s) (networkID s) (tokenSymbol s).

Definition new_state : state := mkState (JStr "") JUndef JUndef JUndef JUndef.

Inductive event :=
| Init
| TypeAddress (v : string)
| PickType (v : string)
| TypeNetwork (v : option num)
| TypeSymbol (v : string)
| Submit.

Section validated.
Context {validators : Validators}.

Section link.
Context (portal : LayergPortalConfig) (ls : gmap string string) (collectionData : opt CollectionItem).

Abbreviation H := (M state (cmd unit Empty_set)).

(** The form shows the first contract of the collection, if it has one. *)
Definition ngOnInit : H unit :=
  contractAddress <~ JStr "";; contractType <~ JStr "";; networkID <~ JStr "";; tokenSymbol <~ JStr "";;
  match chain collectionData CollectionItem_SmartContract with
  | Val (smc :: _) =>
      contractAddress <~ of_opt (SmartContract_contractAddress smc);;
      contractType <~ of_opt (SmartContract_contractType smc);;
      networkID <~ of_opt_num (SmartContract_networkID smc);;
      tokenSymbol <~ of_opt (SmartContract_tokenSymbol smc)
  | _ => ret tt
  end.

Definition linkContractForm_valid (s : state) : bool :=
  required (contractAddress s) && required (contractType s) && required (networkID s) && required (tokenSymbol s).

Definition smc_json (s : state) : jsval :=
  JObj [("contractAddress", contractAddress s); ("contractType", contractType s);
        ("networkID", JNum (Number_ (networkID s))); ("tokenSymbol", tokenSymbol s)].

Definition updateLinkContract : H unit :=
  try_catch (
    error <~ JStr "";;
    valid ← gets linkContractForm_valid;
    when valid (
      let id := js_String (chain collectionData CollectionItem_id) in
      c ← force "Cannot read properties of undefined (reading 'name')" collectionData;
      smc ← gets smc_json;
      portal_send tt (updateCollections portal ls (Val id)
        (JObj [("name", of_opt (CollectionItem_name c)); ("description", of_opt (CollectionItem_description c));
               ("avatarUrl", of_opt (CollectionItem_avatarUrl c)); ("projectId", of_opt (CollectionItem_projectId c));
               ("smc", smc)]))))
    (fun e => error <~ e).

Definition updateLinkContract_next : H unit := emit CloseModal;; emit (Output "linkContractUpdated").

#[export] Instance page : Component state event unit Empty_set := {
  resp _ := jsval;
  on_event e :=
    match e with
    | Init => ngOnInit
    | TypeAddress v => contractAddress <~ JStr v
    | PickType v => contractType <~ JStr v
    | TypeNetwork v => networkID <~ number_input v
    | TypeSymbol v => tokenSymbol <~ JStr v
    | Submit => updateLinkContract
    end;
  on_next _ _ := updateLinkContract_next;
  on_error _ err := error <~ err;
  on_confirm d := match d with end;
  take_until _ := false
}.
End link.

Lemma updateLinkContract_spec portal ls c s token : linkContractForm_valid s = true -> read_item "accessToken" ls = Some token ->
  updateLinkContract portal ls (Val c) s =
    (Ret tt, mkState (JStr "") (contractAddress s) (contractType s) (networkID s) (tokenSymbol s),
     [Send tt (mkRequest PUT (url_of portal ("/collection/" +:+ encodeURIComponent (js_String (CollectionItem_id c))))
        (JsonBody (JObj [("name", of_opt (CollectionItem_name c)); ("description", of_opt (CollectionItem_description c));
           ("avatarUrl", of_opt (CollectionItem_avatarUrl c)); ("projectId", of_opt (CollectionItem_projectId c));
           ("smc", smc_json s)])) []
        {["Authorization" := "Bearer " +:+ String_ (jchain "accessToken" token)]})]).
Proof.
  intros Hv Ht. unfold updateLinkContract, updateCollections, portal_put, portal_headers. rewrite Ht.
  destruct s as [e a t n y]. run_m. cbn. unfold linkContractForm_valid in *. cbn in *. rewrite Hv. reflexivity.
Qed.

(** The form of a collection without a contract is empty. *)
Lemma init_without_contract c s : match chain c CollectionItem_SmartContract with Val (_ :: _) => False | _ => True end ->
  ngOnInit c s = (Ret tt, mkState (error s) (JStr "") (JStr "") (JStr "") (JStr ""), []).
Proof. intros H. unfold ngOnInit. destruct s. by destruct (chain c _) as [| |[|]]. Qed.
End validated.
End LinkContract.
