(* ===== verification/FormTypes.v ===== *)
(** * The types of the controls of the collectible dialogs

    The value of a control is of any type in the source.  Here: which values the controls
    of the two dialogs can hold, whatever the user and the portal do, and therefore which
    exceptions a submission can meet. *)

From S2P Require Import Prelude Codec JsVal Json Runtime ConsoleTypes Session LayergPortal Forms ImageUpload Collections Collectibles.

(** ** Values of controls *)

Definition is_text (v : jsval) : Prop := exists s, v = JStr s.
(** A text field that was filled from an item of the portal. *)
Definition is_opt_text (v : jsval) : Prop := is_text v \/ v = JNull \/ v = JUndef.
(** A field of type number: its initial text, [null] when it was emptied, or a number. *)
Definition is_number_field (initial : string) (v : jsval) : Prop := v = JStr initial \/ v = JNull \/ exists n, v = JNum n.

#[local] Arguments is_text : simpl never.
#[local] Arguments is_opt_text : simpl never.
#[local] Arguments is_number_field : simpl never.

Definition row_typed (a : attribute) : Prop := is_opt_text (trait_type a) /\ is_opt_text (attr_value a).

Lemma is_text_str s : is_text (JStr s).
Proof. by exists s. Qed.
Lemma is_opt_text_str s : is_opt_text (JStr s).
Proof. left. apply is_text_str. Qed.
Lemma is_number_input i v : is_number_field i (number_input v).
Proof. destruct v as [n|]; [right; right; by exists n|by right; left]. Qed.
Lemma is_number_initial i : is_number_field i (JStr i).
Proof. by left. Qed.
Lemma row_typed_empty b : row_typed (empty_row b).
Proof. split; apply is_opt_text_str. Qed.

#[local] Hint Resolve is_text_str is_opt_text_str is_number_input is_number_initial row_typed_empty : core.

Lemma rows_typed_alter i f l : Forall row_typed l -> (forall a, row_typed a -> row_typed (f a)) -> Forall row_typed (alter f i l).
Proof. intros Hl Hf. apply Forall_alter; [done|]. intros a _ Ha. by apply Hf. Qed.
Lemma rows_typed_splice i l : Forall row_typed l -> Forall row_typed (splice1 i l).
Proof. intros Hl. unfold splice1. apply Forall_app. split; [by apply Forall_take|by apply Forall_drop]. Qed.
Lemma rows_typed_trait i v l : Forall row_typed l -> Forall row_typed (type_trait i v l).
Proof. intros Hl. apply rows_typed_alter; [done|]. intros a [_ ?]. by split; [apply is_opt_text_str|]. Qed.
Lemma rows_typed_value i v l : Forall row_typed l -> Forall row_typed (type_value i v l).
Proof. intros Hl. apply rows_typed_alter; [done|]. intros a [? _]. by split; [|apply is_opt_text_str]. Qed.
Lemma rows_typed_add l : Forall row_typed l -> Forall row_typed (l ++ [empty_row true]).
Proof. intros Hl. apply Forall_app. split; [done|]. by constructor; [|constructor]. Qed.

#[local] Hint Resolve rows_typed_splice rows_typed_trait rows_typed_value rows_typed_add : core.

(** The controls of a form: [t] and [q] are the types of the token identifier and of the
    quantity. *)
Record form_typed (name_ty t q : jsval -> Prop) (f : form) : Prop := {
  typed_name : name_ty (name f);
  typed_description : name_ty (description f);
  typed_token : t (tokenId f);
  typed_quantity : q (quantity f);
  typed_rows : Forall row_typed (attributes f)
}.

Definition image_typed (s : ImageUpload.state) : Prop := is_text (avatarUrl s) \/ avatarUrl s = JUndef \/ avatarUrl s = JNull.

Lemma image_choose {K D} portal ls (k : K) files : preserves image_typed (ImageUpload.onFileSelected (D := D) portal ls k files).
Proof.
  intros s Hs. unfold ImageUpload.onFileSelected, uploadImage. destruct files as [|f files]; [done|].
  destruct s. run_image. by destruct (LayergPortal.uploadImage _ _ _).
Qed.
Lemma image_onload {K D} i r : preserves (C := cmd K D) image_typed (ImageUpload.onload i r).
Proof. intros s Hs. unfold ImageUpload.onload. destruct s. run_image. by destruct (_ !! i). Qed.
Lemma image_uploaded {K D} portal h : preserves (C := cmd K D) image_typed (upload_next portal h).
Proof. intros s Hs. left. by eexists. Qed.
Lemma image_upload_failed {K D} : preserves (C := cmd K D) image_typed (upload_error).
Proof. by intros s Hs. Qed.

Lemma preserves_toString {S C} (P : S -> Prop) v : preserves P (toString (S := S) (C := C) v).
Proof. unfold toString. destruct v; auto with preserves. Qed.
Lemma preserves_portal_send {S K D} (P : S -> Prop) (k : K) r : preserves P (portal_send (D := D) k r).
Proof. unfold portal_send, or_throw. destruct r; auto with preserves. Qed.

#[local] Hint Resolve preserves_toString preserves_portal_send : preserves.
#[local] Hint Resolve image_choose image_onload image_uploaded image_upload_failed : preserves.
#[local] Hint Extern 1 (preserves (form_typed _ _ _) _) =>
  let f := fresh in let H := fresh in intros f H; destruct f, H; constructor; cbn in *; auto : preserves.

Lemma form_rows {C} n t q (g : list attribute -> list attribute) :
  (forall l, Forall row_typed l -> Forall row_typed (g l)) ->
  preserves (C := C) (form_typed n t q) (l ← gets attributes; attributes <~ g l).
Proof. intros Hg f []. destruct f. run_m. constructor; cbn in *; auto. Qed.
#[local] Hint Resolve form_rows : preserves.

(** A valid number field that was never filled from elsewhere holds a number. *)
Lemma required_number_field `{!Validators} v : required v = true -> is_number_field "" v -> exists n, v = JNum n.
Proof.
  intros Hr [-> |[-> |?]]; [..|done].
  - by rewrite required_text in Hr.
  - by rewrite required_null in Hr.
Qed.

Section create.
Context {validators : Validators} (portal : LayergPortalConfig) (ls : gmap string string) (c : CollectionItem).
Import CreateNft.

Abbreviation dialog := (page portal ls (Val c)).

(** The state of the dialog after its [ngOnInit]. *)
Record typed (s : state) : Prop := {
  typed_form : form_typed is_text (is_number_field "") (is_number_field "") (collectibleForm s);
  typed_image : image_typed (image s)
}.

Lemma typed_form_zoom (m : M form (cmd subscription Empty_set) unit) :
  preserves (form_typed is_text (is_number_field "") (is_number_field "")) m -> preserves typed (zoom collectibleForm m).
Proof.
  apply preserves_zoom; [by intros s []|]. intros s f [] Hf. by split.
Qed.
Lemma typed_image_zoom (m : M ImageUpload.state (cmd subscription Empty_set) unit) :
  preserves image_typed m -> preserves typed (zoom image m).
Proof. apply preserves_zoom; [by intros s []|]. intros s i [] Hi. by split. Qed.

Lemma typed_init s : typed (ngOnInit s).1.2.
Proof.
  assert (Ef : collectibleForm (ngOnInit s).1.2 = empty_form) by (by destruct s as [? []]).
  assert (Ei : avatarUrl (image (ngOnInit s).1.2) = JStr "") by (by destruct s as [? []]).
  split; [rewrite Ef; split; cbn; auto|left; rewrite Ei; auto].
Qed.

Lemma typed_error v : preserves typed (C := cmd subscription Empty_set) (error <~ v).
Proof. intros s [H1 H2]. by split. Qed.
#[local] Hint Resolve typed_error : preserves.

Lemma typed_createCollectible : preserves typed (createCollectible portal ls (Val c)).
Proof.
  unfold createCollectible. apply preserves_try; [|auto with preserves].
  eauto 20 with preserves.
Qed.

Lemma typed_reachable c0 cf : typed (c_state c0) -> reachable (comp := dialog) c0 cf -> typed (c_state cf).
Proof.
  intros H0. apply reachable_preserves_from; [done|..].
  - intros []; cbn [on_event page]; try (apply typed_form_zoom; auto with preserves); try (apply typed_image_zoom; auto with preserves).
    + intros s _. apply typed_init.
    + apply typed_createCollectible.
  - intros [] a; cbn [on_next page]; [apply typed_image_zoom; auto with preserves|].
    unfold createCollectible_next. auto with preserves.
  - intros [] e; cbn [on_error page]; [apply typed_image_zoom; auto with preserves|auto with preserves].
  - intros [].
Qed.

Lemma createCollectible_invalid s : collectibleForm_valid s = false ->
  createCollectible portal ls (Val c) s = (Ret tt, setf (f := error) (fun _ => JStr "") s, []).
Proof.
  intros Hv. destruct s as [er im f]. change (collectibleForm_valid (mkState (JStr "") im f) = false) in Hv.
  unfold createCollectible. run_m. cbn -[collectibleForm_valid]. by rewrite Hv.
Qed.

(** C31: the create dialog is well typed: from the moment it is initialised, whatever the
    user and the portal do, its text controls hold texts and its number controls hold
    their empty text, [null] or a number; so a submission never fails but in one way: an
    invalid form sends nothing and reports nothing; an identifier that was typed and
    removed again is [null], whose [toString] is a TypeError, and nothing is sent; any
    other valid form sends exactly one request, with the quantity and the identifier as the
    decimal texts of the numbers typed, the identifier being left out when it was never
    touched. *)
Theorem create_dialog_typed token cf
    (Ht : read_item "accessToken" ls = Some token)
    (Hr : reachable (comp := dialog) (exec (comp := dialog) (start new_state) (User Init)) cf) :
  typed (c_state cf) /\
  let '(o, s', l) := on_event (Component := dialog) Submit (c_state cf) in
  let f := collectibleForm (c_state cf) in
  o = Ret tt /\ collectibleForm s' = f /\
  if collectibleForm_valid (c_state cf) then
    match tokenId f with
    | JNull => l = [] /\ error s' = TypeError "Cannot read properties of null (reading 'toString')"
    | _ =>
        error s' = JStr "" /\ exists r q, l = [Send Create r] /\
        quantity f = JNum q /\ body_field r "quantity" = Some (JStr (string_of_num q)) /\
        (tokenId f = JStr "" /\ body_field r "tokenId" = None \/
         exists t, tokenId f = JNum t /\ body_field r "tokenId" = Some (JStr (string_of_num t)))
    end
  else l = [] /\ error s' = JStr "".
Proof.
  assert (Hty : typed (c_state cf)).
  { apply (typed_reachable (exec (comp := dialog) (start new_state) (User Init))); [|done].
    cbn [exec]. rewrite run_state. apply typed_init. }
  split; [exact Hty|]. destruct Hty as [[Hn Hd Htok Hq Hrows] Him]. cbn [on_event page].
  destruct (collectibleForm_valid (c_state cf)) eqn:Hv.
  - assert (exists q, quantity (collectibleForm (c_state cf)) = JNum q) as [q Eq].
    { apply required_number_field; [|done]. unfold collectibleForm_valid in Hv. by repeat apply andb_true_iff in Hv as [Hv ?]. }
    rewrite (createCollectible_valid q Hv Eq Ht).
    destruct Htok as [E|[E|[t E]]]; rewrite E.
    + destruct (c_state cf) as [er im f]. split_and_all; [done..|].
      eexists _, q. split_and_all; [done..|]. by left.
    + by destruct (c_state cf).
    + destruct (c_state cf) as [er im f]. split_and_all; [done..|].
      eexists _, q. split_and_all; [done..|]. right. exists t. split; [done|].
      unfold body_field, nft_body. cbn. by rewrite string_of_num_truthy.
  - rewrite (createCollectible_invalid _ Hv). by destruct (c_state cf).
Qed.
End create.

Section update.
Context {validators : Validators} (portal : LayergPortalConfig) (ls : gmap string string) (c : CollectionItem)
  (i : opt ICollectibleItem).
Import UpdateNft.

Abbreviation dialog := (page portal ls (Val c) i).

(** A field of type number that was filled from an item. *)
Definition is_filled_number (v : jsval) : Prop := is_number_field "0" v \/ v = JUndef.
Definition is_token (v : jsval) : Prop := is_opt_text v \/ exists n, v = JNum n.
Abbreviation item_form := (form_typed is_opt_text is_token is_filled_number).
Definition item_typed (s : state) : Prop := item_form (collectibleForm s).

Lemma is_token_input v : is_token (number_input v).
Proof. destruct v as [n|]; [right; by exists n|left; right; by left]. Qed.
Lemma is_filled_input v : is_filled_number (number_input v).
Proof. left. apply is_number_input. Qed.
Lemma is_opt_text_opt v : is_opt_text (of_opt v).
Proof. destruct v; [by right; right|by right; left|apply is_opt_text_str]. Qed.
Lemma is_token_opt v : is_token (of_opt v).
Proof. left. apply is_opt_text_opt. Qed.
Lemma is_filled_opt v : is_filled_number (of_opt_num v).
Proof. destruct v as [| |n]; [by right|left; right; by left|left; right; right; by exists n]. Qed.
#[local] Hint Resolve is_token_input is_filled_input is_opt_text_opt is_token_opt is_filled_opt : core.

Lemma row_typed_of a : row_typed (row_of a).
Proof. destruct a as [v t]. split; [destruct t|destruct v]; cbn; auto; by right; left. Qed.

Lemma item_typed_zoom (m : M form (cmd subscription Empty_set) unit) :
  preserves item_form m -> preserves item_typed (zoom collectibleForm m).
Proof. apply preserves_zoom; [done|]. by intros s f Hs Hf. Qed.
Lemma item_typed_image (m : M ImageUpload.state (cmd subscription Empty_set) unit) : preserves item_typed (zoom image m).
Proof. intros s Hs. unfold zoom. by destruct (m (image s)) as [[o t] l]. Qed.
Lemma item_typed_error v : preserves item_typed (C := cmd subscription Empty_set) (error <~ v).
Proof. by intros s Hs. Qed.
Lemma item_typed_rows l : preserves item_form (C := cmd subscription Empty_set) (attributes <~ map row_of l).
Proof.
  intros f []. destruct f. constructor; cbn in *; auto. apply Forall_forall. intros a [x [-> _]]%list_elem_of_fmap. apply row_typed_of.
Qed.
#[local] Hint Resolve item_typed_error item_typed_image item_typed_rows item_typed_zoom : preserves.

Lemma item_typed_detail d : preserves item_typed (handleDetail_next d).
Proof.
  unfold handleDetail_next.
  repeat first [apply preserves_bind; [apply item_typed_zoom || apply item_typed_image || apply preserves_force|intros ?] ];
    auto 10 with preserves.
  all: try (eapply preserves_zoom; auto 10 with preserves).
Qed.

Lemma item_typed_init_form s : item_typed (setf (f := collectibleForm) (fun _ => empty_form) s).
Proof. split; cbn; auto; [left; auto..|]. by left. Qed.

Lemma item_typed_init s : item_typed (ngOnInit portal ls (Val c) i s).1.2.
Proof.
  unfold ngOnInit, handleDetail, portal_send, or_throw.
  assert (Ef : forall im er it, item_typed (mkState er im empty_form it))
    by (intros er im it; exact (item_typed_init_form (mkState im er empty_form it))).
  destruct (detailCollectible portal ls _); destruct s as [e [] f it]; apply Ef.
Qed.

Lemma item_typed_update : preserves item_typed (updateCollectible portal ls (Val c) i).
Proof. unfold updateCollectible. apply preserves_try; [|auto with preserves]. eauto 20 with preserves. Qed.

Lemma item_typed_reachable cf :
  reachable (comp := dialog) (exec (comp := dialog) (start new_state) (User Init)) cf -> item_typed (c_state cf).
Proof.
  apply reachable_preserves_from.
  - cbn [exec]. rewrite run_state. apply item_typed_init.
  - intros []; cbn [on_event page]; try (apply item_typed_zoom; auto with preserves); try apply item_typed_image.
    + intros s _. apply item_typed_init.
    + apply item_typed_update.
  - intros [] a; cbn [on_next page]; [apply item_typed_detail|apply item_typed_image|].
    unfold updateCollectible_next. auto with preserves.
  - intros [] e; cbn [on_error page]; [auto with preserves|apply item_typed_image|auto with preserves].
  - intros [].
Qed.

(** The address of the item's image is a text as long as those that the portal has sent are. *)
Definition image_text (s : state) : Prop := image_typed (image s).

Definition text_image (d : ICollectibleItem) : Prop :=
  forall m, CollectibleItem_media d = Val m -> image_typed (mkImage None JNull (Media_IPFSUrl m) []).

Lemma image_text_zoom (m : M ImageUpload.state (cmd subscription Empty_set) unit) :
  preserves image_typed m -> preserves image_text (zoom image m).
Proof. apply preserves_zoom; [done|]. by intros s f Hs Hf. Qed.
Lemma image_text_form (m : M form (cmd subscription Empty_set) unit) : preserves image_text (zoom collectibleForm m).
Proof. intros s Hs. unfold zoom. by destruct (m (collectibleForm s)) as [[o t] l]. Qed.
Lemma image_text_error v : preserves image_text (C := cmd subscription Empty_set) (error <~ v).
Proof. by intros s Hs. Qed.
Lemma image_text_item v : preserves image_text (C := cmd subscription Empty_set) (item <~ v).
Proof. by intros s Hs. Qed.
#[local] Hint Resolve image_text_zoom image_text_form image_text_error image_text_item : preserves.

Lemma preserves_force_val {A B} (P : state -> Prop) what (v : A) (k : A -> M state (cmd subscription Empty_set) B) :
  preserves P (k v) -> preserves P (force what (Val v) ≫= k).
Proof. intros H s Hs. run_m. specialize (H s Hs). by destruct (k v s) as [[o s'] l]. Qed.

Lemma image_text_detail d : text_image d -> preserves image_text (handleDetail_next d).
Proof.
  intros Hd. unfold handleDetail_next, text_image in *. apply preserves_bind; [auto with preserves|intros _].
  destruct (CollectibleItem_media d) as [| |m]; try by (intros s Hs).
  assert (Hu : image_typed (mkImage None JNull (nft_url m) [])).
  { destruct (Hd m eq_refl) as [[u E]|[E|E]]; cbn in E; unfold nft_url; rewrite E; unfold jor; cbn.
    - destruct (truthy_string u); [left; by exists u|]. destruct (Media_S3Url m); [by right; left|by right; right|left; by eexists].
    - destruct (Media_S3Url m); [by right; left|by right; right|left; by eexists].
    - destruct (Media_S3Url m); [by right; left|by right; right|left; by eexists]. }
  apply preserves_force_val. cbv zeta. apply preserves_bind.
  - apply image_text_zoom. apply preserves_bind; [by intros s Hs|intros _]. by intros s _.
  - intros _. repeat (apply preserves_bind; [auto with preserves|intros ?]). auto with preserves.
Qed.

Lemma image_text_init : preserves image_text (ngOnInit portal ls (Val c) i).
Proof.
  unfold ngOnInit, handleDetail. apply preserves_bind; [apply preserves_try; [|auto with preserves]|intros _].
  - apply preserves_bind; [auto with preserves|intros _]. auto with preserves.
  - apply preserves_bind; [by intros s Hs|intros _]. apply image_text_zoom. intros s _. left. by eexists.
Qed.

Lemma image_text_update : preserves image_text (updateCollectible portal ls (Val c) i).
Proof. unfold updateCollectible. apply preserves_try; [|auto with preserves]. eauto 20 with preserves. Qed.

(** What the portal answers in a run: the address of each image it sends is a text. *)
Definition text_images (l : list (action state event subscription Empty_set (comp := dialog))) : Prop :=
  Forall (fun a : action state event subscription Empty_set (comp := dialog) => match a with Respond _ f => text_image (f Detail) | _ => True end) l.

Lemma image_text_run l : text_images l ->
  image_text (c_state (exec_all (comp := dialog) (exec (comp := dialog) (start new_state) (User Init)) l)).
Proof.
  assert (He : forall e, preserves image_text (on_event (Component := dialog) e)).
  { intros []; cbn [on_event page]; try (apply image_text_form); try (apply image_text_zoom; auto with preserves).
    - apply image_text_init.
    - apply image_text_update. }
  assert (Hn : forall k (f : forall k, resp (Component := dialog) k), text_image (f Detail) ->
            preserves image_text (on_next (Component := dialog) k (f k))).
  { intros [] f Hf; cbn [on_next page]; [by apply image_text_detail|apply image_text_zoom; auto with preserves|by intros s Hs]. }
  assert (Hr : forall k e, preserves image_text (on_error (Component := dialog) k e))
    by (intros [] e; cbn [on_error page]; [auto with preserves|apply image_text_zoom; auto with preserves|auto with preserves]).
  apply (exec_all_invariant (comp := dialog) (fun l cf => text_images l -> image_text (c_state cf))).
  - intros _. cbn [exec]. rewrite run_state. apply image_text_init. left. by eexists.
  - clear l. intros l cf a IH [Hl Ha]%Forall_app. specialize (IH Hl). inversion_clear Ha as [|? ? Ha0 _].
    destruct a as [e|k f|k e|k v|k]; cbn [exec].
    + rewrite run_state. by apply He.
    + destruct (c_pending cf !! k) as [sub|]; [|done]. rewrite run_state. apply Hn; [exact Ha0|exact IH].
    + destruct (c_pending cf !! k) as [sub|]; [|done]. rewrite run_state. by apply Hr.
    + by destruct (c_dialogs cf !! k).
    + done.
Qed.

(** A required control holds a text or a number. *)
Definition is_scalar (v : jsval) : Prop := is_text v \/ exists n, v = JNum n.

Lemma required_scalar v : required v = true -> is_token v \/ is_filled_number v -> is_scalar v.
Proof.
  intros Hr Hv. assert (v <> JNull /\ v <> JUndef) as [H1 H2].
  { split; intros ->; [by rewrite required_null in Hr|by rewrite required_undef in Hr]. }
  destruct Hv as [[[?|[?|?]]|[n ->]]|[[->|[?|[n ->]]]|?]]; try done; [by left|right; by eexists|left; auto|right; by eexists].
Qed.

Definition update_body (s : state) : jsval :=
  let f := collectibleForm s in
  JObj [("name", name f); ("description", description f); ("avatarUrl", avatarUrl (image s));
        ("tokenId", JStr (String_ (tokenId f))); ("collectionId", of_opt (CollectionItem_id c));
        ("quantity", JStr (String_ (quantity f))); ("metadata", metadata_json (attributes f));
        ("media", JObj [("IPFSUrl", avatarUrl (image s))])].

Lemma update_submit token s : read_item "accessToken" ls = Some token ->
  (collectibleForm_valid s = true -> is_scalar (tokenId (collectibleForm s)) /\ is_scalar (quantity (collectibleForm s))) ->
  updateCollectible portal ls (Val c) i s =
    (Ret tt, setf (f := error) (fun _ => JStr "") s,
     if collectibleForm_valid s then
       [Send Update (mkRequest PUT (url_of portal ("/assets/" +:+ nft_id (Val c) i)) (JsonBody (update_body s)) []
          {["Authorization" := "Bearer " +:+ String_ (jchain "accessToken" token)]})]
     else []).
Proof.
  intros Ht Hs. unfold updateCollectible, updateCollectibleNft, portal_put, portal_headers, update_body. rewrite Ht.
  change (collectibleForm_valid s) with (collectibleForm_valid (setf (f := error) (fun _ => JStr "") s)) in *.
  destruct s as [e [sel prev av rd] [n d t q l] it]. run_m. cbn -[collectibleForm_valid] in *.
  destruct (collectibleForm_valid _); [|done]. destruct (Hs eq_refl) as [Ht' Hq'].
  destruct Ht' as [[? ->]|[? ->]], Hq' as [[? ->]|[? ->]]; reflexivity.
Qed.

Lemma update_fields_scalar s : item_typed s ->
  collectibleForm_valid s = true -> is_scalar (tokenId (collectibleForm s)) /\ is_scalar (quantity (collectibleForm s)).
Proof.
  intros [_ _ Htok Hq _] Hv. unfold collectibleForm_valid in Hv.
  repeat match goal with H : _ && _ = true |- _ => apply andb_true_iff in H as [? ?] end.
  split; apply required_scalar; auto.
Qed.

(** C32: the update dialog is well typed: from the moment it is initialised, whatever the
    user and the portal do, its controls of name and description and those of the attributes
    hold texts, [null] or nothing, the identifier also a number, and the quantity its
    initial text, a number, [null] or nothing; so a submission never fails: it reports no
    error by itself, a valid form sends exactly one request, in which the identifier and
    the quantity are the texts of the texts or numbers in their controls, and an invalid
    form sends nothing. *)
Theorem update_dialog_typed token cf
    (Ht : read_item "accessToken" ls = Some token)
    (Hr : reachable (comp := dialog) (exec (comp := dialog) (start new_state) (User Init)) cf) :
  let s := c_state cf in
  item_typed s /\
  on_event (Component := dialog) Submit s =
    (Ret tt, setf (f := error) (fun _ => JStr "") s,
     if collectibleForm_valid s then
       [Send Update (mkRequest PUT (url_of portal ("/assets/" +:+ nft_id (Val c) i)) (JsonBody (update_body s)) []
          {["Authorization" := "Bearer " +:+ String_ (jchain "accessToken" token)]})]
     else []) /\
  (collectibleForm_valid s = true ->
   is_scalar (tokenId (collectibleForm s)) /\ is_scalar (quantity (collectibleForm s))).
Proof.
  intros s. pose proof (item_typed_reachable cf Hr) as Hty. pose proof (update_fields_scalar s Hty) as Hs.
  split; [exact Hty|]. split; [|exact Hs]. by apply update_submit.
Qed.
End update.

#[local] Existing Instance angular.
#[local] Existing Instance UpdateNft.eta_state.

(** A form that the user fills in, image included, with an identifier typed and removed. *)
Definition uploaded : forall k, resp (Component := CreateNft.page hub hub_token (Val UpdateNft.museum)) k :=
  fun k => match k with CreateNft.Upload => Hashes ["Qm1"] | CreateNft.Create => JNull end.

Definition filling : config CreateNft.state CreateNft.subscription Empty_set :=
  exec_all (comp := CreateNft.page hub hub_token (Val UpdateNft.museum))
    (exec (comp := CreateNft.page hub hub_token (Val UpdateNft.museum)) (start CreateNft.new_state) (User Init))
    [User (TypeName "Sword"); User (ChooseFile ["a.png"]); Respond 0 uploaded; User (TypeQuantity (Some (int 2)));
     User (TypeToken (Some (int 5))); User (TypeToken None)].

Lemma create_dialog_typed_witness :
  CreateNft.collectibleForm_valid (c_state filling) = true /\
  (typed (c_state filling) /\
   let '(o, s', l) := on_event (Component := CreateNft.page hub hub_token (Val UpdateNft.museum)) Submit (c_state filling) in
   let f := CreateNft.collectibleForm (c_state filling) in
   o = Ret tt /\ CreateNft.collectibleForm s' = f /\
   if CreateNft.collectibleForm_valid (c_state filling) then
     match tokenId f with
     | JNull => l = [] /\ CreateNft.error s' = TypeError "Cannot read properties of null (reading 'toString')"
     | _ =>
         CreateNft.error s' = JStr "" /\ exists r q, l = [Send CreateNft.Create r] /\
         quantity f = JNum q /\ CreateNft.body_field r "quantity" = Some (JStr (string_of_num q)) /\
         (tokenId f = JStr "" /\ CreateNft.body_field r "tokenId" = None \/
          exists t, tokenId f = JNum t /\ CreateNft.body_field r "tokenId" = Some (JStr (string_of_num t)))
     end
   else l = [] /\ CreateNft.error s' = JStr "").
Proof.
  split; [vm_compute; reflexivity|].
  apply (create_dialog_typed hub hub_token UpdateNft.museum tok); [vm_compute; reflexivity|]. apply reachable_exec_all.
Defined.

Definition opened_item : config UpdateNft.state UpdateNft.subscription Empty_set :=
  let d := UpdateNft.sword [mkAttribute (Val "sharp") (Val "edge")] in
  exec_all (comp := UpdateNft.page hub hub_token (Val UpdateNft.museum) (Val d))
    (exec (comp := UpdateNft.page hub hub_token (Val UpdateNft.museum) (Val d)) (start UpdateNft.new_state) (User Init))
    [Respond 0 (UpdateNft.answer hub hub_token (Val UpdateNft.museum) (Val d) d); User (TypeToken (Some (int 5)))].

Lemma update_dialog_typed_witness :
  let d := UpdateNft.sword [mkAttribute (Val "sharp") (Val "edge")] in
  let s := c_state opened_item in
  UpdateNft.collectibleForm_valid s = true /\
  (item_typed s /\
   on_event (Component := UpdateNft.page hub hub_token (Val UpdateNft.museum) (Val d)) Submit s =
    (Ret tt, setf (f := UpdateNft.error) (fun _ => JStr "") s,
     if UpdateNft.collectibleForm_valid s then
       [Send UpdateNft.Update (mkRequest PUT (url_of hub "/assets/c1/n1") (JsonBody (update_body UpdateNft.museum s)) []
          {["Authorization" := "Bearer " +:+ String_ (jchain "accessToken" tok)]})]
     else []) /\
  (UpdateNft.collectibleForm_valid s = true ->
   is_scalar (tokenId (UpdateNft.collectibleForm s)) /\ is_scalar (quantity (UpdateNft.collectibleForm s)))).
Proof.
  intros d s. split; [vm_compute; reflexivity|].
  apply (update_dialog_typed hub hub_token UpdateNft.museum (Val d) tok opened_item); [vm_compute; reflexivity|].
  apply reachable_exec_all.
Defined.
