(* ===== verification/Interfaces.v ===== *)
(** * The interfaces of the portal's requests

    [layergPortal.service.ts] declares the types of what the console sends to the portal.
    Controls of forms are of type [any], so the compiler does not compare what the dialogs
    send with them.  Here the interfaces are types of dynamic values, and the bodies are
    compared. *)

From S2P Require Import Prelude Codec JsVal Json Runtime ConsoleTypes Session LayergPortal Forms ImageUpload Collections Collectibles FormTypes.

(** ** Types *)

(** A member of an interface: its name, whether it may be left out, its type. *)
Inductive ty :=
| TString | TNumber | TBoolean | TAny
| TArray (t : ty)
| TInterface (members : list (string * bool * ty)).

(** Without [strictNullChecks] every type has [null] and [undefined]; a member that is not
    optional has to be there.  An interface allows other members. *)
Fixpoint conforms (t : ty) (v : jsval) {struct t} : bool :=
  match v with
  | JUndef | JNull => true
  | _ =>
      match t with
      | TAny => true
      | TString => match v with JStr _ => true | _ => false end
      | TNumber => match v with JNum _ => true | _ => false end
      | TBoolean => match v with JBool _ => true | _ => false end
      | TArray t => match v with JArr l => forallb (conforms t) l | _ => false end
      | TInterface ms =>
          match v with
          | JObj l =>
              (fix go ms :=
                 match ms with
                 | [] => true
                 | (k, optional, t) :: ms =>
                     match assoc k l with Some w => conforms t w | None => optional end && go ms
                 end) ms
          | _ => false
          end
      end
  end.

Definition member (k : string) (t : ty) : string * bool * ty := (k, false, t).
Definition optional (k : string) (t : ty) : string * bool * ty := (k, true, t).

(** ** The interfaces *)

Definition Project : ty := TInterface [
  member "id" TString; member "createdAt" TString; member "updatedAt" TString; member "isEnabled" TBoolean;
  member "countFav" TNumber; member "platform" (TArray TString); member "name" TString; member "gameIcon" TString;
  member "banner" TString; member "apiKeyID" TString; member "telegram" TString; member "facebook" TString;
  member "instagram" TString; member "discord" TString; member "twitter" TString; member "nameSlug" TString;
  member "avatar" TString; member "description" TString; member "information" TString; member "policy" TString;
  member "version" TString; member "slideShow" (TArray TString); member "totalReview" TNumber;
  member "totalRating" TNumber; member "slug" TAny; member "isRcm" TBoolean; member "userId" TAny].

Definition ILinkContract : ty := TInterface [
  member "contractAddress" TString; member "contractType" TString; member "networkID" TNumber; member "tokenSymbol" TString].

Definition ICreateCollection : ty := TInterface [
  member "name" TString; member "description" TString; member "avatarUrl" TString; member "projectId" TString].

Definition IUpdateCollection : ty := TInterface [
  member "name" TString; member "description" TString; member "avatarUrl" TString; member "projectId" TString;
  optional "smc" ILinkContract].

Definition AuthLoginApiKey : ty := TInterface [member "apiKey" TString; member "apiKeyID" TString].

(** One attribute; [ICreateCollectible] declares [attributes] to be one. *)
Definition attribute_type : ty := TInterface [member "trait_type" TString; member "value" TString].

Definition collectible_type (attributes : ty) : ty := TInterface [
  member "name" TString; member "description" TString; member "avatarUrl" TString; optional "tokenId" TString;
  member "collectionId" TString; member "quantity" TString;
  optional "metadata" (TInterface [
    optional "metaId" TString; optional "metadata" (TInterface [member "attributes" attributes])]);
  optional "media" (TInterface [optional "mediaId" TString; optional "S3Url" TString; optional "IPFSUrl" TString])].

Definition ICreateCollectible : ty := collectible_type attribute_type.

(** ** What the forms hold *)

Lemma conforms_text v : is_text v -> conforms TString v = true.
Proof. by intros [s ->]. Qed.
Lemma conforms_opt_text v : is_opt_text v -> conforms TString v = true.
Proof. by intros [[s ->]|[-> | ->]]. Qed.
Lemma conforms_of_opt v : conforms TString (of_opt v) = true.
Proof. by destruct v. Qed.

Lemma conforms_array t l : conforms (TArray t) (JArr l) = forallb (conforms t) l.
Proof. reflexivity. Qed.

Definition has_member (l : list (string * jsval)) (m : string * bool * ty) : bool :=
  match assoc m.1.1 l with Some w => conforms m.2 w | None => m.1.2 end.

Lemma conforms_object ms l : conforms (TInterface ms) (JObj l) = forallb (has_member l) ms.
Proof.
  unfold has_member. cbn. induction ms as [|[[k o] t] ms IH]; [done|]. cbn [forallb fst snd]. by rewrite <- IH.
Qed.

#[local] Arguments conforms : simpl never.

Lemma conforms_rows l : Forall row_typed l -> conforms (TArray attribute_type) (attributes_json l) = true.
Proof.
  intros Hl. unfold attributes_json. rewrite conforms_array. apply forallb_forall. intros v (a & <- & Ha)%in_map_iff.
  rewrite Forall_forall in Hl. destruct (Hl a) as [Ht Hv]; [by apply list_elem_of_In|].
  unfold row_json, attribute_type. rewrite conforms_object. cbn.
  by rewrite (conforms_opt_text _ Ht), (conforms_opt_text _ Hv).
Qed.

(** A body with the members of a collectible has the declared type but for its attributes,
    which are a list. *)
Lemma conforms_collectible l attributes rows :
  assoc "metadata" l = Some (metadata_json rows) -> Forall row_typed rows ->
  forallb (has_member l) [member "name" TString; member "description" TString; member "avatarUrl" TString;
    optional "tokenId" TString; member "collectionId" TString; member "quantity" TString;
    optional "media" (TInterface [optional "mediaId" TString; optional "S3Url" TString; optional "IPFSUrl" TString])] = true ->
  conforms attributes (attributes_json rows) = conforms (collectible_type attributes) (JObj l).
Proof.
  intros Hm Hrows Hl. unfold collectible_type. rewrite conforms_object. cbn [forallb] in *.
  repeat match goal with H : _ && _ = true |- _ => apply andb_true_iff in H as [? ?] end.
  repeat match goal with H : has_member _ _ = true |- _ => rewrite H; clear H end.
  unfold has_member, member, optional. cbn [fst snd]. rewrite Hm. unfold metadata_json. rewrite !conforms_object. cbn.
  rewrite conforms_object. cbn. by rewrite !andb_true_r.
Qed.

Lemma attributes_are_a_list rows : conforms attribute_type (attributes_json rows) = false.
Proof. reflexivity. Qed.

(** ** The bodies *)

Section bodies.
Context {validators : Validators} (portal : LayergPortalConfig) (ls : gmap string string) (c : CollectionItem).

Definition typed_but_for_attributes (b : jsval) : Prop :=
  conforms (collectible_type (TArray attribute_type)) b = true /\ conforms ICreateCollectible b = false.

(** What the two dialogs send. *)
Lemma created_body_type s q t : typed s -> typed_but_for_attributes (CreateNft.nft_body s c q t).
Proof.
  intros [[Hn Hd _ _ Hrows] Him]. unfold typed_but_for_attributes, CreateNft.nft_body.
  assert (Himage : conforms TString (avatarUrl (CreateNft.image s)) = true)
    by (destruct Him as [?|[E|E]]; [by apply conforms_text|by rewrite E..]).
  match goal with |- context [JObj ?l] => set (body := l) end.
  assert (Hbody : forall a, conforms a (attributes_json (attributes (CreateNft.collectibleForm s))) = conforms (collectible_type a) (JObj body)).
  { intros a. apply (conforms_collectible _ _ (attributes (CreateNft.collectibleForm s))); [done|done|].
    unfold body. cbn. unfold has_member. cbn. rewrite (conforms_text _ Hn), (conforms_text _ Hd), Himage, conforms_of_opt.
    destruct (truthy_string t); cbn; rewrite conforms_object; unfold has_member; cbn; by rewrite Himage. }
  unfold ICreateCollectible. rewrite <- !Hbody. split; [by apply conforms_rows|apply attributes_are_a_list].
Qed.

Lemma updated_body_type s : item_typed s -> conforms TString (avatarUrl (UpdateNft.image s)) = true ->
  typed_but_for_attributes (update_body c s).
Proof.
  intros [Hn Hd _ _ Hrows] Himage. unfold typed_but_for_attributes, update_body.
  match goal with |- context [JObj ?l] => set (body := l) end.
  assert (Hbody : forall a, conforms a (attributes_json (attributes (UpdateNft.collectibleForm s))) = conforms (collectible_type a) (JObj body)).
  { intros a. apply (conforms_collectible _ _ (attributes (UpdateNft.collectibleForm s))); [done|done|].
    unfold body. cbn. unfold has_member. cbn. rewrite (conforms_opt_text _ Hn), (conforms_opt_text _ Hd), Himage, conforms_of_opt.
    cbn. rewrite conforms_object. unfold has_member. cbn. by rewrite Himage. }
  unfold ICreateCollectible. rewrite <- !Hbody. split; [by apply conforms_rows|apply attributes_are_a_list].
Qed.

(** A list of attributes is never the one attribute that is declared. *)
Lemma list_of_attributes l rows : assoc "metadata" l = Some (metadata_json rows) -> conforms ICreateCollectible (JObj l) = false.
Proof.
  intros Hm. unfold ICreateCollectible, collectible_type. rewrite conforms_object.
  assert (E : has_member l (optional "metadata" (TInterface [
    optional "metaId" TString; optional "metadata" (TInterface [member "attributes" attribute_type])])) = false)
    by (unfold has_member, optional; cbn [fst snd]; by rewrite Hm).
  cbn [forallb]. rewrite E. by rewrite !andb_false_r.
Qed.

(** The controls of the contract dialog. *)
Definition link_typed (s : LinkContract.state) : Prop :=
  is_opt_text (LinkContract.contractAddress s) /\ is_opt_text (LinkContract.contractType s) /\ is_opt_text (LinkContract.tokenSymbol s).

Abbreviation link_dialog := (LinkContract.page portal ls (Val c)).

Lemma link_typed_init s : link_typed (LinkContract.ngOnInit (Val c) s).1.2.
Proof.
  unfold link_typed, LinkContract.ngOnInit. destruct s. run_m.
  destruct (chain (Val c) CollectionItem_SmartContract) as [| |[|smc l]]; cbn; split_and_all; cbn;
    first [apply is_opt_text_str|apply is_opt_text_opt].
Qed.

Lemma link_typed_reachable cf :
  reachable (comp := link_dialog) (exec (comp := link_dialog) (start LinkContract.new_state) (User LinkContract.Init)) cf ->
  link_typed (c_state cf).
Proof.
  apply reachable_preserves_from.
  - cbn [exec]. rewrite run_state. apply link_typed_init.
  - intros []; cbn [on_event LinkContract.page];
      try (intros s (?&?&?); unfold link_typed; split_and_all; cbn; try done; apply is_opt_text_str).
    + intros s _. apply link_typed_init.
    + unfold LinkContract.updateLinkContract. apply preserves_try; [|intros e s Hs; exact Hs].
      apply preserves_bind; [by intros s Hs|intros _]. apply preserves_bind; [apply preserves_gets|intros v]. apply preserves_when.
      apply preserves_bind; [apply preserves_force|intros c']. apply preserves_bind; [apply preserves_gets|intros smc].
      apply preserves_portal_send.
  - intros [] a. by intros s Hs.
  - intros [] e. by intros s Hs.
  - intros [].
Qed.

Lemma linked_body_type s : link_typed s ->
  conforms IUpdateCollection
    (JObj [("name", of_opt (CollectionItem_name c)); ("description", of_opt (CollectionItem_description c));
           ("avatarUrl", of_opt (CollectionItem_avatarUrl c)); ("projectId", of_opt (CollectionItem_projectId c));
           ("smc", LinkContract.smc_json s)]) = true.
Proof.
  intros (Ha & Ht & Hy). unfold IUpdateCollection. rewrite conforms_object. cbn. unfold has_member. cbn. rewrite !conforms_of_opt.
  unfold LinkContract.smc_json, ILinkContract. rewrite conforms_object. unfold has_member. cbn.
  by rewrite (conforms_opt_text _ Ha), (conforms_opt_text _ Ht), (conforms_opt_text _ Hy).
Qed.

Abbreviation create_dialog := (CreateNft.page portal ls (Val c)).
Abbreviation update_dialog i := (UpdateNft.page portal ls (Val c) i).

Definition sends_typed {K D} (P : jsval -> Prop) (k : K) (l : list (cmd K D)) : Prop :=
  forall r, In (Send k r) l -> exists b, req_body r = JsonBody b /\ P b.

(** C29: the bodies against their interfaces: whatever the user does and the portal answers,
    what the dialog of a contract sends has the type [IUpdateCollection]; what the dialogs
    that create and update a collectible send never has the type [ICreateCollectible] as it
    is declared, whose [attributes] is one attribute; with a list of attributes in its
    place, a creation always has it, and an update if every address of an image that the
    portal has sent, which is declared [any], was a text or missing. *)
Theorem portal_bodies_typed token i cf l cl
    (Ht : read_item "accessToken" ls = Some token)
    (Hcreate : reachable (comp := create_dialog) (exec (comp := create_dialog) (start CreateNft.new_state) (User Init)) cf)
    (Hlink : reachable (comp := link_dialog) (exec (comp := link_dialog) (start LinkContract.new_state) (User LinkContract.Init)) cl) :
  let cu := exec_all (comp := update_dialog i) (exec (comp := update_dialog i) (start UpdateNft.new_state) (User Init)) l in
  sends_typed typed_but_for_attributes CreateNft.Create (on_event (Component := create_dialog) Submit (c_state cf)).2 /\
  sends_typed (fun b => conforms ICreateCollectible b = false /\
                        (text_images portal ls c i l -> conforms (collectible_type (TArray attribute_type)) b = true))
    UpdateNft.Update (on_event (Component := update_dialog i) Submit (c_state cu)).2 /\
  sends_typed (fun b => conforms IUpdateCollection b = true) tt
    (on_event (Component := link_dialog) LinkContract.Submit (c_state cl)).2.
Proof.
  intros cu. split_and_all.
  - assert (Hty : typed (c_state cf)).
    { apply (typed_reachable portal ls c (exec (comp := create_dialog) (start CreateNft.new_state) (User Init))); [|done].
      cbn [exec]. rewrite run_state. apply typed_init. }
    intros r. cbn [on_event CreateNft.page]. destruct (CreateNft.collectibleForm_valid (c_state cf)) eqn:Hv.
    + assert (exists q, quantity (CreateNft.collectibleForm (c_state cf)) = JNum q) as [q Eq].
      { apply required_number_field; [|apply (typed_quantity _ _ _ _ (typed_form _ Hty))].
        unfold CreateNft.collectibleForm_valid in Hv. by repeat apply andb_true_iff in Hv as [Hv ?]. }
      rewrite (CreateNft.createCollectible_valid q Hv Eq Ht).
      destruct (tokenId _); cbn [snd]; try (by intros []); intros [[= <-]|[]]; eexists; (split; [reflexivity|by apply created_body_type]).
    + by rewrite (createCollectible_invalid _ _ _ _ Hv).
  - intros r. cbn [on_event UpdateNft.page].
    assert (Hty : item_typed (c_state cu)) by (apply (item_typed_reachable portal ls c i), reachable_exec_all).
    rewrite (update_submit portal ls c i token _ Ht (update_fields_scalar _ Hty)). destruct (UpdateNft.collectibleForm_valid _); [|by intros []].
    intros [[= <-]|[]]. eexists. split; [reflexivity|].
    split; [by apply (list_of_attributes _ (attributes (UpdateNft.collectibleForm (c_state cu))))|intros Hl].
    apply updated_body_type; [done|]. pose proof (image_text_run portal ls c i l Hl) as [?|[E|E]]; [by apply conforms_text|unfold cu; by rewrite E..].
  - intros r. cbn [on_event LinkContract.page]. pose proof (link_typed_reachable cl Hlink) as Hty.
    destruct (LinkContract.linkContractForm_valid (c_state cl)) eqn:Hv.
    + rewrite (LinkContract.updateLinkContract_spec _ _ _ _ _ Hv Ht). intros [[= <-]|[]]. eexists. split; [reflexivity|]. by apply linked_body_type.
    + unfold LinkContract.updateLinkContract. destruct (c_state cl) as [e a t n y]. unfold LinkContract.linkContractForm_valid in Hv. cbn in Hv. run_m. cbn.
      unfold LinkContract.linkContractForm_valid. cbn. rewrite Hv. by intros [].
Qed.
End bodies.

#[local] Existing Instance angular.

Lemma sword_has_no_image : text_image (UpdateNft.sword [mkAttribute (Val "sharp") (Val "edge")]).
Proof. intros m Em. injection Em as <-. right. right. reflexivity. Qed.

Lemma portal_bodies_typed_witness :
  let create := CreateNft.page hub hub_token (Val UpdateNft.museum) in
  let cf := exec (comp := create) filling (User (TypeToken (Some (int 5)))) in
  let d := UpdateNft.sword [mkAttribute (Val "sharp") (Val "edge")] in
  let update := UpdateNft.page hub hub_token (Val UpdateNft.museum) (Val d) in
  let answers := [Respond (comp := update) 0 (UpdateNft.answer hub hub_token (Val UpdateNft.museum) (Val d) d)] in
  let cu := exec_all (comp := update) (exec (comp := update) (start UpdateNft.new_state) (User Init)) answers in
  let link := LinkContract.page hub hub_token (Val UpdateNft.museum) in
  let cl := exec_all (comp := link) (exec (comp := link) (start LinkContract.new_state) (User LinkContract.Init))
    [User (LinkContract.TypeAddress "0x1"); User (LinkContract.PickType "ERC721"); User (LinkContract.TypeNetwork (Some (int 1)));
     User (LinkContract.TypeSymbol "ART")] in
  CreateNft.collectibleForm_valid (c_state cf) = true /\ UpdateNft.collectibleForm_valid (c_state cu) = true /\
  LinkContract.linkContractForm_valid (c_state cl) = true /\
  (sends_typed typed_but_for_attributes CreateNft.Create (on_event (Component := create) Submit (c_state cf)).2 /\
   sends_typed typed_but_for_attributes UpdateNft.Update (on_event (Component := update) Submit (c_state cu)).2 /\
   sends_typed (fun b => conforms IUpdateCollection b = true) tt (on_event (Component := link) LinkContract.Submit (c_state cl)).2).
Proof.
  intros create cf d update answers cu link cl. split; [vm_compute; reflexivity|]. split; [vm_compute; reflexivity|]. split; [vm_compute; reflexivity|].
  assert (Ht : read_item "accessToken" hub_token = Some tok) by (vm_compute; reflexivity).
  destruct (portal_bodies_typed hub hub_token UpdateNft.museum tok (Val d) cf answers cl Ht) as (H1 & H2 & H3).
  - apply reach_step. apply reachable_exec_all.
  - apply reachable_exec_all.
  - split; [exact H1|]. split; [|exact H3]. intros r Hr. destruct (H2 r Hr) as (b & Eb & Hb & Hty). exists b. split; [exact Eb|].
    split; [|exact Hb]. apply Hty. apply Forall_singleton. exact sword_has_no_image.
Defined.
