(* ===== verification/CollectionPage.v ===== *)
(** * The page of one collection ([CollectionDetail1Component],
    [collection/detail/collectionDetail.component.ts])

    The form of the collection, its publication, the list of its collectibles, and the
    dialogs of [Collectibles], whose outputs all make the page list the collectibles again. *)

From S2P Require Import Prelude Codec JsVal Json Runtime ConsoleTypes Accounts Session LayergPortal Forms ImageUpload Collections Collectibles.

Record state := mkState {
  error : jsval;
  success : jsval;
  image : ImageUpload.state;
  name : jsval;
  description : jsval;
  collection : opt CollectionItem;
  config_ : jsval;               (* [this.config] *)
  baseUriNft : opt string;
  c_page : jsval;
  c_limit : jsval;
  c_search : jsval;
  page_ : num;                   (* [this.page] *)
  collectibleCount : opt num;
  collectibles : list ICollectibleItem;
  ongoingQuery : bool
}.

#[export] Instance eta_state : Eta state := fun s =>
  mkState (error s) (success s) (image s) (name s) (description s) (collection s) (config_ s) (baseUriNft s) (c_page s)
    (c_limit s) (c_search s) (page_ s) (collectibleCount s) (collectibles s) (ongoingQuery s).

Definition limit : num := int 10.
Definition new_state : state :=
  mkState (JStr "") (JStr "") no_image JUndef JUndef Und JUndef Und JUndef JUndef JUndef (int 1) (Val (int 0)) [] false.

(** Runs a handler on an explicit state; the record is computed once per assignment. *)
Ltac run_state :=
  cbv beta iota zeta delta [when force subscriber try_catch mbind M_bind bind mret M_ret ret throw gets assign emit zoom
    portal_send stored_project or_throw setf fst snd app error success image name description collection config_ baseUriNft
    c_page c_limit c_search page_ collectibleCount collectibles ongoingQuery
    ImageUpload.selectedFile ImageUpload.imagePreview ImageUpload.avatarUrl ImageUpload.reading].

Inductive subscription := Upload | Update | List_ | Detail | Publish.
Inductive dialog :=
| CreateDialog (collectionData : opt CollectionItem)
| UpdateDialog (collectionData : opt CollectionItem) (collectibleData : ICollectibleItem) (baseUriNft : opt string)
| LinkDialog (collectionData : opt CollectionItem).
Inductive event :=
| Init (configRes : jsval) (col : opt CollectionItem)        (* [ngOnInit], with the resolved data *)
| RouteData (configRes : jsval) (col : opt CollectionItem)   (* a later emission *)
| TypeName (v : string)
| TypeDescription (v : string)
| TypeSearch (v : string)
| ChooseFile (files : list string)
| FileRead (i : nat) (result : string)
| Submit
| Back
| SearchClick
| PageChange (p : positive)
| ChangeLimit (v : string)
| View (o : ICollectibleItem)
| AddClick
| LinkClick
| PublishClick.

Definition answer_of (k : subscription) : Type :=
  match k with Upload => fileHashes | List_ => CollectibleList | Detail => CollectionItem | Update | Publish => jsval end.

Section validated.
Context {validators : Validators}.

Section collection.
Context (portal : LayergPortalConfig) (ls : gmap string string).

Abbreviation H := (M state (cmd subscription dialog)).

Definition list_filter (s : state) : list (string * jsval) :=
  [("limit", jor (c_limit s) (JNum limit)); ("page", jor (c_page s) (JNum (page_ s)));
   ("search", jor (c_search s) (JStr "")); ("collectionId", of_opt (chain (collection s) CollectionItem_id))].

Definition getListCollectible : H unit :=
  filter ← gets list_filter;
  portal_send List_ (listCollectibles portal ls filter).

Definition list_next (d : CollectibleList) : H unit :=
  error <~ JStr "";;
  collectibles <~ [];;
  l ← force "d.data is not iterable" (CollectibleList_data d);
  collectibles <~ l;;
  collectibleCount <~ chain (CollectibleList_paging d) Paging_total.

Definition list_error (err : jsval) : H unit :=
  error <~ err;;
  ongoingQuery <~ false.

(** [collectionForm.patchValue(c)]: the controls that [c] has a property for; an answer of
    the portal has no property that is [undefined]. *)
Definition patch (f : state -> jsval) `{!Setter f} (v : opt string) : H unit :=
  match v with Und => ret tt | _ => f <~ of_opt v end.
Definition patchValue (c : opt CollectionItem) : H unit :=
  match c with
  | Val c =>
      patch name (CollectionItem_name c);;
      patch description (CollectionItem_description c);;
      match CollectionItem_avatarUrl c with Und => ret tt | v => zoom image (avatarUrl <~ of_opt v) end
  | _ => ret tt
  end.

(** The subscriber of the data of the parent route. *)
Definition route_data (configRes : jsval) (col : opt CollectionItem) : H unit :=
  config_ <~ configRes;;
  parsed ← (match parse_config configRes with Ret v => ret v | Throw e => throw e end);
  baseUriNft <~ Val (String_ (layerg_core parsed "hub_url") +:+ "/assets/");;
  collection <~ col;;
  patchValue col;;
  c ← force "Cannot read properties of undefined (reading 'avatarUrl')" col;
  zoom image (imagePreview <~ of_opt (CollectionItem_avatarUrl c);; avatarUrl <~ of_opt (CollectionItem_avatarUrl c));;
  getListCollectible.

Definition ngOnInit (configRes : jsval) (col : opt CollectionItem) : H unit :=
  name <~ JStr "";; description <~ JStr "";; zoom image (avatarUrl <~ JStr "");;
  p ← gets page_;
  c_page <~ JNum p;; c_limit <~ JNum limit;; c_search <~ JStr "";;
  subscriber (route_data configRes col).

Definition collectionForm_valid (s : state) : bool :=
  required (name s) && maxLength 255 (description s) && required (avatarUrl (image s)).

Definition onFileSelected (files : list string) : H unit := zoom image (ImageUpload.onFileSelected portal ls Upload files).
Definition onload (i : nat) (result : string) : H unit := zoom image (ImageUpload.onload i result).
Definition uploadImage_next (h : fileHashes) : H unit := zoom image (upload_next portal h).
Definition uploadImage_error : H unit := zoom image upload_error.

(** [createCollection], which updates the collection. *)
Definition createCollection : H unit :=
  try_catch (
    error <~ JStr "";;
    valid ← gets collectionForm_valid;
    when valid (
      n ← gets name; d ← gets description; a ← gets (fun s => avatarUrl (image s));
      projectId ← stored_project ls;
      c ← gets collection;
      portal_send Update (updateCollections portal ls (chain c CollectionItem_id)
        (JObj [("name", n); ("description", d); ("avatarUrl", a); ("projectId", projectId)]))))
    (fun e => error <~ e).

Definition createCollection_next : H unit := emit (Navigate (mkNavigation ["/collections"] [] false)).

Definition handleBack : H unit := emit (Navigate (mkNavigation ["/collections"] [] false)).

Definition onPageChange (p : num) : H unit :=
  c_page <~ JNum p;;
  getListCollectible.

(** The pagination runs [onPageChange] and then sets its page. *)
Definition page_changed (p : num) : H unit :=
  subscriber (onPageChange p);;
  page_ <~ p.

Definition changeLimit (v : string) : H unit :=
  c_limit <~ JNum (Number_of_string v);;
  getListCollectible.

Definition viewDetailNft (o : ICollectibleItem) : H unit :=
  c ← gets collection; b ← gets baseUriNft;
  emit (OpenConfirm (UpdateDialog c o b)).
Definition openModal : H unit := c ← gets collection; emit (OpenConfirm (CreateDialog c)).
Definition openLinkContractModal : H unit := c ← gets collection; emit (OpenConfirm (LinkDialog c)).

(** The subscriber of the output of any of the three dialogs. *)
Definition dialog_output : H unit := subscriber getListCollectible.

Definition detailCollection : H unit :=
  c ← gets collection;
  portal_send Detail (LayergPortal.detailCollection portal ls (chain c CollectionItem_id)).

Definition detailCollection_next (data : CollectionItem) : H unit :=
  collection <~ Val data;;
  patchValue (Val data).

Definition publicCollection (id : opt string) : H unit :=
  success <~ JStr "";;
  portal_send Publish (LayergPortal.publicCollection portal ls id).

Definition publicCollection_next : H unit :=
  detailCollection;;
  success <~ JStr "Public collection success".

#[export] Instance page : Component state event subscription dialog := {
  resp := answer_of;
  on_event e :=
    match e with
    | Init configRes col => ngOnInit configRes col
    | RouteData configRes col => subscriber (route_data configRes col)
    | TypeName v => name <~ JStr v
    | TypeDescription v => description <~ JStr v
    | TypeSearch v => c_search <~ JStr v
    | ChooseFile files => onFileSelected files
    | FileRead i result => onload i result
    | Submit => createCollection
    | Back => handleBack
    | SearchClick => getListCollectible
    | PageChange p => page_changed (int (Zpos p))
    | ChangeLimit v => changeLimit v
    | View o => viewDetailNft o
    | AddClick => openModal
    | LinkClick => openLinkContractModal
    | PublishClick => c ← gets collection; publicCollection (chain c CollectionItem_id)
    end;
  on_next k :=
    match k with
    | Upload => uploadImage_next
    | Update => fun _ => createCollection_next
    | List_ => list_next
    | Detail => detailCollection_next
    | Publish => fun _ => publicCollection_next
    end;
  on_error k err :=
    match k with
    | Upload => uploadImage_error
    | List_ => list_error err
    | Update | Detail | Publish => error <~ err
    end;
  on_confirm _ _ := dialog_output;
  take_until _ := false
}.
End collection.

(** ** What the handlers do *)

Definition authorized (token : jsval) : http_headers :=
  {["Authorization" := "Bearer " +:+ String_ (jchain "accessToken" token)]}.

(** Answers of the portal. *)
Definition answer portal ls (c : CollectionItem) (l : CollectibleList) : forall k, resp (Component := page portal ls) k :=
  fun k => match k with Detail => c | List_ => l | Upload => Hashes [] | Update | Publish => JNull end.

(** What is left of the form when a collection has been patched into it. *)
Definition patched (v : opt string) (old : jsval) : jsval := match v with Und => old | _ => of_opt v end.

Lemma publicCollection_spec portal ls token id s : read_item "accessToken" ls = Some token ->
  publicCollection portal ls id s =
    (Ret tt, setf (f := success) (fun _ => JStr "") s,
     [Send Publish (mkRequest POST (url_of portal ("/collection/public/" +:+ js_String id)) (JsonBody (JObj [])) [] (authorized token))]).
Proof.
  intros Ht. unfold publicCollection, LayergPortal.publicCollection, portal_post, portal_headers. rewrite Ht. by destruct s.
Qed.

Lemma publish_click_spec portal ls token s : read_item "accessToken" ls = Some token ->
  on_event (Component := page portal ls) PublishClick s =
    (Ret tt, setf (f := success) (fun _ => JStr "") s,
     [Send Publish (mkRequest POST (url_of portal ("/collection/public/" +:+ js_String (chain (collection s) CollectionItem_id)))
        (JsonBody (JObj [])) [] (authorized token))]).
Proof. intros Ht. cbn [on_event page]. run_m. by rewrite (publicCollection_spec _ _ token). Qed.

Lemma published_spec portal ls token s : read_item "accessToken" ls = Some token ->
  publicCollection_next portal ls s =
    (Ret tt, setf (f := success) (fun _ => JStr "Public collection success") s,
     [Send Detail (mkRequest GET (url_of portal ("/collection/" +:+ encodeURIComponent (js_String (chain (collection s) CollectionItem_id))))
        NoBody [] (authorized token))]).
Proof.
  intros Ht. unfold publicCollection_next, detailCollection, LayergPortal.detailCollection, portal_get, portal_headers.
  rewrite Ht. by destruct s.
Qed.

Lemma detail_next_spec c s :
  detailCollection_next c s =
    (Ret tt, mkState (error s) (success s)
       (mkImage (selectedFile (image s)) (imagePreview (image s)) (patched (CollectionItem_avatarUrl c) (avatarUrl (image s))) (reading (image s)))
       (patched (CollectionItem_name c) (name s)) (patched (CollectionItem_description c) (description s)) (Val c) (config_ s)
       (baseUriNft s) (c_page s) (c_limit s) (c_search s) (page_ s) (collectibleCount s) (collectibles s) (ongoingQuery s), []).
Proof.
  destruct s as [e su [sel prev av rd] n d co cf b p l se pg cc cs og]. destruct c as [i1 i2 i3 i4 i5 i6 i7 i8 i9 i10 i11 i12 i13].
  unfold detailCollection_next, patchValue, patch. cbn [CollectionItem_name CollectionItem_description CollectionItem_avatarUrl].
  destruct i4, i6, i7; reflexivity.
Qed.

Lemma list_spec portal ls token s : read_item "accessToken" ls = Some token ->
  getListCollectible portal ls s =
    (Ret tt, s, [Send List_ (mkRequest GET (url_of portal "/assets") NoBody (object_params (list_filter s)) (authorized token))]).
Proof. intros Ht. unfold getListCollectible, listCollectibles, portal_get, portal_headers. by rewrite Ht. Qed.

Lemma dialog_output_spec portal ls token s : read_item "accessToken" ls = Some token ->
  dialog_output portal ls s =
    (Ret tt, s, [Send List_ (mkRequest GET (url_of portal "/assets") NoBody (object_params (list_filter s)) (authorized token))]).
Proof. intros Ht. unfold dialog_output, subscriber, try_catch. by rewrite (list_spec _ _ token). Qed.

Lemma list_next_spec d l s : CollectibleList_data d = Val l ->
  list_next d s =
    (Ret tt, mkState (JStr "") (success s) (image s) (name s) (description s) (collection s) (config_ s) (baseUriNft s) (c_page s)
       (c_limit s) (c_search s) (page_ s) (chain (CollectibleList_paging d) Paging_total) l (ongoingQuery s), []).
Proof. destruct d as [pg dt], s. cbn [CollectibleList_data]. intros ->. reflexivity. Qed.

(** ** The properties *)

(** Publishing a collection: the click sends one request for it, its answer asks for
    the collection again, and the second answer becomes the collection of the page with a
    message of success; the form then shows the collection as it is stored, so that what
    the user had typed and not yet saved is lost. *)
Theorem publish_collection portal ls token s c c' n d
    (Ht : read_item "accessToken" ls = Some token) (Hc : collection s = Val c)
    (Hn : CollectionItem_name c' = Val n) (Hd : CollectionItem_description c' = Val d) :
  let cf := exec_all (comp := page portal ls) (start s)
    [User PublishClick; Respond 0 (answer portal ls c' (mkCollectibleList Und Und)); Respond 0 (answer portal ls c' (mkCollectibleList Und Und))] in
  (exists r1 r2, c_trace cf = [Send Publish r1; Send Detail r2] /\
     req_method r1 = POST /\ req_url r1 = url_of portal ("/collection/public/" +:+ js_String (CollectionItem_id c)) /\
     req_method r2 = GET /\ req_url r2 = url_of portal ("/collection/" +:+ encodeURIComponent (js_String (CollectionItem_id c)))) /\
  c_pending cf = [] /\ collection (c_state cf) = Val c' /\ success (c_state cf) = JStr "Public collection success" /\
  name (c_state cf) = JStr n /\ description (c_state cf) = JStr d.
Proof.
  cbv zeta. user_step by (publish_click_spec portal ls token s Ht).
  respond_step by (published_spec portal ls token _ Ht). respond_step by (detail_next_spec c').
  unfold patched. rewrite Hn, Hd.
  assert (E : collection (setf (f := success) (fun _ => JStr "") s) = Val c) by (by destruct s). rewrite E, Hc.
  destruct s. cbn. split; [|done]. by eexists _, _.
Qed.

(** A contract that has been linked from the page of its collection is not known to
    the page: the dialog sends the contract with the rest of the collection, closes and
    tells the page, which lists the collectibles again and keeps the collection it has; so
    when the dialog is opened again, its form is empty and another contract can be sent. *)
Theorem link_contract_forgotten portal ls token c s form d l
    (Ht : read_item "accessToken" ls = Some token) (Hc : collection s = Val c)
    (Hno : CollectionItem_SmartContract c = Val []) (Hv : LinkContract.linkContractForm_valid form = true)
    (Hd : CollectibleList_data d = Val l) :
  let dialog := exec_all (comp := LinkContract.page portal ls (Val c)) (start form) [User LinkContract.Submit; Respond (comp := LinkContract.page portal ls (Val c)) 0 (fun _ => JNull)] in
  let cf := exec_all (comp := page portal ls) (start s) [User LinkClick; Confirm 0 JUndef; Respond 0 (answer portal ls c d)] in
  (exists r, c_trace dialog = [Send tt r; CloseModal; Output "linkContractUpdated"] /\
     req_method r = PUT /\ req_url r = url_of portal ("/collection/" +:+ encodeURIComponent (js_String (CollectionItem_id c))) /\
     CreateNft.body_field r "smc" = Some (LinkContract.smc_json form)) /\
  (exists r, c_trace cf = [OpenConfirm (LinkDialog (Val c)); Send List_ r]) /\
  collectibles (c_state cf) = l /\ collection (c_state cf) = Val c /\
  c_state (exec (comp := LinkContract.page portal ls (collection (c_state cf))) (start LinkContract.new_state) (User LinkContract.Init)) =
    LinkContract.mkState (JStr "") (JStr "") (JStr "") (JStr "") (JStr "").
Proof.
  cbv zeta. split.
  - user_step by (LinkContract.updateLinkContract_spec portal ls c form token Hv Ht).
    respond_step. eexists. split; [reflexivity|]. done.
  - rewrite exec_all_cons. erewrite exec_User.
    2: { cbn [on_event page start c_state]. unfold openLinkContractModal. run_m. rewrite Hc. reflexivity. }
    simpl_config. rewrite exec_all_cons. erewrite exec_Confirm; [|reflexivity|apply (dialog_output_spec portal ls token), Ht].
    unfold drop_dialog. simpl_config. respond_step by (list_next_spec d l _ Hd). rewrite Hc.
    split; [by eexists|]. split_and_all; [done..|]. cbn [exec_all fold_left c_state collection].
    erewrite exec_User; [|cbn [on_event LinkContract.page]; apply LinkContract.init_without_contract; cbn; by rewrite Hno].
    reflexivity.
Qed.

End validated.

#[local] Existing Instance angular.

(** The page of a collection without a contract, with an edited description. *)
Definition plain : CollectionItem :=
  mkCollectionItem (Val "c1") Und Und (Val "Museum") Und (Val "Old") (Val "https://hub/m") (Val "p1") JUndef Und Und (Val []) Und.
Definition edited : state :=
  setf (f := description) (fun _ => JStr "New") (setf (f := collection) (fun _ => Val plain) new_state).
Definition contract_form : LinkContract.state :=
  LinkContract.mkState (JStr "") (JStr "0xabc") (JStr "ERC721") (JNum (int 2484)) (JStr "MUS").

Lemma publish_collection_witness :
  let a := answer hub hub_token plain (mkCollectibleList Und Und) in
  let cf := exec_all (comp := page hub hub_token) (start edited) [User PublishClick; Respond 0 a; Respond 0 a] in
  (exists r1 r2, c_trace cf = [Send Publish r1; Send Detail r2] /\
     req_method r1 = POST /\ req_url r1 = url_of hub "/collection/public/c1" /\
     req_method r2 = GET /\ req_url r2 = url_of hub "/collection/c1") /\
  c_pending cf = [] /\ collection (c_state cf) = Val plain /\ success (c_state cf) = JStr "Public collection success" /\
  name (c_state cf) = JStr "Museum" /\ description (c_state cf) = JStr "Old".
Proof. apply (publish_collection hub hub_token tok edited plain plain "Museum" "Old"); reflexivity. Defined.

Lemma link_contract_forgotten_witness :
  let d := mkCollectibleList Und (Val []) in
  let dialog := exec_all (comp := LinkContract.page hub hub_token (Val plain)) (start contract_form)
    [User LinkContract.Submit; Respond (comp := LinkContract.page hub hub_token (Val plain)) 0 (fun _ => JNull)] in
  let cf := exec_all (comp := page hub hub_token) (start edited) [User LinkClick; Confirm 0 JUndef; Respond 0 (answer hub hub_token plain d)] in
  (exists r, c_trace dialog = [Send tt r; CloseModal; Output "linkContractUpdated"] /\
     req_method r = PUT /\ req_url r = url_of hub "/collection/c1" /\
     CreateNft.body_field r "smc" = Some (LinkContract.smc_json contract_form)) /\
  (exists r, c_trace cf = [OpenConfirm (LinkDialog (Val plain)); Send List_ r]) /\
  collectibles (c_state cf) = [] /\ collection (c_state cf) = Val plain /\
  c_state (exec (comp := LinkContract.page hub hub_token (collection (c_state cf))) (start LinkContract.new_state) (User LinkContract.Init)) =
    LinkContract.mkState (JStr "") (JStr "") (JStr "") (JStr "") (JStr "").
Proof.
  apply (link_contract_forgotten hub hub_token tok plain edited contract_form (mkCollectibleList Und (Val [])) []); reflexivity.
Defined.
