(* ===== verification/Dialogs.v ===== *)
(** * A page together with the dialogs it has opened

    [modalService.open] makes a component of its own, which the page gives its inputs and
    whose output it subscribes to.  [Modals] says which component each dialog of a page is;
    [screen] is the page with all dialogs it has ever opened: one that was closed is not
    shown any more, but its requests stay pending and their callbacks still run.  The page
    of a collection is an instance, with the three dialogs of [Collectibles]. *)

From S2P Require Import Prelude Codec JsVal Json Runtime ConsoleTypes Session LayergPortal Forms ImageUpload Collections Collectibles CollectionPage.

(** The component of each dialog, and its state when it is opened. *)
Class Modals (D : Type) := {
  modal_state : D -> Type;
  modal_event : D -> Type;
  modal_sub : D -> Type;
  modal_comp d : Component (modal_state d) (modal_event d) (modal_sub d) Empty_set;
  modal_new d : modal_state d;
  modal_init d : modal_event d;          (* [ngOnInit], after the inputs have been set *)
  changes d : modal_sub d -> bool        (* requests that, when they succeed, have changed what the page shows *)
}.
#[export] Existing Instance modal_comp.

Section screen.
Context {S Ev K D : Type} {comp : Component S Ev K D} {modals : Modals D}.

Record opened := mkOpened {
  o_dialog : D;
  o_config : config (modal_state o_dialog) (modal_sub o_dialog) Empty_set;
  o_visible : bool
}.

Record screen := mkScreen { s_page : config S K D; s_opened : list opened }.

Definition open_modal (d : D) : opened := mkOpened d (exec (start (modal_new d)) (User (modal_init d))) true.

(** Makes a component for each dialog that the page has opened since. *)
Definition sync (s : screen) : screen :=
  mkScreen (s_page s) (s_opened s ++ map open_modal (drop (length (s_opened s)) (c_dialogs (s_page s)))).

Definition closes {K D} (x : cmd K D) : bool := match x with CloseModal => true | _ => false end.
Definition is_output {K D} (x : cmd K D) : bool := match x with Output _ => true | _ => false end.

(** An output runs the handler that the page has subscribed to it. *)
Definition react (d : D) (p : config S K D) (x : cmd (modal_sub d) Empty_set) : config S K D :=
  if is_output x then (run (on_confirm d JUndef) p).2 else p.

Inductive screen_action :=
| OnPage (a : action S Ev K D)
| OnModal (i : nat) (a : forall d, action (modal_state d) (modal_event d) (modal_sub d) Empty_set).

(** The user's events reach a dialog only while it is shown. *)
Definition reaches_modal (o : opened) (a : action (modal_state (o_dialog o)) (modal_event (o_dialog o)) (modal_sub (o_dialog o)) Empty_set) : bool :=
  match a with User _ => o_visible o | Respond _ _ | Refuse _ _ => true | _ => false end.

Definition modal_exec (i : nat) (a : forall d, action (modal_state d) (modal_event d) (modal_sub d) Empty_set) (s : screen) : screen :=
  match s_opened s !! i with
  | Some o =>
      if reaches_modal o (a (o_dialog o)) then
        let c := exec (o_config o) (a (o_dialog o)) in
        let l := drop (length (c_trace (o_config o))) (c_trace c) in
        mkScreen (fold_left (react (o_dialog o)) l (s_page s))
          (<[i := mkOpened (o_dialog o) c (o_visible o && negb (existsb closes l))]> (s_opened s))
      else s
  | None => s
  end.

Definition screen_exec (s : screen) (a : screen_action) : screen :=
  match a with
  | OnPage a => if own a then sync (mkScreen (exec (s_page s) a) (s_opened s)) else s
  | OnModal i a => sync (modal_exec i a s)
  end.

Definition screen_exec_all (s : screen) (l : list screen_action) : screen := fold_left screen_exec l s.

Inductive screen_reachable (s0 : screen) : screen -> Prop :=
| screen_refl : screen_reachable s0 s0
| screen_next s a : screen_reachable s0 s -> screen_reachable s0 (screen_exec s a).

Lemma screen_reachable_all s l : screen_reachable s (screen_exec_all s l).
Proof.
  induction l as [|a l IH] using rev_ind; [constructor|].
  unfold screen_exec_all in *. rewrite fold_left_app. by apply (screen_next s _ a).
Qed.

(** One step of a dialog, from the result of its handler. *)
Lemma modal_exec_spec i (a : forall d, action (modal_state d) (modal_event d) (modal_sub d) Empty_set) s d cfg vis cfg' l :
  s_opened s !! i = Some (mkOpened d cfg vis) -> reaches_modal (mkOpened d cfg vis) (a d) = true ->
  exec cfg (a d) = cfg' -> c_trace cfg' = c_trace cfg ++ l ->
  modal_exec i a s = mkScreen (fold_left (react d) l (s_page s))
                       (<[i := mkOpened d cfg' (vis && negb (existsb closes l))]> (s_opened s)).
Proof.
  intros Hi Hr <- El. unfold modal_exec. rewrite Hi. cbn [o_dialog o_config o_visible]. rewrite Hr.
  by rewrite El, drop_app_length.
Qed.

Lemma sync_same s : length (c_dialogs (s_page s)) <= length (s_opened s) -> sync s = s.
Proof. intros Hl. unfold sync. rewrite drop_ge by done. cbn. rewrite app_nil_r. by destruct s. Qed.

(** The same for the only dialog of a screen. *)
Lemma modal_alone (a : forall d, action (modal_state d) (modal_event d) (modal_sub d) Empty_set) d cfg vis cfg' l p p' :
  reaches_modal (mkOpened d cfg vis) (a d) = true -> exec cfg (a d) = cfg' -> c_trace cfg' = c_trace cfg ++ l ->
  fold_left (react d) l p = p' -> length (c_dialogs p') <= 1 ->
  screen_exec (mkScreen p [mkOpened d cfg vis]) (OnModal 0 a) = mkScreen p' [mkOpened d cfg' (vis && negb (existsb closes l))].
Proof.
  intros Hr E El <- Hd. cbn [screen_exec]. rewrite (modal_exec_spec 0 a (mkScreen p [mkOpened d cfg vis]) d cfg vis cfg' l eq_refl Hr E El).
  by apply sync_same.
Qed.

(** ** The outputs of the dialogs and what the page does *)

Definition count {A} (f : A -> bool) (l : list A) : nat := length (List.filter f l).

Lemma count_app {A} (f : A -> bool) l l' : count f (l ++ l') = count f l + count f l'.
Proof. unfold count. by rewrite List.filter_app, length_app. Qed.

(** The action is the answer of the server to a request that has changed something. *)
Definition accomplishes (s : screen) (a : screen_action) : bool :=
  match a with
  | OnPage _ => false
  | OnModal i a =>
      match s_opened s !! i with
      | Some o =>
          match a (o_dialog o) with
          | Respond k _ => match c_pending (o_config o) !! k with Some sub => changes (o_dialog o) sub | None => false end
          | _ => false
          end
      | None => false
      end
  end.

(** How many such answers a run has. *)
Fixpoint accomplished (s : screen) (l : list screen_action) : nat :=
  match l with
  | [] => 0
  | a :: l => (if accomplishes s a then 1 else 0) + accomplished (screen_exec s a) l
  end.

(** What the page does when a dialog is told that a request has succeeded. *)
Lemma accomplished_step s i o (a : forall d, action (modal_state d) (modal_event d) (modal_sub d) Empty_set) k (f : forall x, resp (Component := modal_comp (o_dialog o)) x) sub :
  s_opened s !! i = Some o -> a (o_dialog o) = Respond k f -> c_pending (o_config o) !! k = Some sub ->
  s_page (screen_exec s (OnModal i a)) = fold_left (react (o_dialog o)) (on_next sub (f sub) (c_state (o_config o))).2 (s_page s).
Proof.
  intros Ho Ea Ek. cbn [screen_exec sync s_page]. unfold modal_exec. rewrite Ho, Ea. cbn [reaches_modal s_page].
  f_equal. cbn [exec]. rewrite Ek, run_trace. cbn [drop_pending c_trace c_state]. by rewrite drop_app_length.
Qed.

(** When those requests end with an output, and each output makes the page issue a command
    of some kind, the page issues at least one such command for each of them. *)
Section told.
Context (wanted : cmd K D -> bool).
Context (tells : forall d sub x s, changes d sub = true -> 1 <= count is_output (on_next (Component := modal_comp d) sub x s).2).
Context (answers : forall d s, 1 <= count wanted (on_confirm d JUndef s).2).

Lemma react_all d l p :
  count wanted (c_trace p) + count is_output l <= count wanted (c_trace (fold_left (react d) l p)).
Proof.
  revert p. induction l as [|x l IH]; intros p; cbn [fold_left]; [cbn; lia|].
  specialize (IH (react d p x)). unfold react in IH at 1. unfold count at 2. cbn [List.filter].
  destruct (is_output x); [|exact IH]. rewrite run_trace, count_app in IH. specialize (answers d (c_state p)).
  unfold count at 3 in IH. cbn [length]. unfold count in *. lia.
Qed.

Lemma told_step s a :
  (if accomplishes s a then 1 else 0) + count wanted (c_trace (s_page s)) <= count wanted (c_trace (s_page (screen_exec s a))).
Proof.
  destruct a as [a|i a]; cbn [accomplishes].
  - cbn [screen_exec]. destruct (own a); [|cbn; lia]. cbn [sync s_page].
    destruct (exec_trace (s_page s) a) as [l ->]. rewrite count_app. lia.
  - destruct (s_opened s !! i) as [o|] eqn:Ho.
    2: { cbn [screen_exec sync s_page]. unfold modal_exec. rewrite Ho. cbn. lia. }
    assert (Hmore : count wanted (c_trace (s_page s)) <= count wanted (c_trace (s_page (screen_exec s (OnModal i a))))).
    { cbn [screen_exec sync s_page]. unfold modal_exec. rewrite Ho. destruct (reaches_modal o _); [|cbn; lia]. cbn [s_page].
      pose proof (react_all (o_dialog o) (drop (length (c_trace (o_config o))) (c_trace (exec (o_config o) (a (o_dialog o))))) (s_page s)). lia. }
    destruct (a (o_dialog o)) as [e|k f|k e|k v|k] eqn:Ea; try exact Hmore.
    destruct (c_pending (o_config o) !! k) as [sub|] eqn:Ek; [|exact Hmore].
    destruct (changes (o_dialog o) sub) eqn:Hd; [|exact Hmore].
    rewrite (accomplished_step s i o a k f sub Ho Ea Ek).
    pose proof (react_all (o_dialog o) (on_next sub (f sub) (c_state (o_config o))).2 (s_page s)).
    specialize (tells (o_dialog o) sub (f sub) (c_state (o_config o)) Hd). lia.
Qed.

Lemma all_told s l :
  accomplished s l + count wanted (c_trace (s_page s)) <= count wanted (c_trace (s_page (screen_exec_all s l))).
Proof.
  revert s. induction l as [|a l IH]; intros s; [cbn; lia|]. cbn [accomplished].
  pose proof (told_step s a). specialize (IH (screen_exec s a)). unfold screen_exec_all in *. cbn [fold_left]. lia.
Qed.
End told.

End screen.

(** ** The dialogs of the page of a collection *)

#[local] Existing Instance CreateNft.eta_state.

Section collection.
Context {validators : Validators} (portal : LayergPortalConfig) (ls : gmap string string).

Definition dialog_state (d : dialog) : Type :=
  match d with CreateDialog _ => CreateNft.state | UpdateDialog _ _ _ => UpdateNft.state | LinkDialog _ => LinkContract.state end.
Definition dialog_event (d : dialog) : Type :=
  match d with CreateDialog _ | UpdateDialog _ _ _ => Collectibles.event | LinkDialog _ => LinkContract.event end.
Definition dialog_sub (d : dialog) : Type :=
  match d with CreateDialog _ => CreateNft.subscription | UpdateDialog _ _ _ => UpdateNft.subscription | LinkDialog _ => unit end.

Definition dialog_comp (d : dialog) : Component (dialog_state d) (dialog_event d) (dialog_sub d) Empty_set :=
  match d with
  | CreateDialog c => CreateNft.page portal ls c
  | UpdateDialog c o _ => UpdateNft.page portal ls c (Val o)
  | LinkDialog c => LinkContract.page portal ls c
  end.

#[export] Instance collection_modals : Modals dialog := {
  modal_state := dialog_state;
  modal_event := dialog_event;
  modal_sub := dialog_sub;
  modal_comp := dialog_comp;
  modal_new d := match d with CreateDialog _ => CreateNft.new_state | UpdateDialog _ _ _ => UpdateNft.new_state | LinkDialog _ => LinkContract.new_state end;
  modal_init d := match d with CreateDialog _ | UpdateDialog _ _ _ => Collectibles.Init | LinkDialog _ => LinkContract.Init end;
  changes d :=
    match d with
    | CreateDialog _ => fun k => match k with CreateNft.Create => true | CreateNft.Upload => false end
    | UpdateDialog _ _ _ => fun k => match k with UpdateNft.Update => true | _ => false end
    | LinkDialog _ => fun _ => true
    end
}.

Abbreviation collection_screen := (@screen CollectionPage.state subscription dialog _).

Definition lists (x : cmd subscription dialog) : bool := match x with Send List_ _ => true | _ => false end.

(** What the page opens with: the configuration and the collection that the router has
    resolved. *)
Definition screen_of (configRes : jsval) (col : opt CollectionItem) : collection_screen :=
  sync (mkScreen (exec (comp := CollectionPage.page portal ls) (start CollectionPage.new_state) (User (Init configRes col))) []).

(** A dialog that has created, updated or linked something closes itself and says so. *)
Lemma change_told d sub x st : changes d sub = true ->
  exists output, (on_next (Component := modal_comp d) sub x st).2 = [CloseModal; Output output].
Proof. destruct d as [c|c o b|c]; [destruct sub|destruct sub|]; try discriminate; intros _; by eexists. Qed.

(** C30: no change goes unnoticed.  Whenever the portal answers that a collectible has been
    created or updated or a contract linked, in whatever state the page of the collection
    and its dialogs are, and also when the dialog that asked was closed before, the page
    asks at once for the list of the collection's collectibles, as its form and its
    pagination then stand; so along every run of the page it has asked for the list at least
    as often as something has been changed. *)
Theorem every_change_listed configRes col token (Ht : read_item "accessToken" ls = Some token) :
  (forall (s : collection_screen) i o (a : forall d, action (modal_state d) (modal_event d) (modal_sub d) Empty_set) k f sub,
     s_opened s !! i = Some o -> a (o_dialog o) = Respond k f -> c_pending (o_config o) !! k = Some sub ->
     changes (o_dialog o) sub = true ->
     c_trace (s_page (screen_exec (comp := CollectionPage.page portal ls) s (OnModal i a))) =
       c_trace (s_page s) ++ [Send List_ (mkRequest GET (url_of portal "/assets") NoBody
                                (object_params (list_filter (c_state (s_page s)))) (authorized token))]) /\
  (forall l, accomplished (comp := CollectionPage.page portal ls) (screen_of configRes col) l <=
     count lists (c_trace (s_page (screen_exec_all (comp := CollectionPage.page portal ls) (screen_of configRes col) l)))).
Proof.
  split.
  - intros s i o a k f sub Ho Ea Ek Hd. rewrite (accomplished_step s i o a k f sub Ho Ea Ek).
    destruct (change_told _ _ (f sub) (c_state (o_config o)) Hd) as [output ->]. cbn [fold_left]. unfold react. cbn [is_output].
    rewrite run_trace. cbn [on_confirm CollectionPage.page]. by rewrite (dialog_output_spec _ _ token).
  - intros l. pose proof (all_told (comp := CollectionPage.page portal ls) lists) as H.
    etransitivity; [|apply H]; [apply Nat.le_add_r|..].
    + intros d sub x st Hd. destruct (change_told d sub x st Hd) as [output ->]. cbn. lia.
    + intros d st. cbn [on_confirm CollectionPage.page]. by rewrite (dialog_output_spec _ _ token st Ht).
Qed.

(** What the user and the portal do to a dialog of any kind. *)
Definition submit_any (d : dialog) : action (modal_state d) (modal_event d) (modal_sub d) Empty_set :=
  match d with
  | CreateDialog _ => User (Collectibles.Submit : dialog_event (CreateDialog _))
  | UpdateDialog _ _ _ => User (Collectibles.Submit : dialog_event (UpdateDialog _ _ _))
  | LinkDialog _ => User (LinkContract.Submit : dialog_event (LinkDialog _))
  end.

Definition answer_any (d : dialog) : action (modal_state d) (modal_event d) (modal_sub d) Empty_set :=
  match d with
  | CreateDialog c => Respond (comp := CreateNft.page portal ls c) 0
      (fun k => match k with CreateNft.Upload => Hashes [] | CreateNft.Create => JNull end)
  | UpdateDialog c o _ => Respond (comp := UpdateNft.page portal ls c (Val o)) 0
      (fun k => match k with UpdateNft.Detail => o | UpdateNft.Upload => Hashes [] | UpdateNft.Update => JNull end)
  | LinkDialog c => Respond (comp := LinkContract.page portal ls c) 0 (fun _ => JNull)
  end.

Abbreviation create_config := (config CreateNft.state CreateNft.subscription Empty_set).

Section double.
Context (c : CollectionItem) (token : jsval) (Ht : read_item "accessToken" ls = Some token).

Lemma modal_submit (f : CreateNft.state) p t q :
  CreateNft.collectibleForm_valid f = true -> quantity (CreateNft.collectibleForm f) = JNum q ->
  tokenId (CreateNft.collectibleForm f) = JStr "" ->
  exec (comp := dialog_comp (CreateDialog (Val c))) (mkMachine f p [] t : create_config) (submit_any (CreateDialog (Val c))) =
    mkMachine (setf (f := CreateNft.error) (fun _ => JStr "") f) (p ++ [CreateNft.Create]) []
      (t ++ [Send CreateNft.Create (mkRequest POST (url_of portal "/assets/create") (JsonBody (CreateNft.nft_body f c (string_of_num q) "")) []
              {["Authorization" := "Bearer " +:+ String_ (jchain "accessToken" token)]})]).
Proof.
  intros Hv Hq Htok. pose proof (CreateNft.createCollectible_valid (portal := portal) (ls := ls) (c := c) q Hv Hq Ht) as E. rewrite Htok in E.
  cbn [submit_any]. by erewrite exec_User by exact E.
Qed.

Lemma modal_created (f : CreateNft.state) p t :
  exec (comp := dialog_comp (CreateDialog (Val c))) (mkMachine f (CreateNft.Create :: p) [] t : create_config) (answer_any (CreateDialog (Val c))) =
    mkMachine f p [] (t ++ [CloseModal; Output "collectibleCreated"]).
Proof. cbn [answer_any]. erewrite exec_Respond by reflexivity. cbn. by rewrite <- app_assoc. Qed.

(** The page's reaction to the end of a creation. *)
Lemma page_told (s : CollectionPage.state) p dl t :
  fold_left (react (comp := CollectionPage.page portal ls) (modals := collection_modals) (CreateDialog (Val c)))
    [CloseModal; Output "collectibleCreated"] (mkMachine s p dl t) =
  mkMachine s (p ++ [List_]) dl
    (t ++ [Send List_ (mkRequest GET (url_of portal "/assets") NoBody (object_params (list_filter s)) (authorized token))]).
Proof.
  cbn [fold_left]. unfold react. cbn [is_output]. unfold run. cbn [on_confirm CollectionPage.page c_state].
  by rewrite (dialog_output_spec _ _ token).
Qed.

(** Two clicks on the button of the create dialog, which nothing disables, create two
    collectibles: both requests are sent with the same body; the first answer closes the
    dialog and makes the page ask for its list, and the second, to a dialog that is no
    longer there, makes it ask once more. *)
Theorem double_click_creates_two (s : CollectionPage.state) (f : CreateNft.state) q
    (Hv : CreateNft.collectibleForm_valid f = true) (Hq : quantity (CreateNft.collectibleForm f) = JNum q)
    (Htok : tokenId (CreateNft.collectibleForm f) = JStr "") :
  let d := CreateDialog (Val c) in
  let s0 := mkScreen (modals := collection_modals) (mkMachine s [] [d] []) [mkOpened d (start f : create_config) true] in
  let s' := screen_exec_all (comp := CollectionPage.page portal ls) s0
              [OnModal 0 submit_any; OnModal 0 submit_any; OnModal 0 answer_any; OnModal 0 answer_any] in
  exists r rq (cfg : create_config),
    req_method r = POST /\ req_url r = url_of portal "/assets/create" /\
    s_opened s' = [mkOpened (modals := collection_modals) d cfg false] /\
    c_trace cfg = [Send CreateNft.Create r; Send CreateNft.Create r;
                   CloseModal; Output "collectibleCreated"; CloseModal; Output "collectibleCreated"] /\
    c_trace (s_page s') = [Send List_ rq; Send List_ rq] /\ c_pending (s_page s') = [List_; List_].
Proof.
  intros d s0 s'. subst s' s0. unfold screen_exec_all. cbn [fold_left].
  set (r := mkRequest POST (url_of portal "/assets/create") (JsonBody (CreateNft.nft_body f c (string_of_num q) "")) []
              {["Authorization" := "Bearer " +:+ String_ (jchain "accessToken" token)]}).
  set (rq := mkRequest GET (url_of portal "/assets") NoBody (object_params (list_filter s)) (authorized token)).
  set (f' := setf (f := CreateNft.error) (fun _ => JStr "") f).
  assert (Hv' : CreateNft.collectibleForm_valid f' = true) by (by destruct f).
  assert (Hq' : quantity (CreateNft.collectibleForm f') = JNum q) by (by destruct f).
  assert (Htok' : tokenId (CreateNft.collectibleForm f') = JStr "") by (by destruct f).
  assert (Ef : setf (f := CreateNft.error) (fun _ => JStr "") f' = f') by (by destruct f).
  assert (Eb : CreateNft.nft_body f' c (string_of_num q) "" = CreateNft.nft_body f c (string_of_num q) "") by (by destruct f).
  pose proof (modal_submit f [] [] q Hv Hq Htok) as E1. fold f' r in E1. cbn [app] in E1.
  pose proof (modal_submit f' [CreateNft.Create] [Send CreateNft.Create r] q Hv' Hq' Htok') as E2.
  rewrite Ef, Eb in E2. fold r in E2. cbn [app] in E2.
  pose proof (modal_created f' [CreateNft.Create] [Send CreateNft.Create r; Send CreateNft.Create r]) as E3. cbn [app] in E3.
  pose proof (modal_created f' [] [Send CreateNft.Create r; Send CreateNft.Create r; CloseModal; Output "collectibleCreated"]) as E4.
  cbn [app] in E4.
  rewrite (modal_alone submit_any d _ _ _ [Send CreateNft.Create r] _ (mkMachine s [] [d] []) eq_refl E1 eq_refl eq_refl) by (cbn; lia).
  rewrite (modal_alone submit_any d _ _ _ [Send CreateNft.Create r] _ (mkMachine s [] [d] []) eq_refl E2 eq_refl eq_refl) by (cbn; lia).
  rewrite (modal_alone answer_any d _ _ _ [CloseModal; Output "collectibleCreated"] _ _ eq_refl E3 eq_refl (page_told s _ _ _)) by (cbn; lia).
  rewrite (modal_alone answer_any d _ _ _ [CloseModal; Output "collectibleCreated"] _ _ eq_refl E4 eq_refl (page_told s _ _ _)) by (cbn; lia).
  eexists r, rq, _. split_and_all; reflexivity.
Qed.
End double.
End collection.

(** ** The properties at work *)

#[local] Existing Instance angular.

(** The user's events in a dialog of a collectible. *)
Definition on_form (e : Collectibles.event) (d : dialog)
  : action (comp := dialog_comp hub hub_token d) (dialog_state d) (dialog_event d) (dialog_sub d) Empty_set :=
  match d with
  | CreateDialog c => User (comp := CreateNft.page hub hub_token c) e
  | UpdateDialog c o _ => User (comp := UpdateNft.page hub hub_token c (Val o)) e
  | LinkDialog c => User (comp := LinkContract.page hub hub_token c) LinkContract.Init
  end.

Definition hub_modals : Modals dialog := collection_modals hub hub_token.
#[local] Existing Instance hub_modals.

(** A collectible is created from the page of a collection. *)
Definition creating : list (screen_action (comp := CollectionPage.page hub hub_token) (modals := hub_modals)) :=
  let on_modal e := OnModal (comp := CollectionPage.page hub hub_token) (modals := hub_modals) 0 e in
  [OnPage (comp := CollectionPage.page hub hub_token) (User AddClick);
   on_modal (on_form (Collectibles.TypeName "Sword")); on_modal (on_form (Collectibles.ChooseFile ["a.png"]));
   on_modal (answer_any hub hub_token); on_modal (on_form (Collectibles.TypeQuantity (Some (int 2))));
   on_modal (submit_any hub hub_token); on_modal (answer_any hub hub_token)].

Lemma every_change_listed_witness :
  let s := screen_exec_all (screen_of hub hub_token (JObj []) (Val UpdateNft.museum)) creating in
  accomplished (screen_of hub hub_token (JObj []) (Val UpdateNft.museum)) creating = 1 /\
  count lists (c_trace (s_page s)) = 2 /\
  accomplished (screen_of hub hub_token (JObj []) (Val UpdateNft.museum)) creating <= count lists (c_trace (s_page s)).
Proof.
  intros s. split_and_all; [vm_compute; reflexivity..|].
  assert (Ht : read_item "accessToken" hub_token = Some tok) by (vm_compute; reflexivity).
  exact (proj2 (every_change_listed hub hub_token (JObj []) (Val UpdateNft.museum) tok Ht) creating).
Defined.

Lemma double_click_creates_two_witness :
  let d := CreateDialog (Val UpdateNft.museum) in
  let s0 := mkScreen (mkMachine CollectionPage.edited [] [d] []) [mkOpened (modals := hub_modals) d (start UpdateNft.filled) true] in
  let s' := screen_exec_all (comp := CollectionPage.page hub hub_token) s0
              [OnModal 0 (submit_any hub hub_token); OnModal 0 (submit_any hub hub_token);
               OnModal 0 (answer_any hub hub_token); OnModal 0 (answer_any hub hub_token)] in
  exists r rq cfg,
    req_method r = POST /\ req_url r = url_of hub "/assets/create" /\
    s_opened s' = [mkOpened (modals := hub_modals) d cfg false] /\
    c_trace cfg = [Send CreateNft.Create r; Send CreateNft.Create r;
                   CloseModal; Output "collectibleCreated"; CloseModal; Output "collectibleCreated"] /\
    c_trace (s_page s') = [Send List_ rq; Send List_ rq] /\ c_pending (s_page s') = [List_; List_].
Proof.
  apply (double_click_creates_two hub hub_token UpdateNft.museum tok eq_refl CollectionPage.edited UpdateNft.filled (int 2));
    vm_compute; reflexivity.
Defined.
