(* ===== verification/Calls.v ===== *)
(** * What the pages ask of the server and of the portal

    Every request that a page of the console sends to the server is the call of a method of
    [ConsoleService] with the page's own configuration, but for the import of storage
    objects, which [config/config.component.ts] posts itself; what the pages of collections
    send to the portal carries the portal's token as it is stored.  [Asks] is what a page
    promises; its instances go through the handlers of each page. *)

From S2P Require Import Prelude Codec JsVal Json Runtime Forms ConsoleTypes ConsoleService ConsoleRoutes Session LayergPortal RowDeletion Searches Accounts Lists AccountPage AccountTabs GroupPage StorageObject Chat Matches Status Config ApiExplorer ImageUpload Collections CollectionPage.

Inductive service_request (cp : ConfigParams) : request -> Prop :=
| by_service c : service_request cp (request_of cp c)
| by_upload f : service_request cp (uploadRequest cp f).

(** A request to the portal, with the token in [ls]. *)
Inductive portal_request (portal : LayergPortalConfig) (ls : gmap string string) : request -> Prop :=
| by_portal h m path body params : portal_headers ls = Some h ->
    portal_request portal ls (mkRequest m (url_of portal path) body params h).

Definition page_request (cp : ConfigParams) (portal : LayergPortalConfig) (ls : gmap string string) (r : request) : Prop :=
  service_request cp r \/ portal_request portal ls r.

Definition asks {K D} (P : request -> Prop) (x : cmd K D) : Prop := match x with Send _ r => P r | _ => True end.

Class Asks {S Ev K D} (P : request -> Prop) (comp : Component S Ev K D) : Prop := {
  asks_event e : issues (asks P) (on_event e);
  asks_next k a : issues (asks P) (on_next k a);
  asks_error k e : issues (asks P) (on_error k e);
  asks_confirm d v : issues (asks P) (on_confirm d v)
}.

Lemma asks_weaken {S Ev K D} (P Q : request -> Prop) (comp : Component S Ev K D) :
  Asks P comp -> (forall r, P r -> Q r) -> Asks Q comp.
Proof.
  intros [He Hn Hr Hc] H.
  assert (Hw : forall m : M S (cmd K D) unit, issues (asks P) m -> issues (asks Q) m).
  { intros m Hm s. eapply Forall_impl; [apply Hm|]. intros []; cbn; auto. }
  split; intros; apply Hw; auto.
Qed.

(** What an action adds to the trace comes from one handler. *)
Section added.
Context {S Ev K D : Type} {comp : Component S Ev K D} (P : request -> Prop) `{!Asks P comp}.

Lemma run_added m (c : config S K D) : issues (asks P) m -> Forall (asks P) (drop (length (c_trace c)) (c_trace (run m c).2)).
Proof. intros Hm. rewrite run_trace, drop_app_length. apply Hm. Qed.

Lemma nothing_added (c : config S K D) : Forall (asks P) (drop (length (c_trace c)) (c_trace c)).
Proof. by rewrite drop_all. Qed.

Lemma exec_asks (c : config S K D) (a : action S Ev K D) : Forall (asks P) (drop (length (c_trace c)) (c_trace (exec c a))).
Proof.
  destruct a as [e|i f|i e|i v|i]; cbn [exec].
  - apply run_added, asks_event.
  - destruct (c_pending c !! i) as [k|]; [|apply nothing_added]. apply (run_added _ (drop_pending i c)), asks_next.
  - destruct (c_pending c !! i) as [k|]; [|apply nothing_added]. apply (run_added _ (drop_pending i c)), asks_error.
  - destruct (c_dialogs c !! i) as [d|]; [|apply nothing_added].
    pose proof (run_added (on_confirm d v) c (asks_confirm d v)) as H. by destruct (run (on_confirm d v) c) as [[] c'].
  - exact (nothing_added c).
Qed.

Lemma asks_requests (l : list (cmd K D)) : Forall (asks P) l -> Forall P (requests_of l).
Proof. induction 1 as [|x l Hx _ IH]; [constructor|]. destruct x; try exact IH. by constructor. Qed.
End added.

Lemma issues_bind_gets {S C A B} (P : C -> Prop) (f : S -> A) (g : A -> M S C B) :
  (forall s, issues P (g (f s))) -> issues P (gets f ≫= g).
Proof. intros H s. specialize (H s s). run_m. by destruct (g (f s) s) as [[o s'] l]. Qed.

(** Finds the call that makes a request. *)
Ltac service_call :=
  simple refine (eq_rect _ (service_request _) (by_service _ _) _ _); [econstructor; shelve | cbn [request_of]; reflexivity].

Ltac head_of m := lazymatch m with ?f _ => head_of f | _ => m end.

(** Goes through the code of a handler, and of the methods that it calls; [special] deals with
    what the kind of page has of its own. *)
Ltac asking_with special :=
  repeat (intros; cbv beta zeta;
    first [ special | solve [eauto 1 with issues] | apply issues_bind_gets | apply issues_bind | apply issues_when
          | apply issues_subscriber; [by intros|] | apply issues_try
          | apply issues_emit; cbv beta iota delta [asks]; first [exact I | solve [eauto 2 with issues] | service_call]
          | match goal with
            | |- issues _ (emit _) => fail 2
            | |- issues _ (match ?v with _ => _ end) => destruct v eqn:?
            | |- issues _ ?m => let h := head_of m in unfold h
            end ]).
Ltac asking := asking_with fail.

Ltac handlers :=
  match goal with |- Asks _ ?page => let h := head_of page in unfold h end;
  constructor; (intros [] || intros); cbn [on_event on_next on_error on_confirm].
Ltac asks_page := handlers; asking.

(** The address of such a request is on the configured server. *)
Lemma service_url cp r : service_request cp r -> startsWith (req_url r) (ConfigParams_host cp) = true.
Proof.
  intros [c|f]; [|apply startsWith_app]. destruct (call_route cp c) as (_ & _ & _ & ->). apply startsWith_app.
Qed.

(** ** Page by page *)

#[export] Instance accounts_ask cp : Asks (service_request cp) (Accounts.page cp). Proof. asks_page. Qed.
#[export] Instance storage_asks cp : Asks (service_request cp) (Storage.page cp). Proof. asks_page. Qed.
#[export] Instance groups_ask cp : Asks (service_request cp) (GroupsList.page cp). Proof. asks_page. Qed.
#[export] Instance leaderboards_ask cp : Asks (service_request cp) (Leaderboards.page cp). Proof. asks_page. Qed.
#[export] Instance leaderboard_asks cp : Asks (service_request cp) (LeaderboardPage.page cp). Proof. asks_page. Qed.
#[export] Instance records_ask cp : Asks (service_request cp) (Records.page cp). Proof. asks_page. Qed.
#[export] Instance users_ask cp : Asks (service_request cp) (Users.page cp). Proof. asks_page. Qed.
#[export] Instance group_area_asks cp : Asks (service_request cp) (GroupArea.page cp). Proof. asks_page. Qed.
#[export] Instance details_ask cp : Asks (service_request cp) (Details.page cp). Proof. asks_page. Qed.
Lemma unlink_by_service cp p id : service_request cp (Area.unlink_request cp p id).
Proof. destruct p; service_call. Qed.
#[local] Hint Resolve unlink_by_service : issues.
#[export] Instance account_area_asks cp now : Asks (service_request cp) (Area.page cp now). Proof. asks_page. Qed.
Lemma friend_by_service cp s f r : Friends.delete_request cp s f = Some r -> service_request cp r.
Proof.
  unfold Friends.delete_request. destruct (Friends.user_id_of _); [|done]. destruct (ApiFriend_user f); [done..|].
  intros [= <-]. service_call.
Qed.
#[local] Hint Resolve friend_by_service : issues.
#[export] Instance friends_ask cp : Asks (service_request cp) (Friends.page cp). Proof. asks_page. Qed.
Lemma user_group_by_service cp s g r : UserGroups.delete_request cp s g = Some r -> service_request cp r.
Proof.
  unfold UserGroups.delete_request. destruct (Friends.user_id_of _); [|done]. destruct (UserGroups.group_id_of g); [|done].
  intros [= <-]. service_call.
Qed.
#[local] Hint Resolve user_group_by_service : issues.
#[export] Instance user_groups_ask cp : Asks (service_request cp) (UserGroups.page cp). Proof. asks_page. Qed.
#[export] Instance wallet_asks cp : Asks (service_request cp) (Wallet.page cp). Proof. asks_page. Qed.
#[export] Instance storage_object_asks cp : Asks (service_request cp) (StorageObject.page cp). Proof. asks_page. Qed.
Lemma matches_by_service cp t m q n r : Matches.list_ cp t m q n = Some r -> service_request cp r.
Proof. unfold Matches.list_. repeat case_match; try done; intros [= <-]; service_call. Qed.
#[local] Hint Resolve matches_by_service : issues.
#[export] Instance matches_ask cp : Asks (service_request cp) (Matches.page cp). Proof. asks_page. Qed.
#[export] Instance status_asks cp : Asks (service_request cp) (Status.page cp). Proof. asks_page. Qed.
#[export] Instance members_ask cp url : Asks (service_request cp) (Members.page cp url). Proof. asks_page. Qed.
Lemma drop_files_asks cp files : issues (asks (service_request cp)) (drop_files files).
Proof. induction files as [|f files IH]; cbn [drop_files]; asking. Qed.
#[local] Hint Resolve drop_files_asks by_upload : issues.
#[export] Instance config_asks le cp : Asks (service_request cp) (Config.page le cp). Proof. asks_page. Qed.
Lemma messages_by_service cp t l g u1 u2 c r : Chat.list_request cp t l g u1 u2 c = Some r -> service_request cp r.
Proof. unfold Chat.list_request. repeat case_match; try done; intros [= <-]; service_call. Qed.
#[local] Hint Resolve messages_by_service : issues.
#[export] Instance chat_asks cp days : Asks (service_request cp) (Chat.page cp days). Proof. asks_page. Qed.
Lemma call_by_service cp s value vars : service_request cp (call_request cp s value vars).
Proof. unfold call_request. case_match; service_call. Qed.
#[local] Hint Resolve call_by_service : issues.
#[export] Instance explorer_asks cp : Asks (service_request cp) (ApiExplorer.page cp). Proof. asks_page. Qed.

Lemma lookup_asks {Item Page} cp (ops : LookupList.operations Item Page) :
  (forall u l c, service_request cp (LookupList.list_request ops u l c)) ->
  (forall id, service_request cp (LookupList.get_request ops id)) ->
  (forall rq x, LookupList.delete_request ops = Some rq -> service_request cp (rq x)) ->
  Asks (service_request cp) (LookupList.page ops).
Proof. intros Hl Hg Hd. asks_page. Qed.
#[export] Instance purchases_ask cp : Asks (service_request cp) (Purchases.page cp).
Proof. apply lookup_asks; [intros; service_call..|done]. Qed.
#[export] Instance subscriptions_ask cp : Asks (service_request cp) (Subscriptions.page cp).
Proof. apply lookup_asks; [intros; service_call..|done]. Qed.
#[export] Instance notifications_ask cp : Asks (service_request cp) (Notifications.page cp).
Proof. apply lookup_asks; [intros; service_call..|intros ? ? [= <-]; service_call]. Qed.

(** ** The pages that work with the portal *)

Lemma issues_zoom {S T C A} (P : C -> Prop) (f : S -> T) `{!Setter f} (m : M T C A) : issues P m -> issues P (zoom f m).
Proof. intros Hm s. specialize (Hm (f s)). unfold zoom. by destruct (m (f s)) as [[o t] l]. Qed.

Lemma issues_or_throw {S C A} (P : C -> Prop) (o : option A) e : issues P (or_throw (S := S) o e).
Proof. by destruct o; intros s. Qed.

Lemma issues_sent {S K D} (P : request -> Prop) (k : K) (o : option request) e :
  (forall r, o = Some r -> P r) -> issues (asks P) (S := S) (r ← or_throw o e; emit (Send (D := D) k r)).
Proof. intros H s. destruct o as [r|]; [|constructor]. constructor; [by apply H|constructor]. Qed.

Section portal.
Context (cp : ConfigParams) (portal : LayergPortalConfig) (ls : gmap string string).
Abbreviation P := (page_request cp portal ls).

Lemma portal_get_asked path params r : portal_get portal ls path params = Some r -> P r.
Proof. unfold portal_get. destruct (portal_headers ls) as [h|] eqn:E; [|done]. intros [= <-]. right. by constructor. Qed.
Lemma portal_post_asked path body r : portal_post portal ls path body = Some r -> P r.
Proof. unfold portal_post. destruct (portal_headers ls) as [h|] eqn:E; [|done]. intros [= <-]. right. by constructor. Qed.
Lemma portal_put_asked path body r : portal_put portal ls path body = Some r -> P r.
Proof. unfold portal_put. destruct (portal_headers ls) as [h|] eqn:E; [|done]. intros [= <-]. right. by constructor. Qed.
End portal.

Ltac portal_step :=
  first [ apply issues_sent; intros ? ?; first [eapply portal_get_asked; eassumption | eapply portal_post_asked; eassumption | eapply portal_put_asked; eassumption]
        | apply issues_emit; cbv beta iota delta [asks]; left; service_call
        | apply issues_or_throw | apply issues_zoom ].
Ltac portal_page := handlers; asking_with portal_step.

#[export] Instance listing_asks cp portal ls : Asks (page_request cp portal ls) (Listing.page cp portal ls).
Proof. portal_page. Qed.
#[export] Instance create_asks `{Validators} cp portal ls : Asks (page_request cp portal ls) (Create.page portal ls).
Proof. portal_page. Qed.
#[export] Instance collection_asks `{Validators} cp portal ls : Asks (page_request cp portal ls) (CollectionPage.page portal ls).
Proof. portal_page. Qed.
