(* ===== verification/Resolvers.v ===== *)
(** * What the routes load before they are shown

    The resolvers of the routes ([app-routing.module.ts]) as the requests that they send: a
    navigation runs those of the routes that it changes, with the parameters of the route or
    of the one above it and the query of the address. *)

From S2P Require Import Prelude Codec JsVal Runtime ConsoleTypes ConsoleService ConsoleRoutes Session LayergPortal Guards Router Accounts Lists AccountPage AccountTabs GroupPage StorageObject Viewers Chat Matches Status Config ApiExplorer Collections Calls.

(** [paramMap.get] of the parameters of a route, by their position in its path. *)
Definition param (i : nat) (segments : list string) : opt string := get_or_null (segments !! i).

(** The names in [resolve] of the route of a component. *)
Definition resolver_names (component : string) : list string :=
  match List.find (fun r => String.eqb (rc_component r) component) (base_children ++ flat_map rc_children base_children) with
  | Some r => rc_resolve r
  | None => []
  end.

Section resolvers.
Context (cp : ConfigParams) (portal : LayergPortalConfig) (ls : gmap string string) (qp : query_params).

(** What a resolver asks, from the segments of the route above and of its own.
    [CollectionResolver] asks nothing when the portal's token is damaged: it throws before
    the observable it makes is subscribed to. *)
Definition resolver_table : list (string * (list string -> list string -> list request)) := [
  ("GraphInitNodesResolver", fun _ _ => [getStatus cp ""]);
  ("ConfigResolver", fun _ _ => [ConfigResolver cp]);
  ("UsersResolver", fun _ _ => [Users.UsersResolver cp]);
  ("RuntimeResolver", fun _ _ => [RuntimeModules.RuntimeResolver cp]);
  ("CollectionsResolver", fun _ _ => Listing.CollectionsResolver cp);
  ("CreateCollectionResolver", fun _ _ => [Create.CreateCollectionResolver cp]);
  ("CollectionResolver", fun _ own => default [] (Outlet.CollectionResolver cp portal ls (param 1 own)));
  ("StorageCollectionResolver", fun _ _ => [Storage.StorageCollectionResolver cp]);
  ("StorageSearchResolver", fun _ _ => [Storage.StorageSearchResolver cp qp]);
  ("StorageObjectResolver", fun _ own => [StorageObject.StorageObjectResolver cp (param 1 own) (param 2 own) (param 3 own)]);
  ("LeaderboardListResolver", fun _ _ => [Leaderboards.LeaderboardListResolver cp]);
  ("LeaderboardResolver", fun _ own => [LeaderboardPage.LeaderboardResolver cp (param 1 own)]);
  ("LeaderboardRecordsResolver", fun above _ => [Records.LeaderboardRecordsResolver cp (param 1 above)]);
  ("MatchesResolver", fun _ _ => option_list (MatchesResolver cp qp));
  ("NodesResolver", fun _ _ => [getStatus cp ""]);
  ("GroupSearchResolver", fun _ _ => [GroupsList.GroupSearchResolver cp qp]);
  ("GroupResolver", fun _ own => [GroupArea.GroupResolver cp (param 1 own)]);
  ("GroupMembersResolver", fun above _ => [Members.GroupMembersResolver cp (param 1 above)]);
  ("AccountSearchResolver", fun _ _ => [AccountSearchResolver cp qp]);
  ("AccountResolver", fun _ own => [AccountResolver cp (param 1 own)]);
  ("WalletLedgerResolver", fun above _ => [Wallet.WalletLedgerResolver cp (param 1 above)]);
  ("FriendsResolver", fun above _ => [Friends.FriendsResolver cp (param 1 above)]);
  ("GroupsResolver", fun above _ => [UserGroups.GroupsResolver cp (param 1 above)]);
  ("NotificationsResolver", fun above _ => [Notifications.NotificationsResolver cp (param 1 above)]);
  ("PurchasesResolver", fun above _ => [Purchases.PurchasesResolver cp (param 1 above)]);
  ("SubscriptionsResolver", fun above _ => [Subscriptions.SubscriptionsResolver cp (param 1 above)]);
  ("ApiExplorerEndpointsResolver", fun _ _ => [ApiExplorerEndpointsResolver cp]);
  ("ChatSearchResolver", fun _ _ => option_list (ChatSearchResolver cp qp))].

Definition resolver_requests (name : string) (above own : list string) : list request :=
  match assoc name resolver_table with Some f => f above own | None => [] end.

(** Route by route, outermost first. *)
Fixpoint route_requests (above : list string) (act : activation) : list (list request) :=
  match act with
  | [] => []
  | (component, own) :: act => flat_map (fun name => resolver_requests name above own) (resolver_names component) :: route_requests own act
  end.

(** What a navigation asks: the resolvers of the routes that it changes. *)
Definition entering (shown target : activation) : list request :=
  concat (drop (length target - length (changed shown target)) (route_requests [] target)).

(** ** They ask as the pages do *)

Lemma resolvers_asked : Forall (fun e => forall above own, Forall (page_request cp portal ls) (e.2 above own)) resolver_table.
Proof.
  unfold resolver_table.
  repeat first [apply Forall_nil_2 | apply Forall_cons; split; intros; cbn [snd]]; try (left; service_call).
  - destruct (Outlet.CollectionResolver cp portal ls (param 1 own)) as [l|] eqn:E; [|constructor].
    unfold Outlet.CollectionResolver in E. destruct (detailCollection portal ls _) as [r|] eqn:Er; [|done]. injection E as <-.
    repeat (apply Forall_cons; split); [left; service_call|by eapply portal_get_asked|constructor].
  - destruct (MatchesResolver cp qp) as [r|] eqn:E; [|constructor]. apply Forall_cons. split; [|constructor]. left; by eapply matches_by_service.
  - destruct (ChatSearchResolver cp qp) as [r|] eqn:E; [|constructor]. apply Forall_cons. split; [|constructor]. left; by eapply messages_by_service.
Qed.

Lemma resolver_asked name above own : Forall (page_request cp portal ls) (resolver_requests name above own).
Proof.
  unfold resolver_requests. induction resolvers_asked as [|[n f] l Hf _ IH]; cbn [assoc]; [constructor|].
  destruct (String.eqb name n); [apply Hf|exact IH].
Qed.

Lemma routes_asked above act : Forall (page_request cp portal ls) (concat (route_requests above act)).
Proof.
  revert above. induction act as [|[component own] act IH]; intros above; [constructor|]. cbn [route_requests concat].
  apply Forall_app. split; [|apply IH]. induction (resolver_names component) as [|name l IHl]; [constructor|].
  cbn [flat_map]. apply Forall_app. split; [apply resolver_asked|exact IHl].
Qed.

Lemma entering_asked shown target : Forall (page_request cp portal ls) (entering shown target).
Proof.
  pose proof (routes_asked [] target) as H. unfold entering.
  rewrite <- (take_drop (length target - length (changed shown target)) (route_requests [] target)), concat_app in H.
  apply Forall_app in H as [_ H]. exact H.
Qed.

(** The login page loads nothing. *)
Lemma entering_login shown : entering shown login_activation = [].
Proof.
  unfold entering. assert (E : route_requests [] login_activation = [[]]) by (vm_compute; reflexivity). rewrite E.
  by destruct (_ - _) as [|[|n]].
Qed.
End resolvers.

(** Opening the friends of an account by its address asks for the account and its friends;
    going on to its groups from there asks for the groups only. *)
Example entering_friends :
  let cp := new_ConsoleService Und in
  let tab name := [("BaseComponent", []); ("AccountComponent", ["accounts"; "u1"]); name] in
  entering cp hub ∅ ∅ [] (tab ("FriendsComponent", ["friends"])) = [getAccount cp "" (Val "u1"); getFriends cp "" (Val "u1")] /\
  entering cp hub ∅ ∅ (tab ("FriendsComponent", ["friends"])) (tab ("GroupsComponent", ["groups"])) = [getGroups cp "" (Val "u1")].
Proof. split; vm_compute; reflexivity. Qed.
