(* ===== verification/Console.v ===== *)
(** * The console: the application with its pages

    [Application] has the session, the router and the login page, and takes the pages of the
    frame for black boxes.  Here the pages run: each component on the screen is a machine
    of [Runtime]; the router runs the resolvers of the routes, and keeps, creates and drops
    the components; what they send passes
    [SessionInterceptor], and what fails passes [AuthenticationErrorInterceptor].  A page
    that has been left lives on while its requests, timers and dialogs do.

    The application in it is a run of [Application], and the pages on its screen are those of
    the routes.  Together they give what neither can say alone: what leaves the browser. *)

From S2P Require Import Prelude Codec JsVal Json Runtime Forms ConsoleTypes ConsoleService ConsoleRoutes Session LayergPortal Guards Router Frame Application RowDeletion Searches Accounts Lists AccountPage AccountTabs StorageObject Chat Matches Status Config ApiExplorer Calls.

(** ** Pages of any kind *)

(** What a page reads of its surroundings whenever it does something: the address of the
    portal, which several parts of the application replace, and [localStorage]. *)
Record surroundings := mkSurroundings { portal : LayergPortalConfig; storage : gmap string string }.

Record page_type := PageType {
  pt_state : Type;
  pt_event : Type;
  pt_sub : Type;
  pt_dialog : Type;
  pt_component : surroundings -> Component pt_state pt_event pt_sub pt_dialog;
  pt_new : pt_state
}.

Section console.
Context {urls : UrlSerializer} {validators : Validators}.
Context (env : environment) (config : ConfigParams) (origin : string).

(** The page that a component of the routes is. *)
Context (catalogue : string -> page_type).

(** What the resolvers ask when the router goes from some routes to others, with the query
    text of the address. *)
Context (loads : surroundings -> string -> activation -> activation -> list request).

Abbreviation config_of T := (Runtime.config (pt_state T) (pt_sub T) (pt_dialog T)).
Abbreviation action_of T e := (action (pt_state T) (pt_event T) (pt_sub T) (pt_dialog T) (comp := pt_component T e)).

Record running := Running { component_of : string; conf : config_of (catalogue component_of) }.

Definition created_page (x : string * list string) : running := Running x.1 (start (pt_new (catalogue x.1))).

(** The router goes on with the components of the routes that stay, when it reuses any, and
    creates the others; the second list are the pages that it drops. *)
Fixpoint arrange (reuse : bool) (pages : list running) (act : activation) : list running * list running :=
  match pages, act with
  | p :: pages', x :: act' =>
      if reuse && String.eqb (component_of p) x.1
      then let '(live, dropped) := arrange reuse pages' act' in (p :: live, dropped)
      else (map created_page act, pages)
  | _, _ => (map created_page act, pages)
  end.

(** A request that has left a page or a resolver: who sent it and from where, and what
    becomes of it. *)
Record sent := mkSent {
  on_screen : bool;              (* for the screen, or by a page that was left *)
  screen : activation;
  sender : browser;
  asked : request;
  outgoing : outcome request
}.

Record console := mkConsole {
  app_of : app;
  live : list running;           (* the components on the screen, outermost first *)
  gone : list running;
  wire : list sent
}.

Definition pages (side : bool) (c : console) : list running := if side then live c else gone c.
Definition set_page (side : bool) (i : nat) (p : running) (c : console) : console :=
  if side then mkConsole (app_of c) (<[i := p]> (live c)) (gone c) (wire c)
  else mkConsole (app_of c) (live c) (<[i := p]> (gone c)) (wire c).

Definition acted (p : running) {e} (act : action_of (catalogue (component_of p)) e) : running :=
  Running (component_of p) (exec (comp := pt_component _ e) (conf p) act).
Definition issued (p : running) {e} (act : action_of (catalogue (component_of p)) e) : list request :=
  requests_of (drop (length (c_trace (conf p))) (c_trace (exec (comp := pt_component _ e) (conf p) act))).

(** The surroundings in the application, with some address of the portal. *)
Definition around (hub : LayergPortalConfig) (a : app) : surroundings := mkSurroundings hub (localStorage (browser_of a)).

Definition transmit (side : bool) (a : app) (r : request) : sent :=
  mkSent side (shown a) (browser_of a) r (session_intercept env origin r (browser_of a)).1.1.

Definition run_page (side : bool) (i : nat) (p : running) {e} (act : action_of (catalogue (component_of p)) e) (c : console) : console :=
  let c' := set_page side i (acted p act) c in
  mkConsole (app_of c') (live c') (gone c') (wire c' ++ map (transmit side (app_of c)) (issued p act)).

(** A request fails only with what the interceptors pass on: the error of an answer, see
    [step_failed], or the exception of [SessionInterceptor]. *)
Definition served {T e} (act : action_of T e) : Prop := match act with Refuse _ e => e = SyntaxError | _ => True end.

(** The error interceptor signs the user out, if there is a session. *)
Definition logged_out (req : request) (err : http_error) (a : app) : app :=
  if logs_out (error_intercept req err) && bool_decide (is_Some (logout_request config (browser_of a)))
  then setf (f := signing_out) (fun l => l ++ [FromInterceptor req]) a else a.

Definition with_app (a : app) (c : console) : console := mkConsole a (live c) (gone c) (wire c).

(** What is loaded for the routes of [a'] that are not among those of [act]. *)
Definition loading (hub : LayergPortalConfig) (act : activation) (a' : app) : list sent :=
  map (transmit true a') (loads (around hub a') (query (at_ a')) act (shown a')).

(** What the router does with the pages when the application moves, and what it loads;
    whether a move to the page that is shown was a navigation, the application does not
    record. *)
Inductive follows (a a' : app) (l : list running) : list running * list running -> list sent -> Prop :=
| follows_stays : shown a' = shown a -> follows a a' l (l, []) []
| follows_moves hub : follows a a' l (arrange (reuse a) l (shown a')) (loading hub (shown a) a').

Inductive console_step : console -> console -> Prop :=
| step_app e a' l dropped loaded c :
    acts env config e (app_of c) a' -> follows (app_of c) a' (live c) (l, dropped) loaded ->
    console_step c (mkConsole a' l (gone c ++ dropped) (wire c ++ loaded))
| step_reload hub c :
    returns (new_AuthenticationService env) (browser_of (app_of c)) = true ->
    let a' := reloaded env (app_of c) in
    console_step c (mkConsole a' (map created_page (shown a')) [] (wire c ++ loading hub [] a'))
| step_page side i p hub c (act : action_of (catalogue (component_of p)) (around hub (app_of c))) :
    pages side c !! i = Some p -> served act -> console_step c (run_page side i p act c)
| step_failed side i p hub j req err c :
    pages side c !! i = Some p ->
    console_step c (with_app (logged_out req err (app_of c))
                      (run_page side i p (e := around hub (app_of c)) (Refuse (comp := pt_component _ _) j (rethrown (error_intercept req err))) c)).

Inductive console_runs (P : app -> Prop) (ls : gmap string string) (t : Router.address) : console -> Prop :=
| console_opened hub a : opened env ls t a -> P a -> 
    console_runs P ls t (mkConsole a (map created_page (shown a)) [] (loading hub [] a))
| console_moves c c' : console_runs P ls t c -> console_step c c' -> P (app_of c') -> console_runs P ls t c'.

(** ** Its two sides *)

Lemma app_of_set_page side i p c : app_of (set_page side i p c) = app_of c.
Proof. by destruct side. Qed.

Lemma logged_out_moves req err a : logged_out req err a = a \/ exists e, moves env config e a (logged_out req err a).
Proof.
  unfold logged_out. destruct (logs_out _) eqn:Hl; [|by left]. case_bool_decide as Hr; [|by left]. destruct Hr as [r Hr].
  right. eexists. by eapply move_act, move_failed_request.
Qed.

Lemma step_app_of c c' : console_step c c' -> app_of c' = app_of c \/ exists e, moves env config e (app_of c) (app_of c').
Proof.
  destruct 1 as [e a' l d ld c Ha _|hub c Hr a'|side i p hub c act _ _|side i p hub j req err c _]; cbn.
  - right. exists e. by apply move_act.
  - right. eexists. by apply move_reload.
  - left. apply app_of_set_page.
  - apply logged_out_moves.
Qed.

Lemma console_app P ls t c : console_runs P ls t c -> runs env config P ls t (app_of c).
Proof.
  assert (Hp : forall c, console_runs P ls t c -> P (app_of c)) by (by destruct 1).
  induction 1 as [hub a Ho Ha|c c' Hc IH Hs Hc']; [by apply runs_opened|].
  destruct (step_app_of c c' Hs) as [->|[e Hm] ]; [done|by eapply runs_move].
Qed.

Lemma follows_spec a a' l ld s : follows a a' l ld s ->
  (shown a' = shown a /\ ld = (l, []) /\ s = []) \/ (ld = arrange (reuse a) l (shown a') /\ exists hub, s = loading hub (shown a) a').
Proof. destruct 1 as [|hub]; [by left|right; split; [done|by exists hub]]. Qed.

(** The pages on the screen are those of the routes. *)
Lemma created_names act : map component_of (map created_page act) = map fst act.
Proof. by rewrite map_map. Qed.

Lemma arrange_names reuse l act : map component_of (arrange reuse l act).1 = map fst act.
Proof.
  revert act. induction l as [|p l IH]; intros act; [apply created_names|]. destruct act as [|x act]; [done|]. cbn.
  destruct (reuse && _) eqn:E; [|exact (created_names (x :: act))]. apply andb_true_iff in E as [_ E%String.eqb_eq].
  specialize (IH act). destruct (arrange reuse l act). cbn in *. by rewrite E, IH.
Qed.

Lemma console_names P ls t c : console_runs P ls t c -> map component_of (live c) = map fst (shown (app_of c)).
Proof.
  induction 1 as [hub a Ho Ha|c c' Hc IH Hs _]; [apply created_names|].
  assert (Hrun : forall side i p e (act : action_of (catalogue (component_of p)) e) c, pages side c !! i = Some p ->
    map component_of (live (run_page side i p act c)) = map component_of (live c)).
  { intros [] i p e act c0 Hi; [|done]. cbn in *. change (map component_of ?l) with (component_of <$> l).
    rewrite list_fmap_insert. cbn. apply list_insert_id. by rewrite list_lookup_fmap, Hi. }
  destruct Hs as [e a' l d ld c _ Hf|hub c Hr a'|side i p hub c act Hi _|side i p hub j req err c Hi]; cbn [live app_of with_app].
  - destruct (follows_spec _ _ _ _ _ Hf) as [(-> & [= -> ->] & _)|[E _]]; [done|].
    pose proof (arrange_names (reuse (app_of c)) (live c) (shown a')) as H. by rewrite <- E in H.
  - apply created_names.
  - rewrite Hrun by done. cbn. by rewrite app_of_set_page.
  - rewrite Hrun by done. cbn. unfold logged_out. by destruct (logs_out _ && _).
Qed.

(** ** What leaves the browser *)

(** A role that can be read comes from a token. *)
Lemma role_token b r : role_of b = Ret r -> exists t, jget "token" (currentSessionSubject b) = Some (JStr t) /\ t <> "".
Proof.
  unfold role_of, sessionRole, currentSessionValue, session_claims, prop. run_m.
  destruct (jget "token" (currentSessionSubject b)) as [v|]; [|done]. unfold or_throw, ret. unfold claims_of_token.
  destruct v as [| | | |t| | |]; try done. intros H. exists t. split; [done|]. intros ->. vm_compute in H. discriminate H.
Qed.

(** With a session whose token is a text, [SessionInterceptor] adds the token to every
    request to the console's own server. *)
Lemma intercept_token b t req : is_Some (read_item "accessToken" (localStorage b)) ->
  jget "token" (currentSessionSubject b) = Some (JStr t) -> t <> "" ->
  startsWith (req_url req) (coreApiUrl env origin) = true ->
  (session_intercept env origin req b).1.1 = Ret (clone_authorization req ("Bearer " +:+ t)).
Proof.
  intros [hub Hhub] Ht Hne Hu.
  assert (Htr : jtruthy (currentSessionSubject b) = true) by (by destruct (currentSessionSubject b); try discriminate Ht).
  assert (Hts : truthy_string t = true) by (unfold truthy_string; by rewrite (proj2 (String.eqb_neq t ""))).
  unfold session_intercept, currentSessionValue, or_throw. run_m. rewrite Hhub, Htr. unfold jchain. rewrite Ht.
  cbn [jtruthy]. rewrite Hts. cbn [andb jtruthy]. by rewrite Hts, Hu.
Qed.

(** A request for the screen to the console's own server carries the token of a session
    whose role may see the page. *)
Definition authorized (s : sent) : Prop :=
  on_screen s = true -> startsWith (req_url (asked s)) (coreApiUrl env origin) = true ->
  exists r t, role_of (sender s) = Ret r /\ permitted r (screen s) /\
    jget "token" (currentSessionSubject (sender s)) = Some (JStr t) /\
    outgoing s = Ret (clone_authorization (asked s) ("Bearer " +:+ t)).

(** What goes elsewhere is left alone. *)
Definition untouched (s : sent) : Prop :=
  startsWith (req_url (asked s)) (coreApiUrl env origin) = false -> startsWith (req_url (asked s)) "undefined" = false ->
  outgoing s = Ret (asked s).

(** All that leaves is sent by a page in a run, or loaded in one. *)
Lemma wire_forall (Q : sent -> Prop) P ls t :
  (forall c hub act, console_runs P ls t c -> Forall Q (loading hub act (app_of c))) ->
  (forall c side i p hub (act : action_of (catalogue (component_of p)) (around hub (app_of c))),
     console_runs P ls t c -> pages side c !! i = Some p -> Forall Q (map (transmit side (app_of c)) (issued p act))) ->
  forall c, console_runs P ls t c -> Forall Q (wire c).
Proof.
  intros Hload Hpage. induction 1 as [hub a Ho Ha|c c' Hc IH Hs Hc'].
  { exact (Hload _ hub [] (console_opened P ls t hub a Ho Ha)). }
  pose proof (fun hub act => Hload _ hub act (console_moves _ _ _ _ _ Hc Hs Hc')) as Hload'.
  assert (Hrun : forall side i p hub (act : action_of (catalogue (component_of p)) (around hub (app_of c))),
    pages side c !! i = Some p -> Forall Q (wire (run_page side i p act c))).
  { intros side i p hub act Hi. unfold run_page. cbn [wire]. replace (wire (set_page side i (acted p act) c)) with (wire c) by (by destruct side).
    apply Forall_app. split; [done|by eapply Hpage]. }
  destruct Hs as [e a' l d ld c _ Hf|hub c Hr a'|side i p hub c act Hi _|side i p hub j req err c Hi].
  - apply Forall_app. split; [exact IH|]. destruct (follows_spec _ _ _ _ _ Hf) as [(_ & _ & ->)|(_ & hub & ->)]; [constructor|apply Hload'].
  - apply Forall_app. split; [exact IH|apply Hload'].
  - by apply Hrun.
  - by apply (Hrun side i p hub (Refuse (comp := pt_component _ _) j (rethrown (error_intercept req err)))).
Qed.

Section wire.
(** The login page asks for nothing by itself: its sign-ins are moves of [Application]. *)
Context (nothing_for_login : forall e q act, loads e q act login_activation = []) (nothing_for_none : forall e q act, loads e q act [] = []).
Context (silent_login : forall e (p : config_of (catalogue "LoginComponent")) (act : action_of _ e), issued (Running "LoginComponent" p) act = []).
Context (ls : gmap string string) (t : Router.address) (stored : is_Some (read_item "accessToken" ls)).

Lemma issued_in_frame a i (l : list running) p {e} (act : action_of (catalogue (component_of p)) e) :
  map component_of l = map fst (shown a) -> l !! i = Some p -> issued p act <> [] ->
  (shown a = [] \/ shown a = login_activation \/ in_frame (shown a)) -> in_frame (shown a).
Proof.
  intros Hn Hi Hne Hshape.
  assert (Hx : exists x, shown a !! i = Some x /\ component_of p = x.1).
  { pose proof (f_equal (fun l => l !! i) Hn) as E. cbn in E. change (map ?f ?l) with (f <$> l) in E.
    rewrite !list_lookup_fmap, Hi in E. destruct (shown a !! i) as [x|]; [|done]. exists x. by injection E. }
  destruct Hx as (x & Hx & Ex). destruct Hshape as [E|[E|Hf]]; [by rewrite E in Hx| |done].
  rewrite E in Hx. destruct i as [|i]; [|done]. injection Hx as <-. destruct p as [n p]. cbn in Ex. subst n.
  by destruct (Hne (silent_login e p act)).
Qed.

Lemma console_in_order c : console_runs orderly ls t c -> sound (app_of c) /\ coherent (browser_of (app_of c)).
Proof. intros Hc%console_app. split; [by eapply runs_sound|by eapply runs_coherent]. Qed.

Lemma transmit_authorized side a rs : sound a -> coherent (browser_of a) ->
  (side = true -> rs <> [] -> in_frame (shown a)) -> Forall authorized (map (transmit side a) rs).
Proof.
  intros Ha [_ Hhub] Hf. apply Forall_map, Forall_forall. intros r Hin Hs Hu. cbn in Hs.
  assert (Hframe : in_frame (shown a)) by (apply Hf; [done|by intros ->; apply not_elem_of_nil in Hin]).
  destruct (sound_role a Ha Hframe) as [role Hr]. destruct (role_token _ _ Hr) as (tok & Ht & Hne).
  exists role, tok. split_and_all; [exact Hr|by apply sound_admitted|exact Ht|].
  by apply intercept_token.
Qed.

Lemma wire_authorized c : console_runs orderly ls t c -> Forall authorized (wire c).
Proof.
  apply wire_forall.
  - intros c0 hub act [Ha Hc]%console_in_order. apply transmit_authorized; [done..|]. intros _ Hne.
    destruct (sound_shape _ Ha) as [E|[E|Hf]]; [..|done]; rewrite E in Hne; by destruct Hne.
  - intros c0 side i p hub act Hrun Hi. destruct (console_in_order c0 Hrun) as [Ha Hc].
    apply transmit_authorized; [done..|]. intros -> Hne.
    apply (issued_in_frame _ i (live c0) p act (console_names _ _ _ _ Hrun) Hi Hne). by apply sound_shape.
Qed.

Lemma transmit_untouched side a rs : coherent (browser_of a) -> Forall untouched (map (transmit side a) rs).
Proof. intros [_ Hhub]. apply Forall_map, Forall_true. intros r Hu Hd. cbn. by rewrite foreign_requests_untouched. Qed.

Lemma wire_untouched c : console_runs orderly ls t c -> Forall untouched (wire c).
Proof.
  apply wire_forall.
  - intros c0 hub act [_ Hc]%console_in_order. by apply transmit_untouched.
  - intros c0 side i p hub act [_ Hc]%console_in_order _. by apply transmit_untouched.
Qed.
End wire.

(** What is sent at all, by those who ask for no more than the surroundings allow. *)
Section asked.
Context (allowed : surroundings -> request -> Prop).
Context (asking : forall name e, Asks (allowed e) (pt_component (catalogue name) e)).
Context (loads_allowed : forall e q act act', Forall (allowed e) (loads e q act act')).

Definition proper (s : sent) : Prop := exists hub, allowed (mkSurroundings hub (localStorage (sender s))) (asked s).

Lemma transmit_proper hub side a rs : Forall (allowed (around hub a)) rs -> Forall proper (map (transmit side a) rs).
Proof. intros H. apply Forall_map. eapply Forall_impl; [exact H|]. intros r Hr. by exists hub. Qed.

Lemma wire_proper P ls t c : console_runs P ls t c -> Forall proper (wire c).
Proof.
  apply wire_forall.
  - intros c0 hub act _. by apply (transmit_proper hub).
  - intros c0 side i p hub act _ _. apply (transmit_proper hub). eapply asks_requests, exec_asks, asking.
Qed.
End asked.
End console.
