(* ===== verification/ConsolePages.v ===== *)
(** * The pages of the console in the application

    The components of the routes as pages of [Console], and what the composition gives:
    nothing they send to the server of the console leaves without the token of a session
    that may see them, and nothing they send elsewhere leaves with it. *)

From S2P Require Import Prelude Codec JsVal Json Runtime Forms ConsoleTypes ConsoleService ConsoleRoutes Session LayergPortal Guards Router Frame Application RowDeletion Searches Accounts Lists AccountPage AccountTabs GroupPage StorageObject Chat Matches Status Config ApiExplorer Collections CollectionPage Calls Resolvers Console.

(** A component without requests of its own. *)
#[local] Instance blank_page : Component unit Empty_set Empty_set Empty_set := {
  resp k := match k with end;
  on_event e := match e with end;
  on_next k := match k with end;
  on_error k := match k with end;
  on_confirm d := match d with end;
  take_until _ := false
}.
Definition blank : page_type := PageType unit Empty_set Empty_set Empty_set (fun _ => blank_page) tt.

Lemma blank_trace (p : Runtime.config unit Empty_set Empty_set) (act : action unit Empty_set Empty_set Empty_set (comp := blank_page)) :
  c_trace (exec p act) = c_trace p.
Proof.
  destruct act as [[]|i f|i e|i v|i]; cbn; [..|done].
  - by destruct (c_pending p !! i) as [[]|].
  - by destruct (c_pending p !! i) as [[]|].
  - by destruct (c_dialogs p !! i) as [[]|].
Qed.

Section catalogue.
Context {validators : Validators} (cp : ConfigParams).
(** The parameters in the text of a query; the clock, the time zone, the locale and the
    address of the router, see their pages. *)
Context (query_of : string -> query_params) (now : string) (days_ago : num -> option string) (localeLe : string -> string -> bool) (router_url : string).

(** The components by the names of the routes.  The others send nothing themselves: the tabs
    of an account that share its machine, the pages that only show what was loaded, and the
    frame and the login page, which are parts of [Application]. *)
Definition entries : list (string * page_type) := [
  ("StatusComponent", PageType _ _ _ _ (fun _ => Status.page cp) Status.new_state);
  ("ConfigComponent", PageType _ _ _ _ (fun _ => Config.page localeLe cp) Config.new_state);
  ("UsersComponent", PageType _ _ _ _ (fun _ => Users.page cp)
     (Users.mkState (JStr "") (JStr "") [] Und Und Und Und Und false));
  ("CollectionsComponent", PageType _ _ _ _ (fun e => Listing.page cp (portal e) (storage e)) Listing.new_state);
  ("CreateCollectionComponent", PageType _ _ _ _ (fun e => Create.page (portal e) (storage e)) Create.new_state);
  ("CollectionDetail1Component", PageType _ _ _ _ (fun e => CollectionPage.page (portal e) (storage e)) CollectionPage.new_state);
  ("StorageListComponent", PageType _ _ _ _ (fun _ => Storage.page cp) Storage.new_state);
  ("StorageObjectComponent", PageType _ _ _ _ (fun _ => StorageObject.page cp) StorageObject.new_state);
  ("LeaderboardsComponent", PageType _ _ _ _ (fun _ => Leaderboards.page cp) Leaderboards.new_state);
  ("LeaderboardComponent", PageType _ _ _ _ (fun _ => LeaderboardPage.page cp) (LeaderboardPage.mkState (JStr "") Und));
  ("LeaderboardRecordsComponent", PageType _ _ _ _ (fun _ => Records.page cp) Records.new_state);
  ("MatchesComponent", PageType _ _ _ _ (fun _ => Matches.page cp) Matches.new_state);
  ("GroupListComponent", PageType _ _ _ _ (fun _ => GroupsList.page cp) GroupsList.new_state);
  ("GroupComponent", PageType _ _ _ _ (fun _ => GroupArea.page cp) (GroupArea.mkState (JStr "") Und));
  ("GroupDetailsComponent", PageType _ _ _ _ (fun _ => Details.page cp) Details.new_state);
  ("GroupMembersComponent", PageType _ _ _ _ (fun _ => Members.page cp router_url) Members.new_state);
  ("AccountListComponent", PageType _ _ _ _ (fun _ => Accounts.page cp) Accounts.new_state);
  ("AccountComponent", PageType _ _ _ _ (fun _ => Area.page cp now) (Area.mkState (JStr "") Und 0 ∅ ∅));
  ("WalletComponent", PageType _ _ _ _ (fun _ => Wallet.page cp) Wallet.new_state);
  ("FriendsComponent", PageType _ _ _ _ (fun _ => Friends.page cp) (Friends.mkState (JStr "") Und []));
  ("GroupsComponent", PageType _ _ _ _ (fun _ => UserGroups.page cp) (UserGroups.mkState (JStr "") Und []));
  ("NotificationsComponent", PageType _ _ _ _ (fun _ => Notifications.page cp) LookupList.new_state);
  ("PurchasesComponent", PageType _ _ _ _ (fun _ => Purchases.page cp) LookupList.new_state);
  ("SubscriptionsComponent", PageType _ _ _ _ (fun _ => Subscriptions.page cp) LookupList.new_state);
  ("ApiExplorerComponent", PageType _ _ _ _ (fun _ => ApiExplorer.page cp) ApiExplorer.new_state);
  ("ChatListComponent", PageType _ _ _ _ (fun _ => Chat.page cp days_ago) Chat.new_state);
  ("NotificationsListComponent", PageType _ _ _ _ (fun _ => Notifications.page cp) LookupList.new_state);
  ("PurchasesListComponent", PageType _ _ _ _ (fun _ => Purchases.page cp) LookupList.new_state);
  ("SubscriptionsListComponent", PageType _ _ _ _ (fun _ => Subscriptions.page cp) LookupList.new_state)].

Definition loads (e : surroundings) (q : string) : activation -> activation -> list request :=
  entering cp (portal e) (storage e) (query_of q).

(** What a page or a resolver may ask. *)
Definition allowed (e : surroundings) : request -> Prop := page_request cp (portal e) (storage e).

Definition catalogue (name : string) : page_type := default blank (assoc name entries).

Section console.
Context {urls : UrlSerializer} (env : environment) (origin : string).

Lemma login_is_silent e (p : Runtime.config (pt_state (catalogue "LoginComponent")) (pt_sub (catalogue "LoginComponent")) (pt_dialog (catalogue "LoginComponent")))
    (act : action _ _ _ _ (comp := pt_component (catalogue "LoginComponent") e)) :
  issued catalogue (Running catalogue "LoginComponent" p) act = [].
Proof.
  unfold issued. pose proof (blank_trace p act) as E. cbn in *. rewrite drop_ge; [done|]. by rewrite E.
Qed.

Lemma blank_asks P : Asks P blank_page.
Proof. constructor; by intros []. Qed.

Lemma catalogue_asks name e : Asks (allowed e) (pt_component (catalogue name) e).
Proof.
  assert (H : Forall (fun x => Asks (allowed e) (pt_component x.2 e)) entries).
  { unfold entries, allowed. repeat (apply Forall_cons; split; [cbn; first [typeclasses eauto|apply (asks_weaken (service_request cp)); [typeclasses eauto|by left] ]|]). constructor. }
  unfold catalogue. induction H as [|[n T] l HT _ IH]; cbn [assoc]; [apply blank_asks|]. by case_match.
Qed.

Lemma loads_no_login e q act : loads e q act login_activation = [].
Proof. unfold loads. by rewrite entering_login. Qed.

Lemma loads_allowed e q act act' : Forall (allowed e) (loads e q act act').
Proof. unfold loads. apply entering_asked. Qed.

End console.
End catalogue.

(** ** The properties at work *)

#[local] Existing Instance angular.
#[local] Existing Instance simple_urls.

Abbreviation test_catalogue := (catalogue dev_config "170" (fun _ => None) (fun _ _ => true) "").

Abbreviation test_loads := (loads dev_config (fun _ => ∅)).

(** The administrator opens a page of the frame. *)
Definition opened_app (name : string) : app := open_at (localStorage test_browser) (at_path [name] "").
Definition opened_console (name : string) : console test_catalogue :=
  mkConsole test_catalogue (opened_app name) (map (created_page test_catalogue) (shown (opened_app name))) []
    (loading environment_dev "" test_loads hub [] (opened_app name)).

Lemma opened_console_runs name component :
  opened environment_dev (localStorage test_browser) (at_path [name] "") (opened_app name) ->
  shown (opened_app name) = [("BaseComponent", []); (component, [name])] ->
  signing_in (opened_app name) = [] -> signing_out (opened_app name) = [] ->
  orderly (opened_app name) /\
  console_runs environment_dev dev_config "" test_catalogue test_loads orderly (localStorage test_browser) (at_path [name] "") (opened_console name) /\
  live test_catalogue (opened_console name) !! 1 = Some (created_page test_catalogue (component, [name])).
Proof.
  intros Ho Hs E1 E2. assert (H : orderly (opened_app name)).
  { unfold orderly. rewrite Hs, E1, E2. split; [by intros [=]|split; constructor]. }
  split_and_all; [exact H|by apply console_opened|]. cbn [opened_console live]. by rewrite Hs.
Qed.

(** The list of collections asks the portal for its rows. *)
Definition listed_console : console test_catalogue :=
  run_page environment_dev "" test_catalogue true 1 (created_page test_catalogue ("CollectionsComponent", ["collections"]))
    (e := around hub (opened_app "collections"))
    (User (comp := Listing.page dev_config hub (localStorage test_browser)) (Listing.Init ∅)) (opened_console "collections").

Lemma listed_console_runs : console_runs environment_dev dev_config "" test_catalogue test_loads orderly
  (localStorage test_browser) (at_path ["collections"] "") listed_console.
Proof.
  destruct (opened_console_runs "collections" "CollectionsComponent") as (H1 & H2 & H3); [by split; vm_compute|vm_compute; reflexivity..|].
  apply (console_moves _ _ _ _ _ _ _ _ (opened_console "collections")); [exact H2| |exact H1].
  by apply (step_page _ _ _ _ _ true 1 (created_page test_catalogue ("CollectionsComponent", ["collections"])) hub).
Qed.

